(* ===== verification/_CoqProject ===== *)
-Q . S2P
Prelude.v
RustStr.v
BTree.v
Float64.v
Json.v
Wire.v
Profile.v
CommonEbpf.v
Occurrence.v
Timestamps.v
NetworkObs.v
ContainerObs.v
StorageObs.v
PmcObs.v
Metrics.v
Httpc.v
AgentConfig.v
Heartbeat.v
Carriers.v
Poll.v
Registration.v
Sink.v
HttpSink.v
ControllerSink.v
Delivery.v
WorkerSteps.v
Controller.v
NetAddr.v
ControllerHttp.v
Link.v
Setup.v
Drain.v
Kernel.v
KernelNetwork.v
KernelStorage.v
KernelContainer.v
KernelPmc.v
KernelDrain.v
Otlp.v
AgentMain.v
AgentRun.v
Agent.v
Cli.v
Archive.v
Watch.v
System.v
AgentLink.v
Node.v
KernelSystem.v
