(* ===== verification/Prelude.v ===== *)
(** * Tapio: a verification development

    Tapio watches a node with eBPF programs, classifies what they report, writes
    each anomaly down as an occurrence and hands it to sinks, one of which is a
    central controller that also distributes configuration.  This library
    models the Rust crates and the eBPF programs under [src/] as executable
    definitions and proves what makes them correct.  A definition keeps the name of the function, the
    method or the type it translates; where two crates use one name, the file's
    subject is added ([profile_validate], [http_send], [mcp_handle_request]).

    ** The program and where it is modelled

    - [tapio-wire] (the agent/controller protocol): [Wire], over [Json]
      ([serde_json::Value]) and [BTree] ([BTreeMap]).
    - [tapio-profile] (evidence profiles: validation, compilation): [Profile],
      over [Float64] ([f64] as IEEE binary64).
    - [tapio-common]: [CommonEbpf] (the records shared with the kernel, byte by
      byte), [Occurrence] (the document, its builders, validation and
      timestamps), [Sink] (the trait, with the sinks that are simple).
    - The eBPF programs ([ebpf/*.c] and their headers): [Kernel] (what they
      share: the configuration snapshot, the counters, the ring buffer, and the
      contract of a program), [KernelNetwork], [KernelStorage],
      [KernelContainer], [KernelPmc] (the hooks of each over its own maps).
    - [tapio-agent]:
      [NetworkObs], [ContainerObs], [StorageObs], [PmcObs] ([observer/*.rs]:
      classification and the occurrence of an anomaly); [Setup] ([run] of the
      four observers up to the loop: loading, configuring, attaching, the
      processor's counters); [Drain] (the loop itself: ticks, loss counters,
      draining the ring buffer);
      [Carriers] ([observer/mod.rs]: the fan-out of a configuration to the
      kernel maps, as whole operations and as interleaved steps); [Metrics];
      [Httpc] ([httpc.rs]); [AgentConfig] ([config.rs]); [Poll]
      ([controller.rs]: the conditional poll); [Heartbeat]; [Registration]
      ([registration.rs]: hello and heartbeat as a state machine);
      [Timestamps], [ControllerSink] ([sink/controller.rs]: conversion, queue,
      splitting, retries), [Delivery] (the same file: the sink and its worker
      thread interleaved), [WorkerSteps] (the same worker, one exchange at a
      time); [HttpSink]; [Otlp], over [NetAddr] (the parser of
      [SocketAddr]); [AgentMain] ([main.rs]: arguments, sinks, start of the
      tasks); [AgentRun] (the same file, from the spawning of the tasks to the
      end of the process: the signal, the join set, the metrics server beside
      it); [Agent] (the bodies of the tasks over the cells they share).
    - [tapio-controller]: [Controller] (the state behind the endpoints, profile
      loading, status) and [ControllerHttp] (the router's handlers, the
      arguments).
    - [tapio-cli]: [Cli].
    - [KernelDrain], [Archive], [System] and [KernelSystem]: theorems that join
      the parts; [Watch]: the tool's watch and the file sink as two processes
      over one directory; [Link]: a network between an agent and the controller's
      handlers that loses, delays and cuts, with the controller sink on it;
      [AgentLink]: the running agent on it; [Node]: that agent with the
      controller sink among its sinks and the sink's worker as one more thread.
    - [Prelude] and [RustStr]: results and [?], machine integers, lists; the
      operations of [str] the program calls.

    ** How they interact, and how the model says it

    The kernel programs judge what their hooks see by the configuration in
    their map and submit records; the observers drain the ring buffer and call a sink; the fan-out
    sink calls every sink; the controller sink converts occurrences to wire
    events and posts them; registration, heartbeat and poll are three more
    clients of the controller; the poll writes what it accepts to the kernel
    maps through the carriers.  What one part promises to another is a class:
    [Net] (connect, write, read), [TcpAddr] (connect to a socket address),
    [Host] (clock, output, files), [FileStore] (files that can be read back), [Env] (the calls an observer makes while it
    drains), [Reporter] (what the drain loop does with an anomaly), [Observer]
    (what the loop asks of one of the four observers), [Sink] (the trait),
    [Program] and [Contract] (what a kernel program does and promises to
    userspace), [Reads] (an observer that reads a program's format), [Aya] (what
    the set-up of an observer calls), [Bodies] (what the run-time asks of the
    tasks), [Outside] (what the tasks ask of the node).
    Theorems about a client hold for every instance; concrete instances
    ([scripted_net], [refusing_net], [clock_host], [memory_host],
    [answering_addr], [clock_env], [multi_reporter]) evaluate the examples and the witnesses.

    State is passed explicitly: a handler takes the state and returns it with
    its answer.  Errors are values of [result].  A panic is [None] or a
    constructor of its own where the code can reach one.  A [u64] counter is a
    [Z] with [wrap64] or [sat_add64] where the code wraps or saturates, and an
    [f64] is a [spec_float] rounded as the hardware rounds.  Code that runs
    under one lock for its whole length is one step; [Carriers] releases its
    lock before it writes, so there the operations are also split into steps
    ([cstep]) and proved over every interleaving ([rtc cstep]).  The hooks of a
    kernel program, the evictions of its maps and the writes of its
    configuration are the steps of [krun], in any order.  The file sink opens,
    writes some bytes and writes some more while the watch lists a directory and
    reads its files one by one ([desk_step]).  The agent's process
    is stepped by events ([process_step]): a task enters its loop, takes a turn,
    leaves it, is joined, in any order the run-time may choose; a turn of a task
    is one step over the cells all tasks share ([Cells]).  The worker of the
    controller sink takes a whole turn at a time in [Delivery] and [Link], where
    it alone uses the network; in [Node] each of its batches and each attempt at
    one is a step of its own ([WorkerSteps]), and the other tasks, their
    exchanges included, fall between any two of them.  The network of [Link]
    is a plan, one fate for each exchange: unreachable, broken off, answer lost,
    answer cut after any number of bytes, answered; other clients are served in
    between; theorems quantify over the plan.

    Third-party code is an argument of the definitions that use it: the JSON,
    YAML and TOML codecs, SHA-256, protobuf, gzip, the instants of chrono, the
    file system, the wall clock and the network; what the kernel's helpers
    return to one invocation is [bpf_ctx].  A theorem that relies on it
    says what it relies on as a hypothesis, and its witness instantiates it.
    Whether a write of a kernel map succeeds is decided call by call
    ([writable], by the number of the call and the descriptor); the maps keep
    what they hold and the outcome of every call ([Carriers.Maps]).  What
    [serde_json] reads back is what was written but for the floats, whose last
    digit may differ, and a null in an optional field
    ([Json.json_like], [Archive.reads_as], [System.batch_reads]); on [Link]'s
    network a batch is taken to be read back as it was sent, since nothing there
    looks at a float.

    ** What is shown

    - In the kernel.  A program never runs before its configuration is in its
      map ([Setup.attached_after_config]); whatever it submits is a record of its
      format judged by an installed configuration
      ([KernelDrain.records_are_judged]); slow and failed I/O is reported
      exactly, with the latency since the issue on record
      ([KernelStorage.storage_latency_exact]),
      round-trip spikes against the mean of the samples
      ([KernelNetwork.rtt_spikes_exact]; each takes as many establishments as
      the profile asks for samples, [KernelNetwork.spike_needs_establishments]), the ends of processes by
      their status ([KernelContainer.exits_reported],
      [KernelContainer.oom_kills_reported]).
    - From the kernel to the observer.  The records the observer looked at, by
      a log of its calls ([Drain.logged_observer]), and those still in the ring
      are those submitted, and what the ring refused is what is exported as lost
      ([KernelDrain.observer_accounts_for_kernel]).
    - The path of an event.  A record of the kernel is read as it was written
      ([CommonEbpf.event_layouts_agree]); each drained record is counted once,
      as an event or as a malformed record ([Drain.run_conserves]), and
      the loss counter ends at the kernel's own total ([Drain.lost_counter_is_kernel_total]); an anomaly of
      any observer is a valid occurrence, and converts to a valid wire event
      with the same instant ([System.anomalies_are_deliverable], by
      [Timestamps.rfc3339_round_trip]); a buffer is split in order, nothing lost,
      within the limit of events and, but for a batch of a single event, within
      the reckoned limit of bytes ([ControllerSink.split_events_spec]), and the
      controller accepts every batch in full whose body is within its own limit
      ([System.agent_batches_are_accepted]).  Over any interleaving of the sink
      and its worker every event is in a numbered batch, still on its way or
      counted as dropped ([Delivery.delivery_conserves_events]); a turn of the
      worker is what its single steps come to ([WorkerSteps.turn_by_steps]).
    - The path of a file.  What the file sink writes the command line tool loads
      ([Archive.filed_occurrences_are_loaded]), and its watch, however its
      readings fall among the sink's writes, prints what matches its filters once
      or warns that it has skipped it ([Watch.watch_prints_once_or_warns]).
    - Across the network.  A batch the agent counts as sent has arrived, in order
      and under its number, at most four times, and the controller counts what
      arrives ([Link.batches_arrive]); when no answer is lost the books of both
      sides add up to the events offered ([Link.ledger_balances]); the
      controller's report of an agent's sequence is what arrived
      ([Link.sequence_reported]).
    - The running agent.  It runs until it is told to stop
      ([AgentRun.agent_runs_until_signalled]) and stops when it is
      ([AgentRun.agent_stops_when_signalled]); at every moment the maps, the
      identity, the thresholds and the next heartbeat agree
      ([Agent.running_config_is_reported]); over any network it runs nothing but
      its controller's configuration ([AgentLink.only_controllers_config]) and
      converges to it with one answered poll and one heartbeat that arrives
      ([AgentLink.agent_converges]).
    - The whole node ([Node]), the four observers, the worker and the
      controller's tasks over one network: every anomaly counted is in a batch
      that arrived, counted as dropped or still on its way, whatever is lost
      ([Node.no_anomaly_is_lost_silently]), between two attempts of a batch too; with no answer lost the counters of
      agent and controller balance ([Node.anomaly_counters_balance]); once the
      network works again all that is on its way arrives
      ([Node.waiting_is_delivered]); and the agent waits for the worker before it exits, a bounded number of steps
      ([Node.exit_waits_for_worker]).
    - The path of a profile.  Validation accepts exactly the profiles it is
      meant to ([Profile.profile_validate_spec]); compilation keeps every
      threshold exactly ([Profile.validated_profile_compiles_exactly]); what
      the controller loads is what the kernel programs enforce
      ([KernelSystem.profile_governs_kernel]), an agent's first poll puts it
      in every map ([KernelSystem.first_poll_installs_profile]), and slow I/O judged by it reaches
      the controller ([KernelSystem.slow_io_reaches_controller]).
    - Agreement.  A conditional poll answers 304 exactly when the agent has it
      ([System.conditional_poll_agrees]); a poll applies only an answer that
      passes every check, and every such answer
      ([Poll.poll_tick_applies_only_acceptable]); however registrations and
      updates interleave and whichever writes fail, a map never holds anything
      that was not installed, and each one whose registration no update
      overlapped ends up to date, or its last write failed
      ([Carriers.carriers_settle]).
    - State machines and bounds: the controller's books
      ([Controller.controller_invariant]),
      registration and its backoff, the cgroup cache.
    - Failures: a failing sink does not stop the others; the HTTP sink and the
      exporter account for every occurrence of a session, and every error they
      return is that of a batch they lost ([HttpSink.http_sink_accounts],
      [Otlp.otlp_sink_accounts]); every request of the MCP server is answered,
      unless it asks for an instant that does not exist ([Cli.mcp_answers_requests]).
    - The command line: arguments round trip, every valid file is loaded, the
      filters and the totals of [health] are what they say.
    - Defects the model exhibits, stated as they are:
      [AgentRun.unsignalled_return_hangs], and the lemmas
      [KernelStorage.ambiguity_is_forgotten], [Setup.pmc_blind_without_stalls],
      [Carriers.carriers_race], [Setup.disabled_observer_stays_registered],
      [Poll.poll_marks_failed_fanout_applied] and
      [Otlp.otlp_host_name_never_connects].

    ** Fuel and bounds

    Recursion is structural wherever the code's loop is over data.  Where it is
    not, the fuel is computed from the input and is enough: [dec] takes one
    unit per binary digit ([RustStr.dec_fuel]); the argument loop one per
    argument, and each pass uses up at least one ([AgentMain.parse_loop_fuel]);
    the unescaper of [Metrics] the length of its string.  [send_attempts] and
    [export_attempts] recurse on the code's own number of attempts, and
    [drain_loop] on the code's cap of records per tick.  The loops that run
    until shutdown (drain, poll, registration, the metrics server, the CLI's
    watch) are functions of the list of ticks or events they are given, and
    theorems about them quantify over that list.  The stop of the process is
    bounded by a measure ([AgentRun.steps_left]), not by fuel.

    ** Not modelled

    The crate aya and the raw system calls behind [Setup], [Carriers] and
    [Drain] (what they answer is an argument); the verifier, the helpers of the
    kernel and the concurrency of invocations of one program on several CPUs,
    which are taken one at a time; the capacity of the ring buffer and of the
    hash maps, whose refusals and evictions are inputs; the codecs and other
    crates named above, axum's extraction and serialization, clap's parser,
    and the scheduler of the run-time, whose choices are the order of events.
    A turn of a task in [process_step] is one step, although the run-time has
    several threads: within a turn the one place where two tasks work on the
    same state outside a lock, the writes of [register] and [update_all], is
    taken apart in [Carriers] alone.  In [link_exchange] a request the
    controller receives is processed before the client's exchange ends; one that
    arrives after the client has given up is not modelled, and a body beyond
    the controller's limit is one of the refusals [extract] may make (its limit is
    [json_body]).  A write to the standard output that fails half way through a
    turn of the watch does not keep the lines before it.  Locks are never
    poisoned: no code panics with one held.

    ** Further work

    Invocations of one kernel program interleaved on several CPUs; counts of
    anomalies per kind over a whole run. *)
From Stdlib Require Export ZArith Lia Bool Ascii.
From stdpp Require Export base tactics option list strings.

Declare Scope tapio_scope.
Delimit Scope tapio_scope with tapio.
Global Open Scope Z_scope.
Global Open Scope tapio_scope.

(** * Results: Rust's [Result<T, E>] and the [?] operator *)

Inductive result (A E : Type) : Type :=
| Ok (val : A)
| Err (err : E).
Arguments Ok {A E} val.
Arguments Err {A E} err.

Definition rbind {A B E : Type} (r : result A E) (k : A -> result B E) : result B E :=
  match r with
  | Ok a => k a
  | Err e => Err e
  end.

Definition map_err {A E F : Type} (f : E -> F) (r : result A E) : result A F :=
  match r with
  | Ok a => Ok a
  | Err e => Err (f e)
  end.

Definition rmap {A B E : Type} (f : A -> B) (r : result A E) : result B E :=
  match r with
  | Ok a => Ok (f a)
  | Err e => Err e
  end.

Definition ok_or {A E : Type} (o : option A) (e : E) : result A E :=
  match o with
  | Some a => Ok a
  | None => Err e
  end.

Definition result_ok {A E : Type} (r : result A E) : option A :=
  match r with
  | Ok a => Some a
  | Err _ => None
  end.

Definition is_ok {A E : Type} (r : result A E) : bool :=
  match r with
  | Ok _ => true
  | Err _ => false
  end.

Notation "x <-? e ;; k" := (rbind e (fun x => k))
  (at level 100, e at next level, right associativity) : tapio_scope.
Notation "e ;;? k" := (rbind e (fun _ : unit => k))
  (at level 100, right associativity) : tapio_scope.

#[export] Instance result_eq_dec {A E : Type} `{EqDecision A} `{EqDecision E} :
  EqDecision (result A E).
Proof. solve_decision. Defined.

Lemma Ok_inj {A E : Type} (a b : A) : @Ok A E a = Ok b -> a = b.
Proof. congruence. Qed.

Lemma map_err_Ok {A E F : Type} (f : E -> F) (r : result A E) (a : A) :
  map_err f r = Ok a <-> r = Ok a.
Proof. destruct r; simpl; naive_solver. Qed.

Lemma rbind_Ok {A B E : Type} (r : result A E) (k : A -> result B E) (b : B) :
  rbind r k = Ok b <-> exists a, r = Ok a /\ k a = Ok b.
Proof. destruct r as [a|e]; simpl; split; [eauto| |discriminate|]; naive_solver. Qed.

Lemma rbind_Err {A B E : Type} (r : result A E) (k : A -> result B E) (e : E) :
  rbind r k = Err e <-> r = Err e \/ exists a, r = Ok a /\ k a = Err e.
Proof. destruct r as [a|e']; simpl; naive_solver. Qed.

Lemma unit_rbind_Ok {B E : Type} (r : result unit E) (k : result B E) (b : B) :
  rbind r (fun _ => k) = Ok b <-> r = Ok tt /\ k = Ok b.
Proof. destruct r as [[]|e]; simpl; naive_solver. Qed.

(** Splits every hypothesis that says a chain of [?] steps ended well. *)
Ltac split_ok :=
  repeat match goal with
  | H : rbind _ _ = Ok _ |- _ => apply rbind_Ok in H as (? & ? & H)
  | u : unit |- _ => destruct u
  end.

(** * Machine integers: values of [Z] with the width's behaviour written out *)

Definition U8_MAX : Z := 2 ^ 8 - 1.
Definition U16_MAX : Z := 2 ^ 16 - 1.
Definition U32_MAX : Z := 2 ^ 32 - 1.
Definition U64_MAX : Z := 2 ^ 64 - 1.
Definition I64_MAX : Z := 2 ^ 63 - 1.
Definition I64_MIN : Z := - 2 ^ 63.
Definition I32_MAX : Z := 2 ^ 31 - 1.
Definition I32_MIN : Z := - 2 ^ 31.

(** [+], [*] in a release build wrap; [wrapping_*] always do. *)
Definition wrap32 (z : Z) : Z := z mod 2 ^ 32.
Definition wrap64 (z : Z) : Z := z mod 2 ^ 64.

Definition sat_add64 (a b : Z) : Z := Z.min (a + b) U64_MAX.
Definition sat_sub64 (a b : Z) : Z := Z.max (a - b) 0.
Definition sat_mul64 (a b : Z) : Z := Z.min (a * b) U64_MAX.

Definition is_u32 (z : Z) : Prop := 0 <= z <= U32_MAX.
Definition is_u64 (z : Z) : Prop := 0 <= z <= U64_MAX.

Ltac unfold_width :=
  unfold is_u32, is_u64, sat_add64, sat_sub64, sat_mul64, wrap32, wrap64,
    U8_MAX, U16_MAX, U32_MAX, U64_MAX, I64_MAX, I64_MIN, I32_MAX, I32_MIN in *.

(** Linear arithmetic with the width constants unfolded. *)
Ltac width_lia := unfold_width; lia.

(** A property of a small range, by evaluation. *)
Lemma small_range (P : Z -> bool) (hi : Z) :
  forallb (fun i => P (Z.of_nat i)) (seq 0 (S (Z.to_nat hi))) = true -> forall z, 0 <= z <= hi -> P z = true.
Proof.
  intros H z Hz. rewrite List.forallb_forall in H. specialize (H (Z.to_nat z)).
  rewrite Z2Nat.id in H by lia. apply H, in_seq. lia.
Qed.

Lemma wrap32_small (z : Z) : is_u32 z -> wrap32 z = z.
Proof. intros H. unfold wrap32. apply Z.mod_small. width_lia. Qed.

Lemma wrap64_small (z : Z) : is_u64 z -> wrap64 z = z.
Proof. intros H. unfold wrap64. apply Z.mod_small. width_lia. Qed.

Lemma wrap64_range (z : Z) : is_u64 (wrap64 z).
Proof. unfold_width. pose proof (Z.mod_pos_bound z (2 ^ 64)). lia. Qed.

Lemma wrap64_add_l (a b : Z) : wrap64 (wrap64 a + b) = wrap64 (a + b).
Proof. unfold wrap64. by rewrite Z.add_mod_idemp_l. Qed.

Lemma wrap64_cong (a b c : Z) : wrap64 a = wrap64 b -> wrap64 (a + c) = wrap64 (b + c).
Proof. intros E. by rewrite <- wrap64_add_l, E, wrap64_add_l. Qed.

Lemma wrap64_idem (a : Z) : wrap64 (wrap64 a) = wrap64 a.
Proof. unfold wrap64. by apply Z.mod_mod. Qed.

Lemma wrap64_eq (a b : Z) : wrap64 a = wrap64 b <-> exists k, a = b + k * 2 ^ 64.
Proof.
  unfold wrap64. split.
  - intros E. exists (a / 2 ^ 64 - b / 2 ^ 64).
    pose proof (Z_div_mod_eq_full a (2 ^ 64)). pose proof (Z_div_mod_eq_full b (2 ^ 64)). lia.
  - intros [k ->]. by rewrite Z_mod_plus_full.
Qed.

Lemma sat_add64_small (a b : Z) : a + b <= U64_MAX -> sat_add64 a b = a + b.
Proof. width_lia. Qed.

Lemma sat_mul64_small (a b : Z) : a * b <= U64_MAX -> sat_mul64 a b = a * b.
Proof. width_lia. Qed.

(** * Durations and instants, in nanoseconds *)

Definition ns_per_sec : Z := 1000000000.
Definition from_secs (s : Z) : Z := s * ns_per_sec.
Definition from_millis (ms : Z) : Z := ms * 1000000.
Definition as_secs (ns : Z) : Z := ns / ns_per_sec.

(** * Lists *)

Definition zlen {A : Type} (l : list A) : Z := Z.of_nat (length l).

Lemma zlen_nil {A : Type} : zlen (@nil A) = 0.
Proof. reflexivity. Qed.

Lemma zlen_cons {A : Type} (x : A) (l : list A) : zlen (x :: l) = 1 + zlen l.
Proof. unfold zlen. simpl. lia. Qed.

Lemma zlen_app {A : Type} (l k : list A) : zlen (l ++ k) = zlen l + zlen k.
Proof. unfold zlen. rewrite length_app. lia. Qed.

Lemma zlen_nonneg {A : Type} (l : list A) : 0 <= zlen l.
Proof. unfold zlen. lia. Qed.

Definition is_empty {A : Type} (l : list A) : bool :=
  match l with
  | [] => true
  | _ => false
  end.

Lemma is_empty_true {A : Type} (l : list A) : is_empty l = true <-> l = [].
Proof. destruct l; simpl; naive_solver. Qed.

Lemma is_empty_false {A : Type} (l : list A) : is_empty l = false <-> l <> [].
Proof. destruct l; simpl; naive_solver. Qed.

(** [for x in l { f(x)? }]: the first error stops the loop. *)
Fixpoint try_for_each {A E : Type} (f : A -> result unit E) (l : list A) : result unit E :=
  match l with
  | [] => Ok tt
  | x :: l' => f x ;;? try_for_each f l'
  end.

Lemma try_for_each_Ok {A E : Type} (f : A -> result unit E) (l : list A) :
  try_for_each f l = Ok tt <-> Forall (fun x => f x = Ok tt) l.
Proof.
  induction l as [|x l IH]; simpl; [naive_solver|].
  rewrite unit_rbind_Ok, IH, Forall_cons. done.
Qed.

(** The error is the one of the first element that fails. *)
Lemma try_for_each_Err {A E : Type} (f : A -> result unit E) (l : list A) (e : E) :
  try_for_each f l = Err e <->
  exists l1 x l2, l = l1 ++ x :: l2 /\ Forall (fun y => f y = Ok tt) l1 /\ f x = Err e.
Proof.
  induction l as [|y l IH]; simpl.
  - split; [discriminate|]. intros (l1 & x & l2 & H & _). by destruct l1.
  - rewrite rbind_Err. split.
    + intros [Hy|([] & Hy & Hl)]; [by exists [], y, l|].
      apply IH in Hl as (l1 & x & l2 & -> & H1 & Hx). exists (y :: l1), x, l2. auto.
    + intros (l1 & x & l2 & H & H1 & Hx). destruct l1 as [|y' l1]; simplify_eq/=; [auto|].
      apply Forall_cons in H1 as [Hy H1]. right. exists tt. split; [done|].
      apply IH. eauto 10.
Qed.

Create HintDb tapio.
#[export] Hint Resolve zlen_nonneg wrap64_range : tapio.
Create Rewrite HintDb tapio.
#[export] Hint Rewrite @zlen_nil @zlen_cons @zlen_app : tapio.
