(* ===== verification/RustStr.v ===== *)
(** The operations of Rust's [str] and [String] and the integer parsers and
    printers of the standard library that the program calls.  A string is its
    UTF-8 bytes; [len] is the number of bytes. *)
From Stdlib Require Import String.
From S2P Require Import Prelude.

Local Open Scope Z_scope.

#[global] Arguments String.append !_ _ / : simpl nomatch.

Definition byte_val (c : ascii) : Z := Z.of_nat (nat_of_ascii c).
Definition chr (z : Z) : ascii := ascii_of_nat (Z.to_nat z).

Definition dquote : ascii := chr 34.
Definition quote_str : string := String dquote EmptyString.
Definition newline : ascii := chr 10.
Definition newline_str : string := String newline EmptyString.

Definition slen (s : string) : Z := Z.of_nat (String.length s).

Definition str_empty (s : string) : bool :=
  match s with
  | EmptyString => true
  | _ => false
  end.

(** * White space ([char::is_whitespace], the Unicode property White_Space) *)

Definition ws1 (a : ascii) : bool :=
  let v := byte_val a in ((9 <=? v) && (v <=? 13)) || (v =? 32).

(** The two-byte encodings: U+0085, U+00A0. *)
Definition ws2 (a b : ascii) : bool :=
  (byte_val a =? 194) && ((byte_val b =? 133) || (byte_val b =? 160)).

(** The three-byte encodings: U+1680, U+2000 to U+200A, U+2028, U+2029, U+202F,
    U+205F, U+3000. *)
Definition ws3 (a b c : ascii) : bool :=
  let x := byte_val a in
  let y := byte_val b in
  let z := byte_val c in
  ((x =? 225) && (y =? 154) && (z =? 128))
  || ((x =? 226) && (y =? 128)
      && (((128 <=? z) && (z <=? 138)) || (z =? 168) || (z =? 169) || (z =? 175)))
  || ((x =? 226) && (y =? 129) && (z =? 159))
  || ((x =? 227) && (y =? 128) && (z =? 128)).

Fixpoint trim_start (s : string) : string :=
  match s with
  | String a s1 =>
      if ws1 a then trim_start s1
      else match s1 with
           | String b s2 =>
               if ws2 a b then trim_start s2
               else match s2 with
                    | String c s3 => if ws3 a b c then trim_start s3 else s
                    | EmptyString => s
                    end
           | EmptyString => s
           end
  | EmptyString => EmptyString
  end.

Fixpoint rev_append (s acc : string) : string :=
  match s with
  | EmptyString => acc
  | String a s' => rev_append s' (String a acc)
  end.
Definition str_rev (s : string) : string := rev_append s EmptyString.

(** [trim_start] on the reversed bytes, last byte of a character first. *)
Fixpoint trim_rev (s : string) : string :=
  match s with
  | String a s1 =>
      if ws1 a then trim_rev s1
      else match s1 with
           | String b s2 =>
               if ws2 b a then trim_rev s2
               else match s2 with
                    | String c s3 => if ws3 c b a then trim_rev s3 else s
                    | EmptyString => s
                    end
           | EmptyString => s
           end
  | EmptyString => EmptyString
  end.

Definition trim (s : string) : string := str_rev (trim_rev (str_rev (trim_start s))).

(** [value.trim().is_empty()] *)
Definition blank (s : string) : bool := str_empty (trim s).

(** * Searching and splitting *)

Fixpoint starts_with (s p : string) : bool :=
  match p, s with
  | EmptyString, _ => true
  | String b p', String a s' => Ascii.eqb a b && starts_with s' p'
  | String _ _, EmptyString => false
  end.

Fixpoint strip_prefix (s p : string) : option string :=
  match p, s with
  | EmptyString, _ => Some s
  | String b p', String a s' => if Ascii.eqb a b then strip_prefix s' p' else None
  | String _ _, EmptyString => None
  end.

Definition strip_suffix (s p : string) : option string :=
  str_rev <$> strip_prefix (str_rev s) (str_rev p).

Fixpoint contains_char (c : ascii) (s : string) : bool :=
  match s with
  | EmptyString => false
  | String a s' => Ascii.eqb a c || contains_char c s'
  end.

(** [s.contains(p)] for a string pattern. *)
Fixpoint contains_str (s p : string) : bool :=
  starts_with s p ||
  match s with
  | EmptyString => false
  | String _ s' => contains_str s' p
  end.

(** [s.split_once(c)]: around the first [c]. *)
Fixpoint split_once (c : ascii) (s : string) : option (string * string) :=
  match s with
  | EmptyString => None
  | String a s' =>
      if Ascii.eqb a c then Some (EmptyString, s')
      else match split_once c s' with
           | Some (l, r) => Some (String a l, r)
           | None => None
           end
  end.

(** [s.rsplit_once(c)]: around the last [c]. *)
Fixpoint rsplit_once (c : ascii) (s : string) : option (string * string) :=
  match s with
  | EmptyString => None
  | String a s' =>
      match rsplit_once c s' with
      | Some (l, r) => Some (String a l, r)
      | None => if Ascii.eqb a c then Some (EmptyString, s') else None
      end
  end.

(** [s.split(c)]: at least one piece, possibly empty. *)
Fixpoint split (c : ascii) (s : string) : list string :=
  match s with
  | EmptyString => [EmptyString]
  | String a s' =>
      if Ascii.eqb a c then EmptyString :: split c s'
      else match split c s' with
           | w :: ws => String a w :: ws
           | [] => [String a EmptyString]
           end
  end.

(** [s.splitn(n, c)], for n at least one. *)
Fixpoint splitn (n : nat) (c : ascii) (s : string) : list string :=
  match n with
  | O | S O => [s]
  | S n' =>
      match split_once c s with
      | Some (l, r) => l :: splitn n' c r
      | None => [s]
      end
  end.

Definition strip_cr (s : string) : string := default s (strip_suffix s (String (chr 13) EmptyString)).

(** [s.lines()]: pieces ended by a newline, a carriage return before it removed;
    no empty piece after a final newline. *)
Fixpoint lines_of (ws : list string) : list string :=
  match ws with
  | [] => []
  | [w] => if str_empty w then [] else [w]
  | w :: ws' => strip_cr w :: lines_of ws'
  end.
Definition lines (s : string) : list string := lines_of (split newline s).

Fixpoint trim_rev_char (c : ascii) (s : string) : string :=
  match s with
  | EmptyString => EmptyString
  | String a s' => if Ascii.eqb a c then trim_rev_char c s' else s
  end.

(** [s.trim_end_matches(c)] *)
Definition trim_end_matches (c : ascii) (s : string) : string :=
  str_rev (trim_rev_char c (str_rev s)).

Definition lower_ascii (a : ascii) : ascii :=
  let v := byte_val a in if (65 <=? v) && (v <=? 90) then chr (v + 32) else a.

Fixpoint to_ascii_lowercase (s : string) : string :=
  match s with
  | EmptyString => EmptyString
  | String a s' => String (lower_ascii a) (to_ascii_lowercase s')
  end.

Fixpoint str_take (n : nat) (s : string) : string :=
  match n, s with
  | O, _ | _, EmptyString => EmptyString
  | S n', String a s' => String a (str_take n' s')
  end.

Fixpoint str_drop (n : nat) (s : string) : string :=
  match n, s with
  | O, _ => s
  | _, EmptyString => EmptyString
  | S n', String _ s' => str_drop n' s'
  end.

(** [s.is_char_boundary(i)]: byte [i] is no continuation byte, or [i] is the
    length. *)
Fixpoint is_char_boundary (n : nat) (s : string) : bool :=
  match n, s with
  | O, EmptyString => true
  | O, String a _ => (byte_val a <? 128) || (192 <=? byte_val a)
  | S n', EmptyString => false
  | S n', String _ s' => is_char_boundary n' s'
  end.

(** [xs.join(sep)] *)
Fixpoint join (sep : string) (l : list string) : string :=
  match l with
  | [] => EmptyString
  | [s] => s
  | s :: l' => s +:+ sep +:+ join sep l'
  end.

(** * Decimal integers *)

Definition digit_char (d : Z) : ascii := chr (48 + d).
Definition is_digit (a : ascii) : bool := (48 <=? byte_val a) && (byte_val a <=? 57).
Definition digit_val (a : ascii) : Z := byte_val a - 48.

Fixpoint dec_go (fuel : nat) (n : Z) (acc : string) : string :=
  match fuel with
  | O => acc
  | S fuel' =>
      let acc' := String (digit_char (n mod 10)) acc in
      if n <? 10 then acc' else dec_go fuel' (n / 10) acc'
  end.

(** Display of an unsigned integer; a number below [2 ^ k] has at most [k]
    digits, so the fuel does not run out (Lemma [dec_go_spec]). *)
Definition dec (n : Z) : string := dec_go (S (Z.to_nat (Z.log2 n))) n EmptyString.

(** Display of a signed integer. *)
Definition z_to_string (z : Z) : string :=
  if z <? 0 then "-" +:+ dec (- z) else dec z.

Fixpoint zeros (n : nat) : string :=
  match n with
  | O => EmptyString
  | S n' => String "0" (zeros n')
  end.

(** [{:0w}] of an unsigned integer. *)
Definition dec_pad (w : nat) (n : Z) : string :=
  let s := dec n in zeros (w - String.length s) +:+ s.

Fixpoint parse_digits (s : string) (acc : Z) : option Z :=
  match s with
  | EmptyString => Some acc
  | String a s' => if is_digit a then parse_digits s' (acc * 10 + digit_val a) else None
  end.

Definition parse_nonempty (s : string) : option Z :=
  if str_empty s then None else parse_digits s 0.

Definition in_range (lo hi : Z) (o : option Z) : option Z :=
  match o with
  | Some z => if (lo <=? z) && (z <=? hi) then Some z else None
  | None => None
  end.

(** [s.parse::<uN>()], with the type's maximum: one leading plus is accepted. *)
Definition parse_unsigned (max : Z) (s : string) : option Z :=
  in_range 0 max
    (match s with
     | String a s' => if Ascii.eqb a "+" then parse_nonempty s' else parse_digits s 0
     | EmptyString => None
     end).

(** [s.parse::<iN>()] *)
Definition parse_signed (lo hi : Z) (s : string) : option Z :=
  in_range lo hi
    (match s with
     | String a s' =>
         if Ascii.eqb a "+" then parse_nonempty s'
         else if Ascii.eqb a "-" then Z.opp <$> parse_nonempty s'
         else parse_digits s 0
     | EmptyString => None
     end).

(** * Debug *)

(** [{value:?}] of a string: the quotes, the backslash and the control
    characters are escaped ([char::escape_debug]); the characters beyond ASCII
    are taken to be printable. *)
Definition hex_nibble (d : Z) : ascii := if d <? 10 then chr (48 + d) else chr (87 + d).

Definition debug_char (a : ascii) : string :=
  let backslash c := String (chr 92) (String c EmptyString) in
  let n := byte_val a in
  if n =? 34 then backslash a
  else if n =? 92 then backslash a
  else if n =? 0 then backslash "0"%char
  else if n =? 9 then backslash "t"%char
  else if n =? 10 then backslash "n"%char
  else if n =? 13 then backslash "r"%char
  else if (n <? 32) || (n =? 127) then
    String (chr 92) ("u{" +:+ (if n <? 16 then EmptyString else String (hex_nibble (n / 16)) EmptyString) +:+
                     String (hex_nibble (n mod 16)) "}")
  else String a EmptyString.

Fixpoint debug_escape (s : string) : string :=
  match s with
  | EmptyString => EmptyString
  | String a s' => debug_char a +:+ debug_escape s'
  end.
Definition quoted (s : string) : string := quote_str +:+ debug_escape s +:+ quote_str.

(** [{value:?}] of an [Option<String>] and of a [Vec<String>]. *)
Definition debug_option (o : option string) : string :=
  match o with Some s => "Some(" +:+ quoted s +:+ ")" | None => "None" end.
Definition debug_list (l : list string) : string := "[" +:+ join ", " (map quoted l) +:+ "]".

(** * Lemmas on bytes *)

Lemma byte_val_range (a : ascii) : 0 <= byte_val a < 256.
Proof. unfold byte_val. pose proof (nat_ascii_bounded a). lia. Qed.

Lemma byte_val_chr (z : Z) : 0 <= z < 256 -> byte_val (chr z) = z.
Proof. intros H. unfold byte_val, chr. rewrite nat_ascii_embedding; lia. Qed.

Lemma digit_char_is_digit (d : Z) : 0 <= d < 10 -> is_digit (digit_char d) = true.
Proof. intros H. unfold is_digit, digit_char. rewrite byte_val_chr; lia. Qed.

Lemma digit_val_char (d : Z) : 0 <= d < 10 -> digit_val (digit_char d) = d.
Proof. intros H. unfold digit_val, digit_char. rewrite byte_val_chr; lia. Qed.

Lemma str_app_assoc (a b c : string) : (a +:+ b) +:+ c = a +:+ (b +:+ c).
Proof. induction a; simpl; congruence. Qed.

Lemma str_app_nil_r (a : string) : a +:+ EmptyString = a.
Proof. induction a; simpl; congruence. Qed.

Lemma str_length_app (a b : string) :
  String.length (a +:+ b) = (String.length a + String.length b)%nat.
Proof. induction a; simpl; congruence. Qed.

Lemma slen_app (a b : string) : slen (a +:+ b) = slen a + slen b.
Proof. unfold slen. rewrite str_length_app. lia. Qed.

Lemma rev_append_app (s acc : string) : rev_append s acc = str_rev s +:+ acc.
Proof.
  unfold str_rev. revert acc. induction s as [|a s IH]; intros acc; [done|]. simpl.
  rewrite (IH (String a EmptyString)), (IH (String a acc)), str_app_assoc. done.
Qed.

Lemma str_rev_app (a b : string) : str_rev (a +:+ b) = str_rev b +:+ str_rev a.
Proof.
  induction a as [|x a IH]; simpl; [by rewrite str_app_nil_r|].
  unfold str_rev in *. simpl.
  rewrite (rev_append_app (a +:+ b)), (rev_append_app a). unfold str_rev.
  rewrite IH, str_app_assoc. done.
Qed.

Lemma str_rev_cons (a : ascii) (s : string) :
  str_rev (String a s) = str_rev s +:+ String a EmptyString.
Proof. unfold str_rev. simpl. by rewrite rev_append_app. Qed.

Lemma str_rev_involutive (s : string) : str_rev (str_rev s) = s.
Proof.
  induction s as [|a s IH]; [done|].
  rewrite str_rev_cons, str_rev_app, IH. done.
Qed.

Lemma str_app_inj_l (a b c : string) : a +:+ b = a +:+ c -> b = c.
Proof. induction a; simpl; naive_solver. Qed.

(** * Decimal round trips *)

Lemma div10_range (n b : Z) : 0 <= n < 10 * b -> 0 <= n / 10 < b.
Proof. intros H. split; [apply Z.div_pos; lia|]. apply Z.div_lt_upper_bound; lia. Qed.

Lemma dec_go_spec (fuel : nat) (n : Z) (acc : string) :
  (0 < fuel)%nat -> 0 <= n < 10 ^ Z.of_nat fuel ->
  exists k : nat, (0 < k)%nat /\ n < 10 ^ Z.of_nat k /\ (n <> 0 -> 10 ^ (Z.of_nat k - 1) <= n) /\
    (n = 0 -> k = 1%nat) /\
    String.length (dec_go fuel n acc) = (k + String.length acc)%nat /\
    forall a, parse_digits (dec_go fuel n acc) a = parse_digits acc (a * 10 ^ Z.of_nat k + n).
Proof.
  revert n acc. induction fuel as [|fuel IH]; intros n acc Hf Hn; [lia|]. simpl.
  assert (Hd : 0 <= n mod 10 < 10) by (apply Z.mod_pos_bound; lia).
  destruct (n <? 10) eqn:Hlt.
  - exists 1%nat. simpl. repeat split; try lia.
    intros a. rewrite digit_char_is_digit, digit_val_char by lia.
    rewrite Z.mod_small by lia. f_equal; lia.
  - assert (Hq : 0 <= n / 10 < 10 ^ Z.of_nat fuel).
    { rewrite Nat2Z.inj_succ, Z.pow_succ_r in Hn by lia.
      apply div10_range; lia. }
    assert (Hf' : (0 < fuel)%nat) by (destruct fuel; simpl in *; lia).
    destruct (IH (n / 10) (String (digit_char (n mod 10)) acc) Hf' Hq)
      as (k & Hk & Hup & Hlow & _ & Hlen & Hp).
    pose proof (Z.div_mod n 10). exists (S k). rewrite Hlen. simpl String.length.
    rewrite Nat2Z.inj_succ, Z.pow_succ_r by lia.
    replace (Z.succ (Z.of_nat k) - 1) with (Z.succ (Z.of_nat k - 1)) by lia.
    rewrite Z.pow_succ_r by lia.
    repeat split; try lia.
    intros a. rewrite Hp. simpl. rewrite digit_char_is_digit, digit_val_char by lia. f_equal. lia.
Qed.

Lemma dec_fuel (n : Z) : 0 <= n -> 0 <= n < 10 ^ Z.of_nat (S (Z.to_nat (Z.log2 n))).
Proof.
  intros H. split; [done|].
  rewrite Nat2Z.inj_succ, Z2Nat.id by apply Z.log2_nonneg.
  destruct (Z.eq_dec n 0) as [->|Hn]; [reflexivity|].
  eapply Z.lt_le_trans; [apply Z.log2_spec; lia|].
  apply Z.pow_le_mono_l. pose proof (Z.log2_nonneg n). lia.
Qed.

Lemma dec_spec (n : Z) :
  0 <= n ->
  exists k : nat, (0 < k)%nat /\ n < 10 ^ Z.of_nat k /\ (n <> 0 -> 10 ^ (Z.of_nat k - 1) <= n) /\
    (n = 0 -> k = 1%nat) /\
    String.length (dec n) = k /\
    forall a, parse_digits (dec n) a = Some (a * 10 ^ Z.of_nat k + n).
Proof.
  intros H. destruct (dec_go_spec (S (Z.to_nat (Z.log2 n))) n EmptyString) as (k & A & B & C & D & E & F);
    [lia|by apply dec_fuel|].
  exists k. repeat split; auto. rewrite <- (Nat.add_0_r k). exact E.
Qed.

Lemma parse_digits_head (s : string) (a : ascii) (n z : Z) :
  parse_digits (String a s) n = Some z -> is_digit a = true.
Proof. simpl. by destruct (is_digit a). Qed.

Lemma in_range_Some (lo hi z : Z) (o : option Z) :
  in_range lo hi o = Some z <-> o = Some z /\ lo <= z <= hi.
Proof.
  destruct o as [x|]; simpl; [|naive_solver].
  destruct ((lo <=? x) && (x <=? hi)) eqn:E; split; intros H; simplify_eq.
  - split; [done|lia].
  - naive_solver.
  - destruct H as [[= ->] ?]. lia.
Qed.

(** Printing and parsing an unsigned integer gives it back. *)
Lemma parse_unsigned_dec (max n : Z) :
  0 <= n <= max -> parse_unsigned max (dec n) = Some n.
Proof.
  intros H. destruct (dec_spec n) as (k & Hk & _ & _ & _ & Hlen & Hp); [lia|].
  specialize (Hp 0). unfold parse_unsigned.
  destruct (dec n) as [|a s] eqn:E; [simpl in Hlen; lia|].
  pose proof (parse_digits_head _ _ _ _ Hp) as Hd.
  destruct (Ascii.eqb a "+") eqn:Ea.
  { apply Ascii.eqb_eq in Ea. by subst. }
  rewrite Hp. apply in_range_Some. split; [f_equal; lia|lia].
Qed.

Lemma parse_unsigned_range (max n : Z) (s : string) :
  parse_unsigned max s = Some n -> 0 <= n <= max.
Proof. unfold parse_unsigned. rewrite in_range_Some. tauto. Qed.

(** * Fixed-width decimals *)

Fixpoint fix_dec (w : nat) (n : Z) : string :=
  match w with
  | O => EmptyString
  | S w' => fix_dec w' (n / 10) +:+ String (digit_char (n mod 10)) EmptyString
  end.

Lemma fix_dec_length (w : nat) (n : Z) : String.length (fix_dec w n) = w.
Proof.
  revert n. induction w as [|w IH]; intros n; [done|]. simpl.
  rewrite str_length_app, IH. simpl. lia.
Qed.

Lemma zeros_app (a b : nat) : zeros (a + b) = zeros a +:+ zeros b.
Proof. induction a; simpl; congruence. Qed.

Lemma zeros_length (n : nat) : String.length (zeros n) = n.
Proof. induction n; simpl; congruence. Qed.

Lemma fix_dec_zero (w : nat) : fix_dec w 0 = zeros w.
Proof.
  induction w as [|w IH]; [done|]. simpl. change (0 / 10) with 0.
  rewrite IH.
  change (String (digit_char (0 mod 10)) EmptyString) with (zeros 1).
  rewrite <- zeros_app, Nat.add_comm. done.
Qed.

Lemma dec_go_acc (fuel : nat) (n : Z) (acc : string) :
  dec_go fuel n acc = dec_go fuel n EmptyString +:+ acc.
Proof.
  revert n acc. induction fuel as [|fuel IH]; intros n acc; [done|]. simpl.
  destruct (n <? 10); [done|].
  rewrite IH, (IH _ (String _ EmptyString)), str_app_assoc. done.
Qed.

Lemma dec_go_fix (fuel w : nat) (n : Z) :
  (0 < fuel)%nat -> 0 <= n < 10 ^ Z.of_nat fuel -> n < 10 ^ Z.of_nat w -> (0 < w)%nat ->
  zeros (w - String.length (dec_go fuel n EmptyString)) +:+ dec_go fuel n EmptyString = fix_dec w n.
Proof.
  revert n w. induction fuel as [|fuel IH]; intros n w Hf Hn Hw Hpos; [lia|]. simpl dec_go.
  destruct w as [|w]; [lia|]. simpl fix_dec.
  destruct (n <? 10) eqn:Hlt.
  - rewrite Z.div_small, fix_dec_zero by lia. simpl. by rewrite Nat.sub_0_r.
  - assert (Hq : 0 <= n / 10 < 10 ^ Z.of_nat fuel).
    { rewrite Nat2Z.inj_succ, Z.pow_succ_r in Hn by lia.
      apply div10_range; lia. }
    assert (Hqw : n / 10 < 10 ^ Z.of_nat w).
    { rewrite Nat2Z.inj_succ, Z.pow_succ_r in Hw by lia. apply Z.div_lt_upper_bound; lia. }
    rewrite dec_go_acc, str_length_app, <- str_app_assoc. f_equal.
    replace (S w - (_ + _))%nat with (w - String.length (dec_go fuel (n / 10) EmptyString))%nat
      by (simpl; lia).
    apply IH; [destruct fuel; simpl in *; lia|done|done|destruct w; simpl in *; lia].
Qed.

Lemma dec_pad_fix (w : nat) (n : Z) :
  (0 < w)%nat -> 0 <= n < 10 ^ Z.of_nat w -> dec_pad w n = fix_dec w n.
Proof.
  intros Hw Hn. unfold dec_pad, dec. apply dec_go_fix; [lia| |lia|done]. apply dec_fuel. lia.
Qed.

Lemma parse_digits_app (s t : string) (a : Z) :
  parse_digits (s +:+ t) a =
  match parse_digits s a with Some b => parse_digits t b | None => None end.
Proof.
  revert a. induction s as [|c s IH]; intros a; [done|]. simpl.
  destruct (is_digit c); auto.
Qed.

Lemma parse_fix_dec (w : nat) (n a : Z) :
  0 <= n < 10 ^ Z.of_nat w -> parse_digits (fix_dec w n) a = Some (a * 10 ^ Z.of_nat w + n).
Proof.
  revert n a. induction w as [|w IH]; intros n a Hn.
  { simpl in *. f_equal. lia. }
  rewrite Nat2Z.inj_succ, Z.pow_succ_r in * by lia.
  simpl. rewrite parse_digits_app, IH.
  - simpl. pose proof (Z.mod_pos_bound n 10). pose proof (Z.div_mod n 10).
    rewrite digit_char_is_digit, digit_val_char by lia. f_equal. lia.
  - apply div10_range; lia.
Qed.

(** * Splitting printed text *)

Lemma contains_char_app (c : ascii) (s t : string) :
  contains_char c (s +:+ t) = contains_char c s || contains_char c t.
Proof. induction s as [|a s IH]; simpl; [done|]. by rewrite IH, orb_assoc. Qed.

Lemma split_once_app (c : ascii) (s t : string) :
  contains_char c s = false -> split_once c (s +:+ String c t) = Some (s, t).
Proof.
  induction s as [|a s IH]; simpl.
  - by rewrite Ascii.eqb_refl.
  - intros [-> Hs]%orb_false_iff. by rewrite IH.
Qed.

Lemma split_once_none (c : ascii) (s : string) :
  contains_char c s = false -> split_once c s = None.
Proof.
  induction s as [|a s IH]; simpl; [done|]. intros [-> Hs]%orb_false_iff. by rewrite IH.
Qed.

Lemma split_none (c : ascii) (s : string) : contains_char c s = false -> split c s = [s].
Proof.
  induction s as [|a s IH]; simpl; [done|]. intros [-> Hs]%orb_false_iff. by rewrite IH.
Qed.

Lemma split_app (c : ascii) (s t : string) :
  contains_char c s = false -> split c (s +:+ String c t) = s :: split c t.
Proof.
  induction s as [|a s IH]; simpl.
  - by rewrite Ascii.eqb_refl.
  - intros [-> Hs]%orb_false_iff. by rewrite IH.
Qed.

Lemma split_app_sep (c : ascii) (s t : string) :
  contains_char c s = false -> split c (s +:+ String c EmptyString +:+ t) = s :: split c t.
Proof. apply split_app. Qed.

Lemma strip_prefix_app (p s : string) : strip_prefix (p +:+ s) p = Some s.
Proof. induction p as [|a p IH]; simpl; [by destruct s|]. by rewrite Ascii.eqb_refl. Qed.

Lemma strip_prefix_extends (s t p u : string) :
  strip_prefix s p = Some u -> strip_prefix (s +:+ t) p = Some (u +:+ t).
Proof.
  revert s. induction p as [|b p IH]; intros s; simpl; [destruct s; intros [= <-]; by destruct t|].
  destruct s as [|a s]; [done|]. simpl. destruct (Ascii.eqb a b); [apply IH|done].
Qed.

Lemma strip_prefix_length (s p u : string) :
  strip_prefix s p = Some u -> String.length s = (String.length p + String.length u)%nat.
Proof.
  revert s. induction p as [|b p IH]; intros s; simpl; [by destruct s; intros [= <-]|].
  destruct s as [|a s]; [done|]. simpl. destruct (Ascii.eqb a b); [|done]. intros Hs%IH. lia.
Qed.

Lemma str_take_drop (n : nat) (s : string) : str_take n s +:+ str_drop n s = s.
Proof. revert s. induction n as [|n IH]; intros [|a s]; simpl; try done. by rewrite IH. Qed.

Lemma str_take_all (s : string) : str_take (String.length s) s = s.
Proof. induction s as [|a s IH]; [done|]. simpl. by rewrite IH. Qed.

Lemma str_drop_all (s : string) : str_drop (String.length s) s = EmptyString.
Proof. by induction s. Qed.

Lemma str_take_length (a b : string) : str_take (String.length a) (a +:+ b) = a.
Proof. induction a as [|c a IH]; [by destruct b|]. simpl. by rewrite IH. Qed.

Lemma str_drop_length (a b : string) : str_drop (String.length a) (a +:+ b) = b.
Proof. by induction a. Qed.

Lemma str_take_app (n : nat) (s : string) : exists t, str_take n s +:+ t = s.
Proof.
  revert s. induction n as [|n IH]; intros s; simpl; [by exists s|].
  destruct s as [|a s]; [by exists EmptyString|]. destruct (IH s) as [t Ht]. exists t. simpl. by rewrite Ht.
Qed.

Lemma strip_suffix_app (s p : string) : strip_suffix (s +:+ p) p = Some s.
Proof.
  unfold strip_suffix. rewrite str_rev_app, strip_prefix_app. simpl. by rewrite str_rev_involutive.
Qed.

Lemma digit_no_char (c : ascii) (d : Z) :
  is_digit c = false -> 0 <= d < 10 -> Ascii.eqb (digit_char d) c = false.
Proof.
  intros Hc Hd. apply Ascii.eqb_neq. intros <-. by rewrite digit_char_is_digit in Hc.
Qed.

Lemma fix_dec_no_char (c : ascii) (w : nat) (n : Z) :
  is_digit c = false -> contains_char c (fix_dec w n) = false.
Proof.
  intros Hc. revert n. induction w as [|w IH]; intros n; simpl; [done|].
  rewrite contains_char_app, IH. simpl.
  rewrite digit_no_char; [done|done|]. apply Z.mod_pos_bound. lia.
Qed.

Lemma parse_digits_unsigned (max n : Z) (s : string) :
  s <> EmptyString -> parse_digits s 0 = Some n -> 0 <= n <= max -> parse_unsigned max s = Some n.
Proof.
  intros Hs Hp Hn. unfold parse_unsigned. destruct s as [|a s]; [done|].
  pose proof (parse_digits_head _ _ _ _ Hp) as Hd.
  assert (Ascii.eqb a "+" = false) as ->.
  { apply Ascii.eqb_neq. intros ->. vm_compute in Hd. done. }
  rewrite Hp. by apply in_range_Some.
Qed.

Lemma parse_digits_signed (lo hi n : Z) (s : string) :
  s <> EmptyString -> parse_digits s 0 = Some n -> lo <= n <= hi -> parse_signed lo hi s = Some n.
Proof.
  intros Hs Hp Hn. unfold parse_signed. destruct s as [|a s]; [done|].
  pose proof (parse_digits_head _ _ _ _ Hp) as Hd.
  assert (Ascii.eqb a "+" = false) as ->.
  { apply Ascii.eqb_neq. intros ->. vm_compute in Hd. done. }
  assert (Ascii.eqb a "-" = false) as ->.
  { apply Ascii.eqb_neq. intros ->. vm_compute in Hd. done. }
  rewrite Hp. by apply in_range_Some.
Qed.

Lemma fix_dec_nonempty (w : nat) (n : Z) : (0 < w)%nat -> fix_dec w n <> EmptyString.
Proof. intros Hw H. pose proof (fix_dec_length w n). rewrite H in *. simpl in *. lia. Qed.

Lemma parse_unsigned_fix_dec (max : Z) (w : nat) (n : Z) :
  (0 < w)%nat -> 0 <= n < 10 ^ Z.of_nat w -> n <= max -> parse_unsigned max (fix_dec w n) = Some n.
Proof.
  intros Hw Hn Hm. apply parse_digits_unsigned; [by apply fix_dec_nonempty| |lia].
  rewrite parse_fix_dec by done. f_equal.
Qed.

Lemma parse_signed_fix_dec (lo hi : Z) (w : nat) (n : Z) :
  (0 < w)%nat -> 0 <= n < 10 ^ Z.of_nat w -> lo <= n <= hi ->
  parse_signed lo hi (fix_dec w n) = Some n.
Proof.
  intros Hw Hn Hm. apply parse_digits_signed; [by apply fix_dec_nonempty| |lia].
  rewrite parse_fix_dec by done. f_equal.
Qed.

(** * Trimming text without white space at its ends *)

(** A visible ASCII character. *)
Definition visible (a : ascii) : bool := (33 <=? byte_val a) && (byte_val a <? 127).

Lemma visible_ws (a b c : ascii) :
  visible a = true ->
  ws1 a = false /\ ws2 a b = false /\ ws3 a b c = false /\ ws2 b a = false /\ ws3 c b a = false.
Proof. unfold visible, ws1, ws2, ws3. lia. Qed.

Lemma trim_start_visible (a : ascii) (s : string) :
  visible a = true -> trim_start (String a s) = String a s.
Proof.
  intros Ha. cbn [trim_start]. destruct (visible_ws a a a Ha) as (-> & _).
  destruct s as [|b s]; [done|]. destruct (visible_ws a b b Ha) as (_ & -> & _).
  destruct s as [|c s]; [done|]. by destruct (visible_ws a b c Ha) as (_ & _ & -> & _).
Qed.

Lemma trim_rev_visible (a : ascii) (s : string) :
  visible a = true -> trim_rev (String a s) = String a s.
Proof.
  intros Ha. cbn [trim_rev]. destruct (visible_ws a a a Ha) as (-> & _).
  destruct s as [|b s]; [done|]. destruct (visible_ws a b b Ha) as (_ & _ & _ & -> & _).
  destruct s as [|c s]; [done|]. by destruct (visible_ws a b c Ha) as (_ & _ & _ & _ & ->).
Qed.

Lemma trim_visible_ends (a b : ascii) (s : string) :
  visible a = true -> visible b = true ->
  trim (String a (s +:+ String b EmptyString)) = String a (s +:+ String b EmptyString).
Proof.
  intros Ha Hb. unfold trim. rewrite trim_start_visible by done.
  rewrite str_rev_cons, str_rev_app. change (str_rev (String b EmptyString)) with (String b EmptyString).
  cbn [String.append]. rewrite trim_rev_visible by done.
  change (String b (str_rev s +:+ String a EmptyString))
    with (String b EmptyString +:+ (str_rev s +:+ String a EmptyString)).
  by rewrite !str_rev_app, str_rev_involutive.
Qed.

(** A text that starts with a visible character is not blank. *)
Lemma visible_not_blank (a : ascii) (s : string) : visible a = true -> blank (String a s) = false.
Proof.
  intros Ha. unfold blank, trim. rewrite trim_start_visible, str_rev_cons by done.
  assert (Hr : forall n u, (String.length u <= n)%nat -> exists t, trim_rev (u +:+ String a EmptyString) = t +:+ String a EmptyString).
  { induction n as [|n IH]; intros [|x u] Hl; try (exists EmptyString; by apply trim_rev_visible).
    { simpl in Hl. lia. }
    simpl in Hl. cbn [String.append trim_rev]. destruct (ws1 x); [apply IH; lia|].
    destruct u as [|y u]; cbn [String.append].
    { destruct (visible_ws a x x Ha) as (_ & _ & _ & _ & _).
      assert (ws2 a x = false) as -> by (unfold visible, ws2 in *; lia). by exists (String x EmptyString). }
    simpl in Hl. destruct (ws2 y x); [apply IH; lia|].
    destruct u as [|z u]; cbn [String.append].
    { assert (ws3 a y x = false) as -> by (unfold visible, ws3 in *; lia).
      by exists (String x (String y EmptyString)). }
    simpl in Hl. destruct (ws3 z y x); [apply IH; lia|].
    by exists (String x (String y (String z u))). }
  destruct (Hr _ (str_rev s) (Nat.le_refl _)) as [t ->].
  rewrite str_rev_app. change (str_rev (String a EmptyString)) with (String a EmptyString). done.
Qed.

Lemma digit_visible (a : ascii) : is_digit a = true -> visible a = true.
Proof. unfold is_digit, visible. lia. Qed.

Lemma dec_head (n : Z) : 0 <= n -> exists a s, dec n = String a s /\ is_digit a = true.
Proof.
  intros Hn. destruct (dec_spec n Hn) as (k & Hk & _ & _ & _ & Hl & Hp).
  destruct (dec n) as [|a s]; [simpl in Hl; lia|]. exists a, s. split; [done|].
  exact (parse_digits_head _ _ _ _ (Hp 0)).
Qed.

Lemma dec_not_blank (n : Z) : 0 <= n -> blank (dec n) = false.
Proof. intros Hn. destruct (dec_head n Hn) as (a & s & -> & Ha). by apply visible_not_blank, digit_visible. Qed.
