(* ===== verification/BTree.v ===== *)
(** [std::collections::BTreeMap]: entries in the order of their keys.  The key
    types of the program are strings and lists of strings, both compared
    byte by byte as Rust does. *)
From Stdlib Require Import String.
From S2P Require Import Prelude RustStr.

Local Open Scope Z_scope.

(** * Ordered keys *)

Class OrdKey (K : Type) := {
  kcmp : K -> K -> comparison;
  kcmp_eq : forall x y, kcmp x y = Eq <-> x = y;
  kcmp_opp : forall x y, kcmp y x = CompOpp (kcmp x y);
  kcmp_trans : forall x y z, kcmp x y = Lt -> kcmp y z = Lt -> kcmp x z = Lt;
}.

Definition klt {K : Type} `{OrdKey K} (x y : K) : Prop := kcmp x y = Lt.

Lemma kcmp_refl {K : Type} `{OrdKey K} (x : K) : kcmp x x = Eq.
Proof. by apply kcmp_eq. Qed.

Lemma kcmp_gt {K : Type} `{OrdKey K} (x y : K) : kcmp x y = Gt <-> klt y x.
Proof. unfold klt. rewrite (kcmp_opp x y). destruct (kcmp x y); simpl; naive_solver. Qed.

#[export] Instance klt_irrefl {K : Type} `{OrdKey K} : Irreflexive (@klt K _).
Proof. intros x Hx. unfold klt in Hx. by rewrite kcmp_refl in Hx. Qed.

#[export] Instance klt_trans {K : Type} `{OrdKey K} : Transitive (@klt K _).
Proof. intros x y z. apply kcmp_trans. Qed.

(** Lexicographic comparison of two lists. *)
Fixpoint lex_cmp {A : Type} (cmp : A -> A -> comparison) (l k : list A) : comparison :=
  match l, k with
  | [], [] => Eq
  | [], _ :: _ => Lt
  | _ :: _, [] => Gt
  | a :: l', b :: k' =>
      match cmp a b with
      | Eq => lex_cmp cmp l' k'
      | c => c
      end
  end.

Section Lex.
Context {A : Type} (cmp : A -> A -> comparison).
Hypothesis cmp_eq : forall x y, cmp x y = Eq <-> x = y.
Hypothesis cmp_opp : forall x y, cmp y x = CompOpp (cmp x y).
Hypothesis cmp_trans : forall x y z, cmp x y = Lt -> cmp y z = Lt -> cmp x z = Lt.

Lemma lex_cmp_eq (l k : list A) : lex_cmp cmp l k = Eq <-> l = k.
Proof using cmp_eq.
  revert k. induction l as [|a l IH]; intros [|b k]; simpl; try (split; congruence).
  destruct (cmp a b) eqn:E.
  - apply cmp_eq in E as ->. rewrite IH. split; congruence.
  - split; [discriminate|]. intros [= -> ->]. by rewrite (proj2 (cmp_eq b b)) in E.
  - split; [discriminate|]. intros [= -> ->]. by rewrite (proj2 (cmp_eq b b)) in E.
Qed.

Lemma lex_cmp_opp (l k : list A) : lex_cmp cmp k l = CompOpp (lex_cmp cmp l k).
Proof using cmp_opp.
  revert k. induction l as [|a l IH]; intros [|b k]; simpl; auto.
  rewrite (cmp_opp a b). destruct (cmp a b); simpl; auto.
Qed.

Lemma lex_cmp_trans (l k m : list A) :
  lex_cmp cmp l k = Lt -> lex_cmp cmp k m = Lt -> lex_cmp cmp l m = Lt.
Proof using cmp_eq cmp_trans.
  revert k m. induction l as [|a l IH]; intros [|b k] [|c m]; simpl; try done.
  destruct (cmp a b) eqn:E1; try discriminate; destruct (cmp b c) eqn:E2; try discriminate.
  - apply cmp_eq in E1 as ->. apply cmp_eq in E2 as ->.
    rewrite (proj2 (cmp_eq c c)) by done. apply IH.
  - apply cmp_eq in E1 as ->. by rewrite E2.
  - apply cmp_eq in E2 as ->. by rewrite E1.
  - by rewrite (cmp_trans _ _ _ E1 E2).
Qed.
End Lex.

Fixpoint bytes_of (s : string) : list Z :=
  match s with
  | EmptyString => []
  | String a s' => byte_val a :: bytes_of s'
  end.

(** [Ord for str]: the order of the bytes. *)
Definition str_cmp (s t : string) : comparison := lex_cmp Z.compare (bytes_of s) (bytes_of t).
Definition str_lt (s t : string) : Prop := str_cmp s t = Lt.
Definition str_ltb (s t : string) : bool := match str_cmp s t with Lt => true | _ => false end.
Definition str_leb (s t : string) : bool := match str_cmp s t with Gt => false | _ => true end.

Lemma byte_val_inj (a b : ascii) : byte_val a = byte_val b -> a = b.
Proof.
  unfold byte_val. intros H. apply Nat2Z.inj in H.
  by rewrite <- (ascii_nat_embedding a), <- (ascii_nat_embedding b), H.
Qed.

Lemma bytes_of_inj (s t : string) : bytes_of s = bytes_of t -> s = t.
Proof.
  revert t. induction s as [|a s IH]; intros [|b t]; simpl; try done.
  intros [= Ha%byte_val_inj Hs%IH]. by subst.
Qed.

Lemma bytes_of_app (s t : string) : bytes_of (s +:+ t) = bytes_of s ++ bytes_of t.
Proof. induction s as [|a s IH]; simpl; [done|]. by rewrite IH. Qed.

Lemma z_cmp_opp (x y : Z) : Z.compare y x = CompOpp (Z.compare x y).
Proof. apply Z.compare_antisym. Qed.

Lemma z_cmp_trans (x y z : Z) : Z.compare x y = Lt -> Z.compare y z = Lt -> Z.compare x z = Lt.
Proof. rewrite !Z.compare_lt_iff. lia. Qed.

#[export, program] Instance string_ordkey : OrdKey string := { kcmp := str_cmp }.
Next Obligation.
  intros x y. unfold str_cmp. rewrite lex_cmp_eq by apply Z.compare_eq_iff.
  split; [apply bytes_of_inj|by intros ->].
Qed.
Next Obligation. intros x y. apply lex_cmp_opp, z_cmp_opp. Qed.
Next Obligation. intros x y z. apply lex_cmp_trans; [apply Z.compare_eq_iff|apply z_cmp_trans]. Qed.

#[export, program] Instance list_ordkey {A : Type} `{OrdKey A} : OrdKey (list A) :=
  { kcmp := lex_cmp kcmp }.
Next Obligation. intros A ? x y. apply lex_cmp_eq, kcmp_eq. Qed.
Next Obligation. intros A ? x y. apply lex_cmp_opp, kcmp_opp. Qed.
Next Obligation. intros A ? x y z. apply lex_cmp_trans; [apply kcmp_eq|apply kcmp_trans]. Qed.

(** * Maps *)

Notation btree K V := (list (K * V)).

Section BTree.
Context {K V : Type} `{OrdKey K}.

Fixpoint bt_get (k : K) (m : btree K V) : option V :=
  match m with
  | [] => None
  | (k', v) :: m' =>
      match kcmp k k' with
      | Lt => None
      | Eq => Some v
      | Gt => bt_get k m'
      end
  end.

Fixpoint bt_insert (k : K) (v : V) (m : btree K V) : btree K V :=
  match m with
  | [] => [(k, v)]
  | (k', v') :: m' =>
      match kcmp k k' with
      | Lt => (k, v) :: m
      | Eq => (k, v) :: m'
      | Gt => (k', v') :: bt_insert k v m'
      end
  end.

Definition bt_keys (m : btree K V) : list K := map fst m.
Definition bt_values (m : btree K V) : list V := map snd m.

(** The invariant every map built by insertions keeps. *)
Fixpoint bt_wf (m : btree K V) : Prop :=
  match m with
  | [] => True
  | (k, _) :: m' => Forall (klt k) (bt_keys m') /\ bt_wf m'
  end.

Lemma bt_insert_keys (k : K) (v : V) (m : btree K V) (P : K -> Prop) :
  P k -> Forall P (bt_keys m) -> Forall P (bt_keys (bt_insert k v m)).
Proof.
  intros Hk. induction m as [|[k' v'] m IH]; simpl; intros Hm; [auto|].
  apply Forall_cons in Hm as [Hk' Hm]. destruct (kcmp k k'); simpl; auto.
Qed.

Lemma bt_insert_wf (k : K) (v : V) (m : btree K V) : bt_wf m -> bt_wf (bt_insert k v m).
Proof.
  induction m as [|[k' v'] m IH]; simpl; [auto|]. intros [Hk' Hm].
  destruct (kcmp k k') eqn:E; simpl.
  - apply kcmp_eq in E as ->. auto.
  - repeat split; auto. constructor; [done|].
    eapply Forall_impl; [exact Hk'|]. intros x Hx. by eapply klt_trans.
  - split; [|auto]. apply bt_insert_keys; [by apply kcmp_gt|done].
Qed.

Lemma bt_get_insert_eq (k : K) (v : V) (m : btree K V) : bt_get k (bt_insert k v m) = Some v.
Proof.
  induction m as [|[k' v'] m IH]; simpl; [by rewrite kcmp_refl|].
  destruct (kcmp k k') eqn:E; simpl; rewrite ?kcmp_refl, ?E; auto.
Qed.

Lemma bt_get_insert_ne (k j : K) (v : V) (m : btree K V) :
  k <> j -> bt_get j (bt_insert k v m) = bt_get j m.
Proof.
  intros Hne. induction m as [|[k' v'] m IH]; simpl.
  - destruct (kcmp j k) eqn:E; auto. by apply kcmp_eq in E as ->.
  - destruct (kcmp k k') eqn:E; simpl.
    + apply kcmp_eq in E as ->. destruct (kcmp j k') eqn:E'; auto. by apply kcmp_eq in E' as ->.
    + destruct (kcmp j k) eqn:E'; auto.
      * by apply kcmp_eq in E' as ->.
      * rewrite (kcmp_trans j k k'); auto.
    + destruct (kcmp j k'); auto.
Qed.

Lemma bt_get_insert (k j : K) (v : V) (m : btree K V) `{EqDecision K} :
  bt_get j (bt_insert k v m) = if decide (k = j) then Some v else bt_get j m.
Proof.
  case_decide; [subst; apply bt_get_insert_eq|by apply bt_get_insert_ne].
Qed.

Lemma bt_get_In (k : K) (v : V) (m : btree K V) : bt_get k m = Some v -> In (k, v) m.
Proof.
  induction m as [|[k' v'] m IH]; simpl; [done|].
  destruct (kcmp k k') eqn:E; [|done|auto].
  apply kcmp_eq in E as ->. intros [= ->]. auto.
Qed.

Lemma bt_In_get (k : K) (v : V) (m : btree K V) : bt_wf m -> In (k, v) m -> bt_get k m = Some v.
Proof.
  induction m as [|[k' v'] m IH]; simpl; [done|]. intros [Hk' Hm] [[= -> ->]|Hin].
  - by rewrite kcmp_refl.
  - assert (Hlt : klt k' k).
    { rewrite Forall_forall in Hk'. apply Hk', list_elem_of_In, (in_map fst _ _ Hin). }
    apply kcmp_gt in Hlt. rewrite Hlt. auto.
Qed.

Lemma bt_insert_In (k j : K) (v w : V) (m : btree K V) :
  bt_wf m -> In (j, w) (bt_insert k v m) <-> (j = k /\ w = v) \/ (j <> k /\ In (j, w) m).
Proof.
  intros Hm. split.
  - intros Hin. pose proof (bt_In_get j w _ (bt_insert_wf k v m Hm) Hin) as Hg.
    destruct (kcmp k j) eqn:E; [apply kcmp_eq in E as ->; rewrite bt_get_insert_eq in Hg; naive_solver| |].
    all: assert (k <> j) by (intros ->; by rewrite kcmp_refl in E).
    all: rewrite bt_get_insert_ne in Hg by done; right; split; [naive_solver|by apply bt_get_In].
  - intros [[-> ->]|[Hne Hin]]; apply bt_get_In.
    + apply bt_get_insert_eq.
    + rewrite bt_get_insert_ne by naive_solver. by apply bt_In_get.
Qed.
End BTree.

(** The sum of the values after an insertion. *)
Lemma bt_values_sum {K : Type} `{OrdKey K} (k : K) (v : Z) (m : btree K Z) :
  fold_right Z.add 0 (bt_values (bt_insert k v m)) = fold_right Z.add 0 (bt_values m) - default 0 (bt_get k m) + v.
Proof.
  induction m as [|[k' v'] m IH]; simpl; [lia|]. destruct (kcmp k k'); simpl; [lia|lia|].
  unfold bt_values in *. rewrite IH. lia.
Qed.

#[export] Hint Resolve bt_insert_wf : tapio.
Create Rewrite HintDb btree.
#[export] Hint Rewrite @bt_get_insert_eq : btree.
#[export] Hint Rewrite @bt_get_insert_ne using congruence : btree.

(** Fixed-width decimals compare as the numbers they print. *)
Lemma fix_dec_lex (w : nat) (m n : Z) :
  0 <= m < 10 ^ Z.of_nat w -> 0 <= n < 10 ^ Z.of_nat w -> m < n ->
  forall s t, lex_cmp Z.compare (bytes_of (fix_dec w m) ++ s) (bytes_of (fix_dec w n) ++ t) = Lt.
Proof.
  revert m n. induction w as [|w IH]; intros m n Hm Hn Hlt s t; [simpl in *; lia|].
  rewrite Nat2Z.inj_succ, Z.pow_succ_r in Hm, Hn by lia.
  pose proof (div10_range m _ Hm) as Hqm. pose proof (div10_range n _ Hn) as Hqn.
  pose proof (Z.div_mod m 10). pose proof (Z.div_mod n 10).
  pose proof (Z.mod_pos_bound m 10). pose proof (Z.mod_pos_bound n 10).
  simpl fix_dec. rewrite !bytes_of_app, <- !app_assoc. simpl.
  destruct (Z.eq_dec (m / 10) (n / 10)) as [He|Hne]; [|apply IH; lia].
  rewrite He. clear IH. induction (bytes_of (fix_dec w (n / 10))) as [|b bs IHb]; simpl.
  - unfold digit_char. rewrite !byte_val_chr by lia.
    destruct (Z.compare_spec (48 + m mod 10) (48 + n mod 10)); lia || done.
  - rewrite Z.compare_refl. apply IHb.
Qed.
