(* ===== verification/Float64.v ===== *)
(** [f64]: IEEE 754 binary64, as the Standard Library's [spec_float] with
    precision 53 and exponent bound 1024, and the operations, casts and
    formatting of Rust the program uses. *)
From Stdlib Require Import String.
From Corelib Require Import SpecFloat.
From S2P Require Import Prelude RustStr.

Local Open Scope Z_scope.

Notation f64 := spec_float.
Notation prec64 := 53.
Notation emax64 := 1024.

Definition f64_add : f64 -> f64 -> f64 := SFadd prec64 emax64.
Definition f64_sub : f64 -> f64 -> f64 := SFsub prec64 emax64.
Definition f64_mul : f64 -> f64 -> f64 := SFmul prec64 emax64.
Definition f64_div : f64 -> f64 -> f64 := SFdiv prec64 emax64.

(** [<], [>], [>=]: false when an operand is NaN. *)
Definition f64_lt (a b : f64) : bool := SFltb a b.
Definition f64_gt (a b : f64) : bool := SFltb b a.
Definition f64_ge (a b : f64) : bool := SFleb b a.

(** [z as f64]: the nearest value, ties to even. *)
Definition f64_of_Z (z : Z) : f64 := binary_normalize prec64 emax64 z 0 false.

(** The decimal literal [num / den], rounded to nearest. *)
Definition f64_of_ratio (num den : positive) : f64 :=
  let '(mz, ez, lz) := SFdiv_core_binary prec64 emax64 (Zpos num) 0 (Zpos den) 0 in
  binary_round_aux prec64 emax64 false mz ez lz.

Definition f64_is_finite (x : f64) : bool :=
  match x with
  | S754_zero _ | S754_finite _ _ _ => true
  | S754_infinity _ | S754_nan => false
  end.

(** A finite value's magnitude as a fraction. *)
Definition f64_ratio (m : positive) (e : Z) : Z * Z :=
  if 0 <=? e then (Zpos m * 2 ^ e, 1) else (Zpos m, 2 ^ (- e)).

(** [x.round()]: to the nearest integer, halves away from zero. *)
Definition f64_round (x : f64) : f64 :=
  match x with
  | S754_finite s m e =>
      if 0 <=? e then x
      else
        let '(num, den) := f64_ratio m e in
        let r := (2 * num + den) / (2 * den) in
        if r =? 0 then S754_zero s
        else binary_normalize prec64 emax64 (if s then - r else r) 0 s
  | _ => x
  end.

(** [x as uN], [x as iN]: truncation toward zero, saturating, NaN to zero. *)
Definition f64_to_int (lo hi : Z) (x : f64) : Z :=
  match x with
  | S754_nan | S754_zero _ => 0
  | S754_infinity s => if s then lo else hi
  | S754_finite s m e =>
      let '(num, den) := f64_ratio m e in
      let t := num / den in
      Z.max lo (Z.min hi (if s then - t else t))
  end.

Definition f64_as_u32 (x : f64) : Z := f64_to_int 0 U32_MAX x.
Definition f64_as_i64 (x : f64) : Z := f64_to_int I64_MIN I64_MAX x.

(** * Formatting *)

Definition sign_str (s : bool) : string := if s then "-" else EmptyString.

(** Round [num / den] to an integer, ties to even. *)
Definition div_even (num den : Z) : Z :=
  let q := num / den in
  let r := num mod den in
  match Z.compare (2 * r) den with
  | Lt => q
  | Gt => q + 1
  | Eq => if Z.even q then q else q + 1
  end.

(** [{:.p}]: the exact value rounded to [p] decimals. *)
Definition f64_fixed (p : nat) (x : f64) : string :=
  let show (s : bool) (n : Z) :=
    let unit := 10 ^ Z.of_nat p in
    sign_str s +:+ dec (n / unit)
    +:+ (if (p =? 0)%nat then EmptyString else "." +:+ dec_pad p (n mod unit)) in
  match x with
  | S754_nan => "NaN"
  | S754_infinity s => sign_str s +:+ "inf"
  | S754_zero s => show s 0
  | S754_finite s m e =>
      let '(num, den) := f64_ratio m e in
      show s (div_even (num * 10 ^ Z.of_nat p) den)
  end.

(** The decimal exponent [k] with [10 ^ (k - 1) <= num / den < 10 ^ k], found
    by counting from [k]. *)
Fixpoint dec_exp (fuel : nat) (num den k : Z) : Z :=
  match fuel with
  | O => k
  | S fuel' =>
      let up := if 0 <=? k then (num, den * 10 ^ k) else (num * 10 ^ (- k), den) in
      if fst up <? snd up then
        let lo := if 0 <=? k - 1 then (num, den * 10 ^ (k - 1)) else (num * 10 ^ (1 - k), den) in
        if snd lo <=? fst lo then k else dec_exp fuel' num den (k - 1)
      else dec_exp fuel' num den (k + 1)
  end.

(** The value [d * 10 ^ q] as an [f64]. *)
Definition f64_of_decimal (d q : Z) : f64 :=
  match d with
  | Zpos p =>
      if 0 <=? q then f64_of_ratio (p * Z.to_pos (10 ^ q)) 1
      else f64_of_ratio p (Z.to_pos (10 ^ (- q)))
  | _ => S754_zero false
  end.

Definition f64_same (a b : f64) : bool :=
  match SFcompare a b with Some Eq => true | _ => false end.

(** The shortest decimal [d * 10 ^ q] that reads back as [x], the closest one
    of that length: digits are added from one to seventeen. *)
Fixpoint shortest (n p : nat) (x : f64) (num den k : Z) : Z * Z :=
  let q := k - Z.of_nat p in
  let '(a, b) := if 0 <=? q then (num, den * 10 ^ q) else (num * 10 ^ (- q), den) in
  let lo := a / b in
  let hi := lo + 1 in
  let ok_lo := f64_same (f64_of_decimal lo q) x in
  let ok_hi := f64_same (f64_of_decimal hi q) x in
  let near := div_even a b in
  if ok_lo && ok_hi then (near, q)
  else if ok_lo then (lo, q)
  else if ok_hi then (hi, q)
  else match n with
       | O => (near, q)
       | S n' => shortest n' (S p) x num den k
       end.

(** Drops trailing zero digits. *)
Fixpoint strip_zeros (n : nat) (d q : Z) : Z * Z :=
  match n with
  | O => (d, q)
  | S n' => if (d mod 10 =? 0) && negb (d =? 0) then strip_zeros n' (d / 10) (q + 1) else (d, q)
  end.

(** Display of [f64]: shortest digits, no exponent. *)
Definition f64_display (x : f64) : string :=
  match x with
  | S754_nan => "NaN"
  | S754_infinity s => sign_str s +:+ "inf"
  | S754_zero s => sign_str s +:+ "0"
  | S754_finite s m e =>
      let '(num, den) := f64_ratio m e in
      let k := dec_exp 700 num den ((Z.log2 (Zpos m) + e) * 3 / 10) in
      let '(d, q) := shortest 16 1 (S754_finite false m e) num den k in
      let '(d, q) := strip_zeros 17 d q in
      sign_str s +:+
      (if 0 <=? q then dec (d * 10 ^ q)
       else
         let unit := 10 ^ (- q) in
         dec (d / unit) +:+ "." +:+ dec_pad (Z.to_nat (- q)) (d mod unit))
  end.

(** * Checks against values the program prints *)

Example display_100_1 : f64_display (f64_of_ratio 1001 10) = "100.1".
Proof. vm_compute. reflexivity. Qed.

Example display_16_1 : f64_display (f64_of_ratio 161 10) = "16.1".
Proof. vm_compute. reflexivity. Qed.

Example display_neg : f64_display (SFopp (f64_of_ratio 1 10)) = "-0.1".
Proof. vm_compute. reflexivity. Qed.

Example display_20 : f64_display (f64_of_Z 20) = "20".
Proof. vm_compute. reflexivity. Qed.

Example fixed_half : f64_fixed 2 (f64_of_ratio 1 2) = "0.50".
Proof. vm_compute. reflexivity. Qed.

(** * Comparison lemmas *)

Lemma f64_lt_nan_l (x : f64) : f64_lt S754_nan x = false.
Proof. by destruct x. Qed.

Lemma f64_lt_nan_r (x : f64) : f64_lt x S754_nan = false.
Proof. by destruct x as [| | |[]]. Qed.

Lemma f64_to_int_range (lo hi : Z) (x : f64) :
  lo <= 0 <= hi -> lo <= f64_to_int lo hi x <= hi.
Proof.
  intros H. destruct x as [s|[]| |s m e]; simpl; try lia.
  destruct (f64_ratio m e) as [num den]. destruct s; lia.
Qed.
