(* ===== verification/Json.v ===== *)
(** [serde_json::Value] as the program builds and reads it.  The crate is
    locked without [preserve_order], so an object is a [BTreeMap] from keys to
    values and is iterated in the order of its keys. *)
From Stdlib Require Import String.
From S2P Require Import Prelude RustStr BTree Float64.

Local Open Scope Z_scope.

Inductive json : Type :=
| JNull
| JBool (b : bool)
| JInt (z : Z)
| JFloat (f : f64)
| JString (s : string)
| JArray (l : list json)
| JObject (m : list (string * json)).

(** What comes back of a value that is written and parsed again: everything but
    the floats, whose last digit may differ, since the crate is built without
    [float_roundtrip]. *)
Fixpoint json_like (a b : json) {struct a} : Prop :=
  match a with
  | JFloat _ => match b with JFloat _ => True | _ => False end
  | JArray l =>
      match b with
      | JArray l' =>
          (fix all (l l' : list json) := match l, l' with
           | [], [] => True
           | x :: l, y :: l' => json_like x y /\ all l l'
           | _, _ => False
           end) l l'
      | _ => False
      end
  | JObject m =>
      match b with
      | JObject m' =>
          (fix all (m m' : list (string * json)) := match m, m' with
           | [], [] => True
           | (k, x) :: m, (k', y) :: m' => k = k' /\ json_like x y /\ all m m'
           | _, _ => False
           end) m m'
      | _ => False
      end
  | _ => a = b
  end.

(** Induction over the nested lists. *)
Section JsonInd.
Variable P : json -> Prop.
Hypothesis Hnull : P JNull.
Hypothesis Hbool : forall b, P (JBool b).
Hypothesis Hint : forall z, P (JInt z).
Hypothesis Hfloat : forall f, P (JFloat f).
Hypothesis Hstring : forall s, P (JString s).
Hypothesis Harray : forall l, Forall P l -> P (JArray l).
Hypothesis Hobject : forall m, Forall (fun kv => P (snd kv)) m -> P (JObject m).

Fixpoint json_nested_ind (j : json) : P j :=
  match j with
  | JNull => Hnull
  | JBool b => Hbool b
  | JInt z => Hint z
  | JFloat f => Hfloat f
  | JString s => Hstring s
  | JArray l =>
      Harray l ((fix go (l : list json) : Forall P l :=
        match l with
        | [] => List.Forall_nil _
        | x :: l' => List.Forall_cons P x l' (json_nested_ind x) (go l')
        end) l)
  | JObject m =>
      Hobject m ((fix go (m : list (string * json)) : Forall (fun kv => P (snd kv)) m :=
        match m with
        | [] => List.Forall_nil _
        | kv :: m' => List.Forall_cons _ kv m' (json_nested_ind (snd kv)) (go m')
        end) m)
  end.
End JsonInd.

(** Equality of values, member by member in order. *)
#[export] Instance f64_eq_dec : EqDecision f64.
Proof. solve_decision. Defined.

Fixpoint json_eqb (a b : json) : bool :=
  match a, b with
  | JNull, JNull => true
  | JBool x, JBool y => Bool.eqb x y
  | JInt x, JInt y => x =? y
  | JFloat x, JFloat y => bool_decide (x = y)
  | JString x, JString y => String.eqb x y
  | JArray l, JArray l' =>
      (fix go (l l' : list json) : bool :=
         match l, l' with
         | [], [] => true
         | x :: l, y :: l' => json_eqb x y && go l l'
         | _, _ => false
         end) l l'
  | JObject m, JObject m' =>
      (fix go (m m' : list (string * json)) : bool :=
         match m, m' with
         | [], [] => true
         | x :: m, y :: m' => String.eqb (fst x) (fst y) && json_eqb (snd x) (snd y) && go m m'
         | _, _ => false
         end) m m'
  | _, _ => false
  end.

Lemma json_eqb_eq (a b : json) : json_eqb a b = true <-> a = b.
Proof.
  revert b. induction a as [|x|x|x|x|l IH|m IH] using json_nested_ind; intros []; simpl; try (split; intros; done).
  - rewrite Bool.eqb_true_iff. split; congruence.
  - rewrite Z.eqb_eq. split; congruence.
  - rewrite bool_decide_eq_true. split; congruence.
  - rewrite String.eqb_eq. split; congruence.
  - assert (Hl : forall l', (fix go (l l' : list json) : bool :=
         match l, l' with
         | [], [] => true
         | x :: l, y :: l' => json_eqb x y && go l l'
         | _, _ => false
         end) l l' = true <-> l = l').
    { induction IH as [|x l Hx _ IHl]; intros [|y l']; try done.
      rewrite andb_true_iff, Hx, IHl. split; [intros [-> ->]|]; congruence || naive_solver. }
    rewrite Hl. split; congruence.
  - assert (Hl : forall m', (fix go (m m' : list (string * json)) : bool :=
         match m, m' with
         | [], [] => true
         | x :: m, y :: m' => String.eqb (fst x) (fst y) && json_eqb (snd x) (snd y) && go m m'
         | _, _ => false
         end) m m' = true <-> m = m').
    { induction IH as [|[k x] m Hx _ IHm]; intros [|[k' y] m']; try done. simpl in *.
      rewrite !andb_true_iff, String.eqb_eq, Hx, IHm. split; [intros [[-> ->] ->]|]; congruence || naive_solver. }
    rewrite Hl. split; congruence.
Qed.

#[export] Instance json_eq_dec : EqDecision json.
Proof.
  intros a b. destruct (json_eqb a b) eqn:E; [left; by apply json_eqb_eq|right].
  intros Hab%json_eqb_eq. congruence.
Defined.

(** The [json!] macro on an object literal: insertions, left to right. *)
Definition json_obj (l : list (string * json)) : json :=
  JObject (fold_left (fun m kv => bt_insert (fst kv) (snd kv) m) l []).

(** [json!] of an [f64]: a number that is not finite becomes null. *)
Definition json_f64 (f : f64) : json := if f64_is_finite f then JFloat f else JNull.

(** [value.get(key)] *)
Definition json_get (k : string) (j : json) : option json :=
  match j with
  | JObject m => bt_get k m
  | _ => None
  end.

Definition as_str (j : json) : option string :=
  match j with
  | JString s => Some s
  | _ => None
  end.

Definition as_u64 (j : json) : option Z :=
  match j with
  | JInt z => if (0 <=? z) && (z <=? U64_MAX) then Some z else None
  | _ => None
  end.

Definition as_f64 (j : json) : option f64 :=
  match j with
  | JInt z => Some (f64_of_Z z)
  | JFloat f => Some f
  | _ => None
  end.

Lemma fold_insert_wf (l : list (string * json)) (m : list (string * json)) :
  bt_wf m -> bt_wf (fold_left (fun m kv => bt_insert (fst kv) (snd kv) m) l m).
Proof. revert m. induction l as [|[k v] l IH]; simpl; auto with tapio. Qed.

(** The entries of an object literal with distinct keys are its pairs. *)
Lemma fold_insert_In (l m : list (string * json)) (k : string) (v : json) :
  bt_wf m ->
  In (k, v) (fold_left (fun m kv => bt_insert (fst kv) (snd kv) m) l m) ->
  In (k, v) l \/ In (k, v) m.
Proof.
  revert m. induction l as [|[k' v'] l IH]; simpl; intros m Hm; [auto|].
  intros [Hl|Hin]%IH; [auto| |by apply bt_insert_wf].
  apply bt_insert_In in Hin; [|done]. naive_solver.
Qed.
