(* ===== verification/Wire.v ===== *)
(** The crate [tapio-wire]: the structures of the agent/controller protocol
    and their validation. *)
From Stdlib Require Import String.
From S2P Require Import Prelude RustStr BTree Float64 Json.

Local Open Scope Z_scope.

Definition WIRE_VERSION : string := "tapio-wire/v1".

Inductive WireError : Type :=
| UnsupportedVersion (version : string)
| MissingField (field : string)
| InvalidField (field reason : string)
| ReasoningField (field : string).

#[export] Instance WireError_eq_dec : EqDecision WireError.
Proof. solve_decision. Defined.

Notation WireResult A := (result A WireError).

(** [Display for WireError], the [#[error]] attributes. *)
Definition WireError_to_string (e : WireError) : string :=
  match e with
  | UnsupportedVersion v => "unsupported wire version: " +:+ v
  | MissingField f => "missing required field: " +:+ f
  | InvalidField f r => "invalid field " +:+ f +:+ ": " +:+ r
  | ReasoningField f => "event facts contain reasoning field: " +:+ f
  end.

(** * config.rs *)

Record CompiledNetwork := {
  cn_enabled : bool;
  cn_rtt_spike_ratio : Z;
  cn_rtt_spike_abs_us : Z;
  cn_rtt_min_baseline_samples : Z;
  cn_conn_refused_window_ns : Z;
  cn_conn_refused_min_count : Z;
}.

Record CompiledStorage := {
  cs_enabled : bool;
  cs_slow_io_warning_ns : Z;
  cs_slow_io_critical_ns : Z;
}.

Record CompiledContainer := {
  cc_enabled : bool;
  cc_ignore_exit_codes : list Z;
}.

Record CompiledNodePmc := {
  cp_enabled : bool;
  cp_stall_warning_permille : Z;
  cp_stall_critical_permille : Z;
  cp_ipc_degradation_milli : Z;
}.

Record CompiledConfig := {
  cfg_network : CompiledNetwork;
  cfg_storage : CompiledStorage;
  cfg_container : CompiledContainer;
  cfg_node_pmc : CompiledNodePmc;
}.

(** * Requests and responses *)

Record HelloRequest := {
  hello_wire_version : string;
  hello_agent_id : string;
  hello_node_name : string;
  hello_tapio_version : string;
  hello_kernel_release : string;
  hello_arch : string;
  hello_capabilities : list string;
  hello_object_sizes : btree string Z;
  hello_map_counts : btree string Z;
}.

Record HelloResponse := {
  hr_wire_version : string;
  hr_accepted : bool;
  hr_controller_id : string;
  hr_config_version : string;
  hr_send_interval_ms : Z;
  hr_max_batch_events : Z;
}.

Record BatchingConfig := {
  bc_send_interval_ms : Z;
  bc_max_batch_events : Z;
}.

Record ConfigResponse := {
  cr_wire_version : string;
  cr_version : string;
  cr_config_hash : string;
  cr_config : CompiledConfig;
  cr_batching : BatchingConfig;
}.

Inductive ObserverStatus : Type := Running | Disabled | Degraded | Failed.

Inductive DegradedReason : Type := Unconfigured | Unknown.

#[export] Instance ObserverStatus_eq_dec : EqDecision ObserverStatus.
Proof. solve_decision. Defined.

Record HeartbeatCounters := {
  hc_events_total : Z;
  hc_malformed_events_total : Z;
  hc_lost_events_total : Z;
  hc_correlation_drops_total : Z;
  hc_sink_drops_total : Z;
  hc_controller_send_failures_total : Z;
}.

Record HeartbeatRequest := {
  hb_wire_version : string;
  hb_agent_id : string;
  hb_node_name : string;
  hb_config_version : string;
  hb_config_hash : string;
  hb_uptime_seconds : Z;
  hb_observers : btree string ObserverStatus;
  hb_counters : HeartbeatCounters;
  hb_degraded_reasons : list DegradedReason;
}.

Record HeartbeatResponse := {
  hbr_wire_version : string;
  hbr_accepted : bool;
  hbr_next_config_version : string;
}.

Inductive EventSeverity : Type := EvDebug | EvInfo | EvWarning | EvError | EvCritical.

Record WireEvent := {
  we_event_type : string;
  we_timestamp_unix_nanos : Z;
  we_observer : string;
  we_severity : EventSeverity;
  we_facts : json;
}.

Record EventBatchRequest := {
  eb_wire_version : string;
  eb_agent_id : string;
  eb_node_name : string;
  eb_sequence : Z;
  eb_sent_at_unix_nanos : Z;
  eb_events : list WireEvent;
}.

Record EventBatchResponse := {
  ebr_wire_version : string;
  ebr_accepted : Z;
  ebr_rejected : Z;
  ebr_next_config_version : string;
}.

Record StatusConfig := {
  sc_version : string;
  sc_config_hash : string;
}.

Record StatusTotals := {
  st_accepted_events_total : Z;
  st_rejected_events_total : Z;
  st_batches_accepted_total : Z;
  st_batches_rejected_total : Z;
}.

Record SequenceStatus := {
  ss_last_seen : option Z;
  ss_gaps_total : Z;
  ss_regressions_total : Z;
}.

Record AgentStatus := {
  as_agent_id : string;
  as_node_name : string;
  as_tapio_version : string;
  as_registered_at_unix : Z;
  as_last_heartbeat_age_seconds : option Z;
  as_reported_config_version : string;
  as_reported_counters : HeartbeatCounters;
  as_observers : btree string ObserverStatus;
  as_sequence : SequenceStatus;
}.

Record StatusResponse := {
  sr_wire_version : string;
  sr_controller_id : string;
  sr_started_at_unix : Z;
  sr_config : StatusConfig;
  sr_totals : StatusTotals;
  sr_agents : list AgentStatus;
}.

(** * Field checks *)

Definition validate_wire_version (version : string) : WireResult unit :=
  if String.eqb version WIRE_VERSION then Ok tt else Err (UnsupportedVersion version).

Definition required (field value : string) : WireResult unit :=
  if blank value then Err (MissingField field) else Ok tt.

Definition bounded_nonzero (field : string) (value : Z) : WireResult unit :=
  if value =? 0 then Err (InvalidField field "must be greater than zero") else Ok tt.

Definition reasoning_keys : list string :=
  ["reasoning"; "root_cause"; "rootCause"; "causal_chain"; "causalChain"; "explanation";
   "possible_causes"; "possibleCauses"; "suggested_fix"; "suggestedFix"; "remediation";
   "recommendation"].

Definition is_reasoning_key (key : string) : bool :=
  existsb (String.eqb key) reasoning_keys.

Fixpoint reject_reasoning_fields (path : string) (value : json) : WireResult unit :=
  match value with
  | JObject map =>
      (fix go (entries : list (string * json)) : WireResult unit :=
         match entries with
         | [] => Ok tt
         | (key, child) :: rest =>
             if is_reasoning_key key then Err (ReasoningField (path +:+ "." +:+ key))
             else reject_reasoning_fields (path +:+ "." +:+ key) child ;;? go rest
         end) map
  | _ => Ok tt
  end.

(** * Validation of each message *)

Definition HelloRequest_validate (r : HelloRequest) : WireResult unit :=
  validate_wire_version (hello_wire_version r) ;;?
  required "agent_id" (hello_agent_id r) ;;?
  required "node_name" (hello_node_name r) ;;?
  required "tapio_version" (hello_tapio_version r) ;;?
  required "kernel_release" (hello_kernel_release r) ;;?
  required "arch" (hello_arch r) ;;?
  Ok tt.

Definition HelloResponse_from_config (controller_id : string) (config : ConfigResponse) :
  HelloResponse := {|
  hr_wire_version := WIRE_VERSION;
  hr_accepted := true;
  hr_controller_id := controller_id;
  hr_config_version := cr_version config;
  hr_send_interval_ms := bc_send_interval_ms (cr_batching config);
  hr_max_batch_events := bc_max_batch_events (cr_batching config);
|}.

Definition HelloResponse_validate (r : HelloResponse) : WireResult unit :=
  validate_wire_version (hr_wire_version r) ;;?
  required "controller_id" (hr_controller_id r) ;;?
  required "config_version" (hr_config_version r) ;;?
  bounded_nonzero "send_interval_ms" (hr_send_interval_ms r) ;;?
  bounded_nonzero "max_batch_events" (hr_max_batch_events r) ;;?
  Ok tt.

Definition ConfigResponse_default_v1 : ConfigResponse := {|
  cr_wire_version := WIRE_VERSION;
  cr_version := "1";
  cr_config_hash := "";
  cr_config := {|
    cfg_network := {|
      cn_enabled := true;
      cn_rtt_spike_ratio := 2;
      cn_rtt_spike_abs_us := 500000;
      cn_rtt_min_baseline_samples := 5;
      cn_conn_refused_window_ns := 0;
      cn_conn_refused_min_count := 0;
    |};
    cfg_storage := {|
      cs_enabled := true;
      cs_slow_io_warning_ns := 50000000;
      cs_slow_io_critical_ns := 200000000;
    |};
    cfg_container := {| cc_enabled := true; cc_ignore_exit_codes := [] |};
    cfg_node_pmc := {|
      cp_enabled := true;
      cp_stall_warning_permille := 200;
      cp_stall_critical_permille := 400;
      cp_ipc_degradation_milli := 1000;
    |};
  |};
  cr_batching := {| bc_send_interval_ms := 1000; bc_max_batch_events := 256 |};
|}.

Definition ConfigResponse_validate (r : ConfigResponse) : WireResult unit :=
  validate_wire_version (cr_wire_version r) ;;?
  required "version" (cr_version r) ;;?
  bounded_nonzero "config.storage.slow_io_warning_ns"
    (cs_slow_io_warning_ns (cfg_storage (cr_config r))) ;;?
  bounded_nonzero "config.storage.slow_io_critical_ns"
    (cs_slow_io_critical_ns (cfg_storage (cr_config r))) ;;?
  bounded_nonzero "batching.send_interval_ms" (bc_send_interval_ms (cr_batching r)) ;;?
  bounded_nonzero "batching.max_batch_events" (bc_max_batch_events (cr_batching r)) ;;?
  Ok tt.

Definition HeartbeatRequest_validate (r : HeartbeatRequest) : WireResult unit :=
  validate_wire_version (hb_wire_version r) ;;?
  required "agent_id" (hb_agent_id r) ;;?
  required "node_name" (hb_node_name r) ;;?
  required "config_version" (hb_config_version r) ;;?
  if is_empty (hb_observers r) then Err (MissingField "observers") else Ok tt.

Definition HeartbeatResponse_new_accepted (next_config_version : string) : HeartbeatResponse := {|
  hbr_wire_version := WIRE_VERSION;
  hbr_accepted := true;
  hbr_next_config_version := next_config_version;
|}.

Definition HeartbeatResponse_validate (r : HeartbeatResponse) : WireResult unit :=
  validate_wire_version (hbr_wire_version r) ;;?
  required "next_config_version" (hbr_next_config_version r) ;;?
  Ok tt.

Definition WireEvent_validate (e : WireEvent) : WireResult unit :=
  required "type" (we_event_type e) ;;?
  required "observer" (we_observer e) ;;?
  if negb (starts_with (we_event_type e) "kernel.") then
    Err (InvalidField "type" "must be a kernel.* event")
  else reject_reasoning_fields "$" (we_facts e).

Definition EventBatchRequest_validate (r : EventBatchRequest) (max_batch_events : Z) :
  WireResult unit :=
  validate_wire_version (eb_wire_version r) ;;?
  required "agent_id" (eb_agent_id r) ;;?
  required "node_name" (eb_node_name r) ;;?
  if is_empty (eb_events r) then Err (MissingField "events")
  else if max_batch_events <? zlen (eb_events r) then
    Err (InvalidField "events" "batch exceeds max_batch_events")
  else try_for_each WireEvent_validate (eb_events r) ;;? Ok tt.

Definition EventBatchResponse_validate (r : EventBatchResponse) : WireResult unit :=
  validate_wire_version (ebr_wire_version r) ;;?
  required "next_config_version" (ebr_next_config_version r) ;;?
  Ok tt.

Definition StatusConfig_validate (c : StatusConfig) : WireResult unit :=
  required "config.version" (sc_version c).

Definition AgentStatus_validate (a : AgentStatus) : WireResult unit :=
  required "agent_id" (as_agent_id a) ;;?
  required "node_name" (as_node_name a) ;;?
  required "tapio_version" (as_tapio_version a) ;;?
  Ok tt.

Definition StatusResponse_validate (s : StatusResponse) : WireResult unit :=
  validate_wire_version (sr_wire_version s) ;;?
  required "controller_id" (sr_controller_id s) ;;?
  StatusConfig_validate (sr_config s) ;;?
  try_for_each AgentStatus_validate (sr_agents s) ;;?
  Ok tt.

(** * Lemmas *)

Lemma validate_wire_version_Ok (v : string) : validate_wire_version v = Ok tt <-> v = WIRE_VERSION.
Proof. unfold validate_wire_version. destruct (String.eqb_spec v WIRE_VERSION); naive_solver. Qed.

Lemma required_Ok (field value : string) : required field value = Ok tt <-> blank value = false.
Proof. unfold required. destruct (blank value); naive_solver. Qed.

Lemma bounded_nonzero_Ok (field : string) (z : Z) : bounded_nonzero field z = Ok tt <-> z <> 0.
Proof. unfold bounded_nonzero. destruct (Z.eqb_spec z 0); naive_solver. Qed.

#[export] Hint Rewrite @unit_rbind_Ok validate_wire_version_Ok required_Ok bounded_nonzero_Ok : tapio.

Lemma is_reasoning_key_In (k : string) : is_reasoning_key k = true <-> In k reasoning_keys.
Proof.
  unfold is_reasoning_key. rewrite existsb_exists. split.
  - intros (x & Hx & ->%String.eqb_eq). done.
  - intros H. exists k. by rewrite String.eqb_refl.
Qed.

(** Where a value names a reasoning field: [reasoning_at path value p] says that
    following object keys from [value], found at [path], leads to a reasoning
    key at the dotted path [p]. *)
Inductive reasoning_at (path : string) : json -> string -> Prop :=
| reasoning_here map key child :
    In (key, child) map -> is_reasoning_key key = true ->
    reasoning_at path (JObject map) (path +:+ "." +:+ key)
| reasoning_below map key child p :
    In (key, child) map -> reasoning_at (path +:+ "." +:+ key) child p ->
    reasoning_at path (JObject map) p.

Definition no_reasoning (value : json) : Prop := forall p, ~ reasoning_at "$" value p.

Lemma reject_reasoning_sound (value : json) (path : string) (e : WireError) :
  reject_reasoning_fields path value = Err e ->
  exists p, e = ReasoningField p /\ reasoning_at path value p.
Proof.
  revert path. induction value as [| | | | | |map IH] using json_nested_ind; intros path; try done.
  assert (Hsub : forall entries, incl entries map ->
    Forall (fun kv => forall path, reject_reasoning_fields path (snd kv) = Err e ->
      exists p, e = ReasoningField p /\ reasoning_at path (snd kv) p) entries ->
    reject_reasoning_fields path (JObject entries) = Err e ->
    exists p, e = ReasoningField p /\ reasoning_at path (JObject map) p).
  { induction entries as [|[key child] rest IHr]; simpl; intros Hin HF Herr; [done|].
    apply Forall_cons in HF as [Hc HF].
    destruct (is_reasoning_key key) eqn:Hk.
    - injection Herr as <-. eexists. split; [done|]. eapply reasoning_here; [|done].
      apply Hin. by left.
    - apply rbind_Err in Herr as [Herr|([] & _ & Herr)].
      + destruct (Hc _ Herr) as (p & -> & Hp). exists p. split; [done|].
        eapply reasoning_below; [|exact Hp]. apply Hin. by left.
      + apply IHr; [|done|done]. intros x Hx. apply Hin. by right. }
  apply (Hsub map); [apply incl_refl|exact IH].
Qed.

Lemma reject_reasoning_complete (value : json) (path p : string) :
  reasoning_at path value p -> reject_reasoning_fields path value <> Ok tt.
Proof.
  revert path p. induction value as [| | | | | |map IH] using json_nested_ind; intros path p Hp;
    try (by inversion Hp).
  assert (Hsub : forall entries key child, In (key, child) entries ->
    is_reasoning_key key = true \/ reject_reasoning_fields (path +:+ "." +:+ key) child <> Ok tt ->
    reject_reasoning_fields path (JObject entries) <> Ok tt).
  { induction entries as [|[key' child'] rest IHr]; simpl; intros key child Hin Hbad; [done|].
    destruct (is_reasoning_key key') eqn:Hk; [done|]. rewrite unit_rbind_Ok. intros [Hok Hr].
    destruct Hin as [[= -> ->]|Hin]; [by destruct Hbad as [?|?]; congruence|].
    by eapply IHr. }
  rewrite Forall_forall in IH.
  inversion Hp as [m key child Hin Hk|m key child q Hin Hq]; subst.
  - eapply Hsub; eauto.
  - eapply Hsub; [exact Hin|right]. eapply (IH (key, child)); [by apply list_elem_of_In|exact Hq].
Qed.

Lemma reject_reasoning_Ok (value : json) (path : string) :
  reject_reasoning_fields path value = Ok tt <-> forall p, ~ reasoning_at path value p.
Proof.
  split.
  - intros Hok p Hp. by eapply reject_reasoning_complete.
  - intros Hno. destruct (reject_reasoning_fields path value) as [[]|e] eqn:E; [done|].
    apply reject_reasoning_sound in E as (p & _ & Hp). by destruct (Hno p).
Qed.

(** A flat object without reasoning keys is accepted whatever its values. *)
Lemma flat_object_Ok (m : list (string * json)) (path : string) :
  Forall (fun kv => is_reasoning_key (fst kv) = false /\
                    match snd kv with JObject _ => False | _ => True end) m ->
  reject_reasoning_fields path (JObject m) = Ok tt.
Proof.
  induction m as [|[k v] m IH]; [done|]. intros [[Hk Hv] HF]%Forall_cons. simpl in *.
  rewrite Hk. destruct v; simpl; try (by apply IH). done.
Qed.

Lemma WireEvent_validate_Ok (e : WireEvent) :
  WireEvent_validate e = Ok tt <->
  blank (we_event_type e) = false /\ blank (we_observer e) = false /\
  starts_with (we_event_type e) "kernel." = true /\ no_reasoning (we_facts e).
Proof.
  unfold WireEvent_validate. autorewrite with tapio.
  destruct (starts_with (we_event_type e) "kernel."); simpl.
  - rewrite reject_reasoning_Ok. naive_solver.
  - naive_solver.
Qed.

(** * Properties *)

(** [EventBatchRequest::validate] accepts exactly the batches of the spoken
    version, with an agent and a node, with at least one and at most
    [max_batch_events] events, each a [kernel.*] event with an observer and
    with no reasoning key reachable through the objects of its facts. *)
Lemma event_batch_validate_accepts (r : EventBatchRequest) (max_batch_events : Z) :
  EventBatchRequest_validate r max_batch_events = Ok tt <->
  eb_wire_version r = WIRE_VERSION /\
  blank (eb_agent_id r) = false /\ blank (eb_node_name r) = false /\
  1 <= zlen (eb_events r) <= max_batch_events /\
  Forall (fun e => blank (we_event_type e) = false /\ blank (we_observer e) = false /\
                   starts_with (we_event_type e) "kernel." = true /\ no_reasoning (we_facts e))
    (eb_events r).
Proof.
  unfold EventBatchRequest_validate. autorewrite with tapio.
  setoid_rewrite <- WireEvent_validate_Ok.
  destruct (eb_events r) as [|e es]; cbn [is_empty].
  { rewrite zlen_nil. naive_solver lia. }
  destruct (max_batch_events <? zlen (e :: es)) eqn:Hlen.
  { split; [naive_solver|]. intros (_ & _ & _ & ? & _). lia. }
  autorewrite with tapio. rewrite try_for_each_Ok.
  rewrite zlen_cons in Hlen. pose proof (zlen_nonneg es).
  assert (1 <= 1 + zlen es <= max_batch_events) by lia. tauto.
Qed.

(** [reject_reasoning_fields] returns [Ok] exactly when no reasoning key can be
    reached through object keys, and otherwise the error names the dotted path
    of such a key. *)
Lemma reject_reasoning_fields_spec (path : string) (value : json) :
  match reject_reasoning_fields path value with
  | Ok _ => forall p, ~ reasoning_at path value p
  | Err e => exists p, e = ReasoningField p /\ reasoning_at path value p
  end.
Proof.
  destruct (reject_reasoning_fields path value) as [[]|e] eqn:E.
  - by apply reject_reasoning_Ok.
  - by apply reject_reasoning_sound.
Qed.

(** The scan does not enter arrays: facts that hold a reasoning key inside a
    list pass validation, whatever the list holds. *)
Lemma reasoning_in_array_passes (path key : string) (items : list json)
    (Hkey : is_reasoning_key key = false) :
  reject_reasoning_fields path (JObject [(key, JArray items)]) = Ok tt.
Proof. apply flat_object_Ok. by repeat constructor. Qed.

Lemma reasoning_in_array_passes_witness :
  reject_reasoning_fields "$"
    (JObject [("events", JArray [JObject [("root_cause", JString "database is down")]])]) = Ok tt.
Proof. apply reasoning_in_array_passes. reflexivity. Defined.
