(* ===== verification/Profile.v ===== *)
(** The crate [tapio-profile]: validation of an operator's Evidence Profile
    against the built-in base profiles, and its compilation to the wire
    configuration. *)
From Stdlib Require Import String.
From Corelib Require Import SpecFloat.
From S2P Require Import Prelude RustStr BTree Float64 Wire.

Local Open Scope Z_scope.

Definition API_VERSION : string := "tapio.false.systems/v0".
Definition KIND : string := "EvidenceProfile".
Definition PRODUCTION_DEFAULT : string := "production-default".

Definition RATIO_RANGE : string := "1..=100".
Definition ABS_MS_RANGE : string := "1..=600000".
Definition WARNING_MS_RANGE : string := "1..=60000".
Definition CRITICAL_MS_RANGE : string := "1..=600000".
Definition EXIT_CODE_RANGE : string := "0..=255".
Definition STALL_PCT_RANGE : string := "0.0..=100.0".
Definition IPC_DEGRADATION_RANGE : string := "0.0..=16.0".

Definition MAX_RTT_ABS_MS : Z := 600000.
Definition MAX_WARNING_MS : Z := 60000.
Definition MAX_CRITICAL_MS : Z := 600000.
Definition MAX_IGNORE_EXIT_CODES : Z := 16.

(** * The document *)

Record RttSpikeOverride := {
  ro_ratio : option Z;
  ro_abs_ms : option Z;
}.

Record NetworkOverride := {
  no_enabled : option bool;
  no_rtt_spike : RttSpikeOverride;
}.

Record SlowIoOverride := {
  so_warning_ms : option Z;
  so_critical_ms : option Z;
}.

Record StorageOverride := {
  sto_enabled : option bool;
  sto_slow_io : SlowIoOverride;
}.

Record ContainerOverride := {
  co_enabled : option bool;
  co_ignore_exit_codes : option (list Z);
}.

Record StallPctOverride := {
  sp_warning : option f64;
  sp_critical : option f64;
}.

Record NodePmcOverride := {
  po_enabled : option bool;
  po_stall_pct : StallPctOverride;
  po_ipc_degradation : option f64;
}.

Record ProfileOverrides := {
  ov_network : NetworkOverride;
  ov_storage : StorageOverride;
  ov_container : ContainerOverride;
  ov_node_pmc : NodePmcOverride;
}.

Record EvidenceProfile := {
  ep_api_version : option string;
  ep_kind : option string;
  ep_base : option string;
  ep_overrides : ProfileOverrides;
}.

(** * Resolved profiles *)

Record ResolvedNetwork := {
  rn_enabled : bool;
  rn_rtt_spike_ratio : Z;
  rn_rtt_spike_abs_ms : Z;
  rn_rtt_min_baseline_samples : Z;
  rn_conn_refused_window_ns : Z;
  rn_conn_refused_min_count : Z;
}.

Record ResolvedStorage := {
  rs_enabled : bool;
  rs_slow_io_warning_ms : Z;
  rs_slow_io_critical_ms : Z;
}.

Record ResolvedContainer := {
  rc_enabled : bool;
  rc_ignore_exit_codes : list Z;
}.

Record ResolvedNodePmc := {
  rp_enabled : bool;
  rp_stall_pct_warning : f64;
  rp_stall_pct_critical : f64;
  rp_ipc_degradation : f64;
}.

Record ResolvedProfile := {
  res_network : ResolvedNetwork;
  res_storage : ResolvedStorage;
  res_container : ResolvedContainer;
  res_node_pmc : ResolvedNodePmc;
}.

Notation BuiltinSet := (btree string ResolvedProfile).

Record ValidatedProfile := { resolved : ResolvedProfile }.

Inductive ProfileError : Type :=
| UnsupportedApiVersion (path : string) (value : option string) (expected : string)
| UnsupportedKind (path : string) (value : option string) (expected : string)
| MissingBase (path : string)
| InvalidProfileName (path value : string)
| UnknownBase (path value : string) (available : list string)
| OutOfRange (path value range : string)
| NotFinite (path : string)
| ThresholdOrder (path warning critical : string)
| TooManyIgnoreExitCodes (path : string) (count : Z).

(** The text of an error, as [thiserror] derives it. *)
Definition ProfileError_to_string (e : ProfileError) : string :=
  match e with
  | UnsupportedApiVersion path value expected =>
      path +:+ ": unsupported apiVersion " +:+ debug_option value +:+ ", expected " +:+ quoted expected
  | UnsupportedKind path value expected =>
      path +:+ ": unsupported kind " +:+ debug_option value +:+ ", expected " +:+ quoted expected
  | MissingBase path => path +:+ ": base profile is required"
  | InvalidProfileName path value => path +:+ ": invalid profile name " +:+ quoted value
  | UnknownBase path value available =>
      path +:+ ": unknown base profile " +:+ quoted value +:+ ", available: " +:+ debug_list available
  | OutOfRange path value range => path +:+ ": value " +:+ value +:+ " out of range " +:+ range
  | NotFinite path => path +:+ ": value must be finite"
  | ThresholdOrder path warning critical => path +:+ ": " +:+ critical +:+ " must be >= " +:+ warning
  | TooManyIgnoreExitCodes path count => path +:+ ": at most 16 ignore_exit_codes, got " +:+ dec count
  end.

Definition production_default : ResolvedProfile := {|
  res_network := {|
    rn_enabled := true;
    rn_rtt_spike_ratio := 2;
    rn_rtt_spike_abs_ms := 500;
    rn_rtt_min_baseline_samples := 5;
    rn_conn_refused_window_ns := 0;
    rn_conn_refused_min_count := 0;
  |};
  res_storage := {|
    rs_enabled := true;
    rs_slow_io_warning_ms := 50;
    rs_slow_io_critical_ms := 200;
  |};
  res_container := {| rc_enabled := true; rc_ignore_exit_codes := [] |};
  res_node_pmc := {|
    rp_enabled := true;
    rp_stall_pct_warning := f64_of_Z 20;
    rp_stall_pct_critical := f64_of_Z 40;
    rp_ipc_degradation := f64_of_Z 1;
  |};
|}.

Definition BuiltinSet_v0 : BuiltinSet := [(PRODUCTION_DEFAULT, production_default)].

(** * Validation *)

Definition out_of_range (field value range : string) : ProfileError := OutOfRange field value range.

Definition validate_envelope (p : EvidenceProfile) : result unit ProfileError :=
  if negb (bool_decide (ep_api_version p = Some API_VERSION)) then
    Err (UnsupportedApiVersion "apiVersion" (ep_api_version p) API_VERSION)
  else if negb (bool_decide (ep_kind p = Some KIND)) then
    Err (UnsupportedKind "kind" (ep_kind p) KIND)
  else Ok tt.

Definition is_lower (a : ascii) : bool := (97 <=? byte_val a) && (byte_val a <=? 122).

Fixpoint all_bytes (f : ascii -> bool) (s : string) : bool :=
  match s with
  | EmptyString => true
  | String a s' => f a && all_bytes f s'
  end.

Definition valid_profile_name (value : string) : bool :=
  match value with
  | EmptyString => false
  | String first rest =>
      if (63 <? slen value) || negb (is_lower first) || starts_with (str_rev value) "-" then false
      else all_bytes (fun b => is_lower b || is_digit b || Ascii.eqb b "-") rest
  end.

Definition between (lo hi z : Z) : bool := (lo <=? z) && (z <=? hi).

Definition apply_network (input : NetworkOverride) (r : ResolvedNetwork) :
  result ResolvedNetwork ProfileError :=
  let enabled := default (rn_enabled r) (no_enabled input) in
  ratio <-? match ro_ratio (no_rtt_spike input) with
            | Some ratio =>
                if negb (between 1 100 ratio) then
                  Err (out_of_range "overrides.network.rtt_spike.ratio" (dec ratio) RATIO_RANGE)
                else Ok ratio
            | None => Ok (rn_rtt_spike_ratio r)
            end ;;
  abs_ms <-? match ro_abs_ms (no_rtt_spike input) with
             | Some abs_ms =>
                 if negb (between 1 MAX_RTT_ABS_MS abs_ms) then
                   Err (out_of_range "overrides.network.rtt_spike.abs_ms" (dec abs_ms) ABS_MS_RANGE)
                 else Ok abs_ms
             | None => Ok (rn_rtt_spike_abs_ms r)
             end ;;
  Ok {| rn_enabled := enabled;
        rn_rtt_spike_ratio := ratio;
        rn_rtt_spike_abs_ms := abs_ms;
        rn_rtt_min_baseline_samples := rn_rtt_min_baseline_samples r;
        rn_conn_refused_window_ns := rn_conn_refused_window_ns r;
        rn_conn_refused_min_count := rn_conn_refused_min_count r |}.

Definition apply_storage (input : StorageOverride) (r : ResolvedStorage) :
  result ResolvedStorage ProfileError :=
  let enabled := default (rs_enabled r) (sto_enabled input) in
  warning_ms <-? match so_warning_ms (sto_slow_io input) with
                 | Some w =>
                     if negb (between 1 MAX_WARNING_MS w) then
                       Err (out_of_range "overrides.storage.slow_io.warning_ms" (dec w) WARNING_MS_RANGE)
                     else Ok w
                 | None => Ok (rs_slow_io_warning_ms r)
                 end ;;
  critical_ms <-? match so_critical_ms (sto_slow_io input) with
                  | Some c =>
                      if negb (between 1 MAX_CRITICAL_MS c) then
                        Err (out_of_range "overrides.storage.slow_io.critical_ms" (dec c) CRITICAL_MS_RANGE)
                      else Ok c
                  | None => Ok (rs_slow_io_critical_ms r)
                  end ;;
  if critical_ms <? warning_ms then
    Err (ThresholdOrder "overrides.storage.slow_io" (dec warning_ms) (dec critical_ms))
  else Ok {| rs_enabled := enabled;
             rs_slow_io_warning_ms := warning_ms;
             rs_slow_io_critical_ms := critical_ms |}.

(** The loop over the codes; [seen] is the array of 256 flags. *)
Fixpoint check_codes (codes : list Z) (seen : list bool) (checked : list Z) :
  result (list Z) ProfileError :=
  match codes with
  | [] => Ok checked
  | code :: rest =>
      if negb (between 0 255 code) then
        Err (out_of_range "overrides.container.ignore_exit_codes" (z_to_string code) EXIT_CODE_RANGE)
      else if default false (seen !! Z.to_nat code) then check_codes rest seen checked
      else check_codes rest (<[Z.to_nat code := true]> seen) (checked ++ [code])
  end.

Definition apply_container (input : ContainerOverride) (r : ResolvedContainer) :
  result ResolvedContainer ProfileError :=
  let enabled := default (rc_enabled r) (co_enabled input) in
  match co_ignore_exit_codes input with
  | Some codes =>
      if MAX_IGNORE_EXIT_CODES <? zlen codes then
        Err (TooManyIgnoreExitCodes "overrides.container.ignore_exit_codes" (zlen codes))
      else
        checked <-? check_codes codes (replicate 256 false) [] ;;
        Ok {| rc_enabled := enabled; rc_ignore_exit_codes := checked |}
  | None => Ok {| rc_enabled := enabled; rc_ignore_exit_codes := rc_ignore_exit_codes r |}
  end.

Definition validate_finite_range (field : string) (value min max : f64) (range : string) :
  result unit ProfileError :=
  if negb (f64_is_finite value) then Err (NotFinite field)
  else if f64_lt value min || f64_gt value max then
    Err (OutOfRange field (f64_display value) range)
  else Ok tt.

Definition apply_node_pmc (input : NodePmcOverride) (r : ResolvedNodePmc) :
  result ResolvedNodePmc ProfileError :=
  let enabled := default (rp_enabled r) (po_enabled input) in
  warning <-? match sp_warning (po_stall_pct input) with
              | Some w =>
                  validate_finite_range "overrides.node_pmc.stall_pct.warning" w
                    (f64_of_Z 0) (f64_of_Z 100) STALL_PCT_RANGE ;;? Ok w
              | None => Ok (rp_stall_pct_warning r)
              end ;;
  critical <-? match sp_critical (po_stall_pct input) with
               | Some c =>
                   validate_finite_range "overrides.node_pmc.stall_pct.critical" c
                     (f64_of_Z 0) (f64_of_Z 100) STALL_PCT_RANGE ;;? Ok c
               | None => Ok (rp_stall_pct_critical r)
               end ;;
  if f64_lt critical warning then
    Err (ThresholdOrder "overrides.node_pmc.stall_pct" (f64_display warning) (f64_display critical))
  else
    ipc <-? match po_ipc_degradation input with
            | Some ipc =>
                validate_finite_range "overrides.node_pmc.ipc_degradation" ipc
                  (f64_of_Z 0) (f64_of_Z 16) IPC_DEGRADATION_RANGE ;;? Ok ipc
            | None => Ok (rp_ipc_degradation r)
            end ;;
    Ok {| rp_enabled := enabled;
          rp_stall_pct_warning := warning;
          rp_stall_pct_critical := critical;
          rp_ipc_degradation := ipc |}.

Definition profile_validate (profile : EvidenceProfile) (builtins : BuiltinSet) :
  result ValidatedProfile ProfileError :=
  validate_envelope profile ;;?
  base_name <-? ok_or (ep_base profile) (MissingBase "base") ;;
  if negb (valid_profile_name base_name) then Err (InvalidProfileName "base" base_name)
  else
    base <-? ok_or (bt_get base_name builtins)
               (UnknownBase "base" base_name (bt_keys builtins)) ;;
    network <-? apply_network (ov_network (ep_overrides profile)) (res_network base) ;;
    storage <-? apply_storage (ov_storage (ep_overrides profile)) (res_storage base) ;;
    container <-? apply_container (ov_container (ep_overrides profile)) (res_container base) ;;
    node_pmc <-? apply_node_pmc (ov_node_pmc (ep_overrides profile)) (res_node_pmc base) ;;
    Ok {| resolved := {| res_network := network; res_storage := storage;
                         res_container := container; res_node_pmc := node_pmc |} |}.

(** * Compilation: the multiplications wrap at their width in a release build *)

Definition profile_compile (profile : ValidatedProfile) : CompiledConfig :=
  let r := resolved profile in
  {| cfg_network := {|
       cn_enabled := rn_enabled (res_network r);
       cn_rtt_spike_ratio := rn_rtt_spike_ratio (res_network r);
       cn_rtt_spike_abs_us := wrap32 (rn_rtt_spike_abs_ms (res_network r) * 1000);
       cn_rtt_min_baseline_samples := rn_rtt_min_baseline_samples (res_network r);
       cn_conn_refused_window_ns := rn_conn_refused_window_ns (res_network r);
       cn_conn_refused_min_count := rn_conn_refused_min_count (res_network r);
     |};
     cfg_storage := {|
       cs_enabled := rs_enabled (res_storage r);
       cs_slow_io_warning_ns := wrap64 (rs_slow_io_warning_ms (res_storage r) * 1000000);
       cs_slow_io_critical_ns := wrap64 (rs_slow_io_critical_ms (res_storage r) * 1000000);
     |};
     cfg_container := {|
       cc_enabled := rc_enabled (res_container r);
       cc_ignore_exit_codes := rc_ignore_exit_codes (res_container r);
     |};
     cfg_node_pmc := {|
       cp_enabled := rp_enabled (res_node_pmc r);
       cp_stall_warning_permille :=
         f64_as_u32 (f64_round (f64_mul (rp_stall_pct_warning (res_node_pmc r)) (f64_of_Z 10)));
       cp_stall_critical_permille :=
         f64_as_u32 (f64_round (f64_mul (rp_stall_pct_critical (res_node_pmc r)) (f64_of_Z 10)));
       cp_ipc_degradation_milli :=
         f64_as_u32 (f64_round (f64_mul (rp_ipc_degradation (res_node_pmc r)) (f64_of_Z 1000)));
     |};
  |}.

(** * Abstract specification *)

(** The distinct elements in the order they first occur. *)
Fixpoint nub (l : list Z) : list Z :=
  match l with
  | [] => []
  | x :: l' => x :: filter (fun y => y <> x) (nub l')
  end.

(** What a document means: every override wins over the base, field by field. *)
Definition merge (o : ProfileOverrides) (b : ResolvedProfile) : ResolvedProfile := {|
  res_network := {|
    rn_enabled := default (rn_enabled (res_network b)) (no_enabled (ov_network o));
    rn_rtt_spike_ratio :=
      default (rn_rtt_spike_ratio (res_network b)) (ro_ratio (no_rtt_spike (ov_network o)));
    rn_rtt_spike_abs_ms :=
      default (rn_rtt_spike_abs_ms (res_network b)) (ro_abs_ms (no_rtt_spike (ov_network o)));
    rn_rtt_min_baseline_samples := rn_rtt_min_baseline_samples (res_network b);
    rn_conn_refused_window_ns := rn_conn_refused_window_ns (res_network b);
    rn_conn_refused_min_count := rn_conn_refused_min_count (res_network b);
  |};
  res_storage := {|
    rs_enabled := default (rs_enabled (res_storage b)) (sto_enabled (ov_storage o));
    rs_slow_io_warning_ms :=
      default (rs_slow_io_warning_ms (res_storage b)) (so_warning_ms (sto_slow_io (ov_storage o)));
    rs_slow_io_critical_ms :=
      default (rs_slow_io_critical_ms (res_storage b)) (so_critical_ms (sto_slow_io (ov_storage o)));
  |};
  res_container := {|
    rc_enabled := default (rc_enabled (res_container b)) (co_enabled (ov_container o));
    rc_ignore_exit_codes :=
      default (rc_ignore_exit_codes (res_container b)) (nub <$> co_ignore_exit_codes (ov_container o));
  |};
  res_node_pmc := {|
    rp_enabled := default (rp_enabled (res_node_pmc b)) (po_enabled (ov_node_pmc o));
    rp_stall_pct_warning :=
      default (rp_stall_pct_warning (res_node_pmc b)) (sp_warning (po_stall_pct (ov_node_pmc o)));
    rp_stall_pct_critical :=
      default (rp_stall_pct_critical (res_node_pmc b)) (sp_critical (po_stall_pct (ov_node_pmc o)));
    rp_ipc_degradation :=
      default (rp_ipc_degradation (res_node_pmc b)) (po_ipc_degradation (ov_node_pmc o));
  |};
|}.

Definition opt_all {A : Type} (P : A -> Prop) (o : option A) : Prop :=
  match o with
  | Some a => P a
  | None => True
  end.

Definition f64_within (lo hi : Z) (x : f64) : Prop :=
  f64_is_finite x = true /\ f64_lt x (f64_of_Z lo) = false /\ f64_gt x (f64_of_Z hi) = false.

(** Every override is in its range. *)
Definition overrides_in_range (o : ProfileOverrides) : Prop :=
  opt_all (fun z => 1 <= z <= 100) (ro_ratio (no_rtt_spike (ov_network o))) /\
  opt_all (fun z => 1 <= z <= 600000) (ro_abs_ms (no_rtt_spike (ov_network o))) /\
  opt_all (fun z => 1 <= z <= 60000) (so_warning_ms (sto_slow_io (ov_storage o))) /\
  opt_all (fun z => 1 <= z <= 600000) (so_critical_ms (sto_slow_io (ov_storage o))) /\
  opt_all (fun l => zlen l <= 16 /\ Forall (fun c => 0 <= c <= 255) l)
    (co_ignore_exit_codes (ov_container o)) /\
  opt_all (f64_within 0 100) (sp_warning (po_stall_pct (ov_node_pmc o))) /\
  opt_all (f64_within 0 100) (sp_critical (po_stall_pct (ov_node_pmc o))) /\
  opt_all (f64_within 0 16) (po_ipc_degradation (ov_node_pmc o)).

(** Warning thresholds do not exceed critical ones. *)
Definition thresholds_ordered (r : ResolvedProfile) : Prop :=
  rs_slow_io_warning_ms (res_storage r) <= rs_slow_io_critical_ms (res_storage r) /\
  f64_lt (rp_stall_pct_critical (res_node_pmc r)) (rp_stall_pct_warning (res_node_pmc r)) = false.

(** * Lemmas *)

Lemma between_true (lo hi z : Z) : between lo hi z = true <-> lo <= z <= hi.
Proof. unfold between. lia. Qed.

Lemma nub_elem (l : list Z) (x : Z) : x ∈ nub l <-> x ∈ l.
Proof.
  induction l as [|y l IH]; simpl; [done|].
  rewrite !elem_of_cons, list_elem_of_filter, IH.
  destruct (decide (x = y)); naive_solver.
Qed.

Lemma nub_NoDup (l : list Z) : NoDup (nub l).
Proof.
  induction l as [|y l IH]; simpl; constructor.
  - rewrite list_elem_of_filter. naive_solver.
  - by apply NoDup_filter.
Qed.

Lemma nub_length (l : list Z) : zlen (nub l) <= zlen l.
Proof.
  induction l as [|y l IH]; simpl; [done|]. rewrite !zlen_cons.
  pose proof (length_filter (fun z => z <> y) (nub l)). unfold zlen in *. lia.
Qed.

Lemma nub_Forall (P : Z -> Prop) (l : list Z) : Forall P l -> Forall P (nub l).
Proof. rewrite !Forall_forall. intros H x Hx. by apply H, nub_elem. Qed.

(** The flag array marks exactly the codes already kept. *)
Definition marks (seen : list bool) (checked : list Z) : Prop :=
  length seen = 256%nat /\
  forall c, 0 <= c <= 255 -> (default false (seen !! Z.to_nat c) = true <-> c ∈ checked).

Lemma marks_init : marks (replicate 256 false) [].
Proof.
  split; [by rewrite length_replicate|]. intros c Hc.
  rewrite lookup_replicate_2 by lia. simpl. split; [done|]. by intros ?%not_elem_of_nil.
Qed.

Lemma marks_step (seen : list bool) (checked : list Z) (c : Z) :
  0 <= c <= 255 -> marks seen checked -> marks (<[Z.to_nat c := true]> seen) (checked ++ [c]).
Proof.
  intros Hc [Hlen Hm]. split; [by rewrite length_insert|]. intros d Hd.
  rewrite elem_of_app, list_elem_of_singleton, <- (Hm d Hd).
  destruct (decide (d = c)) as [->|Hne].
  - rewrite list_lookup_insert_eq by lia. simpl. naive_solver.
  - rewrite list_lookup_insert_ne by lia. naive_solver.
Qed.

Lemma check_codes_nub (codes : list Z) (seen : list bool) (checked : list Z) :
  marks seen checked -> Forall (fun c => 0 <= c <= 255) codes ->
  check_codes codes seen checked = Ok (checked ++ filter (fun c => c ∉ checked) (nub codes)).
Proof.
  revert seen checked. induction codes as [|c codes IH]; intros seen checked Hm Hr.
  { simpl. by rewrite app_nil_r. }
  apply Forall_cons in Hr as [Hc Hr]. simpl check_codes. simpl nub.
  rewrite (proj2 (between_true 0 255 c) Hc). simpl.
  destruct Hm as [Hlen Hm]. pose proof (Hm c Hc) as Hmc.
  destruct (default false (seen !! Z.to_nat c)).
  - rewrite IH by done. rewrite filter_cons_False by (intros H; apply H; by apply Hmc).
    f_equal. f_equal. rewrite list_filter_filter. apply list_filter_iff.
    intros x. destruct Hmc as [Hin _]. specialize (Hin eq_refl).
    split; [|naive_solver]. intros Hx. split; [done|]. intros ->. done.
  - assert (Hnc : c ∉ checked) by (intros H; apply Hmc in H; done).
    rewrite IH; [|by apply marks_step|done].
    rewrite filter_cons_True by done. rewrite <- app_assoc. simpl. do 3 f_equal.
    rewrite list_filter_filter. apply list_filter_iff. intros x.
    rewrite not_elem_of_app, list_elem_of_singleton. tauto.
Qed.

Lemma filter_not_nil (l : list Z) : filter (fun c => c ∉ []) l = l.
Proof.
  induction l as [|x l IH]; [done|]. rewrite filter_cons_True by apply not_elem_of_nil. by rewrite IH.
Qed.

Lemma check_codes_Ok (codes : list Z) (l : list Z) :
  check_codes codes (replicate 256 false) [] = Ok l <->
  Forall (fun c => 0 <= c <= 255) codes /\ l = nub codes.
Proof.
  split.
  - intros H. assert (Hr : Forall (fun c => 0 <= c <= 255) codes).
    { generalize dependent l. generalize (replicate 256 false), (@nil Z).
      induction codes as [|c codes IH]; intros seen checked l H; [done|]. simpl in H.
      destruct (between 0 255 c) eqn:Hc; [|done]. apply between_true in Hc.
      constructor; [done|]. simpl in H. destruct (default false _); eauto. }
    split; [done|]. rewrite (check_codes_nub _ _ _ marks_init Hr) in H. simplify_eq/=.
    apply filter_not_nil.
  - intros [Hr ->]. rewrite (check_codes_nub _ _ _ marks_init Hr). f_equal. apply filter_not_nil.
Qed.

(** A checked override: the value when it is in range, else the base's. *)
Lemma checked_override_Ok {A : Type} (o : option A) (d : A) (test : A -> bool) (P : A -> Prop)
    (e : A -> ProfileError) (a : A) :
  (forall x, test x = true <-> P x) ->
  match o with
  | Some x => if negb (test x) then Err (e x) else Ok x
  | None => Ok d
  end = Ok a <-> opt_all P o /\ a = default d o.
Proof.
  intros Ht. destruct o as [x|]; simpl; [|naive_solver].
  rewrite <- Ht. destruct (test x); simpl; naive_solver.
Qed.

Lemma finite_override_Ok (o : option f64) (d : f64) (field : string) (lo hi : Z)
    (range : string) (a : f64) :
  match o with
  | Some x => validate_finite_range field x (f64_of_Z lo) (f64_of_Z hi) range ;;? Ok x
  | None => Ok d
  end = Ok a <-> opt_all (f64_within lo hi) o /\ a = default d o.
Proof.
  destruct o as [x|]; cbn [opt_all default]; [|naive_solver].
  rewrite unit_rbind_Ok. unfold validate_finite_range, f64_within.
  destruct (f64_is_finite x); cbn [negb]; [|naive_solver].
  destruct (f64_lt x (f64_of_Z lo)), (f64_gt x (f64_of_Z hi)); cbn [orb]; naive_solver.
Qed.

Lemma apply_network_Ok (o : ProfileOverrides) (b : ResolvedProfile) (r : ResolvedNetwork) :
  apply_network (ov_network o) (res_network b) = Ok r <->
  opt_all (fun z => 1 <= z <= 100) (ro_ratio (no_rtt_spike (ov_network o))) /\
  opt_all (fun z => 1 <= z <= 600000) (ro_abs_ms (no_rtt_spike (ov_network o))) /\
  r = res_network (merge o b).
Proof.
  unfold apply_network. rewrite rbind_Ok.
  setoid_rewrite (checked_override_Ok _ _ (between 1 100) _ _ _ (between_true 1 100)).
  setoid_rewrite rbind_Ok.
  setoid_rewrite (checked_override_Ok _ _ (between 1 MAX_RTT_ABS_MS) _ _ _ (between_true 1 600000)).
  split.
  - intros (x & [Hx ->] & y & [Hy ->] & [= <-]). done.
  - intros (Hx & Hy & ->). eauto 10.
Qed.

Lemma apply_storage_Ok (o : ProfileOverrides) (b : ResolvedProfile) (r : ResolvedStorage) :
  apply_storage (ov_storage o) (res_storage b) = Ok r <->
  opt_all (fun z => 1 <= z <= 60000) (so_warning_ms (sto_slow_io (ov_storage o))) /\
  opt_all (fun z => 1 <= z <= 600000) (so_critical_ms (sto_slow_io (ov_storage o))) /\
  rs_slow_io_warning_ms (res_storage (merge o b)) <= rs_slow_io_critical_ms (res_storage (merge o b)) /\
  r = res_storage (merge o b).
Proof.
  unfold apply_storage. rewrite rbind_Ok.
  setoid_rewrite (checked_override_Ok _ _ (between 1 MAX_WARNING_MS) _ _ _ (between_true 1 60000)).
  setoid_rewrite rbind_Ok.
  setoid_rewrite (checked_override_Ok _ _ (between 1 MAX_CRITICAL_MS) _ _ _ (between_true 1 600000)).
  split.
  - intros (x & [Hx ->] & y & [Hy ->] & Hr). destruct (Z.ltb_spec (default (rs_slow_io_critical_ms (res_storage b))
      (so_critical_ms (sto_slow_io (ov_storage o)))) (default (rs_slow_io_warning_ms (res_storage b))
      (so_warning_ms (sto_slow_io (ov_storage o))))); [done|]. by simplify_eq.
  - intros (Hx & Hy & Hle & ->). do 2 (eexists; split; [by split|]). simpl in Hle.
    destruct (Z.ltb_spec (default (rs_slow_io_critical_ms (res_storage b))
      (so_critical_ms (sto_slow_io (ov_storage o)))) (default (rs_slow_io_warning_ms (res_storage b))
      (so_warning_ms (sto_slow_io (ov_storage o))))); [lia|done].
Qed.

Lemma apply_container_Ok (o : ProfileOverrides) (b : ResolvedProfile) (r : ResolvedContainer) :
  apply_container (ov_container o) (res_container b) = Ok r <->
  opt_all (fun l => zlen l <= 16 /\ Forall (fun c => 0 <= c <= 255) l)
    (co_ignore_exit_codes (ov_container o)) /\
  r = res_container (merge o b).
Proof.
  unfold apply_container, merge, MAX_IGNORE_EXIT_CODES.
  destruct (co_ignore_exit_codes (ov_container o)) as [l|]; cbn -[zlen replicate]; [|naive_solver].
  destruct (Z.ltb_spec 16 (zlen l)).
  { split; [done|]. intros [[? _] _]. lia. }
  rewrite rbind_Ok. setoid_rewrite check_codes_Ok. split.
  - intros (x & [Hr ->] & [= <-]). done.
  - intros [[_ Hr] ->]. eauto.
Qed.

Lemma apply_node_pmc_Ok (o : ProfileOverrides) (b : ResolvedProfile) (r : ResolvedNodePmc) :
  apply_node_pmc (ov_node_pmc o) (res_node_pmc b) = Ok r <->
  opt_all (f64_within 0 100) (sp_warning (po_stall_pct (ov_node_pmc o))) /\
  opt_all (f64_within 0 100) (sp_critical (po_stall_pct (ov_node_pmc o))) /\
  opt_all (f64_within 0 16) (po_ipc_degradation (ov_node_pmc o)) /\
  f64_lt (rp_stall_pct_critical (res_node_pmc (merge o b)))
         (rp_stall_pct_warning (res_node_pmc (merge o b))) = false /\
  r = res_node_pmc (merge o b).
Proof.
  unfold apply_node_pmc. rewrite rbind_Ok. setoid_rewrite finite_override_Ok.
  setoid_rewrite rbind_Ok. setoid_rewrite finite_override_Ok. split.
  - intros (w & [Hw ->] & c & [Hc ->] & Hr).
    destruct (f64_lt _ _) eqn:Hlt in Hr; [done|].
    apply rbind_Ok in Hr as (i & Hi & [= <-]). apply finite_override_Ok in Hi as [Hi ->]. done.
  - intros (Hw & Hc & Hi & Hlt & ->). do 2 (eexists; split; [by split|]). simpl in Hlt. rewrite Hlt.
    apply rbind_Ok. eexists. rewrite finite_override_Ok. split; [by split|done].
Qed.

Lemma validate_envelope_Ok (p : EvidenceProfile) :
  validate_envelope p = Ok tt <-> ep_api_version p = Some API_VERSION /\ ep_kind p = Some KIND.
Proof.
  unfold validate_envelope. repeat case_bool_decide; simpl; naive_solver.
Qed.

(** * The invariant of resolved profiles *)

Record profile_wf (r : ResolvedProfile) : Prop := {
  pw_ratio : 1 <= rn_rtt_spike_ratio (res_network r) <= 100;
  pw_abs : 1 <= rn_rtt_spike_abs_ms (res_network r) <= 600000;
  pw_warning : 1 <= rs_slow_io_warning_ms (res_storage r) <= 60000;
  pw_critical : 1 <= rs_slow_io_critical_ms (res_storage r) <= 600000;
  pw_ordered : thresholds_ordered r;
  pw_codes : Forall (fun c => 0 <= c <= 255) (rc_ignore_exit_codes (res_container r));
  pw_codes_nodup : NoDup (rc_ignore_exit_codes (res_container r));
  pw_codes_count : zlen (rc_ignore_exit_codes (res_container r)) <= 16;
  pw_stall_warning : f64_within 0 100 (rp_stall_pct_warning (res_node_pmc r));
  pw_stall_critical : f64_within 0 100 (rp_stall_pct_critical (res_node_pmc r));
  pw_ipc : f64_within 0 16 (rp_ipc_degradation (res_node_pmc r));
  pw_structural : 2 <= rn_rtt_min_baseline_samples (res_network r) <= 255 /\
                  is_u64 (rn_conn_refused_window_ns (res_network r)) /\
                  is_u32 (rn_conn_refused_min_count (res_network r));
}.

Lemma production_default_wf : profile_wf production_default.
Proof. constructor; try (simpl; lia); try (repeat constructor; vm_compute; done); simpl; split_and!; width_lia. Qed.

Lemma opt_all_default {A : Type} (P : A -> Prop) (o : option A) (d : A) :
  opt_all P o -> P d -> P (default d o).
Proof. by destruct o. Qed.

Lemma merge_wf (o : ProfileOverrides) (b : ResolvedProfile) :
  profile_wf b -> overrides_in_range o -> thresholds_ordered (merge o b) -> profile_wf (merge o b).
Proof.
  intros [b1 b2 b3 b4 b5 b6 b7 b8 b9 b10 b11 b12] (H1 & H2 & H3 & H4 & H5 & H6 & H7 & H8) Ho.
  assert (Hcodes : opt_all (fun l => Forall (fun c => 0 <= c <= 255) l /\ NoDup l /\ zlen l <= 16)
    (nub <$> co_ignore_exit_codes (ov_container o))).
  { destruct (co_ignore_exit_codes (ov_container o)) as [l|]; simpl in *; [|done].
    destruct H5 as [Hlen Hl]. pose proof (nub_length l). auto using nub_Forall, nub_NoDup with lia. }
  pose proof (opt_all_default _ _ _ Hcodes (conj b6 (conj b7 b8))) as (c1 & c2 & c3).
  constructor.
  - exact (opt_all_default _ _ _ H1 b1).
  - exact (opt_all_default _ _ _ H2 b2).
  - exact (opt_all_default _ _ _ H3 b3).
  - exact (opt_all_default _ _ _ H4 b4).
  - exact Ho.
  - exact c1.
  - exact c2.
  - exact c3.
  - exact (opt_all_default _ _ _ H6 b9).
  - exact (opt_all_default _ _ _ H7 b10).
  - exact (opt_all_default _ _ _ H8 b11).
  - exact b12.
Qed.

(** The compiled configuration of a well-formed profile: no multiplication
    wraps. *)
Record compiled_exact (r : ResolvedProfile) (c : CompiledConfig) : Prop := {
  ce_abs_us : cn_rtt_spike_abs_us (cfg_network c) = 1000 * rn_rtt_spike_abs_ms (res_network r);
  ce_abs_range : 1000 <= cn_rtt_spike_abs_us (cfg_network c) <= 600000000;
  ce_ratio_range : 1 <= cn_rtt_spike_ratio (cfg_network c) <= 100;
  ce_warning_ns :
    cs_slow_io_warning_ns (cfg_storage c) = 1000000 * rs_slow_io_warning_ms (res_storage r);
  ce_critical_ns :
    cs_slow_io_critical_ns (cfg_storage c) = 1000000 * rs_slow_io_critical_ms (res_storage r);
  ce_io_ordered :
    0 < cs_slow_io_warning_ns (cfg_storage c) <= cs_slow_io_critical_ns (cfg_storage c);
  ce_io_range : cs_slow_io_critical_ns (cfg_storage c) <= 600000000000;
  ce_codes_ok : Forall (fun x => 0 <= x <= 255) (cc_ignore_exit_codes (cfg_container c));
  ce_codes_nodup : NoDup (cc_ignore_exit_codes (cfg_container c));
  ce_codes_count : zlen (cc_ignore_exit_codes (cfg_container c)) <= 16;
  ce_permille : is_u32 (cp_stall_warning_permille (cfg_node_pmc c)) /\
                is_u32 (cp_stall_critical_permille (cfg_node_pmc c)) /\
                is_u32 (cp_ipc_degradation_milli (cfg_node_pmc c));
  ce_structural : 2 <= cn_rtt_min_baseline_samples (cfg_network c) <= 255 /\
                  is_u64 (cn_conn_refused_window_ns (cfg_network c)) /\
                  is_u32 (cn_conn_refused_min_count (cfg_network c));
}.

Lemma compile_exact (v : ValidatedProfile) :
  profile_wf (resolved v) -> compiled_exact (resolved v) (profile_compile v).
Proof.
  intros [? ? ? ? [Hio _] ? ? ? ? ? ? ?].
  assert (Hus : wrap32 (rn_rtt_spike_abs_ms (res_network (resolved v)) * 1000)
                = rn_rtt_spike_abs_ms (res_network (resolved v)) * 1000) by (apply wrap32_small; width_lia).
  assert (Hw : wrap64 (rs_slow_io_warning_ms (res_storage (resolved v)) * 1000000)
               = rs_slow_io_warning_ms (res_storage (resolved v)) * 1000000)
    by (apply wrap64_small; width_lia).
  assert (Hc : wrap64 (rs_slow_io_critical_ms (res_storage (resolved v)) * 1000000)
               = rs_slow_io_critical_ms (res_storage (resolved v)) * 1000000)
    by (apply wrap64_small; width_lia).
  constructor; try done; cbn -[wrap32 wrap64 f64_as_u32]; rewrite ?Hus, ?Hw, ?Hc; try lia.
  unfold is_u32, f64_as_u32. repeat split; apply f64_to_int_range; width_lia.
Qed.

Definition builtins_wf (builtins : BuiltinSet) : Prop :=
  forall name r, bt_get name builtins = Some r -> profile_wf r.

Lemma builtins_v0_wf : builtins_wf BuiltinSet_v0.
Proof.
  intros name r. unfold BuiltinSet_v0. cbn [bt_get].
  destruct (kcmp name PRODUCTION_DEFAULT); [|done|done]. intros [= <-]. apply production_default_wf.
Qed.

Lemma validate_iff (p : EvidenceProfile) (builtins : BuiltinSet) (v : ValidatedProfile) :
  profile_validate p builtins = Ok v <->
  ep_api_version p = Some API_VERSION /\ ep_kind p = Some KIND /\
  exists name base,
    ep_base p = Some name /\ valid_profile_name name = true /\
    bt_get name builtins = Some base /\
    overrides_in_range (ep_overrides p) /\
    thresholds_ordered (merge (ep_overrides p) base) /\
    v = {| resolved := merge (ep_overrides p) base |}.
Proof.
  unfold profile_validate, overrides_in_range, thresholds_ordered.
  rewrite unit_rbind_Ok, validate_envelope_Ok, rbind_Ok.
  split.
  - intros [[Ha Hk] (name & Hn & H)]. split; [done|]. split; [done|].
    destruct (ep_base p) as [n|]; simplify_eq/=.
    destruct (valid_profile_name name) eqn:Hv; simpl in H; [|done].
    apply rbind_Ok in H as (base & Hb & H). destruct (bt_get name builtins) as [base'|] eqn:Hg; simplify_eq/=.
    apply rbind_Ok in H as (rn & Hrn%apply_network_Ok & H).
    apply rbind_Ok in H as (rs & Hrs%apply_storage_Ok & H).
    apply rbind_Ok in H as (rc & Hrc%apply_container_Ok & H).
    apply rbind_Ok in H as (rp & Hrp%apply_node_pmc_Ok & H).
    destruct_and?. subst. injection H as <-. exists name, base. auto 20.
  - intros (Ha & Hk & name & base & -> & Hv & Hg & Hr & Ho & ->). split; [done|].
    exists name. split; [done|]. rewrite Hv. simpl. rewrite Hg. simpl.
    destruct Hr as (H1 & H2 & H3 & H4 & H5 & H6 & H7 & H8). destruct Ho as [Ho1 Ho2].
    rewrite (proj2 (apply_network_Ok _ base (res_network (merge (ep_overrides p) base)))) by auto. cbn [rbind].
    rewrite (proj2 (apply_storage_Ok _ base (res_storage (merge (ep_overrides p) base)))) by auto. cbn [rbind].
    rewrite (proj2 (apply_container_Ok _ base (res_container (merge (ep_overrides p) base)))) by auto. cbn [rbind].
    rewrite (proj2 (apply_node_pmc_Ok _ base (res_node_pmc (merge (ep_overrides p) base)))) by auto. done.
Qed.

(** * Properties *)

(** C28. [validate] accepts a document exactly when its envelope is the spoken one,
    its base is a well-formed name of the set, every override is in range and
    the thresholds of the merged profile are ordered; the result is the base
    with every override applied, exit codes deduplicated in order. *)
Theorem profile_validate_spec (p : EvidenceProfile) (builtins : BuiltinSet) (v : ValidatedProfile) :
  profile_validate p builtins = Ok v <->
  ep_api_version p = Some API_VERSION /\ ep_kind p = Some KIND /\
  exists name base,
    ep_base p = Some name /\ valid_profile_name name = true /\
    bt_get name builtins = Some base /\
    overrides_in_range (ep_overrides p) /\
    thresholds_ordered (merge (ep_overrides p) base) /\
    v = {| resolved := merge (ep_overrides p) base |}.
Proof. apply validate_iff. Qed.

(** C29. A profile accepted against the built-in set compiles without any
    multiplication wrapping at its width: the wire values are exactly the
    milliseconds scaled, the I/O thresholds are positive and ordered, and at
    most sixteen distinct exit codes in 0..255 are kept. *)
Theorem validated_profile_compiles_exactly (p : EvidenceProfile) (v : ValidatedProfile)
    (Hv : profile_validate p BuiltinSet_v0 = Ok v) :
  profile_wf (resolved v) /\ compiled_exact (resolved v) (profile_compile v).
Proof.
  apply validate_iff in Hv as (_ & _ & name & base & _ & _ & Hb & Hr & Ho & ->).
  assert (Hwf : profile_wf (merge (ep_overrides p) base)).
  { apply merge_wf; [by eapply builtins_v0_wf|done|done]. }
  split; [done|]. by apply compile_exact.
Qed.

Definition sample_profile : EvidenceProfile := {|
  ep_api_version := Some API_VERSION;
  ep_kind := Some KIND;
  ep_base := Some PRODUCTION_DEFAULT;
  ep_overrides := {|
    ov_network := {| no_enabled := None;
                     no_rtt_spike := {| ro_ratio := Some 3; ro_abs_ms := Some 600000 |} |};
    ov_storage := {| sto_enabled := None;
                     sto_slow_io := {| so_warning_ms := Some 60000; so_critical_ms := Some 600000 |} |};
    ov_container := {| co_enabled := Some true;
                       co_ignore_exit_codes := Some [143; 0; 143; 137; 0] |};
    ov_node_pmc := {| po_enabled := Some false;
                      po_stall_pct := {| sp_warning := Some (f64_of_ratio 161 10); sp_critical := None |};
                      po_ipc_degradation := None |};
  |};
|}.

Definition sample_validated : ValidatedProfile :=
  {| resolved := merge (ep_overrides sample_profile) production_default |}.

Lemma validated_profile_compiles_exactly_witness :
  cc_ignore_exit_codes (cfg_container (profile_compile sample_validated)) = [143; 0; 137] /\
  compiled_exact (resolved sample_validated) (profile_compile sample_validated).
Proof.
  split; [reflexivity|].
  apply (validated_profile_compiles_exactly sample_profile sample_validated).
  vm_compute. reflexivity.
Defined.
