(* ===== verification/CommonEbpf.v ===== *)
(** [tapio-common/src/ebpf.rs]: the structures shared with the eBPF programs,
    read from and written to raw bytes, and their helper methods.  A byte is a
    [Z] in [0 .. 255]; the hosts are little-endian (x86_64 and arm64). *)
From Stdlib Require Import String.
From Corelib Require Import SpecFloat.
From S2P Require Import Prelude RustStr Float64.

Local Open Scope Z_scope.

Definition AF_INET : Z := 2.
Definition AF_INET6 : Z := 10.

Definition NET_EVENT_STATE_CHANGE : Z := 0.
Definition NET_EVENT_RST_RECEIVED : Z := 1.
Definition NET_EVENT_RETRANSMIT : Z := 2.
Definition NET_EVENT_RTT_SPIKE : Z := 3.

Definition CONTAINER_EVENT_OOM : Z := 0.
Definition CONTAINER_EVENT_EXIT : Z := 1.

Definition TCP_ESTABLISHED : Z := 1.
Definition TCP_SYN_SENT : Z := 2.
Definition TCP_SYN_RECV : Z := 3.
Definition TCP_FIN_WAIT1 : Z := 4.
Definition TCP_FIN_WAIT2 : Z := 5.
Definition TCP_TIME_WAIT : Z := 6.
Definition TCP_CLOSE : Z := 7.
Definition TCP_CLOSE_WAIT : Z := 8.
Definition TCP_LAST_ACK : Z := 9.
Definition TCP_LISTEN : Z := 10.

Definition OP_READ : Z := 0.
Definition OP_WRITE : Z := 1.

Definition STORAGE_SEVERITY_NORMAL : Z := 0.
Definition STORAGE_SEVERITY_WARNING : Z := 1.
Definition STORAGE_SEVERITY_CRITICAL : Z := 2.

Definition TAPIO_CONFIG_ABI_VERSION : Z := 2.
Definition TAPIO_F_NETWORK : Z := Z.shiftl 1 0.
Definition TAPIO_F_STORAGE : Z := Z.shiftl 1 1.
Definition TAPIO_F_CONTAINER : Z := Z.shiftl 1 2.
Definition TAPIO_F_NODE_PMC : Z := Z.shiftl 1 3.
Definition TAPIO_CONFIG_MAX_IGNORE_EXIT_CODES : nat := 16.

(** * The configuration record written into the [tapio_config] maps *)

Record TapioConfig := {
  tc_abi_version : Z;
  tc_generation : Z;
  tc_flags : Z;
  tc_slow_io_threshold_ns : Z;
  tc_io_latency_critical_ns : Z;
  tc_conn_refused_window_ns : Z;
  tc_conn_refused_min_count : Z;
  tc_rtt_spike_multiplier : Z;
  tc_rtt_spike_abs_us : Z;
  tc_rtt_min_baseline_samples : Z;
  tc_ignore_exit_count : Z;
  tc_ignore_exit_codes : list Z;
  tc_pad : Z;
}.

#[export] Instance TapioConfig_eq_dec : EqDecision TapioConfig.
Proof. solve_decision. Defined.

Definition has_valid_abi (c : TapioConfig) : bool := tc_abi_version c =? TAPIO_CONFIG_ABI_VERSION.

Definition observer_enabled (c : TapioConfig) (flag : Z) : bool :=
  has_valid_abi c && negb (Z.land (tc_flags c) flag =? 0).

(** * Events *)

Record NetworkEvent := {
  ne_config_generation : Z;
  ne_pid : Z;
  ne_src_ip : Z;
  ne_dst_ip : Z;
  ne_src_ipv6 : list Z;
  ne_dst_ipv6 : list Z;
  ne_src_port : Z;
  ne_dst_port : Z;
  ne_family : Z;
  ne_protocol : Z;
  ne_event_type : Z;
  ne_old_state : Z;
  ne_new_state : Z;
  ne_rtt_baseline_ms : Z;
  ne_rtt_current_ms : Z;
  ne_total_retrans : Z;
  ne_snd_cwnd : Z;
  ne_comm : list Z;
}.

Record ContainerEvent := {
  ce_config_generation : Z;
  ce_memory_limit : Z;
  ce_memory_usage : Z;
  ce_timestamp_ns : Z;
  ce_cgroup_id : Z;
  ce_event_type : Z;
  ce_pid : Z;
  ce_tid : Z;
  ce_exit_code : Z;
  ce_signal : Z;
}.

Record StorageEvent := {
  se_config_generation : Z;
  se_pad0 : Z;
  se_timestamp_ns : Z;
  se_latency_ns : Z;
  se_cgroup_id : Z;
  se_sector : Z;
  se_dev_major : Z;
  se_dev_minor : Z;
  se_bytes : Z;
  se_pid : Z;
  se_error_code : Z;
  se_opcode : Z;
  se_severity : Z;
  se_comm : list Z;
  se_pad : list Z;
}.

Record PmcEvent := {
  pe_config_generation : Z;
  pe_cpu : Z;
  pe_cycles : Z;
  pe_instructions : Z;
  pe_stall_cycles : Z;
  pe_timestamp : Z;
}.

(** * Raw memory *)

Fixpoint le_combine (b : list Z) : Z :=
  match b with
  | [] => 0
  | x :: b' => x + 256 * le_combine b'
  end.

Fixpoint le_split (n : nat) (z : Z) : list Z :=
  match n with
  | O => []
  | S n' => z mod 256 :: le_split n' (z / 256)
  end.

(** A field of [n] bytes at the cursor, and the bytes after it. *)
Definition rd (n : nat) (b : list Z) : Z * list Z := (le_combine (take n b), drop n b).
Definition rd_bytes (n : nat) (b : list Z) : list Z * list Z := (take n b, drop n b).

(** Two's complement: the [i32] stored in four bytes. *)
Definition to_i32 (z : Z) : Z := if z <? 2 ^ 31 then z else z - 2 ^ 32.
Definition of_i32 (z : Z) : Z := z mod 2 ^ 32.

(** [ptr::read_unaligned] of a packed structure: its fields in order. *)
Definition read_NetworkEvent (b : list Z) : NetworkEvent :=
  let '(config_generation, b) := rd 4 b in
  let '(pid, b) := rd 4 b in
  let '(src_ip, b) := rd 4 b in
  let '(dst_ip, b) := rd 4 b in
  let '(src_ipv6, b) := rd_bytes 16 b in
  let '(dst_ipv6, b) := rd_bytes 16 b in
  let '(src_port, b) := rd 2 b in
  let '(dst_port, b) := rd 2 b in
  let '(family, b) := rd 2 b in
  let '(protocol, b) := rd 1 b in
  let '(event_type, b) := rd 1 b in
  let '(old_state, b) := rd 2 b in
  let '(new_state, b) := rd 2 b in
  let '(rtt_baseline_ms, b) := rd 2 b in
  let '(rtt_current_ms, b) := rd 2 b in
  let '(total_retrans, b) := rd 2 b in
  let '(snd_cwnd, b) := rd 2 b in
  let '(comm, b) := rd_bytes 16 b in
  {| ne_config_generation := config_generation; ne_pid := pid; ne_src_ip := src_ip;
     ne_dst_ip := dst_ip; ne_src_ipv6 := src_ipv6; ne_dst_ipv6 := dst_ipv6;
     ne_src_port := src_port; ne_dst_port := dst_port; ne_family := family;
     ne_protocol := protocol; ne_event_type := event_type; ne_old_state := old_state;
     ne_new_state := new_state; ne_rtt_baseline_ms := rtt_baseline_ms;
     ne_rtt_current_ms := rtt_current_ms; ne_total_retrans := total_retrans;
     ne_snd_cwnd := snd_cwnd; ne_comm := comm |}.

Definition read_ContainerEvent (b : list Z) : ContainerEvent :=
  let '(config_generation, b) := rd 4 b in
  let '(memory_limit, b) := rd 8 b in
  let '(memory_usage, b) := rd 8 b in
  let '(timestamp_ns, b) := rd 8 b in
  let '(cgroup_id, b) := rd 8 b in
  let '(event_type, b) := rd 4 b in
  let '(pid, b) := rd 4 b in
  let '(tid, b) := rd 4 b in
  let '(exit_code, b) := rd 4 b in
  let '(signal, b) := rd 4 b in
  {| ce_config_generation := config_generation; ce_memory_limit := memory_limit;
     ce_memory_usage := memory_usage; ce_timestamp_ns := timestamp_ns;
     ce_cgroup_id := cgroup_id; ce_event_type := event_type; ce_pid := pid; ce_tid := tid;
     ce_exit_code := to_i32 exit_code; ce_signal := to_i32 signal |}.

(** Not packed: the explicit padding makes every field aligned. *)
Definition read_StorageEvent (b : list Z) : StorageEvent :=
  let '(config_generation, b) := rd 4 b in
  let '(pad0, b) := rd 4 b in
  let '(timestamp_ns, b) := rd 8 b in
  let '(latency_ns, b) := rd 8 b in
  let '(cgroup_id, b) := rd 8 b in
  let '(sector, b) := rd 8 b in
  let '(dev_major, b) := rd 4 b in
  let '(dev_minor, b) := rd 4 b in
  let '(bytes, b) := rd 4 b in
  let '(pid, b) := rd 4 b in
  let '(error_code, b) := rd 4 b in
  let '(opcode, b) := rd 1 b in
  let '(severity, b) := rd 1 b in
  let '(comm, b) := rd_bytes 16 b in
  let '(pad, b) := rd_bytes 2 b in
  {| se_config_generation := config_generation; se_pad0 := pad0; se_timestamp_ns := timestamp_ns;
     se_latency_ns := latency_ns; se_cgroup_id := cgroup_id; se_sector := sector;
     se_dev_major := dev_major; se_dev_minor := dev_minor; se_bytes := bytes; se_pid := pid;
     se_error_code := to_i32 error_code; se_opcode := opcode; se_severity := severity;
     se_comm := comm; se_pad := pad |}.

Definition read_PmcEvent (b : list Z) : PmcEvent :=
  let '(config_generation, b) := rd 4 b in
  let '(cpu, b) := rd 4 b in
  let '(cycles, b) := rd 8 b in
  let '(instructions, b) := rd 8 b in
  let '(stall_cycles, b) := rd 8 b in
  let '(timestamp, b) := rd 8 b in
  {| pe_config_generation := config_generation; pe_cpu := cpu; pe_cycles := cycles;
     pe_instructions := instructions; pe_stall_cycles := stall_cycles;
     pe_timestamp := timestamp |}.

(** The C side: the structures of [ebpf/*.c] laid out in memory. *)
Definition write_network_event (e : NetworkEvent) : list Z :=
  le_split 4 (ne_config_generation e) ++ le_split 4 (ne_pid e) ++ le_split 4 (ne_src_ip e) ++
  le_split 4 (ne_dst_ip e) ++ ne_src_ipv6 e ++ ne_dst_ipv6 e ++ le_split 2 (ne_src_port e) ++
  le_split 2 (ne_dst_port e) ++ le_split 2 (ne_family e) ++ le_split 1 (ne_protocol e) ++
  le_split 1 (ne_event_type e) ++ le_split 2 (ne_old_state e) ++ le_split 2 (ne_new_state e) ++
  le_split 2 (ne_rtt_baseline_ms e) ++ le_split 2 (ne_rtt_current_ms e) ++
  le_split 2 (ne_total_retrans e) ++ le_split 2 (ne_snd_cwnd e) ++ ne_comm e.

Definition write_container_event (e : ContainerEvent) : list Z :=
  le_split 4 (ce_config_generation e) ++ le_split 8 (ce_memory_limit e) ++
  le_split 8 (ce_memory_usage e) ++ le_split 8 (ce_timestamp_ns e) ++ le_split 8 (ce_cgroup_id e) ++
  le_split 4 (ce_event_type e) ++ le_split 4 (ce_pid e) ++ le_split 4 (ce_tid e) ++
  le_split 4 (of_i32 (ce_exit_code e)) ++ le_split 4 (of_i32 (ce_signal e)).

Definition write_storage_event (e : StorageEvent) : list Z :=
  le_split 4 (se_config_generation e) ++ le_split 4 (se_pad0 e) ++ le_split 8 (se_timestamp_ns e) ++
  le_split 8 (se_latency_ns e) ++ le_split 8 (se_cgroup_id e) ++ le_split 8 (se_sector e) ++
  le_split 4 (se_dev_major e) ++ le_split 4 (se_dev_minor e) ++ le_split 4 (se_bytes e) ++
  le_split 4 (se_pid e) ++ le_split 4 (of_i32 (se_error_code e)) ++ le_split 1 (se_opcode e) ++
  le_split 1 (se_severity e) ++ se_comm e ++ se_pad e.

Definition write_pmc_event (e : PmcEvent) : list Z :=
  le_split 4 (pe_config_generation e) ++ le_split 4 (pe_cpu e) ++ le_split 8 (pe_cycles e) ++
  le_split 8 (pe_instructions e) ++ le_split 8 (pe_stall_cycles e) ++ le_split 8 (pe_timestamp e).

(** [size_of::<T>()] *)
Definition size_of_NetworkEvent : Z := 84.
Definition size_of_ContainerEvent : Z := 56.
Definition size_of_StorageEvent : Z := 80.
Definition size_of_PmcEvent : Z := 40.

(** * Helper methods *)

Definition cont_byte (b : Z) : bool := (128 <=? b) && (b <=? 191).

(** [std::str::from_utf8]: well-formed UTF-8 (no overlong form, no surrogate,
    nothing above U+10FFFF). *)
Fixpoint utf8_ok (b : list Z) : bool :=
  match b with
  | [] => true
  | x :: b1 =>
      if x <? 128 then utf8_ok b1
      else match b1 with
      | [] => false
      | y :: b2 =>
          if (194 <=? x) && (x <=? 223) then cont_byte y && utf8_ok b2
          else match b2 with
          | [] => false
          | z :: b3 =>
              if (224 <=? x) && (x <=? 239) then
                cont_byte y && cont_byte z
                && (if x =? 224 then 160 <=? y else if x =? 237 then y <=? 159 else true)
                && utf8_ok b3
              else match b3 with
              | [] => false
              | w :: b4 =>
                  (240 <=? x) && (x <=? 244) && cont_byte y && cont_byte z && cont_byte w
                  && (if x =? 240 then 144 <=? y else if x =? 244 then y <=? 143 else true)
                  && utf8_ok b4
              end
          end
      end
  end.

Fixpoint str_of_bytes (b : list Z) : string :=
  match b with
  | [] => EmptyString
  | x :: b' => String (chr x) (str_of_bytes b')
  end.

(** The bytes before the first NUL. *)
Fixpoint until_nul (b : list Z) : list Z :=
  match b with
  | [] => []
  | x :: b' => if x =? 0 then [] else x :: until_nul b'
  end.

Definition comm_str (comm : list Z) : string :=
  let name := until_nul comm in
  if utf8_ok name then str_of_bytes name else "<invalid>".

Definition ipv4_str (ip : Z) : string :=
  dec (Z.land ip 255) +:+ "." +:+ dec (Z.land (Z.shiftr ip 8) 255) +:+ "." +:+
  dec (Z.land (Z.shiftr ip 16) 255) +:+ "." +:+ dec (Z.land (Z.shiftr ip 24) 255).

(** [Ipv6Addr]'s Display (std). *)
Fixpoint hex_go (fuel : nat) (n : Z) (acc : string) : string :=
  match fuel with
  | O => acc
  | S fuel' =>
      let acc' := String (hex_nibble (n mod 16)) acc in
      if n <? 16 then acc' else hex_go fuel' (n / 16) acc'
  end.

(** [{:x}] of a [u16]: at most four digits. *)
Definition hex16 (n : Z) : string := hex_go 4 n EmptyString.

Fixpoint segments (b : list Z) : list Z :=
  match b with
  | hi :: lo :: b' => hi * 256 + lo :: segments b'
  | _ => []
  end.

(** The longest run of zero segments, the first one of that length:
    (start, length). *)
Fixpoint longest_zeros (segs : list Z) (i : nat) (cur best : nat * nat) : nat * nat :=
  match segs with
  | [] => best
  | s :: segs' =>
      if s =? 0 then
        let cur' := if (snd cur =? 0)%nat then (i, 1%nat) else (fst cur, S (snd cur)) in
        longest_zeros segs' (S i) cur' (if (snd best <? snd cur')%nat then cur' else best)
      else longest_zeros segs' (S i) (0%nat, 0%nat) best
  end.

Definition fmt_segments (segs : list Z) : string := join ":" (map hex16 segs).

Definition format_ipv6 (b : list Z) : string :=
  let segs := segments b in
  match segs with
  | [0; 0; 0; 0; 0; 65535; ab; cd] =>
      "::ffff:" +:+ dec (ab / 256) +:+ "." +:+ dec (ab mod 256) +:+ "." +:+
      dec (cd / 256) +:+ "." +:+ dec (cd mod 256)
  | _ =>
      let '(start, len) := longest_zeros segs 0 (0%nat, 0%nat) (0%nat, 0%nat) in
      if (1 <? len)%nat then
        fmt_segments (take start segs) +:+ "::" +:+ fmt_segments (drop (start + len) segs)
      else fmt_segments segs
  end.

Definition is_ipv6 (e : NetworkEvent) : bool := ne_family e =? AF_INET6.

Definition src_ipv4_str (e : NetworkEvent) : string := ipv4_str (ne_src_ip e).
Definition dst_ipv4_str (e : NetworkEvent) : string := ipv4_str (ne_dst_ip e).
Definition src_ipv6_str (e : NetworkEvent) : string := format_ipv6 (ne_src_ipv6 e).
Definition dst_ipv6_str (e : NetworkEvent) : string := format_ipv6 (ne_dst_ipv6 e).
Definition src_ip_str (e : NetworkEvent) : string :=
  if is_ipv6 e then src_ipv6_str e else src_ipv4_str e.
Definition dst_ip_str (e : NetworkEvent) : string :=
  if is_ipv6 e then dst_ipv6_str e else dst_ipv4_str e.

Definition is_oom (e : ContainerEvent) : bool := ce_event_type e =? CONTAINER_EVENT_OOM.
Definition is_exit (e : ContainerEvent) : bool := ce_event_type e =? CONTAINER_EVENT_EXIT.

Definition latency_ms (e : StorageEvent) : f64 :=
  f64_div (f64_of_Z (se_latency_ns e)) (f64_of_Z 1000000).
Definition has_error (e : StorageEvent) : bool := negb (se_error_code e =? 0).

Definition ipc (e : PmcEvent) : f64 :=
  if pe_cycles e =? 0 then f64_of_Z 0
  else f64_div (f64_of_Z (pe_instructions e)) (f64_of_Z (pe_cycles e)).

Definition stall_pct (e : PmcEvent) : f64 :=
  if pe_cycles e =? 0 then f64_of_Z 0
  else f64_mul (f64_div (f64_of_Z (pe_stall_cycles e)) (f64_of_Z (pe_cycles e))) (f64_of_Z 100).

Example ipv4_example : ipv4_str 16777343 = "127.0.0.1".
Proof. reflexivity. Qed.

Example ipv6_loopback : format_ipv6 (replicate 15 0 ++ [1]) = "::1".
Proof. reflexivity. Qed.

Example ipv6_global :
  format_ipv6 [32;1;13;184;0;0;0;0;0;0;0;0;0;0;0;1] = "2001:db8::1".
Proof. reflexivity. Qed.

Example ipv6_mapped : format_ipv6 [0;0;0;0;0;0;0;0;0;0;255;255;10;0;0;1] = "::ffff:10.0.0.1".
Proof. reflexivity. Qed.

(** * Lemmas *)

(** A value of [n] bytes; an [i32]. *)
Definition width (n : nat) (z : Z) : Prop := 0 <= z < 256 ^ Z.of_nat n.
Definition i32_ok (z : Z) : Prop := I32_MIN <= z <= I32_MAX.

Lemma le_split_length (n : nat) (z : Z) : length (le_split n z) = n.
Proof. revert z. induction n; simpl; auto. Qed.

Lemma le_combine_split (n : nat) (z : Z) :
  0 <= z < 256 ^ Z.of_nat n -> le_combine (le_split n z) = z.
Proof.
  revert z. induction n as [|n IH]; intros z Hz; [simpl in *; lia|].
  rewrite Nat2Z.inj_succ, Z.pow_succ_r in Hz by lia. simpl.
  rewrite IH; [pose proof (Z.div_mod z 256); lia|].
  split; [apply Z.div_pos; lia|apply Z.div_lt_upper_bound; lia].
Qed.

Lemma rd_app (n : nat) (z : Z) (b : list Z) :
  width n z -> rd n (le_split n z ++ b) = (z, b).
Proof.
  intros Hz. unfold rd. rewrite take_app_length', drop_app_length' by (symmetry; apply le_split_length).
  by rewrite le_combine_split.
Qed.

Lemma rd_bytes_app (n : nat) (x b : list Z) : length x = n -> rd_bytes n (x ++ b) = (x, b).
Proof. intros H. unfold rd_bytes. by rewrite take_app_length', drop_app_length' by done. Qed.

Lemma to_of_i32 (z : Z) : i32_ok z -> to_i32 (of_i32 z) = z.
Proof.
  unfold i32_ok. unfold_width. unfold to_i32, of_i32. intros H.
  destruct (Z.ltb_spec (z mod 2 ^ 32) (2 ^ 31)); Z.div_mod_to_equations; lia.
Qed.

Lemma of_i32_range (z : Z) : width 4 (of_i32 z).
Proof. unfold width, of_i32. apply Z.mod_pos_bound. reflexivity. Qed.

(** * Well-formed events: every field within its width *)

Definition NetworkEvent_wf (e : NetworkEvent) : Prop :=
  width 4 (ne_config_generation e) /\ width 4 (ne_pid e) /\ width 4 (ne_src_ip e) /\
  width 4 (ne_dst_ip e) /\ length (ne_src_ipv6 e) = 16%nat /\ length (ne_dst_ipv6 e) = 16%nat /\
  width 2 (ne_src_port e) /\ width 2 (ne_dst_port e) /\ width 2 (ne_family e) /\
  width 1 (ne_protocol e) /\ width 1 (ne_event_type e) /\ width 2 (ne_old_state e) /\
  width 2 (ne_new_state e) /\ width 2 (ne_rtt_baseline_ms e) /\ width 2 (ne_rtt_current_ms e) /\
  width 2 (ne_total_retrans e) /\ width 2 (ne_snd_cwnd e) /\ length (ne_comm e) = 16%nat.

Definition ContainerEvent_wf (e : ContainerEvent) : Prop :=
  width 4 (ce_config_generation e) /\ width 8 (ce_memory_limit e) /\ width 8 (ce_memory_usage e) /\
  width 8 (ce_timestamp_ns e) /\ width 8 (ce_cgroup_id e) /\ width 4 (ce_event_type e) /\
  width 4 (ce_pid e) /\ width 4 (ce_tid e) /\ i32_ok (ce_exit_code e) /\ i32_ok (ce_signal e).

Definition StorageEvent_wf (e : StorageEvent) : Prop :=
  width 4 (se_config_generation e) /\ width 4 (se_pad0 e) /\ width 8 (se_timestamp_ns e) /\
  width 8 (se_latency_ns e) /\ width 8 (se_cgroup_id e) /\ width 8 (se_sector e) /\
  width 4 (se_dev_major e) /\ width 4 (se_dev_minor e) /\ width 4 (se_bytes e) /\
  width 4 (se_pid e) /\ i32_ok (se_error_code e) /\ width 1 (se_opcode e) /\
  width 1 (se_severity e) /\ length (se_comm e) = 16%nat /\ length (se_pad e) = 2%nat.

Definition PmcEvent_wf (e : PmcEvent) : Prop :=
  width 4 (pe_config_generation e) /\ width 4 (pe_cpu e) /\ width 8 (pe_cycles e) /\
  width 8 (pe_instructions e) /\ width 8 (pe_stall_cycles e) /\ width 8 (pe_timestamp e).

(** Reads back, field by field, what the C side laid out. *)
Ltac read_fields :=
  repeat first
    [ rewrite rd_app by (assumption || apply of_i32_range); cbv beta iota
    | rewrite rd_bytes_app by assumption; cbv beta iota
    | rewrite to_of_i32 by assumption ].

Lemma read_network_event (e : NetworkEvent) (rest : list Z) :
  NetworkEvent_wf e -> read_NetworkEvent (write_network_event e ++ rest) = e.
Proof.
  intros H. unfold NetworkEvent_wf in H. destruct_and?.
  unfold read_NetworkEvent, write_network_event. rewrite <- !app_assoc. read_fields.
  by destruct e.
Qed.

Lemma read_container_event (e : ContainerEvent) (rest : list Z) :
  ContainerEvent_wf e -> read_ContainerEvent (write_container_event e ++ rest) = e.
Proof.
  intros H. unfold ContainerEvent_wf in H. destruct_and?.
  unfold read_ContainerEvent, write_container_event. rewrite <- !app_assoc. read_fields.
  by destruct e.
Qed.

Lemma read_storage_event (e : StorageEvent) (rest : list Z) :
  StorageEvent_wf e -> read_StorageEvent (write_storage_event e ++ rest) = e.
Proof.
  intros H. unfold StorageEvent_wf in H. destruct_and?.
  unfold read_StorageEvent, write_storage_event. rewrite <- !app_assoc. read_fields.
  by destruct e.
Qed.

Lemma read_pmc_event (e : PmcEvent) (rest : list Z) :
  PmcEvent_wf e -> read_PmcEvent (write_pmc_event e ++ rest) = e.
Proof.
  intros H. unfold PmcEvent_wf in H. destruct_and?.
  unfold read_PmcEvent, write_pmc_event. rewrite <- !app_assoc. read_fields.
  by destruct e.
Qed.

(** The same without anything after it. *)
Lemma read_network_record (e : NetworkEvent) :
  NetworkEvent_wf e -> read_NetworkEvent (write_network_event e) = e.
Proof. rewrite <- (app_nil_r (write_network_event e)). apply read_network_event. Qed.
Lemma read_container_record (e : ContainerEvent) :
  ContainerEvent_wf e -> read_ContainerEvent (write_container_event e) = e.
Proof. rewrite <- (app_nil_r (write_container_event e)). apply read_container_event. Qed.
Lemma read_storage_record (e : StorageEvent) :
  StorageEvent_wf e -> read_StorageEvent (write_storage_event e) = e.
Proof. rewrite <- (app_nil_r (write_storage_event e)). apply read_storage_event. Qed.

Lemma event_sizes (n : NetworkEvent) (c : ContainerEvent) (s : StorageEvent) (p : PmcEvent) :
  NetworkEvent_wf n -> StorageEvent_wf s ->
  zlen (write_network_event n) = size_of_NetworkEvent /\
  zlen (write_container_event c) = size_of_ContainerEvent /\
  zlen (write_storage_event s) = size_of_StorageEvent /\
  zlen (write_pmc_event p) = size_of_PmcEvent.
Proof.
  unfold NetworkEvent_wf, StorageEvent_wf. intros Hn Hs. destruct_and?.
  unfold zlen, write_network_event, write_container_event, write_storage_event, write_pmc_event.
  rewrite !length_app, !le_split_length.
  unfold size_of_NetworkEvent, size_of_ContainerEvent, size_of_StorageEvent, size_of_PmcEvent. lia.
Qed.

(** * Properties *)

(** C33. Every record the C programs write is read back unchanged by the agent,
    whatever follows it in the ring buffer, and has the size the agent checks
    for: 84, 56, 80 and 40 bytes. *)
Theorem event_layouts_agree (n : NetworkEvent) (c : ContainerEvent) (s : StorageEvent) (p : PmcEvent)
    (rest : list Z)
    (Hn : NetworkEvent_wf n) (Hc : ContainerEvent_wf c) (Hs : StorageEvent_wf s)
    (Hp : PmcEvent_wf p) :
  (read_NetworkEvent (write_network_event n ++ rest) = n /\
   zlen (write_network_event n) = size_of_NetworkEvent) /\
  (read_ContainerEvent (write_container_event c ++ rest) = c /\
   zlen (write_container_event c) = size_of_ContainerEvent) /\
  (read_StorageEvent (write_storage_event s ++ rest) = s /\
   zlen (write_storage_event s) = size_of_StorageEvent) /\
  (read_PmcEvent (write_pmc_event p ++ rest) = p /\
   zlen (write_pmc_event p) = size_of_PmcEvent).
Proof.
  destruct (event_sizes n c s p Hn Hs) as (? & ? & ? & ?).
  auto 10 using read_network_event, read_container_event, read_storage_event, read_pmc_event.
Qed.

Definition sample_comm : list Z := [110;103;105;110;120;0;0;0;0;0;0;0;0;0;0;0].

Definition sample_network : NetworkEvent := {|
  ne_config_generation := 7; ne_pid := 4242; ne_src_ip := 16777343; ne_dst_ip := 33554442;
  ne_src_ipv6 := replicate 16 0; ne_dst_ipv6 := replicate 16 0; ne_src_port := 40000;
  ne_dst_port := 5432; ne_family := 2; ne_protocol := 6; ne_event_type := 1; ne_old_state := 0;
  ne_new_state := 0; ne_rtt_baseline_ms := 0; ne_rtt_current_ms := 0; ne_total_retrans := 0;
  ne_snd_cwnd := 0; ne_comm := sample_comm |}.

Definition sample_container : ContainerEvent := {|
  ce_config_generation := 7; ce_memory_limit := 0; ce_memory_usage := 268435456;
  ce_timestamp_ns := 5000000000; ce_cgroup_id := 99; ce_event_type := 1; ce_pid := 4242;
  ce_tid := 4243; ce_exit_code := -1; ce_signal := 9 |}.

Definition sample_storage : StorageEvent := {|
  se_config_generation := 7; se_pad0 := 0; se_timestamp_ns := 5000000000;
  se_latency_ns := 250000000; se_cgroup_id := 0; se_sector := 2048; se_dev_major := 8;
  se_dev_minor := 1; se_bytes := 4096; se_pid := 1; se_error_code := -5; se_opcode := 1;
  se_severity := 2; se_comm := sample_comm; se_pad := [0; 0] |}.

Definition sample_pmc_event : PmcEvent := {|
  pe_config_generation := 7; pe_cpu := 3; pe_cycles := 1000000; pe_instructions := 400000;
  pe_stall_cycles := 250000; pe_timestamp := 5000000000 |}.

Lemma event_layouts_agree_witness :
  read_ContainerEvent (write_container_event sample_container ++ [1; 2; 3]) = sample_container.
Proof.
  apply (event_layouts_agree sample_network sample_container sample_storage sample_pmc_event [1; 2; 3]);
    unfold NetworkEvent_wf, ContainerEvent_wf, StorageEvent_wf, PmcEvent_wf, width, i32_ok;
    vm_compute; intuition congruence.
Defined.
