(* ===== verification/Occurrence.v ===== *)
(** [tapio-common/src/occurrence.rs] and [events.rs]: the occurrence document,
    its builders and its validation.  The identifier (a ULID) and the wall
    clock are arguments. *)
From Stdlib Require Import String.
From S2P Require Import Prelude RustStr BTree Float64 Json.

Local Open Scope Z_scope.

Definition NETWORK_CONNECTION_REFUSED : string := "kernel.network.connection_refused".
Definition NETWORK_CONNECTION_TIMEOUT : string := "kernel.network.connection_timeout".
Definition NETWORK_RETRANSMIT_SPIKE : string := "kernel.network.retransmit_spike".
Definition NETWORK_RTT_DEGRADATION : string := "kernel.network.rtt_degradation".
Definition CONTAINER_OOM_KILL : string := "kernel.container.oom_kill".
Definition CONTAINER_ABNORMAL_EXIT : string := "kernel.container.abnormal_exit".
Definition STORAGE_IO_ERROR : string := "kernel.storage.io_error".
Definition STORAGE_LATENCY_SPIKE : string := "kernel.storage.latency_spike".
Definition NODE_CPU_STALL : string := "kernel.node.cpu_stall".
Definition NODE_MEMORY_PRESSURE : string := "kernel.node.memory_pressure".
Definition NODE_IPC_DEGRADATION : string := "kernel.node.ipc_degradation".

Inductive Severity : Type := Debug | Info | Warning | Error | Critical.

Inductive Outcome : Type := Success | Failure | Timeout | InProgress | OutcomeUnknown.

#[export] Instance Severity_eq_dec : EqDecision Severity.
Proof. solve_decision. Defined.

#[export] Instance Outcome_eq_dec : EqDecision Outcome.
Proof. solve_decision. Defined.

Record OccurrenceError := {
  oe_code : string;
  oe_message : string;
  oe_what_failed : option string;
  oe_why_it_matters : option string;
  oe_possible_causes : option (list string);
  oe_suggested_fix : option string;
}.

Record Reasoning := {
  rea_summary : option string;
  rea_explanation : option string;
  rea_confidence : option f64;
  rea_causal_chain : option (list string);
  rea_patterns_matched : option (list string);
}.

Record History := {
  his_previous_ids : option (list string);
  his_lifecycle : option string;
}.

Record Entity := {
  ent_kind : string;
  ent_id : string;
  ent_name : option string;
  ent_version : option string;
}.

Record Context_ := {
  ctx_cluster : option string;
  ctx_node : option string;
  ctx_namespace : option string;
  ctx_trace_id : option string;
  ctx_span_id : option string;
  ctx_entities : list Entity;
  ctx_correlation_keys : list string;
}.

Record Occurrence := {
  oc_id : string;
  oc_timestamp : string;
  oc_source : string;
  oc_occurrence_type : string;
  oc_severity : Severity;
  oc_outcome : Outcome;
  oc_protocol_version : string;
  oc_error : option OccurrenceError;
  oc_context : option Context_;
  oc_reasoning : option Reasoning;
  oc_history : option History;
  oc_data : option json;
}.

(** * Timestamps *)

(** [i64] arithmetic of a release build. *)
Definition i64 (z : Z) : Z := (z + 2 ^ 63) mod 2 ^ 64 - 2 ^ 63.

(** [/] on [i64] truncates toward zero. *)
Definition civil_from_days (days_since_unix_epoch : Z) : Z * Z * Z :=
  let z := i64 (days_since_unix_epoch + 719468) in
  let era := Z.quot (if 0 <=? z then z else i64 (z - 146096)) 146097 in
  let doe := i64 (z - era * 146097) in
  let yoe := Z.quot (doe - Z.quot doe 1460 + Z.quot doe 36524 - Z.quot doe 146096) 365 in
  let year := i64 (yoe + era * 400) in
  let doy := doe - (365 * yoe + Z.quot yoe 4 - Z.quot yoe 100) in
  let mp := Z.quot (5 * doy + 2) 153 in
  let day := doy - Z.quot (153 * mp + 2) 5 + 1 in
  let month := mp + (if mp <? 10 then 3 else -9) in
  let year := if month <=? 2 then i64 (year + 1) else year in
  (year, month, day).

Definition unix_nanos_to_rfc3339 (nanos : Z) : string :=
  let secs := nanos / 1000000000 in
  let subsec_nanos := nanos mod 1000000000 in
  let days := secs / 86400 in
  let seconds_of_day := secs mod 86400 in
  let '(year, month, day) := civil_from_days days in
  let hour := seconds_of_day / 3600 in
  let minute := (seconds_of_day mod 3600) / 60 in
  let second := seconds_of_day mod 60 in
  let date_time :=
    dec_pad 4 year +:+ "-" +:+ dec_pad 2 month +:+ "-" +:+ dec_pad 2 day +:+ "T" +:+
    dec_pad 2 hour +:+ ":" +:+ dec_pad 2 minute +:+ ":" +:+ dec_pad 2 second in
  if subsec_nanos =? 0 then date_time +:+ "+00:00"
  else date_time +:+ "." +:+ dec_pad 9 subsec_nanos +:+ "+00:00".

(** [SystemTime::now()] as nanoseconds since the epoch, saturating; a clock
    before the epoch counts as the epoch. *)
Definition unix_now (now : Z) : Z :=
  if now <? 0 then 0 else sat_add64 (sat_mul64 (now / 1000000000) 1000000000) (now mod 1000000000).

Definition now_rfc3339 (now : Z) : string := unix_nanos_to_rfc3339 (unix_now now).

(** * Builders *)

Definition Occurrence_at (id timestamp occurrence_type : string) (severity : Severity)
    (outcome : Outcome) : Occurrence := {|
  oc_id := id;
  oc_timestamp := timestamp;
  oc_source := "tapio";
  oc_occurrence_type := occurrence_type;
  oc_severity := severity;
  oc_outcome := outcome;
  oc_protocol_version := "1.0";
  oc_error := None;
  oc_context := None;
  oc_reasoning := None;
  oc_history := None;
  oc_data := None;
|}.

Definition Occurrence_new (id : string) (now : Z) (occurrence_type : string) (severity : Severity)
    (outcome : Outcome) : Occurrence :=
  Occurrence_at id (now_rfc3339 now) occurrence_type severity outcome.

Definition Occurrence_new_at (id : string) (occurrence_type : string) (severity : Severity)
    (outcome : Outcome) (wall_ns : Z) : Occurrence :=
  Occurrence_at id (unix_nanos_to_rfc3339 wall_ns) occurrence_type severity outcome.

Definition with_error (code message : string) (o : Occurrence) : Occurrence := {|
  oc_id := oc_id o; oc_timestamp := oc_timestamp o; oc_source := oc_source o;
  oc_occurrence_type := oc_occurrence_type o; oc_severity := oc_severity o;
  oc_outcome := oc_outcome o; oc_protocol_version := oc_protocol_version o;
  oc_error := Some {| oe_code := code; oe_message := message; oe_what_failed := None;
                      oe_why_it_matters := None; oe_possible_causes := None;
                      oe_suggested_fix := None |};
  oc_context := oc_context o; oc_reasoning := oc_reasoning o; oc_history := oc_history o;
  oc_data := oc_data o |}.

Definition with_context (ctx : Context_) (o : Occurrence) : Occurrence := {|
  oc_id := oc_id o; oc_timestamp := oc_timestamp o; oc_source := oc_source o;
  oc_occurrence_type := oc_occurrence_type o; oc_severity := oc_severity o;
  oc_outcome := oc_outcome o; oc_protocol_version := oc_protocol_version o;
  oc_error := oc_error o; oc_context := Some ctx; oc_reasoning := oc_reasoning o;
  oc_history := oc_history o; oc_data := oc_data o |}.

Definition with_data (data : json) (o : Occurrence) : Occurrence := {|
  oc_id := oc_id o; oc_timestamp := oc_timestamp o; oc_source := oc_source o;
  oc_occurrence_type := oc_occurrence_type o; oc_severity := oc_severity o;
  oc_outcome := oc_outcome o; oc_protocol_version := oc_protocol_version o;
  oc_error := oc_error o; oc_context := oc_context o; oc_reasoning := oc_reasoning o;
  oc_history := oc_history o; oc_data := Some data |}.

(** * Validation: the list of everything wrong *)

Definition type_errors (occurrence_type : string) : list string :=
  if str_empty occurrence_type then ["type is required"]
  else
    let segments := split "." occurrence_type in
    if negb (zlen segments =? 3) || existsb str_empty segments then
      ["type must have exactly 3 non-empty dot-separated segments"]
    else [].

Definition Occurrence_validate (o : Occurrence) : result unit (list string) :=
  let errors :=
    (if str_empty (oc_source o) then ["source is required"] else [])
    ++ type_errors (oc_occurrence_type o)
    ++ (if str_empty (oc_protocol_version o) then ["protocol_version is required"] else []) in
  if is_empty errors then Ok tt else Err errors.

Example rfc3339_epoch : unix_nanos_to_rfc3339 0 = "1970-01-01T00:00:00+00:00".
Proof. reflexivity. Qed.

Example rfc3339_leap :
  unix_nanos_to_rfc3339 1709210096000000042 = "2024-02-29T12:34:56.000000042+00:00".
Proof. vm_compute. reflexivity. Qed.

Example rfc3339_max : unix_nanos_to_rfc3339 U64_MAX = "2554-07-21T23:34:33.709551615+00:00".
Proof. vm_compute. reflexivity. Qed.

(** * Lemmas *)

Lemma i64_small (z : Z) : I64_MIN <= z <= I64_MAX -> i64 z = z.
Proof. intros H. unfold i64. rewrite Z.mod_small; width_lia. Qed.

Lemma unix_now_u64 (now : Z) : is_u64 (unix_now now).
Proof.
  unfold unix_now. destruct (Z.ltb_spec now 0); [width_lia|].
  pose proof (Z.mod_pos_bound now 1000000000). pose proof (Z.div_pos now 1000000000). width_lia.
Qed.

(** Years start at a day that grows with the year, and the year of a day is the
    one whose start is the last at or before the day. *)
Definition year_start (y : Z) : Z := 365 * y + y / 4 - y / 100.
Definition leap_days (doe : Z) : Z := doe - doe / 1460 + doe / 36524 - doe / 146096.

Lemma year_start_mono (a b : Z) : 0 <= a <= b -> year_start a <= year_start b.
Proof.
  unfold year_start. intros H.
  pose proof (Z.div_le_mono a b 4). pose proof (Z.div_mod a 100). pose proof (Z.div_mod b 100).
  pose proof (Z.mod_pos_bound a 100). pose proof (Z.mod_pos_bound b 100). lia.
Qed.

Lemma leap_days_step (d : Z) : 0 <= d -> leap_days d <= leap_days (d + 1) \/ d + 1 > 146096.
Proof.
  unfold leap_days. intros H. destruct (Z.le_gt_cases (d + 1) 146096); [left|right; lia].
  destruct (Z.eq_dec (d + 1) 146096) as [He|].
  { assert (d = 146095) as -> by lia. vm_compute. discriminate. }
  rewrite (Z.div_small d 146096), (Z.div_small (d + 1) 146096) by lia.
  pose proof (Z.div_le_mono d (d + 1) 36524).
  pose proof (Z.div_mod d 1460). pose proof (Z.div_mod (d + 1) 1460).
  pose proof (Z.mod_pos_bound d 1460). pose proof (Z.mod_pos_bound (d + 1) 1460). lia.
Qed.

Lemma leap_days_add (a : Z) (n : nat) :
  0 <= a -> a + Z.of_nat n <= 146096 -> leap_days a <= leap_days (a + Z.of_nat n).
Proof.
  intros Ha. induction n as [|n IH]; intros Hn; [by rewrite Z.add_0_r|].
  rewrite Nat2Z.inj_succ in *. etrans; [apply IH; lia|].
  destruct (leap_days_step (a + Z.of_nat n)) as [Hs|]; [lia| |lia].
  by replace (a + Z.succ (Z.of_nat n)) with (a + Z.of_nat n + 1) by lia.
Qed.

Lemma leap_days_mono (a b : Z) : 0 <= a <= b -> b <= 146096 -> leap_days a <= leap_days b.
Proof.
  intros H Hb. replace b with (a + Z.of_nat (Z.to_nat (b - a))) by lia. apply leap_days_add; lia.
Qed.

Fixpoint zseq (n : nat) (z : Z) : list Z :=
  match n with
  | O => []
  | S n' => z :: zseq n' (z + 1)
  end.

Lemma zseq_In (n : nat) (z x : Z) : z <= x < z + Z.of_nat n -> In x (zseq n z).
Proof.
  revert z. induction n as [|n IH]; intros z H; [lia|]. simpl.
  destruct (Z.eq_dec z x); [auto|]. right. apply IH. lia.
Qed.

(** The four hundred years of an era, checked at their first and last days. *)
Lemma year_checks :
  forallb (fun y => (leap_days (year_start y) / 365 =? y)
                    && (leap_days (year_start (y + 1) - 1) / 365 =? y)
                    && (year_start (y + 1) - year_start y <=? 366)) (zseq 400 0) = true.
Proof. vm_compute. reflexivity. Qed.

Lemma year_of_era (doe : Z) :
  0 <= doe <= 146096 ->
  exists y, 0 <= y <= 399 /\ leap_days doe / 365 = y /\
    year_start y <= doe /\ (doe < year_start (y + 1) \/ doe = 146096) /\ doe - year_start y <= 365.
Proof.
  intros H. pose proof year_checks as Hc. rewrite forallb_forall in Hc.
  assert (Hy : forall y, 0 <= y <= 399 -> leap_days (year_start y) / 365 = y /\
     leap_days (year_start (y + 1) - 1) / 365 = y /\ year_start (y + 1) - year_start y <= 366).
  { intros y Hy. specialize (Hc y (zseq_In 400 0 y ltac:(lia))). lia. }
  clear Hc.
  assert (He : exists n : nat, (n <= 399)%nat /\ year_start (Z.of_nat n) <= doe /\
     (doe < year_start (Z.of_nat n + 1) \/ n = 399%nat)).
  { assert (Hn : forall k : nat, (k <= 399)%nat ->
      (exists n : nat, (n <= 399)%nat /\ year_start (Z.of_nat n) <= doe /\
         (doe < year_start (Z.of_nat n + 1) \/ n = 399%nat)) \/ year_start (Z.of_nat k) <= doe).
    { induction k as [|k IHk]; intros Hk; [right; change (year_start (Z.of_nat 0)) with 0; lia|].
      destruct IHk as [?|Hle]; [lia|auto|].
      destruct (Z.lt_ge_cases doe (year_start (Z.of_nat (S k)))) as [Hlt|Hge]; [|auto].
      left. exists k. rewrite Nat2Z.inj_succ in Hlt. repeat split; [lia|done|left; done]. }
    destruct (Hn 399%nat) as [?|Hle]; [lia|done|]. exists 399%nat. auto. }
  destruct He as (n & Hn & Hlo & Hhi). exists (Z.of_nat n).
  destruct (Hy (Z.of_nat n)) as (H1 & H2 & H3); [lia|].
  assert (Hend : doe <= year_start (Z.of_nat n + 1) - 1 \/ (n = 399%nat /\ doe = 146096)).
  { destruct Hhi as [?| ->]; [left; lia|].
    change (year_start (Z.of_nat 399 + 1)) with 146096 in *. lia. }
  split; [lia|]. split; [|split; [done|split; [lia|]]].
  - destruct Hend as [Hend|[-> ->]]; [|reflexivity].
    assert (Hb : year_start (Z.of_nat n + 1) <= year_start 400) by (apply year_start_mono; lia).
    change (year_start 400) with 146096 in Hb.
    apply Z.le_antisymm.
    + rewrite <- H2. apply Z.div_le_mono; [lia|]. apply leap_days_mono; lia.
    + rewrite <- H1 at 1. apply Z.div_le_mono; [lia|]. apply leap_days_mono; [|lia].
      split; [|done]. change 0 with (year_start 0). apply year_start_mono. lia.
  - destruct Hend as [Hend|[-> ->]]; [lia|]. vm_compute. discriminate.
Qed.
