(* ===== verification/Timestamps.v ===== *)
(** Timestamps: the parser of the agent's controller sink
    ([tapio-agent/src/sink/controller.rs]) against the printer of
    [tapio-common/src/occurrence.rs]. *)
From Stdlib Require Import String.
From S2P Require Import Prelude RustStr BTree Occurrence.

Local Open Scope Z_scope.

Definition parse_date (date : string) : option (Z * Z * Z) :=
  match split "-" date with
  | y :: m :: d :: _ =>
      match parse_signed I64_MIN I64_MAX y, parse_signed I64_MIN I64_MAX m,
            parse_signed I64_MIN I64_MAX d with
      | Some year, Some month, Some day => Some (year, month, day)
      | _, _, _ => None
      end
  | _ => None
  end.

Definition parse_time (time : string) : option (Z * Z * Z) :=
  match split ":" time with
  | h :: m :: s :: _ =>
      match parse_unsigned U64_MAX h, parse_unsigned U64_MAX m, parse_unsigned U64_MAX s with
      | Some hour, Some minute, Some second => Some (hour, minute, second)
      | _, _, _ => None
      end
  | _ => None
  end.

(** The digits among the first [n] bytes, then padding to nine digits. *)
Fixpoint fraction_digits (n : nat) (s : string) (value : Z) : Z * nat :=
  match n, s with
  | S n', String a s' =>
      if is_digit a then fraction_digits n' s' (sat_add64 (sat_mul64 value 10) (digit_val a))
      else (value, n)
  | _, _ => (value, n)
  end.

Definition fraction_nanos (fraction : string) : Z :=
  let '(value, missing) := fraction_digits 9 fraction 0 in
  Nat.iter missing (fun v => sat_mul64 v 10) value.

Definition days_from_civil (year month day : Z) : Z :=
  let year := i64 (year - (if month <=? 2 then 1 else 0)) in
  let era := Z.quot (if 0 <=? year then year else i64 (year - 399)) 400 in
  let yoe := i64 (year - era * 400) in
  let month := i64 (month + (if 2 <? month then -3 else 9)) in
  let doy := i64 (Z.quot (i64 (153 * month + 2)) 5 + day - 1) in
  let doe := i64 (yoe * 365 + Z.quot yoe 4 - Z.quot yoe 100 + doy) in
  i64 (era * 146097 + doe - 719468).

Definition timestamp_to_unix_nanos (timestamp : string) : Z :=
  match split_once "T" timestamp with
  | None => 0
  | Some (date, time) =>
      match parse_date date with
      | None => 0
      | Some (year, month, day) =>
          let time :=
            match strip_suffix time "+00:00" with
            | Some t => t
            | None => default time (strip_suffix time "Z")
            end in
          let '(clock, fraction) := default (time, EmptyString) (split_once "." time) in
          match parse_time clock with
          | None => 0
          | Some (hour, minute, second) =>
              let days := days_from_civil year month day in
              if days <? 0 then 0
              else
                sat_add64
                  (sat_mul64
                     (sat_add64 (sat_mul64 days 86400)
                        (wrap64 (hour * 3600 + minute * 60 + second)))
                     1000000000)
                  (fraction_nanos fraction)
          end
      end
  end.

(** * The calendar *)

(** A day of the era-based calendar: era, year of the era, day of that year
    (from the first of March), month and day of the month. *)
Record civil_of (d era yoe doy mp day : Z) : Prop := {
  co_split : d + 719468 = 146097 * era + (year_start yoe + doy);
  co_era : era = (d + 719468) / 146097;
  co_yoe : yoe = leap_days ((d + 719468) mod 146097) / 365;
  co_yoe_range : 0 <= yoe <= 399;
  co_doy_range : 0 <= doy <= 365;
  co_mp : mp = (5 * doy + 2) / 153;
  co_mp_range : 0 <= mp <= 11;
  co_day : day = doy - (153 * mp + 2) / 5 + 1;
  co_day_range : 1 <= day <= 31;
}.

Definition civil_month (mp : Z) : Z := if mp <? 10 then mp + 3 else mp - 9.
Definition civil_year (era yoe mp : Z) : Z := yoe + era * 400 + (if mp <? 10 then 0 else 1).

Lemma month_of_doy (doy mp : Z) :
  0 <= doy <= 365 -> mp = (5 * doy + 2) / 153 ->
  0 <= mp <= 11 /\ 1 <= doy - (153 * mp + 2) / 5 + 1 <= 31.
Proof. intros H ->. Z.div_mod_to_equations. lia. Qed.

Lemma civil_from_days_spec (d : Z) :
  0 <= d <= 1000000000 ->
  exists era yoe doy mp day, civil_of d era yoe doy mp day /\
    civil_from_days d = (civil_year era yoe mp, civil_month mp, day).
Proof.
  intros Hd. set (z := d + 719468). set (era := z / 146097). set (doe := z mod 146097).
  assert (Hz : 0 <= z <= 1000719468) by (unfold z; lia).
  assert (Hdm : z = 146097 * era + doe) by (apply Z.div_mod; lia).
  assert (Hdoe : 0 <= doe <= 146096).
  { pose proof (Z.mod_pos_bound z 146097). unfold doe. lia. }
  assert (Hera : 0 <= era <= 10000) by lia.
  destruct (year_of_era doe Hdoe) as (yoe & Hyoe & Hleap & Hlo & _ & Hhi).
  set (doy := doe - year_start yoe). set (mp := (5 * doy + 2) / 153).
  assert (Hdoy : 0 <= doy <= 365) by (unfold doy; lia).
  destruct (month_of_doy doy mp Hdoy eq_refl) as [Hmp Hday].
  exists era, yoe, doy, mp, (doy - (153 * mp + 2) / 5 + 1). split.
  { constructor; try done; unfold doy; fold z doe; lia. }
  unfold civil_from_days. rewrite !(i64_small (d + 719468)) by width_lia. fold z.
  rewrite (proj2 (Z.leb_le 0 z)) by lia.
  rewrite !(Z.quot_div_nonneg z 146097) by lia. fold era.
  replace (i64 (z - era * 146097)) with doe by (rewrite i64_small; width_lia).
  rewrite !(Z.quot_div_nonneg doe) by lia. fold (leap_days doe).
  assert (Hll : 0 <= leap_days doe).
  { change 0 with (leap_days 0). apply leap_days_mono; lia. }
  rewrite (Z.quot_div_nonneg (leap_days doe) 365), Hleap by lia.
  rewrite !(Z.quot_div_nonneg yoe) by lia. fold (year_start yoe). fold doy.
  rewrite !(Z.quot_div_nonneg (5 * doy + 2) 153) by lia. fold mp.
  rewrite !(Z.quot_div_nonneg (153 * mp + 2) 5) by lia.
  unfold civil_year, civil_month.
  rewrite (i64_small (yoe + era * 400)) by width_lia.
  destruct (Z.ltb_spec mp 10).
  - destruct (Z.leb_spec (mp + 3) 2); [lia|]. f_equal. f_equal. lia.
  - destruct (Z.leb_spec (mp + -9) 2); [|lia]. rewrite i64_small by width_lia. done.
Qed.

Lemma year_start_range (yoe : Z) : 0 <= yoe <= 399 -> 0 <= year_start yoe <= 145731.
Proof.
  intros H. change 145731 with (year_start 399). change 0 with (year_start 0) at 1.
  split; apply year_start_mono; lia.
Qed.

Lemma days_from_civil_spec (d era yoe doy mp day : Z) :
  0 <= d <= 1000000000 -> civil_of d era yoe doy mp day ->
  days_from_civil (civil_year era yoe mp) (civil_month mp) day = d.
Proof.
  intros Hd []. assert (Hera : 0 <= era <= 10000).
  { pose proof (Z.div_le_mono (d + 719468) 1000719468 146097). subst era.
    split; [apply Z.div_pos; lia|]. etrans; [apply H; lia|]. vm_compute. discriminate. }
  unfold days_from_civil, civil_year, civil_month.
  assert (H1 : (if (if mp <? 10 then mp + 3 else mp - 9) <=? 2 then 1 else 0)
               = (if mp <? 10 then 0 else 1)).
  { destruct (Z.ltb_spec mp 10); [destruct (Z.leb_spec (mp + 3) 2)|destruct (Z.leb_spec (mp - 9) 2)]; lia. }
  rewrite H1. set (b := if mp <? 10 then 0 else 1).
  replace (i64 (yoe + era * 400 + b - b)) with (yoe + era * 400) by (rewrite i64_small; width_lia).
  rewrite (proj2 (Z.leb_le 0 (yoe + era * 400))) by lia.
  rewrite Z.quot_div_nonneg by lia.
  assert (Hq : (yoe + era * 400) / 400 = era).
  { rewrite Z.div_add by lia. rewrite Z.div_small; lia. }
  rewrite !Hq. replace (i64 (yoe + era * 400 - era * 400)) with yoe by (rewrite i64_small; width_lia).
  rewrite !(Z.quot_div_nonneg yoe) by lia.
  assert (Hm : i64 ((if mp <? 10 then mp + 3 else mp - 9)
                    + (if 2 <? (if mp <? 10 then mp + 3 else mp - 9) then -3 else 9)) = mp).
  { destruct (Z.ltb_spec mp 10);
      [destruct (Z.ltb_spec 2 (mp + 3))|destruct (Z.ltb_spec 2 (mp - 9))]; rewrite i64_small; width_lia. }
  rewrite Hm. rewrite (i64_small (153 * mp + 2)) by width_lia.
  rewrite Z.quot_div_nonneg by lia.
  replace (i64 ((153 * mp + 2) / 5 + day - 1)) with doy by (rewrite i64_small; width_lia).
  replace (yoe * 365 + yoe / 4 - yoe / 100 + doy) with (year_start yoe + doy) by (unfold year_start; lia).
  pose proof (year_start_range yoe ltac:(lia)) as Hys.
  rewrite (i64_small (year_start yoe + doy)) by width_lia. rewrite i64_small; width_lia.
Qed.

(** The date grows with the day. *)
Lemma civil_order (d1 d2 era1 yoe1 doy1 mp1 day1 era2 yoe2 doy2 mp2 day2 : Z) :
  0 <= d1 -> d1 < d2 ->
  civil_of d1 era1 yoe1 doy1 mp1 day1 -> civil_of d2 era2 yoe2 doy2 mp2 day2 ->
  civil_year era1 yoe1 mp1 * 12 + civil_month mp1 < civil_year era2 yoe2 mp2 * 12 + civil_month mp2 \/
  (civil_year era1 yoe1 mp1 = civil_year era2 yoe2 mp2 /\ mp1 = mp2 /\ day1 < day2).
Proof.
  intros Hd Hlt [s1 e1 y1 yr1 dr1 m1 mr1 a1 ar1] [s2 e2 y2 yr2 dr2 m2 mr2 a2 ar2].
  assert (Hkey : forall era yoe mp, 0 <= mp <= 11 ->
    civil_year era yoe mp * 12 + civil_month mp = (yoe + era * 400) * 12 + mp + 3).
  { intros era yoe mp H. unfold civil_year, civil_month. destruct (mp <? 10) eqn:E; lia. }
  assert (He : era1 <= era2) by (subst; apply Z.div_le_mono; lia).
  destruct (Z.eq_dec era1 era2) as [<-|Hne]; [|left; rewrite !Hkey by done; lia].
  assert (Hdoe : (d1 + 719468) mod 146097 < (d2 + 719468) mod 146097).
  { pose proof (Z.div_mod (d1 + 719468) 146097). pose proof (Z.div_mod (d2 + 719468) 146097). lia. }
  assert (Hy : yoe1 <= yoe2).
  { rewrite y1, y2. apply Z.div_le_mono; [lia|].
    pose proof (Z.mod_pos_bound (d1 + 719468) 146097). pose proof (Z.mod_pos_bound (d2 + 719468) 146097).
    apply leap_days_mono; lia. }
  destruct (Z.eq_dec yoe1 yoe2) as [<-|Hne]; [|left; rewrite !Hkey by done; lia].
  assert (Hdoy : doy1 < doy2) by lia.
  assert (Hm : mp1 <= mp2) by (rewrite m1, m2; apply Z.div_le_mono; lia).
  destruct (Z.eq_dec mp1 mp2) as [Heq|Hne]; [|left; rewrite !Hkey by done; lia].
  right. subst mp2. rewrite <- Heq in *. repeat split; lia.
Qed.

(** * The printed form *)

Definition clock_string (h mi s : Z) : string :=
  fix_dec 2 h +:+ ":" +:+ fix_dec 2 mi +:+ ":" +:+ fix_dec 2 s.

Definition fraction_string (sub : Z) : string :=
  if sub =? 0 then EmptyString else "." +:+ fix_dec 9 sub.

Definition printed (y m d h mi s sub : Z) : string :=
  fix_dec 4 y +:+ "-" +:+ fix_dec 2 m +:+ "-" +:+ fix_dec 2 d +:+ "T" +:+
  clock_string h mi s +:+ fraction_string sub +:+ "+00:00".

Record printed_fields (n y m d h mi s sub days : Z) : Prop := {
  pf_year : 0 <= y < 10000;
  pf_month : 1 <= m <= 12;
  pf_day : 1 <= d <= 31;
  pf_hour : 0 <= h < 24;
  pf_minute : 0 <= mi < 60;
  pf_second : 0 <= s < 60;
  pf_sub : 0 <= sub < 1000000000;
  pf_days : 0 <= days <= 213503;
  pf_value : n = (days * 86400 + (h * 3600 + mi * 60 + s)) * 1000000000 + sub;
  pf_string : unix_nanos_to_rfc3339 n = printed y m d h mi s sub;
}.

Lemma printed_spec (n : Z) :
  is_u64 n ->
  exists era yoe doy mp day h mi s sub,
    civil_of (n / 1000000000 / 86400) era yoe doy mp day /\
    printed_fields n (civil_year era yoe mp) (civil_month mp) day h mi s sub
      (n / 1000000000 / 86400).
Proof.
  intros Hn. set (secs := n / 1000000000). set (days := secs / 86400).
  assert (Hsecs : 0 <= secs <= 18446744073).
  { unfold secs. split; [apply Z.div_pos; width_lia|].
    apply Z.lt_succ_r, Z.div_lt_upper_bound; width_lia. }
  assert (Hdays : 0 <= days <= 213503).
  { unfold days. split; [apply Z.div_pos; lia|]. apply Z.lt_succ_r, Z.div_lt_upper_bound; lia. }
  destruct (civil_from_days_spec days) as (era & yoe & doy & mp & day & Hc & Hcivil); [lia|].
  set (sod := secs mod 86400).
  assert (Hsod : 0 <= sod < 86400) by (apply Z.mod_pos_bound; lia).
  assert (Hsub : 0 <= n mod 1000000000 < 1000000000) by (apply Z.mod_pos_bound; lia).
  exists era, yoe, doy, mp, day, (sod / 3600), (sod mod 3600 / 60), (sod mod 60), (n mod 1000000000).
  split; [done|].
  assert (Hn1 : n = 1000000000 * secs + n mod 1000000000) by (apply Z.div_mod; lia).
  assert (Hs1 : secs = 86400 * days + sod) by (apply Z.div_mod; lia).
  assert (Hh : 0 <= sod / 3600 < 24 /\ 0 <= sod mod 3600 / 60 < 60 /\ 0 <= sod mod 60 < 60 /\
               sod = sod / 3600 * 3600 + sod mod 3600 / 60 * 60 + sod mod 60).
  { Z.div_mod_to_equations. lia. }
  destruct Hh as (Hh & Hmi & Hs & Hsum).
  assert (Hy : 0 <= civil_year era yoe mp < 10000).
  { destruct Hc. unfold civil_year. destruct (mp <? 10).
    all: pose proof (year_start_range yoe ltac:(lia)); lia. }
  assert (Hm : 1 <= civil_month mp <= 12).
  { destruct Hc. unfold civil_month. destruct (Z.ltb_spec mp 10); lia. }
  pose proof (co_day_range _ _ _ _ _ _ Hc) as Hd.
  constructor; try done; try lia.
  unfold unix_nanos_to_rfc3339. fold secs. fold days sod. rewrite Hcivil.
  rewrite !(dec_pad_fix 2), (dec_pad_fix 4), (dec_pad_fix 9) by (simpl; lia).
  unfold printed, clock_string, fraction_string.
  destruct (n mod 1000000000 =? 0); rewrite !str_app_assoc; done.
Qed.

Lemma sub_fraction (sub : Z) :
  0 <= sub < 1000000000 ->
  fraction_nanos (fix_dec 9 sub) = sub.
Proof.
  intros H. assert (Hgen : forall k w v m, (k <= w)%nat -> (w <= 9)%nat ->
    0 <= m < 10 ^ Z.of_nat k -> 0 <= v < 10 ^ Z.of_nat (9 - w) ->
    forall t r, fraction_digits r t (v * 10 ^ Z.of_nat k + m) =
           fraction_digits (k + r) (fix_dec k m +:+ t) v).
  { induction k as [|k IH]; intros w v m Hk Hw Hm Hv t r.
    - simpl in *. f_equal. lia.
    - simpl fix_dec. rewrite str_app_assoc. rewrite Nat2Z.inj_succ, Z.pow_succ_r in Hm by lia.
      replace (S k + r)%nat with (k + S r)%nat by lia.
      rewrite <- (IH w) by (try lia; apply div10_range; lia). simpl.
      pose proof (Z.mod_pos_bound m 10 ltac:(lia)). pose proof (Z.div_mod m 10 ltac:(lia)).
      rewrite digit_char_is_digit, digit_val_char by lia.
      assert (Hb : v * 10 ^ Z.of_nat (S k) + m <= 10 ^ 9).
      { assert (10 ^ Z.of_nat (9 - w) * 10 ^ Z.of_nat w = 10 ^ 9).
        { rewrite <- Z.pow_add_r by lia. f_equal. lia. }
        assert (10 ^ Z.of_nat (S k) <= 10 ^ Z.of_nat w) by (apply Z.pow_le_mono_r; lia).
        rewrite Nat2Z.inj_succ, Z.pow_succ_r in * by lia. nia. }
      rewrite Nat2Z.inj_succ, Z.pow_succ_r in Hb by lia.
      rewrite sat_mul64_small, sat_add64_small by (width_lia || (rewrite sat_mul64_small; width_lia)).
      f_equal. rewrite Nat2Z.inj_succ, Z.pow_succ_r by lia. lia. }
  unfold fraction_nanos.
  specialize (Hgen 9%nat 9%nat 0 sub ltac:(lia) ltac:(lia) ltac:(simpl; lia) ltac:(simpl; lia) EmptyString 0%nat).
  rewrite str_app_nil_r in Hgen. simpl Nat.add in Hgen. rewrite <- Hgen. simpl. done.
Qed.

Ltac no_char :=
  rewrite ?contains_char_app; rewrite ?fix_dec_no_char by reflexivity; reflexivity.

Lemma parse_date_printed (y m d : Z) :
  0 <= y < 10000 -> 1 <= m <= 12 -> 1 <= d <= 31 ->
  parse_date (fix_dec 4 y +:+ "-" +:+ fix_dec 2 m +:+ "-" +:+ fix_dec 2 d) = Some (y, m, d).
Proof.
  intros Hy Hm Hd. unfold parse_date. rewrite !split_app_sep, split_none by (by apply fix_dec_no_char).
  by rewrite !parse_signed_fix_dec by (simpl; width_lia).
Qed.

Lemma parse_time_printed (h mi s : Z) :
  0 <= h < 24 -> 0 <= mi < 60 -> 0 <= s < 60 ->
  parse_time (clock_string h mi s) = Some (h, mi, s).
Proof.
  intros Hh Hmi Hs. unfold parse_time, clock_string. rewrite !split_app_sep, split_none by (by apply fix_dec_no_char).
  by rewrite !parse_unsigned_fix_dec by (simpl; width_lia).
Qed.

Lemma split_fraction (h mi s sub : Z) :
  0 <= sub < 1000000000 ->
  exists f, default (clock_string h mi s +:+ fraction_string sub, EmptyString)
              (split_once "." (clock_string h mi s +:+ fraction_string sub))
            = (clock_string h mi s, f) /\ fraction_nanos f = sub.
Proof.
  intros Hsub.
  assert (Hc : contains_char "." (clock_string h mi s) = false).
  { unfold clock_string. no_char. }
  unfold fraction_string. destruct (Z.eqb_spec sub 0) as [->|Hne].
  - rewrite str_app_nil_r, split_once_none by done. by exists EmptyString.
  - change ("." +:+ fix_dec 9 sub) with (String "." (fix_dec 9 sub)).
    rewrite split_once_app by done. exists (fix_dec 9 sub). split; [done|]. by apply sub_fraction.
Qed.

Lemma timestamp_printed (n y m d h mi s sub days : Z) :
  printed_fields n y m d h mi s sub days -> days_from_civil y m d = days ->
  timestamp_to_unix_nanos (printed y m d h mi s sub) = Z.min n U64_MAX.
Proof.
  intros [] Hdays. unfold timestamp_to_unix_nanos, printed.
  assert (Hsplit : forall r, fix_dec 4 y +:+ "-" +:+ fix_dec 2 m +:+ "-" +:+ fix_dec 2 d +:+ "T" +:+ r
    = (fix_dec 4 y +:+ "-" +:+ fix_dec 2 m +:+ "-" +:+ fix_dec 2 d) +:+ String "T" r).
  { intros r. by rewrite !str_app_assoc. }
  rewrite Hsplit, split_once_app by no_char. rewrite parse_date_printed by done.
  rewrite <- str_app_assoc, strip_suffix_app.
  destruct (split_fraction h mi s sub) as (f & -> & Hf); [done|].
  rewrite parse_time_printed by done. rewrite Hdays, Hf.
  destruct (Z.ltb_spec days 0); [lia|].
  rewrite wrap64_small by width_lia. subst n. width_lia.
Qed.

(** * Properties *)

Lemma timestamp_of_rfc3339 (n : Z) :
  is_u64 n -> timestamp_to_unix_nanos (unix_nanos_to_rfc3339 n) = n.
Proof.
  intros Hn.
  destruct (printed_spec n Hn) as (era & yoe & doy & mp & day & h & mi & s & sub & Hc & Hp).
  rewrite (pf_string _ _ _ _ _ _ _ _ _ Hp).
  rewrite (timestamp_printed _ _ _ _ _ _ _ _ _ Hp); [width_lia|].
  eapply days_from_civil_spec; [|done]. pose proof (pf_days _ _ _ _ _ _ _ _ _ Hp). lia.
Qed.

(** C34. Reading back a printed timestamp gives the same nanoseconds, for every
    64-bit value: the calendar conversions of the two crates, the padding and
    the fraction digits agree, and no saturation occurs. *)
Theorem rfc3339_round_trip (n : Z) (Hn : is_u64 n) :
  timestamp_to_unix_nanos (unix_nanos_to_rfc3339 n) = n.
Proof. by apply timestamp_of_rfc3339. Qed.

Lemma rfc3339_round_trip_witness :
  timestamp_to_unix_nanos (unix_nanos_to_rfc3339 1709210096000000042) = 1709210096000000042.
Proof. apply rfc3339_round_trip. unfold is_u64. vm_compute. intuition congruence. Defined.

(** The bytes of a fixed-width field decide the order when the numbers differ. *)
Lemma str_lt_fix (w : nat) (a b : Z) (s t : string) :
  0 <= a < 10 ^ Z.of_nat w -> 0 <= b < 10 ^ Z.of_nat w ->
  a < b \/ (a = b /\ str_lt s t) -> str_lt (fix_dec w a +:+ s) (fix_dec w b +:+ t).
Proof.
  unfold str_lt, str_cmp. intros Ha Hb H. rewrite !bytes_of_app.
  destruct H as [H|[-> H]]; [by apply fix_dec_lex|].
  induction (bytes_of (fix_dec w b)) as [|x l IH]; [done|]. simpl. by rewrite Z.compare_refl.
Qed.

Lemma str_lt_cons (a : ascii) (s t : string) : str_lt s t -> str_lt (String a s) (String a t).
Proof. unfold str_lt, str_cmp. simpl. by rewrite Z.compare_refl. Qed.

Lemma fraction_lt (a b : Z) :
  0 <= a < 1000000000 -> 0 <= b < 1000000000 -> a < b ->
  str_lt (fraction_string a +:+ "+00:00") (fraction_string b +:+ "+00:00").
Proof.
  intros Ha Hb Hlt. unfold fraction_string.
  destruct (Z.eqb_spec b 0); [lia|].
  destruct (Z.eqb_spec a 0) as [->|Hne]; [done|].
  rewrite !str_app_assoc. apply str_lt_cons. apply str_lt_fix; simpl; lia.
Qed.

(** One printed field after another, each deciding unless equal. *)
Lemma printed_lt (y1 m1 d1 h1 i1 s1 b1 y2 m2 d2 h2 i2 s2 b2 : Z) :
  0 <= y1 < 10000 -> 0 <= y2 < 10000 -> 0 <= m1 < 100 -> 0 <= m2 < 100 ->
  0 <= d1 < 100 -> 0 <= d2 < 100 -> 0 <= h1 < 100 -> 0 <= h2 < 100 ->
  0 <= i1 < 100 -> 0 <= i2 < 100 -> 0 <= s1 < 100 -> 0 <= s2 < 100 ->
  0 <= b1 < 1000000000 -> 0 <= b2 < 1000000000 ->
  y1 < y2 \/ (y1 = y2 /\ (m1 < m2 \/ (m1 = m2 /\ (d1 < d2 \/ (d1 = d2 /\ (h1 < h2 \/ (h1 = h2 /\
    (i1 < i2 \/ (i1 = i2 /\ (s1 < s2 \/ (s1 = s2 /\ b1 < b2))))))))))) ->
  str_lt (printed y1 m1 d1 h1 i1 s1 b1) (printed y2 m2 d2 h2 i2 s2 b2).
Proof.
  intros. unfold printed, clock_string. rewrite !str_app_assoc.
  repeat (apply str_lt_fix; [simpl; lia|simpl; lia|];
          match goal with H : _ \/ _ |- _ => destruct H as [?|[? H]]; [left; lia|right; split; [done|]] end;
          try apply str_lt_cons).
  by apply fraction_lt.
Qed.

(** Timestamps sort as strings in the order of time: of two 64-bit instants
    the earlier one prints to the smaller string, byte by byte, with or
    without a fraction. *)
Lemma rfc3339_order (m n : Z) (Hm : is_u64 m) (Hn : is_u64 n) (Hlt : m < n) :
  str_lt (unix_nanos_to_rfc3339 m) (unix_nanos_to_rfc3339 n).
Proof.
  destruct (printed_spec m Hm) as (era1 & yoe1 & doy1 & mp1 & day1 & h1 & i1 & s1 & b1 & Hc1 & Hp1).
  destruct (printed_spec n Hn) as (era2 & yoe2 & doy2 & mp2 & day2 & h2 & i2 & s2 & b2 & Hc2 & Hp2).
  destruct Hp1 as [p1 p2 p3 p4 p5 p6 p7 p8 p9 ->], Hp2 as [q1 q2 q3 q4 q5 q6 q7 q8 q9 ->].
  pose proof (co_mp_range _ _ _ _ _ _ Hc1). pose proof (co_mp_range _ _ _ _ _ _ Hc2).
  apply printed_lt; try lia.
  destruct (Z.lt_trichotomy (m / 1000000000 / 86400) (n / 1000000000 / 86400)) as [Hd|[Hd|Hd]].
  - clear p9 q9. destruct (civil_order _ _ _ _ _ _ _ _ _ _ _ _ (proj1 p8) Hd Hc1 Hc2) as [Hk|(-> & -> & ?)].
    + destruct (Z.lt_trichotomy (civil_year era1 yoe1 mp1) (civil_year era2 yoe2 mp2)) as [?|[?|?]]; lia.
    + right. split; [done|]. right. split; [done|]. by left.
  - rewrite Hd in *.
    assert (Hmp : civil_year era1 yoe1 mp1 = civil_year era2 yoe2 mp2 /\
                  civil_month mp1 = civil_month mp2 /\ day1 = day2); [|lia].
    assert (He : era1 = era2) by (destruct Hc1, Hc2; congruence).
    assert (Hyo : yoe1 = yoe2) by (destruct Hc1, Hc2; congruence).
    assert (Hdo : doy1 = doy2) by (destruct Hc1, Hc2; subst; lia).
    assert (Hmo : mp1 = mp2) by (destruct Hc1, Hc2; congruence).
    assert (Hda : day1 = day2) by (destruct Hc1, Hc2; congruence). subst. done.
  - lia.
Qed.

Lemma rfc3339_order_witness :
  str_lt (unix_nanos_to_rfc3339 1709210096000000000) (unix_nanos_to_rfc3339 1709210096000000042).
Proof. apply rfc3339_order; unfold is_u64; vm_compute; intuition congruence. Defined.
