(* ===== verification/NetworkObs.v ===== *)
(** [tapio-agent/src/observer/network.rs]: classification of network events and
    the occurrence built from an anomaly. *)
From Stdlib Require Import String.
From S2P Require Import Prelude RustStr BTree Float64 Json CommonEbpf Occurrence.

Local Open Scope Z_scope.

Record NetworkAnomaly := {
  na_event_type : string;
  na_severity : Severity;
  na_outcome : Outcome;
  na_error_code : string;
  na_error_message : string;
  na_ebpf_event_type : Z;
}.

Definition tcp_state_name (state : Z) : string :=
  if state =? TCP_ESTABLISHED then "ESTABLISHED"
  else if state =? TCP_SYN_SENT then "SYN_SENT"
  else if state =? TCP_SYN_RECV then "SYN_RECV"
  else if state =? TCP_FIN_WAIT1 then "FIN_WAIT1"
  else if state =? TCP_FIN_WAIT2 then "FIN_WAIT2"
  else if state =? TCP_TIME_WAIT then "TIME_WAIT"
  else if state =? TCP_CLOSE then "CLOSE"
  else if state =? TCP_CLOSE_WAIT then "CLOSE_WAIT"
  else if state =? TCP_LAST_ACK then "LAST_ACK"
  else if state =? TCP_LISTEN then "LISTEN"
  else "UNKNOWN".

(** The endpoints as every message prints them. *)
Definition flow_str (e : NetworkEvent) : string :=
  src_ip_str e +:+ ":" +:+ dec (ne_src_port e) +:+ " → " +:+ dst_ip_str e +:+ ":" +:+ dec (ne_dst_port e).

Definition network_classify (e : NetworkEvent) : option NetworkAnomaly :=
  let et := ne_event_type e in
  if et =? NET_EVENT_RST_RECEIVED then
    Some {| na_event_type := NETWORK_CONNECTION_REFUSED;
            na_severity := Warning;
            na_outcome := Failure;
            na_error_code := "RST_RECEIVED";
            na_error_message := "TCP RST " +:+ flow_str e;
            na_ebpf_event_type := et |}
  else if et =? NET_EVENT_RETRANSMIT then
    Some {| na_event_type := NETWORK_RETRANSMIT_SPIKE;
            na_severity := Warning;
            na_outcome := Failure;
            na_error_code := "RETRANSMIT";
            na_error_message :=
              "TCP retransmit " +:+ flow_str e +:+ " (total=" +:+ dec (ne_total_retrans e)
              +:+ ", cwnd=" +:+ dec (ne_snd_cwnd e) +:+ ")";
            na_ebpf_event_type := et |}
  else if et =? NET_EVENT_RTT_SPIKE then
    Some {| na_event_type := NETWORK_RTT_DEGRADATION;
            na_severity := Warning;
            na_outcome := InProgress;
            na_error_code := "RTT_SPIKE";
            na_error_message :=
              "RTT spike " +:+ flow_str e +:+ " (baseline=" +:+ dec (ne_rtt_baseline_ms e)
              +:+ "ms, current=" +:+ dec (ne_rtt_current_ms e) +:+ "ms)";
            na_ebpf_event_type := et |}
  else if et =? NET_EVENT_STATE_CHANGE then
    if (ne_old_state e =? TCP_SYN_SENT) && (ne_new_state e =? TCP_CLOSE) then
      Some {| na_event_type := NETWORK_CONNECTION_TIMEOUT;
              na_severity := Error;
              na_outcome := Failure;
              na_error_code := "SYN_TIMEOUT";
              na_error_message :=
                "Connection timeout to " +:+ dst_ip_str e +:+ ":" +:+ dec (ne_dst_port e)
                +:+ " (SYN_SENT→CLOSE)";
              na_ebpf_event_type := et |}
    else None
  else None.

(** The fields of every event, then those of its type, inserted in this order. *)
Definition network_data (e : NetworkEvent) (ebpf_event_type : Z) : json :=
  json_obj
    ([("pid", JInt (ne_pid e));
      ("config_generation", JInt (ne_config_generation e));
      ("comm", JString (comm_str (ne_comm e)));
      ("src_ip", JString (src_ip_str e));
      ("dst_ip", JString (dst_ip_str e));
      ("src_port", JInt (ne_src_port e));
      ("dst_port", JInt (ne_dst_port e));
      ("family", JString (if is_ipv6 e then "ipv6" else "ipv4"));
      ("protocol", JString "tcp")] ++
     (if ebpf_event_type =? NET_EVENT_STATE_CHANGE then
        [("old_state", JString (tcp_state_name (ne_old_state e)));
         ("new_state", JString (tcp_state_name (ne_new_state e)))]
      else if ebpf_event_type =? NET_EVENT_RST_RECEIVED then []
      else if ebpf_event_type =? NET_EVENT_RETRANSMIT then
        [("total_retrans", JInt (ne_total_retrans e)); ("snd_cwnd", JInt (ne_snd_cwnd e))]
      else if ebpf_event_type =? NET_EVENT_RTT_SPIKE then
        [("baseline_ms", JInt (ne_rtt_baseline_ms e)); ("current_ms", JInt (ne_rtt_current_ms e))]
      else [])).

Definition network_build_occurrence (id : string) (now : Z) (e : NetworkEvent) (a : NetworkAnomaly) :
  Occurrence :=
  with_data (network_data e (na_ebpf_event_type a))
    (with_error (na_error_code a) (na_error_message a)
       (Occurrence_new id now (na_event_type a) (na_severity a) (na_outcome a))).

(** * Specification *)

(** The kernel event types that are anomalies, and the occurrence type each
    one is reported as. *)
Inductive network_anomalous (e : NetworkEvent) : string -> Severity -> Outcome -> Prop :=
| na_rst : ne_event_type e = 1 ->
    network_anomalous e NETWORK_CONNECTION_REFUSED Warning Failure
| na_retransmit : ne_event_type e = 2 ->
    network_anomalous e NETWORK_RETRANSMIT_SPIKE Warning Failure
| na_rtt : ne_event_type e = 3 ->
    network_anomalous e NETWORK_RTT_DEGRADATION Warning InProgress
| na_syn_timeout : ne_event_type e = 0 -> ne_old_state e = 2 -> ne_new_state e = 7 ->
    network_anomalous e NETWORK_CONNECTION_TIMEOUT Error Failure.

Lemma network_classify_Some (e : NetworkEvent) (a : NetworkAnomaly) :
  network_classify e = Some a ->
  network_anomalous e (na_event_type a) (na_severity a) (na_outcome a) /\
  na_ebpf_event_type a = ne_event_type e.
Proof.
  unfold network_classify.
  destruct (Z.eqb_spec (ne_event_type e) NET_EVENT_RST_RECEIVED) as [He|_];
    [intros [= <-]; split; [by constructor|done]|].
  destruct (Z.eqb_spec (ne_event_type e) NET_EVENT_RETRANSMIT) as [He|_];
    [intros [= <-]; split; [by constructor|done]|].
  destruct (Z.eqb_spec (ne_event_type e) NET_EVENT_RTT_SPIKE) as [He|_];
    [intros [= <-]; split; [by constructor|done]|].
  destruct (Z.eqb_spec (ne_event_type e) NET_EVENT_STATE_CHANGE) as [He|_]; [|done].
  destruct (Z.eqb_spec (ne_old_state e) TCP_SYN_SENT) as [Ho|_]; [|done].
  destruct (Z.eqb_spec (ne_new_state e) TCP_CLOSE) as [Hn|_]; [|done].
  intros [= <-]. split; [by constructor|done].
Qed.

Lemma network_anomalous_classified (e : NetworkEvent) (t : string) (s : Severity) (o : Outcome) :
  network_anomalous e t s o ->
  exists a, network_classify e = Some a /\ na_event_type a = t /\ na_severity a = s /\ na_outcome a = o.
Proof.
  intros [H|H|H|H Ho Hn]; unfold network_classify; rewrite H; [..|rewrite Ho, Hn]; eexists; done.
Qed.

(** * Properties *)

(** A network event is reported exactly when its type and TCP states name an
    anomaly, and then with that anomaly's type, severity and outcome; ordinary
    state changes and unknown event types are ignored. *)
Lemma network_classify_spec (e : NetworkEvent) (t : string) (s : Severity) (o : Outcome) :
  (exists a, network_classify e = Some a /\
     na_event_type a = t /\ na_severity a = s /\ na_outcome a = o) <->
  network_anomalous e t s o.
Proof.
  split.
  - intros (a & Ha & <- & <- & <-). by apply network_classify_Some.
  - apply network_anomalous_classified.
Qed.
