(* ===== verification/ContainerObs.v ===== *)
(** [tapio-agent/src/observer/container.rs]: classification of container events,
    the occurrence built from an anomaly, and the resolution of a cgroup's
    memory limit through a bounded cache.  The file system is a function from
    paths to contents; the order in which the hash map lists its keys is the
    order of the association list that models it, which is arbitrary. *)
From Stdlib Require Import String.
From S2P Require Import Prelude RustStr BTree Float64 Json CommonEbpf Occurrence.

Local Open Scope Z_scope.

Record ContainerAnomaly := {
  ca_event_type : string;
  ca_severity : Severity;
  ca_outcome : Outcome;
  ca_error_code : string;
  ca_error_message : string;
}.

Definition container_classify (e : ContainerEvent) : option ContainerAnomaly :=
  if ce_event_type e =? CONTAINER_EVENT_OOM then
    Some {| ca_event_type := CONTAINER_OOM_KILL;
            ca_severity := Critical;
            ca_outcome := Failure;
            ca_error_code := "OOM_KILL";
            ca_error_message :=
              "OOM kill pid=" +:+ dec (ce_pid e) +:+ " (usage="
              +:+ dec (ce_memory_usage e / 1024 / 1024) +:+ "MB, limit="
              +:+ dec (ce_memory_limit e / 1024 / 1024) +:+ "MB)" |}
  else if ce_event_type e =? CONTAINER_EVENT_EXIT then
    if (ce_exit_code e =? 0) && (ce_signal e =? 0) then None
    else
      Some {| ca_event_type := CONTAINER_ABNORMAL_EXIT;
              ca_severity := if negb (ce_signal e =? 0) then Error else Warning;
              ca_outcome := Failure;
              ca_error_code := "ABNORMAL_EXIT";
              ca_error_message :=
                "Abnormal exit pid=" +:+ dec (ce_pid e) +:+ " (code=" +:+ z_to_string (ce_exit_code e)
                +:+ ", signal=" +:+ z_to_string (ce_signal e) +:+ ")" |}
  else None.

(** * The memory limit of a cgroup *)

Section Limits.
(** [fs::read_to_string(path).ok()] *)
Variable read_file : string -> option string.

Definition read_limit_file (path : string) : option Z :=
  match read_file path with
  | None => None
  | Some content =>
      let trimmed := trim content in
      if String.eqb trimmed "max" then Some U64_MAX
      else match parse_unsigned U64_MAX trimmed with
           | None => None
           | Some val => if Z.shiftl 1 62 <=? val then Some U64_MAX else Some val
           end
  end.

(** What one line of [/proc/<pid>/cgroup] resolves to. *)
Definition limit_of_line (line : string) : option Z :=
  match splitn 3 ":" line with
  | [hierarchy; controller; path] =>
      let v2 :=
        if String.eqb hierarchy "0" && str_empty controller && negb (str_empty path) then
          read_limit_file ("/sys/fs/cgroup" +:+ path +:+ "/memory.max")
        else None in
      match v2 with
      | Some limit => Some limit
      | None =>
          if contains_str controller "memory" && negb (str_empty path) then
            read_limit_file ("/sys/fs/cgroup/memory" +:+ path +:+ "/memory.limit_in_bytes")
          else None
      end
  | _ => None
  end.

Fixpoint first_limit (ls : list string) : option Z :=
  match ls with
  | [] => None
  | line :: ls' =>
      match limit_of_line line with
      | Some limit => Some limit
      | None => first_limit ls'
      end
  end.

Definition resolve_via_proc (pid : Z) : option Z :=
  match read_file ("/proc/" +:+ dec pid +:+ "/cgroup") with
  | None => None
  | Some content => first_limit (lines content)
  end.

(** [CGROUP_LIMIT_CACHE]: a [HashMap<u64, u64>]; no key occurs twice. *)
Notation cache := (list (Z * Z)).

Fixpoint cache_get (c : cache) (k : Z) : option Z :=
  match c with
  | [] => None
  | (k', v) :: c' => if k =? k' then Some v else cache_get c' k
  end.

Definition cache_remove (c : cache) (k : Z) : cache := filter (fun kv => fst kv <> k) c.
Definition cache_insert (c : cache) (k v : Z) : cache := (k, v) :: cache_remove c k.

(** Past ten thousand entries, a fifth of the keys is removed. *)
Definition cache_evict (c : cache) : cache :=
  if 10000 <? zlen c then
    let evict_count := Z.to_nat (zlen c / 5) in
    fold_left cache_remove (map fst (take evict_count c)) c
  else c.

Definition enrich_memory_limit (c : cache) (cgroup_id pid : Z) : option Z * cache :=
  if cgroup_id =? 0 then (None, c)
  else
    match cache_get c cgroup_id with
    | Some limit => (Some limit, c)
    | None =>
        let limit :=
          match resolve_via_proc pid with
          | Some l => l
          | None => default 0 (resolve_via_proc 1)
          end in
        let c' := cache_insert (cache_evict c) cgroup_id limit in
        (if 0 <? limit then Some limit else None, c')
    end.

Definition container_build_occurrence (id : string) (c : cache) (e : ContainerEvent)
    (a : ContainerAnomaly) (boot_offset_ns : Z) : Occurrence * cache :=
  let '(memory_limit, c') :=
    if ce_memory_limit e =? 0 then
      let '(l, c') := enrich_memory_limit c (ce_cgroup_id e) (ce_pid e) in (default 0 l, c')
    else (ce_memory_limit e, c) in
  let wall_ns := wrap64 (boot_offset_ns + ce_timestamp_ns e) in
  (with_data
     (json_obj
        [("pid", JInt (ce_pid e));
         ("config_generation", JInt (ce_config_generation e));
         ("tid", JInt (ce_tid e));
         ("exit_code", JInt (ce_exit_code e));
         ("signal", JInt (ce_signal e));
         ("memory_usage_bytes", JInt (ce_memory_usage e));
         ("memory_limit_bytes", JInt memory_limit);
         ("cgroup_id", JInt (ce_cgroup_id e));
         ("timestamp_ns", JInt (ce_timestamp_ns e))])
     (with_error (ca_error_code a) (ca_error_message a)
        (Occurrence_new_at id (ca_event_type a) (ca_severity a) (ca_outcome a) wall_ns)),
   c').

(** * Lemmas *)

Definition cache_wf (c : cache) : Prop := NoDup (map fst c) /\ zlen c <= 10001.

Lemma cache_remove_cons (k k' v : Z) (c : cache) :
  cache_remove ((k', v) :: c) k = if k' =? k then cache_remove c k else (k', v) :: cache_remove c k.
Proof.
  unfold cache_remove. rewrite filter_cons. simpl.
  destruct (Z.eqb_spec k' k), (decide (k' <> k)); try done; lia.
Qed.

Lemma cache_get_remove (c : cache) (k j : Z) :
  cache_get (cache_remove c k) j = if j =? k then None else cache_get c j.
Proof.
  induction c as [|[k' v] c IH]; [by destruct (j =? k)|].
  rewrite cache_remove_cons. destruct (Z.eqb_spec k' k) as [->|Hne]; simpl; rewrite IH.
  - by destruct (Z.eqb_spec j k).
  - destruct (Z.eqb_spec j k'), (Z.eqb_spec j k); congruence.
Qed.

Lemma cache_get_insert (c : cache) (k v j : Z) :
  cache_get (cache_insert c k v) j = if j =? k then Some v else cache_get c j.
Proof.
  unfold cache_insert. simpl. destruct (Z.eqb_spec j k); [done|].
  rewrite cache_get_remove. by destruct (Z.eqb_spec j k).
Qed.

Lemma cache_remove_keys (c : cache) (k : Z) :
  map fst (cache_remove c k) = filter (fun j => j <> k) (map fst c).
Proof.
  induction c as [|[k' v] c IH]; [done|]. rewrite cache_remove_cons, fmap_cons, filter_cons. simpl.
  destruct (Z.eqb_spec k' k), (decide (k' <> k)); simpl; try lia; by rewrite IH.
Qed.

Lemma cache_remove_nodup (c : cache) (k : Z) :
  NoDup (map fst c) -> NoDup (map fst (cache_remove c k)).
Proof. intros H. rewrite cache_remove_keys. by apply NoDup_filter. Qed.

Lemma cache_remove_length (c : cache) (k : Z) : zlen (cache_remove c k) <= zlen c.
Proof.
  unfold zlen, cache_remove. pose proof (length_filter (fun kv : Z * Z => fst kv <> k) c). lia.
Qed.

Lemma cache_removes_nodup (ks : list Z) (c : cache) :
  NoDup (map fst c) -> NoDup (map fst (fold_left cache_remove ks c)).
Proof. revert c. induction ks; simpl; auto using cache_remove_nodup. Qed.

Lemma cache_removes_length (ks : list Z) (c : cache) : zlen (fold_left cache_remove ks c) <= zlen c.
Proof.
  revert c. induction ks as [|k ks IH]; intros c; simpl; [lia|].
  etrans; [apply IH|apply cache_remove_length].
Qed.

Lemma cache_remove_head (k v : Z) (c : cache) :
  NoDup (map fst ((k, v) :: c)) -> cache_remove ((k, v) :: c) k = c.
Proof.
  intros [Hk _]%NoDup_cons. rewrite cache_remove_cons, Z.eqb_refl.
  induction c as [|[k' v'] c IH]; [done|]. simpl in Hk. apply not_elem_of_cons in Hk as [Hne Hk].
  rewrite cache_remove_cons. destruct (Z.eqb_spec k' k); [congruence|]. by rewrite IH.
Qed.

(** Removing the first [n] keys of the map drops its first [n] entries. *)
Lemma cache_removes_take (n : nat) (c : cache) :
  NoDup (map fst c) -> fold_left cache_remove (map fst (take n c)) c = drop n c.
Proof.
  revert c. induction n as [|n IH]; intros [|[k v] c] Hc; try done.
  simpl take. simpl map. simpl fold_left. rewrite cache_remove_head by done.
  apply IH. by apply NoDup_cons in Hc as [_ Hc].
Qed.

Lemma cache_evict_wf (c : cache) : cache_wf c -> NoDup (map fst (cache_evict c)) /\ zlen (cache_evict c) <= 10000.
Proof.
  intros [Hn Hl]. unfold cache_evict. destruct (Z.ltb_spec 10000 (zlen c)); [|auto].
  split; [by apply cache_removes_nodup|]. rewrite cache_removes_take by done.
  assert (zlen c = 10001) as Hlen by lia. rewrite Hlen. change (Z.to_nat (10001 / 5)) with 2000%nat.
  unfold zlen in *. rewrite length_drop. lia.
Qed.

Lemma enrich_wf (c : cache) (cgroup_id pid : Z) :
  cache_wf c -> cache_wf (snd (enrich_memory_limit c cgroup_id pid)).
Proof.
  intros Hc. unfold enrich_memory_limit. destruct (cgroup_id =? 0); [done|].
  destruct (cache_get c cgroup_id); [done|]. cbn [snd].
  destruct (cache_evict_wf c Hc) as [Hn Hl]. unfold cache_wf, cache_insert. simpl. split.
  - constructor; [|by apply cache_remove_nodup].
    rewrite cache_remove_keys, list_elem_of_filter. tauto.
  - rewrite zlen_cons. pose proof (cache_remove_length (cache_evict c) cgroup_id). lia.
Qed.

(** * Properties *)

(** The limit cache stays bounded and remembers: from any cache of at most
    10001 distinct cgroups a lookup leaves such a cache, and asking again for
    the same non-zero cgroup does not read the file system. *)
Lemma limit_cache_invariant (c : cache) (cgroup_id pid : Z) (Hc : cache_wf c)
    (Hid : cgroup_id <> 0) :
  let c' := snd (enrich_memory_limit c cgroup_id pid) in
  cache_wf c' /\
  exists limit, cache_get c' cgroup_id = Some limit /\
    forall pid', enrich_memory_limit c' cgroup_id pid' = (Some limit, c').
Proof.
  split; [by apply enrich_wf|].
  assert (Hsome : exists limit,
    cache_get (snd (enrich_memory_limit c cgroup_id pid)) cgroup_id = Some limit).
  { unfold enrich_memory_limit. destruct (Z.eqb_spec cgroup_id 0); [done|].
    destruct (cache_get c cgroup_id) as [l|] eqn:E; cbn [snd]; [by exists l|].
    eexists. rewrite cache_get_insert, Z.eqb_refl. done. }
  destruct Hsome as [limit Hl]. exists limit. split; [done|]. intros pid'.
  unfold enrich_memory_limit at 1. destruct (Z.eqb_spec cgroup_id 0); [done|]. by rewrite Hl.
Qed.

(** When the process's own cgroup cannot be resolved, the limit reported is
    the one of process 1's cgroup, not zero. *)
Lemma limit_falls_back_to_init (c : cache) (cgroup_id pid limit : Z)
    (Hid : cgroup_id <> 0) (Hmiss : cache_get c cgroup_id = None)
    (Hgone : resolve_via_proc pid = None) (Hinit : resolve_via_proc 1 = Some limit)
    (Hpos : 0 < limit) :
  fst (enrich_memory_limit c cgroup_id pid) = Some limit.
Proof.
  unfold enrich_memory_limit. destruct (Z.eqb_spec cgroup_id 0); [done|].
  rewrite Hmiss, Hgone, Hinit. simpl. destruct (Z.ltb_spec 0 limit); [done|lia].
Qed.
End Limits.

(** A host where only the init process can still be read. *)
Definition sample_files (path : string) : option string :=
  if String.eqb path "/proc/1/cgroup" then Some ("0::/init.scope" +:+ newline_str)
  else if String.eqb path "/sys/fs/cgroup/init.scope/memory.max" then Some ("1048576" +:+ newline_str)
  else None.

Lemma limit_cache_invariant_witness :
  cache_wf (snd (enrich_memory_limit sample_files [] 99 4242)).
Proof.
  apply (limit_cache_invariant sample_files [] 99 4242); [|discriminate].
  split; [constructor|vm_compute; discriminate].
Defined.

Lemma limit_falls_back_to_init_witness :
  fst (enrich_memory_limit sample_files [] 99 4242) = Some 1048576.
Proof. by apply limit_falls_back_to_init. Defined.
