(* ===== verification/StorageObs.v ===== *)
(** [tapio-agent/src/observer/storage.rs]: classification of storage events and
    the occurrence built from an anomaly. *)
From Stdlib Require Import String.
From S2P Require Import Prelude RustStr BTree Float64 Json CommonEbpf Occurrence.

Local Open Scope Z_scope.

Record StorageAnomaly := {
  sa_event_type : string;
  sa_severity : Severity;
  sa_outcome : Outcome;
  sa_error_code : string;
  sa_error_message : string;
}.

Definition op_name (opcode : Z) : string :=
  if opcode =? OP_READ then "read" else if opcode =? OP_WRITE then "write" else "unknown".

Definition storage_classify (e : StorageEvent) : option StorageAnomaly :=
  if has_error e then
    Some {| sa_event_type := STORAGE_IO_ERROR;
            sa_severity := Critical;
            sa_outcome := Failure;
            sa_error_code := "IO_ERROR";
            sa_error_message :=
              "I/O error on " +:+ dec (se_dev_major e) +:+ ":" +:+ dec (se_dev_minor e)
              +:+ " (error=" +:+ z_to_string (se_error_code e) +:+ ", " +:+ op_name (se_opcode e)
              +:+ ")" |}
  else
    Some {| sa_event_type := STORAGE_LATENCY_SPIKE;
            sa_severity :=
              if se_severity e =? STORAGE_SEVERITY_CRITICAL then Critical else Warning;
            sa_outcome := InProgress;
            sa_error_code := "LATENCY_SPIKE";
            sa_error_message :=
              "I/O latency " +:+ f64_fixed 1 (latency_ms e) +:+ "ms on " +:+ dec (se_dev_major e)
              +:+ ":" +:+ dec (se_dev_minor e) +:+ " (" +:+ op_name (se_opcode e) +:+ ")" |}.

Definition storage_build_occurrence (id : string) (e : StorageEvent) (a : StorageAnomaly)
    (boot_offset_ns : Z) : Occurrence :=
  let wall_ns := wrap64 (boot_offset_ns + se_timestamp_ns e) in
  with_data
    (json_obj
       [("config_generation", JInt (se_config_generation e));
        ("pid", JInt (se_pid e));
        ("comm", JString (comm_str (se_comm e)));
        ("dev_major", JInt (se_dev_major e));
        ("dev_minor", JInt (se_dev_minor e));
        ("sector", JInt (se_sector e));
        ("bytes", JInt (se_bytes e));
        ("latency_ms", json_f64 (latency_ms e));
        ("opcode", JString (op_name (se_opcode e)));
        ("error_code", JInt (se_error_code e));
        ("cgroup_id", JInt (se_cgroup_id e));
        ("timestamp_ns", JInt (se_timestamp_ns e))])
    (with_error (sa_error_code a) (sa_error_message a)
       (Occurrence_new_at id (sa_event_type a) (sa_severity a) (sa_outcome a) wall_ns)).

Example storage_message :
  sa_error_message <$> storage_classify sample_storage = Some "I/O error on 8:1 (error=-5, write)".
Proof. reflexivity. Qed.

Lemma storage_classify_cases (e : StorageEvent) :
  exists a, storage_classify e = Some a /\
    (sa_event_type a = STORAGE_IO_ERROR \/ sa_event_type a = STORAGE_LATENCY_SPIKE).
Proof. unfold storage_classify. destruct (has_error e); eexists; eauto. Qed.
