(* ===== verification/PmcObs.v ===== *)
(** [tapio-agent/src/observer/node_pmc.rs]: classification of performance-counter
    samples against the current thresholds, and the occurrence built from an
    anomaly. *)
From Stdlib Require Import String.
From Corelib Require Import SpecFloat.
From S2P Require Import Prelude RustStr BTree Float64 Json CommonEbpf Occurrence.

Local Open Scope Z_scope.

Record PmcThresholds := {
  pt_stall_pct_warning : f64;
  pt_stall_pct_critical : f64;
  pt_ipc_degradation : f64;
}.

Record PmcAnomaly := {
  pa_event_type : string;
  pa_severity : Severity;
  pa_outcome : Outcome;
  pa_error_code : string;
  pa_error_message : string;
}.

Definition pmc_classify (e : PmcEvent) (t : PmcThresholds) : option PmcAnomaly :=
  let cpu := pe_cpu e in
  let ipc := ipc e in
  let stall_pct := stall_pct e in
  let cycles := pe_cycles e in
  if f64_ge stall_pct (pt_stall_pct_critical t) then
    Some {| pa_event_type := NODE_CPU_STALL;
            pa_severity := Critical;
            pa_outcome := InProgress;
            pa_error_code := "CPU_STALL";
            pa_error_message :=
              "CPU " +:+ dec cpu +:+ " stall " +:+ f64_fixed 1 stall_pct +:+ "% (ipc="
              +:+ f64_fixed 2 ipc +:+ ")" |}
  else if f64_ge stall_pct (pt_stall_pct_warning t) then
    Some {| pa_event_type := NODE_MEMORY_PRESSURE;
            pa_severity := Warning;
            pa_outcome := InProgress;
            pa_error_code := "MEMORY_PRESSURE";
            pa_error_message :=
              "CPU " +:+ dec cpu +:+ " memory pressure stall " +:+ f64_fixed 1 stall_pct
              +:+ "% (ipc=" +:+ f64_fixed 2 ipc +:+ ")" |}
  else if f64_lt ipc (pt_ipc_degradation t) && (0 <? cycles) then
    Some {| pa_event_type := NODE_IPC_DEGRADATION;
            pa_severity := Warning;
            pa_outcome := InProgress;
            pa_error_code := "IPC_DEGRADATION";
            pa_error_message :=
              "CPU " +:+ dec cpu +:+ " low IPC " +:+ f64_fixed 2 ipc +:+ " (stall "
              +:+ f64_fixed 1 stall_pct +:+ "%)" |}
  else None.

Definition pmc_build_occurrence (id : string) (e : PmcEvent) (a : PmcAnomaly) (boot_offset_ns : Z) :
  Occurrence :=
  let wall_ns := wrap64 (boot_offset_ns + pe_timestamp e) in
  with_data
    (json_obj
       [("cpu", JInt (pe_cpu e));
        ("config_generation", JInt (pe_config_generation e));
        ("cycles", JInt (pe_cycles e));
        ("instructions", JInt (pe_instructions e));
        ("stall_cycles", JInt (pe_stall_cycles e));
        ("ipc", json_f64 (ipc e));
        ("stall_pct", json_f64 (stall_pct e));
        ("timestamp_ns", JInt (pe_timestamp e))])
    (with_error (pa_error_code a) (pa_error_message a)
       (Occurrence_new_at id (pa_event_type a) (pa_severity a) (pa_outcome a) wall_ns)).

(** * Lemmas *)

(** A sample without cycles has no ratio to compare: 0 in both. *)
Lemma no_cycles_ratios (e : PmcEvent) :
  pe_cycles e = 0 -> ipc e = f64_of_Z 0 /\ stall_pct e = f64_of_Z 0.
Proof. unfold ipc, stall_pct. intros ->. done. Qed.

Lemma pmc_classify_cases (e : PmcEvent) (t : PmcThresholds) (a : PmcAnomaly) :
  pmc_classify e t = Some a ->
  (pa_event_type a = NODE_CPU_STALL /\ f64_ge (stall_pct e) (pt_stall_pct_critical t) = true) \/
  (pa_event_type a = NODE_MEMORY_PRESSURE /\ f64_ge (stall_pct e) (pt_stall_pct_critical t) = false /\
   f64_ge (stall_pct e) (pt_stall_pct_warning t) = true) \/
  (pa_event_type a = NODE_IPC_DEGRADATION /\ f64_ge (stall_pct e) (pt_stall_pct_critical t) = false /\
   f64_ge (stall_pct e) (pt_stall_pct_warning t) = false /\
   f64_lt (ipc e) (pt_ipc_degradation t) = true /\ 0 < pe_cycles e).
Proof.
  unfold pmc_classify. destruct (f64_ge (stall_pct e) (pt_stall_pct_critical t));
    [intros [= <-]; auto|].
  destruct (f64_ge (stall_pct e) (pt_stall_pct_warning t)); [intros [= <-]; auto|].
  destruct (f64_lt (ipc e) (pt_ipc_degradation t)); [|done].
  destruct (Z.ltb_spec 0 (pe_cycles e)); [|done]. intros [= <-]. auto 10.
Qed.
