(* ===== verification/Metrics.v ===== *)
(** [tapio-agent/src/metrics.rs]: labelled counters, the text exposition and the
    server loop.  A counter holds a [u64] that wraps in a release build; the
    order of the samples is the order of their label values. *)
From Stdlib Require Import String.
From S2P Require Import Prelude RustStr BTree CommonEbpf.

Local Open Scope Z_scope.

Record CounterVec := {
  cv_name : string;
  cv_help : string;
  cv_labels : list string;
  cv_values : btree (list string) Z;
}.

Record TapioMetrics := {
  events_total : CounterVec;
  anomalies_total : CounterVec;
  lost_events_total : CounterVec;
  malformed_events_total : CounterVec;
  correlation_drops_total : CounterVec;
  drain_cap_total : CounterVec;
  sink_writes_total : CounterVec;
  sink_drops_total : CounterVec;
  controller_send_failures_total : CounterVec;
  config_fetch_total : CounterVec;
}.

Definition CounterVec_new (name help : string) (labels : list string) : CounterVec :=
  {| cv_name := name; cv_help := help; cv_labels := labels; cv_values := [] |}.

Definition TapioMetrics_new : TapioMetrics := {|
  events_total :=
    CounterVec_new "tapio_events_total" "Total events drained from ring buffer" ["observer"];
  anomalies_total :=
    CounterVec_new "tapio_anomalies_total" "Total anomalies detected and emitted"
      ["observer"; "anomaly_type"];
  lost_events_total :=
    CounterVec_new "tapio_lost_events_total"
      "Ring buffer reserve failures in eBPF (events dropped)" ["observer"];
  malformed_events_total :=
    CounterVec_new "tapio_malformed_events_total"
      "Malformed or truncated eBPF records dropped by userspace" ["observer"];
  correlation_drops_total :=
    CounterVec_new "tapio_correlation_drops_total"
      "Events intentionally dropped because kernel correlation was ambiguous"
      ["observer"; "reason"];
  drain_cap_total :=
    CounterVec_new "tapio_drain_cap_total" "Times ring buffer drain hit the per-tick cap"
      ["observer"];
  sink_writes_total :=
    CounterVec_new "tapio_sink_writes_total" "Total sink write attempts by result"
      ["sink"; "result"];
  sink_drops_total :=
    CounterVec_new "tapio_sink_drops_total" "Total sink events dropped by sink and reason"
      ["sink"; "reason"];
  controller_send_failures_total :=
    CounterVec_new "tapio_controller_send_failures_total"
      "Controller send failures by request kind" ["kind"];
  config_fetch_total :=
    CounterVec_new "tapio_config_fetch_total" "Controller config poll attempts by result"
      ["result"];
|}.

(** * Counters *)

Definition counter_value (c : CounterVec) (label_values : list string) : Z :=
  default 0 (bt_get label_values (cv_values c)).

(** [with_label_values(l).inc_by(value)] *)
Definition inc_by (label_values : list string) (value : Z) (c : CounterVec) : CounterVec := {|
  cv_name := cv_name c;
  cv_help := cv_help c;
  cv_labels := cv_labels c;
  cv_values :=
    bt_insert label_values (wrap64 (counter_value c label_values + value)) (cv_values c);
|}.

Definition inc (label_values : list string) (c : CounterVec) : CounterVec := inc_by label_values 1 c.

Definition counter_sum (c : CounterVec) : Z :=
  fold_left (fun acc v => wrap64 (acc + v)) (bt_values (cv_values c)) 0.

(** Updates of one counter of the set. *)
Inductive metric :=
| MEvents | MAnomalies | MLost | MMalformed | MCorrelation | MDrainCap
| MSinkWrites | MSinkDrops | MSendFailures | MConfigFetch.

#[export] Instance metric_eq_dec : EqDecision metric.
Proof. solve_decision. Defined.

Definition get_metric (k : metric) (m : TapioMetrics) : CounterVec :=
  match k with
  | MEvents => events_total m
  | MAnomalies => anomalies_total m
  | MLost => lost_events_total m
  | MMalformed => malformed_events_total m
  | MCorrelation => correlation_drops_total m
  | MDrainCap => drain_cap_total m
  | MSinkWrites => sink_writes_total m
  | MSinkDrops => sink_drops_total m
  | MSendFailures => controller_send_failures_total m
  | MConfigFetch => config_fetch_total m
  end.

Definition update_metric (k : metric) (f : CounterVec -> CounterVec) (m : TapioMetrics) :
  TapioMetrics :=
  let g k' := if decide (k = k') then f (get_metric k' m) else get_metric k' m in
  {| events_total := g MEvents;
     anomalies_total := g MAnomalies;
     lost_events_total := g MLost;
     malformed_events_total := g MMalformed;
     correlation_drops_total := g MCorrelation;
     drain_cap_total := g MDrainCap;
     sink_writes_total := g MSinkWrites;
     sink_drops_total := g MSinkDrops;
     controller_send_failures_total := g MSendFailures;
     config_fetch_total := g MConfigFetch |}.

Definition bump (k : metric) (label_values : list string) (value : Z) (m : TapioMetrics) :
  TapioMetrics := update_metric k (inc_by label_values value) m.

Definition metric_value (k : metric) (label_values : list string) (m : TapioMetrics) : Z :=
  counter_value (get_metric k m) label_values.

(** * Text exposition *)

Fixpoint push_escaped_label (value : string) : string :=
  match value with
  | EmptyString => EmptyString
  | String ch rest =>
      let esc :=
        if Ascii.eqb ch (chr 92) then String (chr 92) (String (chr 92) EmptyString)
        else if Ascii.eqb ch dquote then String (chr 92) (String dquote EmptyString)
        else if Ascii.eqb ch newline then String (chr 92) (String "n" EmptyString)
        else String ch EmptyString in
      esc +:+ push_escaped_label rest
  end.

Definition encode_label (label value : string) : string :=
  label +:+ "=" +:+ quote_str +:+ push_escaped_label value +:+ quote_str.

Definition encode_sample (c : CounterVec) (label_values : list string) (value : Z) : string :=
  cv_name c +:+
  (if is_empty (cv_labels c) then EmptyString
   else "{" +:+ join "," (zip_with encode_label (cv_labels c) label_values) +:+ "}") +:+
  " " +:+ dec value +:+ newline_str.

Definition encode_counter (c : CounterVec) : string :=
  "# HELP " +:+ cv_name c +:+ " " +:+ cv_help c +:+ newline_str +:+
  "# TYPE " +:+ cv_name c +:+ " counter" +:+ newline_str +:+
  fold_right (fun kv acc => encode_sample c (fst kv) (snd kv) +:+ acc) EmptyString (cv_values c).

Definition encode (m : TapioMetrics) : string :=
  fold_right (fun c acc => encode_counter c +:+ acc) EmptyString
    [events_total m; anomalies_total m; lost_events_total m; malformed_events_total m;
     correlation_drops_total m; drain_cap_total m; sink_writes_total m; sink_drops_total m;
     controller_send_failures_total m; config_fetch_total m].

(** * The server *)

Definition crlf : string := String (chr 13) newline_str.

(** One poll of the listener: a connection whose request reads as the given
    bytes, or whose read fails (a timeout included), with the result of writing
    the answer; nothing to accept; or a failing accept. *)
Inductive accept_event :=
| Accepted (request : result (list Z) string) (written : result unit string)
| WouldBlock
| AcceptFailed (e : string).

Definition not_found_response : string :=
  "HTTP/1.1 404 Not Found" +:+ crlf +:+ "Content-Length: 9" +:+ crlf +:+ "Connection: close"
  +:+ crlf +:+ crlf +:+ "not found".

Definition metrics_response (m : TapioMetrics) : string :=
  let body := encode m in
  "HTTP/1.1 200 OK" +:+ crlf +:+ "Content-Type: text/plain; version=0.0.4" +:+ crlf
  +:+ "Content-Length: " +:+ dec (slen body) +:+ crlf +:+ "Connection: close" +:+ crlf +:+ crlf
  +:+ body.

Definition first_line (request : list Z) : string :=
  let text := if utf8_ok request then str_of_bytes request else EmptyString in
  default EmptyString (head (lines text)).

Definition respond (m : TapioMetrics) (request : list Z) : string :=
  if starts_with (first_line request) "GET /metrics " then metrics_response m
  else not_found_response.

(** One turn of the loop: the answer sent, or the error that ends the server. *)
Definition serve_step (m : TapioMetrics) (ev : accept_event) : result (option string) string :=
  match ev with
  | Accepted request written =>
      bytes <-? request ;;
      let response := respond m (take 1024 bytes) in
      written ;;? Ok (Some response)
  | WouldBlock => Ok None
  | AcceptFailed e => Err e
  end.

(** The loop over the turns up to the shutdown. *)
Fixpoint serve_blocking (m : TapioMetrics) (evs : list accept_event) : list string * result unit string :=
  match evs with
  | [] => ([], Ok tt)
  | ev :: evs' =>
      match serve_step m ev with
      | Err e => ([], Err e)
      | Ok r => let '(rs, res) := serve_blocking m evs' in (option_list r ++ rs, res)
      end
  end.

(** * Lemmas *)

Lemma counter_value_inc (c : CounterVec) (l l' : list string) (v : Z) :
  counter_value (inc_by l v c) l' =
  if decide (l = l') then wrap64 (counter_value c l + v) else counter_value c l'.
Proof.
  unfold counter_value at 1, inc_by. simpl. case_decide; [subst; by rewrite bt_get_insert_eq|by rewrite bt_get_insert_ne].
Qed.

Lemma get_update_metric (k k' : metric) (f : CounterVec -> CounterVec) (m : TapioMetrics) :
  get_metric k' (update_metric k f m) = if decide (k = k') then f (get_metric k' m) else get_metric k' m.
Proof. by destruct k'. Qed.

Lemma bump_value (k k' : metric) (l l' : list string) (v : Z) (m : TapioMetrics) :
  metric_value k' l' (bump k l v m) =
  if decide (k = k' /\ l = l') then wrap64 (metric_value k l m + v) else metric_value k' l' m.
Proof.
  unfold metric_value, bump. rewrite get_update_metric. destruct (decide (k = k')) as [->|Hk].
  - rewrite counter_value_inc. repeat case_decide; naive_solver.
  - rewrite decide_False by tauto. done.
Qed.

Lemma bump_same (k : metric) (l : list string) (v : Z) (m : TapioMetrics) :
  metric_value k l (bump k l v m) = wrap64 (metric_value k l m + v).
Proof. rewrite bump_value. by rewrite decide_True. Qed.

Lemma bump_other (k k' : metric) (l l' : list string) (v : Z) (m : TapioMetrics) :
  k <> k' \/ l <> l' -> metric_value k' l' (bump k l v m) = metric_value k' l' m.
Proof. intros H. rewrite bump_value. rewrite decide_False; naive_solver. Qed.

(** How much a counter gained between two states, modulo its width. *)
Definition grew (k : metric) (labels : list string) (v : Z) (m m' : TapioMetrics) : Prop :=
  wrap64 (metric_value k labels m') = wrap64 (metric_value k labels m + v).

Lemma grew_trans (k : metric) (labels : list string) (v v' : Z) (m m' m'' : TapioMetrics) :
  grew k labels v m m' -> grew k labels v' m' m'' -> grew k labels (v + v') m m''.
Proof. unfold grew. intros E ->. rewrite Z.add_assoc. by apply wrap64_cong. Qed.

Lemma grew_0 (k : metric) (labels : list string) (m m' : TapioMetrics) :
  metric_value k labels m' = metric_value k labels m -> grew k labels 0 m m'.
Proof. unfold grew. intros ->. by rewrite Z.add_0_r. Qed.

Lemma grew_bump (k : metric) (labels : list string) (v : Z) (m : TapioMetrics) :
  grew k labels v m (bump k labels v m).
Proof. unfold grew. by rewrite bump_same, wrap64_idem. Qed.

Lemma grew_value (k : metric) (labels : list string) (v : Z) (m m' : TapioMetrics) :
  grew k labels v m m' -> metric_value k labels m = 0 -> wrap64 (metric_value k labels m') = wrap64 v.
Proof. unfold grew. intros -> ->. done. Qed.

(** ** The sum over the labels *)

Lemma sum_wrap_start (l : list Z) (a : Z) :
  wrap64 (fold_left (fun acc v => wrap64 (acc + v)) l a) = wrap64 (a + fold_right Z.add 0 l).
Proof.
  revert a. induction l as [|v l IH]; intros a; simpl; [by rewrite Z.add_0_r|].
  rewrite IH, wrap64_add_l. f_equal. lia.
Qed.

Lemma counter_sum_values (c : CounterVec) : wrap64 (counter_sum c) = wrap64 (fold_right Z.add 0 (bt_values (cv_values c))).
Proof. unfold counter_sum. apply sum_wrap_start. Qed.

Definition total_grew (k : metric) (v : Z) (m m' : TapioMetrics) : Prop :=
  wrap64 (counter_sum (get_metric k m')) = wrap64 (counter_sum (get_metric k m) + v).

Lemma total_trans (k : metric) (v v' : Z) (m m' m'' : TapioMetrics) :
  total_grew k v m m' -> total_grew k v' m' m'' -> total_grew k (v + v') m m''.
Proof. unfold total_grew. intros E ->. rewrite Z.add_assoc. by apply wrap64_cong. Qed.

Lemma total_0 (k : metric) (m m' : TapioMetrics) : get_metric k m' = get_metric k m -> total_grew k 0 m m'.
Proof. unfold total_grew. intros ->. by rewrite Z.add_0_r. Qed.

Lemma total_bump (k : metric) (l : list string) (v : Z) (m : TapioMetrics) : total_grew k v m (bump k l v m).
Proof.
  unfold total_grew, bump. rewrite get_update_metric, decide_True by done. set (c := get_metric k m).
  rewrite counter_sum_values. cbn [inc_by cv_values]. rewrite bt_values_sum. fold (counter_value c l).
  pose proof (counter_sum_values c) as Hc. apply wrap64_eq in Hc as [a Ha].
  apply wrap64_eq. unfold wrap64. rewrite (Z.mod_eq (counter_value c l + v)) by lia.
  exists (- ((counter_value c l + v) / 2 ^ 64) - a). lia.
Qed.

Lemma bump_get (k k' : metric) (l : list string) (v : Z) (m : TapioMetrics) :
  k <> k' -> get_metric k' (bump k l v m) = get_metric k' m.
Proof. intros Hk. unfold bump. rewrite get_update_metric. by rewrite decide_False. Qed.

(** Reading an escaped label back. *)
Fixpoint unescape (fuel : nat) (s : string) : option string :=
  match fuel, s with
  | _, EmptyString => Some EmptyString
  | O, _ => None
  | S fuel', String a s1 =>
      if Ascii.eqb a (chr 92) then
        match s1 with
        | EmptyString => None
        | String b s2 =>
            let d := if Ascii.eqb b "n" then Some newline
                     else if Ascii.eqb b dquote || Ascii.eqb b (chr 92) then Some b else None in
            match d, unescape fuel' s2 with
            | Some c, Some r => Some (String c r)
            | _, _ => None
            end
        end
      else if Ascii.eqb a dquote || Ascii.eqb a newline then None
      else String a <$> unescape fuel' s1
  end.

Lemma unescape_escaped (s : string) : unescape (String.length s) (push_escaped_label s) = Some s.
Proof.
  induction s as [|a s IH]; [done|]. cbn [push_escaped_label String.length].
  destruct (Ascii.eqb_spec a (chr 92)) as [->|H1]; [simpl; by rewrite IH|].
  destruct (Ascii.eqb_spec a dquote) as [->|H2]; [simpl; by rewrite IH|].
  destruct (Ascii.eqb_spec a newline) as [->|H3]; [simpl; by rewrite IH|].
  simpl. rewrite (proj2 (Ascii.eqb_neq _ _) H1), (proj2 (Ascii.eqb_neq _ _) H2),
    (proj2 (Ascii.eqb_neq _ _) H3), IH. done.
Qed.

Lemma escaped_one_line (s : string) : contains_char newline (push_escaped_label s) = false.
Proof.
  induction s as [|a s IH]; [done|]. cbn [push_escaped_label]. rewrite contains_char_app, IH, orb_false_r.
  destruct (Ascii.eqb_spec a (chr 92)) as [->|H1]; [done|].
  destruct (Ascii.eqb_spec a dquote) as [->|H2]; [done|].
  destruct (Ascii.eqb_spec a newline) as [->|H3]; [done|].
  simpl. by rewrite (proj2 (Ascii.eqb_neq _ _) H3).
Qed.

(** * Properties *)

(** A label value survives the exposition: the escaped text stays on one line,
    holds no bare quote, and reads back as the value it was made from. *)
Lemma label_escaping (value : string) :
  contains_char newline (push_escaped_label value) = false /\
  unescape (String.length value) (push_escaped_label value) = Some value.
Proof. split; [apply escaped_one_line|apply unescape_escaped]. Qed.

(** A client that connects and sends nothing ends the metrics server: the
    failing read stops the loop with its error, and no later request is
    answered, whatever else the listener would have accepted. *)
Lemma failed_read_stops_server (m : TapioMetrics) (served later : list accept_event) (e : string)
    (written : result unit string)
    (Hserved : Forall (fun ev => is_ok (serve_step m ev) = true) served) :
  serve_blocking m (served ++ Accepted (Err e) written :: later) =
  (fst (serve_blocking m served), Err e).
Proof.
  induction served as [|ev served IH]; [done|].
  apply Forall_cons in Hserved as [Hev Hs]. simpl.
  destruct (serve_step m ev) as [r|e'] eqn:E; [|done]. rewrite (IH Hs).
  destruct (serve_blocking m served) as [rs res]. done.
Qed.

Lemma failed_read_stops_server_witness :
  snd (serve_blocking TapioMetrics_new
    ([WouldBlock] ++ Accepted (Err "timed out") (Ok tt) :: [Accepted (Ok []) (Ok tt)]))
  = Err "timed out".
Proof. rewrite failed_read_stops_server; [reflexivity|repeat constructor]. Defined.
