(* ===== verification/Httpc.v ===== *)
(** [tapio-agent/src/httpc.rs]: the HTTP client.  The TCP stack is the class
    [Net]: connecting, writing and reading happen in a state [W] of the outside
    world; what a connection then delivers is a list of reads.  Bytes are
    strings. *)
From Stdlib Require Import String.
From S2P Require Import Prelude RustStr BTree CommonEbpf.

Local Open Scope Z_scope.

Definition DEFAULT_TIMEOUT : Z := from_secs 5.
Definition DEFAULT_MAX_RESPONSE_BYTES : Z := 1024 * 1024.
Definition POST_MAX_RESPONSE_BYTES : Z := 8 * 1024.

Record HttpResponse := {
  resp_status : Z;
  resp_body : string;
}.

(** One [read] of the stream: some bytes (none at the end of the stream), a reset
    by the peer, or another error with its text. *)
Inductive read_event :=
| ReadData (bytes : string)
| ReadReset (e : string)
| ReadFailed (e : string).

Inductive tcp_outcome :=
| ConnectFailed (e : string)
| WriteFailed (e : string)
| WriteBodyFailed (e : string)
| Connected (reads : list read_event).

(** A request to a host and port: its head, its body, and what came of it. *)
Class Net (W : Type) := {
  net_exchange : string -> string -> string -> W -> tcp_outcome * W;
}.

Definition http_crlf : string := String (chr 13) newline_str.

(** [s.find(c)] as the split before the first [c]. *)
Fixpoint split_before (c : ascii) (s : string) : option (string * string) :=
  match s with
  | EmptyString => None
  | String a s' =>
      if Ascii.eqb a c then Some (EmptyString, s)
      else match split_before c s' with
           | Some (l, r) => Some (String a l, r)
           | None => None
           end
  end.

(** [s.get(a..b)]: None unless both are on character boundaries within [s]. *)
Definition str_get (a b : nat) (s : string) : option string :=
  if is_char_boundary a s && is_char_boundary b s then Some (str_take (b - a) (str_drop a s)) else None.

(** The text of the errors of [str::parse::<u16>]. *)
Definition parse_int_error (s : string) : string :=
  match s with
  | EmptyString => "cannot parse integer from empty string"
  | String a s' =>
      let digits := if Ascii.eqb a "+" then s' else s in
      match parse_nonempty digits with
      | Some _ => "number too large to fit in target type"
      | None => "invalid digit found in string"
      end
  end.

Definition parse_status (status_line : string) : result Z string :=
  if negb (starts_with status_line "HTTP/1.1 ") && negb (starts_with status_line "HTTP/1.0 ") then
    Err "bad HTTP version"
  else
    match str_get 9 12 status_line with
    | None => Err "bad HTTP status"
    | Some code =>
        match parse_unsigned U16_MAX code with
        | Some n => Ok n
        | None => Err ("bad HTTP status: " +:+ parse_int_error code)
        end
    end.

(** Around the first empty line. *)
Fixpoint split_head (s : string) : option (string * string) :=
  match strip_prefix s (http_crlf +:+ http_crlf) with
  | Some body => Some (EmptyString, body)
  | None =>
      match s with
      | EmptyString => None
      | String a s' =>
          match split_head s' with
          | Some (h, b) => Some (String a h, b)
          | None => None
          end
      end
  end.

Section Client.
(** The text of the error of [str::from_utf8]. *)
Variable utf8_error : string -> string.

Definition parse_response (response : string) : result HttpResponse string :=
  match split_head response with
  | None => Err "bad HTTP response"
  | Some (head, body) =>
      if negb (utf8_ok (bytes_of head)) then Err ("headers utf8: " +:+ utf8_error head)
      else
        match lines head with
        | [] => Err "missing HTTP status"
        | status_line :: _ =>
            status <-? parse_status status_line ;;
            Ok {| resp_status := status; resp_body := body |}
        end
  end.

(** The reading loop; the end of the list is the end of the stream. *)
Fixpoint read_loop (reads : list read_event) (max_response_bytes : Z) (response : string) :
  result string string :=
  match reads with
  | [] => Ok response
  | ReadData chunk :: reads' =>
      if str_empty chunk then Ok response
      else
        let response := response +:+ chunk in
        if max_response_bytes <? slen response then
          Err ("response exceeded " +:+ dec max_response_bytes +:+ " bytes")
        else read_loop reads' max_response_bytes response
  | ReadReset e :: _ => if str_empty response then Err ("read: " +:+ e) else Ok response
  | ReadFailed e :: _ => Err ("read: " +:+ e)
  end.

Definition read_response (reads : list read_event) (max_response_bytes : Z) :
  result HttpResponse string :=
  response <-? read_loop reads max_response_bytes EmptyString ;;
  parse_response response.

Definition request_head (method path host_port : string) (headers : list (string * string))
    (body : string) : string :=
  method +:+ " " +:+ path +:+ " HTTP/1.1" +:+ http_crlf +:+ "Host: " +:+ host_port +:+ http_crlf
  +:+ fold_right (fun h acc => fst h +:+ ": " +:+ snd h +:+ http_crlf +:+ acc) EmptyString headers
  +:+ (if str_empty body then EmptyString else "Content-Length: " +:+ dec (slen body) +:+ http_crlf)
  +:+ "Connection: close" +:+ http_crlf +:+ http_crlf.

(** The host and the path of the part of an endpoint after its scheme. *)
Definition host_and_path (method url : string) : string * string :=
  match split_before "/" url with
  | Some (host_port, path) => (host_port, path)
  | None => if String.eqb method "POST" then (url, "/v1/occurrences") else (url, "/")
  end.

Context {W : Type} `{Net W}.

Definition request (method endpoint : string) (headers : list (string * string)) (body : string)
    (max_response_bytes : Z) (w : W) : result HttpResponse string * W :=
  match strip_prefix endpoint "http://" with
  | None => (Err ("requires http://: " +:+ endpoint), w)
  | Some url =>
      let '(host_port, path) := host_and_path method url in
      let '(outcome, w) :=
        net_exchange host_port (request_head method path host_port headers body) body w in
      (match outcome with
       | ConnectFailed e => Err ("connect: " +:+ e)
       | WriteFailed e => Err ("write: " +:+ e)
       | WriteBodyFailed e => Err ("write body: " +:+ e)
       | Connected reads => read_response reads max_response_bytes
       end, w)
  end.

Definition http_get (endpoint : string) (headers : list (string * string)) (max_response_bytes : Z)
    (w : W) : result HttpResponse string * W :=
  request "GET" endpoint headers EmptyString max_response_bytes w.

Definition post_json_response (endpoint body : string) (max_response_bytes : Z) (w : W) :
  result HttpResponse string * W :=
  request "POST" endpoint [("Content-Type", "application/json")] body max_response_bytes w.

Definition is_success (status : Z) : bool := (200 <=? status) && (status <=? 299).

Definition post_json (endpoint body : string) (w : W) : result unit string * W :=
  let '(r, w) := post_json_response endpoint body POST_MAX_RESPONSE_BYTES w in
  (response <-? r ;;
   (if is_success (resp_status response) then Ok tt
    else Err ("HTTP " +:+ dec (resp_status response))), w).

(** * Lemmas *)

Definition concat_str (l : list string) : string := fold_right String.append EmptyString l.

Lemma str_empty_false (s : string) : str_empty s = false -> 0 < slen s.
Proof. destruct s; [done|]. unfold slen. simpl. lia. Qed.

Lemma slen_nonneg (s : string) : 0 <= slen s.
Proof. unfold slen. lia. Qed.

(** Reading does not depend on how the stream cuts the bytes. *)
Lemma read_loop_chunks (chunks : list string) (max : Z) (acc : string) :
  Forall (fun c => str_empty c = false) chunks -> slen acc <= max ->
  read_loop (map ReadData chunks) max acc =
  if slen (acc +:+ concat_str chunks) <=? max then Ok (acc +:+ concat_str chunks)
  else Err ("response exceeded " +:+ dec max +:+ " bytes").
Proof.
  revert acc. induction chunks as [|c chunks IH]; intros acc Hc Hacc.
  { simpl. rewrite str_app_nil_r. by rewrite (proj2 (Z.leb_le _ _) Hacc). }
  apply Forall_cons in Hc as [Hc Hcs].
  change (concat_str (c :: chunks)) with (c +:+ concat_str chunks). rewrite <- str_app_assoc.
  simpl. rewrite Hc. destruct (Z.ltb_spec max (slen (acc +:+ c))) as [Hgt|Hle].
  - destruct (Z.leb_spec (slen ((acc +:+ c) +:+ concat_str chunks)) max) as [Hle|]; [|done].
    rewrite slen_app in Hle. pose proof (slen_nonneg (concat_str chunks)). lia.
  - by apply IH.
Qed.

Lemma strip_prefix_longer (s t p : string) :
  strip_prefix s p = None -> (String.length p <= String.length s)%nat ->
  strip_prefix (s +:+ t) p = None.
Proof.
  revert s. induction p as [|b p IH]; intros [|a s]; simpl; intros Hn Hl; try done; [lia|].
  destruct (Ascii.eqb a b); [|done]. apply IH; [done|lia].
Qed.

Lemma split_before_app (c : ascii) (s t : string) :
  contains_char c s = false -> split_before c (s +:+ String c t) = Some (s, String c t).
Proof.
  induction s as [|a s IH]; simpl; [by rewrite Ascii.eqb_refl|].
  intros [Ha Hs]%orb_false_iff. rewrite Ha. by rewrite IH.
Qed.

Lemma split_head_length (s h b : string) : split_head s = Some (h, b) -> (4 <= String.length s)%nat.
Proof.
  revert h. induction s as [|a s IH]; intros h; [done|]. cbn [split_head].
  destruct (strip_prefix (String a s) (http_crlf +:+ http_crlf)) as [b'|] eqn:E.
  - intros _. apply strip_prefix_length in E. rewrite E. simpl. lia.
  - destruct (split_head s) as [[h' b']|]; [|done]. intros [= <- ->]. specialize (IH h' eq_refl). simpl. lia.
Qed.

(** The head is the same however much of the body has arrived. *)
Lemma split_head_extends (s t h b : string) :
  split_head s = Some (h, b) -> split_head (s +:+ t) = Some (h, b +:+ t).
Proof.
  revert h. induction s as [|a s IH]; intros h; [done|]. cbn [String.append split_head].
  change (String a (s +:+ t)) with (String a s +:+ t).
  destruct (strip_prefix (String a s) (http_crlf +:+ http_crlf)) as [b'|] eqn:E.
  - intros [= <- <-]. by rewrite (strip_prefix_extends _ _ _ _ E).
  - destruct (split_head s) as [[h' b']|] eqn:Es; [|done]. intros [= <- ->].
    rewrite (strip_prefix_longer _ t _ E).
    + by rewrite (IH h' eq_refl).
    + apply split_head_length in Es. simpl in *. lia.
Qed.

(** A response cut short is read with its own status, and with what arrived of
    its body. *)
Lemma parse_response_prefix (s t : string) (whole cut : HttpResponse) :
  parse_response (s +:+ t) = Ok whole -> parse_response s = Ok cut ->
  resp_status cut = resp_status whole /\ resp_body cut +:+ t = resp_body whole.
Proof.
  unfold parse_response. destruct (split_head s) as [[h b]|] eqn:Es; [|done].
  rewrite (split_head_extends _ t _ _ Es). destruct (negb _); [done|].
  destruct (lines h) as [|l ls]; [done|]. destruct (parse_status l); [|done]. simpl.
  by intros [= <-] [= <-].
Qed.

(** Reading what arrived in one piece is parsing it. *)
Lemma read_one_Ok (s : string) (max : Z) (resp : HttpResponse) :
  read_response [ReadData s] max = Ok resp -> parse_response s = Ok resp.
Proof.
  unfold read_response. cbn [read_loop]. destruct (str_empty s) eqn:Ee; [by destruct s|]. cbn [String.append].
  by destruct (max <? slen s).
Qed.

Lemma read_one_fits (s : string) (max : Z) :
  slen s <= max -> read_response [ReadData s] max = parse_response s.
Proof.
  intros Hs. unfold read_response. cbn [read_loop]. destruct (str_empty s) eqn:Ee; [by destruct s|].
  cbn [String.append]. by destruct (Z.ltb_spec max (slen s)); [lia|].
Qed.

(** What every exchange keeps, a request keeps. *)
Lemma request_keeps (I : W -> Prop) (method endpoint : string) (headers : list (string * string)) (body : string)
    (max_response_bytes : Z) (w : W) :
  (forall host head body w, I w -> I (snd (net_exchange host head body w))) -> I w ->
  I (snd (request method endpoint headers body max_response_bytes w)).
Proof.
  intros Hn Hw. unfold request. destruct (strip_prefix endpoint "http://") as [url|]; [|done].
  destruct (host_and_path method url) as [host path].
  pose proof (Hn host (request_head method path host headers body) body w Hw) as Hx.
  by destruct (net_exchange host _ body w) as [outcome w'].
Qed.

(** * Properties *)

(** The client's reading is independent of how the network cuts the response:
    any sequence of non-empty reads gives the parse of their concatenation
    when that fits the limit, and the size error when it does not. *)
Lemma read_response_chunking (chunks : list string) (max : Z)
    (Hchunks : Forall (fun c => str_empty c = false) chunks) (Hmax : 0 <= max) :
  read_response (map ReadData chunks) max =
  if slen (concat_str chunks) <=? max then parse_response (concat_str chunks)
  else Err ("response exceeded " +:+ dec max +:+ " bytes").
Proof.
  unfold read_response. rewrite read_loop_chunks by done. simpl.
  destruct (slen (concat_str chunks) <=? max); done.
Qed.
End Client.

Lemma read_response_chunking_witness :
  read_response (fun _ => EmptyString)
    (map ReadData ["HTTP/1.1 20"; "4 No Content" +:+ http_crlf; http_crlf]) 64 =
  Ok {| resp_status := 204; resp_body := EmptyString |}.
Proof. rewrite read_response_chunking; [reflexivity|repeat constructor|lia]. Defined.

(** A network that refuses every connection; its state is a clock. *)
#[export] Instance refusing_net : Net Z := {
  net_exchange := fun _ _ _ t => (ConnectFailed "connection refused", t);
}.
