(* ===== verification/AgentConfig.v ===== *)
(** [tapio-agent/src/config.rs]: the agent's TOML configuration and the
    construction of the kernel configuration record.  The TOML parser and the
    file system are arguments. *)
From Stdlib Require Import String.
From Corelib Require Import SpecFloat.
From S2P Require Import Prelude RustStr Float64 CommonEbpf Wire PmcObs.

Local Open Scope Z_scope.

Record Thresholds := {
  th_stall_pct_warning : f64;
  th_stall_pct_critical : f64;
  th_ipc_degradation : f64;
  th_rtt_spike_ratio : Z;
  th_rtt_spike_abs_us : Z;
  th_io_latency_warning_ns : Z;
  th_io_latency_critical_ns : Z;
}.

Definition Thresholds_default : Thresholds := {|
  th_stall_pct_warning := f64_of_Z 20;
  th_stall_pct_critical := f64_of_Z 40;
  th_ipc_degradation := f64_of_Z 1;
  th_rtt_spike_ratio := 2;
  th_rtt_spike_abs_us := 500000;
  th_io_latency_warning_ns := 50000000;
  th_io_latency_critical_ns := 200000000;
|}.

Record MetricsConfig := {
  mc_enabled : bool;
  mc_port : Z;
  mc_bind_address : string;
}.

Definition MetricsConfig_default : MetricsConfig :=
  {| mc_enabled := false; mc_port := 9090; mc_bind_address := "127.0.0.1" |}.

Record OtlpConfig := {
  ot_endpoint : string;
  ot_auth_header : option string;
  ot_batch_size : Z;
  ot_flush_interval_secs : Z;
}.

Definition OtlpConfig_default : OtlpConfig := {|
  ot_endpoint := "http://localhost:4318";
  ot_auth_header := None;
  ot_batch_size := 100;
  ot_flush_interval_secs := 5;
|}.

Record Config := {
  conf_thresholds : Thresholds;
  conf_metrics : MetricsConfig;
  conf_otlp : OtlpConfig;
}.

Definition Config_default : Config := {|
  conf_thresholds := Thresholds_default;
  conf_metrics := MetricsConfig_default;
  conf_otlp := OtlpConfig_default;
|}.

Definition validate_auth_header (header : option string) : result unit string :=
  match header with
  | Some value =>
      if contains_char (chr 13) value || contains_char newline value || contains_char (chr 0) value
      then Err "otlp.auth_header contains invalid characters (CR/LF/null)"
      else Ok tt
  | None => Ok tt
  end.

(** [load]: [file] is None when the path does not exist, else the result of
    reading it; [toml] is the parser. *)
Definition load (toml : string -> result Config string) (file : option (result string string)) :
  result Config string :=
  match file with
  | None => Ok Config_default
  | Some read =>
      content <-? read ;;
      config <-? toml content ;;
      validate_auth_header (ot_auth_header (conf_otlp config)) ;;?
      Ok config
  end.

(** * The kernel configuration *)

Definition no_exit_codes : list Z := replicate TAPIO_CONFIG_MAX_IGNORE_EXIT_CODES 0.

Definition Thresholds_tapio_config (t : Thresholds) : TapioConfig := {|
  tc_abi_version := TAPIO_CONFIG_ABI_VERSION;
  tc_generation := 1;
  tc_flags :=
    Z.lor (Z.lor (Z.lor TAPIO_F_NETWORK TAPIO_F_STORAGE) TAPIO_F_CONTAINER) TAPIO_F_NODE_PMC;
  tc_slow_io_threshold_ns := th_io_latency_warning_ns t;
  tc_io_latency_critical_ns := th_io_latency_critical_ns t;
  tc_conn_refused_window_ns := 0;
  tc_conn_refused_min_count := 0;
  tc_rtt_spike_multiplier := Z.min (th_rtt_spike_ratio t) U32_MAX;
  tc_rtt_spike_abs_us := Z.min (th_rtt_spike_abs_us t) U32_MAX;
  tc_rtt_min_baseline_samples := 5;
  tc_ignore_exit_count := 0;
  tc_ignore_exit_codes := no_exit_codes;
  tc_pad := 0;
|}.

Definition Config_tapio_config (c : Config) : TapioConfig := Thresholds_tapio_config (conf_thresholds c).

(** [TapioConfig::default()]: what the maps hold before the first poll. *)
Definition TapioConfig_default : TapioConfig := {|
  tc_abi_version := 0; tc_generation := 0; tc_flags := 0; tc_slow_io_threshold_ns := 0;
  tc_io_latency_critical_ns := 0; tc_conn_refused_window_ns := 0; tc_conn_refused_min_count := 0;
  tc_rtt_spike_multiplier := 0; tc_rtt_spike_abs_us := 0; tc_rtt_min_baseline_samples := 0;
  tc_ignore_exit_count := 0; tc_ignore_exit_codes := no_exit_codes; tc_pad := 0 |}.

Inductive CompiledConfigError := InvalidGeneration (value : string).

Definition CompiledConfigError_to_string (e : CompiledConfigError) : string :=
  match e with
  | InvalidGeneration value => "config version " +:+ quoted value +:+ " is not a valid u32 generation"
  end.

(** The zip of the slots with the codes: the first sixteen codes, then zeros. *)
Fixpoint fill_slots (slots codes : list Z) : list Z :=
  match slots, codes with
  | _ :: slots', code :: codes' => code :: fill_slots slots' codes'
  | _, _ => slots
  end.

Definition flag_if (b : bool) (flag acc : Z) : Z := if b then Z.lor acc flag else acc.

Definition tapio_config_from_compiled (config : CompiledConfig) (generation : string) :
  result TapioConfig CompiledConfigError :=
  match parse_unsigned U32_MAX generation with
  | None => Err (InvalidGeneration generation)
  | Some generation =>
      let flags := 0 in
      let flags := flag_if (cn_enabled (cfg_network config)) TAPIO_F_NETWORK flags in
      let flags := flag_if (cs_enabled (cfg_storage config)) TAPIO_F_STORAGE flags in
      let flags := flag_if (cc_enabled (cfg_container config)) TAPIO_F_CONTAINER flags in
      let flags := flag_if (cp_enabled (cfg_node_pmc config)) TAPIO_F_NODE_PMC flags in
      let codes := cc_ignore_exit_codes (cfg_container config) in
      Ok {|
        tc_abi_version := TAPIO_CONFIG_ABI_VERSION;
        tc_generation := generation;
        tc_flags := flags;
        tc_slow_io_threshold_ns := cs_slow_io_warning_ns (cfg_storage config);
        tc_io_latency_critical_ns := cs_slow_io_critical_ns (cfg_storage config);
        tc_conn_refused_window_ns := cn_conn_refused_window_ns (cfg_network config);
        tc_conn_refused_min_count := cn_conn_refused_min_count (cfg_network config);
        tc_rtt_spike_multiplier := cn_rtt_spike_ratio (cfg_network config);
        tc_rtt_spike_abs_us := cn_rtt_spike_abs_us (cfg_network config);
        tc_rtt_min_baseline_samples := cn_rtt_min_baseline_samples (cfg_network config);
        tc_ignore_exit_count := Z.min (zlen codes) (Z.of_nat TAPIO_CONFIG_MAX_IGNORE_EXIT_CODES);
        tc_ignore_exit_codes := fill_slots no_exit_codes codes;
        tc_pad := 0;
      |}
  end.

Definition pmc_thresholds_from_compiled (config : CompiledConfig) : PmcThresholds :=
  let p := cfg_node_pmc config in
  {| pt_stall_pct_warning := f64_div (f64_of_Z (cp_stall_warning_permille p)) (f64_of_Z 10);
     pt_stall_pct_critical := f64_div (f64_of_Z (cp_stall_critical_permille p)) (f64_of_Z 10);
     pt_ipc_degradation := f64_div (f64_of_Z (cp_ipc_degradation_milli p)) (f64_of_Z 1000) |}.

(** * Lemmas *)

Lemma fill_slots_length (slots codes : list Z) : length (fill_slots slots codes) = length slots.
Proof.
  revert codes. induction slots as [|s slots IH]; intros [|c codes]; simpl; auto.
Qed.

Lemma fill_slots_take (slots codes : list Z) :
  take (length codes) (fill_slots slots codes) = take (length slots) codes.
Proof.
  revert codes. induction slots as [|s slots IH]; intros [|c codes]; simpl; auto.
  by rewrite IH.
Qed.

(** The codes the kernel will read: the first [ignore_exit_count] slots. *)
Definition kernel_exit_codes (c : TapioConfig) : list Z :=
  take (Z.to_nat (tc_ignore_exit_count c)) (tc_ignore_exit_codes c).

Lemma fill_slots_min (slots codes : list Z) :
  take (Nat.min (length codes) (length slots)) (fill_slots slots codes) = take (length slots) codes.
Proof.
  revert codes. induction slots as [|s slots IH]; intros [|c codes]; simpl; auto.
  by rewrite IH.
Qed.

(** What the kernel programs ask of the record. *)
Record kernel_view (c : CompiledConfig) (t : TapioConfig) : Prop := {
  kv_network : observer_enabled t TAPIO_F_NETWORK = cn_enabled (cfg_network c);
  kv_storage : observer_enabled t TAPIO_F_STORAGE = cs_enabled (cfg_storage c);
  kv_container : observer_enabled t TAPIO_F_CONTAINER = cc_enabled (cfg_container c);
  kv_node : observer_enabled t TAPIO_F_NODE_PMC = cp_enabled (cfg_node_pmc c);
  kv_codes : kernel_exit_codes t = take 16 (cc_ignore_exit_codes (cfg_container c));
  kv_slots : length (tc_ignore_exit_codes t) = 16%nat;
  kv_count : 0 <= tc_ignore_exit_count t <= 16;
  kv_io : tc_slow_io_threshold_ns t = cs_slow_io_warning_ns (cfg_storage c) /\
          tc_io_latency_critical_ns t = cs_slow_io_critical_ns (cfg_storage c);
  kv_rtt : tc_rtt_spike_multiplier t = cn_rtt_spike_ratio (cfg_network c) /\
           tc_rtt_spike_abs_us t = cn_rtt_spike_abs_us (cfg_network c) /\
           tc_rtt_min_baseline_samples t = cn_rtt_min_baseline_samples (cfg_network c);
}.

Lemma from_compiled_view (c : CompiledConfig) (generation : string) (t : TapioConfig) :
  tapio_config_from_compiled c generation = Ok t ->
  parse_unsigned U32_MAX generation = Some (tc_generation t) /\ kernel_view c t.
Proof.
  unfold tapio_config_from_compiled. destruct (parse_unsigned U32_MAX generation) as [g|]; [|done].
  intros [= <-]. split; [done|]. constructor; cbn [tc_ignore_exit_codes tc_ignore_exit_count
    tc_slow_io_threshold_ns tc_io_latency_critical_ns tc_rtt_spike_multiplier tc_rtt_spike_abs_us]; try done.
  1, 2, 3, 4: unfold observer_enabled, has_valid_abi; cbn [tc_flags tc_abi_version];
    destruct (cn_enabled _), (cs_enabled _), (cc_enabled _), (cp_enabled _); reflexivity.
  - unfold kernel_exit_codes. cbn [tc_ignore_exit_count tc_ignore_exit_codes].
    rewrite <- (fill_slots_min no_exit_codes). f_equal. unfold zlen.
    change (length no_exit_codes) with 16%nat. change TAPIO_CONFIG_MAX_IGNORE_EXIT_CODES with 16%nat. lia.
  - exact (fill_slots_length no_exit_codes (cc_ignore_exit_codes (cfg_container c))).
  - pose proof (zlen_nonneg (cc_ignore_exit_codes (cfg_container c))).
    change TAPIO_CONFIG_MAX_IGNORE_EXIT_CODES with 16%nat. lia.
Qed.

Lemma permille_exhaustive :
  forallb (fun n => let z := Z.of_nat n in
    f64_as_u32 (f64_round (f64_mul (f64_div (f64_of_Z z) (f64_of_Z 10)) (f64_of_Z 10))) =? z)
    (seq 0 1001) = true.
Proof. vm_compute. reflexivity. Qed.

(** * Properties *)

(** The record the agent writes into the kernel maps says what the compiled
    configuration says: an observer's flag is on exactly when it is enabled,
    the count and the slots name the first sixteen exit codes and nothing
    past them, thresholds are copied, and the generation is the one the
    version string denotes. *)
Lemma compiled_config_kernel_view (c : CompiledConfig) (generation : string) (t : TapioConfig)
    (Ht : tapio_config_from_compiled c generation = Ok t) :
  parse_unsigned U32_MAX generation = Some (tc_generation t) /\ kernel_view c t.
Proof. by apply from_compiled_view. Qed.

Lemma compiled_config_kernel_view_witness :
  exists t, tapio_config_from_compiled (cr_config ConfigResponse_default_v1) "7" = Ok t /\
    tc_generation t = 7 /\ kernel_view (cr_config ConfigResponse_default_v1) t.
Proof.
  eexists. split; [reflexivity|]. split; [reflexivity|].
  apply (compiled_config_kernel_view (cr_config ConfigResponse_default_v1) "7"). reflexivity.
Defined.

(** A stall threshold survives the wire: for every permille of the range the
    agent's percentage, scaled back and rounded as the controller compiles it,
    is the permille it came from. *)
Lemma stall_permille_round_trip (c : CompiledConfig)
    (Hw : 0 <= cp_stall_warning_permille (cfg_node_pmc c) <= 1000) :
  f64_as_u32 (f64_round (f64_mul (pt_stall_pct_warning (pmc_thresholds_from_compiled c)) (f64_of_Z 10)))
  = cp_stall_warning_permille (cfg_node_pmc c).
Proof.
  pose proof permille_exhaustive as H. rewrite forallb_forall in H.
  specialize (H (Z.to_nat (cp_stall_warning_permille (cfg_node_pmc c)))).
  rewrite in_seq in H. cbn zeta in H. rewrite Z2Nat.id in H by lia.
  apply Z.eqb_eq, H. lia.
Qed.

Lemma stall_permille_round_trip_witness :
  f64_as_u32 (f64_round (f64_mul
    (pt_stall_pct_warning (pmc_thresholds_from_compiled (cr_config ConfigResponse_default_v1)))
    (f64_of_Z 10))) = 200.
Proof. apply stall_permille_round_trip. vm_compute. intuition congruence. Defined.
