(* ===== verification/Heartbeat.v ===== *)
(** [tapio-agent/src/heartbeat.rs]: the identity of the applied configuration and
    the heartbeat built from a snapshot. *)
From Stdlib Require Import String.
From S2P Require Import Prelude RustStr BTree CommonEbpf Wire.

Local Open Scope Z_scope.

Definition OBSERVERS : list (string * Z) :=
  [("network", TAPIO_F_NETWORK); ("storage", TAPIO_F_STORAGE);
   ("container", TAPIO_F_CONTAINER); ("node", TAPIO_F_NODE_PMC)].

Record AppliedConfigIdentity := {
  ac_version : string;
  ac_hash : string;
  ac_flags : Z;
}.

(** [ActiveConfigIdentity]: nothing until a configuration is applied. *)
Definition ActiveConfigIdentity := option AppliedConfigIdentity.

Definition mark_applied (identity : AppliedConfigIdentity) (a : ActiveConfigIdentity) :
  ActiveConfigIdentity := Some identity.

Record HeartbeatSnapshot := {
  sn_agent_id : string;
  sn_node_name : string;
  sn_uptime_seconds : Z;
  sn_observers : btree string ObserverStatus;
  sn_counters : HeartbeatCounters;
  sn_controller_mode : bool;
  sn_active_config : option AppliedConfigIdentity;
}.

Definition build_heartbeat (s : HeartbeatSnapshot) : HeartbeatRequest :=
  let degraded_reasons :=
    match sn_controller_mode s, sn_active_config s with
    | true, None => [Unconfigured]
    | _, _ => []
    end in
  let '(config_version, config_hash) :=
    match sn_active_config s with
    | Some config => (ac_version config, ac_hash config)
    | None => ("0", EmptyString)
    end in
  {| hb_wire_version := WIRE_VERSION;
     hb_agent_id := sn_agent_id s;
     hb_node_name := sn_node_name s;
     hb_config_version := config_version;
     hb_config_hash := config_hash;
     hb_uptime_seconds := sn_uptime_seconds s;
     hb_observers := sn_observers s;
     hb_counters := sn_counters s;
     hb_degraded_reasons := degraded_reasons |}.

Definition observer_statuses (active_config : option AppliedConfigIdentity) :
  btree string ObserverStatus :=
  fold_left (fun m obs =>
      let status := match active_config with
                    | Some config => if negb (Z.land (ac_flags config) (snd obs) =? 0) then Running
                                     else Disabled
                    | None => Disabled
                    end in
      bt_insert (fst obs) status m) OBSERVERS [].

(** * Lemmas *)

Lemma observer_statuses_nonempty (a : option AppliedConfigIdentity) :
  is_empty (observer_statuses a) = false.
Proof. destruct a; reflexivity. Qed.

Lemma observer_statuses_get (a : option AppliedConfigIdentity) (name : string) (flag : Z) :
  In (name, flag) OBSERVERS ->
  bt_get name (observer_statuses a) =
  Some (match a with
        | Some c => if negb (Z.land (ac_flags c) flag =? 0) then Running else Disabled
        | None => Disabled
        end).
Proof.
  intros [[= <- <-]|[[= <- <-]|[[= <- <-]|[[= <- <-]|[]]]]]; destruct a; reflexivity.
Qed.

(** A heartbeat of a named agent always passes the controller's validation. *)
Lemma heartbeat_valid (s : HeartbeatSnapshot) :
  blank (sn_agent_id s) = false -> blank (sn_node_name s) = false ->
  (forall c, sn_active_config s = Some c -> blank (ac_version c) = false) ->
  sn_observers s <> [] ->
  HeartbeatRequest_validate (build_heartbeat s) = Ok tt.
Proof.
  intros Ha Hn Hc Ho. unfold HeartbeatRequest_validate, build_heartbeat.
  destruct (sn_active_config s) as [c|]; cbn -[validate_wire_version required is_empty];
    autorewrite with tapio; rewrite (proj2 (is_empty_false _)) by done; auto 10.
Qed.
