(* ===== verification/Carriers.v ===== *)
(** [tapio-agent/src/observer/mod.rs]: the configuration carriers.  An observer
    writes the configuration the agent starts with into its [tapio_config] map
    and registers the map's descriptor; a configuration update fans out to every
    registered map.  The lock protects the list and the current configuration,
    not the writes to the maps, so an operation is a locked step among one step
    per write, and the steps of concurrent operations interleave.
    [bpf_map_update_tapio_config] is a system call and may fail at any call:
    [writable n fd] says whether the [n]-th call, to [fd], succeeds. *)
From Stdlib Require Import String Relations.Relation_Operators.
From S2P Require Import Prelude RustStr CommonEbpf AgentConfig.

Local Open Scope Z_scope.

Definition MAX_DRAIN_PER_TICK : Z := 2048.
Definition LOST_EVENTS_CHECK_INTERVAL : Z := 1000.
Definition METRIC_LOST_EVENTS : Z := 0.
Definition METRIC_STORAGE_AMBIGUOUS_IO : Z := 1.

Record ConfigCarrier := {
  car_observer : string;
  car_map_fd : Z;
}.

Record ConfigCarrierState := {
  cst_carriers : list ConfigCarrier;
  cst_current : option TapioConfig;
}.

Definition ConfigCarrierState_default : ConfigCarrierState :=
  {| cst_carriers := []; cst_current := None |}.

(** [count.is_power_of_two()] *)
Definition is_power_of_two (n : Z) : bool := (0 <? n) && (Z.land n (n - 1) =? 0).
Definition should_warn_malformed_event (count : Z) : bool := (count <=? 10) || is_power_of_two count.

(** The kernel's [tapio_config] maps, by descriptor, with the calls made to
    write them so far, the latest first: the descriptor and whether it worked. *)
Record Maps := {
  map_config : Z -> option TapioConfig;
  map_calls : list (Z * bool);
}.

Definition Maps_new : Maps := {| map_config := fun _ => None; map_calls := [] |}.

(** The outcome of the last write to a map, if there was one. *)
Definition last_write (m : Maps) (fd : Z) : option bool :=
  option_map snd (find (fun k => fst k =? fd) (map_calls m)).

(** The last write to the map failed, or it put [want] there and it still is:
    a failed write leaves what the map held, and nothing repeats it. *)
Definition up_to_date (want : TapioConfig) (m : Maps) (fd : Z) : Prop :=
  match last_write m fd with
  | Some true => map_config m fd = Some want
  | Some false => True
  | None => False
  end.

Section Carriers.
Variable writable : nat -> Z -> bool.

Definition bpf_map_update_tapio_config (fd : Z) (config : TapioConfig) (m : Maps) :
  result unit string * Maps :=
  let ok := writable (length (map_calls m)) fd in
  (if ok then Ok tt else Err "bpf",
   {| map_config := if ok then fun fd' => if fd' =? fd then Some config else map_config m fd'
                    else map_config m;
      map_calls := (fd, ok) :: map_calls m |}).

(** * Whole operations, run without interruption *)

Definition register (observer : string) (map_fd : Z) (s : ConfigCarrierState) (m : Maps) :
  ConfigCarrierState * Maps :=
  let s' := {| cst_carriers := cst_carriers s ++ [{| car_observer := observer; car_map_fd := map_fd |}];
               cst_current := cst_current s |} in
  match cst_current s with
  | Some config => (s', snd (bpf_map_update_tapio_config map_fd config m))
  | None => (s', m)
  end.

Fixpoint write_carriers (carriers : list ConfigCarrier) (config : TapioConfig) (m : Maps) :
  list string * Maps :=
  match carriers with
  | [] => ([], m)
  | c :: cs =>
      let '(r, m) := bpf_map_update_tapio_config (car_map_fd c) config m in
      let '(failed, m) := write_carriers cs config m in
      (if is_ok r then failed else car_observer c :: failed, m)
  end.

Definition update_all (config : TapioConfig) (s : ConfigCarrierState) (m : Maps) :
  list string * ConfigCarrierState * Maps :=
  let s' := {| cst_carriers := cst_carriers s; cst_current := Some config |} in
  let '(failed, m) := write_carriers (cst_carriers s) config m in
  (failed, s', m).

(** [map_fd] is None when the object has no [tapio_config] map. *)
Definition init_and_register_tapio_config (map_fd : option Z) (observer : string)
    (config : TapioConfig) (s : ConfigCarrierState) (m : Maps) : bool * ConfigCarrierState * Maps :=
  match map_fd with
  | None => (false, s, m)
  | Some fd =>
      match bpf_map_update_tapio_config fd config m with
      | (Ok _, m) => let '(s, m) := register observer fd s m in (true, s, m)
      | (Err _, m) => (false, s, m)
      end
  end.

(** * Agreement of the maps with the current configuration *)

Definition agree (s : ConfigCarrierState) (m : Maps) : Prop :=
  forall config, cst_current s = Some config ->
  Forall (fun c => up_to_date config m (car_map_fd c)) (cst_carriers s).

(** Before the first update the registered maps hold the configuration the
    observers start with, after it the current one. *)
Definition all_on (start : TapioConfig) (s : ConfigCarrierState) (m : Maps) : Prop :=
  Forall (fun c => up_to_date (default start (cst_current s)) m (car_map_fd c)) (cst_carriers s).

Lemma write_get (fd fd' : Z) (config : TapioConfig) (m : Maps) :
  map_config (snd (bpf_map_update_tapio_config fd config m)) fd' =
  if writable (length (map_calls m)) fd && (fd' =? fd) then Some config else map_config m fd'.
Proof.
  unfold bpf_map_update_tapio_config. simpl. destruct (writable _ fd); simpl; [|done].
  by destruct (fd' =? fd).
Qed.

Lemma write_ok (fd : Z) (config : TapioConfig) (m : Maps) :
  is_ok (fst (bpf_map_update_tapio_config fd config m)) = writable (length (map_calls m)) fd.
Proof. simpl. by destruct (writable _ fd). Qed.

Lemma write_last (fd fd' : Z) (config : TapioConfig) (m : Maps) :
  last_write (snd (bpf_map_update_tapio_config fd config m)) fd' =
  if fd' =? fd then Some (writable (length (map_calls m)) fd) else last_write m fd'.
Proof. unfold last_write. simpl. rewrite (Z.eqb_sym fd fd'). by destruct (fd' =? fd). Qed.

Lemma write_up_to_date (fd : Z) (config : TapioConfig) (m : Maps) :
  up_to_date config (snd (bpf_map_update_tapio_config fd config m)) fd.
Proof.
  unfold up_to_date. rewrite write_last, write_get, Z.eqb_refl. by destruct (writable _ fd).
Qed.

Lemma write_other (fd fd' : Z) (want config : TapioConfig) (m : Maps) :
  fd' <> fd ->
  up_to_date want (snd (bpf_map_update_tapio_config fd config m)) fd' <-> up_to_date want m fd'.
Proof.
  intros Hne. unfold up_to_date. rewrite write_last, write_get.
  by rewrite (proj2 (Z.eqb_neq fd' fd) Hne), andb_false_r.
Qed.

(** A further write of the same configuration keeps what is up to date. *)
Lemma write_keeps (fd fd' : Z) (want : TapioConfig) (m : Maps) :
  up_to_date want m fd' -> up_to_date want (snd (bpf_map_update_tapio_config fd want m)) fd'.
Proof.
  intros H. destruct (Z.eq_dec fd' fd) as [->|Hne]; [apply write_up_to_date|by apply write_other].
Qed.

Lemma failed_write_up_to_date (fd fd' : Z) (want config : TapioConfig) (m : Maps) :
  writable (length (map_calls m)) fd = false ->
  up_to_date want m fd' -> up_to_date want (snd (bpf_map_update_tapio_config fd config m)) fd'.
Proof.
  intros Hw H. destruct (Z.eq_dec fd' fd) as [->|Hne]; [|by apply write_other].
  unfold up_to_date. by rewrite write_last, Z.eqb_refl, Hw.
Qed.

Lemma write_carriers_keeps (cs : list ConfigCarrier) (config : TapioConfig) (m : Maps) (fd : Z) :
  up_to_date config m fd -> up_to_date config (snd (write_carriers cs config m)) fd.
Proof.
  revert m. induction cs as [|c cs IH]; intros m H; cbn [write_carriers]; [done|].
  pose proof (write_keeps (car_map_fd c) fd config m H) as Hw.
  destruct (bpf_map_update_tapio_config (car_map_fd c) config m) as [r m'].
  specialize (IH m' Hw). by destruct (write_carriers cs config m').
Qed.

Lemma write_carriers_up_to_date (cs : list ConfigCarrier) (config : TapioConfig) (m : Maps) :
  Forall (fun c => up_to_date config (snd (write_carriers cs config m)) (car_map_fd c)) cs.
Proof.
  revert m. induction cs as [|c cs IH]; intros m; cbn [write_carriers]; [constructor|].
  pose proof (write_up_to_date (car_map_fd c) config m) as Hw.
  destruct (bpf_map_update_tapio_config (car_map_fd c) config m) as [r m'].
  pose proof (write_carriers_keeps cs config m' (car_map_fd c) Hw) as Hk. specialize (IH m').
  destruct (write_carriers cs config m') as [failed m'']. by constructor.
Qed.

(** Whatever fails, a map only comes to hold what is written. *)
Definition hold_only (P : TapioConfig -> Prop) (m : Maps) : Prop :=
  forall fd c, map_config m fd = Some c -> P c.

Lemma write_hold_only (P : TapioConfig -> Prop) (fd : Z) (config : TapioConfig) (m : Maps) :
  P config -> hold_only P m -> hold_only P (snd (bpf_map_update_tapio_config fd config m)).
Proof. intros Hc Hm fd' c. rewrite write_get. destruct (_ && _); [by intros [= <-]|apply Hm]. Qed.

Lemma update_all_hold_only (P : TapioConfig -> Prop) (config : TapioConfig) (s : ConfigCarrierState) (m : Maps) :
  P config -> hold_only P m -> hold_only P (snd (update_all config s m)).
Proof.
  intros Hc Hm. unfold update_all. assert (H : forall cs, hold_only P (snd (write_carriers cs config m))).
  { intros cs. revert m Hm. induction cs as [|k cs IH]; intros m Hm; cbn [write_carriers]; [done|].
    pose proof (write_hold_only P (car_map_fd k) config m Hc Hm) as Hw.
    destruct (bpf_map_update_tapio_config (car_map_fd k) config m) as [r m'].
    specialize (IH m' Hw). by destruct (write_carriers cs config m'). }
  specialize (H (cst_carriers s)). by destruct (write_carriers (cst_carriers s) config m).
Qed.

Lemma register_agree (observer : string) (fd : Z) (s : ConfigCarrierState) (m : Maps) :
  agree s m -> let '(s', m') := register observer fd s m in agree s' m'.
Proof.
  unfold register, agree. destruct (cst_current s) as [config|]; cbn -[bpf_map_update_tapio_config]; [|done].
  intros Hag config' [= <-]. specialize (Hag config eq_refl).
  apply Forall_app. split; [|repeat constructor; apply write_up_to_date].
  eapply Forall_impl; [exact Hag|]. intros c Hc. by apply write_keeps.
Qed.

Lemma init_and_register_cases (fd : Z) (observer : string) (start : TapioConfig)
    (s : ConfigCarrierState) (m : Maps) :
  let m1 := snd (bpf_map_update_tapio_config fd start m) in
  init_and_register_tapio_config (Some fd) observer start s m =
  if writable (length (map_calls m)) fd
  then (true, fst (register observer fd s m1), snd (register observer fd s m1))
  else (false, s, m1).
Proof.
  cbv zeta. unfold init_and_register_tapio_config. destruct (bpf_map_update_tapio_config fd start m) as [r m1] eqn:E.
  cbn [snd]. assert (r = if writable (length (map_calls m)) fd then Ok tt else Err "bpf") as ->.
  { change r with (fst (r, m1)). by rewrite <- E. }
  destruct (writable _ fd); [|done]. by destruct (register observer fd s m1).
Qed.

(** An observer that starts first writes its own configuration, then registers;
    if the first write fails it does not register. *)
Lemma init_and_register_agree (map_fd : option Z) (observer : string) (config : TapioConfig)
    (s : ConfigCarrierState) (m : Maps) :
  agree s m -> let '(_, s', m') := init_and_register_tapio_config map_fd observer config s m in agree s' m'.
Proof.
  destruct map_fd as [fd|]; [|done]. intros Hag. rewrite init_and_register_cases.
  destruct (writable (length (map_calls m)) fd) eqn:Ew.
  2: { intros c Hc. eapply Forall_impl; [exact (Hag c Hc)|]. intros k Hk. by apply failed_write_up_to_date. }
  unfold register, agree. destruct (cst_current s) as [current|] eqn:Ec; cbn -[bpf_map_update_tapio_config];
    intros c' Hc'; [|congruence].
  assert (c' = current) as -> by congruence. apply Forall_app.
  split; [|repeat constructor; apply write_up_to_date].
  eapply Forall_impl; [exact (Hag current Ec)|]. intros k Hk.
  destruct (Z.eq_dec (car_map_fd k) fd) as [->|Hne]; [apply write_up_to_date|].
  by do 2 (apply write_other; [done|]).
Qed.

Lemma init_and_register_current (map_fd : option Z) (observer : string) (config : TapioConfig)
    (s : ConfigCarrierState) (m : Maps) :
  cst_current (snd (fst (init_and_register_tapio_config map_fd observer config s m))) = cst_current s.
Proof.
  destruct map_fd as [fd|]; [|done]. rewrite init_and_register_cases.
  destruct (writable _ fd); [|done]. unfold register. by destruct (cst_current s) eqn:E.
Qed.

Lemma all_on_agree (start : TapioConfig) (s : ConfigCarrierState) (m : Maps) : all_on start s m -> agree s m.
Proof. unfold all_on, agree. intros H config E. by rewrite E in H. Qed.

Lemma agree_all_on (start config : TapioConfig) (s : ConfigCarrierState) (m : Maps) :
  agree s m -> cst_current s = Some config -> all_on start s m.
Proof. unfold all_on, agree. intros H E. rewrite E. by apply H. Qed.

Lemma init_and_register_all_on (map_fd : option Z) (observer : string) (start : TapioConfig)
    (s : ConfigCarrierState) (m : Maps) :
  all_on start s m ->
  let '(_, s', m') := init_and_register_tapio_config map_fd observer start s m in all_on start s' m'.
Proof.
  intros Hall. destruct (cst_current s) as [current|] eqn:Ec.
  - pose proof (init_and_register_agree map_fd observer start s m (all_on_agree _ _ _ Hall)) as H.
    pose proof (init_and_register_current map_fd observer start s m) as Hcur.
    destruct (init_and_register_tapio_config map_fd observer start s m) as [[ok s'] m'].
    apply (agree_all_on _ current); [done|]. by rewrite <- Ec.
  - destruct map_fd as [fd|]; [|done]. rewrite init_and_register_cases. unfold all_on in *.
    rewrite Ec in Hall. unfold register. rewrite Ec.
    destruct (writable (length (map_calls m)) fd); cbn -[bpf_map_update_tapio_config]; rewrite ?Ec;
      [apply Forall_app; split; [|repeat constructor; apply write_up_to_date]|];
      (eapply Forall_impl; [exact Hall|]; intros k Hk; by apply write_keeps).
Qed.

Lemma update_all_agree (config : TapioConfig) (s : ConfigCarrierState) (m : Maps) :
  let '(_, s', m') := update_all config s m in agree s' m'.
Proof.
  unfold update_all, agree. pose proof (write_carriers_up_to_date (cst_carriers s) config m) as Hw.
  destruct (write_carriers (cst_carriers s) config m) as [failed m']. simpl in *. by intros config' [= <-].
Qed.

Lemma init_and_register_hold_only (P : TapioConfig -> Prop) (map_fd : option Z) (observer : string)
    (start : TapioConfig) (s : ConfigCarrierState) (m : Maps) :
  P start -> (forall c, cst_current s = Some c -> P c) -> hold_only P m ->
  hold_only P (snd (init_and_register_tapio_config map_fd observer start s m)).
Proof.
  intros Hs Hc Hm. destruct map_fd as [fd|]; [|done]. rewrite init_and_register_cases.
  pose proof (write_hold_only P fd start m Hs Hm) as H1.
  destruct (writable _ fd); cbn [snd]; [|done]. unfold register.
  destruct (cst_current s) as [c|]; cbn [snd]; [|done]. apply write_hold_only; [by apply Hc|done].
Qed.

(** * Interleaved operations *)

(** An operation in flight: an observer about to write the configuration it
    starts with, one about to take the lock, or the writes an operation still
    has to do after its locked section. *)
Inductive operation :=
| OpInit (observer : string) (fd : Z)
| OpRegister (observer : string) (fd : Z)
| OpWrites (ws : list (Z * TapioConfig)).

Record sys := {
  sys_state : ConfigCarrierState;
  sys_maps : Maps;
  sys_pending : list operation;
}.

(** The configuration every observer of the agent starts with. *)
Variable start : TapioConfig.

(** A step; one that locks for an update carries its configuration. *)
Inductive cstep : option TapioConfig -> sys -> sys -> Prop :=
| step_start s m p observer fd :
    cstep None {| sys_state := s; sys_maps := m; sys_pending := p |}
      {| sys_state := s; sys_maps := m; sys_pending := p ++ [OpInit observer fd] |}
| step_init s m p1 p2 observer fd :
    cstep None {| sys_state := s; sys_maps := m; sys_pending := p1 ++ OpInit observer fd :: p2 |}
      {| sys_state := s; sys_maps := snd (bpf_map_update_tapio_config fd start m);
         sys_pending := p1 ++ (if is_ok (fst (bpf_map_update_tapio_config fd start m))
                               then OpRegister observer fd else OpWrites []) :: p2 |}
| step_register s m p1 p2 observer fd :
    cstep None {| sys_state := s; sys_maps := m; sys_pending := p1 ++ OpRegister observer fd :: p2 |}
      {| sys_state := {| cst_carriers := cst_carriers s ++ [{| car_observer := observer; car_map_fd := fd |}];
                         cst_current := cst_current s |};
         sys_maps := m;
         sys_pending := p1 ++ OpWrites (match cst_current s with Some c => [(fd, c)] | None => [] end) :: p2 |}
| step_update s m p config :
    cstep (Some config) {| sys_state := s; sys_maps := m; sys_pending := p |}
      {| sys_state := {| cst_carriers := cst_carriers s; cst_current := Some config |};
         sys_maps := m;
         sys_pending := p ++ [OpWrites (map (fun c => (car_map_fd c, config)) (cst_carriers s))] |}
| step_write s m p1 p2 fd config ws :
    cstep None {| sys_state := s; sys_maps := m; sys_pending := p1 ++ OpWrites ((fd, config) :: ws) :: p2 |}
      {| sys_state := s; sys_maps := snd (bpf_map_update_tapio_config fd config m);
         sys_pending := p1 ++ OpWrites ws :: p2 |}
| step_done s m p1 p2 :
    cstep None {| sys_state := s; sys_maps := m; sys_pending := p1 ++ OpWrites [] :: p2 |}
      {| sys_state := s; sys_maps := m; sys_pending := p1 ++ p2 |}.

Definition sys_init : sys :=
  {| sys_state := ConfigCarrierState_default; sys_maps := Maps_new; sys_pending := [] |}.

(** The writes in flight. *)
Definition op_writes (o : operation) : list (Z * TapioConfig) :=
  match o with OpWrites ws => ws | _ => [] end.

Definition writes_in_flight (x : sys) : list (Z * TapioConfig) := flat_map op_writes (sys_pending x).

(** A run from the start, with the configurations its updates install, in
    order, each with the descriptors that had a write in flight when it took
    the lock: the maps whose own write it overlaps. *)
Inductive crun : list (TapioConfig * list Z) -> sys -> Prop :=
| crun_init : crun [] sys_init
| crun_step us x y : crun us x -> cstep None x y -> crun us y
| crun_update us x y config :
    crun us x -> cstep (Some config) x y -> crun (us ++ [(config, map fst (writes_in_flight x))]) y.

Definition overlapped (us : list (TapioConfig * list Z)) (fd : Z) : Prop := In fd (flat_map snd us).

(** The whole operations are runs of the interleaved ones. *)
Lemma crun_writes (us : list (TapioConfig * list Z)) (ws : list (Z * TapioConfig)) (s : ConfigCarrierState)
    (m : Maps) (p : list operation) :
  crun us {| sys_state := s; sys_maps := m; sys_pending := p ++ [OpWrites ws] |} ->
  crun us {| sys_state := s;
     sys_maps := fold_left (fun m w => snd (bpf_map_update_tapio_config (fst w) (snd w) m)) ws m;
     sys_pending := p |}.
Proof.
  revert m. induction ws as [|[fd config] ws IH]; intros m H; simpl.
  - eapply crun_step in H; [|apply step_done]. by rewrite app_nil_r in H.
  - apply IH. eapply crun_step; [exact H|apply step_write].
Qed.

Lemma write_carriers_fold (cs : list ConfigCarrier) (config : TapioConfig) (m : Maps) :
  snd (write_carriers cs config m) =
  fold_left (fun m w => snd (bpf_map_update_tapio_config (fst w) (snd w) m))
    (map (fun c => (car_map_fd c, config)) cs) m.
Proof.
  revert m. induction cs as [|c cs IH]; intros m; cbn [write_carriers map fold_left fst snd]; [done|].
  rewrite <- IH. destruct (bpf_map_update_tapio_config (car_map_fd c) config m) as [r m'] eqn:E.
  cbn [snd]. by destruct (write_carriers cs config m').
Qed.

Lemma init_and_register_runs (us : list (TapioConfig * list Z)) (observer : string) (fd : Z)
    (s : ConfigCarrierState) (m : Maps) :
  crun us {| sys_state := s; sys_maps := m; sys_pending := [] |} ->
  let '(_, s', m') := init_and_register_tapio_config (Some fd) observer start s m in
  crun us {| sys_state := s'; sys_maps := m'; sys_pending := [] |}.
Proof.
  intros H. rewrite init_and_register_cases.
  eapply crun_step in H; [|apply (step_start s m [] observer fd)].
  eapply crun_step in H; [|apply (step_init s m [] [] observer fd)].
  cbn [app bpf_map_update_tapio_config fst is_ok] in H.
  destruct (writable (length (map_calls m)) fd) eqn:Ew; cbn [is_ok] in H.
  2: { by apply (crun_writes us [] s _ []) in H. }
  eapply crun_step in H; [|apply (step_register s _ [] [] observer fd)]. unfold register.
  apply (crun_writes us _ _ _ []) in H. destruct (cst_current s) as [c|]; exact H.
Qed.

Lemma update_all_runs (us : list (TapioConfig * list Z)) (config : TapioConfig)
    (s : ConfigCarrierState) (m : Maps) :
  crun us {| sys_state := s; sys_maps := m; sys_pending := [] |} ->
  let '(_, s', m') := update_all config s m in
  crun (us ++ [(config, [])]) {| sys_state := s'; sys_maps := m'; sys_pending := [] |}.
Proof.
  intros H. unfold update_all. pose proof (write_carriers_fold (cst_carriers s) config m) as Hf.
  destruct (write_carriers (cst_carriers s) config m) as [failed m']. cbn [snd] in Hf. rewrite Hf.
  apply (crun_writes _ _ _ _ []). exact (crun_update us _ _ config H (step_update s m [] config)).
Qed.

(** ** What every run keeps, for one map *)

(** The operation will still write the map, with the configuration current then. *)
Definition promises (fd : Z) (o : operation) : Prop :=
  match o with
  | OpInit _ _ => False
  | OpRegister _ fd' => fd' = fd
  | OpWrites ws => In fd (map fst ws)
  end.

Definition registered (x : sys) (fd : Z) : Prop :=
  exists c, In c (cst_carriers (sys_state x)) /\ car_map_fd c = fd.

Definition want (x : sys) : TapioConfig := default start (cst_current (sys_state x)).

(** A map no update has overlapped: what is in flight for it is current; once
    its first write is done it is up to date or about to be. *)
Record map_inv (fd : Z) (x : sys) : Prop := {
  mi_flight : forall c, In (fd, c) (writes_in_flight x) -> cst_current (sys_state x) = Some c;
  mi_initial : cst_current (sys_state x) = None -> last_write (sys_maps x) fd <> None ->
               up_to_date start (sys_maps x) fd;
  mi_written : (registered x fd \/ exists o, In (OpRegister o fd) (sys_pending x)) ->
               last_write (sys_maps x) fd <> None;
  mi_settled : registered x fd -> up_to_date (want x) (sys_maps x) fd \/ Exists (promises fd) (sys_pending x);
}.

Lemma flight_app (s : ConfigCarrierState) (m : Maps) (p q : list operation) :
  writes_in_flight {| sys_state := s; sys_maps := m; sys_pending := p ++ q |} =
  flat_map op_writes p ++ flat_map op_writes q.
Proof. apply flat_map_app. Qed.

Lemma exists_replace (P : operation -> Prop) (p1 p2 q : list operation) (o : operation) :
  (P o -> Exists P q) -> Exists P (p1 ++ o :: p2) -> Exists P (p1 ++ q ++ p2).
Proof.
  intros Ho H. rewrite !Exists_app. apply Exists_app in H as [H|H]; [by left|].
  apply Exists_cons in H as [H|H]; auto.
Qed.

(** An operation in the middle of the list moves on: what is in flight
    otherwise stays. *)
Lemma replaced_flight (s s' : ConfigCarrierState) (m m' : Maps) (p1 p2 : list operation) (o o' : operation)
    (w : Z * TapioConfig) :
  In w (writes_in_flight {| sys_state := s'; sys_maps := m'; sys_pending := p1 ++ o' :: p2 |}) ->
  In w (op_writes o') \/
  In w (writes_in_flight {| sys_state := s; sys_maps := m; sys_pending := p1 ++ o :: p2 |}).
Proof.
  unfold writes_in_flight. cbn [sys_pending]. rewrite !flat_map_app, !in_app_iff. simpl.
  rewrite !in_app_iff. tauto.
Qed.

Lemma replaced_register (p1 p2 : list operation) (o o' : operation) (observer : string) (fd : Z) :
  In (OpRegister observer fd) (p1 ++ o' :: p2) ->
  o' = OpRegister observer fd \/ In (OpRegister observer fd) (p1 ++ o :: p2).
Proof. rewrite !in_app_iff. simpl. tauto. Qed.

(** The first write of a registration. *)
Lemma init_map_inv (fd fd' : Z) (s : ConfigCarrierState) (m : Maps) (p1 p2 : list operation) (observer : string) :
  map_inv fd {| sys_state := s; sys_maps := m; sys_pending := p1 ++ OpInit observer fd' :: p2 |} ->
  map_inv fd {| sys_state := s; sys_maps := snd (bpf_map_update_tapio_config fd' start m);
    sys_pending := p1 ++ (if is_ok (fst (bpf_map_update_tapio_config fd' start m))
                          then OpRegister observer fd' else OpWrites []) :: p2 |}.
Proof.
  rewrite write_ok. intros [Hf Hi Hw Hs]. cbn [sys_state sys_maps sys_pending] in *.
  set (o' := if writable (length (map_calls m)) fd' then _ else _).
  assert (Ho : forall obs d, o' = OpRegister obs d -> d = fd').
  { intros obs d. subst o'. destruct (writable _ _); congruence. }
  constructor; cbn [sys_state sys_maps sys_pending].
  - intros c Hc. apply (replaced_flight s s m _ p1 p2 (OpInit observer fd')) in Hc as [Hc|Hc]; [|by apply Hf].
    subst o'. destruct (writable _ _); destruct Hc.
  - intros Hn. rewrite write_last. destruct (fd =? fd') eqn:E.
    + apply Z.eqb_eq in E as ->. intros _. apply write_up_to_date.
    + intros Hl. apply write_other; [by apply Z.eqb_neq|]. by apply Hi.
  - intros Hr. rewrite write_last. destruct (fd =? fd') eqn:E; [done|]. apply Hw.
    destruct Hr as [Hr|[obs Hr]]; [by left|].
    apply (replaced_register _ _ (OpInit observer fd')) in Hr as [Hr|Hr]; [|eauto].
    apply Ho in Hr. by apply Z.eqb_neq in E.
  - intros Hr. destruct (Z.eq_dec fd fd') as [<-|Hne].
    + subst o'. destruct (writable (length (map_calls m)) fd) eqn:Ew.
      * right. apply Exists_app. right. by left.
      * left. unfold up_to_date. by rewrite write_last, Z.eqb_refl, Ew.
    + destruct (Hs Hr) as [H|H]; [left; by apply write_other|right].
      eapply (exists_replace _ _ _ [o']); [|exact H]. intros [].
Qed.

(** The locked section of a registration. *)
Lemma register_map_inv (fd fd' : Z) (s : ConfigCarrierState) (m : Maps) (p1 p2 : list operation)
    (observer : string) :
  map_inv fd {| sys_state := s; sys_maps := m; sys_pending := p1 ++ OpRegister observer fd' :: p2 |} ->
  map_inv fd {| sys_state := {| cst_carriers := cst_carriers s ++ [{| car_observer := observer; car_map_fd := fd' |}];
                                cst_current := cst_current s |};
    sys_maps := m;
    sys_pending := p1 ++ OpWrites (match cst_current s with Some c => [(fd', c)] | None => [] end) :: p2 |}.
Proof.
  intros [Hf Hi Hw Hs]. cbn [sys_state sys_maps sys_pending cst_current] in *.
  assert (Hreg : forall x', registered {| sys_state := {| cst_carriers := cst_carriers s ++
      [{| car_observer := observer; car_map_fd := fd' |}]; cst_current := cst_current s |};
      sys_maps := m; sys_pending := x' |} fd ->
    fd = fd' \/ registered {| sys_state := s; sys_maps := m; sys_pending := p1 ++ OpRegister observer fd' :: p2 |} fd).
  { intros x' (c & Hc & Ec). cbn in Hc. apply in_app_iff in Hc as [Hc|[<-|[]]]; [|by left].
    right. by exists c. }
  assert (Hin : In (OpRegister observer fd') (p1 ++ OpRegister observer fd' :: p2)) by (apply in_elt).
  constructor; cbn [sys_state sys_maps sys_pending cst_current].
  - intros c Hc. apply (replaced_flight s _ m _ p1 p2 (OpRegister observer fd')) in Hc as [Hc|Hc]; [|by apply Hf].
    destruct (cst_current s); [|done]. by destruct Hc as [[= _ <-]|[]].
  - exact Hi.
  - intros [Hr|[obs Hr]]; apply Hw.
    + destruct (Hreg _ Hr) as [->|H]; [eauto|by left].
    + apply (replaced_register _ _ (OpRegister observer fd')) in Hr as [Hr|Hr]; [done|eauto].
  - intros Hr. destruct (Z.eq_dec fd fd') as [<-|Hne].
    + destruct (cst_current s) as [c|] eqn:Ec.
      * right. apply Exists_app. right. left. by left.
      * left. unfold want. cbn. apply Hi; [done|]. apply Hw. eauto.
    + destruct (Hreg _ Hr) as [E|Hr']; [congruence|]. destruct (Hs Hr') as [H|H]; [left; exact H|right].
      eapply (exists_replace _ _ _ [_]); [|exact H]. intros E. simpl in E. congruence.
Qed.

(** A write. *)
Lemma write_map_inv (fd fd' : Z) (s : ConfigCarrierState) (m : Maps) (p1 p2 : list operation)
    (config : TapioConfig) (ws : list (Z * TapioConfig)) :
  map_inv fd {| sys_state := s; sys_maps := m; sys_pending := p1 ++ OpWrites ((fd', config) :: ws) :: p2 |} ->
  map_inv fd {| sys_state := s; sys_maps := snd (bpf_map_update_tapio_config fd' config m);
    sys_pending := p1 ++ OpWrites ws :: p2 |}.
Proof.
  intros [Hf Hi Hw Hs]. cbn [sys_state sys_maps sys_pending] in *.
  assert (Hcur : fd = fd' -> cst_current s = Some config).
  { intros ->. apply Hf. unfold writes_in_flight. cbn [sys_pending]. rewrite flat_map_app. apply in_app_iff.
    right. by left. }
  constructor; cbn [sys_state sys_maps sys_pending].
  - intros c Hc. apply (replaced_flight s s m _ p1 p2 (OpWrites ((fd', config) :: ws))) in Hc as [Hc|Hc]; [|by apply Hf].
    apply Hf. unfold writes_in_flight. cbn [sys_pending]. rewrite flat_map_app. apply in_app_iff.
    right. apply in_app_iff. left. by right.
  - intros Hn. rewrite write_last. destruct (fd =? fd') eqn:E.
    + apply Z.eqb_eq in E. apply Hcur in E. congruence.
    + intros Hl. apply write_other; [by apply Z.eqb_neq|]. by apply Hi.
  - intros Hr. rewrite write_last. destruct (fd =? fd') eqn:E; [done|]. apply Hw.
    destruct Hr as [Hr|[obs Hr]]; [by left|].
    apply (replaced_register _ _ (OpWrites ((fd', config) :: ws))) in Hr as [Hr|Hr]; [done|eauto].
  - intros Hr. destruct (Z.eq_dec fd fd') as [<-|Hne].
    + left. unfold want. cbn [sys_state]. rewrite (Hcur eq_refl). apply write_up_to_date.
    + destruct (Hs Hr) as [H|H]; [left; by apply write_other|right].
      eapply (exists_replace _ _ _ [_]); [|exact H]. intros [H0|H0]; [simpl in H0; congruence|by left].
Qed.

Lemma step_map_inv (fd : Z) (l : option TapioConfig) (x y : sys) :
  cstep l x y -> map_inv fd x -> (l <> None -> ~ In fd (map fst (writes_in_flight x))) -> map_inv fd y.
Proof.
  intros Hstep H Hover. destruct Hstep as [s m p obs fd'| | |s m p config| |s m p1 p2].
  - destruct H as [Hf Hi Hw Hs]. constructor; cbn [sys_state sys_maps sys_pending] in *; try done.
    + intros c. rewrite flight_app. simpl. rewrite app_nil_r. apply Hf.
    + intros [Hr|[o Hr]]; apply Hw; [by left|]. apply in_app_iff in Hr as [Hr|[Hr|[]]]; [eauto|done].
    + intros Hr. destruct (Hs Hr) as [?|?]; [by left|]. right. apply Exists_app. by left.
  - by apply init_map_inv.
  - by apply register_map_inv.
  - specialize (Hover ltac:(done)). destruct H as [Hf Hi Hw Hs].
    constructor; cbn [sys_state sys_maps sys_pending cst_current] in *; try done.
    + intros c. rewrite flight_app. intros Hc. apply in_app_iff in Hc as [Hc|Hc].
      * destruct Hover. by apply (in_map fst) in Hc.
      * simpl in Hc. rewrite app_nil_r in Hc. by apply in_map_iff in Hc as (k & [= _ <-] & _).
    + intros [Hr|[o Hr]]; apply Hw; [by left|]. apply in_app_iff in Hr as [Hr|[Hr|[]]]; [eauto|done].
    + intros (c & Hc & Ec). right. apply Exists_app. right. left. simpl. rewrite map_map. simpl.
      apply in_map_iff. by exists c.
  - by apply write_map_inv.
  - destruct H as [Hf Hi Hw Hs]. constructor; cbn [sys_state sys_maps sys_pending] in *; try done.
    + intros c Hc. apply Hf. unfold writes_in_flight in *. cbn [sys_pending] in *. by rewrite flat_map_app in *.
    + intros [Hr|[o Hr]]; apply Hw; [by left|]. right. exists o. rewrite in_app_iff in *. simpl. tauto.
    + intros Hr. destruct (Hs Hr) as [?|H]; [by left|]. right. apply (exists_replace _ _ _ []) in H; [done|]. intros [].
Qed.

Lemma run_map_inv (fd : Z) (us : list (TapioConfig * list Z)) (x : sys) :
  crun us x -> ~ overlapped us fd -> map_inv fd x.
Proof.
  intros Hrun. induction Hrun as [|us x y Hrun IH Hstep|us x y config Hrun IH Hstep]; intros Hno.
  - constructor; cbn; try done; [by intros [(? & [] & _)|[? []]]|by intros (? & [] & _)].
  - apply (step_map_inv fd _ _ _ Hstep); [by apply IH|done].
  - unfold overlapped in *. rewrite flat_map_app, in_app_iff in Hno. simpl in Hno. rewrite app_nil_r in Hno.
    apply (step_map_inv fd _ _ _ Hstep); [apply IH|intros _]; tauto.
Qed.

(** ** What every run keeps, overlaps or not *)

Record held_inv (us : list TapioConfig) (x : sys) : Prop := {
  hi_current : cst_current (sys_state x) = last us;
  hi_flight : forall fd c, In (fd, c) (writes_in_flight x) -> In c us /\ registered x fd;
  hi_holds : forall fd c, map_config (sys_maps x) fd = Some c -> c = start \/ In c us;
  hi_registered : forall fd, map_config (sys_maps x) fd <> None <->
    registered x fd \/ exists o, In (OpRegister o fd) (sys_pending x);
}.

Lemma step_start_held (us : list TapioConfig) (s : ConfigCarrierState) (m : Maps) (p : list operation)
    (observer : string) (fd : Z) :
  held_inv us {| sys_state := s; sys_maps := m; sys_pending := p |} ->
  held_inv us {| sys_state := s; sys_maps := m; sys_pending := p ++ [OpInit observer fd] |}.
Proof.
  intros [Hc Hf Hh Hr]. constructor; cbn [sys_state sys_maps sys_pending] in *; try done.
  - intros d c. rewrite flight_app. simpl. rewrite app_nil_r. apply Hf.
  - intros d. rewrite Hr. apply or_iff_compat_l. split; intros [o Ho]; exists o; rewrite in_app_iff in *; [by left|].
    destruct Ho as [Ho|[Ho|[]]]; [done|discriminate Ho].
Qed.

Lemma step_init_held (us : list TapioConfig) (s : ConfigCarrierState) (m : Maps) (p1 p2 : list operation)
    (observer : string) (fd : Z) :
  held_inv us {| sys_state := s; sys_maps := m; sys_pending := p1 ++ OpInit observer fd :: p2 |} ->
  held_inv us {| sys_state := s; sys_maps := snd (bpf_map_update_tapio_config fd start m);
    sys_pending := p1 ++ (if is_ok (fst (bpf_map_update_tapio_config fd start m))
                          then OpRegister observer fd else OpWrites []) :: p2 |}.
Proof.
  rewrite write_ok. intros [Hc Hf Hh Hr]. constructor; cbn [sys_state sys_maps sys_pending] in *; try done.
  - intros d c Hd. apply (replaced_flight s s m _ p1 p2 (OpInit observer fd)) in Hd as [Hd|Hd]; [|by apply Hf].
    by destruct (writable _ _).
  - intros d c. rewrite write_get. destruct (_ && _); [intros [= <-]; by left|apply Hh].
  - intros d. rewrite write_get. destruct (writable _ fd); simpl.
    + destruct (d =? fd) eqn:E.
      * apply Z.eqb_eq in E as ->. split; [intros _; right; exists observer; apply in_elt|done].
      * rewrite Hr. apply or_iff_compat_l. apply Z.eqb_neq in E.
        split; intros [o Ho]; exists o; rewrite in_app_iff in *; simpl in *;
          destruct Ho as [Ho|[Ho|Ho]]; auto; congruence.
    + rewrite Hr. apply or_iff_compat_l.
      split; intros [o Ho]; exists o; rewrite in_app_iff in *; simpl in *;
        destruct Ho as [Ho|[Ho|Ho]]; auto; congruence.
Qed.

Lemma step_register_held (us : list TapioConfig) (s : ConfigCarrierState) (m : Maps) (p1 p2 : list operation)
    (observer : string) (fd : Z) :
  held_inv us {| sys_state := s; sys_maps := m; sys_pending := p1 ++ OpRegister observer fd :: p2 |} ->
  held_inv us {| sys_state := {| cst_carriers := cst_carriers s ++ [{| car_observer := observer; car_map_fd := fd |}];
                                 cst_current := cst_current s |};
    sys_maps := m;
    sys_pending := p1 ++ OpWrites (match cst_current s with Some c => [(fd, c)] | None => [] end) :: p2 |}.
Proof.
  intros [Hc Hf Hh Hr]. cbn [sys_state sys_maps sys_pending cst_current] in *.
  assert (Hreg : forall d q q', registered {| sys_state := {| cst_carriers := cst_carriers s ++
      [{| car_observer := observer; car_map_fd := fd |}]; cst_current := cst_current s |};
      sys_maps := m; sys_pending := q |} d <->
    d = fd \/ registered {| sys_state := s; sys_maps := m; sys_pending := q' |} d).
  { intros d q q'. unfold registered. cbn. setoid_rewrite in_app_iff. split.
    - intros (c & [Hin|[<-|[]]] & E); [right; by exists c|by left].
    - intros [->|(c & Hin & E)]; [|exists c; auto].
      exists {| car_observer := observer; car_map_fd := fd |}. split; [right; by left|done]. }
  constructor; cbn [sys_state sys_maps sys_pending cst_current]; try done.
  - intros d c Hd. rewrite Hreg.
    apply (replaced_flight s _ m _ p1 p2 (OpRegister observer fd)) in Hd as [Hd|Hd].
    + destruct (cst_current s) as [k|]; [|done]. destruct Hd as [[= <- <-]|[]]. split; [|by left].
      apply list_elem_of_In. by apply last_Some_elem_of.
    + destruct (Hf d c Hd). split; [done|right; eassumption].
  - intros d. rewrite Hr, (Hreg d _ (p1 ++ OpRegister observer fd :: p2)). split.
    + intros [H|[o Ho]]; [auto|]. apply in_app_iff in Ho as [Ho|[[= _ ->]|Ho]]; [|auto|];
        right; exists o; apply in_app_iff; [by left|by right; right].
    + intros [[->|H]|[o Ho]]; [right; exists observer; apply in_elt|auto|]. right. exists o.
      apply in_app_iff in Ho as [Ho|[Ho|Ho]]; [|discriminate Ho|]; apply in_app_iff; [by left|by right; right].
Qed.

Lemma step_update_held (us : list TapioConfig) (s : ConfigCarrierState) (m : Maps) (p : list operation)
    (config : TapioConfig) :
  held_inv us {| sys_state := s; sys_maps := m; sys_pending := p |} ->
  held_inv (us ++ [config]) {| sys_state := {| cst_carriers := cst_carriers s; cst_current := Some config |};
    sys_maps := m;
    sys_pending := p ++ [OpWrites (map (fun c => (car_map_fd c, config)) (cst_carriers s))] |}.
Proof.
  intros [Hc Hf Hh Hr]. constructor; cbn [sys_state sys_maps sys_pending cst_current] in *.
  - by rewrite last_snoc.
  - intros d c. rewrite flight_app. intros Hd. rewrite in_app_iff. apply in_app_iff in Hd as [Hd|Hd].
    + destruct (Hf d c Hd). auto.
    + simpl in Hd. rewrite app_nil_r in Hd. apply in_map_iff in Hd as (k & [= <- <-] & Hk).
      split; [right; by left|by exists k].
  - intros d c Hd. rewrite in_app_iff. destruct (Hh d c Hd); auto.
  - intros d. rewrite Hr. apply or_iff_compat_l.
    split; intros [o Ho]; exists o; rewrite in_app_iff in *; [by left|].
    destruct Ho as [Ho|[Ho|[]]]; [done|discriminate Ho].
Qed.

Lemma step_write_held (us : list TapioConfig) (s : ConfigCarrierState) (m : Maps) (p1 p2 : list operation)
    (fd : Z) (config : TapioConfig) (ws : list (Z * TapioConfig)) :
  held_inv us {| sys_state := s; sys_maps := m; sys_pending := p1 ++ OpWrites ((fd, config) :: ws) :: p2 |} ->
  held_inv us {| sys_state := s; sys_maps := snd (bpf_map_update_tapio_config fd config m);
    sys_pending := p1 ++ OpWrites ws :: p2 |}.
Proof.
  intros [Hc Hf Hh Hr]. cbn [sys_state sys_maps sys_pending] in *.
  assert (Hfl : forall w, In w ((fd, config) :: ws) ->
    In w (writes_in_flight {| sys_state := s; sys_maps := m; sys_pending := p1 ++ OpWrites ((fd, config) :: ws) :: p2 |})).
  { intros w Hw. unfold writes_in_flight. cbn [sys_pending]. rewrite flat_map_app, in_app_iff. right.
    apply in_app_iff. by left. }
  destruct (Hf fd config) as [Hin Hreg]; [apply Hfl; by left|].
  constructor; cbn [sys_state sys_maps sys_pending]; try done.
  - intros d c Hd. apply (replaced_flight s s m _ p1 p2 (OpWrites ((fd, config) :: ws))) in Hd as [Hd|Hd];
      [|by apply Hf]. apply Hf, Hfl. by right.
  - intros d c. rewrite write_get. destruct (_ && _); [intros [= <-]; by right|apply Hh].
  - intros d. rewrite write_get.
    assert (Hp : (exists o, In (OpRegister o d) (p1 ++ OpWrites ((fd, config) :: ws) :: p2)) <->
      (exists o, In (OpRegister o d) (p1 ++ OpWrites ws :: p2))).
    { split; intros [o Ho]; exists o; rewrite in_app_iff in *; simpl in *;
        destruct Ho as [Ho|[Ho|Ho]]; auto; discriminate. }
    rewrite <- Hp. destruct (writable _ fd); simpl; [|apply Hr].
    destruct (d =? fd) eqn:E; [|apply Hr]. apply Z.eqb_eq in E as ->. split; [by left|done].
Qed.

Lemma step_held (l : option TapioConfig) (us : list TapioConfig) (x y : sys) :
  cstep l x y -> held_inv us x -> held_inv (us ++ option_list l) y.
Proof.
  intros Hstep H. destruct Hstep; cbn [option_list]; rewrite ?app_nil_r;
    [by apply step_start_held|by apply step_init_held|by apply step_register_held|by apply step_update_held
    |by apply step_write_held in H|].
  destruct H as [Hc Hf Hh Hr]. constructor; cbn [sys_state sys_maps sys_pending] in *; try done.
  - intros d c Hd. apply Hf. unfold writes_in_flight in *. cbn [sys_pending] in *. by rewrite flat_map_app in *.
  - intros d. rewrite Hr. apply or_iff_compat_l.
    split; intros [o Ho]; exists o; rewrite in_app_iff in *; simpl in *; [|tauto].
    destruct Ho as [Ho|[Ho|Ho]]; auto. discriminate.
Qed.

Lemma run_held (us : list (TapioConfig * list Z)) (x : sys) : crun us x -> held_inv (map fst us) x.
Proof.
  induction 1 as [|us x y Hrun IH Hstep|us x y config Hrun IH Hstep].
  - constructor; cbn; try done. intros fd. split; [done|]. by intros [(? & [] & _)|[? []]].
  - apply (step_held _ _ _ _ Hstep) in IH. by rewrite app_nil_r in IH.
  - apply (step_held _ _ _ _ Hstep) in IH. by rewrite map_app.
Qed.

(** C31. However registrations and updates interleave, from the start: the
    current configuration is the one of the last update to take the lock; a map
    only ever holds the configuration observers start with or one an update
    installed; and once nothing is left to do, the registered maps are exactly
    those that hold a configuration, and each whose own registration no update
    overlapped (none took the lock while a write to that map was still to come)
    is up to date: its last write failed, or it holds the last update's
    configuration, before the first update the one observers start with.  An
    update that does overlap a registration can leave its map behind for good
    ([carriers_race]), and a write that fails is not repeated. *)
Theorem carriers_settle (us : list (TapioConfig * list Z)) (x : sys) (Hrun : crun us x) :
  cst_current (sys_state x) = last (map fst us) /\
  (forall fd c, map_config (sys_maps x) fd = Some c -> c = start \/ In c (map fst us)) /\
  (sys_pending x = [] -> forall fd,
    (map_config (sys_maps x) fd <> None <-> registered x fd) /\
    (registered x fd -> ~ overlapped us fd ->
     up_to_date (default start (last (map fst us))) (sys_maps x) fd)).
Proof.
  destruct (run_held us x Hrun) as [Hc Hf Hh Hr]. split; [done|]. split; [done|]. intros Hp fd.
  split; [rewrite Hr, Hp; split; [by intros [H|[? []]]|by left]|].
  intros Hreg Hno. destruct (mi_settled _ _ (run_map_inv fd us x Hrun Hno) Hreg) as [H|H].
  - unfold want in H. by rewrite Hc in H.
  - rewrite Hp in H. by apply Exists_nil in H.
Qed.
End Carriers.

(** * Overlapping operations *)

Definition config_gen (generation : Z) : TapioConfig := {|
  tc_abi_version := TAPIO_CONFIG_ABI_VERSION; tc_generation := generation; tc_flags := 15;
  tc_slow_io_threshold_ns := 0; tc_io_latency_critical_ns := 0; tc_conn_refused_window_ns := 0;
  tc_conn_refused_min_count := 0; tc_rtt_spike_multiplier := 2; tc_rtt_spike_abs_us := 500000;
  tc_rtt_min_baseline_samples := 5; tc_ignore_exit_count := 0;
  tc_ignore_exit_codes := no_exit_codes; tc_pad := 0 |}.

Definition write_works : nat -> Z -> bool := fun _ _ => true.

(** A registration that overlaps an update can leave its map with the old
    configuration for good, although every write works: from generation 1
    current, an observer registers, generation 2 is installed everywhere, then
    the registration's own delayed write puts generation 1 back; nothing is
    left to do and the map disagrees with the current configuration. *)
Lemma carriers_race :
  exists us x, crun write_works (config_gen 0) us x /\ sys_pending x = [] /\
    cst_current (sys_state x) = Some (config_gen 2) /\ registered x 7 /\
    map_config (sys_maps x) 7 = Some (config_gen 1).
Proof.
  do 2 eexists. split.
  - eapply crun_step; [eapply crun_step; [eapply crun_step; [eapply crun_step; [eapply crun_update; [
      eapply crun_step; [eapply crun_step; [eapply crun_step; [eapply crun_step; [eapply crun_update; [apply crun_init|]|]|]|]|]|]|]|]|]|].
    + apply (step_update _ _ _ _ [] (config_gen 1)).
    + apply (step_done _ _ _ _ [] []).
    + apply (step_start _ _ _ _ [] "network" 7).
    + apply (step_init _ _ _ _ [] [] "network" 7).
    + apply (step_register _ _ _ _ [] [] "network" 7).
    + apply (step_update _ _ _ _ [OpWrites [(7, config_gen 1)]] (config_gen 2)).
    + apply (step_write _ _ _ _ [OpWrites [(7, config_gen 1)]] [] 7 (config_gen 2) []).
    + apply (step_write _ _ _ _ [] [OpWrites []] 7 (config_gen 1) []).
    + apply (step_done _ _ _ _ [] [OpWrites []]).
    + apply (step_done _ _ _ _ [] []).
  - split; [reflexivity|]. split; [reflexivity|]. split; [|reflexivity].
    exists {| car_observer := "network"; car_map_fd := 7 |}. split; [by left|reflexivity].
Qed.

(** Two observers; the second takes the lock while the update is writing the
    first one's map, and everything ends with the update's configuration. *)
Lemma carriers_settle_witness :
  exists us x, sys_pending x = [] /\
    registered x 7 /\ registered x 9 /\
    up_to_date (config_gen 1) (sys_maps x) 7 /\ up_to_date (config_gen 1) (sys_maps x) 9 /\
    last_write (sys_maps x) 7 = Some true /\ last_write (sys_maps x) 9 = Some true /\
    crun write_works (config_gen 0) us x.
Proof.
  assert (Hrun : exists us x, crun write_works (config_gen 0) us x /\ sys_pending x = [] /\
    registered x 7 /\ registered x 9 /\ ~ overlapped us 7 /\ ~ overlapped us 9 /\ last (map fst us) = Some (config_gen 1) /\
    last_write (sys_maps x) 7 = Some true /\ last_write (sys_maps x) 9 = Some true).
  { do 2 eexists. split.
    - eapply crun_step; [eapply crun_step; [eapply crun_step; [eapply crun_step; [eapply crun_step; [
        eapply crun_step; [eapply crun_step; [eapply crun_update; [eapply crun_step; [eapply crun_step; [
        eapply crun_step; [eapply crun_step; [apply crun_init|]|]|]|]|]|]|]|]|]|]|]|].
      + apply (step_start _ _ _ _ [] "network" 7).
      + apply (step_init _ _ _ _ [] [] "network" 7).
      + apply (step_register _ _ _ _ [] [] "network" 7).
      + apply (step_done _ _ _ _ [] []).
      + apply (step_update _ _ _ _ [] (config_gen 1)).
      + apply (step_start _ _ _ _ [OpWrites [(7, config_gen 1)]] "storage" 9).
      + apply (step_init _ _ _ _ [OpWrites [(7, config_gen 1)]] [] "storage" 9).
      + apply (step_register _ _ _ _ [OpWrites [(7, config_gen 1)]] [] "storage" 9).
      + apply (step_write _ _ _ _ [] [OpWrites [(9, config_gen 1)]] 7 (config_gen 1) []).
      + apply (step_write _ _ _ _ [OpWrites []] [] 9 (config_gen 1) []).
      + apply (step_done _ _ _ _ [] [OpWrites []]).
      + apply (step_done _ _ _ _ [] []).
    - split; [reflexivity|]. split; [|split; [|split; [|split; [|repeat split; reflexivity]]]].
      + exists {| car_observer := "network"; car_map_fd := 7 |}. split; [by left|reflexivity].
      + exists {| car_observer := "storage"; car_map_fd := 9 |}. split; [by right; left|reflexivity].
      + intros [].
      + intros []. }
  destruct Hrun as (us & x & Hrun & Hp & H7 & H9 & Ho7 & Ho9 & Hl & Hl7 & Hl9). exists us, x.
  destruct (carriers_settle write_works (config_gen 0) us x Hrun) as (_ & _ & Hs). specialize (Hs Hp).
  rewrite Hl in Hs. split; [done|]. split; [done|]. split; [done|].
  split; [by apply (Hs 7)|]. split; [by apply (Hs 9)|]. done.
Defined.
