(* ===== verification/Poll.v ===== *)
(** [tapio-agent/src/controller.rs]: the configuration poll.  The decoder of the
    response (serde_json) is an argument; the network is the class [Net]; the
    kernel maps are those of [Carriers]. *)
From Stdlib Require Import String.
From S2P Require Import Prelude RustStr BTree Float64 CommonEbpf Wire Metrics Httpc PmcObs.
From S2P Require Import AgentConfig.
From S2P Require Import Heartbeat Carriers.

Local Open Scope Z_scope.

Record ControllerConfig := {
  ctl_endpoint : string;
  ctl_agent_id : string;
  ctl_node_name : string;
  ctl_poll_interval : Z;
  ctl_heartbeat_interval : Z;
}.

(** The cells shared by the poll, the registration and the controller sink. *)
Record ControllerState := {
  cs_config_version : string;
  cs_send_interval_ms : Z;
  cs_max_batch_events : Z;
}.

Definition ControllerState_new (config_version : string) : ControllerState :=
  {| cs_config_version := config_version; cs_send_interval_ms := 1000; cs_max_batch_events := 256 |}.

Definition set_config_version (version : string) (s : ControllerState) : ControllerState :=
  {| cs_config_version := version; cs_send_interval_ms := cs_send_interval_ms s;
     cs_max_batch_events := cs_max_batch_events s |}.

Definition batching (s : ControllerState) : Z * Z := (cs_send_interval_ms s, cs_max_batch_events s).

Definition set_batching (send_interval_ms max_batch_events : Z) (s : ControllerState) :
  ControllerState :=
  {| cs_config_version := cs_config_version s;
     cs_send_interval_ms := Z.max send_interval_ms 1;
     cs_max_batch_events := Z.max max_batch_events 1 |}.

Inductive PollOutcome :=
| Applied (generation : Z) (hash : string) (flags : Z)
| NotModified.

Inductive FetchError :=
| Transport (error : string)
| Rejected (error : string).

Definition FetchError_to_string (e : FetchError) : string :=
  match e with Transport error | Rejected error => error end.

(** * URLs *)

Definition hex_upper (d : Z) : ascii := if d <? 10 then chr (48 + d) else chr (55 + d).

Definition is_unreserved (a : ascii) : bool :=
  let v := byte_val a in
  ((65 <=? v) && (v <=? 90)) || ((97 <=? v) && (v <=? 122)) || ((48 <=? v) && (v <=? 57))
  || Ascii.eqb a "-" || Ascii.eqb a "_" || Ascii.eqb a "." || Ascii.eqb a "~".

Fixpoint url_component (value : string) : string :=
  match value with
  | EmptyString => EmptyString
  | String a rest =>
      (if is_unreserved a then String a EmptyString
       else String "%" (String (hex_upper (Z.shiftr (byte_val a) 4))
                          (String (hex_upper (Z.land (byte_val a) 15)) EmptyString)))
      +:+ url_component rest
  end.

Definition config_url (c : ControllerConfig) : string :=
  trim_end_matches "/" (ctl_endpoint c) +:+ "/v1/agents/config?agent_id=" +:+
  url_component (ctl_agent_id c) +:+ "&node_name=" +:+ url_component (ctl_node_name c).

Definition reject_empty_config_hash (hash : string) : result unit FetchError :=
  if str_empty hash then Err (Rejected "config response missing config_hash") else Ok tt.

(** [format!("\"{hash}\"")] *)
Definition etag_of (hash : string) : string := quote_str +:+ hash +:+ quote_str.

(** * One poll *)

(** What the poll reads and writes. *)
Record PollState := {
  po_etag : option string;
  po_carriers : ConfigCarrierState;
  po_maps : Maps;
  po_thresholds : PmcThresholds;
  po_active : ActiveConfigIdentity;
  po_metrics : TapioMetrics;
  po_state : ControllerState;
}.

Section Poll.
Variable utf8_error : string -> string.
Variable decode_config : string -> result ConfigResponse string.
(** Whether the n-th write of a configuration map works. *)
Variable writable : nat -> Z -> bool.
(** Whether the watch channel of the PMC thresholds still has a receiver. *)
Variable thresholds_open : bool.
Context {W : Type} `{Net W}.

(** The fan-out and the thresholds: the new carriers, maps and thresholds. *)
Definition apply_config (config : TapioConfig) (compiled : CompiledConfig)
    (cs : ConfigCarrierState) (m : Maps) (t : PmcThresholds) :
  result unit FetchError * (ConfigCarrierState * Maps * PmcThresholds) :=
  let '(failed, cs, m) := update_all writable config cs m in
  if thresholds_open then (Ok tt, (cs, m, pmc_thresholds_from_compiled compiled))
  else (Err (Transport "PMC thresholds: channel closed"), (cs, m, t)).

(** The checks of a 200 response, in order. *)
Definition accept_config (body : string) :
  result (ConfigResponse * Z * TapioConfig) FetchError :=
  config <-? map_err (fun e => Rejected ("decode ConfigResponse: " +:+ e)) (decode_config body) ;;
  generation <-? ok_or (parse_unsigned U32_MAX (cr_version config))
                   (Rejected ("bad config version " +:+ quoted (cr_version config))) ;;
  map_err (fun e => Rejected (WireError_to_string e)) (ConfigResponse_validate config) ;;?
  reject_empty_config_hash (cr_config_hash config) ;;?
  tapio_config <-? map_err (fun e => Rejected (CompiledConfigError_to_string e))
                     (tapio_config_from_compiled (cr_config config) (cr_version config)) ;;
  Ok (config, generation, tapio_config).

Definition fetch_once (c : ControllerConfig) (etag : option string)
    (env : ConfigCarrierState * Maps * PmcThresholds) (w : W) :
  result PollOutcome FetchError * (ConfigCarrierState * Maps * PmcThresholds) * W :=
  let headers := match etag with Some e => [("If-None-Match", e)] | None => [] end in
  let '(response, w) := http_get utf8_error (config_url c) headers DEFAULT_MAX_RESPONSE_BYTES w in
  match response with
  | Err e => (Err (Transport e), env, w)
  | Ok response =>
      if resp_status response =? 304 then (Ok NotModified, env, w)
      else if resp_status response =? 200 then
        match accept_config (resp_body response) with
        | Err e => (Err e, env, w)
        | Ok (config, generation, tapio_config) =>
            let '(cs, m, t) := env in
            let '(r, env) := apply_config tapio_config (cr_config config) cs m t in
            match r with
            | Err e => (Err e, env, w)
            | Ok _ => (Ok (Applied generation (cr_config_hash config) (tc_flags tapio_config)), env, w)
            end
        end
      else (Err (Transport ("HTTP " +:+ dec (resp_status response))), env, w)
  end.

(** One tick of [poll_loop]. *)
Definition poll_tick (c : ControllerConfig) (s : PollState) (w : W) : PollState * W :=
  let '(r, (cs, m, t), w) :=
    fetch_once c (po_etag s) (po_carriers s, po_maps s, po_thresholds s) w in
  let keep metrics :=
    {| po_etag := po_etag s; po_carriers := cs; po_maps := m; po_thresholds := t;
       po_active := po_active s; po_metrics := metrics; po_state := po_state s |} in
  (match r with
   | Ok (Applied generation hash flags) =>
       {| po_etag := Some (etag_of hash);
          po_carriers := cs; po_maps := m; po_thresholds := t;
          po_active :=
            mark_applied {| ac_version := dec generation; ac_hash := hash; ac_flags := flags |}
              (po_active s);
          po_metrics := bump MConfigFetch ["applied"] 1 (po_metrics s);
          po_state := set_config_version (dec generation) (po_state s) |}
   | Ok NotModified => keep (bump MConfigFetch ["not_modified"] 1 (po_metrics s))
   | Err (Rejected _) => keep (bump MConfigFetch ["rejected"] 1 (po_metrics s))
   | Err (Transport _) => keep (bump MConfigFetch ["error"] 1 (po_metrics s))
   end, w).

(** * Lemmas *)

(** What a response must be to be accepted. *)
Definition acceptable (r : ConfigResponse) (generation : Z) (t : TapioConfig) : Prop :=
  ConfigResponse_validate r = Ok tt /\ str_empty (cr_config_hash r) = false /\
  parse_unsigned U32_MAX (cr_version r) = Some generation /\
  tapio_config_from_compiled (cr_config r) (cr_version r) = Ok t.

Lemma ok_or_Ok {A E : Type} (o : option A) (e : E) (a : A) : ok_or o e = Ok a <-> o = Some a.
Proof. destruct o; simpl; naive_solver. Qed.

Lemma accept_config_Ok (body : string) (r : ConfigResponse) (g : Z) (t : TapioConfig) :
  accept_config body = Ok (r, g, t) <-> decode_config body = Ok r /\ acceptable r g t.
Proof.
  unfold accept_config, acceptable, reject_empty_config_hash.
  rewrite rbind_Ok. setoid_rewrite map_err_Ok. split.
  - intros (r' & Hd & Hk). apply rbind_Ok in Hk as (g' & Hg%ok_or_Ok & Hk).
    apply unit_rbind_Ok in Hk as [Hv%map_err_Ok Hk]. apply unit_rbind_Ok in Hk as [Hh Hk].
    apply rbind_Ok in Hk as (t' & Ht%map_err_Ok & [= -> -> ->]).
    destruct (str_empty (cr_config_hash r)); done.
  - intros (Hd & Hv & Hh & Hg & Ht). exists r. split; [done|].
    rewrite Hg. simpl. rewrite Hv. simpl. rewrite Hh. simpl. rewrite Ht. done.
Qed.

(** A version that parses prints back as an equivalent number. *)
Lemma version_normalised (v : string) (g : Z) :
  parse_unsigned U32_MAX v = Some g -> parse_unsigned U32_MAX (dec g) = Some g.
Proof. intros Hp. apply parse_unsigned_dec. by eapply parse_unsigned_range. Qed.

Lemma update_all_current (config : TapioConfig) (cs : ConfigCarrierState) (m : Maps) :
  cst_current (snd (fst (update_all writable config cs m))) = Some config.
Proof. unfold update_all. by destruct (write_carriers writable (cst_carriers cs) config m). Qed.

(** The outcome of one exchange as the poll sees it. *)
Definition poll_response (c : ControllerConfig) (etag : option string) (w : W) :
  result HttpResponse string * W :=
  http_get utf8_error (config_url c)
    (match etag with Some e => [("If-None-Match", e)] | None => [] end) DEFAULT_MAX_RESPONSE_BYTES w.

(** Only a 200 response that passes every check is applied. *)
Definition poll_accepts (r : result HttpResponse string) : option (ConfigResponse * Z * TapioConfig) :=
  match r with
  | Ok response =>
      if resp_status response =? 200 then
        match accept_config (resp_body response) with Ok x => Some x | Err _ => None end
      else None
  | Err _ => None
  end.

(** How an answer that is not applied is counted. *)
Definition refusal_label (r : result HttpResponse string) : string :=
  match r with
  | Ok response => if resp_status response =? 304 then "not_modified"
                   else if resp_status response =? 200 then "rejected" else "error"
  | Err _ => "error"
  end.

Lemma accept_config_Err (body : string) (e : FetchError) :
  accept_config body = Err e -> exists message, e = Rejected message.
Proof.
  unfold accept_config, reject_empty_config_hash.
  destruct (decode_config body) as [r|]; simpl; [|intros [= <-]; eauto].
  destruct (parse_unsigned U32_MAX (cr_version r)); simpl; [|intros [= <-]; eauto].
  destruct (ConfigResponse_validate r); simpl; [|intros [= <-]; eauto].
  destruct (str_empty (cr_config_hash r)); simpl; [intros [= <-]; eauto|].
  destruct (tapio_config_from_compiled _ _); simpl; [done|intros [= <-]; eauto].
Qed.

Lemma poll_tick_refused (c : ControllerConfig) (s : PollState) (w : W) :
  let answer := fst (poll_response c (po_etag s) w) in
  poll_accepts answer = None ->
  poll_tick c s w =
    ({| po_etag := po_etag s; po_carriers := po_carriers s; po_maps := po_maps s;
        po_thresholds := po_thresholds s; po_active := po_active s;
        po_metrics := bump MConfigFetch [refusal_label answer] 1 (po_metrics s); po_state := po_state s |},
     snd (poll_response c (po_etag s) w)).
Proof.
  unfold poll_tick, fetch_once, poll_response, refusal_label.
  destruct (http_get utf8_error (config_url c) _ _ w) as [r w']. simpl.
  destruct r as [r|e]; simpl; [|done].
  destruct (Z.eqb_spec (resp_status r) 304) as [E|Hne]; [done|].
  destruct (resp_status r =? 200); [|done].
  destruct (accept_config (resp_body r)) as [[[cfg g] t]|e] eqn:E; [done|].
  by apply accept_config_Err in E as [m ->].
Qed.

Lemma poll_tick_rejected (c : ControllerConfig) (s : PollState) (w : W) :
  poll_accepts (fst (poll_response c (po_etag s) w)) = None ->
  exists label, poll_tick c s w =
    ({| po_etag := po_etag s; po_carriers := po_carriers s; po_maps := po_maps s;
        po_thresholds := po_thresholds s; po_active := po_active s;
        po_metrics := bump MConfigFetch [label] 1 (po_metrics s); po_state := po_state s |},
     snd (poll_response c (po_etag s) w)) /\
    In label ["not_modified"; "rejected"; "error"].
Proof.
  intros Hr. eexists. split; [by apply poll_tick_refused|]. unfold refusal_label.
  destruct (fst _) as [r|]; [|simpl; auto]. destruct (resp_status r =? 304); [simpl; auto|].
  destruct (resp_status r =? 200); simpl; auto.
Qed.

Lemma poll_tick_accepted (c : ControllerConfig) (s : PollState) (w : W)
    (r : ConfigResponse) (g : Z) (t : TapioConfig) :
  thresholds_open = true ->
  poll_accepts (fst (poll_response c (po_etag s) w)) = Some (r, g, t) ->
  let '(_, cs, m) := update_all writable t (po_carriers s) (po_maps s) in
  poll_tick c s w =
    ({| po_etag := Some (etag_of (cr_config_hash r)); po_carriers := cs; po_maps := m;
        po_thresholds := pmc_thresholds_from_compiled (cr_config r);
        po_active := Some {| ac_version := dec g; ac_hash := cr_config_hash r; ac_flags := tc_flags t |};
        po_metrics := bump MConfigFetch ["applied"] 1 (po_metrics s);
        po_state := set_config_version (dec g) (po_state s) |},
     snd (poll_response c (po_etag s) w)).
Proof.
  intros Hopen. unfold poll_tick, fetch_once, poll_response, poll_accepts, apply_config.
  destruct (http_get utf8_error (config_url c) _ _ w) as [resp w']. cbn [fst snd].
  destruct resp as [resp|e]; [|done].
  destruct (Z.eqb_spec (resp_status resp) 304) as [->|Hne]; [done|].
  destruct (resp_status resp =? 200); [|done].
  destruct (accept_config (resp_body resp)) as [[[cfg g'] t']|e]; [|done].
  intros [= -> -> ->].
  destruct (update_all writable t (po_carriers s) (po_maps s)) as [[failed cs] m]. by rewrite Hopen.
Qed.

(** A poll's effect: a counter, or a configuration installed everywhere. *)
Definition counted_only (s s' : PollState) : Prop :=
  exists label, s' =
    {| po_etag := po_etag s; po_carriers := po_carriers s; po_maps := po_maps s;
       po_thresholds := po_thresholds s; po_active := po_active s;
       po_metrics := bump MConfigFetch [label] 1 (po_metrics s); po_state := po_state s |}.

Definition installs (r : ConfigResponse) (g : Z) (t : TapioConfig) (s s' : PollState) : Prop :=
  acceptable r g t /\
  (let '(_, cs, m) := update_all writable t (po_carriers s) (po_maps s) in
   po_carriers s' = cs /\ po_maps s' = m) /\
  po_thresholds s' = pmc_thresholds_from_compiled (cr_config r) /\
  po_active s' = Some {| ac_version := dec g; ac_hash := cr_config_hash r; ac_flags := tc_flags t |} /\
  po_etag s' = Some (etag_of (cr_config_hash r)) /\ po_state s' = set_config_version (dec g) (po_state s).

Lemma poll_tick_cases (c : ControllerConfig) (s : PollState) (w : W) :
  thresholds_open = true ->
  let s' := fst (poll_tick c s w) in
  let answer := fst (poll_response c (po_etag s) w) in
  (poll_accepts answer = None /\ counted_only s s') \/
  exists r g t, poll_accepts answer = Some (r, g, t) /\ installs r g t s s'.
Proof.
  intros Hopen. cbv zeta. destruct (poll_accepts (fst (poll_response c (po_etag s) w))) as [[[r g] t]|] eqn:E.
  - right. exists r, g, t. split; [done|]. pose proof (poll_tick_accepted c s w r g t Hopen E) as Ht. unfold installs.
    destruct (update_all writable t (po_carriers s) (po_maps s)) as [[failed cs] m]. rewrite Ht. simpl.
    split; [|done]. unfold poll_accepts in E.
    destruct (fst (poll_response c (po_etag s) w)) as [resp|]; [|done].
    destruct (resp_status resp =? 200); [|done].
    destruct (accept_config (resp_body resp)) as [x|] eqn:Ea; [|done]. injection E as ->.
    by apply accept_config_Ok in Ea as [_ Ha].
  - left. split; [done|]. destruct (poll_tick_rejected c s w E) as (label & Ht & _). exists label. by rewrite Ht.
Qed.

(** A poll counts itself, and leaves the batching alone. *)
Lemma poll_tick_counters (c : ControllerConfig) (s : PollState) (w : W) :
  thresholds_open = true ->
  let s' := fst (poll_tick c s w) in
  (exists label, po_metrics s' = bump MConfigFetch [label] 1 (po_metrics s)) /\
  batching (po_state s') = batching (po_state s).
Proof.
  intros Hopen. cbv zeta. destruct (poll_accepts (fst (poll_response c (po_etag s) w))) as [[[r g] t]|] eqn:E.
  - pose proof (poll_tick_accepted c s w r g t Hopen E) as Ht.
    destruct (update_all writable t (po_carriers s) (po_maps s)) as [[failed cs] m]. rewrite Ht. simpl. eauto.
  - destruct (poll_tick_rejected c s w E) as (label & -> & _). simpl. eauto.
Qed.

(** The exchange of a poll is its only effect on the network. *)
Lemma poll_tick_world (c : ControllerConfig) (s : PollState) (w : W) :
  snd (poll_tick c s w) = snd (poll_response c (po_etag s) w).
Proof.
  unfold poll_tick, fetch_once, poll_response.
  destruct (http_get utf8_error (config_url c) _ _ w) as [[r|e] w']; [|done]. cbn [snd].
  destruct (resp_status r =? 304); [done|]. destruct (resp_status r =? 200); [|done].
  destruct (accept_config (resp_body r)) as [[[cfg g] t]|e]; [|done].
  by destruct (apply_config t (cr_config cfg) _ _ _) as [[[]|e] [[cs m] th]].
Qed.

(** * Properties *)

(** The answer is a 200 whose body decodes to a configuration that passes
    every check: the wire format, a hash, a version that is a 32-bit number, and
    a record the kernel programs take. *)
Definition answer_offers (answer : result HttpResponse string) (r : ConfigResponse) (g : Z) (t : TapioConfig) : Prop :=
  exists response, answer = Ok response /\ resp_status response = 200 /\
    decode_config (resp_body response) = Ok r /\ acceptable r g t.

Lemma poll_accepts_Some (answer : result HttpResponse string) (r : ConfigResponse) (g : Z) (t : TapioConfig) :
  poll_accepts answer = Some (r, g, t) <-> answer_offers answer r g t.
Proof.
  unfold poll_accepts, answer_offers. split.
  - destruct answer as [response|e]; [|done]. destruct (Z.eqb_spec (resp_status response) 200) as [E|]; [|done].
    destruct (accept_config (resp_body response)) as [x|e] eqn:Ea; [|done]. intros [= ->].
    exists response. by apply accept_config_Ok in Ea as [Hd Ha].
  - intros (response & -> & -> & Hd & Ha). rewrite Z.eqb_refl.
    by rewrite (proj2 (accept_config_Ok (resp_body response) r g t) (conj Hd Ha)).
Qed.

(** C30. What a poll applies is decided by the answer it received, as long as
    the channel of the PMC thresholds is open (the agent keeps a receiver for
    its whole life).  If the answer is a 200 whose body decodes to an acceptable
    configuration, that very configuration becomes the current one, no carrier
    is dropped, every registered map is up to date with it (the write to it
    failed, or it holds it), and the thresholds, the reported identity, the
    entity tag and the version the agent reports are that response's.  After any
    other answer (a transport failure, another status, an undecodable or invalid
    body, an empty hash, a version that is not a 32-bit number) nothing changes
    but one counter: [not_modified] for a 304, [rejected] for a 200 and [error]
    otherwise. *)
Theorem poll_tick_applies_only_acceptable (c : ControllerConfig) (s : PollState) (w : W)
    (Hopen : thresholds_open = true) :
  let s' := fst (poll_tick c s w) in
  let answer := fst (poll_response c (po_etag s) w) in
  (forall r g t, answer_offers answer r g t ->
    cst_current (po_carriers s') = Some t /\ cst_carriers (po_carriers s') = cst_carriers (po_carriers s) /\
    Forall (fun k => up_to_date t (po_maps s') (car_map_fd k)) (cst_carriers (po_carriers s)) /\
    po_thresholds s' = pmc_thresholds_from_compiled (cr_config r) /\
    po_active s' = Some {| ac_version := dec g; ac_hash := cr_config_hash r; ac_flags := tc_flags t |} /\
    po_etag s' = Some (etag_of (cr_config_hash r)) /\ cs_config_version (po_state s') = dec g /\
    parse_unsigned U32_MAX (dec g) = Some (tc_generation t) /\
    po_metrics s' = bump MConfigFetch ["applied"] 1 (po_metrics s)) /\
  ((forall r g t, ~ answer_offers answer r g t) ->
    s' = {| po_etag := po_etag s; po_carriers := po_carriers s; po_maps := po_maps s;
            po_thresholds := po_thresholds s; po_active := po_active s;
            po_metrics := bump MConfigFetch [refusal_label answer] 1 (po_metrics s); po_state := po_state s |}).
Proof.
  cbv zeta. split.
  - intros r g t Hacc. pose proof Hacc as (_ & _ & _ & _ & _ & _ & Hg & Htc).
    apply poll_accepts_Some in Hacc. pose proof (poll_tick_accepted c s w r g t Hopen Hacc) as Ht.
    unfold update_all in Ht. pose proof (write_carriers_up_to_date writable (cst_carriers (po_carriers s)) t (po_maps s)) as Hu.
    destruct (write_carriers writable (cst_carriers (po_carriers s)) t (po_maps s)) as [failed m].
    apply from_compiled_view in Htc as [Hg' _]. rewrite Hg in Hg'. injection Hg' as <-.
    rewrite Ht. simpl in *. repeat (split; [done|]). split; [by eapply version_normalised|done].
  - intros Hno. rewrite (poll_tick_refused c s w); [done|].
    destruct (poll_accepts _) as [[[r g] t]|] eqn:E; [|done]. by apply poll_accepts_Some, Hno in E.
Qed.

(** A configuration counts as applied although no kernel map took it: when
    every write fails, an acceptable response still moves the reported
    identity and the entity tag, so the next poll sends the new tag and a
    controller that answers 304 leaves the maps as they were. *)
Lemma poll_marks_failed_fanout_applied (c : ControllerConfig) (s : PollState) (w : W)
    (r : ConfigResponse) (g : Z) (t : TapioConfig)
    (Hopen : thresholds_open = true) (Hfail : forall n fd, writable n fd = false)
    (Hacc : poll_accepts (fst (poll_response c (po_etag s) w)) = Some (r, g, t)) :
  let s' := fst (poll_tick c s w) in
  map_config (po_maps s') = map_config (po_maps s) /\
  po_active s' = Some {| ac_version := dec g; ac_hash := cr_config_hash r; ac_flags := tc_flags t |} /\
  po_etag s' = Some (etag_of (cr_config_hash r)).
Proof.
  pose proof (poll_tick_accepted c s w r g t Hopen Hacc) as Ht.
  assert (Hm : forall l m, map_config (snd (write_carriers writable l t m)) = map_config m).
  { induction l as [|x l IH]; intros m; [done|]. cbn [write_carriers].
    destruct (bpf_map_update_tapio_config writable (car_map_fd x) t m) as [res m'] eqn:E.
    assert (map_config m' = map_config m) as <-.
    { unfold bpf_map_update_tapio_config in E. rewrite Hfail in E. by injection E as _ <-. }
    specialize (IH m'). by destruct (write_carriers writable l t m'). }
  specialize (Hm (cst_carriers (po_carriers s)) (po_maps s)). unfold update_all in Ht.
  destruct (write_carriers writable (cst_carriers (po_carriers s)) t (po_maps s)) as [failed m].
  rewrite Ht. by simpl in *.
Qed.
End Poll.

(** * A controller that always answers with the same bytes *)

#[export] Instance scripted_net : Net (list read_event) := {
  net_exchange := fun _ _ _ reads => (Connected reads, reads);
}.

Definition sample_config_response : ConfigResponse := {|
  cr_wire_version := WIRE_VERSION; cr_version := "7"; cr_config_hash := "abc";
  cr_config := cr_config ConfigResponse_default_v1;
  cr_batching := cr_batching ConfigResponse_default_v1 |}.

Definition sample_decode (body : string) : result ConfigResponse string :=
  if String.eqb body "{}" then Ok sample_config_response else Err "expected value".

Definition sample_reads : list read_event :=
  [ReadData ("HTTP/1.1 200 OK" +:+ http_crlf +:+ http_crlf +:+ "{}")].

Definition sample_controller : ControllerConfig := {|
  ctl_endpoint := "http://127.0.0.1:8080/"; ctl_agent_id := "node/a b"; ctl_node_name := "n1";
  ctl_poll_interval := from_secs 30; ctl_heartbeat_interval := from_secs 30 |}.

Definition sample_poll_state : PollState := {|
  po_etag := None;
  po_carriers := {| cst_carriers := [{| car_observer := "network"; car_map_fd := 7 |}];
                    cst_current := None |};
  po_maps := {| map_config := fun _ => Some TapioConfig_default; map_calls := [] |};
  po_thresholds := {| pt_stall_pct_warning := f64_of_Z 20; pt_stall_pct_critical := f64_of_Z 40;
                      pt_ipc_degradation := f64_of_Z 1 |};
  po_active := None; po_metrics := TapioMetrics_new; po_state := ControllerState_new "0" |}.

Example config_url_example :
  config_url sample_controller =
  "http://127.0.0.1:8080/v1/agents/config?agent_id=node%2Fa%20b&node_name=n1".
Proof. reflexivity. Qed.

Definition sample_record : TapioConfig :=
  match tapio_config_from_compiled (cr_config sample_config_response) "7" with
  | Ok t => t
  | Err _ => TapioConfig_default
  end.

(** The same poll with an acceptable answer, and with a 503. *)
Lemma poll_tick_applies_only_acceptable_witness :
  (let s' := fst (poll_tick (fun _ => EmptyString) sample_decode write_works true
      sample_controller sample_poll_state sample_reads) in
   up_to_date sample_record (po_maps s') 7 /\ po_etag s' = Some (etag_of "abc") /\
   cs_config_version (po_state s') = "7") /\
  (let reads := [ReadData ("HTTP/1.1 503 Busy" +:+ http_crlf +:+ http_crlf)] in
   fst (poll_tick (fun _ => EmptyString) sample_decode write_works true
      sample_controller sample_poll_state reads) =
   {| po_etag := None; po_carriers := po_carriers sample_poll_state;
      po_maps := po_maps sample_poll_state; po_thresholds := po_thresholds sample_poll_state;
      po_active := None; po_metrics := bump MConfigFetch ["error"] 1 TapioMetrics_new;
      po_state := ControllerState_new "0" |}).
Proof.
  cbv zeta. split.
  - destruct (poll_tick_applies_only_acceptable (fun _ => EmptyString) sample_decode write_works true
      sample_controller sample_poll_state sample_reads eq_refl) as [Ha _].
    specialize (Ha sample_config_response 7 sample_record).
    destruct Ha as (_ & _ & Hu & _ & _ & He & Hv & _).
    { apply poll_accepts_Some. vm_compute. reflexivity. }
    split; [|split; [exact He|exact Hv]]. exact (Forall_inv Hu).
  - destruct (poll_tick_applies_only_acceptable (fun _ => EmptyString) sample_decode write_works true
      sample_controller sample_poll_state [ReadData ("HTTP/1.1 503 Busy" +:+ http_crlf +:+ http_crlf)] eq_refl)
      as [_ Hn]. apply Hn. intros r g t Hr. apply poll_accepts_Some in Hr. vm_compute in Hr. discriminate Hr.
Defined.

Lemma poll_marks_failed_fanout_applied_witness :
  po_etag (fst (poll_tick (fun _ => EmptyString) sample_decode (fun _ _ => false) true
    sample_controller sample_poll_state sample_reads)) = Some (etag_of "abc").
Proof.
  refine (proj2 (proj2 (poll_marks_failed_fanout_applied (fun _ => EmptyString) sample_decode
    (fun _ _ => false) true sample_controller sample_poll_state sample_reads
    sample_config_response 7 _ eq_refl (fun _ _ => eq_refl) _))).
  vm_compute. reflexivity.
Defined.
