(* ===== verification/Registration.v ===== *)
(** [tapio-agent/src/registration.rs]: hello and heartbeat exchanges and the
    registration loop as a state machine.  The encoders and decoders
    (serde_json) and the contents of the kernel release file are arguments. *)
From Stdlib Require Import String.
From S2P Require Import Prelude RustStr BTree Wire Metrics Httpc Heartbeat Poll.

Local Open Scope Z_scope.

Definition MAX_HELLO_RESPONSE_BYTES : Z := 16 * 1024.
Definition MAX_HEARTBEAT_RESPONSE_BYTES : Z := 16 * 1024.
Definition INITIAL_HELLO_BACKOFF : Z := from_secs 1.
Definition MAX_HELLO_BACKOFF : Z := from_secs 60.

Inductive HeartbeatDecision := Continue | ReRegister.

#[export] Instance HeartbeatDecision_eq_dec : EqDecision HeartbeatDecision.
Proof. solve_decision. Defined.

Definition hello_url (c : ControllerConfig) : string :=
  trim_end_matches "/" (ctl_endpoint c) +:+ "/v1/agents/hello".
Definition heartbeat_url (c : ControllerConfig) : string :=
  trim_end_matches "/" (ctl_endpoint c) +:+ "/v1/agents/heartbeat".

(** [kernel_release_from]: the contents of the file, None when unreadable. *)
Definition kernel_release_from (content : option string) : string :=
  match content with
  | Some value => let v := trim value in if str_empty v then "unknown" else v
  | None => "unknown"
  end.

(** The build's version and architecture are constants of the binary. *)
Definition build_hello_request (package_version arch : string) (c : ControllerConfig)
    (kernel_release : string) : HelloRequest := {|
  hello_wire_version := WIRE_VERSION;
  hello_agent_id := ctl_agent_id c;
  hello_node_name := ctl_node_name c;
  hello_tapio_version := package_version;
  hello_kernel_release := kernel_release;
  hello_arch := arch;
  hello_capabilities := [];
  hello_object_sizes := [];
  hello_map_counts := [];
|}.

(** [elapsed]: the time since [started_at]. *)
Definition build_heartbeat_request (c : ControllerConfig) (metrics : TapioMetrics)
    (active : ActiveConfigIdentity) (elapsed : Z) : HeartbeatRequest :=
  build_heartbeat {|
    sn_agent_id := ctl_agent_id c;
    sn_node_name := ctl_node_name c;
    sn_uptime_seconds := as_secs elapsed;
    sn_observers := observer_statuses active;
    sn_counters := {|
      hc_events_total := counter_sum (events_total metrics);
      hc_malformed_events_total := counter_sum (malformed_events_total metrics);
      hc_lost_events_total := counter_sum (lost_events_total metrics);
      hc_correlation_drops_total := counter_sum (correlation_drops_total metrics);
      hc_sink_drops_total := counter_sum (sink_drops_total metrics);
      hc_controller_send_failures_total := counter_sum (controller_send_failures_total metrics);
    |};
    sn_controller_mode := true;
    sn_active_config := active;
  |}.

Section Exchanges.
Variable utf8_error : string -> string.
Variable package_version arch : string.
Variable encode_hello : HelloRequest -> result string string.
Variable decode_hello : string -> result HelloResponse string.
Variable encode_heartbeat : HeartbeatRequest -> result string string.
Variable decode_heartbeat : string -> result HeartbeatResponse string.
Context {W : Type} `{Net W}.

(** A validated request posted, and its 2xx answer decoded and validated. *)
Definition exchange_once {Req Resp : Type} (name resp_name url : string) (max_response_bytes : Z)
    (validate : Req -> WireResult unit) (encode : Req -> result string string)
    (decode : string -> result Resp string) (validate_resp : Resp -> WireResult unit)
    (request : Req) (w : W) : result Resp string * W :=
  match validate request with
  | Err e => (Err (WireError_to_string e), w)
  | Ok _ =>
      match encode request with
      | Err e => (Err ("encode " +:+ name +:+ ": " +:+ e), w)
      | Ok body =>
          let '(response, w) := post_json_response utf8_error url body max_response_bytes w in
          (response <-? response ;;
           (if is_success (resp_status response) then
              resp <-? map_err (fun e => "decode " +:+ resp_name +:+ ": " +:+ e)
                        (decode (resp_body response)) ;;
              map_err WireError_to_string (validate_resp resp) ;;?
              Ok resp
            else Err ("HTTP " +:+ dec (resp_status response))), w)
      end
  end.

Definition hello_once (c : ControllerConfig) (kernel_release : string) (w : W) :
  result HelloResponse string * W :=
  exchange_once "HelloRequest" "HelloResponse" (hello_url c) MAX_HELLO_RESPONSE_BYTES
    HelloRequest_validate encode_hello decode_hello HelloResponse_validate
    (build_hello_request package_version arch c kernel_release) w.

Definition heartbeat_once (c : ControllerConfig) (metrics : TapioMetrics)
    (active : ActiveConfigIdentity) (elapsed : Z) (w : W) : result HeartbeatResponse string * W :=
  exchange_once "HeartbeatRequest" "HeartbeatResponse" (heartbeat_url c) MAX_HEARTBEAT_RESPONSE_BYTES
    HeartbeatRequest_validate encode_heartbeat decode_heartbeat HeartbeatResponse_validate
    (build_heartbeat_request c metrics active elapsed) w.

(** What every exchange of the network keeps, a hello and a heartbeat keep. *)
Lemma exchange_once_keeps {Req Resp : Type} (I : W -> Prop) (name resp_name url : string) (max : Z)
    (validate : Req -> WireResult unit) (encode : Req -> result string string)
    (decode : string -> result Resp string) (validate_resp : Resp -> WireResult unit) (req : Req) (w : W) :
  (forall host head body w, I w -> I (snd (net_exchange host head body w))) -> I w ->
  I (snd (exchange_once name resp_name url max validate encode decode validate_resp req w)).
Proof.
  intros Hn Hw. unfold exchange_once. destruct (validate req); [|done]. destruct (encode req) as [body|e]; [|done].
  pose proof (request_keeps utf8_error I "POST" url [("Content-Type", "application/json")] body max w Hn Hw) as Hr.
  unfold post_json_response. by destruct (request _ _ _ _ _ _ _) as [response w'].
Qed.
End Exchanges.

Definition classify_heartbeat_result (r : result HeartbeatResponse string) (metrics : TapioMetrics) :
  HeartbeatDecision * TapioMetrics :=
  match r with
  | Ok response =>
      if hbr_accepted response then (Continue, metrics)
      else (ReRegister, bump MSendFailures ["heartbeat"] 1 metrics)
  | Err _ => (Continue, bump MSendFailures ["heartbeat"] 1 metrics)
  end.

(** * The registration loop *)

(** Where the loop waits: for a hello to finish with the backoff to use if it
    fails, for that backoff to pass, for the next heartbeat, or nowhere. *)
Inductive reg_phase :=
| RHello (backoff : Z)
| RSleep (backoff : Z)
| RHeartbeat
| RStopped.

Inductive reg_event :=
| EvHello (r : result HelloResponse string)
| EvSlept
| EvHeartbeat (r : result HeartbeatResponse string)
| EvShutdown.

Record RegState := {
  rg_phase : reg_phase;
  rg_state : ControllerState;
  rg_metrics : TapioMetrics;
}.

Definition reg_start (state : ControllerState) (metrics : TapioMetrics) : RegState :=
  {| rg_phase := RHello INITIAL_HELLO_BACKOFF; rg_state := state; rg_metrics := metrics |}.

(** An event the phase does not wait for does not happen: None. *)
Definition reg_step (s : RegState) (ev : reg_event) : option RegState :=
  let go phase state metrics :=
    Some {| rg_phase := phase; rg_state := state; rg_metrics := metrics |} in
  match rg_phase s, ev with
  | RStopped, _ => None
  | _, EvShutdown => go RStopped (rg_state s) (rg_metrics s)
  | RHello backoff, EvHello (Ok response) =>
      if hr_accepted response then
        go RHeartbeat
          (set_config_version (hr_config_version response)
             (set_batching (hr_send_interval_ms response) (hr_max_batch_events response) (rg_state s)))
          (rg_metrics s)
      else go (RSleep backoff) (rg_state s) (bump MSendFailures ["hello"] 1 (rg_metrics s))
  | RHello backoff, EvHello (Err _) =>
      go (RSleep backoff) (rg_state s) (bump MSendFailures ["hello"] 1 (rg_metrics s))
  | RSleep backoff, EvSlept => go (RHello (Z.min (backoff * 2) MAX_HELLO_BACKOFF)) (rg_state s) (rg_metrics s)
  | RHeartbeat, EvHeartbeat r =>
      let '(decision, metrics) := classify_heartbeat_result r (rg_metrics s) in
      match decision with
      | Continue => go RHeartbeat (rg_state s) metrics
      | ReRegister => go (RHello INITIAL_HELLO_BACKOFF) (rg_state s) metrics
      end
  | _, _ => None
  end.

Fixpoint reg_run (s : RegState) (evs : list reg_event) : option RegState :=
  match evs with
  | [] => Some s
  | ev :: evs' =>
      match reg_step s ev with
      | Some s' => reg_run s' evs'
      | None => None
      end
  end.

(** * Lemmas *)

Lemma hello_valid (package_version arch kernel_release : string) (c : ControllerConfig) :
  blank (ctl_agent_id c) = false -> blank (ctl_node_name c) = false ->
  blank package_version = false -> blank arch = false -> blank kernel_release = false ->
  HelloRequest_validate (build_hello_request package_version arch c kernel_release) = Ok tt.
Proof.
  intros. unfold HelloRequest_validate. autorewrite with tapio. simpl. auto 10.
Qed.

(** The batching cells never hold zero. *)
Definition batching_ok (s : ControllerState) : Prop :=
  1 <= cs_send_interval_ms s /\ 1 <= cs_max_batch_events s.

Definition backoff_ok (p : reg_phase) : Prop :=
  match p with
  | RHello b | RSleep b => INITIAL_HELLO_BACKOFF <= b <= MAX_HELLO_BACKOFF
  | _ => True
  end.

Definition reg_inv (s : RegState) : Prop := batching_ok (rg_state s) /\ backoff_ok (rg_phase s).

(** A step counts failed exchanges only, and takes its batching from a hello. *)
Lemma reg_step_counters (s s' : RegState) (ev : reg_event) (k : metric) :
  reg_step s ev = Some s' -> k <> MSendFailures -> get_metric k (rg_metrics s') = get_metric k (rg_metrics s).
Proof.
  intros Hs Hk. unfold reg_step, classify_heartbeat_result in Hs. repeat case_match; simplify_eq/=; try done; by apply bump_get.
Qed.

Lemma reg_step_batching (s s' : RegState) (ev : reg_event) :
  reg_step s ev = Some s' ->
  cs_max_batch_events (rg_state s') = cs_max_batch_events (rg_state s) \/
  exists r, ev = EvHello (Ok r) /\ cs_max_batch_events (rg_state s') = Z.max (hr_max_batch_events r) 1.
Proof.
  intros Hs. unfold reg_step, classify_heartbeat_result in Hs.
  repeat case_match; simplify_eq/=; auto; right; eexists; split; done.
Qed.

Lemma reg_step_inv (s s' : RegState) (ev : reg_event) :
  reg_inv s -> reg_step s ev = Some s' -> reg_inv s'.
Proof.
  unfold reg_inv, batching_ok. intros [[H1 H2] Hb] Hs. unfold reg_step in Hs.
  assert (Hinit : backoff_ok (RHello INITIAL_HELLO_BACKOFF)) by (simpl; unfold INITIAL_HELLO_BACKOFF, MAX_HELLO_BACKOFF, from_secs, ns_per_sec; lia).
  destruct (rg_phase s) as [b|b| |] eqn:Ep, ev as [[r|e]| |r|]; simplify_eq/=; try done.
  - destruct (hr_accepted r); simplify_eq/=; [|done]. split; [lia|done].
  - split; [done|]. unfold INITIAL_HELLO_BACKOFF, MAX_HELLO_BACKOFF, from_secs, ns_per_sec in *. lia.
  - unfold classify_heartbeat_result in Hs. destruct r as [r|e]; [destruct (hbr_accepted r)|]; simplify_eq/=; done.
Qed.

(** One failed hello and its pause. *)
Definition is_failed_hello (ev : reg_event) : Prop :=
  match ev with
  | EvHello (Ok r) => hr_accepted r = false
  | EvHello (Err _) => True
  | _ => False
  end.

Fixpoint failed_hellos (evs : list reg_event) : list reg_event :=
  match evs with
  | [] => []
  | ev :: evs' => ev :: EvSlept :: failed_hellos evs'
  end.

Lemma failed_hello_step (s : RegState) (b : Z) (ev : reg_event) :
  rg_phase s = RHello b -> is_failed_hello ev ->
  reg_run s [ev; EvSlept] =
  Some {| rg_phase := RHello (Z.min (b * 2) MAX_HELLO_BACKOFF); rg_state := rg_state s;
          rg_metrics := bump MSendFailures ["hello"] 1 (rg_metrics s) |}.
Proof.
  intros Hp. unfold is_failed_hello. destruct ev as [[r|e]| |r|]; try done; simpl; unfold reg_step at 1;
    rewrite Hp; [intros ->|intros _]; reflexivity.
Qed.

Lemma reg_run_app (s : RegState) (l k : list reg_event) :
  reg_run s (l ++ k) = match reg_run s l with Some s' => reg_run s' k | None => None end.
Proof.
  revert s. induction l as [|ev l IH]; intros s; simpl; [done|]. by destruct (reg_step s ev).
Qed.

(** * Properties *)

(** Every run of the registration loop keeps the batching cells at one or
    more and the hello backoff between one second and a minute, and a
    shutdown ends it from any phase. *)
Lemma registration_invariant (s s' : RegState) (evs : list reg_event)
    (Hs : reg_inv s) (Hrun : reg_run s evs = Some s') :
  reg_inv s' /\
  (rg_phase s' <> RStopped -> exists s'', reg_step s' EvShutdown = Some s'' /\ rg_phase s'' = RStopped) /\
  (rg_phase s' = RStopped -> forall ev, reg_step s' ev = None).
Proof.
  split; [|split].
  - revert s Hs Hrun. induction evs as [|ev evs IH]; simpl; intros s Hs Hrun; [by simplify_eq|].
    destruct (reg_step s ev) as [s1|] eqn:E; [|done]. eapply IH; [|exact Hrun]. by eapply reg_step_inv.
  - intros Hne. unfold reg_step. destruct (rg_phase s'); try done; by eexists.
  - intros Hp ev. unfold reg_step. by rewrite Hp.
Qed.

(** Hello retries back off exponentially: after [n] refused or failed hellos
    in a row the next pause is [2 ^ n] seconds, capped at a minute, and the
    failures counted are exactly [n]. *)
Lemma hello_backoff_doubles (state : ControllerState) (metrics : TapioMetrics)
    (evs : list reg_event) (Hf : Forall is_failed_hello evs) :
  exists s, reg_run (reg_start state metrics) (failed_hellos evs) = Some s /\
    rg_phase s = RHello (Z.min (from_secs (2 ^ zlen evs)) MAX_HELLO_BACKOFF) /\
    rg_state s = state /\
    metric_value MSendFailures ["hello"] (rg_metrics s) =
      (if is_empty evs then metric_value MSendFailures ["hello"] metrics
       else wrap64 (metric_value MSendFailures ["hello"] metrics + zlen evs)).
Proof.
  induction evs as [|ev evs IH] using rev_ind.
  { exists (reg_start state metrics). rewrite zlen_nil. done. }
  apply Forall_app in Hf as [Hf Hev]. apply Forall_cons in Hev as [Hev _].
  destruct (IH Hf) as (s & Hrun & Hp & Hst & Hm).
  assert (Hfh : forall l, failed_hellos (l ++ [ev]) = failed_hellos l ++ [ev; EvSlept]).
  { induction l as [|x l IHl]; simpl; congruence. }
  rewrite Hfh, reg_run_app, Hrun, (failed_hello_step _ _ _ Hp Hev).
  eexists. split; [reflexivity|]. cbn [rg_phase rg_state rg_metrics].
  rewrite zlen_app, zlen_cons, zlen_nil. replace (zlen evs + (1 + 0)) with (Z.succ (zlen evs)) by lia.
  rewrite Z.pow_succ_r by apply zlen_nonneg. split; [|split; [done|]].
  - f_equal. unfold from_secs, MAX_HELLO_BACKOFF, from_secs, ns_per_sec. lia.
  - rewrite bump_same, Hm. rewrite (proj2 (is_empty_false (evs ++ [ev]))) by by destruct evs.
    destruct evs as [|x evs]; cbn [is_empty]; [done|].
    unfold wrap64. rewrite Zplus_mod_idemp_l. f_equal. lia.
Qed.

Definition refused_hello : HelloResponse := {|
  hr_wire_version := WIRE_VERSION; hr_accepted := false; hr_controller_id := "c";
  hr_config_version := "1"; hr_send_interval_ms := 1000; hr_max_batch_events := 256 |}.

Lemma registration_invariant_witness :
  reg_inv {| rg_phase := RHello (from_secs 2); rg_state := ControllerState_new "0";
             rg_metrics := bump MSendFailures ["hello"] 1 TapioMetrics_new |}.
Proof.
  refine (proj1 (registration_invariant (reg_start (ControllerState_new "0") TapioMetrics_new) _
    [EvHello (Err "connect"); EvSlept] _ _)).
  - unfold reg_inv, batching_ok. vm_compute. intuition congruence.
  - reflexivity.
Defined.

Lemma hello_backoff_doubles_witness :
  exists s, reg_run (reg_start (ControllerState_new "0") TapioMetrics_new)
      (failed_hellos (replicate 7 (EvHello (Ok refused_hello)))) = Some s /\
    rg_phase s = RHello (from_secs 60).
Proof.
  destruct (hello_backoff_doubles (ControllerState_new "0") TapioMetrics_new
    (replicate 7 (EvHello (Ok refused_hello)))) as (s & Hr & Hp & _).
  - repeat constructor.
  - exists s. split; [exact Hr|]. exact Hp.
Defined.
