(* ===== verification/Sink.v ===== *)
(** [tapio-common/src/sink.rs], the stdout, file and HTTP sinks of
    [tapio-agent/src/sink/], and the fan-out sink of [main.rs].  A sink is a
    state with the operations of the class [Sink]; the outside world (clock,
    standard output, file system, network) is a state [W] with the class
    [Host]. *)
From Stdlib Require Import String.
From S2P Require Import Prelude RustStr BTree Occurrence Metrics Httpc.

Local Open Scope Z_scope.

Inductive SinkError :=
| Connection (e : string)
| Send (e : string)
| Serialization (e : string)
| Io (e : string).

Definition SinkError_to_string (e : SinkError) : string :=
  match e with
  | Connection s => "connection failed: " +:+ s
  | Send s => "send failed: " +:+ s
  | Serialization s => "serialization failed: " +:+ s
  | Io s => "io error: " +:+ s
  end.

(** The trait: an operation takes the sink and the world and gives both back. *)
Class Sink (W S : Type) := {
  sink_send : Occurrence -> S -> W -> result unit SinkError * S * W;
  sink_flush : S -> W -> result unit SinkError * S * W;
  sink_name : string;
}.

(** A boxed sink: [Box<dyn Sink>]. *)
Record AnySink (W : Type) := {
  any_type : Type;
  any_sink : Sink W any_type;
  any_state : any_type;
}.
Arguments any_type {W} _.
Arguments any_sink {W} _.
Arguments any_state {W} _.

Definition any_send {W : Type} (o : Occurrence) (a : AnySink W) (w : W) :
  result unit SinkError * AnySink W * W :=
  let '(r, s, w) := @sink_send _ _ (any_sink a) o (any_state a) w in
  (r, {| any_type := any_type a; any_sink := any_sink a; any_state := s |}, w).

Definition any_flush {W : Type} (a : AnySink W) (w : W) : result unit SinkError * AnySink W * W :=
  let '(r, s, w) := @sink_flush _ _ (any_sink a) (any_state a) w in
  (r, {| any_type := any_type a; any_sink := any_sink a; any_state := s |}, w).

Definition any_name {W : Type} (a : AnySink W) : string := @sink_name _ _ (any_sink a).

(** ** A session: any calls of one sink, in order *)

Inductive sink_call := CallSend (o : Occurrence) | CallFlush.

Definition offered (a : sink_call) : list Occurrence := match a with CallSend o => [o] | CallFlush => [] end.

Definition error_of {A E : Type} (r : result A E) : option E := match r with Ok _ => None | Err e => Some e end.

Section Session.
Context {W S : Type} (k : Sink W S).

Definition sink_do (a : sink_call) (s : S) (w : W) : result unit SinkError * S * W :=
  match a with
  | CallSend o => sink_send o s w
  | CallFlush => sink_flush s w
  end.

(** The answers of successive calls. *)
Fixpoint sink_session (calls : list sink_call) (s : S) (w : W) : list (result unit SinkError) * S * W :=
  match calls with
  | [] => ([], s, w)
  | a :: rest =>
      let '(r, s, w) := sink_do a s w in
      let '(rs, s, w) := sink_session rest s w in
      (r :: rs, s, w)
  end.

(** A sink that buffers: its invariant, its buffer, what may become of a run of
    occurrences that leaves the buffer, and the error such a run is lost with. *)
Context {F : Type} (inv : S -> Prop) (buffer : S -> list Occurrence).
Variable fate_ok : S -> list Occurrence * F -> Prop.
Variable loss : F -> option SinkError.

(** Between two states, every occurrence of the buffer and of [new] left the
    buffer in a run of a known fate or is still there, all in order, and
    [errors] are the ones of the runs that were lost. *)
Definition accounted (s s' : S) (new : list Occurrence) (errors : list SinkError) : Prop :=
  inv s' /\ exists log, Forall (fate_ok s) log /\
    buffer s ++ new = concat (map fst log) ++ buffer s' /\ omap (fun x => loss (snd x)) log = errors.

Hypothesis fate_ok_static : forall a s w x, inv s -> fate_ok (snd (fst (sink_do a s w))) x -> fate_ok s x.
Hypothesis do_accounted : forall a s w, inv s ->
  let '(r, s', _) := sink_do a s w in accounted s s' (offered a) (option_list (error_of r)).

Lemma session_accounted (calls : list sink_call) (s : S) (w : W) :
  inv s ->
  let '(answers, s', _) := sink_session calls s w in
  length answers = length calls /\ accounted s s' (concat (map offered calls)) (omap error_of answers).
Proof.
  revert s w. induction calls as [|a calls IH]; intros s w Hs; simpl.
  { split; [done|]. split; [done|]. exists []. simpl. by rewrite app_nil_r. }
  pose proof (do_accounted a s w Hs) as Ha. pose proof (fun x => fate_ok_static a s w x Hs) as Hstatic.
  destruct (sink_do a s w) as [[r s1] w1]. destruct Ha as (Hs1 & log & Hlog & E & Hloss).
  specialize (IH s1 w1 Hs1). destruct (sink_session calls s1 w1) as [[rs s2] w2].
  destruct IH as (Hlen & Hs2 & log' & Hlog' & E' & Hloss'). split; [simpl; congruence|]. split; [done|].
  exists (log ++ log'). split; [|split].
  - apply Forall_app. split; [done|]. by eapply Forall_impl.
  - rewrite map_app, concat_app, app_assoc, E, <- !app_assoc, E'. done.
  - rewrite omap_app, Hloss, Hloss'. simpl. by destruct (error_of r).
Qed.
End Session.

(** The standard library's clock, output and files. *)
Class Host (W : Type) := {
  host_now : W -> Z * W;
  host_stdout_write : string -> W -> result unit string * W;
  host_stdout_flush : W -> result unit string * W;
  host_exists : string -> W -> bool;
  host_create_dir_all : string -> W -> result unit string * W;
  host_write_file : string -> string -> W -> result unit string * W;
}.

(** * Standard output *)

Section SimpleSinks.
(** [serde_json::to_vec] and [to_vec_pretty] of an occurrence. *)
Variable to_json to_json_pretty : Occurrence -> result string string.
Context {W : Type} `{Host W}.

Definition stdout_send (o : Occurrence) (s : unit) (w : W) : result unit SinkError * unit * W :=
  match to_json o with
  | Err e => (Err (Serialization e), s, w)
  | Ok buf =>
      match host_stdout_write buf w with
      | (Err e, w) => (Err (Io e), s, w)
      | (Ok _, w) =>
          match host_stdout_write newline_str w with
          | (Err e, w) => (Err (Io e), s, w)
          | (Ok _, w) => (Ok tt, s, w)
          end
      end
  end.

Definition stdout_flush (s : unit) (w : W) : result unit SinkError * unit * W :=
  let '(r, w) := host_stdout_flush w in (map_err Io r, s, w).

Definition StdoutSink : Sink W unit :=
  {| sink_send := stdout_send; sink_flush := stdout_flush; sink_name := "stdout" |}.

(** * One file per occurrence; the state is the directory *)

Definition ensure_dir (dir : string) (w : W) : result unit SinkError * W :=
  if negb (host_exists dir w) then
    let '(r, w) := host_create_dir_all dir w in (map_err Io r, w)
  else (Ok tt, w).

(** [dir.join(name)] of a relative file name. *)
Definition path_join (dir name : string) : string :=
  if str_empty dir then name
  else if starts_with (str_rev dir) "/" then dir +:+ name else dir +:+ "/" +:+ name.

Definition file_send (o : Occurrence) (dir : string) (w : W) : result unit SinkError * string * W :=
  match ensure_dir dir w with
  | (Err e, w) => (Err e, dir, w)
  | (Ok _, w) =>
      let path := path_join dir (oc_id o +:+ ".json") in
      match to_json_pretty o with
      | Err e => (Err (Serialization e), dir, w)
      | Ok data =>
          let '(r, w) := host_write_file path data w in (map_err Io r, dir, w)
      end
  end.

Definition file_flush (dir : string) (w : W) : result unit SinkError * string * W := (Ok tt, dir, w).

Definition FileSink : Sink W string :=
  {| sink_send := file_send; sink_flush := file_flush; sink_name := "file" |}.
End SimpleSinks.

(** * The fan-out sink *)

Record MultiSink (W : Type) := {
  ms_sinks : list (AnySink W);
  ms_metrics : option TapioMetrics;
}.
Arguments ms_sinks {W} _.
Arguments ms_metrics {W} _.

Section Multi.
Context {W : Type}.

Definition count_write (name label : string) (m : option TapioMetrics) : option TapioMetrics :=
  bump MSinkWrites [name; label] 1 <$> m.

Fixpoint multi_send_loop (o : Occurrence) (sinks : list (AnySink W)) (m : option TapioMetrics)
    (last_err : option SinkError) (w : W) :
  option SinkError * list (AnySink W) * option TapioMetrics * W :=
  match sinks with
  | [] => (last_err, [], m, w)
  | s :: rest =>
      let '(r, s', w) := any_send o s w in
      let '(last_err, m) :=
        match r with
        | Ok _ => (last_err, count_write (any_name s) "ok" m)
        | Err e => (Some e, count_write (any_name s) "err" m)
        end in
      let '(last_err, rest', m, w) := multi_send_loop o rest m last_err w in
      (last_err, s' :: rest', m, w)
  end.

Definition multi_send (o : Occurrence) (ms : MultiSink W) (w : W) :
  result unit SinkError * MultiSink W * W :=
  let '(last_err, sinks, m, w) := multi_send_loop o (ms_sinks ms) (ms_metrics ms) None w in
  (match last_err with Some e => Err e | None => Ok tt end,
   {| ms_sinks := sinks; ms_metrics := m |}, w).

Fixpoint multi_flush_loop (sinks : list (AnySink W)) (last_err : option SinkError) (w : W) :
  option SinkError * list (AnySink W) * W :=
  match sinks with
  | [] => (last_err, [], w)
  | s :: rest =>
      let '(r, s', w) := any_flush s w in
      let last_err := match r with Ok _ => last_err | Err e => Some e end in
      let '(last_err, rest', w) := multi_flush_loop rest last_err w in
      (last_err, s' :: rest', w)
  end.

Definition multi_flush (ms : MultiSink W) (w : W) : result unit SinkError * MultiSink W * W :=
  let '(last_err, sinks, w) := multi_flush_loop (ms_sinks ms) None w in
  (match last_err with Some e => Err e | None => Ok tt end,
   {| ms_sinks := sinks; ms_metrics := ms_metrics ms |}, w).

Definition MultiSink_sink : Sink W (MultiSink W) :=
  {| sink_send := multi_send; sink_flush := multi_flush; sink_name := "multi" |}.

(** * Specification of the fan-out *)

(** Every sink is sent the occurrence, in order, each in the world the previous
    one left. *)
Inductive sent_all (o : Occurrence) : list (AnySink W) -> W -> list (result unit SinkError) ->
  list (AnySink W) -> W -> Prop :=
| sent_nil w : sent_all o [] w [] [] w
| sent_cons s r s' w1 w2 rest rs rest' w3 :
    any_send o s w1 = (r, s', w2) ->
    sent_all o rest w2 rs rest' w3 ->
    sent_all o (s :: rest) w1 (r :: rs) (s' :: rest') w3.

(** The last error among the results. *)
Definition last_error (rs : list (result unit SinkError)) (d : option SinkError) : option SinkError :=
  fold_left (fun acc r => match r with Ok _ => acc | Err e => Some e end) rs d.

Definition count_writes (names : list string) (rs : list (result unit SinkError))
    (m : option TapioMetrics) : option TapioMetrics :=
  fold_left (fun m nr => count_write (fst nr) (if is_ok (snd nr) then "ok" else "err") m)
    (zip names rs) m.

Lemma multi_send_loop_spec (o : Occurrence) (sinks : list (AnySink W)) (m : option TapioMetrics)
    (d : option SinkError) (w : W) :
  exists rs sinks' w', sent_all o sinks w rs sinks' w' /\ length rs = length sinks /\
    multi_send_loop o sinks m d w =
      (last_error rs d, sinks', count_writes (map any_name sinks) rs m, w').
Proof.
  revert m d w. induction sinks as [|s sinks IH]; intros m d w; simpl.
  { exists [], [], w. repeat split. constructor. }
  destruct (any_send o s w) as [[r s'] w2] eqn:E.
  destruct r as [[]|e].
  - destruct (IH (count_write (any_name s) "ok" m) d w2) as (rs & sinks' & w' & Hs & Hl & ->).
    exists (Ok tt :: rs), (s' :: sinks'), w'. split; [by econstructor|]. simpl. auto.
  - destruct (IH (count_write (any_name s) "err" m) (Some e) w2) as (rs & sinks' & w' & Hs & Hl & ->).
    exists (Err e :: rs), (s' :: sinks'), w'. split; [by econstructor|]. simpl. auto.
Qed.

Lemma last_error_None (rs : list (result unit SinkError)) :
  last_error rs None = None <-> Forall (fun r => r = Ok tt) rs.
Proof.
  assert (Hs : forall rs e, last_error rs (Some e) <> None).
  { clear. induction rs as [|[]]; simpl; eauto. }
  unfold last_error in *. induction rs as [|[[]|e] rs IH]; simpl.
  - done.
  - rewrite IH, Forall_cons. tauto.
  - rewrite Forall_cons. split; [|by intros [? _]]. intros Hn. by apply Hs in Hn.
Qed.

(** * Properties *)

(** One failing sink never keeps an occurrence from the others: the fan-out
    sends it to every sink in order, counts one write per sink under its name
    and result, reports success exactly when all succeeded, and otherwise the
    last error. *)
Lemma multi_send_reaches_all (o : Occurrence) (ms : MultiSink W) (w : W) :
  exists rs sinks' w', sent_all o (ms_sinks ms) w rs sinks' w' /\ length rs = length (ms_sinks ms) /\
    multi_send o ms w =
      (match last_error rs None with Some e => Err e | None => Ok tt end,
       {| ms_sinks := sinks';
          ms_metrics := count_writes (map any_name (ms_sinks ms)) rs (ms_metrics ms) |}, w') /\
    (fst (fst (multi_send o ms w)) = Ok tt <-> Forall (fun r => r = Ok tt) rs).
Proof.
  destruct (multi_send_loop_spec o (ms_sinks ms) (ms_metrics ms) None w)
    as (rs & sinks' & w' & Hs & Hl & He).
  exists rs, sinks', w'. unfold multi_send. rewrite He. split; [done|]. split; [done|]. split; [done|].
  simpl. rewrite <- last_error_None. destruct (last_error rs None); naive_solver.
Qed.
End Multi.
