(* ===== verification/HttpSink.v ===== *)
(** [tapio-agent/src/sink/http.rs]: the batching HTTP sink.  The lock is held
    while the buffer is updated and never while a request runs; no code panics
    with it held, so it is never poisoned. *)
From Stdlib Require Import String.
From S2P Require Import Prelude RustStr BTree Occurrence Metrics Httpc Sink.

Local Open Scope Z_scope.

Definition INITIAL_BACKOFF : Z := from_secs 1.
Definition MAX_BACKOFF : Z := from_secs 60.

Record HttpInner := {
  hi_buffer : list Occurrence;
  hi_flush_interval : Z;
  hi_last_flush : Z;
  hi_next_retry : Z;
  hi_backoff : Z;
  hi_max_buffer : Z;
}.

Record HttpSinkState := {
  hs_endpoint : string;
  hs_buffer_size : Z;
  hs_inner : HttpInner;
}.

Definition HttpSink_new (endpoint : string) (buffer_size flush_interval now : Z) : HttpSinkState := {|
  hs_endpoint := endpoint;
  hs_buffer_size := buffer_size;
  hs_inner := {|
    hi_buffer := [];
    hi_flush_interval := flush_interval;
    hi_last_flush := now;
    hi_next_retry := now;
    hi_backoff := INITIAL_BACKOFF;
    hi_max_buffer := buffer_size * 10;
  |};
|}.

Definition with_buffer (buffer : list Occurrence) (last_flush : Z) (s : HttpSinkState) :
  HttpSinkState :=
  let i := hs_inner s in
  {| hs_endpoint := hs_endpoint s; hs_buffer_size := hs_buffer_size s;
     hs_inner := {| hi_buffer := buffer; hi_flush_interval := hi_flush_interval i;
                    hi_last_flush := last_flush; hi_next_retry := hi_next_retry i;
                    hi_backoff := hi_backoff i; hi_max_buffer := hi_max_buffer i |} |}.

Definition with_backoff (next_retry backoff : Z) (s : HttpSinkState) : HttpSinkState :=
  let i := hs_inner s in
  {| hs_endpoint := hs_endpoint s; hs_buffer_size := hs_buffer_size s;
     hs_inner := {| hi_buffer := hi_buffer i; hi_flush_interval := hi_flush_interval i;
                    hi_last_flush := hi_last_flush i; hi_next_retry := next_retry;
                    hi_backoff := backoff; hi_max_buffer := hi_max_buffer i |} |}.

Section HttpSink.
Variable utf8_error : string -> string.
(** [serde_json::to_vec] of a batch. *)
Variable batch_json : list Occurrence -> result string string.
Context {W : Type} `{Host W} `{Net W}.

Definition post_batch (batch : list Occurrence) (s : HttpSinkState) (w : W) :
  result unit SinkError * HttpSinkState * W :=
  if is_empty batch then (Ok tt, s, w)
  else
    match batch_json batch with
    | Err e => (Err (Serialization e), s, w)
    | Ok payload =>
        match post_json utf8_error (hs_endpoint s) payload w with
        | (Ok _, w) => (Ok tt, with_backoff (hi_next_retry (hs_inner s)) INITIAL_BACKOFF s, w)
        | (Err e, w) =>
            let '(now, w) := host_now w in
            let backoff := hi_backoff (hs_inner s) in
            (Err (Send ("http sink: send failed, dropped " +:+ dec (zlen batch) +:+ " events: " +:+ e)),
             with_backoff (now + backoff) (Z.min (backoff * 2) MAX_BACKOFF) s, w)
        end
    end.

(** The buffer after the overflow rule and the new occurrence. *)
Definition push_bounded (s : HttpSinkState) (o : Occurrence) : list Occurrence :=
  let i := hs_inner s in
  (if hi_max_buffer i <=? zlen (hi_buffer i) then
     drop (Z.to_nat (zlen (hi_buffer i) - hs_buffer_size s)) (hi_buffer i)
   else hi_buffer i) ++ [o].

Definition http_send (o : Occurrence) (s : HttpSinkState) (w : W) :
  result unit SinkError * HttpSinkState * W :=
  let i := hs_inner s in
  let buffer := push_bounded s o in
  let '(now, w) := host_now w in
  let '(should_flush, w) :=
    if hi_next_retry i <=? now then
      if hs_buffer_size s <=? zlen buffer then (true, w)
      else let '(now', w) := host_now w in (hi_flush_interval i <=? now' - hi_last_flush i, w)
    else (false, w) in
  if should_flush then post_batch buffer (with_buffer [] now s) w
  else (Ok tt, with_buffer buffer (hi_last_flush i) s, w).

Definition http_flush (s : HttpSinkState) (w : W) : result unit SinkError * HttpSinkState * W :=
  let i := hs_inner s in
  if is_empty (hi_buffer i) then (Ok tt, s, w)
  else
    let '(now, w) := host_now w in
    post_batch (hi_buffer i) (with_buffer [] now s) w.

Definition HttpSink : Sink W HttpSinkState :=
  {| sink_send := http_send; sink_flush := http_flush; sink_name := "http" |}.

(** * The invariant *)

Record http_inv (s : HttpSinkState) : Prop := {
  hv_size : 1 <= hs_buffer_size s;
  hv_max : hi_max_buffer (hs_inner s) = hs_buffer_size s * 10;
  hv_buffer : zlen (hi_buffer (hs_inner s)) <= hi_max_buffer (hs_inner s);
  hv_backoff : INITIAL_BACKOFF <= hi_backoff (hs_inner s) <= MAX_BACKOFF;
}.

Lemma http_new_inv (endpoint : string) (buffer_size interval now : Z) :
  1 <= buffer_size -> http_inv (HttpSink_new endpoint buffer_size interval now).
Proof.
  intros Hb. constructor; simpl; rewrite ?zlen_nil; try lia.
  unfold INITIAL_BACKOFF, MAX_BACKOFF, from_secs, ns_per_sec. lia.
Qed.

Lemma zlen_drop {A : Type} (n : nat) (l : list A) : zlen (drop n l) = Z.max 0 (zlen l - Z.of_nat n).
Proof. unfold zlen. rewrite length_drop. lia. Qed.

Lemma push_bounded_length (s : HttpSinkState) (o : Occurrence) :
  http_inv s -> zlen (push_bounded s o) <= hi_max_buffer (hs_inner s).
Proof.
  intros [Hs Hm Hb _]. unfold push_bounded. rewrite zlen_app, zlen_cons, zlen_nil.
  destruct (Z.leb_spec (hi_max_buffer (hs_inner s)) (zlen (hi_buffer (hs_inner s)))); [|lia].
  rewrite zlen_drop. lia.
Qed.

Lemma with_backoff_inv (next b : Z) (s : HttpSinkState) :
  http_inv s -> INITIAL_BACKOFF <= b <= MAX_BACKOFF -> http_inv (with_backoff next b s).
Proof. intros [] Hb. constructor; done. Qed.

Lemma with_buffer_inv (buffer : list Occurrence) (t : Z) (s : HttpSinkState) :
  http_inv s -> zlen buffer <= hi_max_buffer (hs_inner s) -> http_inv (with_buffer buffer t s).
Proof. intros [] Hb. constructor; done. Qed.

Lemma post_batch_inv (batch : list Occurrence) (s : HttpSinkState) (w : W) :
  http_inv s -> http_inv (snd (fst (post_batch batch s w))).
Proof.
  intros Hs. unfold post_batch. destruct (is_empty batch); [done|].
  destruct (batch_json batch); [|done].
  destruct (post_json utf8_error (hs_endpoint s) val w) as [[u|e] w'].
  - apply with_backoff_inv; [done|]. unfold INITIAL_BACKOFF, MAX_BACKOFF, from_secs, ns_per_sec. lia.
  - destruct (host_now w') as [now w'']. apply with_backoff_inv; [done|].
    destruct Hs. unfold INITIAL_BACKOFF, MAX_BACKOFF, from_secs, ns_per_sec in *. lia.
Qed.

Lemma http_send_inv (o : Occurrence) (s : HttpSinkState) (w : W) :
  http_inv s -> http_inv (snd (fst (http_send o s w))).
Proof.
  intros Hs. unfold http_send. destruct (host_now w) as [now w1].
  pose proof (push_bounded_length s o Hs) as Hl.
  assert (Hnil : zlen (@nil Occurrence) <= hi_max_buffer (hs_inner s)).
  { rewrite zlen_nil. destruct Hs. lia. }
  destruct (hi_next_retry (hs_inner s) <=? now); [|by apply with_buffer_inv].
  destruct (hs_buffer_size s <=? zlen (push_bounded s o)); [by apply post_batch_inv, with_buffer_inv|].
  destruct (host_now w1) as [now' w2].
  destruct (hi_flush_interval (hs_inner s) <=? now' - hi_last_flush (hs_inner s));
    [by apply post_batch_inv, with_buffer_inv|by apply with_buffer_inv].
Qed.

Lemma post_batch_buffer (batch : list Occurrence) (s : HttpSinkState) (w : W) :
  hi_buffer (hs_inner (snd (fst (post_batch batch s w)))) = hi_buffer (hs_inner s).
Proof.
  unfold post_batch. destruct (is_empty batch); [done|]. destruct (batch_json batch); [|done].
  destruct (post_json utf8_error (hs_endpoint s) val w) as [[u|e] w']; [done|].
  by destruct (host_now w').
Qed.

(** * Properties *)

(** The sink keeps its memory bounded and its backoff between one second
    and a minute through any send or flush; when it overflows, what it forgets
    is a prefix: the kept occurrences are the most recent ones, the new one
    last. *)
Lemma http_sink_invariant (o : Occurrence) (s : HttpSinkState) (w : W) (Hs : http_inv s) :
  http_inv (snd (fst (http_send o s w))) /\ http_inv (snd (fst (http_flush s w))) /\
  exists dropped, dropped ++ push_bounded s o = hi_buffer (hs_inner s) ++ [o] /\
    (zlen (hi_buffer (hs_inner s)) < hi_max_buffer (hs_inner s) -> dropped = []).
Proof.
  split; [by apply http_send_inv|]. split.
  - unfold http_flush. destruct (is_empty (hi_buffer (hs_inner s))); [done|].
    destruct (host_now w) as [now w1]. apply post_batch_inv, with_buffer_inv; [done|].
    rewrite zlen_nil. destruct Hs. lia.
  - unfold push_bounded.
    destruct (Z.leb_spec (hi_max_buffer (hs_inner s)) (zlen (hi_buffer (hs_inner s)))).
    + eexists (take _ _). rewrite app_assoc, take_drop. split; [done|]. lia.
    + by exists [].
Qed.

(** ** A session *)

(** What became of a run of occurrences that left the buffer. *)
Inductive fate := Delivered | LostInPost (e : SinkError) | Overflowed.

Definition fate_ok (s : HttpSinkState) (entry : list Occurrence * fate) : Prop :=
  let '(batch, f) := entry in
  match f with
  | Delivered => batch <> [] /\ exists payload w,
      batch_json batch = Ok payload /\ fst (post_json utf8_error (hs_endpoint s) payload w) = Ok tt
  | LostInPost (Serialization e) => batch <> [] /\ batch_json batch = Err e
  | LostInPost e => batch <> [] /\ exists payload w e',
      batch_json batch = Ok payload /\ fst (post_json utf8_error (hs_endpoint s) payload w) = Err e' /\
      e = Send ("http sink: send failed, dropped " +:+ dec (zlen batch) +:+ " events: " +:+ e')
  | Overflowed => zlen batch = 9 * hs_buffer_size s
  end.

Definition loss_of (f : fate) : option SinkError := match f with LostInPost e => Some e | _ => None end.

Lemma post_batch_fate (batch : list Occurrence) (s : HttpSinkState) (w : W) :
  batch <> [] ->
  exists f, fate_ok s (batch, f) /\ loss_of f = error_of (fst (fst (post_batch batch s w))) /\
    f <> Overflowed.
Proof.
  intros Hb. unfold post_batch. rewrite (proj2 (is_empty_false batch) Hb).
  destruct (batch_json batch) as [payload|e] eqn:Ej; [|by exists (LostInPost (Serialization e))].
  destruct (post_json utf8_error (hs_endpoint s) payload w) as [[[]|e] w'] eqn:Ep.
  - exists Delivered. split; [|done]. split; [done|]. exists payload, w. by rewrite Ep.
  - destruct (host_now w') as [now w'']. eexists (LostInPost (Send _)). split; [|done]. split; [done|].
    exists payload, w, e. by rewrite Ep.
Qed.

Lemma post_batch_static (batch : list Occurrence) (s : HttpSinkState) (w : W) :
  let s' := snd (fst (post_batch batch s w)) in
  hs_endpoint s' = hs_endpoint s /\ hs_buffer_size s' = hs_buffer_size s.
Proof.
  unfold post_batch. destruct (is_empty batch); [done|]. destruct (batch_json batch); [|done].
  destruct (post_json utf8_error (hs_endpoint s) val w) as [[u|e] w']; [done|]. by destruct (host_now w').
Qed.

Lemma push_bounded_fate (o : Occurrence) (s : HttpSinkState) :
  http_inv s ->
  exists log, Forall (fate_ok s) log /\ hi_buffer (hs_inner s) ++ [o] = concat (map fst log) ++ push_bounded s o /\
    omap (fun x => loss_of (snd x)) log = [].
Proof.
  intros [Hs Hm Hb _]. unfold push_bounded.
  destruct (Z.leb_spec (hi_max_buffer (hs_inner s)) (zlen (hi_buffer (hs_inner s)))) as [Hge|]; [|by exists []].
  set (n := Z.to_nat (zlen (hi_buffer (hs_inner s)) - hs_buffer_size s)).
  exists [(take n (hi_buffer (hs_inner s)), Overflowed)]. split; [|split; [|done]].
  - repeat constructor. simpl. unfold zlen in *. rewrite length_take. lia.
  - simpl. by rewrite app_nil_r, app_assoc, take_drop.
Qed.

Notation http_accounted := (accounted http_inv (fun s => hi_buffer (hs_inner s)) fate_ok loss_of).

(** The whole buffer is posted. *)
Lemma post_accounted (s : HttpSinkState) (new : list Occurrence) (batch : list Occurrence)
    (log : list (list Occurrence * fate)) (now : Z) (w : W) :
  http_inv s -> batch <> [] -> Forall (fate_ok s) log ->
  hi_buffer (hs_inner s) ++ new = concat (map fst log) ++ batch -> omap (fun x => loss_of (snd x)) log = [] ->
  let '(r, s', _) := post_batch batch (with_buffer [] now s) w in
  http_accounted s s' new (option_list (error_of r)).
Proof.
  intros Hs Hb Hlog E Hloss.
  destruct (post_batch_fate batch (with_buffer [] now s) w Hb) as (f & Hf & Hr & _).
  pose proof (post_batch_static batch (with_buffer [] now s) w) as [He Hz].
  pose proof (post_batch_buffer batch (with_buffer [] now s) w) as Hbuf.
  assert (Hinv : http_inv (with_buffer [] now s)).
  { apply with_buffer_inv; [done|]. rewrite zlen_nil. destruct Hs. lia. }
  apply (post_batch_inv batch _ w) in Hinv.
  destruct (post_batch batch (with_buffer [] now s) w) as [[r s'] w']. simpl in *.
  split; [done|]. exists (log ++ [(batch, f)]). split; [|split].
  - apply Forall_app. split; [done|]. by constructor.
  - rewrite Hbuf, map_app, concat_app, E. simpl. by rewrite !app_nil_r.
  - rewrite omap_app, Hloss. simpl. rewrite Hr. by destruct (error_of r).
Qed.

Lemma http_do_accounted (a : sink_call) (s : HttpSinkState) (w : W) :
  http_inv s ->
  let '(r, s', _) := sink_do HttpSink a s w in http_accounted s s' (offered a) (option_list (error_of r)).
Proof.
  intros Hs. destruct a as [o|]; simpl.
  - destruct (push_bounded_fate o s Hs) as (log & Hlog & E & Hloss).
    assert (Hne : push_bounded s o <> []) by (unfold push_bounded; by destruct (if _ <=? _ then _ else _)).
    assert (Hkeep : http_accounted s (with_buffer (push_bounded s o) (hi_last_flush (hs_inner s)) s) [o] []).
    { split; [by apply with_buffer_inv, push_bounded_length|]. by exists log. }
    unfold http_send. destruct (host_now w) as [now w1].
    destruct (hi_next_retry (hs_inner s) <=? now); [|exact Hkeep].
    destruct (hs_buffer_size s <=? zlen (push_bounded s o)); [by eapply (post_accounted s)|].
    destruct (host_now w1) as [now' w2].
    destruct (hi_flush_interval (hs_inner s) <=? now' - hi_last_flush (hs_inner s)); [by eapply (post_accounted s)|exact Hkeep].
  - unfold http_flush. destruct (is_empty (hi_buffer (hs_inner s))) eqn:Ee.
    + split; [done|]. exists []. simpl. by rewrite app_nil_r.
    + destruct (host_now w) as [now w1]. apply is_empty_false in Ee.
      by apply (post_accounted s [] (hi_buffer (hs_inner s)) []); rewrite ?app_nil_r.
Qed.

(** No call changes the endpoint or the size of the sink. *)
Lemma http_do_static (a : sink_call) (s : HttpSinkState) (w : W) :
  let s' := snd (fst (sink_do HttpSink a s w)) in
  hs_endpoint s' = hs_endpoint s /\ hs_buffer_size s' = hs_buffer_size s.
Proof.
  destruct a as [o|]; simpl; unfold http_send, http_flush.
  - destruct (host_now w) as [now w1]. destruct (hi_next_retry (hs_inner s) <=? now); [|done].
    destruct (hs_buffer_size s <=? zlen (push_bounded s o)); [exact (post_batch_static (push_bounded s o) (with_buffer [] now s) w1)|].
    destruct (host_now w1) as [now' w2].
    destruct (hi_flush_interval (hs_inner s) <=? now' - hi_last_flush (hs_inner s)); [exact (post_batch_static (push_bounded s o) (with_buffer [] now s) w2)|done].
  - destruct (is_empty (hi_buffer (hs_inner s))); [done|]. destruct (host_now w) as [now w1]. exact (post_batch_static (hi_buffer (hs_inner s)) (with_buffer [] now s) w1).
Qed.

(** C36. Over any session of sends and flushes the HTTP sink accounts for every
    occurrence, whatever the network does: the occurrences left its buffer in
    order, in runs that were posted and answered 2xx, lost in a failed post or
    in their encoding, or forgotten by the overflow rule, nine tenths of a
    full buffer at a time; the rest is still buffered; the errors its calls
    returned are exactly those of the lost runs, in order, so that only an
    overflow is silent; and the buffer and the backoff stay in bounds. *)
Theorem http_sink_accounts (calls : list sink_call) (s : HttpSinkState) (w : W) (Hs : http_inv s) :
  let '(answers, s', _) := sink_session HttpSink calls s w in
  http_inv s' /\ length answers = length calls /\
  exists log, Forall (fate_ok s) log /\
    hi_buffer (hs_inner s) ++ concat (map offered calls) = concat (map fst log) ++ hi_buffer (hs_inner s') /\
    omap error_of answers = omap (fun x => loss_of (snd x)) log.
Proof.
  assert (Hstatic : forall a s w x, http_inv s -> fate_ok (snd (fst (sink_do HttpSink a s w))) x -> fate_ok s x).
  { intros a s1 w1 [batch f] _. unfold fate_ok. by destruct (http_do_static a s1 w1) as [-> ->]. }
  pose proof (session_accounted HttpSink _ _ _ _ Hstatic http_do_accounted calls s w Hs) as H1.
  destruct (sink_session HttpSink calls s w) as [[answers s'] w'].
  destruct H1 as (Hlen & Hs' & log & Hlog & E & Hloss). split; [done|]. split; [done|]. by exists log.
Qed.

(** While the sink backs off it does not touch the network: before the retry
    time a send only buffers, and returns without error. *)
Lemma http_send_respects_backoff (o : Occurrence) (s : HttpSinkState) (w : W)
    (Hearly : fst (host_now w) < hi_next_retry (hs_inner s)) :
  http_send o s w =
    (Ok tt, with_buffer (push_bounded s o) (hi_last_flush (hs_inner s)) s, snd (host_now w)).
Proof.
  unfold http_send. destruct (host_now w) as [now w1]. simpl in *.
  destruct (Z.leb_spec (hi_next_retry (hs_inner s)) now); [lia|done].
Qed.
End HttpSink.

(** A host whose clock is its state. *)
#[export] Instance clock_host : Host Z := {
  host_now := fun t => (t, t);
  host_stdout_write := fun _ t => (Ok tt, t);
  host_stdout_flush := fun t => (Ok tt, t);
  host_exists := fun _ _ => true;
  host_create_dir_all := fun _ t => (Ok tt, t);
  host_write_file := fun _ _ t => (Ok tt, t);
}.

Definition sample_occurrence : Occurrence :=
  Occurrence_new_at "01J0000000000000000000000" CONTAINER_OOM_KILL Critical Failure 5000000000.

Definition sample_http : HttpSinkState := HttpSink_new "http://127.0.0.1:8765" 100 (from_secs 1) 0.

Lemma http_sink_invariant_witness :
  http_inv (snd (fst (http_send (fun _ => EmptyString) (fun _ => Ok "[]") sample_occurrence
    sample_http (from_secs 2)))).
Proof.
  apply (http_sink_invariant (fun _ => EmptyString) (fun _ => Ok "[]") sample_occurrence sample_http
    (from_secs 2)).
  apply http_new_inv. lia.
Defined.

(** Two sends and a flush on a network that refuses every connection. *)
Lemma http_sink_accounts_witness :
  exists e, fst (fst (sink_session (HttpSink (fun _ => EmptyString) (fun _ => Ok "[]"))
    [CallSend sample_occurrence; CallSend sample_occurrence; CallFlush] sample_http (from_secs 0))) =
      [Ok tt; Ok tt; Err e] /\
    http_inv (snd (fst (sink_session (HttpSink (fun _ => EmptyString) (fun _ => Ok "[]"))
      [CallSend sample_occurrence; CallSend sample_occurrence; CallFlush] sample_http (from_secs 0)))).
Proof.
  pose proof (http_sink_accounts (fun _ => EmptyString) (fun _ => Ok "[]")
    [CallSend sample_occurrence; CallSend sample_occurrence; CallFlush] sample_http (from_secs 0)
    ltac:(apply http_new_inv; lia)) as H.
  eexists. split; [vm_compute; reflexivity|]. exact (proj1 H).
Defined.

Lemma http_send_respects_backoff_witness :
  fst (fst (http_send (fun _ => EmptyString) (fun _ => Ok "[]") sample_occurrence
    (with_backoff (from_secs 9) (from_secs 4) sample_http) (from_secs 2))) = Ok tt.
Proof.
  rewrite http_send_respects_backoff; [reflexivity|]. vm_compute. reflexivity.
Defined.
