(* ===== verification/ControllerSink.v ===== *)
(** [tapio-agent/src/sink/controller.rs]: conversion of occurrences to wire
    events, the bounded queue, and the worker that batches, splits, numbers,
    sends and retries.  Serialization (serde_json) is an argument; sleeping is
    an action on the outside world. *)
From Stdlib Require Import String.
From S2P Require Import Prelude RustStr BTree Json Occurrence Timestamps Wire Metrics Httpc.
From S2P Require Import Sink Poll.

Local Open Scope Z_scope.

Definition DEFAULT_QUEUE_CAPACITY : Z := 4096.
Definition DEFAULT_MAX_REQUEST_BYTES : Z := 256 * 1024.
Definition MAX_EVENTS_RESPONSE_BYTES : Z := 16 * 1024.
Definition FLUSH_DEADLINE : Z := from_secs 2.
Definition INITIAL_RETRY_BACKOFF : Z := from_millis 100.
Definition MAX_RETRY_BACKOFF : Z := from_secs 2.
Definition MAX_RETRIES : nat := 3.

(** * Conversion *)

Definition observer_from_type (event_type : string) : result string SinkError :=
  match split "." event_type with
  | [first; observer; _] =>
      if String.eqb first "kernel" && negb (str_empty observer) then Ok observer
      else Err (Serialization ("invalid kernel event type: " +:+ event_type))
  | _ => Err (Serialization ("invalid kernel event type: " +:+ event_type))
  end.

Definition map_severity (s : Severity) : EventSeverity :=
  match s with
  | Debug => EvDebug
  | Info => EvInfo
  | Warning => EvWarning
  | Error => EvError
  | Critical => EvCritical
  end.

Definition occurrence_to_wire_event (o : Occurrence) : result WireEvent SinkError :=
  observer <-? observer_from_type (oc_occurrence_type o) ;;
  Ok {| we_event_type := oc_occurrence_type o;
        we_timestamp_unix_nanos := timestamp_to_unix_nanos (oc_timestamp o);
        we_observer := observer;
        we_severity := map_severity (oc_severity o);
        we_facts := default (JObject []) (oc_data o) |}.

Definition events_url (c : ControllerConfig) : string :=
  trim_end_matches "/" (ctl_endpoint c) +:+ "/v1/events".

(** * The queue between the sink and its worker *)

(** A flush request carries the channel its answer goes to. *)
Inductive WorkerMessage :=
| MsgEvent (e : WireEvent)
| MsgFlush (ack : Z).

Record Queue := {
  q_capacity : Z;
  q_messages : list WorkerMessage;
  q_connected : bool;
}.

Inductive try_send_outcome := Sent | Full | Disconnected.

Definition try_send (msg : WorkerMessage) (q : Queue) : try_send_outcome * Queue :=
  if negb (q_connected q) then (Disconnected, q)
  else if q_capacity q <=? zlen (q_messages q) then (Full, q)
  else (Sent, {| q_capacity := q_capacity q; q_messages := q_messages q ++ [msg];
                 q_connected := q_connected q |}).

Definition try_enqueue_controller_event (event : WireEvent) (q : Queue) (m : TapioMetrics) :
  Queue * TapioMetrics :=
  match try_send (MsgEvent event) q with
  | (Sent, q) => (q, m)
  | (Full, q) => (q, bump MSinkDrops ["controller"; "queue_full"] 1 m)
  | (Disconnected, q) => (q, bump MSinkDrops ["controller"; "worker_stopped"] 1 m)
  end.

(** [tx]: None once the sink is being dropped. *)
Definition controller_send (o : Occurrence) (tx : option Queue) (m : TapioMetrics) :
  result unit SinkError * option Queue * TapioMetrics :=
  match occurrence_to_wire_event o with
  | Err e => (Err e, tx, m)
  | Ok event =>
      match tx with
      | Some q =>
          let '(q, m) := try_enqueue_controller_event event q m in (Ok tt, Some q, m)
      | None => (Ok tt, None, bump MSinkDrops ["controller"; "worker_stopped"] 1 m)
      end
  end.

(** Sending counts drops only. *)
Lemma controller_send_frame (o : Occurrence) (tx : option Queue) (m : TapioMetrics) (k : metric) :
  k <> MSinkDrops -> get_metric k (snd (controller_send o tx m)) = get_metric k m.
Proof.
  intros Hk. unfold controller_send, try_enqueue_controller_event. destruct (occurrence_to_wire_event o); [|done].
  destruct tx as [q|]; [destruct (try_send _ q) as [[] q']; [done|..]|]; apply bump_get; by intros <-.
Qed.

(** [flush]: the attempts to enqueue the request, each with the time since the
    first, then the wait for the answer: None when it does not come in time. *)
Fixpoint flush_enqueue (attempts : list (try_send_outcome * Z)) : result unit SinkError :=
  match attempts with
  | [] => Err (Send "controller sink flush deadline")
  | (Sent, _) :: _ => Ok tt
  | (Full, elapsed) :: rest =>
      if elapsed <? FLUSH_DEADLINE then flush_enqueue rest
      else Err (Send "controller sink flush deadline")
  | (Disconnected, _) :: _ => Err (Send "controller sink worker stopped")
  end.

Definition controller_flush (open : bool) (attempts : list (try_send_outcome * Z))
    (answer : option (result unit string)) (timeout_text : string) : result unit SinkError :=
  if negb open then Err (Send "controller sink worker stopped")
  else
    flush_enqueue attempts ;;?
    match answer with
    | Some (Ok _) => Ok tt
    | Some (Err error) => Err (Send error)
    | None => Err (Send ("controller sink flush: " +:+ timeout_text))
    end.

Section Worker.
Variable utf8_error : string -> string.
Variable encode_batch : EventBatchRequest -> result string string.
Variable encode_event : WireEvent -> result string string.
Variable decode_batch_response : string -> result EventBatchResponse string.

(** * Splitting *)

(** [.map(|b| b.len()).unwrap_or(usize::MAX)] *)
Definition json_len (r : result string string) : Z :=
  match r with Ok s => slen s | Err _ => U64_MAX end.

Definition serialized_empty_batch_len : Z :=
  json_len (encode_batch {|
    eb_wire_version := WIRE_VERSION; eb_agent_id := "agent"; eb_node_name := "node";
    eb_sequence := 1; eb_sent_at_unix_nanos := 0; eb_events := [] |}).

Definition serialized_event_len (e : WireEvent) : Z := json_len (encode_event e).

Definition separator_len (current : list WireEvent) : Z := if is_empty current then 0 else 1.

Fixpoint split_loop (events : list WireEvent) (max_batch_events max_request_bytes empty_len : Z)
    (current : list WireEvent) (current_len : Z) : list (list WireEvent) :=
  match events with
  | [] => if is_empty current then [] else [current]
  | event :: rest =>
      let event_len := serialized_event_len event in
      let candidate_len := sat_add64 (sat_add64 current_len (separator_len current)) event_len in
      if negb (is_empty current)
         && ((max_batch_events <=? zlen current) || (max_request_bytes <? candidate_len)) then
        current ::
          split_loop rest max_batch_events max_request_bytes empty_len [event]
            (sat_add64 (sat_add64 empty_len 0) event_len)
      else
        split_loop rest max_batch_events max_request_bytes empty_len (current ++ [event])
          (sat_add64 (sat_add64 current_len (separator_len current)) event_len)
  end.

Definition split_events_by_size (events : list WireEvent) (max_batch_events max_request_bytes : Z) :
  list (list WireEvent) :=
  split_loop events max_batch_events max_request_bytes serialized_empty_batch_len []
    serialized_empty_batch_len.

(** * Sending *)

Record Worker := {
  wk_controller : ControllerConfig;
  wk_metrics : TapioMetrics;
  wk_sequence : Z;
  wk_max_request_bytes : Z;
  wk_buffer : list WireEvent;
}.

Definition with_worker (metrics : TapioMetrics) (sequence : Z) (buffer : list WireEvent) (k : Worker) :
  Worker := {|
  wk_controller := wk_controller k; wk_metrics := metrics; wk_sequence := sequence;
  wk_max_request_bytes := wk_max_request_bytes k; wk_buffer := buffer |}.

Definition drop_failed_batch (event_count : Z) (error : string) (m : TapioMetrics) :
  result unit string * TapioMetrics :=
  (Err error,
   bump MSinkDrops ["controller"; "send_failed"] event_count
     (bump MSendFailures ["events"] 1 m)).

Context {W : Type} `{Net W}.
Variable sleep : Z -> W -> W.
(** [SystemTime::now()] *)
Variable wall_clock : W -> Z.

(** [max_retries] more attempts may follow this one. *)
Fixpoint send_attempts (retries : nat) (backoff : Z) (url body : string) (event_count : Z)
    (m : TapioMetrics) (w : W) : result unit string * TapioMetrics * W :=
  let '(r, w) := post_json_response utf8_error url body MAX_EVENTS_RESPONSE_BYTES w in
  let failed error w :=
    match retries with
    | O => (drop_failed_batch event_count error m, w)
    | S retries' =>
        send_attempts retries' (Z.min (backoff * 2) MAX_RETRY_BACKOFF) url body event_count m
          (sleep backoff w)
    end in
  match r with
  | Ok response =>
      if is_success (resp_status response) then
        ((resp <-? map_err (fun e => "decode EventBatchResponse: " +:+ e)
                     (decode_batch_response (resp_body response)) ;;
          map_err WireError_to_string (EventBatchResponse_validate resp) ;;?
          Ok tt), m, w)
      else failed ("HTTP " +:+ dec (resp_status response)) w
  | Err error => failed error w
  end.

Definition batch_request (k : Worker) (events : list WireEvent) (now : Z) : EventBatchRequest := {|
  eb_wire_version := WIRE_VERSION;
  eb_agent_id := ctl_agent_id (wk_controller k);
  eb_node_name := ctl_node_name (wk_controller k);
  eb_sequence := wk_sequence k;
  eb_sent_at_unix_nanos := now;
  eb_events := events;
|}.

Definition send_event_batch_with_retries (events : list WireEvent) (retry : bool) (k : Worker) (w : W) :
  result unit string * Worker * W :=
  let request := batch_request k events (unix_now (wall_clock w)) in
  let next := sat_add64 (wk_sequence k) 1 in
  let keep := with_worker (wk_metrics k) next (wk_buffer k) k in
  match EventBatchRequest_validate request U64_MAX with
  | Err error => (Err (WireError_to_string error), keep, w)
  | Ok _ =>
      match encode_batch request with
      | Err e => (Err ("encode EventBatchRequest: " +:+ e), keep, w)
      | Ok body =>
          let '(r, m, w) :=
            send_attempts (if retry then MAX_RETRIES else 0%nat) INITIAL_RETRY_BACKOFF
              (events_url (wk_controller k)) body (zlen events) (wk_metrics k) w in
          (r, with_worker m next (wk_buffer k) k, w)
      end
  end.

(** The batches one after another; the last error is the result. *)
Fixpoint send_batches (batches : list (list WireEvent)) (retry : bool) (last_error : option string)
    (k : Worker) (w : W) : option string * Worker * W :=
  match batches with
  | [] => (last_error, k, w)
  | batch :: rest =>
      let '(r, k, w) := send_event_batch_with_retries batch retry k w in
      send_batches rest retry (match r with Ok _ => last_error | Err e => Some e end) k w
  end.

(** [flush_buffer] with retries, [flush_buffer_once] without. *)
Definition flush_worker (retry : bool) (max_batch_events : Z) (k : Worker) (w : W) :
  result unit string * Worker * W :=
  if is_empty (wk_buffer k) then (Ok tt, k, w)
  else
    let batches := split_events_by_size (wk_buffer k) max_batch_events (wk_max_request_bytes k) in
    let '(last_error, k, w) :=
      send_batches batches retry None (with_worker (wk_metrics k) (wk_sequence k) [] k) w in
    (match last_error with Some e => Err e | None => Ok tt end, k, w).

Definition flush_buffer : Z -> Worker -> W -> result unit string * Worker * W := flush_worker true.
Definition flush_buffer_once : Z -> Worker -> W -> result unit string * Worker * W :=
  flush_worker false.

(** * The worker's loop *)

Inductive recv_outcome :=
| Received (msg : WorkerMessage)
| RecvTimeout
| RecvDisconnected.

(** One turn: the worker after it, the answer to a flush request, and whether
    the loop goes on. *)
Definition worker_turn (r : recv_outcome) (max_batch_events : Z) (k : Worker) (w : W) :
  option (Z * result unit string) * bool * Worker * W :=
  match r with
  | Received (MsgEvent event) =>
      let k := with_worker (wk_metrics k) (wk_sequence k) (wk_buffer k ++ [event]) k in
      if max_batch_events <=? zlen (wk_buffer k) then
        let '(_, k, w) := flush_buffer max_batch_events k w in (None, true, k, w)
      else (None, true, k, w)
  | Received (MsgFlush ack) =>
      let '(result, k, w) := flush_buffer max_batch_events k w in (Some (ack, result), true, k, w)
  | RecvTimeout => let '(_, k, w) := flush_buffer max_batch_events k w in (None, true, k, w)
  | RecvDisconnected => let '(_, k, w) := flush_buffer_once max_batch_events k w in (None, false, k, w)
  end.

(** * Lemmas *)

Lemma split_loop_concat (events : list WireEvent) (mb mr el : Z) (current : list WireEvent) (cl : Z) :
  concat (split_loop events mb mr el current cl) = current ++ events.
Proof.
  revert current cl. induction events as [|e events IH]; intros current cl; simpl.
  { destruct current; simpl; by rewrite ?app_nil_r. }
  destruct (negb (is_empty current) && _); simpl; rewrite IH; [done|]. by rewrite <- app_assoc.
Qed.

Lemma split_loop_nonempty (events : list WireEvent) (mb mr el : Z) (current : list WireEvent) (cl : Z) :
  Forall (fun b => b <> []) (split_loop events mb mr el current cl).
Proof.
  revert current cl. induction events as [|e events IH]; intros current cl; simpl.
  { destruct current; simpl; repeat constructor. done. }
  destruct current as [|c current]; simpl; [apply IH|].
  destruct (_ || _); [constructor; [done|]|]; apply IH.
Qed.

Lemma split_loop_count (events : list WireEvent) (mb mr el : Z) (current : list WireEvent) (cl : Z) :
  1 <= mb -> zlen current <= mb ->
  Forall (fun b => zlen b <= mb) (split_loop events mb mr el current cl).
Proof.
  intros Hmb. revert current cl. induction events as [|e events IH]; intros current cl Hc; simpl.
  { destruct current; simpl; repeat constructor. done. }
  destruct (negb (is_empty current) && _) eqn:E.
  - constructor; [done|]. apply IH. rewrite zlen_cons, zlen_nil. lia.
  - apply IH. rewrite zlen_app, zlen_cons, zlen_nil.
    apply andb_false_iff in E as [E|E].
    + destruct current; [rewrite zlen_nil; lia|done].
    + apply orb_false_iff in E as [E _]. lia.
Qed.

(** The size the splitter reckons for a batch. *)
Fixpoint events_len (first : bool) (events : list WireEvent) : Z :=
  match events with
  | [] => 0
  | e :: rest => (if first then 0 else 1) + serialized_event_len e + events_len false rest
  end.
Definition reckoned_len (batch : list WireEvent) : Z := serialized_empty_batch_len + events_len true batch.

Lemma events_len_app (l : list WireEvent) (e : WireEvent) (b : bool) :
  events_len b (l ++ [e]) =
  events_len b l + (if is_empty l && b then 0 else 1) + serialized_event_len e.
Proof.
  revert b. induction l as [|x l IH]; intros b; simpl; [destruct b; lia|].
  rewrite IH, andb_false_r. lia.
Qed.

Lemma json_len_nonneg (r : result string string) : 0 <= json_len r.
Proof. destruct r; simpl; [apply slen_nonneg|width_lia]. Qed.

Lemma events_len_nonneg (l : list WireEvent) (b : bool) : 0 <= events_len b l.
Proof.
  revert b. induction l as [|e l IH]; intros b; simpl; [lia|].
  specialize (IH false). pose proof (json_len_nonneg (encode_event e)).
  unfold serialized_event_len. destruct b; lia.
Qed.

Lemma reckoned_step (current : list WireEvent) (e : WireEvent) :
  sat_add64 (sat_add64 (Z.min (reckoned_len current) U64_MAX) (separator_len current))
    (serialized_event_len e)
  = Z.min (reckoned_len (current ++ [e])) U64_MAX.
Proof.
  unfold reckoned_len. rewrite events_len_app, andb_true_r.
  pose proof (json_len_nonneg (encode_event e)) as Hev. fold (serialized_event_len e) in Hev.
  pose proof (events_len_nonneg current true). pose proof (json_len_nonneg (encode_batch {|
    eb_wire_version := WIRE_VERSION; eb_agent_id := "agent"; eb_node_name := "node";
    eb_sequence := 1; eb_sent_at_unix_nanos := 0; eb_events := [] |})) as He.
  fold serialized_empty_batch_len in He. unfold separator_len. destruct (is_empty current); width_lia.
Qed.

Lemma split_loop_bytes (events : list WireEvent) (mb mr : Z) (current : list WireEvent) :
  mr < U64_MAX ->
  zlen current <= 1 \/ reckoned_len current <= mr ->
  Forall (fun b => zlen b <= 1 \/ reckoned_len b <= mr)
    (split_loop events mb mr serialized_empty_batch_len current (Z.min (reckoned_len current) U64_MAX)).
Proof.
  intros Hmr. revert current. induction events as [|e events IH]; intros current Hc; simpl.
  { destruct (is_empty current); constructor; [done|constructor]. }
  destruct (negb (is_empty current) && _) eqn:E.
  - constructor; [done|].
    assert (He : sat_add64 (sat_add64 serialized_empty_batch_len 0) (serialized_event_len e)
                 = Z.min (reckoned_len [e]) U64_MAX).
    { unfold reckoned_len. simpl. pose proof (json_len_nonneg (encode_event e)) as Hev.
      fold (serialized_event_len e) in Hev. width_lia. }
    rewrite He. apply IH. left. rewrite zlen_cons, zlen_nil. lia.
  - rewrite reckoned_step. apply IH. apply andb_false_iff in E as [E|E].
    + left. destruct current; [|done]. simpl. rewrite zlen_cons, zlen_nil. lia.
    + right. apply orb_false_iff in E as [_ E]. rewrite reckoned_step in E. lia.
Qed.

Lemma send_keeps (events : list WireEvent) (retry : bool) (k : Worker) (w : W) :
  let k' := snd (fst (send_event_batch_with_retries events retry k w)) in
  wk_buffer k' = wk_buffer k /\ wk_sequence k' = sat_add64 (wk_sequence k) 1.
Proof.
  unfold send_event_batch_with_retries. destruct (EventBatchRequest_validate _ _); [|done].
  destruct (encode_batch _); [|done].
  by destruct (send_attempts _ _ _ _ _ _ _) as [[r m] w'].
Qed.

Lemma send_batches_keeps (batches : list (list WireEvent)) (retry : bool) (d : option string)
    (k : Worker) (w : W) :
  let k' := snd (fst (send_batches batches retry d k w)) in
  wk_buffer k' = wk_buffer k /\
  (wk_sequence k <= U64_MAX ->
   wk_sequence k' = Z.min (wk_sequence k + zlen batches) U64_MAX).
Proof.
  revert d k w. induction batches as [|b batches IH]; intros d k w; simpl.
  { rewrite zlen_nil. split; [done|]. lia. }
  pose proof (send_keeps b retry k w) as Hk.
  destruct (send_event_batch_with_retries b retry k w) as [[r k1] w1]. simpl in Hk.
  destruct Hk as [Hb Hs].
  destruct (IH (match r with Ok _ => d | Err e => Some e end) k1 w1) as [Hb' Hs'].
  split; [congruence|]. intros Hle. rewrite Hs'; rewrite Hs, ?zlen_cons; [|width_lia].
  pose proof (zlen_nonneg batches). width_lia.
Qed.

(** One exchange of a batch. *)
Definition exchange (url body : string) (w : W) : W :=
  snd (post_json_response utf8_error url body MAX_EVENTS_RESPONSE_BYTES w).

(** An answer the worker retries: no response, or a status outside 2xx. *)
Definition retryable (url body : string) (w : W) : Prop :=
  match fst (post_json_response utf8_error url body MAX_EVENTS_RESPONSE_BYTES w) with
  | Ok response => is_success (resp_status response) = false
  | Err _ => True
  end.

Lemma send_attempts_retry (n : nat) (backoff : Z) (url body : string) (count : Z) (m : TapioMetrics)
    (w : W) :
  retryable url body w ->
  send_attempts (S n) backoff url body count m w =
  send_attempts n (Z.min (backoff * 2) MAX_RETRY_BACKOFF) url body count m
    (sleep backoff (exchange url body w)).
Proof.
  unfold retryable, exchange. intros Hr. cbn [send_attempts].
  destruct (post_json_response utf8_error url body MAX_EVENTS_RESPONSE_BYTES w) as [[r|e] w'];
    cbn [fst snd] in *; [by rewrite Hr|done].
Qed.

Lemma send_attempts_last (backoff : Z) (url body : string) (count : Z) (m : TapioMetrics) (w : W) :
  retryable url body w ->
  exists e, send_attempts 0 backoff url body count m w =
    (drop_failed_batch count e m, exchange url body w).
Proof.
  unfold retryable, exchange. intros Hr. cbn [send_attempts].
  destruct (post_json_response utf8_error url body MAX_EVENTS_RESPONSE_BYTES w) as [[r|e] w'];
    cbn [fst snd] in *; [rewrite Hr|]; by eexists.
Qed.

(** * Properties *)

(** C35. Splitting a buffer loses, repeats and reorders nothing: the batches are
    non-empty, concatenate to the buffer, hold at most [max_batch_events]
    events each, and a batch of more than one event is reckoned to fit the
    request limit. *)
Theorem split_events_spec (events : list WireEvent) (max_batch_events max_request_bytes : Z)
    (Hmax : 1 <= max_batch_events) (Hbytes : max_request_bytes < U64_MAX)
    (Hempty : serialized_empty_batch_len <= U64_MAX) :
  let batches := split_events_by_size events max_batch_events max_request_bytes in
  concat batches = events /\
  Forall (fun b => b <> [] /\ zlen b <= max_batch_events /\
                   (zlen b <= 1 \/ reckoned_len b <= max_request_bytes)) batches.
Proof.
  unfold split_events_by_size. split; [by rewrite split_loop_concat|].
  rewrite !Forall_and. split; [apply split_loop_nonempty|].
  split; [apply split_loop_count; [done|rewrite zlen_nil; lia]|].
  assert (He : serialized_empty_batch_len = Z.min (reckoned_len []) U64_MAX).
  { unfold reckoned_len. simpl. lia. }
  rewrite He at 2. apply split_loop_bytes; [done|]. rewrite zlen_nil. lia.
Qed.

(** A flush empties the buffer whatever happens to the requests, and numbers
    its batches consecutively: the sequence advances by the number of batches,
    whether or not they arrive. *)
Lemma flush_consumes_buffer (retry : bool) (max_batch_events : Z) (k : Worker) (w : W)
    (Hseq : wk_sequence k <= U64_MAX) :
  let k' := snd (fst (flush_worker retry max_batch_events k w)) in
  wk_buffer k' = [] /\
  wk_sequence k' =
    Z.min (wk_sequence k
           + zlen (split_events_by_size (wk_buffer k) max_batch_events (wk_max_request_bytes k)))
      U64_MAX.
Proof.
  unfold flush_worker. destruct (wk_buffer k) as [|e es] eqn:Eb; cbn [is_empty].
  { simpl. rewrite Eb. split; [done|]. unfold split_events_by_size. simpl. rewrite zlen_nil. lia. }
  pose proof (send_batches_keeps
    (split_events_by_size (e :: es) max_batch_events (wk_max_request_bytes k)) retry None
    (with_worker (wk_metrics k) (wk_sequence k) [] k) w) as Hs.
  destruct (send_batches _ _ _ _ _) as [[d k'] w']. simpl in *. destruct Hs as [Hb Hs]. auto.
Qed.

(** A batch the controller never acknowledges is tried four times, with
    pauses of 100, 200 and 400 milliseconds, then dropped: all its events are
    counted as sink drops and one send failure is counted. *)
Lemma unacknowledged_batch_is_counted (events : list WireEvent) (k : Worker) (w : W) (body : string)
    (Hvalid : EventBatchRequest_validate (batch_request k events (unix_now (wall_clock w))) U64_MAX = Ok tt)
    (Hbody : encode_batch (batch_request k events (unix_now (wall_clock w))) = Ok body)
    (Hdown : forall w', retryable (events_url (wk_controller k)) body w') :
  let x := exchange (events_url (wk_controller k)) body in
  exists e, send_event_batch_with_retries events true k w =
    (Err e,
     with_worker
       (bump MSinkDrops ["controller"; "send_failed"] (zlen events)
          (bump MSendFailures ["events"] 1 (wk_metrics k)))
       (sat_add64 (wk_sequence k) 1) (wk_buffer k) k,
     x (sleep (from_millis 400) (x (sleep (from_millis 200) (x (sleep (from_millis 100) (x w))))))).
Proof.
  unfold send_event_batch_with_retries. rewrite Hvalid, Hbody. unfold MAX_RETRIES.
  rewrite !send_attempts_retry by apply Hdown.
  edestruct send_attempts_last as [e ->]; [apply Hdown|]. exists e. reflexivity.
Qed.

(** A batch that the controller answers with a body the agent cannot decode is
    lost to the counters: the flush reports an error, but neither the drop
    nor the failure counter moves. *)
Lemma undecodable_answer_not_counted (events : list WireEvent) (retry : bool) (k : Worker) (w : W)
    (body e : string) (response : HttpResponse)
    (Hvalid : EventBatchRequest_validate (batch_request k events (unix_now (wall_clock w))) U64_MAX = Ok tt)
    (Hbody : encode_batch (batch_request k events (unix_now (wall_clock w))) = Ok body)
    (Hresp : fst (post_json_response utf8_error (events_url (wk_controller k)) body
                    MAX_EVENTS_RESPONSE_BYTES w) = Ok response)
    (Hok : is_success (resp_status response) = true)
    (Hdecode : decode_batch_response (resp_body response) = Err e) :
  let '(r, k', _) := send_event_batch_with_retries events retry k w in
  r = Err ("decode EventBatchResponse: " +:+ e) /\ wk_metrics k' = wk_metrics k.
Proof.
  unfold send_event_batch_with_retries. rewrite Hvalid, Hbody.
  destruct retry; unfold MAX_RETRIES; cbn [send_attempts];
    destruct (post_json_response _ _ _ _ w) as [r w']; cbn [fst] in Hresp; subst r;
    rewrite Hok, Hdecode; done.
Qed.
End Worker.

(** * Witnesses *)

Definition sample_event : WireEvent := {|
  we_event_type := "kernel.network.rtt_degradation"; we_timestamp_unix_nanos := 5;
  we_observer := "network"; we_severity := EvWarning; we_facts := JObject [("pid", JInt 1)] |}.

(** Sizes only: a batch of ten bytes, an event of a hundred. *)
Definition sized_batch (r : EventBatchRequest) : result string string := Ok (zeros 10).
Definition sized_event (e : WireEvent) : result string string := Ok (zeros 100).

Definition sample_worker : Worker := {|
  wk_controller := sample_controller; wk_metrics := TapioMetrics_new; wk_sequence := 1;
  wk_max_request_bytes := 250; wk_buffer := replicate 5 sample_event |}.

Lemma split_events_spec_witness :
  map zlen (split_events_by_size sized_batch sized_event (replicate 5 sample_event) 3 250) = [2; 2; 1] /\
  concat (split_events_by_size sized_batch sized_event (replicate 5 sample_event) 3 250)
    = replicate 5 sample_event.
Proof.
  split; [reflexivity|].
  apply (split_events_spec sized_batch sized_event (replicate 5 sample_event) 3 250);
    vm_compute; congruence.
Defined.

Definition advance (d t : Z) : Z := t + d.

Lemma flush_consumes_buffer_witness :
  wk_sequence (snd (fst (flush_worker (fun _ => EmptyString) sized_batch sized_event
    (fun _ => Err "no") advance (fun t : Z => t) true 3 sample_worker 0))) = 4.
Proof.
  refine (proj2 (flush_consumes_buffer (fun _ => EmptyString) sized_batch sized_event
    (fun _ => Err "no") advance (fun t : Z => t) true 3 sample_worker 0 _)).
  vm_compute. congruence.
Defined.

Lemma unacknowledged_batch_is_counted_witness :
  exists e, fst (fst (send_event_batch_with_retries (fun _ => EmptyString) sized_batch
    (fun _ => Err "no") advance (fun t : Z => t) [sample_event] true sample_worker 0)) = Err e /\
  snd (send_event_batch_with_retries (fun _ => EmptyString) sized_batch
    (fun _ => Err "no") advance (fun t : Z => t) [sample_event] true sample_worker 0) = from_millis 700.
Proof.
  destruct (unacknowledged_batch_is_counted (fun _ => EmptyString) sized_batch
    (fun _ => Err "no") advance (fun t : Z => t) [sample_event] sample_worker 0 (zeros 10))
    as [e He]; [reflexivity|reflexivity|intros w; exact I|].
  exists e. rewrite He. split; reflexivity.
Defined.

(** A controller that answers 200 with a body that is not JSON. *)
#[local] Instance garbled_net : Net bool := {
  net_exchange := fun _ _ _ w => (Connected [ReadData ("HTTP/1.1 200 OK" +:+ http_crlf +:+ http_crlf +:+ "?")], w);
}.

Lemma undecodable_answer_not_counted_witness :
  let '(r, k', _) := send_event_batch_with_retries (fun _ => EmptyString) sized_batch
    (fun _ => Err "no") (fun _ w => w) (fun _ : bool => 0) [sample_event] true sample_worker false in
  r = Err "decode EventBatchResponse: no" /\ wk_metrics k' = wk_metrics sample_worker.
Proof.
  refine (undecodable_answer_not_counted (fun _ => EmptyString) sized_batch
    (fun _ => Err "no") (fun _ w => w) (fun _ : bool => 0) [sample_event] true sample_worker false
    (zeros 10) "no" {| resp_status := 200; resp_body := "?" |} _ _ _ _ _); vm_compute; reflexivity.
Defined.
