(* ===== verification/Delivery.v ===== *)
(** [tapio-agent/src/sink/controller.rs], the sink and its worker thread
    together: the sink's calls and the worker's turns share the bounded queue
    and the counters, and come in any order.  A turn is one action: while it
    sends, the calls of the sink touch only the queue's end and counters, so
    they are as well placed after it. *)
From Stdlib Require Import String.
From S2P Require Import Prelude RustStr BTree Json Occurrence Wire Metrics Httpc Sink Poll.
From S2P Require Import ControllerSink.
Local Open Scope Z_scope.

(** The sink, with [tx] open until it is dropped, and the worker, whose end of
    the queue is alive while it runs.  The counters are the worker's. *)
Record SinkSystem (W : Type) := {
  sy_queue : Queue;
  sy_open : bool;
  sy_running : bool;
  sy_worker : Worker;
  sy_world : W;
}.
Arguments sy_queue {W} _.
Arguments sy_open {W} _.
Arguments sy_running {W} _.
Arguments sy_worker {W} _.
Arguments sy_world {W} _.

(** What can happen next: a call of [send], one attempt of [flush] to enqueue
    its request, [drop], or a turn of the worker on the queue's first message,
    on its timeout or on the closed queue, with the batching it read. *)
Inductive sink_action :=
| ActSend (o : Occurrence)
| ActFlush (ack : Z)
| ActDrop
| ActReceive (max_batch_events : Z)
| ActTimeout (max_batch_events : Z)
| ActDisconnect (max_batch_events : Z).

(** What becomes of a batch. *)
Inductive send_outcome := Acknowledged | Dropped | Unaccounted.

#[export] Instance send_outcome_eq_dec : EqDecision send_outcome.
Proof. solve_decision. Defined.

Section Delivery.
Variable utf8_error : string -> string.
Variable encode_batch : EventBatchRequest -> result string string.
Variable encode_event : WireEvent -> result string string.
Variable decode_batch_response : string -> result EventBatchResponse string.
Context {W : Type} `{Net W}.
Variable sleep : Z -> W -> W.
Variable wall_clock : W -> Z.

Notation send_batch :=
  (send_event_batch_with_retries utf8_error encode_batch decode_batch_response sleep wall_clock).
Notation turn :=
  (worker_turn utf8_error encode_batch encode_event decode_batch_response sleep wall_clock).
Notation flush retry :=
  (flush_worker utf8_error encode_batch encode_event decode_batch_response sleep wall_clock retry).
Notation send_all :=
  (send_batches utf8_error encode_batch decode_batch_response sleep wall_clock).

(** * The sink and its worker *)

Definition ControllerSink_with_limits (c : ControllerConfig) (metrics : TapioMetrics)
    (queue_capacity max_request_bytes : Z) (w : W) : SinkSystem W := {|
  sy_queue := {| q_capacity := queue_capacity; q_messages := []; q_connected := true |};
  sy_open := true;
  sy_running := true;
  sy_worker := {| wk_controller := c; wk_metrics := metrics; wk_sequence := 1;
                  wk_max_request_bytes := max_request_bytes; wk_buffer := [] |};
  sy_world := w |}.

Definition ControllerSink_new (c : ControllerConfig) (metrics : TapioMetrics) (w : W) : SinkSystem W :=
  ControllerSink_with_limits c metrics DEFAULT_QUEUE_CAPACITY DEFAULT_MAX_REQUEST_BYTES w.

(** A turn of the worker; it stops when the queue is closed and empty. *)
Definition worker_act (r : recv_outcome) (max_batch_events : Z) (q : Queue) (s : SinkSystem W) :
  SinkSystem W :=
  let '(_, goes_on, k, w) := turn r max_batch_events (sy_worker s) (sy_world s) in
  {| sy_queue := {| q_capacity := q_capacity q; q_messages := q_messages q; q_connected := goes_on |};
     sy_open := sy_open s; sy_running := goes_on; sy_worker := k; sy_world := w |}.

(** None: the action cannot happen now. *)
Definition sink_act (s : SinkSystem W) (a : sink_action) : option (SinkSystem W) :=
  let q := sy_queue s in
  match a with
  | ActSend o =>
      let '(_, tx, m) :=
        controller_send o (if sy_open s then Some q else None) (wk_metrics (sy_worker s)) in
      Some {| sy_queue := default q tx; sy_open := sy_open s; sy_running := sy_running s;
              sy_worker := with_worker m (wk_sequence (sy_worker s)) (wk_buffer (sy_worker s)) (sy_worker s);
              sy_world := sy_world s |}
  | ActFlush ack =>
      Some {| sy_queue := if sy_open s then snd (try_send (MsgFlush ack) q) else q;
              sy_open := sy_open s; sy_running := sy_running s;
              sy_worker := sy_worker s; sy_world := sy_world s |}
  | ActDrop =>
      Some {| sy_queue := q; sy_open := false; sy_running := sy_running s;
              sy_worker := sy_worker s; sy_world := sy_world s |}
  | ActReceive max_batch_events =>
      if sy_running s then
        match q_messages q with
        | msg :: rest =>
            Some (worker_act (Received msg) max_batch_events
                    {| q_capacity := q_capacity q; q_messages := rest; q_connected := q_connected q |} s)
        | [] => None
        end
      else None
  | ActTimeout max_batch_events =>
      (* an empty queue that is closed disconnects, whatever the time left *)
      if sy_running s && is_empty (q_messages q) && sy_open s then
        Some (worker_act RecvTimeout max_batch_events q s)
      else None
  | ActDisconnect max_batch_events =>
      if sy_running s && is_empty (q_messages q) && negb (sy_open s) then
        Some (worker_act RecvDisconnected max_batch_events q s)
      else None
  end.

Fixpoint sink_run (s : SinkSystem W) (acts : list sink_action) : option (SinkSystem W) :=
  match acts with
  | [] => Some s
  | a :: rest =>
      match sink_act s a with
      | Some s' => sink_run s' rest
      | None => None
      end
  end.

(** * Accounts *)

(** The event an action offers to the queue, and how the queue takes it. *)
Definition offer (s : SinkSystem W) (a : sink_action) : list (WireEvent * try_send_outcome) :=
  match a with
  | ActSend o =>
      match occurrence_to_wire_event o with
      | Ok e => [(e, if sy_open s then fst (try_send (MsgEvent e) (sy_queue s)) else Disconnected)]
      | Err _ => []
      end
  | _ => []
  end.

Fixpoint offers (s : SinkSystem W) (acts : list sink_action) : list (WireEvent * try_send_outcome) :=
  match acts with
  | [] => []
  | a :: rest =>
      offer s a ++ match sink_act s a with Some s' => offers s' rest | None => [] end
  end.

Definition is_sent (x : try_send_outcome) : bool := match x with Sent => true | _ => false end.
Definition is_full (x : try_send_outcome) : bool := match x with Full => true | _ => false end.
Definition is_disconnected (x : try_send_outcome) : bool :=
  match x with Disconnected => true | _ => false end.

Definition offered_as (p : try_send_outcome -> bool) (l : list (WireEvent * try_send_outcome)) :
  list WireEvent := map fst (List.filter (fun x => p (snd x)) l).

(** The events still on their way. *)
Definition message_event (msg : WorkerMessage) : list WireEvent :=
  match msg with MsgEvent e => [e] | MsgFlush _ => [] end.
Definition on_the_way (s : SinkSystem W) : list WireEvent :=
  wk_buffer (sy_worker s) ++ concat (map message_event (q_messages (sy_queue s))).

(** Why a batch can fail without being counted: it is not a valid request, it
    has no encoding, or an answer 2xx is not a valid batch response. *)
Definition misanswered (url body : string) : Prop :=
  exists w response,
    fst (post_json_response utf8_error url body MAX_EVENTS_RESPONSE_BYTES w) = Ok response /\
    is_success (resp_status response) = true /\
    forall resp, decode_batch_response (resp_body response) = Ok resp ->
      EventBatchResponse_validate resp <> Ok tt.

Definition unaccountable (url : string) (request : EventBatchRequest) : Prop :=
  EventBatchRequest_validate request U64_MAX <> Ok tt \/
  (exists e, encode_batch request = Err e) \/
  (exists body, encode_batch request = Ok body /\ misanswered url body).

Definition counted_drop (count : Z) (m : TapioMetrics) : TapioMetrics :=
  bump MSinkDrops ["controller"; "send_failed"] count (bump MSendFailures ["events"] 1 m).

(** What sending a batch from a worker comes to. *)
Definition outcome_ok (o : send_outcome) (batch : list WireEvent) (retry : bool) (k : Worker) (w : W) :
  Prop :=
  let '(r, k', _) := send_batch batch retry k w in
  match o with
  | Acknowledged => r = Ok tt /\ wk_metrics k' = wk_metrics k
  | Dropped => (exists e, r = Err e) /\ wk_metrics k' = counted_drop (zlen batch) (wk_metrics k)
  | Unaccounted =>
      (exists e, r = Err e) /\ wk_metrics k' = wk_metrics k /\
      unaccountable (events_url (wk_controller k)) (batch_request k batch (unix_now (wall_clock w)))
  end.

(** The batch numbered [n] of the agent [c], sent in the world [w], came to [o]
    and left the world [w']. *)
Definition entry_ok (c : ControllerConfig) (n : Z) (w : W) (batch : list WireEvent) (o : send_outcome)
    (w' : W) : Prop :=
  batch <> [] /\
  exists retry k, wk_controller k = c /\ wk_sequence k = n /\ outcome_ok o batch retry k w /\
    snd (send_batch batch retry k w) = w'.

(** A log of batches numbered from [n] up to the next number, each sent in the
    world the one before it left. *)
Inductive sent_log (c : ControllerConfig) :
  Z -> W -> list (list WireEvent * send_outcome) -> Z -> W -> Prop :=
| log_nil n w : sent_log c n w [] n w
| log_cons n w batch o w1 log n' w' :
    entry_ok c n w batch o w1 -> sent_log c (sat_add64 n 1) w1 log n' w' ->
    sent_log c n w ((batch, o) :: log) n' w'.

(** The batch size an action reads, and the batches a limit bounds. *)
Definition batch_limit (a : sink_action) : list Z :=
  match a with ActReceive mb | ActTimeout mb | ActDisconnect mb => [mb] | _ => [] end.

(** The run, action by action, with the batches each sent: they were sent from the
    state it met, and none is larger than the batch size the action read (a size
    of at least one; [set_batching] stores no smaller one). *)
Inductive flushed (c : ControllerConfig) : SinkSystem W -> list sink_action ->
  list (list (list WireEvent * send_outcome)) -> SinkSystem W -> Prop :=
| flushed_nil s : flushed c s [] [] s
| flushed_cons s a s1 log acts logs s' :
    sink_act s a = Some s1 ->
    sent_log c (wk_sequence (sy_worker s)) (sy_world s) log (wk_sequence (sy_worker s1)) (sy_world s1) ->
    (forall mb, In mb (batch_limit a) -> 1 <= mb -> Forall (fun x => zlen (fst x) <= mb) log) ->
    (batch_limit a = [] -> log = []) ->
    flushed c s1 acts logs s' -> flushed c s (a :: acts) (log :: logs) s'.

Definition within (lims : list Z) (log : list (list WireEvent * send_outcome)) : Prop :=
  forall limit, Forall (fun mb => 1 <= mb <= limit) lims -> Forall (fun x => zlen (fst x) <= limit) log.

Definition logged (log : list (list WireEvent * send_outcome)) : list WireEvent :=
  concat (map fst log).
Definition dropped (log : list (list WireEvent * send_outcome)) :
  list (list WireEvent * send_outcome) :=
  List.filter (fun x => bool_decide (snd x = Dropped)) log.

(** What drops add up to, and the counters a sink leaves alone. *)
Definition drops (refused : list (WireEvent * try_send_outcome))
    (log : list (list WireEvent * send_outcome)) : Z :=
  zlen (logged (dropped log)) + zlen (offered_as is_full refused) + zlen (offered_as is_disconnected refused).

Definition sink_metric (k : metric) : bool := match k with MSinkDrops | MSendFailures => true | _ => false end.

(** The four counters a sink moves, between two states: what the log's dropped
    batches add, and the offers the queue refused. *)
Definition accounts (refused : list (WireEvent * try_send_outcome))
    (log : list (list WireEvent * send_outcome)) (m m' : TapioMetrics) : Prop :=
  grew MSinkDrops ["controller"; "send_failed"] (zlen (logged (dropped log))) m m' /\
  grew MSendFailures ["events"] (zlen (dropped log)) m m' /\
  grew MSinkDrops ["controller"; "queue_full"] (zlen (offered_as is_full refused)) m m' /\
  grew MSinkDrops ["controller"; "worker_stopped"] (zlen (offered_as is_disconnected refused)) m m' /\
  total_grew MSinkDrops (drops refused log) m m' /\
  (forall k, sink_metric k = false -> get_metric k m' = get_metric k m).

(** * Lemmas *)

Lemma offered_as_app (p : try_send_outcome -> bool) (l l' : list (WireEvent * try_send_outcome)) :
  offered_as p (l ++ l') = offered_as p l ++ offered_as p l'.
Proof. unfold offered_as. by rewrite List.filter_app, map_app. Qed.

Lemma logged_app (l l' : list (list WireEvent * send_outcome)) : logged (l ++ l') = logged l ++ logged l'.
Proof. unfold logged. by rewrite map_app, concat_app. Qed.

Lemma dropped_app (l l' : list (list WireEvent * send_outcome)) : dropped (l ++ l') = dropped l ++ dropped l'.
Proof. apply List.filter_app. Qed.

Lemma accounts_nil (m : TapioMetrics) : accounts [] [] m m.
Proof. repeat split; try by apply grew_0. by apply total_0. Qed.

Lemma accounts_trans (r r' : list (WireEvent * try_send_outcome))
    (l l' : list (list WireEvent * send_outcome)) (m m' m'' : TapioMetrics) :
  accounts r l m m' -> accounts r' l' m' m'' -> accounts (r ++ r') (l ++ l') m m''.
Proof.
  unfold accounts. rewrite dropped_app, logged_app, !offered_as_app, !zlen_app.
  intros (A1 & A2 & A3 & A4 & A5 & A6) (B1 & B2 & B3 & B4 & B5 & B6).
  repeat split; try (by eapply grew_trans).
  - replace (drops (r ++ r') (l ++ l')) with (drops r l + drops r' l'); [by eapply total_trans|].
    unfold drops. rewrite dropped_app, logged_app, !offered_as_app, !zlen_app. lia.
  - intros k Hk. by rewrite B6, A6.
Qed.

Lemma accounts_drop (batch : list WireEvent) (m : TapioMetrics) :
  accounts [] [(batch, Dropped)] m (counted_drop (zlen batch) m).
Proof.
  assert (Ht : drops [] [(batch, Dropped)] = 0 + zlen batch)
    by (unfold drops, logged, offered_as; simpl; rewrite app_nil_r, zlen_nil; lia).
  unfold accounts. rewrite Ht. unfold counted_drop, grew, logged. simpl. rewrite app_nil_r.
  rewrite !bump_value. simpl. rewrite !wrap64_idem, !Z.add_0_r. repeat split.
  - apply (total_trans _ 0 _ _ (bump MSendFailures ["events"] 1 m)); [by apply total_0, bump_get|apply total_bump].
  - intros k Hk. by rewrite !bump_get by by intros <-.
Qed.

Lemma sent_log_app (c : ControllerConfig) (n n' n'' : Z) (w w' w'' : W)
    (l l' : list (list WireEvent * send_outcome)) :
  sent_log c n w l n' w' -> sent_log c n' w' l' n'' w'' -> sent_log c n w (l ++ l') n'' w''.
Proof. induction 1; [done|]. intros Hl. simpl. econstructor; eauto. Qed.

Lemma within_nil (lims : list Z) : within lims [].
Proof. by intros limit _. Qed.

Lemma within_app (lims lims' : list Z) (l l' : list (list WireEvent * send_outcome)) :
  within lims l -> within lims' l' -> within (lims ++ lims') (l ++ l').
Proof. intros Hl Hl' limit [H1 H2]%Forall_app. apply Forall_app. auto. Qed.

Lemma sent_log_length (c : ControllerConfig) (n n' : Z) (w w' : W)
    (l : list (list WireEvent * send_outcome)) :
  sent_log c n w l n' w' -> n <= U64_MAX -> n' = Z.min (n + zlen l) U64_MAX.
Proof.
  induction 1 as [n w|n w batch o w1 log n' w' _ _ IH]; intros Hn; rewrite ?zlen_nil, ?zlen_cons; [lia|].
  pose proof (zlen_nonneg log). rewrite IH; width_lia.
Qed.

(** ** One batch *)

Lemma send_attempts_outcome (retries : nat) (backoff : Z) (url body : string) (count : Z)
    (m : TapioMetrics) (w : W) :
  let '(r, m', _) := send_attempts utf8_error decode_batch_response sleep retries backoff url body count m w in
  (r = Ok tt /\ m' = m) \/
  ((exists e, r = Err e) /\ m' = counted_drop count m) \/
  ((exists e, r = Err e) /\ m' = m /\ misanswered url body).
Proof.
  revert backoff w. induction retries as [|retries IH]; intros backoff w; cbn [send_attempts];
    destruct (post_json_response utf8_error url body MAX_EVENTS_RESPONSE_BYTES w) as [[response|e] w'] eqn:Ep;
    [destruct (is_success (resp_status response)) eqn:Es| |
     destruct (is_success (resp_status response)) eqn:Es|];
    try (right; left; split; [by eexists|reflexivity]); try apply IH.
  all: destruct (decode_batch_response (resp_body response)) as [resp|e] eqn:Ed; simpl;
    [destruct (EventBatchResponse_validate resp) as [[]|e] eqn:Ev; simpl; [by left|]|];
    right; right; (split; [by eexists|]); (split; [done|]);
    exists w, response; rewrite Ep, Ed; split; [done| |done|]; (split; [done|]);
    intros resp' [= <-]; by rewrite Ev.
Qed.

Lemma send_outcome_exists (batch : list WireEvent) (retry : bool) (k : Worker) (w : W) :
  exists o, outcome_ok o batch retry k w.
Proof.
  unfold outcome_ok, send_event_batch_with_retries.
  destruct (EventBatchRequest_validate _ _) as [[]|e] eqn:Ev.
  2: { exists Unaccounted. split; [by eexists|]. split; [done|]. left. by rewrite Ev. }
  destruct (encode_batch _) as [body|e] eqn:Eb.
  2: { exists Unaccounted. split; [by eexists|]. split; [done|]. right. left. by eexists. }
  pose proof (send_attempts_outcome (if retry then MAX_RETRIES else 0%nat) INITIAL_RETRY_BACKOFF
    (events_url (wk_controller k)) body (zlen batch) (wk_metrics k) w) as Ho.
  destruct (send_attempts _ _ _ _ _ _ _ _ _ _) as [[r m] w'].
  destruct Ho as [[-> ->]|[[He ->]|[He [-> Hm]]]];
    [by exists Acknowledged|by exists Dropped|exists Unaccounted].
  split; [done|]. split; [done|]. right. right. by exists body.
Qed.

Lemma outcome_accounts (o : send_outcome) (batch : list WireEvent) (retry : bool) (k : Worker) (w : W) :
  outcome_ok o batch retry k w ->
  accounts [] [(batch, o)] (wk_metrics k) (wk_metrics (snd (fst (send_batch batch retry k w)))).
Proof.
  unfold outcome_ok. destruct (send_batch batch retry k w) as [[r k'] w']. simpl.
  destruct o; [intros [_ ->]|intros [_ ->]|intros (_ & -> & _)];
    [|apply accounts_drop|]; repeat split; try (by apply grew_0); by apply total_0.
Qed.

Lemma send_batch_controller (batch : list WireEvent) (retry : bool) (k : Worker) (w : W) :
  wk_controller (snd (fst (send_batch batch retry k w))) = wk_controller k.
Proof.
  unfold send_event_batch_with_retries. destruct (EventBatchRequest_validate _ _); [|done].
  destruct (encode_batch _); [|done].
  by destruct (send_attempts _ _ _ _ _ _ _ _ _ _) as [[r m] w'].
Qed.

(** ** A flush *)

Lemma send_all_log (batches : list (list WireEvent)) (retry : bool) (d : option string) (k : Worker) (w : W) :
  Forall (fun b => b <> []) batches ->
  let '(_, k', w') := send_all batches retry d k w in
  exists log, map fst log = batches /\
    sent_log (wk_controller k) (wk_sequence k) w log (wk_sequence k') w' /\
    accounts [] log (wk_metrics k) (wk_metrics k') /\
    wk_controller k' = wk_controller k /\ wk_buffer k' = wk_buffer k.
Proof.
  intros Hne. revert d k w. induction Hne as [|batch batches Hb _ IH]; intros d k w.
  { exists []. split; [done|]. split; [constructor|]. split; [apply accounts_nil|done]. }
  cbn [send_batches]. destruct (send_outcome_exists batch retry k w) as [o Ho].
  pose proof (outcome_accounts o batch retry k w Ho) as Ha.
  pose proof (send_batch_controller batch retry k w) as Hc.
  pose proof (send_keeps utf8_error encode_batch decode_batch_response sleep wall_clock batch retry k w)
    as [Hk Hs].
  destruct (send_batch batch retry k w) as [[r k1] w1] eqn:Es. cbn [fst snd] in *.
  specialize (IH (match r with Ok _ => d | Err e => Some e end) k1 w1).
  destruct (send_all batches retry _ k1 w1) as [[d' k'] w']. destruct IH as (log & El & Hl & Hm & Hc' & Hb').
  exists ((batch, o) :: log). split; [simpl; congruence|]. rewrite Hs, Hc in Hl. split.
  { econstructor; [|done]. split; [done|]. exists retry, k. by rewrite Es. }
  split; [by apply (accounts_trans [] [] [_] log _ _ _ Ha Hm)|]. split; congruence.
Qed.

Lemma flush_log (retry : bool) (max_batch_events : Z) (k : Worker) (w : W) :
  let '(_, k', w') := flush retry max_batch_events k w in
  exists log, wk_buffer k = logged log /\ wk_buffer k' = [] /\
    sent_log (wk_controller k) (wk_sequence k) w log (wk_sequence k') w' /\
    accounts [] log (wk_metrics k) (wk_metrics k') /\ wk_controller k' = wk_controller k /\
    within [max_batch_events] log.
Proof.
  unfold flush_worker. destruct (is_empty (wk_buffer k)) eqn:Ee.
  { assert (Hb : wk_buffer k = []) by (by destruct (wk_buffer k)).
    exists []. rewrite Hb. split; [done|]. split; [done|]. split; [constructor|]. split; [apply accounts_nil|].
    split; [done|apply within_nil]. }
  set (batches := split_events_by_size _ _ _ _ _).
  assert (Hne : Forall (fun b => b <> []) batches) by apply split_loop_nonempty.
  assert (Hc : concat batches = wk_buffer k) by (unfold batches, split_events_by_size; by rewrite split_loop_concat).
  assert (Hn : forall limit, 1 <= max_batch_events <= limit -> Forall (fun b => zlen b <= limit) batches).
  { intros limit Hl. eapply Forall_impl; [apply split_loop_count; [lia|rewrite zlen_nil; lia]|]. simpl. lia. }
  pose proof (send_all_log batches retry None (with_worker (wk_metrics k) (wk_sequence k) [] k) w Hne) as Hl.
  destruct (send_all batches retry None _ w) as [[d k1] w1]. simpl in Hl |- *.
  destruct Hl as (log & El & Hl & Ha & Hc' & Hb). exists log. unfold logged. rewrite El.
  do 5 (split; [done|]). intros limit [Hb' _]%Forall_cons. apply Hn in Hb'. rewrite <- El in Hb'.
  exact (proj1 (List.Forall_map fst _ log) Hb').
Qed.

(** ** Turns and actions *)

Definition received_events (r : recv_outcome) : list WireEvent :=
  match r with Received msg => message_event msg | _ => [] end.

Ltac by_flush_log Hf :=
  destruct Hf as (log & Eb & Eb' & Hs & Ha & Hc & Hl); exists log; simpl in *;
  rewrite Eb', ?app_nil_r; split_and!; done.

Lemma turn_log (r : recv_outcome) (max_batch_events : Z) (k : Worker) (w : W) :
  let '(_, goes_on, k', w') := turn r max_batch_events k w in
  exists log, wk_buffer k ++ received_events r = logged log ++ wk_buffer k' /\
    sent_log (wk_controller k) (wk_sequence k) w log (wk_sequence k') w' /\
    accounts [] log (wk_metrics k) (wk_metrics k') /\ wk_controller k' = wk_controller k /\
    within [max_batch_events] log /\
    (goes_on = false -> r = RecvDisconnected /\ wk_buffer k' = []).
Proof.
  unfold worker_turn, flush_buffer, flush_buffer_once. destruct r as [[event|ack]| |]; simpl.
  - set (k1 := with_worker _ _ (wk_buffer k ++ [event]) k).
    destruct (max_batch_events <=? zlen (wk_buffer k ++ [event])).
    + pose proof (flush_log true max_batch_events k1 w) as Hf.
      destruct (flush true _ k1 w) as [[d k2] w2]. by_flush_log Hf.
    + exists []. split; [done|]. split; [constructor|]. split; [apply accounts_nil|].
      split; [done|]. split; [apply within_nil|done].
  - pose proof (flush_log true max_batch_events k w) as Hf.
    destruct (flush true _ k w) as [[d k2] w2]. by_flush_log Hf.
  - pose proof (flush_log true max_batch_events k w) as Hf.
    destruct (flush true _ k w) as [[d k2] w2]. by_flush_log Hf.
  - pose proof (flush_log false max_batch_events k w) as Hf.
    destruct (flush false _ k w) as [[d k2] w2]. by_flush_log Hf.
Qed.

(** What an action does to the events on their way, the log, the counters, and
    a stopped worker. *)
Definition stopped_inv (s : SinkSystem W) : Prop :=
  sy_running s = false ->
  sy_open s = false /\ q_messages (sy_queue s) = [] /\ wk_buffer (sy_worker s) = [].

Definition act_effect (lims : list Z) (offered : list (WireEvent * try_send_outcome))
    (s s' : SinkSystem W) : Prop :=
  exists log, on_the_way s ++ offered_as is_sent offered = logged log ++ on_the_way s' /\
    sent_log (wk_controller (sy_worker s)) (wk_sequence (sy_worker s)) (sy_world s) log
      (wk_sequence (sy_worker s')) (sy_world s') /\
    within lims log /\
    accounts offered log (wk_metrics (sy_worker s)) (wk_metrics (sy_worker s')) /\
    wk_controller (sy_worker s') = wk_controller (sy_worker s) /\
    (stopped_inv s -> stopped_inv s').

Lemma act_effect_trans (lims lims' : list Z) (o o' : list (WireEvent * try_send_outcome))
    (s s' s'' : SinkSystem W) :
  act_effect lims o s s' -> act_effect lims' o' s' s'' -> act_effect (lims ++ lims') (o ++ o') s s''.
Proof.
  intros (l & A1 & A2 & Al & A3 & A4 & A5) (l' & B1 & B2 & Bl & B3 & B4 & B5). exists (l ++ l').
  rewrite logged_app, offered_as_app. split; [|split; [|split; [|split; [|split]]]].
  - by rewrite app_assoc, A1, <- app_assoc, B1, app_assoc.
  - eapply sent_log_app; [exact A2|]. by rewrite <- A4.
  - by apply within_app.
  - by eapply accounts_trans.
  - congruence.
  - auto.
Qed.

Lemma act_effect_still (s s' : SinkSystem W) :
  on_the_way s' = on_the_way s -> sy_worker s' = sy_worker s -> sy_world s' = sy_world s ->
  (stopped_inv s -> stopped_inv s') -> act_effect [] [] s s'.
Proof.
  intros Ho Hw Hy Hs. exists []. rewrite Ho, Hw, Hy. unfold offered_as. simpl. rewrite app_nil_r.
  split; [done|]. split; [constructor|]. split; [apply within_nil|]. split; [apply accounts_nil|done].
Qed.

Lemma worker_act_effect (r : recv_outcome) (max_batch_events : Z) (q : Queue) (s : SinkSystem W) :
  q_messages (sy_queue s) = match r with Received msg => msg :: q_messages q | _ => q_messages q end ->
  sy_running s = true ->
  (r = RecvDisconnected -> q_messages q = [] /\ sy_open s = false) ->
  act_effect [max_batch_events] [] s (worker_act r max_batch_events q s).
Proof.
  intros Hq Hr Hd. pose proof (turn_log r max_batch_events (sy_worker s) (sy_world s)) as Ht.
  unfold act_effect, worker_act, on_the_way, stopped_inv.
  destruct (turn r max_batch_events (sy_worker s) (sy_world s)) as [[[ack goes_on] k] w]. simpl.
  destruct Ht as (log & Eb & Hs & Ha & Hc & Hl & Hg). exists log. unfold offered_as. simpl. rewrite app_nil_r.
  split; [|split; [done|]; split; [done|]; split; [done|]; split; [done|]].
  - rewrite Hq, app_assoc, <- Eb. rewrite <- app_assoc. f_equal.
    destruct r as [msg| |]; reflexivity.
  - intros _ Hf. destruct (Hg Hf) as [-> Hb]. destruct Hd as [Hm Ho]; done.
Qed.

Lemma send_effect (o : Occurrence) (s s' : SinkSystem W) :
  sink_act s (ActSend o) = Some s' -> act_effect [] (offer s (ActSend o)) s s'.
Proof.
  simpl. unfold controller_send. destruct (occurrence_to_wire_event o) as [e|e].
  2: { intros [= <-]. destruct s as [q [] ? [] ?]; by apply act_effect_still. }
  unfold try_enqueue_controller_event, try_send. destruct (sy_open s) eqn:Eo.
  2: { intros [= <-]. exists []. unfold on_the_way, accounts, offered_as. simpl. rewrite app_nil_r.
       split; [done|]. split; [constructor|]. split; [apply within_nil|].
       split; [|split; [done|]; unfold stopped_inv; simpl; naive_solver].
       repeat split; try apply grew_bump; try apply total_bump;
         try (apply grew_0; by apply bump_other; naive_solver). intros k Hk. apply bump_get. by intros <-. }
  destruct (negb (q_connected (sy_queue s))); [|destruct (q_capacity (sy_queue s) <=? _)];
    intros [= <-]; exists []; unfold on_the_way, accounts, offered_as; simpl; rewrite ?app_nil_r;
    (split; [by rewrite ?map_app, ?concat_app, <- ?app_assoc|]); (split; [constructor|]);
    (split; [apply within_nil|]); (split; [|split; [done|]; unfold stopped_inv; simpl; intros Hi Hr; destruct (Hi Hr); congruence]);
    repeat split; try apply grew_bump; try apply total_bump; try (by apply total_0);
    try (apply grew_0; try done; by apply bump_other; naive_solver);
    intros k Hk; apply bump_get; by intros <-.
Qed.

Lemma act_log (s s' : SinkSystem W) (a : sink_action) :
  sink_act s a = Some s' -> act_effect (batch_limit a) (offer s a) s s'.
Proof.
  destruct a as [o|ack| |mb|mb|mb]; [apply send_effect|..]; simpl.
  - intros [= <-]. apply act_effect_still; [|done|done|].
    + unfold on_the_way, try_send. simpl. destruct (sy_open s); [|done].
      destruct (negb _); [done|]. destruct (_ <=? _); [done|]. simpl.
      by rewrite map_app, concat_app, app_nil_r.
    + unfold stopped_inv. simpl. destruct (sy_open s); [|done]. intros Hi Hr. destruct (Hi Hr); congruence.
  - intros [= <-]. apply act_effect_still; [done|done|done|]. unfold stopped_inv. simpl. naive_solver.
  - destruct (sy_running s) eqn:Er; [|done]. destruct (q_messages (sy_queue s)) as [|msg rest] eqn:Eq; [done|].
    intros [= <-]. by apply worker_act_effect.
  - destruct (sy_running s) eqn:Er; [|done]. destruct (q_messages (sy_queue s)) as [|msg rest] eqn:Eq; [|done].
    destruct (sy_open s) eqn:Eo; [|done]. intros [= <-]. by apply worker_act_effect.
  - destruct (sy_running s) eqn:Er; [|done]. destruct (q_messages (sy_queue s)) as [|msg rest] eqn:Eq; [|done].
    destruct (sy_open s) eqn:Eo; [done|]. intros [= <-]. by apply worker_act_effect.
Qed.

Lemma run_log (acts : list sink_action) (s s' : SinkSystem W) :
  sink_run s acts = Some s' -> act_effect (concat (map batch_limit acts)) (offers s acts) s s'.
Proof.
  revert s. induction acts as [|a acts IH]; intros s; simpl.
  { intros [= ->]. by apply act_effect_still. }
  destruct (sink_act s a) as [s1|] eqn:Ea; [|done]. intros Hr.
  eapply act_effect_trans; [by apply act_log|by apply IH].
Qed.

(** An action's batches, against the size it read. *)
Lemma within_action (c : ControllerConfig) (a : sink_action) (n n' : Z) (w w' : W)
    (log : list (list WireEvent * send_outcome)) :
  within (batch_limit a) log -> sent_log c n w log n' w' ->
  (forall mb, In mb (batch_limit a) -> 1 <= mb -> Forall (fun x => zlen (fst x) <= mb) log) /\
  (batch_limit a = [] -> log = []).
Proof.
  intros Hw Hs. split.
  - intros mb Hin Hmb. apply Hw. destruct a; simpl in Hin; try done; destruct Hin as [<-|[]]; repeat constructor; lia.
  - intros E. rewrite E in Hw. specialize (Hw 0 ltac:(constructor)). destruct Hs as [|n w batch o w1 log n' w' [Hne _]]; [done|].
    apply Forall_cons in Hw as [Hz _]. destruct batch as [|e batch]; [done|]. cbn [fst] in Hz; rewrite zlen_cons in Hz.
    pose proof (zlen_nonneg batch). lia.
Qed.

Lemma run_flushed (acts : list sink_action) (s s' : SinkSystem W) :
  sink_run s acts = Some s' ->
  exists logs, flushed (wk_controller (sy_worker s)) s acts logs s' /\
    on_the_way s ++ offered_as is_sent (offers s acts) = logged (concat logs) ++ on_the_way s' /\
    sent_log (wk_controller (sy_worker s)) (wk_sequence (sy_worker s)) (sy_world s) (concat logs)
      (wk_sequence (sy_worker s')) (sy_world s') /\
    accounts (offers s acts) (concat logs) (wk_metrics (sy_worker s)) (wk_metrics (sy_worker s')) /\
    (stopped_inv s -> stopped_inv s').
Proof.
  revert s. induction acts as [|a acts IH]; intros s; simpl.
  { intros [= ->]. exists []. simpl. rewrite app_nil_r. split; [constructor|]. split; [done|]. split; [constructor|].
    split; [apply accounts_nil|done]. }
  destruct (sink_act s a) as [s1|] eqn:Ea; [|done]. intros Hr.
  destruct (act_log s s1 a Ea) as (log & A1 & A2 & Al & A3 & A4 & A5).
  destruct (IH s1 Hr) as (logs & B0 & B1 & B2 & B3 & B5). rewrite A4 in B0, B2.
  destruct (within_action _ _ _ _ _ _ _ Al A2) as [Hl Hn]. exists (log :: logs). simpl.
  rewrite logged_app, offered_as_app. split; [by econstructor|]. split.
  { by rewrite app_assoc, A1, <- app_assoc, B1, app_assoc. }
  split; [by eapply sent_log_app|]. split; [by eapply accounts_trans|auto].
Qed.

(** Receiving every message of the queue, then the closed queue, stops it. *)
Lemma drain_stops (max_batch_events : Z) (n : nat) (s : SinkSystem W) :
  sy_running s = true -> sy_open s = false -> length (q_messages (sy_queue s)) = n ->
  exists s', sink_run s (replicate n (ActReceive max_batch_events) ++ [ActDisconnect max_batch_events])
    = Some s' /\ sy_running s' = false.
Proof.
  revert s. induction n as [|n IH]; intros s Hr Ho Hn; simpl; rewrite Hr.
  - destruct (q_messages (sy_queue s)); [|done]. rewrite Ho. simpl. eexists. split; [done|].
    unfold worker_act. simpl. by destruct (flush_buffer_once _ _ _ _ _ _ _ _ _) as [[d k] w].
  - destruct (q_messages (sy_queue s)) as [|msg rest] eqn:Eq; [done|].
    pose proof (turn_log (Received msg) max_batch_events (sy_worker s) (sy_world s)) as Ht.
    unfold worker_act. destruct (turn (Received msg) max_batch_events (sy_worker s) (sy_world s))
      as [[[ack goes_on] k] w].
    destruct Ht as (log & _ & _ & _ & _ & _ & Hg). destruct goes_on; [|by destruct (Hg eq_refl)].
    apply IH; simpl in *; [done|done|lia].
Qed.

(** ** Termination *)

Definition is_turn (a : sink_action) : bool :=
  match a with ActReceive _ | ActTimeout _ | ActDisconnect _ => true | _ => false end.

Definition turns (acts : list sink_action) : nat := length (List.filter is_turn acts).

(** The turns a worker whose sink was dropped has left. *)
Definition turns_left (s : SinkSystem W) : nat :=
  if sy_running s then S (length (q_messages (sy_queue s))) else 0.

Lemma worker_act_state (r : recv_outcome) (mb : Z) (q : Queue) (s : SinkSystem W) :
  let s' := worker_act r mb q s in
  sy_open s' = sy_open s /\ q_messages (sy_queue s') = q_messages q /\
  sy_running s' = match r with RecvDisconnected => false | _ => true end.
Proof.
  cbv zeta. unfold worker_act, worker_turn.
  destruct r as [[event|ack]| |]; [destruct (mb <=? _)|..];
    try destruct (flush_buffer _ _ _ _ _ _ _ _ _) as [[d k] w];
    try destruct (flush_buffer_once _ _ _ _ _ _ _ _ _) as [[d k] w]; done.
Qed.

(** Once the sink is dropped, a turn takes one away and nothing gives one back. *)
Lemma turns_left_step (s s' : SinkSystem W) (a : sink_action) :
  sy_open s = false -> sink_act s a = Some s' ->
  sy_open s' = false /\ turns_left s = ((if is_turn a then 1 else 0) + turns_left s')%nat.
Proof.
  unfold turns_left. intros Ho. destruct a as [o|ack| |mb|mb|mb]; simpl; rewrite ?Ho.
  - destruct (controller_send o None _) as [[r tx] m] eqn:Ec. intros [= <-]. simpl. split; [done|].
    unfold controller_send in Ec. destruct (occurrence_to_wire_event o); simpl in Ec; by injection Ec as <- <- <-.
  - by intros [= <-].
  - by intros [= <-].
  - destruct (sy_running s) eqn:Er; [|done]. destruct (q_messages (sy_queue s)) as [|msg rest] eqn:Eq; [done|].
    intros [= <-]. set (q := {| q_capacity := _; q_messages := rest; q_connected := _ |}).
    destruct (worker_act_state (Received msg) mb q s) as (-> & -> & ->). done.
  - rewrite andb_false_r. done.
  - rewrite andb_true_r. destruct (sy_running s) eqn:Er; [|done].
    destruct (q_messages (sy_queue s)) as [|msg rest] eqn:Eq; [|done]. intros [= <-].
    destruct (worker_act_state RecvDisconnected mb (sy_queue s) s) as (-> & -> & ->). done.
Qed.

Lemma turns_left_run (acts : list sink_action) (s s' : SinkSystem W) :
  sy_open s = false -> sink_run s acts = Some s' ->
  sy_open s' = false /\ turns_left s = (turns acts + turns_left s')%nat.
Proof.
  revert s. induction acts as [|a acts IH]; intros s Ho; simpl; [by intros [= <-]|].
  destruct (sink_act s a) as [s1|] eqn:Ea; [|done]. intros Hr.
  destruct (turns_left_step s s1 a Ho Ea) as [Ho1 ->]. destruct (IH s1 Ho1 Hr) as [Ho' ->].
  split; [done|]. unfold turns. simpl. destruct (is_turn a); simpl; lia.
Qed.

(** * Properties *)

(** C21. Nothing the sink takes goes missing: after any calls and any turns of the
    worker, in any order, the events the queue took are, in order, the batches
    sent so far, numbered from 1, then those still buffered or queued; each
    batch was sent from the state of the network the one before left.  Action by
    action ([flushed]): only the worker's turns send, each from the state it
    met, and no batch it sends has more events than the batch size that turn
    read, when that is at least 1 (as [set_batching] makes it).  The
    drop counters hold exactly the events of the batches that were given up
    and the events the queue refused; the only batches without an account are
    those with an invalid or unencodable request or an unreadable answer.  A
    dropped sink can always be drained, and when its worker has stopped
    nothing is left on the way. *)
Theorem delivery_conserves_events (c : ControllerConfig) (capacity max_request_bytes : Z) (w : W)
    (acts : list sink_action) (s : SinkSystem W)
    (Hrun : sink_run (ControllerSink_with_limits c TapioMetrics_new capacity max_request_bytes w) acts
            = Some s) :
  let started := ControllerSink_with_limits c TapioMetrics_new capacity max_request_bytes w in
  let offered := offers started acts in
  let counter k labels := wrap64 (metric_value k labels (wk_metrics (sy_worker s))) in
  exists logs,
    let log := concat logs in
    flushed c started acts logs s /\
    offered_as is_sent offered = logged log ++ on_the_way s /\
    sent_log c 1 w log (wk_sequence (sy_worker s)) (sy_world s) /\
    counter MSinkDrops ["controller"; "send_failed"] = wrap64 (zlen (logged (dropped log))) /\
    counter MSendFailures ["events"] = wrap64 (zlen (dropped log)) /\
    counter MSinkDrops ["controller"; "queue_full"] = wrap64 (zlen (offered_as is_full offered)) /\
    counter MSinkDrops ["controller"; "worker_stopped"]
      = wrap64 (zlen (offered_as is_disconnected offered)) /\
    (sy_running s = false -> on_the_way s = []) /\
    (sy_running s = true -> forall max_batch_events, exists s',
       sink_run s (ActDrop :: replicate (length (q_messages (sy_queue s))) (ActReceive max_batch_events)
                   ++ [ActDisconnect max_batch_events]) = Some s' /\ sy_running s' = false).
Proof.
  intros started offered counter.
  destruct (run_flushed acts _ s Hrun) as (logs & Hf & Eo & Hs & (A1 & A2 & A3 & A4 & _) & Hi).
  exists logs. split; [exact Hf|]. split; [exact Eo|]. split; [exact Hs|].
  split; [by apply (grew_value _ _ _ _ _ A1)|]. split; [by apply (grew_value _ _ _ _ _ A2)|].
  split; [by apply (grew_value _ _ _ _ _ A3)|]. split; [by apply (grew_value _ _ _ _ _ A4)|].
  split.
  - intros Hr. destruct Hi as (_ & Hq & Hb); [done|done|]. unfold on_the_way. by rewrite Hq, Hb.
  - intros Hr mb. simpl. by apply drain_stops.
Qed.

(** Dropping the sink always ends its worker, whatever the network does:
    from the drop on, every history has at most one turn for each message
    queued and one for the closed queue, however the sink is still called;
    until the worker has stopped the next turn can be taken, with any batch
    size; after the last one it has. *)
Lemma dropped_worker_stops (s s' : SinkSystem W) (acts : list sink_action)
    (Hrunning : sy_running s = true) (Hdrop : sy_open s = false) (Hrun : sink_run s acts = Some s') :
  (turns acts <= S (length (q_messages (sy_queue s))))%nat /\
  (sy_running s' = true -> forall max_batch_events, exists a s'', is_turn a = true /\
     (a = ActReceive max_batch_events \/ a = ActDisconnect max_batch_events) /\ sink_act s' a = Some s'') /\
  (sy_running s' = false <-> turns acts = S (length (q_messages (sy_queue s)))).
Proof.
  destruct (turns_left_run acts s s' Hdrop Hrun) as [Ho' Ht].
  unfold turns_left in Ht. rewrite Hrunning in Ht. split; [lia|]. split.
  - intros Hr mb. destruct (q_messages (sy_queue s')) as [|msg rest] eqn:Eq.
    + exists (ActDisconnect mb). simpl. rewrite Hr, Eq, Ho'. simpl. by eauto.
    + exists (ActReceive mb). simpl. rewrite Hr, Eq. by eauto.
  - destruct (sy_running s'); [|lia]. split; [done|lia].
Qed.
End Delivery.

(** * Witness *)

Definition sample_anomaly : Occurrence :=
  Occurrence_new_at "id" "kernel.network.rtt_degradation" Warning Failure 0.

(** Three events for a queue of two, and a controller that refuses connections. *)
Definition sample_actions : list sink_action :=
  [ActSend sample_anomaly; ActSend sample_anomaly; ActSend sample_anomaly; ActReceive 1;
   ActDrop; ActSend sample_anomaly; ActReceive 5; ActDisconnect 5].

Notation sample_run :=
  (sink_run (fun _ => EmptyString) sized_batch sized_event (fun _ => Err "no") advance (fun t : Z => t)
    (ControllerSink_with_limits sample_controller TapioMetrics_new 2 1000 0) sample_actions).

Lemma delivery_conserves_events_witness :
  exists s log, sample_run = Some s /\ zlen log = 2 /\ sy_running s = false /\
    sent_log (fun _ => EmptyString) sized_batch (fun _ => Err "no") advance (fun t : Z => t)
      sample_controller 1 0 log 3 (sy_world s) /\
    map (fun l => metric_value MSinkDrops ["controller"; l] (wk_metrics (sy_worker s)))
      ["send_failed"; "queue_full"; "worker_stopped"] = [2; 1; 1].
Proof.
  assert (Hrun : exists s, sample_run = Some s /\ wk_sequence (sy_worker s) = 3 /\ sy_running s = false /\
    map (fun l => metric_value MSinkDrops ["controller"; l] (wk_metrics (sy_worker s)))
      ["send_failed"; "queue_full"; "worker_stopped"] = [2; 1; 1]).
  { eexists. split; [vm_compute; reflexivity|]. vm_compute. done. }
  destruct Hrun as (s & Hrun & Hseq & Hstop & Hm).
  destruct (delivery_conserves_events (fun _ => EmptyString) sized_batch sized_event (fun _ => Err "no")
    advance (fun t : Z => t) sample_controller 2 1000 0 sample_actions s Hrun)
    as (logs & _ & Ho & Hl & _). rewrite Hseq in Hl.
  exists s, (concat logs). split; [exact Hrun|]. split; [|exact (conj Hstop (conj Hl Hm))].
  pose proof (zlen_nonneg (concat logs)). apply sent_log_length in Hl; width_lia.
Defined.

(** Two messages are queued when the sink is dropped; a late call changes
    nothing. *)
Notation dropped_run acts :=
  (sink_run (fun _ => EmptyString) sized_batch sized_event (fun _ => Err "no") advance (fun t : Z => t)
    (ControllerSink_with_limits sample_controller TapioMetrics_new 2 1000 0)
    ([ActSend sample_anomaly; ActFlush 7; ActDrop] ++ acts)).

Definition last_turns : list sink_action := [ActReceive 5; ActSend sample_anomaly; ActReceive 5; ActDisconnect 5].

Lemma dropped_worker_stops_witness :
  exists s s', dropped_run [] = Some s /\ dropped_run last_turns = Some s' /\ sy_running s' = false.
Proof.
  assert (H : exists s s', dropped_run [] = Some s /\ dropped_run last_turns = Some s' /\
    sink_run (fun _ => EmptyString) sized_batch sized_event (fun _ => Err "no") advance (fun t : Z => t) s last_turns
      = Some s' /\
    sy_running s = true /\ sy_open s = false /\ length (q_messages (sy_queue s)) = 2%nat).
  { eexists _, _. split; [vm_compute; reflexivity|]. split; [vm_compute; reflexivity|].
    split; [vm_compute; reflexivity|]. vm_compute. done. }
  destruct H as (s & s' & H1 & H2 & Hrun & Hr & Ho & Hl).
  destruct (dropped_worker_stops _ _ _ _ _ _ s s' last_turns Hr Ho Hrun) as (_ & _ & [_ Hstop]).
  rewrite Hl in Hstop. exists s, s'. exact (conj H1 (conj H2 (Hstop eq_refl))).
Defined.
