(* ===== verification/WorkerSteps.v ===== *)
(** [tapio-agent/src/sink/controller.rs], the worker thread once more, one
    exchange at a time: between two attempts of a batch, and between two batches
    of a flush, other threads use the network and the controller's answers
    reach them.  What [ControllerSink] computes of a turn as a whole is what
    these steps come to when nothing falls in between. *)
From Stdlib Require Import String.
From stdpp Require Import relations.
From S2P Require Import Prelude RustStr BTree Json Occurrence Wire Metrics Httpc Sink Poll.
From S2P Require Import ControllerSink Delivery.
Local Open Scope Z_scope.

(** A flush under way: the batches to come, whether they are retried, the last
    error so far, the request to answer, and whether the loop goes on after it. *)
Record flush_job := {
  fj_todo : list (list WireEvent);
  fj_retry : bool;
  fj_error : option string;
  fj_ack : option Z;
  fj_goes_on : bool;
}.

(** A batch under way, with the attempts and the pause that are left to it. *)
Record flight := {
  fl_batch : list WireEvent;
  fl_body : string;
  fl_retries : nat;
  fl_backoff : Z;
}.

(** Where the worker is: at the top of its loop, waiting for a message with the
    batch size it has read, between two batches, in front of an attempt, at the
    end of a turn with the answer to a flush request, or gone. *)
Inductive worker_phase :=
| WIdle
| WWaiting (max_batch_events : Z)
| WFlushing (j : flush_job)
| WAttempting (f : flight) (j : flush_job)
| WEnding (answer : option (Z * result unit string)) (goes_on : bool)
| WDone.

Definition with_todo (todo : list (list WireEvent)) (j : flush_job) : flush_job := {|
  fj_todo := todo; fj_retry := fj_retry j; fj_error := fj_error j; fj_ack := fj_ack j; fj_goes_on := fj_goes_on j |}.

(** The last error of a flush is its result. *)
Definition with_result (r : result unit string) (j : flush_job) : flush_job := {|
  fj_todo := fj_todo j; fj_retry := fj_retry j;
  fj_error := match r with Ok _ => fj_error j | Err e => Some e end;
  fj_ack := fj_ack j; fj_goes_on := fj_goes_on j |}.

Definition flush_answer (r : result unit string) (ack : option Z) : option (Z * result unit string) :=
  (fun a => (a, r)) <$> ack.

Section Steps.
Variable utf8_error : string -> string.
Variable encode_batch : EventBatchRequest -> result string string.
Variable encode_event : WireEvent -> result string string.
Variable decode_batch_response : string -> result EventBatchResponse string.
Context {W : Type} `{Net W}.
Variable sleep : Z -> W -> W.
Variable wall_clock : W -> Z.

(** [flush_buffer] and [flush_buffer_once], up to the first batch. *)
Definition begin_flush (retry : bool) (ack : option Z) (goes_on : bool) (max_batch_events : Z) (k : Worker) :
  worker_phase * Worker :=
  if is_empty (wk_buffer k) then (WEnding (flush_answer (Ok tt) ack) goes_on, k)
  else
    (WFlushing {| fj_todo := split_events_by_size encode_batch encode_event (wk_buffer k) max_batch_events
                               (wk_max_request_bytes k);
                  fj_retry := retry; fj_error := None; fj_ack := ack; fj_goes_on := goes_on |},
     with_worker (wk_metrics k) (wk_sequence k) [] k).

(** The arms of the loop's match. *)
Definition begin_turn (r : recv_outcome) (max_batch_events : Z) (k : Worker) : worker_phase * Worker :=
  match r with
  | Received (MsgEvent event) =>
      let k := with_worker (wk_metrics k) (wk_sequence k) (wk_buffer k ++ [event]) k in
      if max_batch_events <=? zlen (wk_buffer k) then begin_flush true None true max_batch_events k
      else (WEnding None true, k)
  | Received (MsgFlush ack) => begin_flush true (Some ack) true max_batch_events k
  | RecvTimeout => begin_flush true None true max_batch_events k
  | RecvDisconnected => begin_flush false None false max_batch_events k
  end.

(** [send_event_batch_with_retries], up to the first attempt. *)
Definition next_batch (j : flush_job) (k : Worker) (w : W) : worker_phase * Worker :=
  match fj_todo j with
  | [] =>
      (WEnding (flush_answer (match fj_error j with Some e => Err e | None => Ok tt end) (fj_ack j)) (fj_goes_on j), k)
  | batch :: rest =>
      let request := batch_request k batch (unix_now (wall_clock w)) in
      let j := with_todo rest j in
      let k := with_worker (wk_metrics k) (sat_add64 (wk_sequence k) 1) (wk_buffer k) k in
      match EventBatchRequest_validate request U64_MAX with
      | Err error => (WFlushing (with_result (Err (WireError_to_string error)) j), k)
      | Ok _ =>
          match encode_batch request with
          | Err e => (WFlushing (with_result (Err ("encode EventBatchRequest: " +:+ e)) j), k)
          | Ok body =>
              (WAttempting {| fl_batch := batch; fl_body := body;
                              fl_retries := if fj_retry j then MAX_RETRIES else 0%nat;
                              fl_backoff := INITIAL_RETRY_BACKOFF |} j, k)
          end
      end
  end.

(** What an answer 2xx comes to. *)
Definition read_answer (response : HttpResponse) : result unit string :=
  resp <-? map_err (fun e => "decode EventBatchResponse: " +:+ e) (decode_batch_response (resp_body response)) ;;
  map_err WireError_to_string (EventBatchResponse_validate resp) ;;?
  Ok tt.

(** One pass through the loop of attempts, with the pause at its end. *)
Definition one_attempt (f : flight) (j : flush_job) (k : Worker) (w : W) : worker_phase * Worker * W :=
  let '(r, w) :=
    post_json_response utf8_error (events_url (wk_controller k)) (fl_body f) MAX_EVENTS_RESPONSE_BYTES w in
  let failed error :=
    match fl_retries f with
    | O =>
        let '(r, m) := drop_failed_batch (zlen (fl_batch f)) error (wk_metrics k) in
        (WFlushing (with_result r j), with_worker m (wk_sequence k) (wk_buffer k) k, w)
    | S n =>
        (WAttempting {| fl_batch := fl_batch f; fl_body := fl_body f; fl_retries := n;
                        fl_backoff := Z.min (fl_backoff f * 2) MAX_RETRY_BACKOFF |} j,
         k, sleep (fl_backoff f) w)
    end in
  match r with
  | Ok response =>
      if is_success (resp_status response) then (WFlushing (with_result (read_answer response) j), k, w)
      else failed ("HTTP " +:+ dec (resp_status response))
  | Err error => failed error
  end.

(** A step within a turn. *)
Definition worker_advance (s : worker_phase * Worker * W) : worker_phase * Worker * W :=
  let '(p, k, w) := s in
  match p with
  | WFlushing j => (next_batch j k w, w)
  | WAttempting f j => one_attempt f j k w
  | _ => s
  end.

(** Any number of them, undisturbed. *)
Definition worker_advances : worker_phase * Worker * W -> worker_phase * Worker * W -> Prop := rtc (fun s s' => worker_advance s = s').

(** What is left to do at most, with [loop] for the turns to come: for each batch
    a step of its own and one for each attempt, and one for the end of a turn. *)
Definition flush_left (loop : nat) (j : flush_job) : nat :=
  (2 + MAX_RETRIES) * length (fj_todo j) + 2 + (if fj_goes_on j then loop else 0).

Definition sends_left (loop : nat) (x : worker_phase) : nat :=
  match x with
  | WIdle => loop
  | WWaiting _ => loop - 1
  | WFlushing j => flush_left loop j
  | WAttempting f j => S (fl_retries f) + flush_left loop j
  | WEnding _ g => 1 + (if g then loop else 0)
  | WDone => 0
  end.

(** * Lemmas *)

Lemma next_batch_left (loop : nat) (j : flush_job) (k : Worker) (w : W) :
  let '(x, k') := next_batch j k w in
  wk_buffer k' = wk_buffer k /\ (sends_left loop x < flush_left loop j)%nat.
Proof.
  unfold next_batch, flush_left. destruct (fj_todo j) as [|b rest]; [split; [done|]; simpl; lia|].
  destruct (EventBatchRequest_validate _ _); [destruct (encode_batch _)|]; (split; [done|]);
    unfold sends_left, flush_left; simpl; [destruct (fj_retry j)|..]; simpl; lia.
Qed.

Lemma one_attempt_left (loop : nat) (f : flight) (j : flush_job) (k : Worker) (w : W) :
  let '(x, k', _) := one_attempt f j k w in
  wk_buffer k' = wk_buffer k /\ (sends_left loop x < S (fl_retries f) + flush_left loop j)%nat.
Proof.
  unfold one_attempt.
  destruct (post_json_response _ _ _ _ w) as [[resp|e] w']; [destruct (is_success _)|]; try destruct (fl_retries f);
    (split; [done|]); unfold sends_left, flush_left; simpl; lia.
Qed.

Lemma worker_advance_once (s s' : worker_phase * Worker * W) : worker_advance s = s' -> worker_advances s s'.
Proof. intros E. by apply rtc_once. Qed.

Lemma attempts_by_steps (n : nat) (b : Z) (batch : list WireEvent) (body : string) (j : flush_job) (k : Worker) (w : W) :
  let '(r, m, w') := send_attempts utf8_error decode_batch_response sleep n b (events_url (wk_controller k)) body
                       (zlen batch) (wk_metrics k) w in
  worker_advances (WAttempting {| fl_batch := batch; fl_body := body; fl_retries := n; fl_backoff := b |} j, k, w)
    (WFlushing (with_result r j), with_worker m (wk_sequence k) (wk_buffer k) k, w').
Proof.
  assert (Hk : with_worker (wk_metrics k) (wk_sequence k) (wk_buffer k) k = k) by by destruct k.
  revert b w. induction n as [|n IH]; intros b w; cbn [send_attempts];
    destruct (post_json_response utf8_error (events_url (wk_controller k)) body MAX_EVENTS_RESPONSE_BYTES w)
      as [[response|e] w1] eqn:Ep;
    try destruct (is_success (resp_status response)) eqn:Es.
  all: try (apply worker_advance_once; simpl; unfold one_attempt; cbn [fl_body fl_retries]; rewrite Ep, ?Es, ?Hk; done).
  all: specialize (IH (Z.min (b * 2) MAX_RETRY_BACKOFF) (sleep b w1));
    destruct (send_attempts _ _ _ n _ _ _ _ _ _) as [[r m] w']; eapply rtc_l; [|exact IH];
    simpl; unfold one_attempt; cbn [fl_body fl_retries]; rewrite Ep, ?Es; done.
Qed.

Lemma batch_by_steps (batch : list WireEvent) (rest : list (list WireEvent)) (j : flush_job) (k : Worker) (w : W) :
  fj_todo j = batch :: rest ->
  let '(r, k', w') := send_event_batch_with_retries utf8_error encode_batch decode_batch_response sleep wall_clock
                        batch (fj_retry j) k w in
  worker_advances (WFlushing j, k, w) (WFlushing (with_result r (with_todo rest j)), k', w').
Proof.
  intros Hj. assert (Ha : worker_advance (WFlushing j, k, w) = (next_batch j k w, w)) by done.
  unfold send_event_batch_with_retries. unfold next_batch in Ha. rewrite Hj in Ha.
  destruct (EventBatchRequest_validate _ _) as [[]|e]; [|by apply worker_advance_once].
  destruct (encode_batch _) as [body|e]; [|by apply worker_advance_once].
  set (k1 := with_worker _ (sat_add64 _ _) _ k) in *.
  pose proof (attempts_by_steps (if fj_retry j then MAX_RETRIES else 0%nat) INITIAL_RETRY_BACKOFF batch body
    (with_todo rest j) k1 w) as Hs.
  change (wk_controller k1) with (wk_controller k) in Hs. change (wk_metrics k1) with (wk_metrics k) in Hs.
  destruct (send_attempts _ _ _ _ _ _ _ _ _ _) as [[r m] w']. eapply rtc_l; [exact Ha|exact Hs].
Qed.

Lemma batches_by_steps (batches : list (list WireEvent)) (j : flush_job) (k : Worker) (w : W) :
  fj_todo j = batches ->
  let '(e, k', w') := send_batches utf8_error encode_batch decode_batch_response sleep wall_clock batches (fj_retry j)
                        (fj_error j) k w in
  worker_advances (WFlushing j, k, w)
    (WEnding (flush_answer (match e with Some e => Err e | None => Ok tt end) (fj_ack j)) (fj_goes_on j), k', w').
Proof.
  revert j k w. induction batches as [|batch rest IH]; intros j k w Hj; cbn [send_batches].
  { apply worker_advance_once. simpl. unfold next_batch. by rewrite Hj. }
  pose proof (batch_by_steps batch rest j k w Hj) as Hb.
  destruct (send_event_batch_with_retries _ _ _ _ _ batch _ k w) as [[r k1] w1].
  specialize (IH (with_result r (with_todo rest j)) k1 w1 eq_refl).
  cbn [with_result with_todo fj_retry fj_error fj_ack fj_goes_on] in IH.
  destruct (send_batches _ _ _ _ _ rest _ _ k1 w1) as [[e k'] w']. by eapply rtc_trans.
Qed.

Lemma flush_by_steps (retry : bool) (ack : option Z) (goes_on : bool) (max_batch_events : Z) (k : Worker) (w : W) :
  let '(r, k', w') := flush_worker utf8_error encode_batch encode_event decode_batch_response sleep wall_clock retry
                        max_batch_events k w in
  worker_advances (begin_flush retry ack goes_on max_batch_events k, w) (WEnding (flush_answer r ack) goes_on, k', w').
Proof.
  unfold flush_worker, begin_flush. destruct (is_empty (wk_buffer k)); [apply rtc_refl|].
  match goal with |- context [WFlushing ?x] => set (j := x) end.
  pose proof (batches_by_steps (fj_todo j) j (with_worker (wk_metrics k) (wk_sequence k) [] k) w eq_refl) as Hs.
  unfold j in Hs at 1. cbn [fj_todo] in Hs. cbn [fj_retry fj_error fj_ack fj_goes_on] in Hs.
  by destruct (send_batches _ _ _ _ _ _ _ _ _ _) as [[e k'] w'].
Qed.

(** * Properties *)

(** The worker's single steps and its turn as a whole agree: whatever it has
    received, the steps from there on, undisturbed, end with the same answer to
    a flush request, the same choice between going on and leaving the loop, and
    the worker and the network the turn computes. *)
Lemma turn_by_steps (r : recv_outcome) (max_batch_events : Z) (k : Worker) (w : W) :
  let '(answer, goes_on, k', w') :=
    worker_turn utf8_error encode_batch encode_event decode_batch_response sleep wall_clock r max_batch_events k w in
  worker_advances (begin_turn r max_batch_events k, w) (WEnding answer goes_on, k', w').
Proof.
  unfold worker_turn, begin_turn, flush_buffer, flush_buffer_once. destruct r as [[event|ack]| |].
  - set (k1 := with_worker _ _ _ k). destruct (max_batch_events <=? zlen (wk_buffer k1)); [|apply rtc_refl].
    pose proof (flush_by_steps true None true max_batch_events k1 w) as Hs.
    by destruct (flush_worker _ _ _ _ _ _ _ _ k1 w) as [[x k'] w'].
  - pose proof (flush_by_steps true (Some ack) true max_batch_events k w) as Hs.
    by destruct (flush_worker _ _ _ _ _ _ _ _ k w) as [[x k'] w'].
  - pose proof (flush_by_steps true None true max_batch_events k w) as Hs.
    by destruct (flush_worker _ _ _ _ _ _ _ _ k w) as [[x k'] w'].
  - pose proof (flush_by_steps false None false max_batch_events k w) as Hs.
    by destruct (flush_worker _ _ _ _ _ _ _ _ k w) as [[x k'] w'].
Qed.
End Steps.
