(* ===== verification/Controller.v ===== *)
(** [tapio-controller/src/lib.rs]: the controller's state and the operations
    behind its endpoints.  Every operation runs under one lock, so it is a
    function from state to state; the wall clock is an argument (nanoseconds
    since the epoch).  JSON, YAML and SHA-256 are arguments. *)
From Stdlib Require Import String.
From S2P Require Import Prelude RustStr BTree Wire Profile.

Local Open Scope Z_scope.

Definition CONTROLLER_ID : string := "tapio-controller/default".
Definition MAX_REQUEST_BODY_BYTES : Z := 262144.
Definition INITIAL_GENERATION : Z := 1.
Definition DEFAULT_PROFILE_YAML : string :=
  newline_str +:+ "apiVersion: tapio.false.systems/v0" +:+ newline_str +:+
  "kind: EvidenceProfile" +:+ newline_str +:+ "base: production-default" +:+ newline_str.

Inductive ConfigLoadError :=
| ReadProfile (path source : string)
| ParseProfile (path : option string) (source : string)
| ValidateProfile (path : option string) (source : ProfileError)
| SerializeConfig (source : string).

Definition ConfigLoadError_to_string (e : ConfigLoadError) : string :=
  match e with
  | ReadProfile path source => "failed to read profile " +:+ path +:+ ": " +:+ source
  | ParseProfile (Some path) source => "failed to parse profile " +:+ path +:+ ": " +:+ source
  | ParseProfile None source => "failed to parse built-in profile: " +:+ source
  | ValidateProfile (Some path) source => "invalid profile " +:+ path +:+ ": " +:+ ProfileError_to_string source
  | ValidateProfile None source => "invalid built-in profile: " +:+ ProfileError_to_string source
  | SerializeConfig source => "failed to serialize compiled config for hashing: " +:+ source
  end.

Record RegisteredAgent := {
  ra_hello : HelloRequest;
  ra_registered_at : Z;
}.

Record StoredHeartbeat := {
  sh_heartbeat : HeartbeatRequest;
  sh_seen_at : Z;
}.

Record SequenceTracking := {
  sq_last_seen : option Z;
  sq_gaps_total : Z;
  sq_regressions_total : Z;
}.

Definition SequenceTracking_default : SequenceTracking :=
  {| sq_last_seen := None; sq_gaps_total := 0; sq_regressions_total := 0 |}.

Record InnerState := {
  in_config : ConfigResponse;
  in_started_at : Z;
  in_agents : btree string RegisteredAgent;
  in_last_heartbeats : btree string StoredHeartbeat;
  in_sequences : btree string SequenceTracking;
  in_accepted_events_total : Z;
  in_rejected_events_total : Z;
  in_batches_accepted_total : Z;
  in_batches_rejected_total : Z;
}.

Record EventBatchOutcome := {
  eo_accepted : Z;
  eo_rejected : Z;
}.

(** * Configuration *)

Section Config.
Variable parse_yaml : string -> result EvidenceProfile string.
Variable config_json : CompiledConfig -> result string string.
(** The thirty-two bytes of the digest. *)
Variable sha256 : string -> list Z.

Definition hex_digit (d : Z) : ascii := if d <? 10 then chr (48 + d) else chr (87 + d).
(** [{byte:02x}] *)
Definition hex2 (b : Z) : string := String (hex_digit (b / 16)) (String (hex_digit (b mod 16)) EmptyString).

Definition config_hash (config : CompiledConfig) : result string ConfigLoadError :=
  bytes <-? map_err SerializeConfig (config_json config) ;;
  Ok ("sha256:" +:+ fold_right (fun b acc => hex2 b +:+ acc) EmptyString (sha256 bytes)).

Definition compile_profile_yaml (yaml : string) (path : option string) :
  result CompiledConfig ConfigLoadError :=
  profile <-? map_err (ParseProfile path) (parse_yaml yaml) ;;
  validated <-? map_err (ValidateProfile path) (profile_validate profile BuiltinSet_v0) ;;
  Ok (profile_compile validated).

Definition load_profile (path : string) (read : result string string) :
  result CompiledConfig ConfigLoadError :=
  content <-? map_err (ReadProfile path) read ;;
  compile_profile_yaml content (Some path).

Definition production_default_config : result CompiledConfig ConfigLoadError :=
  compile_profile_yaml DEFAULT_PROFILE_YAML None.

Definition config_response_from_compiled (config : CompiledConfig) (generation : Z) :
  result ConfigResponse ConfigLoadError :=
  hash <-? config_hash config ;;
  Ok {| cr_wire_version := WIRE_VERSION;
        cr_version := dec generation;
        cr_config_hash := hash;
        cr_config := config;
        cr_batching := {| bc_send_interval_ms := 1000; bc_max_batch_events := 256 |} |}.

Definition default_config_response : result ConfigResponse ConfigLoadError :=
  config <-? production_default_config ;;
  config_response_from_compiled config INITIAL_GENERATION.
End Config.

(** * Operations *)

Definition InnerState_new (config : ConfigResponse) (now : Z) : InnerState := {|
  in_config := config;
  in_started_at := now;
  in_agents := [];
  in_last_heartbeats := [];
  in_sequences := [];
  in_accepted_events_total := 0;
  in_rejected_events_total := 0;
  in_batches_accepted_total := 0;
  in_batches_rejected_total := 0;
|}.

Definition register_agent (hello : HelloRequest) (now : Z) (s : InnerState) :
  result HelloResponse WireError * InnerState :=
  match HelloRequest_validate hello with
  | Err e => (Err e, s)
  | Ok _ =>
      let agent_id := hello_agent_id hello in
      (Ok (HelloResponse_from_config CONTROLLER_ID (in_config s)),
       {| in_config := in_config s; in_started_at := in_started_at s;
          in_agents :=
            bt_insert agent_id {| ra_hello := hello; ra_registered_at := now |} (in_agents s);
          in_last_heartbeats := in_last_heartbeats s;
          in_sequences := bt_insert agent_id SequenceTracking_default (in_sequences s);
          in_accepted_events_total := in_accepted_events_total s;
          in_rejected_events_total := in_rejected_events_total s;
          in_batches_accepted_total := in_batches_accepted_total s;
          in_batches_rejected_total := in_batches_rejected_total s |})
  end.

Definition config_for (agent_id node_name : string) (s : InnerState) :
  result ConfigResponse WireError :=
  if blank agent_id then Err (MissingField "agent_id")
  else if blank node_name then Err (MissingField "node_name")
  else Ok (in_config s).

Definition record_heartbeat (heartbeat : HeartbeatRequest) (now : Z) (s : InnerState) :
  result HeartbeatResponse WireError * InnerState :=
  match HeartbeatRequest_validate heartbeat with
  | Err e => (Err e, s)
  | Ok _ =>
      (Ok (HeartbeatResponse_new_accepted (cr_version (in_config s))),
       {| in_config := in_config s; in_started_at := in_started_at s; in_agents := in_agents s;
          in_last_heartbeats :=
            bt_insert (hb_agent_id heartbeat) {| sh_heartbeat := heartbeat; sh_seen_at := now |}
              (in_last_heartbeats s);
          in_sequences := in_sequences s;
          in_accepted_events_total := in_accepted_events_total s;
          in_rejected_events_total := in_rejected_events_total s;
          in_batches_accepted_total := in_batches_accepted_total s;
          in_batches_rejected_total := in_batches_rejected_total s |})
  end.

Definition track_sequence (sequence : Z) (t : SequenceTracking) : SequenceTracking :=
  match sq_last_seen t with
  | None =>
      {| sq_last_seen := Some sequence; sq_gaps_total := sq_gaps_total t;
         sq_regressions_total := sq_regressions_total t |}
  | Some last_seen =>
      let next := sat_add64 last_seen 1 in
      if sequence =? next then
        {| sq_last_seen := Some sequence; sq_gaps_total := sq_gaps_total t;
           sq_regressions_total := sq_regressions_total t |}
      else if next <? sequence then
        {| sq_last_seen := Some sequence;
           sq_gaps_total := sat_add64 (sq_gaps_total t) (sat_sub64 sequence next);
           sq_regressions_total := sq_regressions_total t |}
      else
        {| sq_last_seen := sq_last_seen t; sq_gaps_total := sq_gaps_total t;
           sq_regressions_total := sat_add64 (sq_regressions_total t) 1 |}
  end.

Definition update_sequence_tracking (agent_id : string) (sequence : Z)
    (m : btree string SequenceTracking) : btree string SequenceTracking :=
  bt_insert agent_id
    (track_sequence sequence (default SequenceTracking_default (bt_get agent_id m))) m.

Definition record_event_batch (batch : EventBatchRequest) (s : InnerState) :
  result EventBatchResponse WireError * InnerState :=
  let max_batch_events := bc_max_batch_events (cr_batching (in_config s)) in
  match EventBatchRequest_validate batch max_batch_events with
  | Ok _ =>
      let accepted := zlen (eb_events batch) in
      (Ok {| ebr_wire_version := WIRE_VERSION; ebr_accepted := accepted; ebr_rejected := 0;
             ebr_next_config_version := cr_version (in_config s) |},
       {| in_config := in_config s; in_started_at := in_started_at s; in_agents := in_agents s;
          in_last_heartbeats := in_last_heartbeats s;
          in_sequences :=
            update_sequence_tracking (eb_agent_id batch) (eb_sequence batch) (in_sequences s);
          in_accepted_events_total := wrap64 (in_accepted_events_total s + accepted);
          in_rejected_events_total := in_rejected_events_total s;
          in_batches_accepted_total := wrap64 (in_batches_accepted_total s + 1);
          in_batches_rejected_total := in_batches_rejected_total s |})
  | Err error =>
      (Err error,
       {| in_config := in_config s; in_started_at := in_started_at s; in_agents := in_agents s;
          in_last_heartbeats := in_last_heartbeats s;
          in_sequences := in_sequences s;
          in_accepted_events_total := in_accepted_events_total s;
          in_rejected_events_total := wrap64 (in_rejected_events_total s + zlen (eb_events batch));
          in_batches_accepted_total := in_batches_accepted_total s;
          in_batches_rejected_total := wrap64 (in_batches_rejected_total s + 1) |})
  end.

Definition agent_count (s : InnerState) : Z := zlen (in_agents s).

Definition last_heartbeat (agent_id : string) (s : InnerState) : option StoredHeartbeat :=
  bt_get agent_id (in_last_heartbeats s).

(** [later.duration_since(earlier).ok()] *)
Definition duration_since (later earlier : Z) : option Z :=
  if earlier <=? later then Some (later - earlier) else None.

Definition is_stale (max_age now : Z) (s : InnerState) (agent_id : string) : bool :=
  match last_heartbeat agent_id s with
  | Some h =>
      match duration_since now (sh_seen_at h) with
      | Some age => max_age <? age
      | None => true
      end
  | None => true
  end.

Definition stale_agents (max_age now : Z) (s : InnerState) : list string :=
  List.filter (is_stale max_age now s) (bt_keys (in_agents s)).

Definition is_unconverged (target_hash : string) (s : InnerState) (agent_id : string) : bool :=
  match last_heartbeat agent_id s with
  | Some h => negb (String.eqb (hb_config_hash (sh_heartbeat h)) target_hash)
  | None => true
  end.

Definition unconverged_agents (target_hash : string) (s : InnerState) : list string :=
  List.filter (is_unconverged target_hash s) (bt_keys (in_agents s)).

Definition event_totals (s : InnerState) : EventBatchOutcome :=
  {| eo_accepted := in_accepted_events_total s; eo_rejected := in_rejected_events_total s |}.

Definition zero_heartbeat_counters : HeartbeatCounters := {|
  hc_events_total := 0; hc_malformed_events_total := 0; hc_lost_events_total := 0;
  hc_correlation_drops_total := 0; hc_sink_drops_total := 0;
  hc_controller_send_failures_total := 0 |}.

Definition unix_seconds (time : Z) : Z := match duration_since time 0 with Some d => as_secs d | None => 0 end.

Definition agent_status (now : Z) (s : InnerState) (agent_id : string) (r : RegisteredAgent) :
  AgentStatus :=
  let heartbeat := last_heartbeat agent_id s in
  let sequence := default SequenceTracking_default (bt_get agent_id (in_sequences s)) in
  {| as_agent_id := hello_agent_id (ra_hello r);
     as_node_name := hello_node_name (ra_hello r);
     as_tapio_version := hello_tapio_version (ra_hello r);
     as_registered_at_unix := unix_seconds (ra_registered_at r);
     as_last_heartbeat_age_seconds :=
       (fun h => match duration_since now (sh_seen_at h) with Some age => as_secs age | None => 0 end)
       <$> heartbeat;
     as_reported_config_version :=
       default EmptyString ((fun h => hb_config_version (sh_heartbeat h)) <$> heartbeat);
     as_reported_counters :=
       default zero_heartbeat_counters ((fun h => hb_counters (sh_heartbeat h)) <$> heartbeat);
     as_observers := default [] ((fun h => hb_observers (sh_heartbeat h)) <$> heartbeat);
     as_sequence := {| ss_last_seen := sq_last_seen sequence;
                       ss_gaps_total := sq_gaps_total sequence;
                       ss_regressions_total := sq_regressions_total sequence |} |}.

Definition controller_status (now : Z) (s : InnerState) : StatusResponse := {|
  sr_wire_version := WIRE_VERSION;
  sr_controller_id := CONTROLLER_ID;
  sr_started_at_unix := unix_seconds (in_started_at s);
  sr_config := {| sc_version := cr_version (in_config s);
                  sc_config_hash := cr_config_hash (in_config s) |};
  sr_totals := {| st_accepted_events_total := in_accepted_events_total s;
                  st_rejected_events_total := in_rejected_events_total s;
                  st_batches_accepted_total := in_batches_accepted_total s;
                  st_batches_rejected_total := in_batches_rejected_total s |};
  sr_agents := map (fun kv => agent_status now s (fst kv) (snd kv)) (in_agents s);
|}.

(** * Reachable states *)

(** The requests that change the state. *)
Inductive ctl_request :=
| ReqHello (hello : HelloRequest) (now : Z)
| ReqHeartbeat (heartbeat : HeartbeatRequest) (now : Z)
| ReqEvents (batch : EventBatchRequest).

Definition ctl_step (s : InnerState) (r : ctl_request) : InnerState :=
  match r with
  | ReqHello hello now => snd (register_agent hello now s)
  | ReqHeartbeat heartbeat now => snd (record_heartbeat heartbeat now s)
  | ReqEvents batch => snd (record_event_batch batch s)
  end.

(** What holds of every state: the maps are ordered, every registered agent is
    filed under its own name with a hello that passed validation and has a
    sequence, every heartbeat is filed under its agent and is valid, and the
    configuration is the one the controller started with. *)
Record ctl_inv (config : ConfigResponse) (s : InnerState) : Prop := {
  ci_config : in_config s = config;
  ci_agents_wf : bt_wf (in_agents s);
  ci_heartbeats_wf : bt_wf (in_last_heartbeats s);
  ci_sequences_wf : bt_wf (in_sequences s);
  ci_agents : forall k r, bt_get k (in_agents s) = Some r ->
    hello_agent_id (ra_hello r) = k /\ HelloRequest_validate (ra_hello r) = Ok tt /\
    is_Some (bt_get k (in_sequences s));
  ci_heartbeats : forall k h, bt_get k (in_last_heartbeats s) = Some h ->
    hb_agent_id (sh_heartbeat h) = k /\ HeartbeatRequest_validate (sh_heartbeat h) = Ok tt;
}.

(** * Lemmas *)

Lemma ctl_init_inv (config : ConfigResponse) (now : Z) : ctl_inv config (InnerState_new config now).
Proof. by constructor. Qed.

Lemma insert_get_cases {V : Type} (k k' : string) (v v' : V) (m : btree string V) :
  bt_get k' (bt_insert k v m) = Some v' -> (k' = k /\ v' = v) \/ bt_get k' m = Some v'.
Proof.
  destruct (decide (k = k')) as [<-|Hne].
  - rewrite bt_get_insert_eq. intros [= ->]. auto.
  - rewrite bt_get_insert_ne by done. auto.
Qed.

Lemma insert_get_some {V : Type} (k k' : string) (v : V) (m : btree string V) :
  k' = k \/ is_Some (bt_get k' m) -> is_Some (bt_get k' (bt_insert k v m)).
Proof.
  intros H. destruct (decide (k = k')) as [<-|Hne]; [rewrite bt_get_insert_eq; eauto|].
  rewrite bt_get_insert_ne by done. naive_solver.
Qed.

Lemma register_agent_inv (config : ConfigResponse) (hello : HelloRequest) (now : Z) (s : InnerState) :
  ctl_inv config s -> ctl_inv config (snd (register_agent hello now s)).
Proof.
  intros [Hc Ha Hh Hs HA HH]. unfold register_agent.
  destruct (HelloRequest_validate hello) as [[]|e] eqn:E; [|by constructor].
  constructor; simpl; auto using bt_insert_wf.
  intros k r [[-> ->]|Hk]%insert_get_cases.
  - split; [done|]. split; [done|]. apply insert_get_some. auto.
  - destruct (HA k r Hk) as (? & ? & ?). split; [done|]. split; [done|]. apply insert_get_some. auto.
Qed.

Lemma record_heartbeat_inv (config : ConfigResponse) (h : HeartbeatRequest) (now : Z) (s : InnerState) :
  ctl_inv config s -> ctl_inv config (snd (record_heartbeat h now s)).
Proof.
  intros [Hc Ha Hh Hs HA HH]. unfold record_heartbeat.
  destruct (HeartbeatRequest_validate h) as [[]|e] eqn:E; [|by constructor].
  constructor; simpl; auto using bt_insert_wf.
  intros k r [[-> ->]|Hk]%insert_get_cases; auto.
Qed.

Lemma record_event_batch_inv (config : ConfigResponse) (b : EventBatchRequest) (s : InnerState) :
  ctl_inv config s -> ctl_inv config (snd (record_event_batch b s)).
Proof.
  intros [Hc Ha Hh Hs HA HH]. unfold record_event_batch.
  destruct (EventBatchRequest_validate b _) as [[]|e]; [|by constructor].
  constructor; simpl; auto; [by apply bt_insert_wf|].
  intros k r Hk. destruct (HA k r Hk) as (? & ? & ?). split; [done|]. split; [done|].
  apply insert_get_some. auto.
Qed.

Lemma ctl_steps_inv (config : ConfigResponse) (rs : list ctl_request) (s : InnerState) :
  ctl_inv config s -> ctl_inv config (fold_left ctl_step rs s).
Proof.
  revert s. induction rs as [|r rs IH]; intros s Hs; [done|]. apply IH.
  destruct r; simpl; auto using register_agent_inv, record_heartbeat_inv, record_event_batch_inv.
Qed.

(** * Sequences *)

Definition track_all (seqs : list Z) (t : SequenceTracking) : SequenceTracking :=
  fold_left (fun t s => track_sequence s t) seqs t.

(** After the first batch [f] and [n] batches in all: the last sequence seen, and
    the accounting of gaps and regressions. *)
Definition tracked (f n : Z) (t : SequenceTracking) : Prop :=
  exists last, sq_last_seen t = Some last /\ 0 <= f <= last /\ last < U64_MAX /\
    0 <= sq_gaps_total t /\ 0 <= sq_regressions_total t /\
    sq_gaps_total t + (n - sq_regressions_total t) = last - f + 1 /\
    sq_regressions_total t < n.

Lemma track_step (f n s : Z) (t : SequenceTracking) :
  0 <= s < U64_MAX -> n < U64_MAX -> tracked f n t -> tracked f (n + 1) (track_sequence s t).
Proof.
  intros Hs Hn (last & Hl & Hf & Hm & Hg & Hr & Hsum & Hrn). unfold track_sequence. rewrite Hl.
  assert (Hnext : sat_add64 last 1 = last + 1) by width_lia. rewrite Hnext.
  destruct (Z.eqb_spec s (last + 1)) as [->|Hne].
  { exists (last + 1). simpl. repeat split; lia. }
  destruct (Z.ltb_spec (last + 1) s).
  - exists s. simpl. assert (sat_sub64 s (last + 1) = s - (last + 1)) as -> by width_lia.
    rewrite sat_add64_small by lia. repeat split; lia.
  - exists last. simpl. rewrite sat_add64_small by lia. repeat split; lia || done.
Qed.

Lemma track_all_spec (seqs : list Z) (f n : Z) (t : SequenceTracking) :
  Forall (fun s => 0 <= s < U64_MAX) seqs -> n + zlen seqs <= U64_MAX -> tracked f n t ->
  tracked f (n + zlen seqs) (track_all seqs t).
Proof.
  revert n t. induction seqs as [|s seqs IH]; intros n t HF Hn Ht; simpl.
  { rewrite zlen_nil, Z.add_0_r. done. }
  apply Forall_cons in HF as [Hs HF]. rewrite zlen_cons in *. pose proof (zlen_nonneg seqs).
  replace (n + (1 + zlen seqs)) with ((n + 1) + zlen seqs) by lia.
  apply IH; [done|lia|]. apply track_step; [done|lia|done].
Qed.

(** The last sequence seen is the largest. *)
Lemma track_all_max (seqs : list Z) (t : SequenceTracking) (last : Z) :
  Forall (fun s => 0 <= s < U64_MAX) seqs -> sq_last_seen t = Some last -> 0 <= last < U64_MAX ->
  sq_last_seen (track_all seqs t) = Some (fold_left Z.max seqs last).
Proof.
  revert t last. induction seqs as [|s seqs IH]; intros t last HF Ht Hl; simpl; [done|].
  apply Forall_cons in HF as [Hs HF].
  apply IH; [done| |lia]. unfold track_sequence. rewrite Ht.
  assert (Hnext : sat_add64 last 1 = last + 1) by width_lia. rewrite Hnext.
  destruct (Z.eqb_spec s (last + 1)) as [->|Hne]; [simpl; f_equal; lia|].
  destruct (Z.ltb_spec (last + 1) s); simpl; rewrite ?Ht; f_equal; lia.
Qed.

(** * Properties *)

(** C27. Whatever requests arrive in whatever order, the controller's state stays
    consistent: its configuration is the one it started with, every registered
    agent sits under its own identifier with a valid hello and a sequence, and
    every stored heartbeat is valid and filed under its agent. *)
Theorem controller_invariant (config : ConfigResponse) (started : Z) (rs : list ctl_request) :
  ctl_inv config (fold_left ctl_step rs (InnerState_new config started)).
Proof. apply ctl_steps_inv, ctl_init_inv. Qed.

(** The sequence accounts balance: for the batches an agent sends after a
    hello, from the first sequence [f] on, the last sequence seen is the
    largest, and the gaps counted are exactly the sequences missing between
    the first and the last once regressions are set aside. *)
Lemma sequence_accounting (f : Z) (seqs : list Z)
    (Hf : 0 <= f < U64_MAX) (Hseqs : Forall (fun s => 0 <= s < U64_MAX) seqs)
    (Hlen : zlen seqs < U64_MAX) :
  let t := track_all (f :: seqs) SequenceTracking_default in
  sq_last_seen t = Some (fold_left Z.max seqs f) /\
  sq_gaps_total t =
    (fold_left Z.max seqs f - f + 1) - (1 + zlen seqs - sq_regressions_total t) /\
  0 <= sq_gaps_total t /\ 0 <= sq_regressions_total t <= zlen seqs.
Proof.
  simpl. set (t0 := track_sequence f SequenceTracking_default).
  change (fold_left (fun t s => track_sequence s t) seqs t0) with (track_all seqs t0).
  assert (Ht0 : tracked f 1 t0) by (exists f; simpl; repeat split; lia).
  pose proof (zlen_nonneg seqs).
  destruct (track_all_spec seqs f 1 t0 Hseqs ltac:(lia) Ht0) as (last & Hl & Hfl & Hm & Hg & Hr & Hsum & Hrn).
  assert (Hmax : sq_last_seen (track_all seqs t0) = Some (fold_left Z.max seqs f)).
  { by apply track_all_max. }
  rewrite Hl in Hmax. injection Hmax as ->. split; [done|]. repeat split; lia.
Qed.

(** An event batch is counted once, as a whole, on the side its validation
    decides: accepted batches add their events to the accepted total and move
    the agent's sequence, rejected ones add to the rejected total and move
    nothing else; the answer names the version of the running configuration. *)
Lemma event_batch_accounting (batch : EventBatchRequest) (s : InnerState) :
  let s' := snd (record_event_batch batch s) in
  in_config s' = in_config s /\ in_agents s' = in_agents s /\
  in_last_heartbeats s' = in_last_heartbeats s /\
  match EventBatchRequest_validate batch (bc_max_batch_events (cr_batching (in_config s))) with
  | Ok _ =>
      fst (record_event_batch batch s) =
        Ok {| ebr_wire_version := WIRE_VERSION; ebr_accepted := zlen (eb_events batch);
              ebr_rejected := 0; ebr_next_config_version := cr_version (in_config s) |} /\
      event_totals s' = {| eo_accepted := wrap64 (in_accepted_events_total s + zlen (eb_events batch));
                           eo_rejected := in_rejected_events_total s |} /\
      (forall k, bt_get k (in_sequences s') =
         if decide (k = eb_agent_id batch) then
           Some (track_sequence (eb_sequence batch)
                   (default SequenceTracking_default (bt_get k (in_sequences s))))
         else bt_get k (in_sequences s))
  | Err e =>
      fst (record_event_batch batch s) = Err e /\
      event_totals s' = {| eo_accepted := in_accepted_events_total s;
                           eo_rejected := wrap64 (in_rejected_events_total s + zlen (eb_events batch)) |} /\
      in_sequences s' = in_sequences s
  end.
Proof.
  unfold record_event_batch. destruct (EventBatchRequest_validate batch _) as [[]|e]; simpl; [|done].
  do 5 (split; [done|]). intros k. unfold update_sequence_tracking.
  case_decide; [subst; by rewrite bt_get_insert_eq|by rewrite bt_get_insert_ne].
Qed.

(** The status answer of a reachable state always passes the validation the
    operator's client runs on it, and lists exactly the registered agents. *)
Lemma status_is_valid (config : ConfigResponse) (started now : Z) (rs : list ctl_request)
    (Hconfig : blank (cr_version config) = false) :
  let s := fold_left ctl_step rs (InnerState_new config started) in
  StatusResponse_validate (controller_status now s) = Ok tt /\
  map as_agent_id (sr_agents (controller_status now s)) = bt_keys (in_agents s).
Proof.
  intros s. assert (Hinv : ctl_inv config s) by apply ctl_steps_inv, ctl_init_inv.
  destruct Hinv as [Hc Ha _ _ HA _].
  assert (Hall : forall kv, In kv (in_agents s) ->
    hello_agent_id (ra_hello (snd kv)) = fst kv /\ HelloRequest_validate (ra_hello (snd kv)) = Ok tt).
  { intros [k r] Hin. apply bt_In_get in Hin; [|done]. destruct (HA k r Hin) as (? & ? & _). done. }
  split.
  - unfold StatusResponse_validate, StatusConfig_validate. autorewrite with tapio. cbn [controller_status sr_config sc_version sr_wire_version sr_controller_id sr_agents].
    rewrite Hc. split; [done|]. split; [done|]. split; [done|]. split; [|done].
    apply try_for_each_Ok. apply Forall_forall. intros a Hin.
    apply list_elem_of_In, in_map_iff in Hin as ([k r] & <- & Hin).
    destruct (Hall _ Hin) as [_ Hv]. simpl in Hv. unfold HelloRequest_validate in Hv.
    unfold AgentStatus_validate. autorewrite with tapio in Hv |- *. simpl. tauto.
  - simpl. unfold bt_keys. rewrite map_map. apply map_ext_in. intros kv Hin. simpl. by apply Hall.
Qed.

Lemma sequence_accounting_witness :
  let t := track_all [10; 11; 15; 12; 16] SequenceTracking_default in
  sq_last_seen t = Some 16 /\ sq_gaps_total t = 3 /\ sq_regressions_total t = 1 /\
  sq_gaps_total t = (16 - 10 + 1) - (1 + 4 - sq_regressions_total t).
Proof.
  split; [reflexivity|]. split; [reflexivity|]. split; [reflexivity|].
  refine (proj1 (proj2 (sequence_accounting 10 [11; 15; 12; 16] _ _ _))); unfold U64_MAX;
    [lia|repeat constructor; lia|vm_compute; reflexivity].
Defined.

Definition sample_hello : HelloRequest := {|
  hello_wire_version := WIRE_VERSION; hello_agent_id := "node/w1"; hello_node_name := "w1";
  hello_tapio_version := "4.0.0"; hello_kernel_release := "6.8.0"; hello_arch := "x86_64";
  hello_capabilities := []; hello_object_sizes := []; hello_map_counts := [] |}.

Lemma status_is_valid_witness :
  StatusResponse_validate (controller_status 7000000000
    (fold_left ctl_step [ReqHello sample_hello 5000000000]
       (InnerState_new ConfigResponse_default_v1 0))) = Ok tt.
Proof. apply (status_is_valid ConfigResponse_default_v1 0 7000000000). reflexivity. Defined.
