(* ===== verification/NetAddr.v ===== *)
(** [std::net::SocketAddr]'s parser: a dotted IPv4 address or a bracketed IPv6
    address, a colon and a port, and nothing else.  Host names are not
    addresses. *)
From Stdlib Require Import String.
From S2P Require Import Prelude RustStr.

Local Open Scope Z_scope.

Inductive SocketAddr :=
| SocketV4 (ip : list Z) (port : Z)
| SocketV6 (segments : list Z) (scope_id port : Z).

#[export] Instance SocketAddr_eq_dec : EqDecision SocketAddr.
Proof. solve_decision. Defined.

(** A parser consumes a prefix or fails without consuming. *)
Definition parser (A : Type) : Type := string -> option (A * string).

Definition given_char (c : ascii) : parser unit :=
  fun s => match s with
           | String a s' => if Ascii.eqb a c then Some (tt, s') else None
           | EmptyString => None
           end.

Definition hex_val (a : ascii) : option Z :=
  let v := byte_val a in
  if (48 <=? v) && (v <=? 57) then Some (v - 48)
  else if (97 <=? v) && (v <=? 102) then Some (v - 87)
  else if (65 <=? v) && (v <=? 70) then Some (v - 55)
  else None.

Definition digit_in (radix : Z) (a : ascii) : option Z :=
  match hex_val a with
  | Some d => if d <? radix then Some d else None
  | None => None
  end.

(** The digits at the front: value, count, rest. *)
Fixpoint read_digits (radix : Z) (s : string) (value : Z) (count : nat) : Z * nat * string :=
  match s with
  | String a s' =>
      match digit_in radix a with
      | Some d => read_digits radix s' (value * radix + d) (S count)
      | None => (value, count, s)
      end
  | EmptyString => (value, count, s)
  end.

(** A number of at most [max_digits] digits and at most [max]. *)
Definition read_number (radix : Z) (max_digits : option nat) (allow_zero_prefix : bool) (max : Z) :
  parser Z :=
  fun s =>
    let '(value, count, rest) := read_digits radix s 0 0 in
    let leading_zero := match s with String a _ => Ascii.eqb a "0" | EmptyString => false end in
    let too_long := match max_digits with Some m => (m <? count)%nat | None => false end in
    if (count =? 0)%nat || too_long then None
    else if negb allow_zero_prefix && leading_zero && (1 <? count)%nat then None
    else if value <=? max then Some (value, rest) else None.

(** The separator before every item but the first. *)
Definition separated {A : Type} (sep : ascii) (index : nat) (p : parser A) : parser A :=
  fun s =>
    if (index =? 0)%nat then p s
    else match given_char sep s with
         | Some (_, s') => p s'
         | None => None
         end.

Definition read_octet : parser Z := read_number 10 (Some 3%nat) false 255.

Definition read_ipv4 : parser (list Z) :=
  fun s =>
    match separated "." 0 read_octet s with
    | None => None
    | Some (a, s) =>
        match separated "." 1 read_octet s with
        | None => None
        | Some (b, s) =>
            match separated "." 2 read_octet s with
            | None => None
            | Some (c, s) =>
                match separated "." 3 read_octet s with
                | None => None
                | Some (d, s) => Some ([a; b; c; d], s)
                end
            end
        end
    end.

(** Up to [n] more groups from index [i]: the groups, whether an embedded IPv4
    address ended them, the rest. *)
Fixpoint read_groups (n i : nat) (s : string) : list Z * bool * string :=
  match n with
  | O => ([], false, s)
  | S n' =>
      let v4 := if (0 <? n')%nat then separated ":" i read_ipv4 s else None in
      match v4 with
      | Some ([a; b; c; d], s') => ([a * 256 + b; c * 256 + d], true, s')
      | _ =>
          match separated ":" i (read_number 16 (Some 4%nat) true 65535) s with
          | Some (g, s') => let '(gs, b, s'') := read_groups n' (S i) s' in (g :: gs, b, s'')
          | None => ([], false, s)
          end
      end
  end.

Definition read_ipv6 : parser (list Z) :=
  fun s =>
    let '(head, head_ipv4, s1) := read_groups 8 0 s in
    if (length head =? 8)%nat then Some (head, s1)
    else if head_ipv4 then None
    else
      match given_char ":" s1 with
      | None => None
      | Some (_, s2) =>
          match given_char ":" s2 with
          | None => None
          | Some (_, s3) =>
              let '(tail, _, s4) := read_groups (8 - (length head + 1)) 0 s3 in
              Some (head ++ replicate (8 - length head - length tail) 0 ++ tail, s4)
          end
      end.

Definition read_port : parser Z :=
  fun s => match given_char ":" s with
           | Some (_, s') => read_number 10 None true U16_MAX s'
           | None => None
           end.

Definition read_socket_v4 : parser SocketAddr :=
  fun s =>
    match read_ipv4 s with
    | None => None
    | Some (ip, s) =>
        match read_port s with
        | Some (port, s) => Some (SocketV4 ip port, s)
        | None => None
        end
    end.

Definition read_scope (s : string) : Z * string :=
  match given_char "%" s with
  | Some (_, s') =>
      match read_number 10 None true U32_MAX s' with
      | Some (z, s'') => (z, s'')
      | None => (0, s)
      end
  | None => (0, s)
  end.

Definition read_socket_v6 : parser SocketAddr :=
  fun s =>
    match given_char "[" s with
    | None => None
    | Some (_, s) =>
        match read_ipv6 s with
        | None => None
        | Some (segs, s) =>
            let '(scope, s) := read_scope s in
            match given_char "]" s with
            | None => None
            | Some (_, s) =>
                match read_port s with
                | Some (port, s) => Some (SocketV6 segs scope port, s)
                | None => None
                end
            end
        end
    end.

(** [s.parse::<SocketAddr>().ok()] *)
Definition parse_socket_addr (s : string) : option SocketAddr :=
  let r := match read_socket_v4 s with Some r => Some r | None => read_socket_v6 s end in
  match r with
  | Some (addr, rest) => if str_empty rest then Some addr else None
  | None => None
  end.

Example addr_v4 : parse_socket_addr "127.0.0.1:4318" = Some (SocketV4 [127; 0; 0; 1] 4318).
Proof. reflexivity. Qed.

Example addr_v6 : parse_socket_addr "[::1]:80" = Some (SocketV6 [0; 0; 0; 0; 0; 0; 0; 1] 0 80).
Proof. reflexivity. Qed.

Example addr_v6_mapped :
  parse_socket_addr "[::ffff:10.0.0.1%3]:80" = Some (SocketV6 [0; 0; 0; 0; 0; 65535; 2560; 1] 3 80).
Proof. reflexivity. Qed.

Example addr_octal : parse_socket_addr "127.0.0.01:80" = None.
Proof. reflexivity. Qed.

Example addr_name : parse_socket_addr "localhost:4318" = None.
Proof. reflexivity. Qed.

(** An address starts with a digit or a bracket. *)
Lemma parse_socket_addr_head (a : ascii) (s : string) :
  is_digit a = false -> Ascii.eqb a "[" = false -> parse_socket_addr (String a s) = None.
Proof.
  intros Hd Hb. unfold parse_socket_addr, read_socket_v6, given_char. rewrite Hb.
  assert (Hn : read_socket_v4 (String a s) = None); [|by rewrite Hn].
  unfold read_socket_v4, read_ipv4, separated, read_octet, read_number. simpl.
  assert (Hdig : digit_in 10 a = None).
  { unfold digit_in, hex_val. unfold is_digit in Hd. rewrite Hd.
    destruct ((97 <=? byte_val a) && (byte_val a <=? 102)) eqn:E1;
      [destruct (Z.ltb_spec (byte_val a - 87) 10); [lia|done]|].
    destruct ((65 <=? byte_val a) && (byte_val a <=? 70)) eqn:E2;
      [destruct (Z.ltb_spec (byte_val a - 55) 10); [lia|done]|done]. }
  by rewrite Hdig.
Qed.
