(* ===== verification/ControllerHttp.v ===== *)
(** [tapio-controller/src/lib.rs], the HTTP surface, and the arguments of its
    [main.rs].  axum extracts the request (a decoded body or its rejection,
    the query, the headers) and serializes the answer; both are outside, so a
    handler is a function from what was extracted to an answer. *)
From Stdlib Require Import String.
From S2P Require Import Prelude RustStr BTree Wire Profile Controller NetAddr.

Local Open Scope Z_scope.

(** A rejection of axum's [Json] extractor: its status and text. *)
Record JsonRejection := {
  rej_status : Z;
  rej_text : string;
}.

(** The extractor behind the router's [DefaultBodyLimit]: a body beyond the limit
    is refused with 413 before it is decoded; [decode] is the rest of axum's
    [Json], [text] its rejection. *)
Definition json_body {T : Type} (decode : string -> result T JsonRejection) (text body : string) :
  result T JsonRejection :=
  if MAX_REQUEST_BODY_BYTES <? slen body then Err {| rej_status := 413; rej_text := text |} else decode body.

Inductive ApiError :=
| ApiWire (e : WireError)
| ApiMalformedJson (message : string)
| ApiPayloadTooLarge (message : string).

Record ErrorEnvelope := {
  env_code : string;
  env_message : string;
}.

Inductive ApiBody :=
| BodyEmpty
| BodyHello (r : HelloResponse)
| BodyConfig (r : ConfigResponse)
| BodyHeartbeat (r : HeartbeatResponse)
| BodyEvents (r : EventBatchResponse)
| BodyStatus (r : StatusResponse)
| BodyError (e : ErrorEnvelope).

Record ApiResponse := {
  api_status : Z;
  api_etag : option string;
  api_body : ApiBody;
}.

Definition json_response (status : Z) (body : ApiBody) : ApiResponse :=
  {| api_status := status; api_etag := None; api_body := body |}.

Definition json_payload {T : Type} (payload : result T JsonRejection) : result T ApiError :=
  map_err (fun error =>
    if rej_status error =? 413 then ApiPayloadTooLarge (rej_text error)
    else ApiMalformedJson (rej_text error)) payload.

Definition error_envelope (error : WireError) : ErrorEnvelope :=
  match error with
  | UnsupportedVersion version =>
      {| env_code := "UNSUPPORTED_VERSION"; env_message := "unsupported wire version " +:+ version |}
  | MissingField field => {| env_code := "MISSING_FIELD"; env_message := field +:+ " is required" |}
  | InvalidField field reason =>
      {| env_code := "INVALID_FIELD"; env_message := field +:+ ": " +:+ reason |}
  | ReasoningField field =>
      {| env_code := "REASONING_FIELD";
         env_message := "event facts contain reasoning field " +:+ field |}
  end.

Definition api_error_response (e : ApiError) : ApiResponse :=
  match e with
  | ApiWire error =>
      let status :=
        match error with
        | UnsupportedVersion _ => 400
        | MissingField _ => 400
        | InvalidField _ _ => 400
        | ReasoningField _ => 422
        end in
      json_response status (BodyError (error_envelope error))
  | ApiMalformedJson message =>
      json_response 400 (BodyError {| env_code := "MALFORMED_JSON"; env_message := message |})
  | ApiPayloadTooLarge message =>
      json_response 413 (BodyError {| env_code := "PAYLOAD_TOO_LARGE"; env_message := message |})
  end.

(** A handler's [Result<Json<_>, ApiError>] as a response. *)
Definition respond_with {A : Type} (wrap : A -> ApiBody) (r : result A ApiError) : ApiResponse :=
  match r with
  | Ok a => json_response 200 (wrap a)
  | Err e => api_error_response e
  end.

Fixpoint find_pair (name : string) (pairs : list string) : option string :=
  match pairs with
  | [] => None
  | p :: rest =>
      match split_once "=" p with
      | Some (key, value) => if String.eqb key name then Some value else find_pair name rest
      | None => find_pair name rest
      end
  end.

(** [uri.query()] is None when the URI has no question mark. *)
Definition query_param (query : option string) (name : string) : option string :=
  match query with
  | None => None
  | Some q => find_pair name (split "&" q)
  end.

Definition quoted_etag (config_hash : string) : string := quote_str +:+ config_hash +:+ quote_str.

(** The [If-None-Match] header, None when absent or not visible ASCII. *)
Definition if_none_match_matches (header : option string) (etag : string) : bool :=
  match header with
  | Some value => String.eqb (trim value) etag
  | None => false
  end.

Section Handlers.
(** [HeaderValue::from_str]: whether the text can be a header value. *)
Variable header_value_ok : string -> bool.

Definition insert_etag (etag : string) (r : ApiResponse) : ApiResponse :=
  if header_value_ok etag then
    {| api_status := api_status r; api_etag := Some etag; api_body := api_body r |}
  else r.

Definition handle_hello (req : result HelloRequest JsonRejection) (now : Z) (s : InnerState) :
  ApiResponse * InnerState :=
  match json_payload req with
  | Err e => (api_error_response e, s)
  | Ok req =>
      let '(r, s) := register_agent req now s in (respond_with BodyHello (map_err ApiWire r), s)
  end.

Definition handle_config (query if_none_match : option string) (s : InnerState) : ApiResponse :=
  match
    (agent_id <-? ok_or (query_param query "agent_id") (ApiWire (MissingField "agent_id")) ;;
     node_name <-? ok_or (query_param query "node_name") (ApiWire (MissingField "node_name")) ;;
     map_err ApiWire (config_for agent_id node_name s))
  with
  | Err e => api_error_response e
  | Ok config =>
      let etag := quoted_etag (cr_config_hash config) in
      if if_none_match_matches if_none_match etag then
        insert_etag etag {| api_status := 304; api_etag := None; api_body := BodyEmpty |}
      else insert_etag etag (json_response 200 (BodyConfig config))
  end.

Definition handle_heartbeat (req : result HeartbeatRequest JsonRejection) (now : Z) (s : InnerState) :
  ApiResponse * InnerState :=
  match json_payload req with
  | Err e => (api_error_response e, s)
  | Ok req =>
      let '(r, s) := record_heartbeat req now s in (respond_with BodyHeartbeat (map_err ApiWire r), s)
  end.

Definition handle_events (req : result EventBatchRequest JsonRejection) (s : InnerState) :
  ApiResponse * InnerState :=
  match json_payload req with
  | Err e => (api_error_response e, s)
  | Ok req =>
      let '(r, s) := record_event_batch req s in (respond_with BodyEvents (map_err ApiWire r), s)
  end.

Definition handle_status (now : Z) (s : InnerState) : ApiResponse :=
  json_response 200 (BodyStatus (controller_status now s)).

Definition handle_not_found : ApiResponse :=
  json_response 404 (BodyError {| env_code := "UNKNOWN_ENDPOINT";
                                  env_message := "unknown tapio-controller endpoint" |}).

(** What the router extracted from a request. *)
Inductive http_request :=
| PostHello (body : result HelloRequest JsonRejection)
| GetConfig (query if_none_match : option string)
| PostHeartbeat (body : result HeartbeatRequest JsonRejection)
| PostEvents (body : result EventBatchRequest JsonRejection)
| GetStatus
| OtherPath.

Definition route (r : http_request) (now : Z) (s : InnerState) : ApiResponse * InnerState :=
  match r with
  | PostHello body => handle_hello body now s
  | GetConfig query header => (handle_config query header s, s)
  | PostHeartbeat body => handle_heartbeat body now s
  | PostEvents body => handle_events body s
  | GetStatus => (handle_status now s, s)
  | OtherPath => (handle_not_found, s)
  end.

(** * Lemmas *)

Definition is_error_status (status : Z) : bool := 400 <=? status.

Lemma handle_config_cases (query header : option string) (s : InnerState) :
  handle_config query header s =
  match query_param query "agent_id", query_param query "node_name" with
  | Some agent_id, Some node_name =>
      match config_for agent_id node_name s with
      | Ok config =>
          let etag := quoted_etag (cr_config_hash config) in
          if if_none_match_matches header etag then
            insert_etag etag {| api_status := 304; api_etag := None; api_body := BodyEmpty |}
          else insert_etag etag (json_response 200 (BodyConfig config))
      | Err e => api_error_response (ApiWire e)
      end
  | None, _ => api_error_response (ApiWire (MissingField "agent_id"))
  | Some _, None => api_error_response (ApiWire (MissingField "node_name"))
  end.
Proof.
  unfold handle_config. destruct (query_param query "agent_id") as [a|]; simpl; [|done].
  destruct (query_param query "node_name") as [n|]; simpl; [|done].
  by destruct (config_for a n s).
Qed.

Lemma insert_etag_fields (etag : string) (r : ApiResponse) :
  api_status (insert_etag etag r) = api_status r /\ api_body (insert_etag etag r) = api_body r.
Proof. unfold insert_etag. by destruct (header_value_ok etag). Qed.

(** An error answer: neither 304 nor 200. *)
Ltac refute_etag :=
  split; [split; [done|intros (? & ? & ? & ? & ? & ? & ? & ? & ?); congruence]|done].

(** * Properties *)

(** No request makes the controller answer an error after changing the state
    other than an event batch that failed validation, which is counted: a
    client error on any other endpoint leaves the state exactly as it was,
    and reading the configuration or the status never changes it. *)
Lemma error_answers_change_nothing (r : http_request) (now : Z) (s : InnerState)
    (Herr : is_error_status (api_status (fst (route r now s))) = true)
    (Hev : forall b, r <> PostEvents (Ok b)) :
  snd (route r now s) = s.
Proof.
  destruct r as [[req|rej]|query header|[req|rej]|[req|rej]| |]; try done; simpl in *.
  - unfold handle_hello, register_agent in *. simpl in *.
    by destruct (HelloRequest_validate req).
  - unfold handle_heartbeat, record_heartbeat in *. simpl in *.
    by destruct (HeartbeatRequest_validate req).
  - by destruct (Hev req).
Qed.

(** The configuration endpoint answers 304 exactly when the request names an
    agent and a node and its entity tag, apart from white space around it, is
    the quoted hash of the running configuration; a 200 answer carries that
    configuration, and either carries the tag when it can be a header. *)
Lemma config_endpoint_spec (query header : option string) (s : InnerState) :
  (api_status (handle_config query header s) = 304 <->
   exists agent_id node_name value,
     query_param query "agent_id" = Some agent_id /\ query_param query "node_name" = Some node_name /\
     blank agent_id = false /\ blank node_name = false /\
     header = Some value /\ trim value = quoted_etag (cr_config_hash (in_config s))) /\
  (api_status (handle_config query header s) = 200 ->
   api_body (handle_config query header s) = BodyConfig (in_config s) /\
   (header_value_ok (quoted_etag (cr_config_hash (in_config s))) = true ->
    api_etag (handle_config query header s) = Some (quoted_etag (cr_config_hash (in_config s))))).
Proof.
  rewrite handle_config_cases. unfold config_for.
  destruct (query_param query "agent_id") as [a|]; [|refute_etag].
  destruct (query_param query "node_name") as [n|]; [|refute_etag].
  destruct (blank a) eqn:Ha; [refute_etag|].
  destruct (blank n) eqn:Hn; [refute_etag|].
  unfold if_none_match_matches, insert_etag. destruct header as [v|].
  - destruct (String.eqb_spec (trim v) (quoted_etag (cr_config_hash (in_config s)))) as [E|E].
    + destruct (header_value_ok _); simpl; (split; [split; [|done]|done]); intros _;
        exists a, n, v; auto 10.
    + destruct (header_value_ok _); simpl; (split; [split; [done|]|done]);
        intros (? & ? & ? & ? & ? & ? & ? & [= <-] & ?); done.
  - destruct (header_value_ok _); simpl; (split; [split; [done|]|done]);
      intros (? & ? & ? & ? & ? & ? & ? & ? & ?); congruence.
Qed.
End Handlers.

Lemma error_answers_change_nothing_witness :
  snd (route (fun _ => true) (PostHello (Err {| rej_status := 413; rej_text := "length limit exceeded" |}))
    5000000000 (InnerState_new ConfigResponse_default_v1 0)) = InnerState_new ConfigResponse_default_v1 0.
Proof. apply error_answers_change_nothing; [reflexivity|discriminate]. Defined.

(** * Arguments *)

Record ControllerArgs := {
  cargs_addr : SocketAddr;
  cargs_profile : option string;
}.

Fixpoint controller_args_loop (args : list string) (addr : option SocketAddr) (profile : option string) :
  result ControllerArgs string :=
  match args with
  | [] => Ok {| cargs_addr := default (SocketV4 [127; 0; 0; 1] 8080) addr; cargs_profile := profile |}
  | arg :: rest =>
      if String.eqb arg "--profile" then
        match rest with
        | [] => Err "--profile requires a path"
        | path :: rest' =>
            match profile with
            | Some _ => Err "--profile may be provided at most once in v0"
            | None => controller_args_loop rest' addr (Some path)
            end
        end
      else if starts_with arg "--" then Err ("unknown argument " +:+ arg)
      else
        match parse_socket_addr arg with
        | None => Err "invalid socket address syntax"
        | Some a =>
            match addr with
            | Some _ => Err "controller address may be provided at most once"
            | None => controller_args_loop rest (Some a) profile
            end
        end
  end.

Definition controller_parse_args (args : list string) : result ControllerArgs string :=
  controller_args_loop args None None.

Example controller_args_example :
  controller_parse_args ["--profile"; "p.yaml"; "0.0.0.0:9000"] =
  Ok {| cargs_addr := SocketV4 [0; 0; 0; 0] 9000; cargs_profile := Some "p.yaml" |}.
Proof. reflexivity. Qed.

(** [main], up to the listener: the address to bind and the state to serve, or
    the error the process ends with. *)
Section Main.
Variable parse_yaml : string -> result EvidenceProfile string.
Variable config_json : CompiledConfig -> result string string.
Variable sha256 : string -> list Z.
(** [std::fs::read_to_string] *)
Variable read_file : string -> result string string.

Definition controller_main (args : list string) (now : Z) : result (SocketAddr * InnerState) string :=
  args <-? controller_parse_args args ;;
  config <-?
    map_err ConfigLoadError_to_string
      match cargs_profile args with
      | Some path =>
          compiled <-? load_profile parse_yaml path (read_file path) ;;
          config_response_from_compiled config_json sha256 compiled 1
      | None => default_config_response parse_yaml config_json sha256
      end ;;
  Ok (cargs_addr args, InnerState_new config now).

(** The profile a command line names: the file's text, or the built-in default. *)
Definition profile_source (a : ControllerArgs) : result string string :=
  match cargs_profile a with Some path => read_file path | None => Ok DEFAULT_PROFILE_YAML end.

(** The controller starts only with the profile its arguments name, if it
    validates, and serves it as the first generation. *)
Lemma controller_main_Ok (args : list string) (now : Z) (addr : SocketAddr) (s : InnerState) :
  controller_main args now = Ok (addr, s) ->
  exists a yaml c, controller_parse_args args = Ok a /\ profile_source a = Ok yaml /\
    compile_profile_yaml parse_yaml yaml (cargs_profile a) = Ok c /\
    config_response_from_compiled config_json sha256 c 1 = Ok (in_config s) /\ in_agents s = [].
Proof.
  unfold controller_main, profile_source. intros H. apply rbind_Ok in H as (a & Ea & H).
  apply rbind_Ok in H as (config & Hc & [= _ <-]).
  apply map_err_Ok in Hc. exists a. destruct (cargs_profile a) as [path|].
  - apply rbind_Ok in Hc as (c & Hl & Hr). unfold load_profile in Hl. apply rbind_Ok in Hl as (yaml & Hy & Hc).
    apply map_err_Ok in Hy. by exists yaml, c.
  - unfold default_config_response in Hc. apply rbind_Ok in Hc as (c & Hl & Hr). by exists DEFAULT_PROFILE_YAML, c.
Qed.
End Main.
