(* ===== verification/Link.v ===== *)
(** The controller sink of an agent and the controller it reports to, joined by
    a network that may lose a request, lose its answer or cut it short, while
    other agents are served in between.  hyper and axum (parsing a request,
    writing an answer) and serde_json are arguments. *)
From Stdlib Require Import String.
From S2P Require Import Prelude RustStr BTree Json Occurrence Wire Metrics Httpc Sink Poll.
From S2P Require Import ControllerSink Delivery Controller ControllerHttp.
Local Open Scope Z_scope.

(** * The network *)

(** What becomes of one request: no connection, a connection that breaks before
    the body is through, an answer that never arrives, an answer of which the
    first bytes arrive, or the answer. *)
Inductive fate :=
| Unreachable (e : string)
| Interrupted (e : string)
| AnswerLost (e : string)
| AnswerCut (n : nat)
| Answered.

(** The controller sees the request. *)
Definition arrives (f : fate) : bool :=
  match f with Unreachable _ | Interrupted _ => false | _ => true end.

(** The request reaches the controller exactly when its answer comes back. *)
Definition reliable (f : fate) : bool :=
  match f with AnswerLost _ | AnswerCut _ => false | _ => true end.

(** One exchange: what other clients ask of the controller before it, how long
    it takes, and its fate. *)
Record hop := {
  hop_before : list ctl_request;
  hop_elapsed : Z;
  hop_fate : fate;
}.

(** The controller, the requests it has processed (oldest first), the exchanges
    to come, and the time.  Past the plan nothing is reachable. *)
Record link := {
  lk_controller : InnerState;
  lk_history : list ctl_request;
  lk_plan : list hop;
  lk_now : Z;
}.

Definition link_start (s : InnerState) (plan : list hop) (now : Z) : link :=
  {| lk_controller := s; lk_history := []; lk_plan := plan; lk_now := now |}.

Definition link_sleep (d : Z) (w : link) : link :=
  {| lk_controller := lk_controller w; lk_history := lk_history w; lk_plan := lk_plan w;
     lk_now := lk_now w + d |}.

(** The request a routed one makes of the controller's state. *)
Definition processed (r : http_request) (now : Z) : list ctl_request :=
  match r with
  | PostHello (Ok hello) => [ReqHello hello now]
  | PostHeartbeat (Ok heartbeat) => [ReqHeartbeat heartbeat now]
  | PostEvents (Ok batch) => [ReqEvents batch]
  | _ => []
  end.

(** * What an agent's batches come to *)

(** The batches of an agent the controller has processed: number and events. *)
Fixpoint own (id : string) (history : list ctl_request) : list (Z * list WireEvent) :=
  match history with
  | [] => []
  | ReqEvents b :: rest =>
      if String.eqb (eb_agent_id b) id then (eb_sequence b, eb_events b) :: own id rest else own id rest
  | _ :: rest => own id rest
  end.

(** A request of another client. *)
Definition foreign (id : string) (r : ctl_request) : bool :=
  match r with
  | ReqHello hello _ => negb (String.eqb (hello_agent_id hello) id)
  | ReqHeartbeat _ _ => true
  | ReqEvents b => negb (String.eqb (eb_agent_id b) id)
  end.

Definition hop_ok (id : string) (h : hop) : bool := forallb (foreign id) (hop_before h).

(** The log of a worker as the controller sees it, each batch as often as it
    arrived. *)
Fixpoint arrivals (n : Z) (log : list (list WireEvent * send_outcome)) (copies : list nat) :
  list (Z * list WireEvent) :=
  match log, copies with
  | (batch, _) :: log, k :: copies =>
      replicate k (n, batch) ++ arrivals (sat_add64 n 1) log copies
  | _, _ => []
  end.

(** How often a batch arrived, by what the worker made of it: one that is
    acknowledged did, one that is dropped may have, and one that is neither
    either did or is not a valid request. *)
Definition copies_ok (x : list WireEvent * send_outcome) (k : nat) : Prop :=
  (k <= S MAX_RETRIES)%nat /\
  match snd x with
  | Acknowledged => (1 <= k)%nat
  | Dropped => True
  | Unaccounted => (1 <= k)%nat \/ exists e, In e (fst x) /\ WireEvent_validate e <> Ok tt
  end.

(** With nothing lost on the way back, the two sides agree. *)
Definition copies_exact (x : list WireEvent * send_outcome) (k : nat) : Prop :=
  k = match snd x with Acknowledged => 1%nat | _ => 0%nat end.

Definition acknowledged (log : list (list WireEvent * send_outcome)) :
  list (list WireEvent * send_outcome) :=
  List.filter (fun x => bool_decide (snd x = Acknowledged)) log.

(** The events of the batches a controller with this limit accepts. *)
Fixpoint accepted_events (max_batch_events : Z) (history : list ctl_request) : list WireEvent :=
  match history with
  | [] => []
  | ReqEvents b :: rest =>
      match EventBatchRequest_validate b max_batch_events with
      | Ok _ => eb_events b ++ accepted_events max_batch_events rest
      | Err _ => accepted_events max_batch_events rest
      end
  | _ :: rest => accepted_events max_batch_events rest
  end.

(** The numbers of the batches that arrived at all. *)
Fixpoint arrived_numbers (n : Z) (copies : list nat) : list Z :=
  match copies with
  | [] => []
  | k :: copies =>
      match k with O => [] | S _ => [n] end ++ arrived_numbers (sat_add64 n 1) copies
  end.

(** * Sequences that repeat *)

Lemma last_cons_default {A : Type} (l : list A) (a d : A) : List.last (a :: l) d = List.last l a.
Proof.
  revert a d. induction l as [|b l IH]; intros a d; [done|].
  change (List.last (b :: l) d = List.last (b :: l) a). by rewrite !IH.
Qed.

Lemma map_fst_replicate {A B : Type} (k : nat) (a : A) (b : B) :
  map fst (replicate k (a, b)) = replicate k a.
Proof. induction k as [|k IH]; simpl; [done|]. by rewrite IH. Qed.

Lemma track_again (n : Z) (k : nat) (t : SequenceTracking) :
  0 <= n < U64_MAX -> sq_last_seen t = Some n -> sq_regressions_total t + Z.of_nat k <= U64_MAX ->
  track_all (replicate k n) t =
  {| sq_last_seen := Some n; sq_gaps_total := sq_gaps_total t;
     sq_regressions_total := sq_regressions_total t + Z.of_nat k |}.
Proof.
  revert t. induction k as [|k IH]; intros t Hn Ht Hr; simpl.
  { destruct t; simpl in *. f_equal; [done|lia]. }
  assert (Hs : track_sequence n t = {| sq_last_seen := Some n; sq_gaps_total := sq_gaps_total t;
    sq_regressions_total := sq_regressions_total t + 1 |}).
  { unfold track_sequence. rewrite Ht. destruct (Z.eqb_spec n (sat_add64 n 1)) as [E|_].
    - width_lia.
    - destruct (Z.ltb_spec (sat_add64 n 1) n); [width_lia|]. by rewrite sat_add64_small by lia. }
  rewrite Hs, IH by (simpl; done || lia). simpl. f_equal. lia.
Qed.

Lemma track_next (n last : Z) (k : nat) (t : SequenceTracking) :
  0 <= last < n -> n < U64_MAX -> sq_last_seen t = Some last ->
  0 <= sq_regressions_total t -> sq_regressions_total t + Z.of_nat k <= U64_MAX ->
  let t' := track_all (replicate (S k) n) t in
  sq_last_seen t' = Some n /\ sq_regressions_total t' = sq_regressions_total t + Z.of_nat k.
Proof.
  intros Hn Hm Hl Hr Hk. cbn [replicate track_all fold_left]. fold (track_all (replicate k n) (track_sequence n t)).
  assert (Hs : sq_last_seen (track_sequence n t) = Some n /\
    sq_regressions_total (track_sequence n t) = sq_regressions_total t).
  { unfold track_sequence. rewrite Hl. rewrite (sat_add64_small last 1) by lia.
    destruct (Z.eqb_spec n (last + 1)); [done|]. destruct (Z.ltb_spec (last + 1) n); [done|lia]. }
  destruct Hs as [Hs1 Hs2]. rewrite track_again by (rewrite ?Hs2; done || lia). simpl. by rewrite Hs2.
Qed.

Definition copies_total (copies : list nat) : Z := Z.of_nat (sum_list copies).

Lemma copies_cons (k : nat) (copies : list nat) : copies_total (k :: copies) = Z.of_nat k + copies_total copies.
Proof. unfold copies_total. simpl. lia. Qed.

Lemma copies_nonneg (copies : list nat) : 0 <= copies_total copies.
Proof. unfold copies_total. lia. Qed.

(** The numbers that arrive after [last]: the last is the last to arrive, and
    each arrival beyond the first of its number is a regression. *)
Lemma track_arrivals (log : list (list WireEvent * send_outcome)) (copies : list nat) (n last : Z)
    (t : SequenceTracking) :
  length copies = length log -> 0 <= last < n -> n + zlen log <= U64_MAX -> sq_last_seen t = Some last ->
  0 <= sq_regressions_total t -> sq_regressions_total t + copies_total copies <= U64_MAX ->
  let t' := track_all (map fst (arrivals n log copies)) t in
  sq_last_seen t' = Some (List.last (arrived_numbers n copies) last) /\
  sq_regressions_total t' =
    sq_regressions_total t + (copies_total copies - zlen (arrived_numbers n copies)).
Proof.
  revert copies n last t. induction log as [|[batch o] log IH]; intros [|k copies] n last t Hlen Hn Hm Hl Hr Hk;
    try done.
  { unfold copies_total, zlen. simpl. split; [done|lia]. }
  cbn [arrivals arrived_numbers].
  rewrite zlen_cons in Hm. pose proof (zlen_nonneg log). pose proof (copies_nonneg copies).
  rewrite copies_cons in *. simpl in Hlen. unfold track_all. rewrite map_app, fold_left_app.
  fold (track_all (map fst (replicate k (n, batch))) t). rewrite map_fst_replicate.
  assert (Hnext : sat_add64 n 1 = n + 1) by (apply sat_add64_small; lia). rewrite Hnext.
  destruct k as [|k].
  - simpl. destruct (IH copies (n + 1) last t) as [H1 H2]; [lia|lia|lia|done|lia|lia|]. unfold track_all in *. rewrite H1, H2. split; [done|lia].
  - destruct (track_next n last k t) as [H1 H2]; [lia|lia|done|lia|lia|].
    destruct (IH copies (n + 1) n (track_all (replicate (S k) n) t)) as [H3 H4]; [lia|lia|lia|done|lia|lia|].
    unfold track_all in *. rewrite H3, H4, H2. cbn [app]. rewrite zlen_cons, last_cons_default. split; [done|lia].
Qed.

Lemma arrivals_length (log : list (list WireEvent * send_outcome)) (copies : list nat) (n : Z) :
  length copies = length log -> zlen (arrivals n log copies) = copies_total copies.
Proof.
  revert copies n. induction log as [|[batch o] log IH]; intros [|k copies] n Hl; try done.
  cbn [arrivals]. rewrite zlen_app, copies_cons, IH by (simpl in Hl; lia).
  unfold zlen. by rewrite length_replicate.
Qed.

Lemma arrivals_app (log log' : list (list WireEvent * send_outcome)) (copies copies' : list nat) (n : Z) :
  length copies = length log -> n <= U64_MAX ->
  arrivals n (log ++ log') (copies ++ copies') =
  arrivals n log copies ++ arrivals (Z.min (n + zlen log) U64_MAX) log' copies'.
Proof.
  revert copies n. induction log as [|[batch o] log IH]; intros [|k copies] n Hl Hn; try done.
  { simpl. rewrite zlen_nil. f_equal. lia. }
  cbn [app arrivals]. rewrite <- app_assoc, IH, zlen_cons by (simpl in Hl; width_lia).
  pose proof (zlen_nonneg log). do 3 f_equal. width_lia.
Qed.

Lemma arrivals_range (log : list (list WireEvent * send_outcome)) (copies : list nat) (n : Z) :
  0 <= n -> n + zlen log <= U64_MAX ->
  Forall (fun s => 0 <= s < U64_MAX) (map fst (arrivals n log copies)).
Proof.
  revert copies n. induction log as [|[batch o] log IH]; intros [|k copies] n Hn Hm; try constructor.
  rewrite zlen_cons in Hm. pose proof (zlen_nonneg log). cbn [arrivals]. rewrite map_app, map_fst_replicate.
  apply Forall_app. split; [apply Forall_replicate; lia|].
  rewrite sat_add64_small by lia. apply IH; lia.
Qed.

Lemma arrivals_le (log : list (list WireEvent * send_outcome)) (copies : list nat) (n : Z) :
  n <= U64_MAX -> Forall (fun x => x <= U64_MAX) (map fst (arrivals n log copies)).
Proof.
  revert copies n. induction log as [|[batch o] log IH]; intros [|k copies] n Hn; try constructor.
  cbn [arrivals]. rewrite map_app, map_fst_replicate. apply Forall_app.
  split; [by apply Forall_replicate|]. apply IH. width_lia.
Qed.

(** From the first number on: what the controller reports of an agent's
    sequence is exactly what arrived. *)
Definition sequence_report (numbers : list Z) (total : Z) (t : SequenceTracking) : Prop :=
  match numbers with
  | [] => t = SequenceTracking_default
  | first :: _ =>
      let last := List.last numbers first in
      sq_last_seen t = Some last /\
      sq_regressions_total t = total - zlen numbers /\
      sq_gaps_total t = (last - first + 1) - zlen numbers
  end.

Lemma track_from_start (log : list (list WireEvent * send_outcome)) (copies : list nat) (n : Z) :
  length copies = length log -> 0 <= n -> n + zlen log <= U64_MAX -> copies_total copies <= U64_MAX ->
  sequence_report (arrived_numbers n copies) (copies_total copies)
    (track_all (map fst (arrivals n log copies)) SequenceTracking_default).
Proof.
  revert copies n. induction log as [|[batch o] log IH]; intros [|k copies] n Hlen Hn Hm Hc; try done.
  pose proof (arrivals_range ((batch, o) :: log) (k :: copies) n Hn Hm) as Hr.
  pose proof (arrivals_length ((batch, o) :: log) (k :: copies) n Hlen) as Hz.
  rewrite zlen_cons in Hm. pose proof (zlen_nonneg log). pose proof (copies_nonneg copies).
  rewrite copies_cons in *. simpl in Hlen. cbn [arrivals arrived_numbers] in *.
  rewrite sat_add64_small in * by lia. rewrite map_app, map_fst_replicate in *.
  destruct k as [|k]; [simpl; apply IH; lia|].
  cbn [replicate app track_all fold_left] in *. apply Forall_cons in Hr as [_ Hr].
  set (t0 := track_sequence n SequenceTracking_default).
  assert (Ht0 : tracked n 1 t0) by (exists n; simpl; repeat split; lia).
  rewrite zlen_cons, zlen_app in Hz. unfold zlen in Hz at 1. rewrite length_replicate in Hz.
  destruct (track_all_spec _ n 1 t0 Hr ltac:(rewrite zlen_app; unfold zlen at 1 2; rewrite length_replicate, length_map; unfold zlen in Hz; lia) Ht0)
    as (last & Hl & Hf & _ & _ & _ & Hsum & _).
  revert Hl Hsum. unfold track_all. rewrite fold_left_app. fold (track_all (replicate k n) t0).
  rewrite track_again by (simpl; done || lia). intros Hl Hsum.
  destruct (track_arrivals log copies (n + 1) n {| sq_last_seen := Some n; sq_gaps_total := sq_gaps_total t0;
     sq_regressions_total := sq_regressions_total t0 + Z.of_nat k |}) as [H1 H2]; [lia|lia|lia|done|simpl; lia|simpl; lia|].
  unfold track_all in H1, H2. cbn [sequence_report]. rewrite H1 in Hl. injection Hl as <-.
  rewrite last_cons_default, zlen_cons. rewrite H2 in *. simpl in *.
  split; [done|]. split; [lia|]. rewrite zlen_app in Hsum. unfold zlen in Hsum at 1 2.
  rewrite length_replicate, length_map in Hsum. unfold zlen in *. lia.
Qed.

(** * Counting a log *)

Lemma offers_count (l : list (WireEvent * try_send_outcome)) :
  zlen l = zlen (offered_as is_sent l) + zlen (offered_as is_full l) + zlen (offered_as is_disconnected l).
Proof.
  unfold offered_as. induction l as [|[e x] l IH]; [done|]. rewrite zlen_cons.
  destruct x; simpl; rewrite ?zlen_cons; lia.
Qed.

Lemma ledger_count (log : list (list WireEvent * send_outcome)) :
  Forall (fun x => snd x <> Unaccounted) log ->
  zlen (logged log) = zlen (logged (acknowledged log)) + zlen (logged (dropped log)).
Proof.
  unfold logged. induction 1 as [|[batch o] log Ho _ IH]; [done|].
  destruct o; simpl in *; [| |done]; rewrite !zlen_app; simpl in IH; lia.
Qed.

(** What was sent is among what was offered. *)
Lemma sent_among_offered (P : WireEvent -> Prop) (l : list (WireEvent * try_send_outcome))
    (p : try_send_outcome -> bool) (batches rest : list WireEvent) :
  Forall (fun x => P (fst x)) l -> offered_as p l = batches ++ rest -> Forall P batches.
Proof.
  intros Hl E. assert (Hs : Forall P (offered_as p l)).
  { unfold offered_as. apply List.Forall_map. rewrite List.Forall_forall in *. intros x [Hx _]%List.filter_In.
    by apply Hl. }
  rewrite E in Hs. by apply Forall_app in Hs as [? _].
Qed.

(** When every event is valid and nothing is lost on the way back, no batch is
    without an account. *)
Lemma exact_accounted (log : list (list WireEvent * send_outcome)) (copies : list nat) :
  Forall2 copies_ok log copies -> Forall2 copies_exact log copies ->
  Forall (fun e => WireEvent_validate e = Ok tt) (logged log) ->
  Forall (fun x => snd x <> Unaccounted) log.
Proof.
  unfold logged. intros Ho He. revert Ho. induction He as [|[batch o] k log copies Hk _ IH];
    intros Ho Hv; [constructor|].
  apply Forall2_cons in Ho as [[_ Hc] Ho]. simpl in Hv. apply Forall_app in Hv as [Hb Hv].
  constructor; [|by apply IH]. unfold copies_exact in Hk. simpl in *. intros ->.
  destruct Hc as [Hc|(e & Hin & Hbad)]; [lia|]. rewrite List.Forall_forall in Hb. by apply Hbad, Hb.
Qed.

Lemma exact_arrivals (log : list (list WireEvent * send_outcome)) (copies : list nat) (n : Z) :
  Forall2 copies_exact log copies -> map snd (arrivals n log copies) = map fst (acknowledged log).
Proof.
  intros He. revert n. induction He as [|[batch o] k log copies Hk _ IH]; intros n; [done|].
  unfold copies_exact in Hk. cbn [arrivals]. rewrite map_app, IH, Hk. by destruct o.
Qed.

Section Link.
Variable utf8_error : string -> string.
Variable encode_batch : EventBatchRequest -> result string string.
Variable encode_event : WireEvent -> result string string.
Variable decode_batch_response : string -> result EventBatchResponse string.
Variable header_value_ok : string -> bool.
(** A request, head and body, as the router extracts it. *)
Variable extract : string -> string -> http_request.
(** An answer as it is written on the wire, and its body alone. *)
Variable render : ApiResponse -> string.
Variable payload : ApiBody -> string.

(** The rest of one exchange, once other clients have been served. *)
Definition link_serve (head body : string) (w : link) : ApiResponse * link :=
  let r := extract head body in
  let '(answer, s) := route header_value_ok r (lk_now w) (lk_controller w) in
  (answer, {| lk_controller := s; lk_history := lk_history w ++ processed r (lk_now w);
              lk_plan := lk_plan w; lk_now := lk_now w |}).

Definition link_before (h : hop) (rest : list hop) (w : link) : link := {|
  lk_controller := fold_left ctl_step (hop_before h) (lk_controller w);
  lk_history := lk_history w ++ hop_before h;
  lk_plan := rest;
  lk_now := lk_now w + hop_elapsed h |}.

Definition link_exchange (head body : string) (w : link) : tcp_outcome * link :=
  match lk_plan w with
  | [] => (ConnectFailed "connection refused", w)
  | h :: rest =>
      let w := link_before h rest w in
      match hop_fate h with
      | Unreachable e => (ConnectFailed e, w)
      | Interrupted e => (WriteBodyFailed e, w)
      | AnswerLost e => (Connected [ReadFailed e], snd (link_serve head body w))
      | AnswerCut n =>
          let '(answer, w) := link_serve head body w in
          (Connected [ReadData (str_take n (render answer))], w)
      | Answered =>
          let '(answer, w) := link_serve head body w in (Connected [ReadData (render answer)], w)
      end
  end.

#[local] Instance link_net : Net link := { net_exchange := fun _ => link_exchange }.

(** The answer to a batch of this many events. *)
Definition events_answer (version : string) (accepted : Z) : EventBatchResponse := {|
  ebr_wire_version := WIRE_VERSION; ebr_accepted := accepted; ebr_rejected := 0;
  ebr_next_config_version := version |}.

(** The statuses the controller answers with. *)
Definition API_STATUSES : list Z := [200; 304; 400; 404; 413; 422].

(** What hyper, axum and serde_json do with the requests and answers in play: a
    POST to the events path carries its batch, unless it is refused before it is
    decoded; an answer is read back with its status and its body, and the answer
    to an accepted batch decodes to what was encoded and fits the client's
    limit.  A batch is read back as it was sent: a float among the facts, whose
    last digit may differ, is not looked at by anything here. *)
Record wiring_ok (version : string) : Prop := {
  wo_encodes : forall r, is_ok (encode_batch r) = true;
  wo_extract : forall host body r, encode_batch r = Ok body ->
    let x := extract (request_head "POST" "/v1/events" host [("Content-Type", "application/json")] body) body in
    x = PostEvents (Ok r) \/ exists rej, x = PostEvents (Err rej);
  wo_answer : forall a, In (api_status a) API_STATUSES ->
    parse_response utf8_error (render a) =
      Ok {| resp_status := api_status a; resp_body := payload (api_body a) |};
  wo_events : forall n, is_u64 n ->
    decode_batch_response (payload (BodyEvents (events_answer version n))) = Ok (events_answer version n) /\
    slen (render (json_response 200 (BodyEvents (events_answer version n)))) <= MAX_EVENTS_RESPONSE_BYTES;
}.

(** * Lemmas *)

(** ** Histories *)

Lemma own_app (id : string) (h h' : list ctl_request) : own id (h ++ h') = own id h ++ own id h'.
Proof.
  induction h as [|r h IH]; [done|]. destruct r as [| |b]; simpl; try done.
  destruct (String.eqb _ _); simpl; by rewrite IH.
Qed.

Lemma own_foreign (id : string) (h : list ctl_request) : forallb (foreign id) h = true -> own id h = [].
Proof.
  induction h as [|r h IH]; [done|]. simpl. intros [Hr Hh]%andb_true_iff. destruct r as [| |b]; simpl in *; auto.
  destruct (String.eqb _ _); [done|auto].
Qed.

Lemma processed_step (r : http_request) (now : Z) (s : InnerState) :
  snd (route header_value_ok r now s) = fold_left ctl_step (processed r now) s.
Proof.
  destruct r as [[hello|rej]|query header|[hb|rej]|[b|rej]| |]; try done; simpl;
    unfold handle_hello, handle_heartbeat, handle_events; simpl.
  - by destruct (register_agent hello now s).
  - by destruct (record_heartbeat hb now s).
  - by destruct (record_event_batch b s).
Qed.

(** A valid batch within the limit of the controller is valid there too. *)
Lemma validate_within (r : EventBatchRequest) (limit limit' : Z) :
  EventBatchRequest_validate r limit = Ok tt -> zlen (eb_events r) <= limit' ->
  EventBatchRequest_validate r limit' = Ok tt.
Proof. rewrite !event_batch_validate_accepts. naive_solver lia. Qed.

Lemma steps_keep (P : InnerState -> Prop) (rs : list ctl_request) (s : InnerState) :
  (forall s r, P s -> P (ctl_step s r)) -> P s -> P (fold_left ctl_step rs s).
Proof. intros Hstep. revert s. induction rs as [|r rs IH]; intros s Hs; simpl; auto. Qed.

(** What every request keeps of the controller, an exchange keeps. *)
Lemma exchange_keeps (P : InnerState -> Prop) (head body : string) (w : link) :
  (forall s r, P s -> P (ctl_step s r)) -> P (lk_controller w) ->
  P (lk_controller (snd (link_exchange head body w))).
Proof.
  intros Hstep Hw.
  assert (Hs : forall w, P (lk_controller w) -> P (lk_controller (snd (link_serve head body w)))).
  { intros w' Hw'. unfold link_serve. pose proof (processed_step (extract head body) (lk_now w') (lk_controller w')) as Hp.
    destruct (route _ _ _ _) as [answer s]. simpl in *. rewrite Hp. by apply (steps_keep P). }
  unfold link_exchange. destruct (lk_plan w) as [|h rest]; [done|].
  assert (Hb : P (lk_controller (link_before h rest w))) by by apply (steps_keep P).
  specialize (Hs _ Hb). destruct (hop_fate h); try exact Hb;
    by destruct (link_serve head body (link_before h rest w)) as [answer w'].
Qed.

(** No request changes the configuration. *)
Lemma step_config (c0 : ConfigResponse) (s : InnerState) (r : ctl_request) :
  in_config s = c0 -> in_config (ctl_step s r) = c0.
Proof.
  intros <-. destruct r as [hello now|hb now|b]; simpl;
    unfold register_agent, record_heartbeat, record_event_batch; by case_match.
Qed.

Lemma steps_config (rs : list ctl_request) (s : InnerState) :
  in_config (fold_left ctl_step rs s) = in_config s.
Proof. by apply (steps_keep (fun s' => in_config s' = in_config s)); [apply step_config|]. Qed.

(** ** One exchange *)

Section Agent.
Variable c : ControllerConfig.
Variable s0 : InnerState.
Variable host : string.
Hypothesis Hhost : strip_prefix (trim_end_matches "/" (ctl_endpoint c)) "http://" = Some host.
Hypothesis Hslash : contains_char "/" host = false.
Hypothesis Hversion : blank (cr_version (in_config s0)) = false.
Hypothesis Hwiring : wiring_ok (cr_version (in_config s0)).

Notation id := (ctl_agent_id c).
Notation max_batch := (bc_max_batch_events (cr_batching (in_config s0))).

Hypothesis Hmax : is_u64 max_batch.
Hypothesis Hid : blank id = false.
Hypothesis Hnode : blank (ctl_node_name c) = false.

Section Books.
(** Whether the agent itself may say hello, which starts its sequence anew. *)
Variable hellos : bool.

(** The agent's own requests are batches the controller accepts. *)
Definition proper (r : ctl_request) : bool :=
  foreign id r ||
  match r with
  | ReqEvents b => is_ok (EventBatchRequest_validate b max_batch)
  | ReqHello _ _ => hellos
  | ReqHeartbeat _ _ => false
  end.

(** The books of the world: the controller is where its history brings it, its
    history holds nothing improper, and the clients to come are others. *)
Definition link_inv (w : link) : Prop :=
  lk_controller w = fold_left ctl_step (lk_history w) s0 /\
  forallb proper (lk_history w) = true /\
  forallb (hop_ok id) (lk_plan w) = true.

Definition quiet (w : link) : Prop := forallb (fun h => reliable (hop_fate h)) (lk_plan w) = true.

Notation post := (post_json_response (H := link_net) utf8_error (events_url c)).

Lemma events_head (body : string) (w : link) :
  post_json_response (H := link_net) utf8_error (events_url c) body MAX_EVENTS_RESPONSE_BYTES w =
  let '(outcome, w') :=
    link_exchange (request_head "POST" "/v1/events" host [("Content-Type", "application/json")] body) body w in
  (match outcome with
   | ConnectFailed e => Err ("connect: " +:+ e)
   | WriteFailed e => Err ("write: " +:+ e)
   | WriteBodyFailed e => Err ("write body: " +:+ e)
   | Connected reads => read_response utf8_error reads MAX_EVENTS_RESPONSE_BYTES
   end, w').
Proof.
  unfold post_json_response, request, events_url.
  rewrite (strip_prefix_extends _ _ _ _ Hhost). unfold host_and_path.
  rewrite split_before_app by done. done.
Qed.

(** The controller's answer to a batch it can decode, and to one it cannot. *)
Lemma serve_batch (head body : string) (r : EventBatchRequest) (w : link) :
  extract head body = PostEvents (Ok r) -> EventBatchRequest_validate r max_batch = Ok tt -> link_inv w ->
  let '(answer, w') := link_serve head body w in
  answer = json_response 200 (BodyEvents (events_answer (cr_version (in_config s0)) (zlen (eb_events r)))) /\
  link_inv w' /\ lk_history w' = lk_history w ++ [ReqEvents r] /\ lk_plan w' = lk_plan w.
Proof.
  intros Hx Hv (Hi & Hh & Hp). unfold link_serve, link_inv. rewrite Hx.
  pose proof (processed_step (PostEvents (Ok r)) (lk_now w) (lk_controller w)) as Hs.
  assert (Ha : fst (route header_value_ok (PostEvents (Ok r)) (lk_now w) (lk_controller w)) =
    json_response 200 (BodyEvents (events_answer (cr_version (in_config s0)) (zlen (eb_events r))))).
  { simpl. unfold handle_events, record_event_batch. simpl. rewrite Hi, steps_config, Hv. done. }
  destruct (route _ _ _ _) as [answer s]. cbn [fst snd] in Ha, Hs. split; [done|]. simpl.
  rewrite fold_left_app, <- Hi, forallb_app, Hh. unfold proper. simpl. rewrite Hv, orb_true_r. done.
Qed.

Lemma serve_refused (head body : string) (rej : JsonRejection) (w : link) :
  extract head body = PostEvents (Err rej) -> link_inv w ->
  let '(answer, w') := link_serve head body w in
  In (api_status answer) API_STATUSES /\ is_success (api_status answer) = false /\
  link_inv w' /\ lk_history w' = lk_history w /\ lk_plan w' = lk_plan w.
Proof.
  intros Hx (Hi & Hh & Hp). unfold link_serve, link_inv. rewrite Hx. simpl. unfold handle_events, json_payload. simpl.
  rewrite app_nil_r. destruct (rej_status rej =? 413); simpl; auto 10.
Qed.

(** However much of an answer arrives, its status is the one that was sent. *)
Lemma read_prefix (a : ApiResponse) (s : string) (resp : HttpResponse) :
  In (api_status a) API_STATUSES -> (exists t, s +:+ t = render a) ->
  read_response utf8_error [ReadData s] MAX_EVENTS_RESPONSE_BYTES = Ok resp ->
  resp_status resp = api_status a.
Proof.
  intros Ha [t Ht] Hr%read_one_Ok. pose proof (wo_answer _ Hwiring a Ha) as Hp. rewrite <- Ht in Hp.
  by destruct (parse_response_prefix _ _ _ _ _ Hp Hr) as [-> _].
Qed.

Lemma read_whole (n : Z) :
  is_u64 n ->
  let answer := json_response 200 (BodyEvents (events_answer (cr_version (in_config s0)) n)) in
  read_response utf8_error [ReadData (render answer)] MAX_EVENTS_RESPONSE_BYTES =
    Ok {| resp_status := 200; resp_body := payload (api_body answer) |}.
Proof.
  intros Hn answer. destruct (wo_events _ Hwiring n Hn) as [_ Hsize]. fold answer in Hsize.
  rewrite read_one_fits by done. apply (wo_answer _ Hwiring answer). simpl. auto.
Qed.

Lemma before_inv (h : hop) (rest : list hop) (w : link) :
  lk_plan w = h :: rest -> link_inv w ->
  link_inv (link_before h rest w) /\ own id (lk_history (link_before h rest w)) = own id (lk_history w) /\
  (quiet w -> reliable (hop_fate h) = true /\ quiet (link_before h rest w)).
Proof.
  unfold link_inv, quiet. intros Hp (Hi & Hpr & Hf). rewrite Hp in *. simpl in *.
  apply andb_true_iff in Hf as [Hh Hf]. split; [|split].
  - rewrite fold_left_app, <- Hi. split; [done|]. split; [|done]. rewrite forallb_app, Hpr. simpl.
    apply forallb_forall. intros r Hr. unfold hop_ok in Hh. rewrite forallb_forall in Hh.
    unfold proper. by rewrite (Hh r Hr).
  - by rewrite own_app, (own_foreign _ _ Hh), app_nil_r.
  - by intros [? ?]%andb_true_iff.
Qed.

(** What one exchange does: the batch arrives or it does not; a success means it
    did; with nothing lost on the way back, arriving means a readable success. *)
Definition acknowledges (res : result HttpResponse string) : Prop :=
  exists resp a, res = Ok resp /\ is_success (resp_status resp) = true /\
    decode_batch_response (resp_body resp) = Ok a /\ EventBatchResponse_validate a = Ok tt.

Lemma whole_answer (n : Z) :
  is_u64 n ->
  acknowledges (read_response utf8_error
    [ReadData (render (json_response 200 (BodyEvents (events_answer (cr_version (in_config s0)) n))))]
    MAX_EVENTS_RESPONSE_BYTES).
Proof.
  intros Hn. rewrite (read_whole _ Hn). eexists _, _. split; [done|]. split; [done|].
  split; [by apply (wo_events _ Hwiring)|]. unfold EventBatchResponse_validate. by autorewrite with tapio.
Qed.

Definition exchanged (r : EventBatchRequest) (w : link) (res : result HttpResponse string) (w' : link) : Prop :=
  link_inv w' /\ exists k, (k <= 1)%nat /\
    own id (lk_history w') = own id (lk_history w) ++ replicate k (eb_sequence r, eb_events r) /\
    (forall resp, res = Ok resp -> is_success (resp_status resp) = true -> k = 1%nat) /\
    (quiet w -> quiet w' /\ (k = 1%nat -> acknowledges res)).

Lemma not_exchanged (r : EventBatchRequest) (w w' : link) (res : result HttpResponse string) :
  link_inv w' -> own id (lk_history w') = own id (lk_history w) -> (quiet w -> quiet w') ->
  (forall resp, res = Ok resp -> is_success (resp_status resp) = false) ->
  exchanged r w res w'.
Proof.
  intros Hi Ho Hq Hr. split; [done|]. exists 0%nat. rewrite app_nil_r. split; [lia|]. split; [done|].
  split; [intros resp E; by rewrite (Hr resp E)|]. intros Hw. split; [auto|lia].
Qed.

Lemma arrived (r : EventBatchRequest) (w w' : link) (res : result HttpResponse string) :
  link_inv w' ->
  own id (lk_history w') = own id (lk_history w) ++ [(eb_sequence r, eb_events r)] ->
  (quiet w -> quiet w' /\ acknowledges res) -> exchanged r w res w'.
Proof. intros Hi Ho Hq. split; [done|]. exists 1%nat. naive_solver lia. Qed.

Lemma exchange_link (r : EventBatchRequest) (body : string) (w : link) :
  encode_batch r = Ok body -> eb_agent_id r = id -> EventBatchRequest_validate r max_batch = Ok tt ->
  link_inv w -> let '(res, w') := post body MAX_EVENTS_RESPONSE_BYTES w in exchanged r w res w'.
Proof.
  intros He Hra Hv Hi. rewrite events_head. unfold link_exchange.
  destruct (lk_plan w) as [|h rest] eqn:Ep; [by apply not_exchanged|].
  destruct (before_inv h rest w Ep Hi) as (Hb & Ho & Hq). set (w1 := link_before h rest w) in *.
  assert (Hown : forall w', lk_history w' = lk_history w1 ++ [ReqEvents r] ->
    own id (lk_history w') = own id (lk_history w) ++ [(eb_sequence r, eb_events r)]).
  { intros w' ->. rewrite own_app, Ho. simpl. by rewrite Hra, String.eqb_refl. }
  destruct (hop_fate h) as [e|e|e|n|] eqn:Ef; try (apply not_exchanged; [done|done|naive_solver|done]).
  all: destruct (wo_extract _ Hwiring host body r He) as [Hx|[rej Hx]].
  all: try (pose proof (serve_batch _ body r w1 Hx Hv Hb) as Hs).
  all: try (pose proof (serve_refused _ body rej w1 Hx Hb) as Hs).
  all: destruct (link_serve _ body w1) as [answer w'].
  - destruct Hs as (_ & Hi' & Hh & _). apply arrived; [done|auto|]. intros Hw. by destruct (Hq Hw).
  - destruct Hs as (_ & _ & Hi' & Hh & Hp). apply not_exchanged; [done|by rewrite <- Ho, <- Hh| |done].
    intros Hw. by destruct (Hq Hw).
  - destruct Hs as (_ & Hi' & Hh & _). apply arrived; [done|auto|]. intros Hw. by destruct (Hq Hw).
  - destruct Hs as (Ha & Hf & Hi' & Hh & Hp). apply not_exchanged; [done|by rewrite <- Ho, <- Hh| |].
    + intros Hw. by destruct (Hq Hw).
    + intros resp Hr. by rewrite (read_prefix answer _ resp Ha (str_take_app _ _) Hr).
  - destruct Hs as (-> & Hi' & Hh & Hp). apply arrived; [done|auto|]. intros Hw.
    split; [destruct (Hq Hw); unfold quiet; by rewrite Hp|].
    apply whole_answer. apply event_batch_validate_accepts in Hv. unfold is_u64 in *. lia.
  - destruct Hs as (Ha & Hf & Hi' & Hh & Hp). apply not_exchanged; [done|by rewrite <- Ho, <- Hh| |].
    + intros Hw. destruct (Hq Hw). unfold quiet. by rewrite Hp.
    + intros resp Hr. by rewrite (read_prefix answer _ resp Ha (ex_intro _ _ (str_app_nil_r _)) Hr).
Qed.

(** An exchange that is answered, of a batch the controller takes. *)
Lemma answered_exchange (r : EventBatchRequest) (body : string) (h : hop) (rest : list hop) (w : link) :
  lk_plan w = h :: rest -> hop_fate h = Answered ->
  extract (request_head "POST" "/v1/events" host [("Content-Type", "application/json")] body) body = PostEvents (Ok r) ->
  eb_agent_id r = id -> EventBatchRequest_validate r max_batch = Ok tt -> link_inv w ->
  let '(res, w') := post body MAX_EVENTS_RESPONSE_BYTES w in
  acknowledges res /\ own id (lk_history w') = own id (lk_history w) ++ [(eb_sequence r, eb_events r)] /\
  lk_plan w' = rest.
Proof.
  intros Ep Ef Hx Hra Hv Hi. rewrite events_head. unfold link_exchange. rewrite Ep, Ef.
  destruct (before_inv h rest w Ep Hi) as (Hb & Ho & _). set (w1 := link_before h rest w) in *.
  pose proof (serve_batch _ body r w1 Hx Hv Hb) as Hs. destruct (link_serve _ body w1) as [answer w'].
  destruct Hs as (-> & Hi' & Hh & Hp). split; [|split; [|done]].
  - apply whole_answer. apply event_batch_validate_accepts in Hv. unfold is_u64 in *. lia.
  - rewrite Hh, own_app, Ho. simpl. by rewrite Hra, String.eqb_refl.
Qed.

(** ** One batch *)

Definition came_to (o : send_outcome) (count : Z) (m : TapioMetrics) (res : result unit string)
    (m' : TapioMetrics) : Prop :=
  match o with
  | Acknowledged => res = Ok tt /\ m' = m
  | Dropped => (exists e, res = Err e) /\ m' = counted_drop count m
  | Unaccounted => (exists e, res = Err e) /\ m' = m
  end.

(** A batch sent at most [n] times ends as [o] after [k] arrivals. *)
Definition ended (n : nat) (r : EventBatchRequest) (o : send_outcome) (k : nat) (w w' : link) : Prop :=
  link_inv w' /\ (k <= n)%nat /\
  own id (lk_history w') = own id (lk_history w) ++ replicate k (eb_sequence r, eb_events r) /\
  (o <> Dropped -> (1 <= k)%nat) /\
  (quiet w -> quiet w' /\ o <> Unaccounted /\ copies_exact (eb_events r, o) k).

Notation attempts := (send_attempts (H := link_net) utf8_error decode_batch_response link_sleep).

Lemma ended_retry (n k k' : nat) (r : EventBatchRequest) (o : send_outcome) (w w1 w' : link) (d : Z) :
  own id (lk_history w1) = own id (lk_history w) ++ replicate k (eb_sequence r, eb_events r) ->
  (k <= 1)%nat -> (quiet w -> quiet w1 /\ k = 0%nat) ->
  ended n r o k' (link_sleep d w1) w' -> ended (S n) r o (k + k') w w'.
Proof.
  intros Ho Hk Hq (Hi & Hn & Ho' & Ha & Hq'). split; [done|]. split; [lia|]. split; [|split].
  - rewrite Ho'. simpl. by rewrite Ho, <- app_assoc, replicate_add.
  - intros H. specialize (Ha H). lia.
  - intros H. destruct (Hq H) as [H1 ->]. by apply Hq'.
Qed.

(** An answer with a success status ends the batch. *)
Lemma success_ends (n : nat) (count : Z) (r : EventBatchRequest) (resp : HttpResponse) (m : TapioMetrics)
    (w w' : link) :
  exchanged r w (Ok resp) w' -> is_success (resp_status resp) = true ->
  exists o k,
    came_to o count m
      (a <-? map_err (fun e => "decode EventBatchResponse: " +:+ e) (decode_batch_response (resp_body resp)) ;;
       map_err WireError_to_string (EventBatchResponse_validate a) ;;? Ok tt) m /\
    ended (S n) r o k w w'.
Proof.
  intros (Hi & k & Hk & Ho & Hs & Hq) Hok. assert (k = 1%nat) as -> by by apply (Hs resp).
  assert (He : forall o, (quiet w -> o = Acknowledged) -> ended (S n) r o 1 w w').
  { intros o Hqo. split; [done|]. split; [lia|]. split; [done|]. split; [lia|]. intros Hw.
    rewrite (Hqo Hw). by destruct (Hq Hw). }
  destruct (decode_batch_response (resp_body resp)) as [a|e] eqn:Ed; simpl;
    [destruct (EventBatchResponse_validate a) as [[]|e] eqn:Ev; simpl|].
  1: exists Acknowledged, 1%nat; split; [done|by apply He].
  all: exists Unaccounted, 1%nat; split; [split; [by eexists|done]|]; apply He; intros Hw;
    destruct (Hq Hw) as [_ Ha]; destruct (Ha eq_refl) as (resp' & a' & [= <-] & _ & Hd & Hv); congruence.
Qed.

(** A failed exchange leaves the batch where it was when nothing is lost on the
    way back. *)
Lemma failure_quiet (r : EventBatchRequest) (res : result HttpResponse string) (w w' : link) :
  exchanged r w res w' ->
  match res with Ok resp => is_success (resp_status resp) = false | Err _ => True end ->
  link_inv w' /\ exists k, (k <= 1)%nat /\
    own id (lk_history w') = own id (lk_history w) ++ replicate k (eb_sequence r, eb_events r) /\
    (quiet w -> quiet w' /\ k = 0%nat).
Proof.
  intros (Hi & k & Hk & Ho & Hs & Hq) Hf. split; [done|]. exists k. split; [done|]. split; [done|].
  intros Hw. destruct (Hq Hw) as [Hw' Ha]. split; [done|]. destruct (decide (k = 1%nat)) as [->|]; [|lia].
  destruct (Ha eq_refl) as (resp & a & -> & Hs' & _). congruence.
Qed.

Lemma attempts_link (retries : nat) (backoff count : Z) (r : EventBatchRequest) (body : string)
    (m : TapioMetrics) (w : link) :
  encode_batch r = Ok body -> eb_agent_id r = id -> EventBatchRequest_validate r max_batch = Ok tt ->
  link_inv w ->
  let '(res, m', w') := attempts retries backoff (events_url c) body count m w in
  exists o k, came_to o count m res m' /\ ended (S retries) r o k w w'.
Proof.
  intros He Hra Hv. revert backoff w. induction retries as [|retries IH]; intros backoff w Hi; cbn [send_attempts];
    pose proof (exchange_link r body w He Hra Hv Hi) as Hx;
    destruct (post body MAX_EVENTS_RESPONSE_BYTES w) as [res w1];
    (destruct res as [resp|e]; [destruct (is_success (resp_status resp)) eqn:Es; [by apply success_ends|]|]);
    destruct (failure_quiet r _ w w1 Hx ltac:(done)) as (Hi1 & k & Hk & Ho & Hq).
  1,2: exists Dropped, k; (split; [split; [by eexists|done]|]); (split; [done|]); (split; [lia|]);
    (split; [done|]); (split; [done|]); intros Hw; by destruct (Hq Hw).
  all: specialize (IH (Z.min (backoff * 2) MAX_RETRY_BACKOFF) (link_sleep backoff w1) Hi1);
    destruct (attempts _ _ _ _ _ _ _) as [[res' m'] w']; destruct IH as (o & k' & Hc & Hend);
    exists o, (k + k')%nat; (split; [done|]); by apply (ended_retry _ _ _ _ _ _ w1 _ backoff).
Qed.

(** The outcome of a batch can be told from the worker's counters. *)
Lemma counted_drop_moves (count : Z) (m : TapioMetrics) : counted_drop count m <> m.
Proof.
  intros E. apply (f_equal (metric_value MSendFailures ["events"])) in E. unfold counted_drop in E.
  rewrite bump_other, bump_same in E by naive_solver. unfold wrap64 in E.
  set (v := metric_value _ _ _) in E. pose proof (Z.mod_pos_bound (v + 1) (2 ^ 64) ltac:(lia)).
  rewrite E in H. destruct (decide (v = 2 ^ 64 - 1)) as [Hv|Hv].
  - rewrite Hv in E. discriminate E.
  - rewrite Z.mod_small in E; lia.
Qed.

Lemma came_to_unique (o o' : send_outcome) (count : Z) (m m' : TapioMetrics) (res : result unit string) :
  came_to o count m res m' -> came_to o' count m res m' -> o = o'.
Proof.
  pose proof (counted_drop_moves count m).
  destruct o, o'; simpl; naive_solver.
Qed.
(** A batch with a request the agent refuses holds an event it refuses. *)
Lemma refused_batch (k : Worker) (batch : list WireEvent) (now : Z) (e : WireError) :
  wk_controller k = c -> batch <> [] -> zlen batch <= max_batch ->
  EventBatchRequest_validate (batch_request k batch now) U64_MAX = Err e ->
  exists event, In event batch /\ WireEvent_validate event <> Ok tt.
Proof.
  intros Hk Hne Hn He. destruct (try_for_each WireEvent_validate batch) as [[]|e'] eqn:Ev.
  - exfalso. assert (Hv : EventBatchRequest_validate (batch_request k batch now) U64_MAX = Ok tt); [|congruence].
    apply event_batch_validate_accepts. simpl. rewrite Hk. apply try_for_each_Ok in Ev.
    unfold is_u64 in Hmax. assert (1 <= zlen batch) by (destruct batch; [done|rewrite zlen_cons; pose proof (zlen_nonneg batch); lia]).
    split; [done|]. split; [done|]. split; [done|]. split; [lia|].
    eapply Forall_impl; [exact Ev|]. intros event. apply WireEvent_validate_Ok.
  - apply try_for_each_Err in Ev as (l1 & event & l2 & -> & _ & Hv). exists event.
    split; [apply in_elt|congruence].
Qed.

Notation send := (send_event_batch_with_retries (H := link_net) utf8_error encode_batch decode_batch_response
                    link_sleep lk_now).

Lemma batch_link (o : send_outcome) (batch : list WireEvent) (retry : bool) (k : Worker) (w : link) :
  wk_controller k = c -> batch <> [] -> zlen batch <= max_batch -> link_inv w ->
  outcome_ok (H := link_net) utf8_error encode_batch decode_batch_response link_sleep lk_now o batch retry k w ->
  let w' := snd (send batch retry k w) in
  exists copies, link_inv w' /\ copies_ok (batch, o) copies /\
    own id (lk_history w') = own id (lk_history w) ++ replicate copies (wk_sequence k, batch) /\
    (quiet w -> quiet w' /\ copies_exact (batch, o) copies).
Proof.
  intros Hk Hne Hn Hi Ho. unfold outcome_ok in Ho. unfold send_event_batch_with_retries in *.
  set (r := batch_request k batch (unix_now (lk_now w))) in *.
  destruct (EventBatchRequest_validate r U64_MAX) as [[]|e] eqn:Ev.
  2: { exists 0%nat. simpl. rewrite app_nil_r. split; [done|]. destruct o; simpl in Ho.
    - by destruct Ho.
    - destruct Ho as [_ Ho]. by apply eq_sym, counted_drop_moves in Ho.
    - split; [|done]. split; [lia|]. right. by eapply refused_batch. }
  assert (Hv : EventBatchRequest_validate r max_batch = Ok tt) by by apply (validate_within _ U64_MAX).
  assert (Hra : eb_agent_id r = id) by (simpl; by rewrite Hk).
  destruct (encode_batch r) as [body|e] eqn:Eb; [|by pose proof (wo_encodes _ Hwiring r) as He; rewrite Eb in He].
  rewrite Hk in Ho |- *.
  pose proof (attempts_link (if retry then MAX_RETRIES else 0%nat) INITIAL_RETRY_BACKOFF (zlen batch) r body
    (wk_metrics k) w Eb Hra Hv Hi) as Ha.
  destruct (attempts _ _ _ _ _ _ _) as [[res m'] w']. destruct Ha as (o' & n & Hc & (Hi' & Hle & Hown & Hd & Hq)).
  assert (o' = o) as ->.
  { apply (came_to_unique _ _ _ _ _ _ Hc). destruct o; simpl in *; tauto. }
  exists n. simpl. split; [done|]. split; [|naive_solver].
  split; [destruct retry; unfold MAX_RETRIES in *; lia|]. destruct o; simpl;
    [by apply Hd|done|left; by apply Hd].
Qed.

Notation batch_log := (sent_log (H := link_net) utf8_error encode_batch decode_batch_response link_sleep lk_now c).

Lemma log_link (n n' : Z) (w w' : link) (log : list (list WireEvent * send_outcome)) :
  batch_log n w log n' w' -> Forall (fun x => zlen (fst x) <= max_batch) log -> link_inv w ->
  exists copies, link_inv w' /\ Forall2 copies_ok log copies /\
    own id (lk_history w') = own id (lk_history w) ++ arrivals n log copies /\
    (quiet w -> quiet w' /\ Forall2 copies_exact log copies).
Proof.
  induction 1 as [n w|n w batch o w1 log n' w' He _ IH]; intros Hf Hi.
  { exists []. rewrite app_nil_r. auto. }
  apply Forall_cons in Hf as [Hn Hf]. destruct He as (Hne & retry & k & Hk & <- & Ho & <-).
  destruct (batch_link o batch retry k w Hk Hne Hn Hi Ho) as (m & Hi1 & Hm & Hown & Hq).
  destruct (IH Hf Hi1) as (copies & Hi' & Hc & Hown' & Hq'). exists (m :: copies). split; [done|].
  split; [by constructor|]. split; [by rewrite Hown', Hown, <- app_assoc|].
  intros Hw. destruct (Hq Hw) as [Hw1 He]. destruct (Hq' Hw1) as [Hw' Hx]. split; [done|by constructor].
Qed.
(** ** The controller's books *)

Lemma accepted_total (h : list ctl_request) (s : InnerState) :
  bc_max_batch_events (cr_batching (in_config s)) = max_batch ->
  wrap64 (in_accepted_events_total (fold_left ctl_step h s)) =
  wrap64 (in_accepted_events_total s + zlen (accepted_events max_batch h)).
Proof.
  revert s. induction h as [|r h IH]; intros s Hs; [simpl; by rewrite zlen_nil, Z.add_0_r|].
  cbn [fold_left]. rewrite IH by (pose proof (steps_config [r] s) as Hc; cbn in Hc; by rewrite Hc).
  destruct r as [hello now|hb now|b]; simpl;
    [unfold register_agent; by case_match|unfold record_heartbeat; by case_match|].
  unfold record_event_batch. rewrite Hs. destruct (EventBatchRequest_validate b max_batch) as [[]|e]; [|done].
  simpl. by rewrite wrap64_add_l, zlen_app, Z.add_assoc.
Qed.

Lemma accepted_split (h : list ctl_request) :
  forallb proper h = true ->
  zlen (accepted_events max_batch h) =
  zlen (concat (map snd (own id h))) + zlen (accepted_events max_batch (List.filter (foreign id) h)).
Proof.
  induction h as [|r h IH]; [done|]. simpl. intros [Hr Hh]%andb_true_iff. specialize (IH Hh).
  destruct r as [hello now|hb now|b]; unfold proper in Hr; simpl in *.
  - by destruct (negb (String.eqb (hello_agent_id hello) id)).
  - done.
  - destruct (String.eqb (eb_agent_id b) id); simpl in *.
    + destruct (EventBatchRequest_validate b max_batch); [|done]. rewrite !zlen_app. lia.
    + destruct (EventBatchRequest_validate b max_batch); [rewrite !zlen_app|]; lia.
Qed.

Definition tracking (s : InnerState) : SequenceTracking :=
  default SequenceTracking_default (bt_get id (in_sequences s)).

Lemma tracking_history (h : list ctl_request) (s : InnerState) :
  hellos = false ->
  bc_max_batch_events (cr_batching (in_config s)) = max_batch -> forallb proper h = true ->
  tracking (fold_left ctl_step h s) = track_all (map fst (own id h)) (tracking s).
Proof.
  intros Hno. revert s. induction h as [|r h IH]; intros s Hs; [done|]. simpl. intros [Hr Hh]%andb_true_iff.
  pose proof (steps_config [r] s) as Hc. simpl in Hc.
  rewrite (IH (ctl_step s r)) by (rewrite ?Hc; done). unfold proper in Hr.
  destruct r as [hello now|hb now|b]; simpl in *.
  - rewrite Hno in Hr. destruct (String.eqb_spec (hello_agent_id hello) id) as [|Hne]; [done|]. f_equal.
    unfold register_agent, tracking. case_match; [|done]. simpl. by rewrite bt_get_insert_ne.
  - f_equal. unfold record_heartbeat, tracking. by case_match.
  - unfold record_event_batch. rewrite Hs.
    destruct (String.eqb_spec (eb_agent_id b) id) as [He|Hne]; simpl in Hr |- *.
    + destruct (EventBatchRequest_validate b max_batch); [|done]. unfold tracking. simpl.
      unfold update_sequence_tracking. by rewrite He, bt_get_insert_eq.
    + destruct (EventBatchRequest_validate b max_batch); [|done]. unfold tracking. simpl.
      unfold update_sequence_tracking. by rewrite bt_get_insert_ne.
Qed.
End Books.

(** An exchange that is no batch: a hello, a heartbeat, a poll. *)
Lemma exchange_other (head body : string) (w : link) :
  match extract head body with PostEvents _ => False | _ => True end ->
  link_inv true w ->
  let w' := snd (link_exchange head body w) in
  link_inv true w' /\ own id (lk_history w') = own id (lk_history w) /\ (quiet w -> quiet w').
Proof.
  intros Hx Hi.
  assert (Hserve : forall w, link_inv true w -> let w' := snd (link_serve head body w) in
    link_inv true w' /\ own id (lk_history w') = own id (lk_history w) /\ lk_plan w' = lk_plan w).
  { intros w0 (H1 & H2 & H3). unfold link_serve.
    pose proof (processed_step (extract head body) (lk_now w0) (lk_controller w0)) as Hp.
    assert (Hr : forallb (proper true) (processed (extract head body) (lk_now w0)) = true /\
      own id (processed (extract head body) (lk_now w0)) = []).
    { destruct (extract head body) as [[hello|]|q e|[hb|]|[b|]| |]; try done. unfold proper. simpl. by rewrite orb_true_r. }
    destruct Hr as [Hr Ho]. destruct (route _ _ _ _) as [answer s]. unfold link_inv. simpl in *.
    rewrite fold_left_app, <- H1, forallb_app, H2, Hr, own_app, Ho, app_nil_r. done. }
  unfold link_exchange. destruct (lk_plan w) as [|h rest] eqn:Ep; [done|].
  destruct (before_inv true h rest w Ep Hi) as (Hb & Ho & Hq). destruct (Hserve _ Hb) as (Hi' & Ho' & Hp').
  rewrite Ho in Ho'.
  assert (Hq' : quiet w -> quiet (snd (link_serve head body (link_before h rest w)))).
  { intros Hw. unfold quiet. rewrite Hp'. by apply Hq. }
  destruct (hop_fate h); simpl; try (split; [done|]; split; [done|]; by apply Hq); try done;
    by destruct (link_serve head body (link_before h rest w)) as [answer w'].
Qed.

(** ** A run *)

Variable capacity max_request_bytes now : Z.
Variable plan : list hop.
Hypothesis Hplan : forallb (hop_ok id) plan = true.

Notation sink0 := (ControllerSink_with_limits c TapioMetrics_new capacity max_request_bytes (link_start s0 plan now)).
Notation acted := (sink_run (H := link_net) utf8_error encode_batch encode_event decode_batch_response
                   link_sleep lk_now sink0).
Notation offered := (offers (H := link_net) utf8_error encode_batch encode_event decode_batch_response
                       link_sleep lk_now sink0).
Notation history s := (lk_history (sy_world s)).
Notation batch_log := (sent_log (H := link_net) utf8_error encode_batch decode_batch_response link_sleep lk_now c).

Lemma start_inv (hellos : bool) : link_inv hellos (link_start s0 plan now).
Proof. done. Qed.

Lemma run_link (acts : list sink_action) (s : SinkSystem link) :
  Forall (fun mb => 1 <= mb <= max_batch) (concat (map batch_limit acts)) ->
  acted acts = Some s ->
  exists log copies,
    offered_as is_sent (offered acts) = logged log ++ on_the_way s /\
    batch_log 1 (link_start s0 plan now) log (wk_sequence (sy_worker s)) (sy_world s) /\
    accounts (offered acts) log TapioMetrics_new (wk_metrics (sy_worker s)) /\
    wk_sequence (sy_worker s) = Z.min (1 + zlen log) U64_MAX /\
    link_inv false (sy_world s) /\ Forall2 copies_ok log copies /\ own id (history s) = arrivals 1 log copies /\
    (forallb (fun h => reliable (hop_fate h)) plan = true -> Forall2 copies_exact log copies).
Proof.
  intros Hl Hr. destruct (run_log _ _ _ _ _ _ acts sink0 s Hr) as (log & Ho & Hs & Hw & Ha & _).
  pose proof (Hw max_batch Hl) as Hw'.
  destruct (log_link false _ _ _ _ log Hs Hw' (start_inv false)) as (copies & Hi & Hc & Hown & Hq).
  exists log, copies. split; [exact Ho|]. split; [exact Hs|]. split; [exact Ha|]. split; [by apply (sent_log_length _ _ _ _ _ _ _ _ _ _ _ Hs)|].
  split; [exact Hi|]. split; [exact Hc|]. split; [exact Hown|]. intros Hp. by apply Hq.
Qed.

(** C9. What an acknowledgement is worth.  Whatever the network loses and
    whoever else is served, while the agent itself says no further hello and each
    turn of the worker reads a batch size between 1 and the controller's: the
    log of the worker, batch by batch in the order it sent them from the state
    the one before left, with what each came to (acknowledged, dropped and
    counted as such, or neither) accounts for the events the queue took, and its
    dropped batches are exactly what the two counters of failed sends hold.
    The agent's batches that reached the controller are those of that log,
    in order, each a number of times that fits what it came to: an acknowledged
    batch is there at least once, no batch more than four times, and one the
    worker dropped may be there too.  The controller has accepted every one of
    them, as often as it came: its total holds their events and those it accepted
    from others. *)
Theorem batches_arrive (acts : list sink_action) (s : SinkSystem link)
    (Hlimits : Forall (fun mb => 1 <= mb <= max_batch) (concat (map batch_limit acts)))
    (Hrun : acted acts = Some s) :
  let counter k labels := wrap64 (metric_value k labels (wk_metrics (sy_worker s))) in
  exists log copies,
    offered_as is_sent (offered acts) = logged log ++ on_the_way s /\
    batch_log 1 (link_start s0 plan now) log (wk_sequence (sy_worker s)) (sy_world s) /\
    counter MSinkDrops ["controller"; "send_failed"] = wrap64 (zlen (logged (dropped log))) /\
    counter MSendFailures ["events"] = wrap64 (zlen (dropped log)) /\
    Forall2 copies_ok log copies /\
    own id (history s) = arrivals 1 log copies /\
    lk_controller (sy_world s) = fold_left ctl_step (history s) s0 /\
    wrap64 (in_accepted_events_total (lk_controller (sy_world s))) =
      wrap64 (in_accepted_events_total s0
              + (zlen (concat (map snd (arrivals 1 log copies)))
                 + zlen (accepted_events max_batch (List.filter (foreign id) (history s))))).
Proof.
  intros counter.
  destruct (run_link acts s Hlimits Hrun) as (log & copies & Ho & Hs & (A1 & A2 & _) & _ & (Hi & Hp & _) & Hc & Hown & _).
  exists log, copies. split; [exact Ho|]. split; [exact Hs|].
  split; [by apply (grew_value _ _ _ _ _ A1)|]. split; [by apply (grew_value _ _ _ _ _ A2)|].
  split; [exact Hc|]. split; [exact Hown|]. split; [exact Hi|].
  rewrite Hi, accepted_total, (accepted_split false) by done. by rewrite Hown.
Qed.

(** With nothing lost on the way back, nothing is lost or counted twice:
    the controller holds exactly the acknowledged batches, once each and in
    order, and the ledger balances.  What it accepted from the agent, what the
    agent counted as dropped for a failed send, a full queue or a stopped
    worker, and what is still on the way add up to the events offered. *)
Lemma ledger_balances (acts : list sink_action) (s : SinkSystem link)
    (Hreliable : forallb (fun h => reliable (hop_fate h)) plan = true)
    (Hlimits : Forall (fun mb => 1 <= mb <= max_batch) (concat (map batch_limit acts)))
    (Hvalid : Forall (fun x => WireEvent_validate (fst x) = Ok tt) (offered acts))
    (Hrun : acted acts = Some s) :
  let drops reason := metric_value MSinkDrops ["controller"; reason] (wk_metrics (sy_worker s)) in
  exists log,
    offered_as is_sent (offered acts) = logged log ++ on_the_way s /\
    map snd (own id (history s)) = map fst (acknowledged log) /\
    wrap64 (in_accepted_events_total (lk_controller (sy_world s))
            + drops "send_failed" + drops "queue_full" + drops "worker_stopped" + zlen (on_the_way s)) =
    wrap64 (in_accepted_events_total s0
            + zlen (accepted_events max_batch (List.filter (foreign id) (history s)))
            + zlen (offered acts)).
Proof.
  intros drops.
  destruct (run_link acts s Hlimits Hrun) as (log & copies & Ho & _ & Ha & _ & (Hi & Hp & _) & Hc & Hown & Hx).
  specialize (Hx Hreliable). exists log. split; [exact Ho|].
  assert (Hack : map snd (own id (history s)) = map fst (acknowledged log)) by (rewrite Hown; by apply exact_arrivals).
  split; [exact Hack|].
  assert (Hlog : zlen (logged log) = zlen (logged (acknowledged log)) + zlen (logged (dropped log))).
  { apply ledger_count, (exact_accounted log copies Hc Hx).
    apply (sent_among_offered _ _ _ _ _ Hvalid Ho). }
  pose proof (offers_count (offered acts)) as Hn. rewrite Ho, zlen_app, Hlog in Hn.
  destruct Ha as (A1 & _ & A3 & A4 & _). pose proof (accepted_total (history s) s0 eq_refl) as Hacc.
  rewrite <- Hi, (accepted_split false), Hack in Hacc by done. fold (logged (acknowledged log)) in Hacc.
  unfold grew in A1, A3, A4. apply wrap64_eq in Hacc as [k0 E0], A1 as [k1 E1], A3 as [k3 E3], A4 as [k4 E4].
  apply wrap64_eq. exists (k0 + k1 + k3 + k4). unfold drops. rewrite E0, E1, E3, E4, Hn.
  assert (Hz : forall reason, metric_value MSinkDrops ["controller"; reason] TapioMetrics_new = 0) by done.
  cbn [sy_worker ControllerSink_with_limits wk_metrics]. rewrite !Hz. lia.
Qed.

(** C18. The controller's report of an agent's sequence is what happened to its
    batches since its hello.  From a state in which the controller tracks
    nothing of the agent, as its hello leaves it, and as long as the agent says
    no further hello (each starts the report anew), each turn of the worker reads
    a batch size between 1 and the controller's, and fewer than 2^61 batches are
    numbered: the last number seen is the last that arrived, the regressions are
    the arrivals beyond the first of each number, that is the retries of a
    batch that had arrived, and the gaps are the numbers between the first and
    the last that never arrived. *)
Theorem sequence_reported (acts : list sink_action) (s : SinkSystem link)
    (Hfresh : tracking s0 = SequenceTracking_default)
    (Hlimits : Forall (fun mb => 1 <= mb <= max_batch) (concat (map batch_limit acts)))
    (Hshort : wk_sequence (sy_worker s) <= 2 ^ 61)
    (Hrun : acted acts = Some s) :
  exists log copies,
    offered_as is_sent (offered acts) = logged log ++ on_the_way s /\
    batch_log 1 (link_start s0 plan now) log (wk_sequence (sy_worker s)) (sy_world s) /\
    Forall2 copies_ok log copies /\
    own id (history s) = arrivals 1 log copies /\
    sequence_report (arrived_numbers 1 copies) (copies_total copies) (tracking (lk_controller (sy_world s))).
Proof.
  destruct (run_link acts s Hlimits Hrun) as (log & copies & Ho & Hs & _ & Hseq & (Hi & Hp & _) & Hc & Hown & _).
  exists log, copies. split; [exact Ho|]. split; [exact Hs|]. split; [exact Hc|]. split; [exact Hown|].
  rewrite Hi, (tracking_history false), Hown, Hfresh by done.
  assert (Hn : 1 + zlen log <= 2 ^ 61) by (rewrite Hseq in Hshort; width_lia).
  apply track_from_start; [symmetry; by eapply Forall2_length|lia|width_lia|].
  assert (Ht : copies_total copies <= 4 * zlen log); [|width_lia].
  clear -Hc. induction Hc as [|x k log copies [Hk _] _ IH]; [done|]. rewrite copies_cons, zlen_cons.
  unfold MAX_RETRIES in Hk. lia.
Qed.
End Agent.
End Link.

(** * Witnesses *)

(** Three batches of one event each: the answer to the first is lost, the second
    finds no controller, the third arrives. *)
Definition sample_wire : WireEvent := {|
  we_event_type := "kernel.network.rtt_degradation"; we_timestamp_unix_nanos := 0;
  we_observer := "network"; we_severity := EvWarning; we_facts := JObject [] |}.

(** The clock is at the pauses of the retries so far. *)
Definition sample_sent (n : Z) : Z :=
  if n =? 1 then 0 else if n =? 2 then from_millis 100 else from_millis 800.

Definition sample_request (n : Z) : EventBatchRequest := {|
  eb_wire_version := WIRE_VERSION; eb_agent_id := "node/a b"; eb_node_name := "n1";
  eb_sequence := n; eb_sent_at_unix_nanos := sample_sent n; eb_events := [sample_wire] |}.

Definition is_sample_wire (e : WireEvent) : bool :=
  String.eqb (we_event_type e) "kernel.network.rtt_degradation" && (we_timestamp_unix_nanos e =? 0)
  && String.eqb (we_observer e) "network"
  && match we_severity e, we_facts e with EvWarning, JObject [] => true | _, _ => false end.

Definition is_sample (r : EventBatchRequest) : bool :=
  String.eqb (eb_wire_version r) WIRE_VERSION && String.eqb (eb_agent_id r) "node/a b"
  && String.eqb (eb_node_name r) "n1" && (1 <=? eb_sequence r) && (eb_sequence r <=? 3)
  && (eb_sent_at_unix_nanos r =? sample_sent (eb_sequence r))
  && match eb_events r with [e] => is_sample_wire e | _ => false end.

(** A codec for these batches; any other text is refused. *)
Definition link_encode (r : EventBatchRequest) : result string string :=
  Ok (if is_sample r then fix_dec 1 (eb_sequence r) else "?").

Definition link_extract (head body : string) : http_request :=
  PostEvents match parse_unsigned 9 body with
             | Some n => Ok (sample_request n)
             | None => Err {| rej_status := 400; rej_text := "not a batch" |}
             end.

Definition link_payload (b : ApiBody) : string :=
  match b with BodyEvents r => fix_dec 20 (ebr_accepted r) | _ => EmptyString end.

Definition link_render (a : ApiResponse) : string :=
  "HTTP/1.1 " +:+ dec (api_status a) +:+ " " +:+ http_crlf +:+ http_crlf +:+ link_payload (api_body a).

Definition link_decode (s : string) : result EventBatchResponse string :=
  match parse_unsigned U64_MAX s with Some n => Ok (events_answer "1" n) | None => Err "no" end.

Lemma is_sample_spec (r : EventBatchRequest) :
  is_sample r = true -> r = sample_request (eb_sequence r) /\ 1 <= eb_sequence r <= 3.
Proof.
  unfold is_sample. rewrite !andb_true_iff, !String.eqb_eq. destruct r as [v a n q t es]. simpl.
  intros ((((((-> & ->) & ->) & H1) & H2) & Ht) & He). split; [|lia].
  apply Z.eqb_eq in Ht as ->. destruct es as [|[ty ts ob sv fa] [|e' es]]; try done.
  unfold is_sample_wire in He. rewrite !andb_true_iff, !String.eqb_eq in He. simpl in He.
  destruct He as [[[-> Hz] ->] Hs]. apply Z.eqb_eq in Hz as ->.
  destruct sv; try done. destruct fa as [| | | | | |[|]]; done.
Qed.

Lemma link_wiring :
  wiring_ok (fun _ => EmptyString) link_encode link_decode link_extract link_render link_payload "1".
Proof.
  constructor.
  - done.
  - intros host body r He%Ok_inj. subst body. cbv zeta. unfold link_extract. destruct (is_sample r) eqn:Es; [|right; by eexists].
    left. destruct (is_sample_spec r Es) as [Er Hn].
    rewrite parse_unsigned_fix_dec by lia. by rewrite <- Er.
  - intros [st et b] Ha. simpl in Ha. unfold link_render. cbn [api_status api_body].
    repeat (destruct Ha as [<-|Ha]; [destruct (link_payload b); reflexivity|]). done.
  - intros n Hn. unfold is_u64, U64_MAX in Hn. split.
    + unfold link_decode. cbn [link_payload ebr_accepted events_answer]. rewrite parse_unsigned_fix_dec by (unfold U64_MAX; lia). done.
    + unfold link_render, slen. rewrite !str_length_app. cbn [link_payload api_body json_response ebr_accepted events_answer].
      rewrite fix_dec_length. vm_compute. done.
Qed.

Definition lost_hop : hop := {| hop_before := []; hop_elapsed := 0; hop_fate := AnswerLost "timed out" |}.
Definition down_hop : hop := {| hop_before := []; hop_elapsed := 0; hop_fate := Unreachable "refused" |}.
Definition good_hop : hop :=
  {| hop_before := [ReqHello sample_hello 0]; hop_elapsed := 0; hop_fate := Answered |}.

Definition link_actions : list sink_action :=
  [ActSend sample_anomaly; ActReceive 1; ActSend sample_anomaly; ActReceive 1;
   ActSend sample_anomaly; ActReceive 1].

Notation sample_link_run plan acts :=
  (sink_run (H := link_net (fun _ => true) link_extract link_render) (fun _ => EmptyString) link_encode sized_event
    link_decode link_sleep lk_now
    (ControllerSink_with_limits sample_controller TapioMetrics_new 8 1000
       (link_start (InnerState_new ConfigResponse_default_v1 0) plan 0)) acts).

Definition lossy_plan : list hop := [lost_hop; good_hop; down_hop; down_hop; down_hop; down_hop; good_hop].
Definition quiet_plan : list hop := [down_hop; good_hop; down_hop; down_hop; down_hop; down_hop; good_hop].


Lemma batches_arrive_witness :
  exists s log copies, sample_link_run lossy_plan link_actions = Some s /\
    wrap64 (zlen (logged (dropped log))) = 1 /\
    Forall2 copies_ok log copies /\
    own "node/a b" (lk_history (sy_world s)) = arrivals 1 log copies /\
    map fst (arrivals 1 log copies) = [1; 1; 3] /\
    in_accepted_events_total (lk_controller (sy_world s)) = 3.
Proof.
  assert (Hrun : exists s, sample_link_run lossy_plan link_actions = Some s /\
    map fst (own "node/a b" (lk_history (sy_world s))) = [1; 1; 3] /\
    in_accepted_events_total (lk_controller (sy_world s)) = 3 /\
    wrap64 (metric_value MSinkDrops ["controller"; "send_failed"] (wk_metrics (sy_worker s))) = 1).
  { eexists. split; [vm_compute; reflexivity|]. vm_compute. done. }
  destruct Hrun as (s & Hrun & Hn & Ht & Hd1).
  destruct (batches_arrive (fun _ => EmptyString) link_encode sized_event link_decode (fun _ => true)
    link_extract link_render link_payload sample_controller (InnerState_new ConfigResponse_default_v1 0)
    "127.0.0.1:8080" eq_refl eq_refl eq_refl link_wiring ltac:(vm_compute; split; congruence) eq_refl eq_refl
    8 1000 0 lossy_plan eq_refl link_actions s ltac:(repeat constructor; vm_compute; congruence) Hrun)
    as (log & copies & _ & _ & Hd & _ & Hc & Hown & _).
  cbv beta zeta in Hd. rewrite Hd1 in Hd.
  exists s, log, copies. split; [exact Hrun|]. split; [exact (eq_sym Hd)|]. split; [exact Hc|]. split; [exact Hown|].
  split; [rewrite <- Hown; exact Hn|exact Ht].
Defined.

Lemma all_valid (l : list (WireEvent * try_send_outcome)) :
  forallb (fun x => is_ok (WireEvent_validate (fst x))) l = true ->
  Forall (fun x => WireEvent_validate (fst x) = Ok tt) l.
Proof.
  rewrite forallb_forall, List.Forall_forall. intros Hl x Hx. specialize (Hl x Hx).
  by destruct (WireEvent_validate (fst x)) as [[]|].
Qed.

(** The first answer is not lost now: the batch arrives once, the second is dropped,
    the third arrives, and a fourth event is still queued. *)
Definition ledger_actions : list sink_action := link_actions ++ [ActSend sample_anomaly].

Lemma ledger_balances_witness :
  exists s log, sample_link_run quiet_plan ledger_actions = Some s /\
    map snd (own "node/a b" (lk_history (sy_world s))) = map fst (acknowledged log) /\
    map fst (own "node/a b" (lk_history (sy_world s))) = [1; 3] /\
    wrap64 (2 + 1 + 0 + 0 + 1) = wrap64 (0 + 0 + 4).
Proof.
  assert (Hrun : exists s, sample_link_run quiet_plan ledger_actions = Some s /\
    map fst (own "node/a b" (lk_history (sy_world s))) = [1; 3] /\
    in_accepted_events_total (lk_controller (sy_world s)) = 2 /\ zlen (on_the_way s) = 1 /\
    zlen (accepted_events 256 (List.filter (foreign "node/a b") (lk_history (sy_world s)))) = 0 /\
    map (fun l => metric_value MSinkDrops ["controller"; l] (wk_metrics (sy_worker s)))
      ["send_failed"; "queue_full"; "worker_stopped"] = [1; 0; 0]).
  { eexists. split; [vm_compute; reflexivity|]. vm_compute. done. }
  destruct Hrun as (s & Hrun & Hn & Ht & Hw & Hf & [= H1 H2 H3]).
  assert (Hv : Forall (fun x => WireEvent_validate (fst x) = Ok tt)
    (offers (H := link_net (fun _ => true) link_extract link_render) (fun _ => EmptyString) link_encode sized_event
       link_decode link_sleep lk_now
       (ControllerSink_with_limits sample_controller TapioMetrics_new 8 1000
          (link_start (InnerState_new ConfigResponse_default_v1 0) quiet_plan 0)) ledger_actions))
    by (apply all_valid; vm_compute; reflexivity).
  destruct (ledger_balances (fun _ => EmptyString) link_encode sized_event link_decode (fun _ => true)
    link_extract link_render link_payload sample_controller (InnerState_new ConfigResponse_default_v1 0)
    "127.0.0.1:8080" eq_refl eq_refl eq_refl link_wiring ltac:(vm_compute; split; congruence) eq_refl eq_refl
    8 1000 0 quiet_plan eq_refl ledger_actions s eq_refl ltac:(repeat constructor; vm_compute; congruence)
    Hv Hrun) as (log & _ & Hack & Hsum).
  exists s, log. split; [exact Hrun|]. split; [exact Hack|]. split; [exact Hn|].
  assert (Ho : zlen (offers (H := link_net (fun _ => true) link_extract link_render) (fun _ => EmptyString) link_encode sized_event
    link_decode link_sleep lk_now
    (ControllerSink_with_limits sample_controller TapioMetrics_new 8 1000
       (link_start (InnerState_new ConfigResponse_default_v1 0) quiet_plan 0)) ledger_actions) = 4)
    by (vm_compute; reflexivity).
  cbv zeta in Hsum. rewrite Ht, H1, H2, H3, Hw, Ho in Hsum.
  change (bc_max_batch_events _) with 256 in Hsum. change (ctl_agent_id _) with "node/a b" in Hsum.
  rewrite Hf in Hsum. exact Hsum.
Defined.

Lemma sequence_reported_witness :
  exists s copies, sample_link_run lossy_plan link_actions = Some s /\
    sequence_report (arrived_numbers 1 copies) (copies_total copies)
      (tracking sample_controller (lk_controller (sy_world s))) /\
    tracking sample_controller (lk_controller (sy_world s)) =
      {| sq_last_seen := Some 3; sq_gaps_total := 1; sq_regressions_total := 1 |}.
Proof.
  assert (Hrun : exists s, sample_link_run lossy_plan link_actions = Some s /\
    wk_sequence (sy_worker s) = 4 /\
    tracking sample_controller (lk_controller (sy_world s)) =
      {| sq_last_seen := Some 3; sq_gaps_total := 1; sq_regressions_total := 1 |}).
  { eexists. split; [vm_compute; reflexivity|]. vm_compute. done. }
  destruct Hrun as (s & Hrun & Hn & Ht).
  destruct (sequence_reported (fun _ => EmptyString) link_encode sized_event link_decode (fun _ => true)
    link_extract link_render link_payload sample_controller (InnerState_new ConfigResponse_default_v1 0)
    "127.0.0.1:8080" eq_refl eq_refl eq_refl link_wiring ltac:(vm_compute; split; congruence) eq_refl eq_refl
    8 1000 0 lossy_plan eq_refl link_actions s eq_refl ltac:(repeat constructor; vm_compute; congruence)
    ltac:(rewrite Hn; lia) Hrun) as (log & copies & _ & _ & _ & _ & Hs).
  exists s, copies. exact (conj Hrun (conj Hs Ht)).
Defined.
