(* ===== verification/Setup.v ===== *)
(** What the [run] of each observer does before its loop
    ([tapio-agent/src/observer/]{mod,network,container,storage,node_pmc}.rs):
    it loads the eBPF object, installs the configuration and registers its
    map, attaches the programs, and opens the ring buffer; the counters of
    the processor come before the program that reads them.  What the crate
    aya and the system calls answer is the class [Aya]; the calls an observer
    makes are logged. *)
From Stdlib Require Import String.
From S2P Require Import Prelude RustStr CommonEbpf AgentConfig Carriers.
Local Open Scope Z_scope.

Inductive attach_point :=
| TracePoint (category name : string)
| PerfSoftwareClock (cpu : Z) (frequency : Z).

(** The object file and its maps and programs, and the processor's counters.
    [aya_program] is [program_mut] and the conversion to the kind of program;
    a failure has its message. *)
Class Aya (W : Type) := {
  aya_load_file : string -> W -> result unit string * W;
  aya_map : string -> W -> option Z;
  aya_program : string -> W -> option (result unit string);
  aya_program_load : string -> W -> result unit string * W;
  aya_attach : string -> attach_point -> W -> result unit string * W;
  aya_nr_cpus : W -> result Z (string * string);
  aya_ring_buf : W -> result unit string;
  sys_perf_event_open : list Z -> Z -> W -> result Z string * W;
  sys_map_set_fd : Z -> Z -> Z -> W -> result unit string * W;
}.

(** The calls that change the kernel, with their success. *)
Inductive setup_call :=
| CallConfig (observer : string) (ok : bool)
| CallLoad (program : string) (ok : bool)
| CallAttach (program : string) (point : attach_point) (ok : bool)
| CallPerfMap (map_name : string) (cpu : Z) (ok : bool).

Record setup_state (W : Type) := {
  su_carriers : ConfigCarrierState;
  su_maps : Maps;
  su_calls : list setup_call;
  su_world : W;
}.
Arguments su_carriers {W} _.
Arguments su_maps {W} _.
Arguments su_calls {W} _.
Arguments su_world {W} _.

(** Why a setup does not reach the loop: an error, or an [Ok] without one. *)
Inductive setup_stop := SetupFailed (message : string) | SetupDisabled.

Section Setup.
Context {W : Type} `{Aya W}.
(** Whether the n-th write of a configuration map works. *)
Variable writable : nat -> Z -> bool.

(** Fallible steps on the state. *)
Definition setup (A : Type) : Type := setup_state W -> result A setup_stop * setup_state W.

#[local] Instance setup_ret : MRet setup := fun A a s => (Ok a, s).
#[local] Instance setup_bind : MBind setup := fun A B k m s =>
  match m s with
  | (Ok a, s) => k a s
  | (Err e, s) => (Err e, s)
  end.

Definition fail {A : Type} (message : string) : setup A := fun s => (Err (SetupFailed message), s).
Definition get_world : setup W := fun s => (Ok (su_world s), s).

(** A call on the outside, logged under what it was if it is one to log. *)
Definition call {A : Type} (f : W -> result A string * W) (entry : bool -> list setup_call) :
  setup (result A string) := fun s =>
  let '(r, w) := f (su_world s) in
  (Ok r, {| su_carriers := su_carriers s; su_maps := su_maps s;
            su_calls := su_calls s ++ entry (is_ok r); su_world := w |}).

(** [?] after the error was given its message. *)
Definition ok_or {A : Type} (message : string -> string) (r : result A string) : setup A :=
  match r with Ok a => mret a | Err e => fail (message e) end.

(** A loop whose body may fail. *)
Fixpoint for_each {A : Type} (l : list A) (body : A -> setup unit) : setup unit :=
  match l with
  | [] => mret tt
  | x :: rest => body x ≫= fun _ => for_each rest body
  end.

(** * Shared steps *)

Definition load_ebpf (path observer : string) : setup unit :=
  r ← call (aya_load_file path) (fun _ => []);
  ok_or (fun e => "failed to load " +:+ observer +:+ " eBPF object " +:+ path +:+ ": " +:+ e) r.

Definition metrics_map_fd : setup (option Z) := w ← get_world; mret (aya_map "tapio_metrics" w).

Definition init_config (observer : string) (config : TapioConfig) : setup unit := fun s =>
  let '(ok, cst, maps) :=
    init_and_register_tapio_config writable (aya_map "tapio_config" (su_world s)) observer config
      (su_carriers s) (su_maps s) in
  let s := {| su_carriers := cst; su_maps := maps; su_calls := su_calls s ++ [CallConfig observer ok];
              su_world := su_world s |} in
  if ok then (Ok tt, s)
  else (Err (SetupFailed (observer +:+ " observer: failed to initialize tapio_config carrier")), s).

Definition program_mut (name : string) : setup unit :=
  w ← get_world;
  match aya_program name w with
  | None => fail ("program not found: " +:+ name)
  | Some r => ok_or (fun e => e) r
  end.

(** One of the tracepoints of an observer. *)
Definition attach_tracepoint (observer : string) (program : string * string * string) : setup unit :=
  let '(name, category, tp) := program in
  _ ← program_mut name;
  r ← call (aya_program_load name) (fun ok => [CallLoad name ok]);
  _ ← ok_or (fun e => "failed to load " +:+ observer +:+ " program " +:+ name +:+ ": " +:+ e) r;
  r ← call (aya_attach name (TracePoint category tp)) (fun ok => [CallAttach name (TracePoint category tp) ok]);
  ok_or (fun e => "failed to attach " +:+ observer +:+ " program " +:+ name +:+ " to " +:+ category
                  +:+ "/" +:+ tp +:+ ": " +:+ e) r.

Definition nr_cpus : setup Z :=
  w ← get_world;
  match aya_nr_cpus w with
  | Ok n => mret n
  | Err (msg, e) => fail (msg +:+ ": " +:+ e)
  end.

Definition open_ring_buf : setup unit :=
  w ← get_world;
  match aya_map "events" w with
  | None => fail "map not found: events"
  | Some _ => ok_or (fun e => e) (aya_ring_buf w)
  end.

(** * The four observers *)

(** An observer of tracepoints: the descriptor of its counters and the number
    of CPUs its loop sums over. *)
Definition tracepoint_setup (observer : string) (programs : list (string * string * string)) (path : string)
    (config : TapioConfig) : setup (option Z * Z) :=
  _ ← load_ebpf path observer;
  _ ← init_config observer config;
  _ ← for_each programs (attach_tracepoint observer);
  cpus ← nr_cpus;
  metrics_fd ← metrics_map_fd;
  _ ← open_ring_buf;
  mret (metrics_fd, cpus).

Definition NETWORK_PROGRAMS : list (string * string * string) :=
  [("trace_inet_sock_set_state", "sock", "inet_sock_set_state");
   ("trace_tcp_receive_reset", "tcp", "tcp_receive_reset");
   ("trace_tcp_retransmit_skb", "tcp", "tcp_retransmit_skb")].
Definition CONTAINER_PROGRAMS : list (string * string * string) :=
  [("handle_oom", "oom", "mark_victim"); ("handle_exit", "sched", "sched_process_exit")].
Definition STORAGE_PROGRAMS : list (string * string * string) :=
  [("trace_block_rq_issue", "block", "block_rq_issue");
   ("trace_block_rq_complete", "block", "block_rq_complete")].

Definition network_setup : string -> TapioConfig -> setup (option Z * Z) :=
  tracepoint_setup "network" NETWORK_PROGRAMS.
Definition container_setup : string -> TapioConfig -> setup (option Z * Z) :=
  tracepoint_setup "container" CONTAINER_PROGRAMS.
Definition storage_setup : string -> TapioConfig -> setup (option Z * Z) :=
  tracepoint_setup "storage" STORAGE_PROGRAMS.

(** ** The processor's counters *)

Definition HW_CPU_CYCLES : Z := 0.
Definition HW_INSTRUCTIONS : Z := 1.
Definition HW_STALLED_CYCLES_BACKEND : Z := 8.

(** [perf_event_attr]: the size at offset 4, the counter at 8, [exclude_hv] at 40. *)
Definition ATTR_SIZE : nat := 136.
Definition perf_attr (config : Z) : list Z :=
  replicate 4 0 ++ le_split 4 (Z.of_nat ATTR_SIZE) ++ le_split 8 config ++ replicate 24 0 ++
  le_split 8 (Z.shiftl 1 6) ++ replicate (ATTR_SIZE - 48) 0.

Definition perf_event_open_hw (config cpu : Z) : setup (result Z string) :=
  call (sys_perf_event_open (perf_attr config) cpu) (fun _ => []).

(** [bpf_map_update_elem] on the descriptors as [u32], into the CPU's slot. *)
Definition bpf_map_set_perf_fd (map_name : string) (map_fd cpu perf_fd : Z) : setup (result unit string) :=
  call (sys_map_set_fd (wrap32 map_fd) cpu (wrap32 perf_fd)) (fun ok => [CallPerfMap map_name cpu ok]).

Definition set_perf_event_map (map_name : string) (cpu fd : Z) : setup unit :=
  w ← get_world;
  match aya_map map_name w with
  | None => fail ("map not found: " +:+ map_name)
  | Some map_fd =>
      r ← bpf_map_set_perf_fd map_name map_fd cpu fd;
      ok_or (fun e => e) r
  end.

(** One CPU of the loop: without cycles on the first the observer is disabled,
    and any other missing counter skips the CPU. *)
Definition open_cpu (cpu : Z) : setup unit :=
  cycles ← perf_event_open_hw HW_CPU_CYCLES cpu;
  match cycles with
  | Err _ => fun s => if cpu =? 0 then (Err SetupDisabled, s) else (Ok tt, s)
  | Ok cycles =>
      instructions ← perf_event_open_hw HW_INSTRUCTIONS cpu;
      match instructions with
      | Err _ => mret tt
      | Ok instructions =>
          stalls ← perf_event_open_hw HW_STALLED_CYCLES_BACKEND cpu;
          match stalls with
          | Err _ => mret tt
          | Ok stalls =>
              _ ← set_perf_event_map "pmc_cycles" cpu cycles;
              _ ← set_perf_event_map "pmc_instructions" cpu instructions;
              set_perf_event_map "pmc_stalls" cpu stalls
          end
      end
  end.

Definition attach_cpu (cpu : Z) : setup unit :=
  let point := PerfSoftwareClock cpu 10 in
  r ← call (aya_attach "sample_pmc" point) (fun ok => [CallAttach "sample_pmc" point ok]);
  ok_or (fun e => "failed to attach PMC program sample_pmc to cpu " +:+ dec cpu +:+ ": " +:+ e) r.

Definition cpu_range (n : Z) : list Z := map Z.of_nat (seq 0 (Z.to_nat n)).

Definition pmc_setup (path : string) (config : TapioConfig) : setup (option Z * Z) :=
  _ ← load_ebpf path "pmc";
  _ ← init_config "node_pmc" config;
  cpus ← nr_cpus;
  let num_cpus := wrap32 cpus in
  _ ← for_each (cpu_range num_cpus) open_cpu;
  _ ← program_mut "sample_pmc";
  r ← call (aya_program_load "sample_pmc") (fun ok => [CallLoad "sample_pmc" ok]);
  _ ← ok_or (fun e => "failed to load PMC program sample_pmc: " +:+ e) r;
  _ ← for_each (cpu_range num_cpus) attach_cpu;
  metrics_fd ← metrics_map_fd;
  _ ← open_ring_buf;
  mret (metrics_fd, num_cpus).

(** * Lemmas *)

(** [m] logs only calls that satisfy [Q] and leaves the carriers alone. *)
Definition logs (Q : setup_call -> Prop) {A : Type} (m : setup A) : Prop := forall s,
  let s' := snd (m s) in
  su_carriers s' = su_carriers s /\ su_maps s' = su_maps s /\
  exists new, su_calls s' = su_calls s ++ new /\ Forall Q new.

(** When [m] succeeds, it has logged [l]. *)
Definition does {A : Type} (m : setup A) (l : list setup_call) : Prop := forall s a s',
  m s = (Ok a, s') -> su_calls s' = su_calls s ++ l.

Lemma logs_still (Q : setup_call -> Prop) {A : Type} (m : setup A) :
  (forall s, snd (m s) = s) -> logs Q m.
Proof. intros Hm s. rewrite Hm. split; [done|]. split; [done|]. exists []. by rewrite app_nil_r. Qed.

Lemma logs_bind (Q : setup_call -> Prop) {A B : Type} (m : setup A) (k : A -> setup B) :
  logs Q m -> (forall a, logs Q (k a)) -> logs Q (m ≫= k).
Proof.
  intros Hm Hk s. cbv zeta. unfold mbind, setup_bind. specialize (Hm s).
  destruct (m s) as [[a|e] s1]; [|exact Hm]. simpl in Hm. destruct Hm as (Hc & Hp & new & Hn & Hq).
  destruct (Hk a s1) as (Hc' & Hp' & new' & Hn' & Hq'). split; [congruence|]. split; [congruence|].
  exists (new ++ new'). rewrite Hn', Hn, app_assoc. split; [done|]. by apply Forall_app.
Qed.

Lemma logs_call (Q : setup_call -> Prop) {A : Type} (f : W -> result A string * W) (entry : bool -> list setup_call) :
  (forall ok, Forall Q (entry ok)) -> logs Q (call f entry).
Proof.
  intros He s. unfold call. destruct (f (su_world s)) as [r w]. simpl. split; [done|]. split; [done|]. by eexists.
Qed.

Lemma logs_for_each (Q : setup_call -> Prop) {A : Type} (l : list A) (body : A -> setup unit) :
  (forall x, In x l -> logs Q (body x)) -> logs Q (for_each l body).
Proof.
  induction l as [|x l IH]; intros Hb; cbn [for_each]; [by apply logs_still|].
  apply logs_bind; [apply Hb; by left|]. intros _. apply IH. intros y Hy. apply Hb. by right.
Qed.

Lemma logs_ok_or (Q : setup_call -> Prop) {A : Type} (f : string -> string) (r : result A string) : logs Q (ok_or f r).
Proof. apply logs_still. by destruct r. Qed.

Lemma does_bind {A B : Type} (m : setup A) (k : A -> setup B) (l l' : list setup_call) :
  does m l -> (forall a, does (k a) l') -> does (m ≫= k) (l ++ l').
Proof.
  intros Hm Hk s b s'. unfold mbind, setup_bind. destruct (m s) as [[a|e] s1] eqn:Em; [|done]. intros Hs.
  rewrite app_assoc. rewrite <- (Hm _ _ _ Em). by eapply Hk.
Qed.

Lemma does_still {A : Type} (m : setup A) : (forall s, snd (m s) = s) -> does m [].
Proof. intros Hm s a s' E. specialize (Hm s). rewrite E in Hm. simpl in Hm. by rewrite Hm, app_nil_r. Qed.

(** A call whose failure stops the setup is logged as a success. *)
Lemma does_call {A : Type} (f : W -> result A string * W) (entry : bool -> list setup_call)
    (message : string -> string) :
  does (call f entry ≫= ok_or message) (entry true).
Proof.
  intros s b s'. unfold mbind, setup_bind, call. destruct (f (su_world s)) as [[a|e] w]; [|done].
  by intros [= _ <-].
Qed.

Lemma does_for_each {A : Type} (l : list A) (body : A -> setup unit) (entry : A -> list setup_call) :
  (forall x, does (body x) (entry x)) -> does (for_each l body) (flat_map entry l).
Proof.
  intros Hb. induction l as [|x l IH]; cbn [for_each flat_map]; [by apply does_still|]. by apply does_bind.
Qed.

Lemma get_world_still (s : setup_state W) : snd (get_world s) = s.
Proof. done. Qed.

Lemma program_mut_still (name : string) (s : setup_state W) : snd (program_mut name s) = s.
Proof. unfold program_mut, mbind, setup_bind. simpl. destruct (aya_program name _) as [[]|]; done. Qed.

Lemma nr_cpus_still (s : setup_state W) : snd (nr_cpus s) = s.
Proof. unfold nr_cpus, mbind, setup_bind. simpl. by destruct (aya_nr_cpus _) as [|[]]. Qed.

Lemma open_ring_buf_still (s : setup_state W) : snd (open_ring_buf s) = s.
Proof.
  unfold open_ring_buf, mbind, setup_bind. simpl. destruct (aya_map "events" _); [|done]. by destruct (aya_ring_buf _).
Qed.

Lemma metrics_map_fd_still (s : setup_state W) : snd (metrics_map_fd s) = s.
Proof. done. Qed.

(** ** Its shape: load, then configure, then the rest *)

Lemma load_ebpf_spec (path observer : string) (s : setup_state W) :
  let s' := snd (load_ebpf path observer s) in
  su_carriers s' = su_carriers s /\ su_maps s' = su_maps s /\ su_calls s' = su_calls s.
Proof.
  unfold load_ebpf, mbind, setup_bind, call. destruct (aya_load_file path (su_world s)) as [[]]; simpl;
    by rewrite app_nil_r.
Qed.

(** What the map of an observer that registers holds then: the configuration
    the agent last applied, if there is one and its write works; otherwise the
    one the observer was started with. *)
Definition installed_config (config : TapioConfig) (cs : ConfigCarrierState) (m : Maps) (fd : Z) : TapioConfig :=
  match cst_current cs with
  | Some current => if writable (S (length (map_calls m))) fd then current else config
  | None => config
  end.

Lemma init_config_spec (observer : string) (config : TapioConfig) (s : setup_state W) :
  let '(r, s') := init_config observer config s in
  match r with
  | Ok _ => exists fd, aya_map "tapio_config" (su_world s) = Some fd /\
      writable (length (map_calls (su_maps s))) fd = true /\
      su_calls s' = su_calls s ++ [CallConfig observer true] /\
      cst_carriers (su_carriers s') = cst_carriers (su_carriers s) ++ [{| car_observer := observer; car_map_fd := fd |}] /\
      cst_current (su_carriers s') = cst_current (su_carriers s) /\
      map_config (su_maps s') fd = Some (installed_config config (su_carriers s) (su_maps s) fd)
  | Err _ => su_calls s' = su_calls s ++ [CallConfig observer false] /\
      su_carriers s' = su_carriers s /\ map_config (su_maps s') = map_config (su_maps s)
  end.
Proof.
  unfold init_config. destruct (aya_map "tapio_config" (su_world s)) as [fd|]; [|done].
  rewrite init_and_register_cases. unfold installed_config.
  destruct (writable (length (map_calls (su_maps s))) fd) eqn:Ew.
  2: { simpl. by rewrite Ew. }
  unfold register. destruct (cst_current (su_carriers s)) as [current|] eqn:Ec; cbn -[bpf_map_update_tapio_config];
    exists fd; do 5 (split; [done|]); rewrite !write_get, Z.eqb_refl, Ew; [|done].
  cbn [bpf_map_update_tapio_config snd map_calls length]. by destruct (writable (S _) fd).
Qed.

(** What a setup that starts this way comes to. *)
Definition not_config (c : setup_call) : Prop := match c with CallConfig _ _ => False | _ => True end.

Lemma configured_first {A : Type} (path name observer : string) (config : TapioConfig) (rest : setup A)
    (s : setup_state W) :
  logs not_config rest ->
  let s' := snd ((_ ← load_ebpf path name; _ ← init_config observer config; rest) s) in
  exists new, su_calls s' = su_calls s ++ new /\
    (new = [] \/ new = [CallConfig observer false] \/
     exists fd later, new = CallConfig observer true :: later /\ Forall not_config later /\
       writable (length (map_calls (su_maps s))) fd = true /\
       In {| car_observer := observer; car_map_fd := fd |} (cst_carriers (su_carriers s')) /\
       map_config (su_maps s') fd = Some (installed_config config (su_carriers s) (su_maps s) fd)).
Proof.
  intros Hrest. cbv zeta. unfold mbind, setup_bind.
  destruct (load_ebpf path name s) as [r s1] eqn:El.
  destruct (load_ebpf_spec path name s) as (Hc1 & Hp1 & Hl1). rewrite El in *. simpl in *.
  destruct r as [[]|e]; [|exists []; rewrite app_nil_r; split; [done|by left]].
  pose proof (init_config_spec observer config s1) as Hi.
  destruct (init_config observer config s1) as [[u|e] s2].
  - destruct Hi as (fd & _ & Hw & Hl2 & Hc2 & Hcur & Hp2). destruct (Hrest s2) as (Hc3 & Hp3 & later & Hl3 & Hq).
    exists (CallConfig observer true :: later). rewrite Hl3, Hl2, Hl1, <- app_assoc. split; [done|].
    right. right. exists fd, later. split; [done|]. split; [done|]. rewrite <- Hp1. split; [done|].
    rewrite Hc3, Hp3, Hc2, Hp2, Hc1.
    split; [apply in_app_iff; right; by left|done].
  - destruct Hi as (Hl2 & _). exists [CallConfig observer false]. simpl. rewrite Hl2, Hl1. split; [done|].
    right. by left.
Qed.

(** Starting an observer keeps what registering its map keeps. *)
Lemma configured_keeps (P : ConfigCarrierState -> Maps -> Prop) {A : Type} (path name observer : string)
    (config : TapioConfig) (rest : setup A) (s : setup_state W) :
  (forall map_fd cs m, P cs m ->
     let '(_, cs', m') := init_and_register_tapio_config writable map_fd observer config cs m in P cs' m') ->
  logs not_config rest -> P (su_carriers s) (su_maps s) ->
  let s' := snd ((_ ← load_ebpf path name; _ ← init_config observer config; rest) s) in
  P (su_carriers s') (su_maps s').
Proof.
  intros HP Hrest Hs. cbv zeta. unfold mbind, setup_bind.
  destruct (load_ebpf path name s) as [r s1] eqn:El.
  destruct (load_ebpf_spec path name s) as (Hc1 & Hp1 & _). rewrite El in *. simpl in *.
  destruct r as [[]|e]; [|simpl; by rewrite Hc1, Hp1].
  rewrite <- Hc1, <- Hp1 in *. unfold init_config.
  specialize (HP (aya_map "tapio_config" (su_world s1)) (su_carriers s1) (su_maps s1) Hs).
  destruct (init_and_register_tapio_config _ _ _ _ _ _) as [[[] cst] maps]; simpl in *; [|done].
  set (s2 := {| su_carriers := cst; su_maps := maps; su_calls := _; su_world := _ |}).
  destruct (Hrest s2) as (Hc2 & Hp2 & _). by rewrite Hc2, Hp2.
Qed.

Definition tracepoint_calls (program : string * string * string) : list setup_call :=
  let '(name, category, tp) := program in [CallLoad name true; CallAttach name (TracePoint category tp) true].

Lemma attach_tracepoint_logs (observer : string) (program : string * string * string) :
  logs not_config (attach_tracepoint observer program).
Proof.
  destruct program as [[name category] tp]. unfold attach_tracepoint.
  apply logs_bind; [apply logs_still, program_mut_still|]. intros _.
  apply logs_bind; [apply logs_call; repeat constructor|]. intros r.
  apply logs_bind; [apply logs_ok_or|]. intros _.
  apply logs_bind; [apply logs_call; repeat constructor|]. intros r'. apply logs_ok_or.
Qed.

Lemma setup_bind_assoc {A B C : Type} (m : setup A) (f : A -> setup B) (g : B -> setup C) (s : setup_state W) :
  ((m ≫= f) ≫= g) s = (m ≫= (fun a => f a ≫= g)) s.
Proof. unfold mbind, setup_bind. by destruct (m s) as [[a|e] s']. Qed.

Lemma attach_tracepoint_does (observer : string) (program : string * string * string) :
  does (attach_tracepoint observer program) (tracepoint_calls program).
Proof.
  destruct program as [[name category] tp]. unfold attach_tracepoint, tracepoint_calls.
  apply (does_bind _ _ [] _); [apply does_still, program_mut_still|]. intros _ s a s' E.
  rewrite <- setup_bind_assoc in E. revert s a s' E.
  apply (does_bind _ _ [CallLoad name true] [CallAttach name (TracePoint category tp) true]).
  - apply (does_call _ (fun ok => [CallLoad name ok])).
  - intros _. apply (does_call _ (fun ok => [CallAttach name (TracePoint category tp) ok])).
Qed.

Lemma set_perf_event_map_logs (Q : setup_call -> Prop) (map_name : string) (cpu fd : Z) :
  (forall ok, Q (CallPerfMap map_name cpu ok)) -> logs Q (set_perf_event_map map_name cpu fd).
Proof.
  intros HQ. unfold set_perf_event_map. apply logs_bind; [by apply logs_still|]. intros w.
  destruct (aya_map map_name w) as [map_fd|]; [|by apply logs_still].
  apply logs_bind; [apply logs_call; by repeat constructor|]. intros r. apply logs_ok_or.
Qed.

(** The counter is refused whatever the state of the machine. *)
Definition unavailable (counter cpu : Z) : Prop :=
  forall w, exists e, fst (sys_perf_event_open (perf_attr counter) cpu w) = Err e.

Definition not_perf_of (cpu : Z) (c : setup_call) : Prop := match c with CallPerfMap _ cpu' _ => cpu' <> cpu | _ => True end.

Lemma open_hw_logs (Q : setup_call -> Prop) (counter cpu : Z) : logs Q (perf_event_open_hw counter cpu).
Proof. apply logs_call. constructor. Qed.

Lemma open_cpu_logs (Q : setup_call -> Prop) (cpu : Z) :
  (forall name ok, Q (CallPerfMap name cpu ok)) \/ unavailable HW_STALLED_CYCLES_BACKEND cpu ->
  logs Q (open_cpu cpu).
Proof.
  intros HQ. unfold open_cpu. apply logs_bind; [apply open_hw_logs|]. intros [cycles|e].
  2: { apply logs_still. intros s. by destruct (cpu =? 0). }
  apply logs_bind; [apply open_hw_logs|]. intros [instructions|e]; [|by apply logs_still].
  destruct HQ as [HQ|Hno].
  - apply logs_bind; [apply open_hw_logs|]. intros [stalls|e]; [|by apply logs_still].
    apply logs_bind; [by apply set_perf_event_map_logs|]. intros _.
    apply logs_bind; [by apply set_perf_event_map_logs|]. intros _. by apply set_perf_event_map_logs.
  - intros s. cbv zeta. unfold mbind, setup_bind, perf_event_open_hw, call.
    destruct (Hno (su_world s)) as [e He].
    destruct (sys_perf_event_open (perf_attr HW_STALLED_CYCLES_BACKEND) cpu (su_world s)) as [r w]. simpl in He.
    subst r. simpl. split; [done|]. split; [done|]. exists []. split; [done|constructor].
Qed.

Lemma attach_cpu_logs (Q : setup_call -> Prop) (cpu : Z) :
  (forall ok, Q (CallAttach "sample_pmc" (PerfSoftwareClock cpu 10) ok)) -> logs Q (attach_cpu cpu).
Proof.
  intros HQ. unfold attach_cpu. apply logs_bind; [apply logs_call; by repeat constructor|]. intros r. apply logs_ok_or.
Qed.

(** The part of [pmc_setup] after the configuration. *)
Definition pmc_rest : setup (option Z * Z) :=
  cpus ← nr_cpus;
  let num_cpus := wrap32 cpus in
  _ ← for_each (cpu_range num_cpus) open_cpu;
  _ ← program_mut "sample_pmc";
  r ← call (aya_program_load "sample_pmc") (fun ok => [CallLoad "sample_pmc" ok]);
  _ ← ok_or (fun e => "failed to load PMC program sample_pmc: " +:+ e) r;
  _ ← for_each (cpu_range num_cpus) attach_cpu;
  metrics_fd ← metrics_map_fd;
  _ ← open_ring_buf;
  mret (metrics_fd, num_cpus).

Lemma pmc_rest_logs (Q : setup_call -> Prop) :
  (forall cpu, (forall name ok, Q (CallPerfMap name cpu ok)) \/ unavailable HW_STALLED_CYCLES_BACKEND cpu) ->
  (forall cpu ok, Q (CallAttach "sample_pmc" (PerfSoftwareClock cpu 10) ok)) ->
  (forall ok, Q (CallLoad "sample_pmc" ok)) -> logs Q pmc_rest.
Proof.
  intros Hp Ha Hl. unfold pmc_rest. apply logs_bind; [apply logs_still, nr_cpus_still|]. intros cpus.
  apply logs_bind; [apply logs_for_each; intros cpu _; apply open_cpu_logs, Hp|]. intros _.
  apply logs_bind; [apply logs_still, program_mut_still|]. intros _.
  apply logs_bind; [apply logs_call; by repeat constructor|]. intros r.
  apply logs_bind; [apply logs_ok_or|]. intros _.
  apply logs_bind; [apply logs_for_each; intros cpu _; apply attach_cpu_logs, Ha|]. intros _.
  apply logs_bind; [apply logs_still, metrics_map_fd_still|]. intros fd.
  apply logs_bind; [apply logs_still, open_ring_buf_still|]. intros _. by apply logs_still.
Qed.

Definition tracepoint_rest (observer : string) (programs : list (string * string * string)) : setup (option Z * Z) :=
  _ ← for_each programs (attach_tracepoint observer);
  cpus ← nr_cpus;
  metrics_fd ← metrics_map_fd;
  _ ← open_ring_buf;
  mret (metrics_fd, cpus).

Lemma tracepoint_rest_logs (observer : string) (programs : list (string * string * string)) :
  logs not_config (tracepoint_rest observer programs).
Proof.
  unfold tracepoint_rest. apply logs_bind; [apply logs_for_each; intros p _; apply attach_tracepoint_logs|]. intros _.
  apply logs_bind; [apply logs_still, nr_cpus_still|]. intros cpus.
  apply logs_bind; [apply logs_still, metrics_map_fd_still|]. intros fd.
  apply logs_bind; [apply logs_still, open_ring_buf_still|]. intros _. by apply logs_still.
Qed.

Lemma tracepoint_rest_does (observer : string) (programs : list (string * string * string)) :
  does (tracepoint_rest observer programs) (flat_map tracepoint_calls programs).
Proof.
  unfold tracepoint_rest. rewrite <- (app_nil_r (flat_map _ _)).
  apply does_bind; [apply does_for_each; intros p; apply attach_tracepoint_does|]. intros _.
  apply (does_bind _ _ [] []); [apply does_still, nr_cpus_still|]. intros cpus.
  apply (does_bind _ _ [] []); [apply does_still, metrics_map_fd_still|]. intros fd.
  apply (does_bind _ _ [] []); [apply does_still, open_ring_buf_still|]. intros _. by apply does_still.
Qed.

(** ** The outside *)

(** What every call of a set-up keeps of the outside, a set-up keeps. *)
Record outside_keeps (I : W -> Prop) : Prop := {
  ok_load_file : forall path w, I w -> I (snd (aya_load_file path w));
  ok_program_load : forall name w, I w -> I (snd (aya_program_load name w));
  ok_attach : forall name point w, I w -> I (snd (aya_attach name point w));
  ok_perf_open : forall attr cpu w, I w -> I (snd (sys_perf_event_open attr cpu w));
  ok_map_set : forall fd cpu v w, I w -> I (snd (sys_map_set_fd fd cpu v w));
}.

Section Outside.
Variable I : W -> Prop.
Hypothesis HI : outside_keeps I.

Definition keeps {A : Type} (m : setup A) : Prop := forall s, I (su_world s) -> I (su_world (snd (m s))).

Lemma keeps_still {A : Type} (m : setup A) : (forall s, snd (m s) = s) -> keeps m.
Proof. intros Hm s. by rewrite Hm. Qed.

Lemma keeps_ret {A : Type} (a : A) : keeps (mret a).
Proof. by apply keeps_still. Qed.

Lemma keeps_fail {A : Type} (e : string) : keeps (fail (A := A) e).
Proof. by apply keeps_still. Qed.

Lemma keeps_ok_or {A : Type} (f : string -> string) (r : result A string) : keeps (ok_or f r).
Proof. destruct r; [apply keeps_ret|apply keeps_fail]. Qed.

Lemma keeps_bind {A B : Type} (m : setup A) (k : A -> setup B) : keeps m -> (forall a, keeps (k a)) -> keeps (m ≫= k).
Proof.
  intros Hm Hk s Hs. unfold mbind, setup_bind. specialize (Hm s Hs). destruct (m s) as [[a|e] s1]; [by apply Hk|done].
Qed.

Lemma keeps_get {B : Type} (k : W -> setup B) : (forall w, keeps (k w)) -> keeps (get_world ≫= k).
Proof. intros Hk. apply keeps_bind; [by apply keeps_still|done]. Qed.

Lemma keeps_call {A : Type} (f : W -> result A string * W) (entry : bool -> list setup_call) :
  (forall w, I w -> I (snd (f w))) -> keeps (call f entry).
Proof. intros Hf s Hs. unfold call. specialize (Hf _ Hs). by destruct (f (su_world s)). Qed.

Lemma keeps_for_each {A : Type} (l : list A) (body : A -> setup unit) : (forall x, keeps (body x)) -> keeps (for_each l body).
Proof. intros Hb. induction l as [|x l IH]; [apply keeps_ret|]. by apply keeps_bind. Qed.

Lemma keeps_init_config (observer : string) (config : TapioConfig) : keeps (init_config observer config).
Proof.
  intros s Hs. unfold init_config. destruct (init_and_register_tapio_config _ _ _ _ _ _) as [[[] cst] maps]; done.
Qed.

Local Ltac keeps_tac :=
  repeat first
    [ apply keeps_ret | apply keeps_fail | apply keeps_ok_or | apply keeps_init_config
    | apply keeps_get; intros ? | apply keeps_bind; [|intros ?]
    | apply keeps_call; first [ apply (ok_load_file _ HI) | apply (ok_program_load _ HI) | apply (ok_attach _ HI)
                              | apply (ok_perf_open _ HI) | apply (ok_map_set _ HI) ]
    | apply keeps_for_each; intros ? | by apply keeps_still | case_match ].

Lemma keeps_tracepoint_setup (observer : string) (programs : list (string * string * string)) (path : string)
    (config : TapioConfig) : keeps (tracepoint_setup observer programs path config).
Proof. unfold tracepoint_setup, load_ebpf, attach_tracepoint, program_mut, nr_cpus, metrics_map_fd, open_ring_buf. keeps_tac. Qed.

Lemma keeps_pmc_setup (path : string) (config : TapioConfig) : keeps (pmc_setup path config).
Proof.
  unfold pmc_setup, load_ebpf, open_cpu, perf_event_open_hw, set_perf_event_map, bpf_map_set_perf_fd, attach_cpu,
    program_mut, nr_cpus, metrics_map_fd, open_ring_buf. keeps_tac.
Qed.
End Outside.

(** * Properties *)

(** C32. No program runs before its configuration is in place.  However the
    object, the kernel and the crate answer, an observer of tracepoints makes
    its first change by writing the configuration it was started with; when that
    write fails nothing follows.  When it works the observer's carrier is
    registered and its map holds that configuration or, when the agent had
    already applied another and the second write, of that one, works as well, the
    applied one; if the second write fails the observer goes on with the first.
    An observer that reaches its loop has then loaded and attached each of its
    programs once, in order, and made no other change.  (The observer's own
    calls, with no update of the configuration between them.) *)
Theorem attached_after_config (observer : string) (programs : list (string * string * string)) (path : string)
    (config : TapioConfig) (s : setup_state W) :
  let n := length (map_calls (su_maps s)) in
  let '(r, s') := tracepoint_setup observer programs path config s in
  exists new, su_calls s' = su_calls s ++ new /\
    (new = [] \/ new = [CallConfig observer false] \/
     exists fd later, new = CallConfig observer true :: later /\ Forall not_config later /\
       writable n fd = true /\
       In {| car_observer := observer; car_map_fd := fd |} (cst_carriers (su_carriers s')) /\
       map_config (su_maps s') fd =
         Some (match cst_current (su_carriers s) with
               | Some current => if writable (S n) fd then current else config
               | None => config
               end)) /\
    (is_ok r = true -> new = CallConfig observer true :: flat_map tracepoint_calls programs).
Proof.
  cbv zeta.
  pose proof (configured_first path observer observer config _ s (tracepoint_rest_logs observer programs)) as Hc.
  unfold installed_config in Hc. unfold tracepoint_setup. fold (tracepoint_rest observer programs).
  destruct ((_ ← load_ebpf path observer; _) s) as [r s'] eqn:E. simpl in Hc.
  destruct Hc as (new & Hn & Hcases). exists new. split; [done|]. split; [done|]. intros Hr.
  unfold mbind, setup_bind in E. pose proof (load_ebpf_spec path observer s) as (Hc1 & Hp1 & Hl1).
  destruct (load_ebpf path observer s) as [[[]|e] s1]; [|injection E as <- <-; done]. simpl in *.
  pose proof (init_config_spec observer config s1) as Hi.
  destruct (init_config observer config s1) as [[u|e] s2]; [|injection E as <- <-; done].
  destruct Hi as (fd & _ & _ & Hl2 & _). destruct r as [a|e]; [|done].
  pose proof (tracepoint_rest_does observer programs s2 a s' E) as Hl3.
  rewrite Hl2, Hl1, <- app_assoc in Hl3. rewrite Hn in Hl3. by apply app_inv_head in Hl3.
Qed.

(** The observer of the processor's counters gives up a CPU whose stall
    counter cannot be opened: whatever else the system answers, no counter of
    that CPU enters a map, neither its cycles nor its instructions, although
    the program that reads the maps is written to go on without stalls. *)
Lemma pmc_blind_without_stalls (path : string) (config : TapioConfig) (cpu : Z) (s : setup_state W)
    (Hno : unavailable HW_STALLED_CYCLES_BACKEND cpu) :
  exists new, su_calls (snd (pmc_setup path config s)) = su_calls s ++ new /\ Forall (not_perf_of cpu) new.
Proof.
  assert (Hrest : logs (not_perf_of cpu) pmc_rest).
  { apply pmc_rest_logs; [|done..]. intros cpu'. destruct (Z.eq_dec cpu' cpu) as [->|Hne]; [by right|by left]. }
  unfold pmc_setup. fold pmc_rest. unfold mbind at 1, setup_bind at 1.
  destruct (load_ebpf_spec path "pmc" s) as (_ & _ & Hl1).
  destruct (load_ebpf path "pmc" s) as [[[]|e] s1]; simpl in *; [|exists []; rewrite app_nil_r; by split].
  unfold mbind at 1, setup_bind at 1. pose proof (init_config_spec "node_pmc" config s1) as Hi.
  destruct (init_config "node_pmc" config s1) as [[u|e] s2]; simpl.
  - destruct Hi as (fd & _ & _ & Hl2 & _). destruct (Hrest s2) as (_ & _ & later & Hl3 & Hq).
    exists (CallConfig "node_pmc" true :: later). rewrite Hl3, Hl2, Hl1, <- app_assoc. split; [done|].
    by constructor.
  - destruct Hi as (Hl2 & _). exists [CallConfig "node_pmc" false]. rewrite Hl2, Hl1. split; [done|]. by repeat constructor.
Qed.

(** An observer that ends during its setup leaves its carrier behind: when the
    processor's counters are unavailable the observer ends without an error,
    its maps are closed with it, but its carrier stays registered, and every
    later fan-out of a configuration reports it as failed. *)
Lemma disabled_observer_stays_registered (path : string) (config config' : TapioConfig) (s s' : setup_state W)
    (Hend : pmc_setup path config s = (Err SetupDisabled, s')) :
  exists fd, In {| car_observer := "node_pmc"; car_map_fd := fd |} (cst_carriers (su_carriers s')) /\
    forall (works : nat -> Z -> bool) (m : Maps), (forall n, works n fd = false) ->
      In "node_pmc" (fst (fst (update_all works config' (su_carriers s') m))).
Proof.
  assert (Hrest : logs not_config pmc_rest) by (apply pmc_rest_logs; [by left|done..]).
  pose proof (configured_first path "pmc" "node_pmc" config _ s Hrest) as Hc.
  unfold pmc_setup in Hend. fold pmc_rest in Hend. rewrite Hend in Hc. simpl in Hc.
  assert (Hreg : exists fd, In {| car_observer := "node_pmc"; car_map_fd := fd |} (cst_carriers (su_carriers s'))).
  { unfold mbind, setup_bind in Hend. unfold load_ebpf, mbind, setup_bind, call in Hend.
    destruct (aya_load_file path (su_world s)) as [[[]|e] w]; simpl in Hend; [|done].
    set (s1 := {| su_carriers := _; su_maps := _; su_calls := _; su_world := w |}) in *.
    pose proof (init_config_spec "node_pmc" config s1) as Hi.
    destruct (init_config "node_pmc" config s1) as [[u|e] s2] eqn:Ei.
    - destruct Hi as (fd & _ & _ & _ & Hcar & _). exists fd.
      destruct (Hrest s2) as (Hc2 & _). rewrite Hend in Hc2. simpl in Hc2. rewrite Hc2, Hcar.
      apply in_app_iff. right. by left.
    - unfold init_config in Ei. destruct (init_and_register_tapio_config _ _ _ _ _ _) as [[[] cst] maps]; [done|].
      injection Ei as <- <-. done. }
  destruct Hreg as [fd Hin]. exists fd. split; [done|]. intros works m Hclosed.
  unfold update_all. generalize (cst_carriers (su_carriers s')) m Hin. clear -Hclosed.
  induction l as [|c l IH]; intros m Hin; [done|]. cbn [write_carriers].
  destruct (bpf_map_update_tapio_config works (car_map_fd c) config' m) as [r m1] eqn:Eu.
  specialize (IH m1). destruct (write_carriers works l config' m1) as [failed m2]. simpl in *.
  destruct Hin as [->|Hin].
  - unfold bpf_map_update_tapio_config in Eu. simpl in Eu. rewrite Hclosed in Eu. injection Eu as <- <-. by left.
  - specialize (IH Hin). destruct (is_ok r); [done|by right].
Qed.
End Setup.

(** * A machine *)

(** The world is the counters that open, by number and CPU; everything else
    works. *)
#[local] Instance machine : Aya (Z -> Z -> bool) := {
  aya_load_file _ w := (Ok tt, w);
  aya_map name _ := if String.eqb name "tapio_config" then Some 3 else Some 4;
  aya_program _ _ := Some (Ok tt);
  aya_program_load _ w := (Ok tt, w);
  aya_attach _ _ w := (Ok tt, w);
  aya_nr_cpus _ := Ok 2;
  aya_ring_buf _ := Ok tt;
  sys_perf_event_open attr cpu w :=
    ((if w (le_combine (take 8 (drop 8 attr))) cpu then Ok 10 else Err "No such file or directory"), w);
  sys_map_set_fd _ _ _ w := (Ok tt, w);
}.

(** Stalls that never open, whatever the machine. *)
#[local] Instance no_stalls : Aya unit := {
  aya_load_file _ w := (Ok tt, w);
  aya_map name _ := if String.eqb name "tapio_config" then Some 3 else Some 4;
  aya_program _ _ := Some (Ok tt);
  aya_program_load _ w := (Ok tt, w);
  aya_attach _ _ w := (Ok tt, w);
  aya_nr_cpus _ := Ok 2;
  aya_ring_buf _ := Ok tt;
  sys_perf_event_open attr cpu w :=
    ((if le_combine (take 8 (drop 8 attr)) =? HW_STALLED_CYCLES_BACKEND then Err "No such file or directory"
      else Ok 10), w);
  sys_map_set_fd _ _ _ w := (Ok tt, w);
}.

Definition fresh_setup {W : Type} (w : W) : setup_state W := {|
  su_carriers := ConfigCarrierState_default; su_maps := Maps_new; su_calls := []; su_world := w |}.

Example perf_attr_bytes : length (perf_attr 8) = ATTR_SIZE /\ take 12 (perf_attr 8) = [0;0;0;0;136;0;0;0;8;0;0;0].
Proof. split; reflexivity. Qed.

Lemma pmc_blind_without_stalls_witness :
  exists new, su_calls (snd (pmc_setup (W := unit) write_works "node_pmc_monitor.o" TapioConfig_default (fresh_setup tt)))
    = [] ++ new /\ Forall (not_perf_of 0) new.
Proof.
  apply (pmc_blind_without_stalls (W := unit) write_works "node_pmc_monitor.o" TapioConfig_default 0 (fresh_setup tt)).
  intros []. exists "No such file or directory". vm_compute. reflexivity.
Defined.

Lemma disabled_observer_stays_registered_witness :
  exists s', pmc_setup (W := Z -> Z -> bool) write_works "node_pmc_monitor.o" TapioConfig_default
      (fresh_setup (fun _ _ => false)) = (Err SetupDisabled, s') /\
    exists fd, In {| car_observer := "node_pmc"; car_map_fd := fd |} (cst_carriers (su_carriers s')).
Proof.
  assert (H : exists s', pmc_setup (W := Z -> Z -> bool) write_works "node_pmc_monitor.o" TapioConfig_default
      (fresh_setup (fun _ _ => false)) = (Err SetupDisabled, s')) by (eexists; vm_compute; reflexivity).
  destruct H as [s' H]. exists s'. split; [exact H|].
  destruct (disabled_observer_stays_registered (W := Z -> Z -> bool) write_works "node_pmc_monitor.o"
    TapioConfig_default TapioConfig_default (fresh_setup (fun _ _ => false)) s' H) as (fd & Hin & _).
  exists fd. exact Hin.
Defined.
