(* ===== verification/Drain.v ===== *)
(** The loop of the four observers, [run] of [tapio-agent/src/observer/]
    {network,container,storage,node_pmc}.rs, past the loading of the eBPF
    program: a tick every ten milliseconds reads the kernel's loss counters
    now and then, then drains the ring buffer up to a cap.  The four loops
    differ in the record they read and what they make of it, which the class
    [Observer] holds; [Env] is what an observer asks of the outside, and
    [Reporter] what it asks of the sink it shares its counters with. *)
From Stdlib Require Import String.
From S2P Require Import Prelude RustStr BTree Json CommonEbpf Occurrence NetworkObs.
From S2P Require Import ContainerObs StorageObs PmcObs Metrics Sink Carriers.

Local Open Scope Z_scope.

(** The clock, fresh identifiers, the thresholds channel and the file system. *)
Class Env (W : Type) := {
  env_now : W -> Z * W;
  env_id : W -> string * W;
  env_thresholds : W -> PmcThresholds;
  env_read_file : W -> string -> option string;
}.

(** The counters only observers write. *)
Definition observer_metric (k : metric) : bool :=
  match k with
  | MEvents | MAnomalies | MLost | MMalformed | MCorrelation | MDrainCap => true
  | _ => false
  end.

(** The sink as the observers see it: sending may count writes, in the same set
    of counters, but leaves the observers' own alone. *)
Class Reporter (W : Type) := {
  report : Occurrence -> TapioMetrics -> W -> result unit SinkError * TapioMetrics * W;
  report_flush : W -> result unit SinkError * W;
  report_frame : forall o m w k labels, observer_metric k = true ->
    metric_value k labels (snd (fst (report o m w))) = metric_value k labels m;
}.

(** What a record becomes: the type of the anomaly and its occurrence. *)
Class Observer (W L : Type) := {
  obs_name : string;
  obs_size : Z;
  obs_observe : list Z -> L -> W -> option (string * Occurrence) * L * W;
  obs_ambiguous : bool;
}.

(** * The four observers *)

Section Observers.
Context {W : Type} `{Env W}.
Variable boot_offset_ns : Z.

Definition network_observe (data : list Z) (l : unit) (w : W) :
  option (string * Occurrence) * unit * W :=
  let event := read_NetworkEvent data in
  match network_classify event with
  | None => (None, l, w)
  | Some anomaly =>
      let '(id, w) := env_id w in
      let '(now, w) := env_now w in
      (Some (na_event_type anomaly, network_build_occurrence id now event anomaly), l, w)
  end.

Definition container_observe (data : list Z) (cache : list (Z * Z)) (w : W) :
  option (string * Occurrence) * list (Z * Z) * W :=
  let event := read_ContainerEvent data in
  match container_classify event with
  | None => (None, cache, w)
  | Some anomaly =>
      let '(id, w) := env_id w in
      let '(occ, cache) :=
        container_build_occurrence (env_read_file w) id cache event anomaly boot_offset_ns in
      (Some (ca_event_type anomaly, occ), cache, w)
  end.

Definition storage_observe (data : list Z) (l : unit) (w : W) :
  option (string * Occurrence) * unit * W :=
  let event := read_StorageEvent data in
  match storage_classify event with
  | None => (None, l, w)
  | Some anomaly =>
      let '(id, w) := env_id w in
      (Some (sa_event_type anomaly, storage_build_occurrence id event anomaly boot_offset_ns), l, w)
  end.

Definition pmc_observe (data : list Z) (l : unit) (w : W) :
  option (string * Occurrence) * unit * W :=
  let event := read_PmcEvent data in
  let thresholds := env_thresholds w in
  match pmc_classify event thresholds with
  | None => (None, l, w)
  | Some anomaly =>
      let '(id, w) := env_id w in
      (Some (pa_event_type anomaly, pmc_build_occurrence id event anomaly boot_offset_ns), l, w)
  end.

Definition network_observer : Observer W unit := {|
  obs_name := "network"; obs_size := size_of_NetworkEvent;
  obs_observe := network_observe; obs_ambiguous := false |}.

Definition container_observer : Observer W (list (Z * Z)) := {|
  obs_name := "container"; obs_size := size_of_ContainerEvent;
  obs_observe := container_observe; obs_ambiguous := false |}.

Definition storage_observer : Observer W unit := {|
  obs_name := "storage"; obs_size := size_of_StorageEvent;
  obs_observe := storage_observe; obs_ambiguous := true |}.

Definition pmc_observer : Observer W unit := {|
  obs_name := "node_pmc"; obs_size := size_of_PmcEvent;
  obs_observe := pmc_observe; obs_ambiguous := false |}.
End Observers.

(** * The loop *)

(** The variables of [run]. *)
Record DrainCounts := {
  dc_event_count : Z;
  dc_anomaly_count : Z;
  dc_tick_count : Z;
  dc_prev_lost : Z;
  dc_prev_ambiguous : Z;
  dc_malformed_count : Z;
}.

Definition DrainCounts_zero : DrainCounts := {|
  dc_event_count := 0; dc_anomaly_count := 0; dc_tick_count := 0; dc_prev_lost := 0;
  dc_prev_ambiguous := 0; dc_malformed_count := 0 |}.

Record drain_state (L W : Type) := {
  dr_counts : DrainCounts;
  dr_metrics : TapioMetrics;
  dr_local : L;
  dr_world : W;
}.
Arguments dr_counts {L W} _.
Arguments dr_metrics {L W} _.
Arguments dr_local {L W} _.
Arguments dr_world {L W} _.

(** [values.iter().sum()] over the CPUs, 0 when the lookup fails. *)
Definition read_percpu_sum (lookup : Z -> Z -> option (list Z)) (map_fd key : Z) : Z :=
  match lookup map_fd key with
  | None => 0
  | Some values => fold_left (fun acc v => wrap64 (acc + v)) values 0
  end.

Section Loop.
Context {L W : Type} `{Reporter W} `{!Observer W L}.

Definition count_malformed (s : drain_state L W) : drain_state L W := {|
  dr_counts := {|
    dc_event_count := dc_event_count (dr_counts s);
    dc_anomaly_count := dc_anomaly_count (dr_counts s);
    dc_tick_count := dc_tick_count (dr_counts s);
    dc_prev_lost := dc_prev_lost (dr_counts s);
    dc_prev_ambiguous := dc_prev_ambiguous (dr_counts s);
    dc_malformed_count := wrap64 (dc_malformed_count (dr_counts s) + 1) |};
  dr_metrics := bump MMalformed [obs_name] 1 (dr_metrics s);
  dr_local := dr_local s;
  dr_world := dr_world s |}.

Definition handle_event (data : list Z) (s : drain_state L W) : drain_state L W :=
  let m := bump MEvents [obs_name] 1 (dr_metrics s) in
  let '(observed, l, w) := obs_observe data (dr_local s) (dr_world s) in
  let counts anomalies := {|
    dc_event_count := wrap64 (dc_event_count (dr_counts s) + 1);
    dc_anomaly_count := anomalies;
    dc_tick_count := dc_tick_count (dr_counts s);
    dc_prev_lost := dc_prev_lost (dr_counts s);
    dc_prev_ambiguous := dc_prev_ambiguous (dr_counts s);
    dc_malformed_count := dc_malformed_count (dr_counts s) |} in
  match observed with
  | None =>
      {| dr_counts := counts (dc_anomaly_count (dr_counts s)); dr_metrics := m;
         dr_local := l; dr_world := w |}
  | Some (event_type, occ) =>
      let m := bump MAnomalies [obs_name; event_type] 1 m in
      (* a sink error is logged *)
      let '(_, m, w) := report occ m w in
      {| dr_counts := counts (wrap64 (dc_anomaly_count (dr_counts s) + 1)); dr_metrics := m;
         dr_local := l; dr_world := w |}
  end.

Definition handle_record (data : list Z) (s : drain_state L W) : drain_state L W :=
  if zlen data <? obs_size then count_malformed s else handle_event data s.

(** The drain: what is left in the ring, how many records were taken. *)
Fixpoint drain_loop (ring : list (list Z)) (count : Z) (s : drain_state L W) :
  Z * list (list Z) * drain_state L W :=
  match ring with
  | [] => (count, [], s)
  | data :: ring' =>
      let s := handle_record data s in
      let count := count + 1 in
      if MAX_DRAIN_PER_TICK <=? count then (count, ring', s) else drain_loop ring' count s
  end.

Definition check_lost (lookup : Z -> Z -> option (list Z)) (fd : Z) (s : drain_state L W) :
  drain_state L W :=
  let lost := read_percpu_sum lookup fd METRIC_LOST_EVENTS in
  if dc_prev_lost (dr_counts s) <? lost then
    {| dr_counts := {|
         dc_event_count := dc_event_count (dr_counts s);
         dc_anomaly_count := dc_anomaly_count (dr_counts s);
         dc_tick_count := dc_tick_count (dr_counts s);
         dc_prev_lost := lost;
         dc_prev_ambiguous := dc_prev_ambiguous (dr_counts s);
         dc_malformed_count := dc_malformed_count (dr_counts s) |};
       dr_metrics := bump MLost [obs_name] (lost - dc_prev_lost (dr_counts s)) (dr_metrics s);
       dr_local := dr_local s;
       dr_world := dr_world s |}
  else s.

Definition check_ambiguous (lookup : Z -> Z -> option (list Z)) (fd : Z) (s : drain_state L W) :
  drain_state L W :=
  let ambiguous := read_percpu_sum lookup fd METRIC_STORAGE_AMBIGUOUS_IO in
  if dc_prev_ambiguous (dr_counts s) <? ambiguous then
    {| dr_counts := {|
         dc_event_count := dc_event_count (dr_counts s);
         dc_anomaly_count := dc_anomaly_count (dr_counts s);
         dc_tick_count := dc_tick_count (dr_counts s);
         dc_prev_lost := dc_prev_lost (dr_counts s);
         dc_prev_ambiguous := ambiguous;
         dc_malformed_count := dc_malformed_count (dr_counts s) |};
       dr_metrics :=
         bump MCorrelation [obs_name; "ambiguous_inflight_io"]
           (ambiguous - dc_prev_ambiguous (dr_counts s)) (dr_metrics s);
       dr_local := dr_local s;
       dr_world := dr_world s |}
  else s.

Definition next_tick (s : drain_state L W) : drain_state L W := {|
  dr_counts := {|
    dc_event_count := dc_event_count (dr_counts s);
    dc_anomaly_count := dc_anomaly_count (dr_counts s);
    dc_tick_count := wrap64 (dc_tick_count (dr_counts s) + 1);
    dc_prev_lost := dc_prev_lost (dr_counts s);
    dc_prev_ambiguous := dc_prev_ambiguous (dr_counts s);
    dc_malformed_count := dc_malformed_count (dr_counts s) |};
  dr_metrics := dr_metrics s;
  dr_local := dr_local s;
  dr_world := dr_world s |}.

(** [metrics_fd] is None when the object has no [tapio_metrics] map. *)
Definition check_metrics (lookup : Z -> Z -> option (list Z)) (metrics_fd : option Z)
    (s : drain_state L W) : drain_state L W :=
  if dc_tick_count (dr_counts s) mod LOST_EVENTS_CHECK_INTERVAL =? 0 then
    match metrics_fd with
    | None => s
    | Some fd =>
        let s := check_lost lookup fd s in
        if obs_ambiguous then check_ambiguous lookup fd s else s
    end
  else s.

Definition count_cap (drained : Z) (s : drain_state L W) : drain_state L W :=
  if MAX_DRAIN_PER_TICK <=? drained then
    {| dr_counts := dr_counts s; dr_metrics := bump MDrainCap [obs_name] 1 (dr_metrics s);
       dr_local := dr_local s; dr_world := dr_world s |}
  else s.

Definition tick (metrics_fd : option Z) (lookup : Z -> Z -> option (list Z)) (ring : list (list Z))
    (s : drain_state L W) : list (list Z) * drain_state L W :=
  let s := check_metrics lookup metrics_fd (next_tick s) in
  let '(drained, ring, s) := drain_loop ring 0 s in
  (ring, count_cap drained s).

(** The ticks until the shutdown, each with the records that arrived before it
    and the kernel's counters at it; then the sink is flushed, and what the
    ring still holds is left there. *)
Fixpoint run_ticks (metrics_fd : option Z)
    (ticks : list (list (list Z) * (Z -> Z -> option (list Z)))) (ring : list (list Z))
    (s : drain_state L W) : list (list Z) * drain_state L W :=
  match ticks with
  | [] => (ring, s)
  | (arrived, lookup) :: rest =>
      let '(ring, s) := tick metrics_fd lookup (ring ++ arrived) s in
      run_ticks metrics_fd rest ring s
  end.

Definition run (metrics_fd : option Z)
    (ticks : list (list (list Z) * (Z -> Z -> option (list Z)))) (s : drain_state L W) :
  drain_state L W :=
  let '(_, s) := run_ticks metrics_fd ticks [] s in
  let '(_, w) := report_flush (dr_world s) in
  {| dr_counts := dr_counts s; dr_metrics := dr_metrics s; dr_local := dr_local s; dr_world := w |}.
End Loop.

(** What the clock and the identifiers keep, an observation keeps. *)
Section Keeps.
Context {W : Type} `{Env W}.
Variable P : W -> Prop.
Hypothesis Hnow : forall w, P w -> P (snd (env_now w)).
Hypothesis Hid : forall w, P w -> P (snd (env_id w)).

Lemma network_observe_keeps (data : list Z) (l : unit) (w : W) : P w -> P (snd (network_observe data l w)).
Proof.
  intros Hw. unfold network_observe. destruct (network_classify _); [|done]. pose proof (Hid w Hw) as Hw1.
  destruct (env_id w) as [id w1]. pose proof (Hnow w1 Hw1). by destruct (env_now w1).
Qed.

Lemma container_observe_keeps (boot : Z) (data : list Z) (cache : list (Z * Z)) (w : W) :
  P w -> P (snd (container_observe boot data cache w)).
Proof.
  intros Hw. unfold container_observe. destruct (container_classify _); [|done]. pose proof (Hid w Hw).
  destruct (env_id w) as [id w1]. by destruct (container_build_occurrence _ _ _ _ _ _).
Qed.

Lemma storage_observe_keeps (boot : Z) (data : list Z) (l : unit) (w : W) :
  P w -> P (snd (storage_observe boot data l w)).
Proof.
  intros Hw. unfold storage_observe. destruct (storage_classify _); [|done]. pose proof (Hid w Hw).
  by destruct (env_id w).
Qed.

Lemma pmc_observe_keeps (boot : Z) (data : list Z) (l : unit) (w : W) : P w -> P (snd (pmc_observe boot data l w)).
Proof.
  intros Hw. unfold pmc_observe. destruct (pmc_classify _ _); [|done]. pose proof (Hid w Hw).
  by destruct (env_id w).
Qed.
End Keeps.

(** Sending through the fan-out sink, which counts its writes in the counters
    the observers use; the boxed sinks are part of what it sends in. *)
Lemma count_writes_get (names : list string) (rs : list (result unit SinkError)) (m : TapioMetrics) (k : metric) :
  k <> MSinkWrites ->
  exists m', count_writes names rs (Some m) = Some m' /\ get_metric k m' = get_metric k m.
Proof.
  intros Hk. unfold count_writes. generalize (zip names rs). intros l. revert m.
  induction l as [|[n r] l IH]; intros m; simpl; [eauto|].
  destruct (IH (bump MSinkWrites [n; if is_ok r then "ok" else "err"] 1 m)) as (m' & E & Hm').
  exists m'. split; [exact E|]. rewrite Hm'. apply bump_get. by intros <-.
Qed.

Lemma multi_report_get {W : Type} (o : Occurrence) (m : TapioMetrics) (sinks : list (AnySink W)) (w : W) (k : metric) :
  k <> MSinkWrites ->
  get_metric k (default m (ms_metrics (snd (fst (multi_send o {| ms_sinks := sinks; ms_metrics := Some m |} w)))))
  = get_metric k m.
Proof.
  intros Hk. unfold multi_send. simpl.
  destruct (multi_send_loop_spec o sinks (Some m) None w) as (rs & sinks' & w' & _ & _ & ->). simpl.
  by destruct (count_writes_get (map any_name sinks) rs m k Hk) as (m' & -> & Hm').
Qed.

#[export, program] Instance multi_reporter {W : Type} : Reporter (list (AnySink W) * W) := {
  report o m sw :=
    let r := multi_send o {| ms_sinks := fst sw; ms_metrics := Some m |} (snd sw) in
    (fst (fst r), default m (ms_metrics (snd (fst r))), (ms_sinks (snd (fst r)), snd r));
  report_flush sw :=
    let r := multi_flush {| ms_sinks := fst sw; ms_metrics := None |} (snd sw) in
    (fst (fst r), (ms_sinks (snd (fst r)), snd r));
}.
Next Obligation.
  intros W o m [sinks w] k labels Hk. unfold metric_value. simpl fst. simpl snd.
  rewrite multi_report_get; [done|by intros ->].
Qed.

(** * Lemmas *)

Section Accounting.
Context {L W : Type} `{Reporter W} `{!Observer W L}.

Definition is_short (data : list Z) : bool := zlen data <? obs_size.
Definition shorts (records : list (list Z)) : Z := zlen (List.filter is_short records).
Definition fulls (records : list (list Z)) : Z := zlen (List.filter (fun d => negb (is_short d)) records).

Definition handle_all (records : list (list Z)) (s : drain_state L W) : drain_state L W :=
  fold_left (fun s d => handle_record d s) records s.

Lemma drain_loop_eq (ring : list (list Z)) (count : Z) (s : drain_state L W) :
  0 <= count < MAX_DRAIN_PER_TICK ->
  let n := Z.to_nat (MAX_DRAIN_PER_TICK - count) in
  drain_loop ring count s =
  (count + zlen (take n ring), drop n ring, handle_all (take n ring) s).
Proof.
  revert count s. induction ring as [|d ring IH]; intros count s Hc; cbn zeta; simpl.
  { by rewrite take_nil, drop_nil, zlen_nil, Z.add_0_r. }
  unfold MAX_DRAIN_PER_TICK in *.
  destruct (Z.to_nat (2048 - count)) as [|n] eqn:En; [lia|]. simpl. rewrite zlen_cons.
  destruct (Z.leb_spec 2048 (count + 1)).
  - replace n with O by lia. rewrite drop_0. repeat f_equal. 
  - rewrite IH by lia. replace (Z.to_nat (2048 - (count + 1))) with n by lia.
    f_equal. f_equal. lia.
Qed.

(** The value of a counter after a bump by [v], modulo the width. *)
Definition grown (k : metric) (labels : list string) (v : Z) (s s' : drain_state L W) : Prop :=
  grew k labels v (dr_metrics s) (dr_metrics s').

Lemma grown_trans (k : metric) (labels : list string) (v v' : Z) (s s' s'' : drain_state L W) :
  grown k labels v s s' -> grown k labels v' s' s'' -> grown k labels (v + v') s s''.
Proof. apply grew_trans. Qed.

Lemma grown_0 (k : metric) (labels : list string) (s s' : drain_state L W) :
  metric_value k labels (dr_metrics s') = metric_value k labels (dr_metrics s) -> grown k labels 0 s s'.
Proof. apply grew_0. Qed.

(** Only the record's own counters move. *)
Lemma handle_event_metric (data : list Z) (s : drain_state L W) (k : metric) (labels : list string) :
  observer_metric k = true -> k <> MAnomalies ->
  metric_value k labels (dr_metrics (handle_event data s)) =
  metric_value k labels (bump MEvents [obs_name] 1 (dr_metrics s)).
Proof.
  intros Hk Ha. unfold handle_event.
  destruct (obs_observe data (dr_local s) (dr_world s)) as [[[[t o]|] l] w]; [|done].
  destruct (report o _ w) as [[r m] w'] eqn:E. simpl.
  pose proof (report_frame o (bump MAnomalies [obs_name; t] 1 (bump MEvents [obs_name] 1 (dr_metrics s)))
    w k labels Hk) as Hf.
  rewrite E in Hf. simpl in Hf. rewrite Hf. apply bump_other. auto.
Qed.

Lemma handle_record_events (data : list Z) (s : drain_state L W) :
  grown MEvents [obs_name] (fulls [data]) s (handle_record data s) /\
  grown MMalformed [obs_name] (shorts [data]) s (handle_record data s).
Proof.
  unfold handle_record, fulls, shorts, grown, grew, is_short. simpl. destruct (zlen data <? obs_size); simpl.
  - rewrite bump_same, bump_other, wrap64_idem, Z.add_0_r by (by left). done.
  - rewrite !handle_event_metric by done.
    rewrite bump_same, bump_other, wrap64_idem, Z.add_0_r by (by left). done.
Qed.

Lemma handle_record_other (data : list Z) (s : drain_state L W) (k : metric) (labels : list string) :
  observer_metric k = true -> k <> MAnomalies -> k <> MEvents -> k <> MMalformed ->
  metric_value k labels (dr_metrics (handle_record data s)) = metric_value k labels (dr_metrics s).
Proof.
  intros. unfold handle_record. destruct (zlen data <? obs_size); simpl.
  - apply bump_other. auto.
  - rewrite handle_event_metric by done. apply bump_other. auto.
Qed.

Lemma handle_all_events (records : list (list Z)) (s : drain_state L W) :
  grown MEvents [obs_name] (fulls records) s (handle_all records s) /\
  grown MMalformed [obs_name] (shorts records) s (handle_all records s).
Proof.
  revert s. induction records as [|d records IH]; intros s; simpl.
  { split; by apply grown_0. }
  destruct (handle_record_events d s) as [He Hm]. destruct (IH (handle_record d s)) as [He' Hm'].
  assert (Hs : forall d, (fulls (d :: records) = fulls [d] + fulls records) /\
                    (shorts (d :: records) = shorts [d] + shorts records)).
  { intros d'. unfold fulls, shorts. simpl. destruct (is_short d'); simpl; rewrite ?zlen_cons, ?zlen_nil; lia. }
  destruct (Hs d) as [-> ->]. split; eapply grown_trans; eauto.
Qed.

Lemma handle_all_other (records : list (list Z)) (s : drain_state L W) (k : metric) (labels : list string) :
  observer_metric k = true -> k <> MAnomalies -> k <> MEvents -> k <> MMalformed ->
  metric_value k labels (dr_metrics (handle_all records s)) = metric_value k labels (dr_metrics s).
Proof.
  intros. revert s. induction records as [|d records IH]; intros s; [done|].
  simpl. by rewrite IH, handle_record_other.
Qed.

Lemma handle_record_prev (data : list Z) (s : drain_state L W) :
  dc_prev_lost (dr_counts (handle_record data s)) = dc_prev_lost (dr_counts s) /\
  dc_tick_count (dr_counts (handle_record data s)) = dc_tick_count (dr_counts s).
Proof.
  unfold handle_record, handle_event. destruct (zlen data <? obs_size); [done|].
  destruct (obs_observe data (dr_local s) (dr_world s)) as [[[[t o]|] l] w]; [|done].
  by destruct (report o _ w) as [[r m] w'].
Qed.

Lemma handle_all_prev (records : list (list Z)) (s : drain_state L W) :
  dc_prev_lost (dr_counts (handle_all records s)) = dc_prev_lost (dr_counts s) /\
  dc_tick_count (dr_counts (handle_all records s)) = dc_tick_count (dr_counts s).
Proof.
  revert s. induction records as [|d records IH]; intros s; [done|]. simpl.
  destruct (IH (handle_record d s)) as [-> ->]. apply handle_record_prev.
Qed.

Lemma check_metrics_frame (lookup : Z -> Z -> option (list Z)) (fd : option Z) (s : drain_state L W)
    (k : metric) (labels : list string) :
  k <> MLost -> k <> MCorrelation ->
  metric_value k labels (dr_metrics (check_metrics lookup fd s)) = metric_value k labels (dr_metrics s).
Proof.
  intros. unfold check_metrics, check_lost, check_ambiguous.
  destruct (_ mod _ =? 0); [|done]. destruct fd as [fd|]; [|done].
  repeat case_match; simpl; rewrite ?bump_other; auto.
Qed.

Lemma count_cap_frame (drained : Z) (s : drain_state L W) (k : metric) (labels : list string) :
  k <> MDrainCap ->
  metric_value k labels (dr_metrics (count_cap drained s)) = metric_value k labels (dr_metrics s).
Proof. intros. unfold count_cap. case_match; simpl; rewrite ?bump_other; auto. Qed.

Lemma count_cap_counts (drained : Z) (s : drain_state L W) :
  dr_counts (count_cap drained s) = dr_counts s.
Proof. unfold count_cap. by case_match. Qed.

Definition CAP : nat := Z.to_nat MAX_DRAIN_PER_TICK.

Lemma tick_eq (fd : option Z) (lookup : Z -> Z -> option (list Z)) (ring : list (list Z))
    (s : drain_state L W) :
  tick fd lookup ring s =
  (drop CAP ring,
   count_cap (zlen (take CAP ring)) (handle_all (take CAP ring) (check_metrics lookup fd (next_tick s)))).
Proof. unfold tick. rewrite drain_loop_eq by done. done. Qed.

(** What the counters of the loop leave alone and every report keeps, a tick
    keeps. *)
Lemma tick_keeps (P : TapioMetrics -> W -> Prop) :
  (forall k labels v m w, observer_metric k = true -> k <> MAnomalies -> P m w -> P (bump k labels v m) w) ->
  (forall data l m w, P m w ->
     let '(observed, _, w) := obs_observe data l w in
     match observed with
     | None => P m w
     | Some (t, o) =>
         let '(_, m, w) := report o (bump MAnomalies [obs_name; t] 1 m) w in P m w
     end) ->
  forall fd lookup ring (s : drain_state L W), P (dr_metrics s) (dr_world s) ->
  let s' := snd (tick fd lookup ring s) in P (dr_metrics s') (dr_world s').
Proof.
  intros Hb Hr. assert (Hrecord : forall data (s : drain_state L W), P (dr_metrics s) (dr_world s) ->
    P (dr_metrics (handle_record data s)) (dr_world (handle_record data s))).
  { intros data s Hs. unfold handle_record. destruct (zlen data <? obs_size); [by apply Hb|]. unfold handle_event.
    specialize (Hr data (dr_local s) _ _ (Hb MEvents [obs_name] 1 _ _ eq_refl ltac:(done) Hs)).
    destruct (obs_observe data (dr_local s) (dr_world s)) as [[[[t o]|] l] w]; [|done].
    by destruct (report o _ w) as [[r m] w']. }
  assert (Hall : forall ring count s, P (dr_metrics s) (dr_world s) ->
    P (dr_metrics (snd (drain_loop ring count s))) (dr_world (snd (drain_loop ring count s)))).
  { induction ring as [|data ring IH]; intros count s Hs; [done|]. simpl.
    destruct (MAX_DRAIN_PER_TICK <=? count + 1); [by apply Hrecord|]. by apply IH, Hrecord. }
  intros fd lookup ring s Hs. unfold tick.
  assert (Hc : P (dr_metrics (check_metrics lookup fd (next_tick s))) (dr_world (check_metrics lookup fd (next_tick s)))).
  { unfold check_metrics. destruct (_ =? 0); [|done]. destruct fd as [fd|]; [|done].
    assert (Hl : P (dr_metrics (check_lost lookup fd (next_tick s))) (dr_world (check_lost lookup fd (next_tick s))))
      by (unfold check_lost; destruct (_ <? _); [by apply Hb|done]).
    destruct obs_ambiguous; [|done]. unfold check_ambiguous. destruct (_ <? _); [by apply Hb|done]. }
  specialize (Hall ring 0 _ Hc). destruct (drain_loop ring 0 _) as [[drained ring'] s']. simpl in *.
  unfold count_cap. destruct (_ <=? _); [by apply Hb|done].
Qed.

Lemma tick_events (fd : option Z) (lookup : Z -> Z -> option (list Z)) (ring : list (list Z))
    (s : drain_state L W) :
  grown MEvents [obs_name] (fulls (take CAP ring)) s (snd (tick fd lookup ring s)) /\
  grown MMalformed [obs_name] (shorts (take CAP ring)) s (snd (tick fd lookup ring s)).
Proof.
  rewrite tick_eq. unfold snd.
  destruct (handle_all_events (take CAP ring) (check_metrics lookup fd (next_tick s))) as [He Hm].
  unfold grown, grew in *. rewrite !count_cap_frame, He, Hm, !check_metrics_frame by done. done.
Qed.

Lemma shorts_app (a b : list (list Z)) : shorts (a ++ b) = shorts a + shorts b.
Proof. unfold shorts. rewrite List.filter_app. apply zlen_app. Qed.
Lemma fulls_app (a b : list (list Z)) : fulls (a ++ b) = fulls a + fulls b.
Proof. unfold fulls. rewrite List.filter_app. apply zlen_app. Qed.

Lemma run_ticks_conserves (fd : option Z) (ticks : list (list (list Z) * (Z -> Z -> option (list Z))))
    (ring : list (list Z)) (s : drain_state L W) :
  let '(ring', s') := run_ticks fd ticks ring s in
  exists handled,
    ring ++ concat (map fst ticks) = handled ++ ring' /\
    grown MEvents [obs_name] (fulls handled) s s' /\
    grown MMalformed [obs_name] (shorts handled) s s' /\
    zlen handled <= MAX_DRAIN_PER_TICK * zlen ticks.
Proof.
  revert ring s. induction ticks as [|[arrived lookup] ticks IH]; intros ring s; simpl.
  { exists []. rewrite app_nil_r. split; [done|]. split; [by apply grown_0|]. split; [by apply grown_0|done]. }
  pose proof (tick_events fd lookup (ring ++ arrived) s) as [He Hm].
  rewrite tick_eq in *. unfold snd in He, Hm.
  set (s1 := count_cap _ _) in *.
  specialize (IH (drop CAP (ring ++ arrived)) s1).
  destruct (run_ticks fd ticks (drop CAP (ring ++ arrived)) s1) as [ring' s'].
  destruct IH as (handled & E & He' & Hm' & Hl).
  exists (take CAP (ring ++ arrived) ++ handled). split; [|split; [|split]].
  - rewrite <- app_assoc, <- E, !app_assoc. by rewrite take_drop.
  - rewrite fulls_app. by eapply grown_trans.
  - rewrite shorts_app. by eapply grown_trans.
  - rewrite zlen_app, zlen_cons. pose proof (length_take_le (ring ++ arrived) CAP) as Ht.
    pose proof (length_take (ring ++ arrived) CAP).
    unfold zlen in *. unfold CAP, MAX_DRAIN_PER_TICK in *. lia.
Qed.

Lemma run_ticks_keeps_up (fd : option Z) (ticks : list (list (list Z) * (Z -> Z -> option (list Z))))
    (s : drain_state L W) :
  Forall (fun t => zlen (fst t) <= MAX_DRAIN_PER_TICK) ticks -> fst (run_ticks fd ticks [] s) = [].
Proof.
  revert s. induction ticks as [|[arrived lookup] ticks IH]; intros s Ht; [done|].
  apply Forall_cons in Ht as [Ha Ht]. cbn [run_ticks]. rewrite tick_eq. simpl app.
  rewrite drop_ge; [by apply IH|]. simpl in Ha. unfold CAP, zlen, MAX_DRAIN_PER_TICK in *. lia.
Qed.

(** The largest reading of the lost-events metric over the ticks that read it. *)
Fixpoint lost_seen (fd : option Z) (ticks : list (list (list Z) * (Z -> Z -> option (list Z))))
    (n acc : Z) : Z :=
  match ticks with
  | [] => acc
  | (_, lookup) :: rest =>
      let n := wrap64 (n + 1) in
      lost_seen fd rest n
        (if n mod LOST_EVENTS_CHECK_INTERVAL =? 0 then
           match fd with
           | Some fd => Z.max acc (read_percpu_sum lookup fd METRIC_LOST_EVENTS)
           | None => acc
           end
         else acc)
  end.

Lemma read_percpu_sum_range (lookup : Z -> Z -> option (list Z)) (fd key : Z) :
  is_u64 (read_percpu_sum lookup fd key).
Proof.
  unfold read_percpu_sum. destruct (lookup fd key) as [l|]; [|width_lia].
  assert (H0 : is_u64 0) by width_lia. revert H0. generalize 0.
  induction l as [|v l IH]; intros acc Hacc; simpl; [done|]. apply IH, wrap64_range.
Qed.

Lemma check_metrics_lost (lookup : Z -> Z -> option (list Z)) (fd : option Z) (s : drain_state L W) :
  let s' := check_metrics lookup fd s in
  dc_tick_count (dr_counts s') = dc_tick_count (dr_counts s) /\
  dc_prev_lost (dr_counts s') =
    (if dc_tick_count (dr_counts s) mod LOST_EVENTS_CHECK_INTERVAL =? 0 then
       match fd with
       | Some fd => Z.max (dc_prev_lost (dr_counts s)) (read_percpu_sum lookup fd METRIC_LOST_EVENTS)
       | None => dc_prev_lost (dr_counts s)
       end
     else dc_prev_lost (dr_counts s)) /\
  grown MLost [obs_name] (dc_prev_lost (dr_counts s') - dc_prev_lost (dr_counts s)) s s'.
Proof.
  cbn zeta. unfold check_metrics.
  destruct (_ mod _ =? 0); [|split; [done|]; split; [done|]; rewrite Z.sub_diag; by apply grown_0].
  destruct fd as [fd|]; [|split; [done|]; split; [done|]; rewrite Z.sub_diag; by apply grown_0].
  set (s1 := check_lost lookup fd s).
  assert (H1 : dc_tick_count (dr_counts s1) = dc_tick_count (dr_counts s) /\
    dc_prev_lost (dr_counts s1) =
      Z.max (dc_prev_lost (dr_counts s)) (read_percpu_sum lookup fd METRIC_LOST_EVENTS) /\
    grown MLost [obs_name] (dc_prev_lost (dr_counts s1) - dc_prev_lost (dr_counts s)) s s1).
  { unfold s1, check_lost. destruct (Z.ltb_spec (dc_prev_lost (dr_counts s))
      (read_percpu_sum lookup fd METRIC_LOST_EVENTS)); simpl.
    - split; [done|]. split; [lia|]. apply grew_bump.
    - split; [done|]. split; [lia|]. rewrite Z.sub_diag. by apply grown_0. }
  destruct obs_ambiguous; [|done]. unfold check_ambiguous. case_match; [|done].
  unfold grown, grew in *. simpl. rewrite bump_other by (by left). done.
Qed.

Lemma run_ticks_lost (fd : option Z) (ticks : list (list (list Z) * (Z -> Z -> option (list Z))))
    (ring : list (list Z)) (s : drain_state L W) :
  let s' := snd (run_ticks fd ticks ring s) in
  dc_prev_lost (dr_counts s') =
    lost_seen fd ticks (dc_tick_count (dr_counts s)) (dc_prev_lost (dr_counts s)) /\
  grown MLost [obs_name] (dc_prev_lost (dr_counts s') - dc_prev_lost (dr_counts s)) s s'.
Proof.
  cbn zeta. revert ring s. induction ticks as [|[arrived lookup] ticks IH]; intros ring s.
  { simpl. rewrite Z.sub_diag. split; [done|by apply grown_0]. }
  cbn [run_ticks lost_seen]. rewrite tick_eq. set (s1 := count_cap _ _).
  destruct (IH (drop CAP (ring ++ arrived)) s1) as [Hp Hg].
  destruct (check_metrics_lost lookup fd (next_tick s)) as (Ht0 & Hp0 & Hg0).
  assert (Hc : dr_counts s1 = dr_counts (handle_all (take CAP (ring ++ arrived))
    (check_metrics lookup fd (next_tick s)))) by apply count_cap_counts.
  destruct (handle_all_prev (take CAP (ring ++ arrived)) (check_metrics lookup fd (next_tick s)))
    as [Hpl Htc].
  rewrite <- Hc in Hpl, Htc. rewrite Htc, Ht0, Hpl, Hp0 in Hp. split; [exact Hp|].
  replace (dc_prev_lost (dr_counts (snd (run_ticks fd ticks (drop CAP (ring ++ arrived)) s1)))
           - dc_prev_lost (dr_counts s))
    with ((dc_prev_lost (dr_counts s1) - dc_prev_lost (dr_counts s)) +
          (dc_prev_lost (dr_counts (snd (run_ticks fd ticks (drop CAP (ring ++ arrived)) s1)))
           - dc_prev_lost (dr_counts s1))) by lia.
  eapply grown_trans; [|exact Hg]. rewrite Hpl.
  unfold grown, grew in *. unfold s1. rewrite count_cap_frame, handle_all_other by done. exact Hg0.
Qed.

Lemma lost_seen_range (fd : option Z) (ticks : list (list (list Z) * (Z -> Z -> option (list Z))))
    (n acc : Z) :
  is_u64 acc -> is_u64 (lost_seen fd ticks n acc).
Proof.
  revert n acc. induction ticks as [|[a lookup] ticks IH]; intros n acc Hacc; simpl; [done|].
  apply IH. destruct (_ =? 0); [|done]. destruct fd as [fd|]; [|done].
  pose proof (read_percpu_sum_range lookup fd METRIC_LOST_EVENTS). width_lia.
Qed.

Lemma grown_value (k : metric) (labels : list string) (v : Z) (s s' : drain_state L W) :
  grown k labels v s s' -> metric_value k labels (dr_metrics s) = 0 ->
  wrap64 (metric_value k labels (dr_metrics s')) = wrap64 v.
Proof. apply grew_value. Qed.

Definition fresh_state (l : L) (w : W) : drain_state L W := {|
  dr_counts := DrainCounts_zero; dr_metrics := TapioMetrics_new; dr_local := l; dr_world := w |}.

Lemma run_metrics (fd : option Z) (ticks : list (list (list Z) * (Z -> Z -> option (list Z))))
    (s : drain_state L W) :
  dr_metrics (run fd ticks s) = dr_metrics (snd (run_ticks fd ticks [] s)) /\
  dr_counts (run fd ticks s) = dr_counts (snd (run_ticks fd ticks [] s)).
Proof. unfold run. destruct (run_ticks fd ticks [] s) as [r s']. by destruct (report_flush _). Qed.

(** An observer accounts for every record the kernel gave it, whatever the sink
    answers: over a whole run the records that arrived are, in order, the ones
    it handled and the ones left in the ring at the shutdown; the events and
    the malformed counters grew by the numbers of full and of short records it
    handled; it never handles more than 2048 records a tick, and leaves none
    when no tick brings more than that. *)
Lemma run_conserves (fd : option Z) (ticks : list (list (list Z) * (Z -> Z -> option (list Z)))) (l : L) (w : W) :
  exists handled left,
    concat (map fst ticks) = handled ++ left /\
    wrap64 (metric_value MEvents [obs_name] (dr_metrics (run fd ticks (fresh_state l w))))
      = wrap64 (fulls handled) /\
    wrap64 (metric_value MMalformed [obs_name] (dr_metrics (run fd ticks (fresh_state l w))))
      = wrap64 (shorts handled) /\
    zlen handled <= MAX_DRAIN_PER_TICK * zlen ticks /\
    (Forall (fun t => zlen (fst t) <= MAX_DRAIN_PER_TICK) ticks -> left = []).
Proof.
  destruct (run_metrics fd ticks (fresh_state l w)) as [-> _].
  pose proof (run_ticks_conserves fd ticks [] (fresh_state l w)) as Hr.
  pose proof (run_ticks_keeps_up fd ticks (fresh_state l w)) as Hk.
  destruct (run_ticks fd ticks [] (fresh_state l w)) as [left s'].
  destruct Hr as (handled & E & He & Hm & Hl). exists handled, left.
  split; [exact E|]. split; [by apply (grown_value _ _ _ _ _ He)|].
  split; [by apply (grown_value _ _ _ _ _ Hm)|]. auto.
Qed.

Lemma run_lost (fd : option Z) (ticks : list (list (list Z) * (Z -> Z -> option (list Z)))) (l : L) (w : W) :
  wrap64 (metric_value MLost [obs_name] (dr_metrics (run fd ticks (fresh_state l w)))) =
    lost_seen fd ticks 0 0 /\
  dc_prev_lost (dr_counts (run fd ticks (fresh_state l w))) = lost_seen fd ticks 0 0.
Proof.
  destruct (run_metrics fd ticks (fresh_state l w)) as [-> ->].
  destruct (run_ticks_lost fd ticks [] (fresh_state l w)) as [Hp Hg].
  rewrite Hp in *. split; [|done]. simpl in *. rewrite Z.sub_0_r in Hg.
  rewrite (grown_value _ _ _ _ _ Hg) by done.
  apply wrap64_small, lost_seen_range. width_lia.
Qed.

End Accounting.

(** * The records an observer handled *)

(** The same observer with a log of the records it was given to observe: what
    it makes of them is unchanged. *)
Section Logged.
Context {L W : Type} `{Reporter W} `{!Observer W L}.

Definition logged_observer : Observer W (list (list Z) * L) := {|
  obs_name := obs_name; obs_size := obs_size;
  obs_observe data logged w :=
    let '(observed, l, w) := obs_observe data (snd logged) w in
    (observed, (fst logged ++ [data], l), w);
  obs_ambiguous := obs_ambiguous |}.

Definition forget_log (s : drain_state (list (list Z) * L) W) : drain_state L W := {|
  dr_counts := dr_counts s; dr_metrics := dr_metrics s; dr_local := snd (dr_local s); dr_world := dr_world s |}.

Definition observed_records (s : drain_state (list (list Z) * L) W) : list (list Z) := fst (dr_local s).

Lemma logged_handle_all (records : list (list Z)) (s : drain_state (list (list Z) * L) W) :
  let s' := handle_all (Observer0 := logged_observer) records s in
  forget_log s' = handle_all records (forget_log s) /\
  observed_records s' = observed_records s ++ List.filter (fun d => negb (is_short d)) records.
Proof.
  cbn zeta. revert s. induction records as [|d records IH]; intros s; [by rewrite app_nil_r|].
  simpl. destruct (IH (handle_record (Observer0 := logged_observer) d s)) as [-> ->].
  unfold handle_record, is_short. simpl. destruct (_ <? _); [done|]. simpl.
  unfold handle_event, forget_log, observed_records. simpl.
  destruct (obs_observe d (snd (dr_local s)) (dr_world s)) as [[[[t o]|] l] w]; simpl; [|by rewrite <- app_assoc].
  destruct (report o _ w) as [[r m] w']. simpl. by rewrite <- app_assoc.
Qed.

Lemma logged_check_lost (lookup : Z -> Z -> option (list Z)) (fd : Z) (s : drain_state (list (list Z) * L) W) :
  forget_log (check_lost (Observer0 := logged_observer) lookup fd s) = check_lost lookup fd (forget_log s) /\
  observed_records (check_lost (Observer0 := logged_observer) lookup fd s) = observed_records s.
Proof. unfold check_lost, forget_log, observed_records. simpl. by destruct (_ <? _). Qed.

Lemma logged_check_ambiguous (lookup : Z -> Z -> option (list Z)) (fd : Z)
    (s : drain_state (list (list Z) * L) W) :
  forget_log (check_ambiguous (Observer0 := logged_observer) lookup fd s) =
    check_ambiguous lookup fd (forget_log s) /\
  observed_records (check_ambiguous (Observer0 := logged_observer) lookup fd s) = observed_records s.
Proof. unfold check_ambiguous, forget_log, observed_records. simpl. by destruct (_ <? _). Qed.

Lemma logged_check_metrics (lookup : Z -> Z -> option (list Z)) (fd : option Z)
    (s : drain_state (list (list Z) * L) W) :
  forget_log (check_metrics (Observer0 := logged_observer) lookup fd (next_tick s)) =
    check_metrics lookup fd (next_tick (forget_log s)) /\
  observed_records (check_metrics (Observer0 := logged_observer) lookup fd (next_tick s)) = observed_records s.
Proof.
  unfold check_metrics. change (dr_counts (next_tick (forget_log s))) with (dr_counts (next_tick s)).
  destruct (_ =? 0); [|done]. destruct fd as [fd|]; [|done].
  change (next_tick (forget_log s)) with (forget_log (next_tick s)).
  change (observed_records s) with (observed_records (next_tick s)). simpl obs_ambiguous.
  destruct (logged_check_lost lookup fd (next_tick s)) as [<- <-].
  destruct obs_ambiguous; [|done]. apply logged_check_ambiguous.
Qed.

Lemma logged_count_cap (drained : Z) (s : drain_state (list (list Z) * L) W) :
  forget_log (count_cap (Observer0 := logged_observer) drained s) = count_cap drained (forget_log s) /\
  observed_records (count_cap (Observer0 := logged_observer) drained s) = observed_records s.
Proof. unfold count_cap. by destruct (_ <=? _). Qed.

(** What a run observed and what it left are, in order, what arrived, the short
    records apart. *)
Lemma logged_run_ticks (fd : option Z) (ticks : list (list (list Z) * (Z -> Z -> option (list Z))))
    (ring : list (list Z)) (s : drain_state (list (list Z) * L) W) :
  let '(kept, s') := run_ticks (Observer0 := logged_observer) fd ticks ring s in
  run_ticks fd ticks ring (forget_log s) = (kept, forget_log s') /\
  exists handled, ring ++ concat (map fst ticks) = handled ++ kept /\
    observed_records s' = observed_records s ++ List.filter (fun d => negb (is_short d)) handled.
Proof.
  revert ring s. induction ticks as [|[arrived lookup] ticks IH]; intros ring s.
  { simpl. split; [done|]. exists []. by rewrite !app_nil_r. }
  cbn [run_ticks]. rewrite !tick_eq. set (batch := take CAP (ring ++ arrived)).
  set (s0 := check_metrics (Observer0 := logged_observer) lookup fd (next_tick s)).
  destruct (logged_check_metrics lookup fd s) as [E0 R0]. fold s0 in E0, R0.
  destruct (logged_handle_all batch s0) as [E1 R1].
  destruct (logged_count_cap (zlen batch) (handle_all (Observer0 := logged_observer) batch s0)) as [E2 R2].
  set (s1 := count_cap (Observer0 := logged_observer) _ _) in *.
  specialize (IH (drop CAP (ring ++ arrived)) s1). rewrite E2, E1, E0 in IH.
  destruct (run_ticks (Observer0 := logged_observer) fd ticks (drop CAP (ring ++ arrived)) s1) as [kept s'].
  destruct IH as [-> (handled & Ha & Hr)]. split; [done|].
  exists (batch ++ handled). simpl. rewrite app_assoc. rewrite <- (take_drop CAP (ring ++ arrived)) at 1.
  rewrite <- !app_assoc, Ha. split; [done|]. by rewrite Hr, R2, R1, R0, List.filter_app, app_assoc.
Qed.
End Logged.

(** * Properties *)

Section Lost.
Context {L W : Type} `{Reporter W} `{!Observer W L}.

(** C20. The lost-events counter an observer exports is the largest total the kernel
    reported at a tick that read it, every thousandth one: a failed read, a
    total that did not grow and a missing map never make it move, and no
    growth is counted twice. *)
Theorem lost_counter_is_kernel_total (fd : option Z)
    (ticks : list (list (list Z) * (Z -> Z -> option (list Z)))) (l : L) (w : W) :
  wrap64 (metric_value MLost [obs_name] (dr_metrics (run fd ticks (fresh_state l w)))) =
    lost_seen fd ticks 0 0 /\
  dc_prev_lost (dr_counts (run fd ticks (fresh_state l w))) = lost_seen fd ticks 0 0.
Proof. apply run_lost. Qed.
End Lost.
