(* ===== verification/Kernel.v ===== *)
(** [ebpf/headers/config.h] and [metrics.h]: what the four eBPF programs share,
    the configuration map, the per-CPU counters and the ring buffer, and the
    helpers of the kernel as the inputs of one invocation.  Each program has
    maps of its own; the invocations of one program are taken one at a time. *)
From Stdlib Require Import String.
From S2P Require Import Prelude RustStr CommonEbpf Carriers Drain.
Local Open Scope Z_scope.

(** Conversions of C between integer types. *)
Definition wrap8 (z : Z) : Z := z mod 2 ^ 8.
Definition wrap16 (z : Z) : Z := z mod 2 ^ 16.
Definition i32_cast (z : Z) : Z := to_i32 (wrap32 z).

(** * An invocation *)

(** What the helpers return to one invocation: [bpf_ktime_get_ns],
    [bpf_get_current_pid_tgid], [bpf_get_current_cgroup_id],
    [bpf_get_current_comm], [bpf_get_smp_processor_id], whether
    [bpf_ringbuf_reserve] finds room, by its place in the program, and whether a
    hash map takes a new key. *)
Record bpf_ctx := {
  ctx_ktime_ns : Z;
  ctx_pid_tgid : Z;
  ctx_cgroup_id : Z;
  ctx_comm : list Z;
  ctx_cpu : nat;
  ctx_reserve : nat -> bool;
  ctx_map_room : bool;
}.

Definition TASK_COMM_LEN : nat := 16.

Definition ctx_wf (c : bpf_ctx) : Prop :=
  width 8 (ctx_ktime_ns c) /\ width 8 (ctx_pid_tgid c) /\ width 8 (ctx_cgroup_id c) /\
  length (ctx_comm c) = TASK_COMM_LEN /\ width 4 (Z.of_nat (ctx_cpu c)).

(** * The maps of a program *)

(** The configuration in the array's only slot, the counters by index, one value per CPU,
    the records submitted, oldest first, and the program's own maps. *)
Record kstate (M : Type) := {
  ks_config : TapioConfig;
  ks_metrics : list (list Z);
  ks_ring : list (list Z);
  ks_maps : M;
}.
Arguments ks_config {M} _.
Arguments ks_metrics {M} _.
Arguments ks_ring {M} _.
Arguments ks_maps {M} _.

(** The kernel zeroes a new array map. *)
Definition config_zero : TapioConfig := {|
  tc_abi_version := 0; tc_generation := 0; tc_flags := 0; tc_slow_io_threshold_ns := 0;
  tc_io_latency_critical_ns := 0; tc_conn_refused_window_ns := 0; tc_conn_refused_min_count := 0;
  tc_rtt_spike_multiplier := 0; tc_rtt_spike_abs_us := 0; tc_rtt_min_baseline_samples := 0;
  tc_ignore_exit_count := 0; tc_ignore_exit_codes := replicate 16 0; tc_pad := 0 |}.

(** Every field within its width. *)
Definition TapioConfig_wf (c : TapioConfig) : Prop :=
  width 4 (tc_abi_version c) /\ width 4 (tc_generation c) /\ width 8 (tc_flags c) /\
  width 8 (tc_slow_io_threshold_ns c) /\ width 8 (tc_io_latency_critical_ns c) /\
  width 8 (tc_conn_refused_window_ns c) /\ width 4 (tc_conn_refused_min_count c) /\
  width 4 (tc_rtt_spike_multiplier c) /\ width 4 (tc_rtt_spike_abs_us c) /\
  width 4 (tc_rtt_min_baseline_samples c) /\ width 4 (tc_ignore_exit_count c) /\
  length (tc_ignore_exit_codes c) = 16%nat /\ Forall i32_ok (tc_ignore_exit_codes c).

Definition METRIC_SLOTS : nat := 512.
Definition metrics_zero (nr_cpus : nat) : list (list Z) := replicate METRIC_SLOTS (replicate nr_cpus 0).

(** A freshly loaded program. *)
Definition kstate_zero {M : Type} (nr_cpus : nat) (maps : M) : kstate M := {|
  ks_config := config_zero; ks_metrics := metrics_zero nr_cpus; ks_ring := []; ks_maps := maps |}.

(** [bpf_map_update_elem] on the configuration map, from userspace. *)
Definition write_config {M : Type} (c : TapioConfig) (s : kstate M) : kstate M := {|
  ks_config := c; ks_metrics := ks_metrics s; ks_ring := ks_ring s; ks_maps := ks_maps s |}.

Definition with_maps {M : Type} (maps : M) (s : kstate M) : kstate M := {|
  ks_config := ks_config s; ks_metrics := ks_metrics s; ks_ring := ks_ring s; ks_maps := maps |}.

(** Userspace consumes the ring buffer. *)
Definition consume {M : Type} (s : kstate M) : list (list Z) * kstate M :=
  (ks_ring s, {| ks_config := ks_config s; ks_metrics := ks_metrics s; ks_ring := [];
                 ks_maps := ks_maps s |}).

(** * Shared helpers *)

(** The copy on the stack, when its version is the one the program speaks. *)
Definition tapio_config_snapshot {M : Type} (s : kstate M) : option TapioConfig :=
  let dst := ks_config s in
  if tc_abi_version dst =? TAPIO_CONFIG_ABI_VERSION then Some dst else None.

(** The guard every handler opens with: the snapshot, if the flag is set. *)
Definition enabled_config {M : Type} (flag : Z) (s : kstate M) : option TapioConfig :=
  match tapio_config_snapshot s with
  | Some cfg => if Z.land (tc_flags cfg) flag =? 0 then None else Some cfg
  | None => None
  end.

Definition tapio_clamp_ignore_exit_count (count : Z) : Z :=
  if Z.of_nat TAPIO_CONFIG_MAX_IGNORE_EXIT_CODES <? count
  then Z.of_nat TAPIO_CONFIG_MAX_IGNORE_EXIT_CODES else count.

(** An index past the map or a CPU past the slot leaves it alone. *)
Definition metric_inc {M : Type} (ctx : bpf_ctx) (metric_idx : Z) (s : kstate M) : kstate M := {|
  ks_config := ks_config s;
  ks_metrics :=
    alter (alter (fun v => wrap64 (v + 1)) (ctx_cpu ctx)) (Z.to_nat metric_idx) (ks_metrics s);
  ks_ring := ks_ring s;
  ks_maps := ks_maps s |}.

Definition ringbuf_submit {M : Type} (record : list Z) (s : kstate M) : kstate M := {|
  ks_config := ks_config s; ks_metrics := ks_metrics s; ks_ring := ks_ring s ++ [record];
  ks_maps := ks_maps s |}.

(** Reserve, count the loss when there is no room, and otherwise submit what
    [fill] makes of the reserved space, or discard it on None. *)
Definition ringbuf_emit {M : Type} (ctx : bpf_ctx) (place : nat) (fill : option (list Z))
    (s : kstate M) : kstate M :=
  if negb (ctx_reserve ctx place) then metric_inc ctx METRIC_LOST_EVENTS s
  else
    match fill with
    | Some record => ringbuf_submit record s
    | None => s
    end.

(** [pid_tgid >> 32], the process. *)
Definition ctx_tgid (ctx : bpf_ctx) : Z := wrap32 (Z.shiftr (ctx_pid_tgid ctx) 32).

(** * The counters as userspace reads them *)

Definition percpu_lookup {M : Type} (s : kstate M) (map_fd key : Z) : option (list Z) :=
  ks_metrics s !! Z.to_nat key.

(** The sum over the CPUs, where a [u64] does not wrap. *)
Definition sum_cpus (values : list Z) : Z := fold_left (fun acc v => wrap64 (acc + v)) values 0.

(** * Programs *)

(** A reservation the program makes, by its place, and what it submits when it
    gets the space: None discards it. *)
Notation attempt := (nat * option (list Z))%type.

Definition emit_all {M : Type} (ctx : bpf_ctx) (attempts : list attempt) (s : kstate M) : kstate M :=
  fold_left (fun s a => ringbuf_emit ctx (fst a) (snd a) s) attempts s.

Definition records_of (ctx : bpf_ctx) (attempts : list attempt) : list (list Z) :=
  omap (fun a : attempt => if ctx_reserve ctx (fst a) then snd a else None) attempts.

Definition refused_of (ctx : bpf_ctx) (attempts : list attempt) : Z :=
  zlen (List.filter (fun a => negb (ctx_reserve ctx (fst a))) attempts).

(** A program with maps [M], the input [I] of its hooks, and keys [K] by which
    a map of its own evicts an entry. *)
Class Program (M I K : Type) := {
  prog_flag : Z;
  prog_run : bpf_ctx -> I -> kstate M -> kstate M;
  prog_empty : M;
  prog_evict : K -> M -> M;
}.

(** What can happen to the state of a program: a hook fires, a full map evicts
    an entry, userspace installs a configuration. *)
Inductive kaction (I K : Type) :=
| Invoke (ctx : bpf_ctx) (i : I)
| Evict (k : K)
| Configure (cfg : TapioConfig).
Arguments Invoke {I K} _ _.
Arguments Evict {I K} _.
Arguments Configure {I K} _.

Definition kstep {M I K : Type} `{!Program M I K} (s : kstate M) (a : kaction I K) : kstate M :=
  match a with
  | Invoke ctx i => prog_run ctx i s
  | Evict k => with_maps (prog_evict k (ks_maps s)) s
  | Configure cfg => write_config cfg s
  end.

Definition krun {M I K : Type} `{!Program M I K} (s : kstate M) (acts : list (kaction I K)) : kstate M :=
  fold_left kstep acts s.

(** What the ticks of an observer find: before each, actions of the kernel; at
    it, the records they submitted and the counters. *)
Fixpoint kernel_ticks {M I K : Type} `{!Program M I K} (s : kstate M) (segments : list (list (kaction I K))) :
  list (list (list Z) * (Z -> Z -> option (list Z))) * kstate M :=
  match segments with
  | [] => ([], s)
  | acts :: rest =>
      let '(batch, s) := consume (krun s acts) in
      let '(ticks, s') := kernel_ticks s rest in
      ((batch, percpu_lookup s) :: ticks, s')
  end.

(** * The contract of a program *)

(** [s'] is [s] but for the program's own maps and counters other than the
    lost events: nothing was submitted. *)
Record silent {M : Type} (s s' : kstate M) : Prop := {
  si_config : ks_config s' = ks_config s;
  si_ring : ks_ring s' = ks_ring s;
  si_lost : ks_metrics s' !! Z.to_nat METRIC_LOST_EVENTS = ks_metrics s !! Z.to_nat METRIC_LOST_EVENTS;
  si_shape : map length (ks_metrics s') = map length (ks_metrics s);
}.

(** What a program promises to userspace: the reservations it makes, none
    without a valid configuration that enables it; nothing else reaches the
    ring or the count of lost events; what it submits is a record of its
    format stamped with the generation it was judged by. *)
Class Contract (M I K : Type) `{!Program M I K} := {
  prog_attempts : bpf_ctx -> I -> kstate M -> list attempt;
  prog_input_ok : I -> Prop;
  prog_maps_ok : M -> Prop;
  prog_record : TapioConfig -> list Z -> Prop;
  prog_refines ctx i s :
    exists s', silent s s' /\ prog_run ctx i s = emit_all ctx (prog_attempts ctx i s) s';
  prog_disabled ctx i s : enabled_config prog_flag s = None -> prog_attempts ctx i s = [];
  prog_empty_ok : prog_maps_ok prog_empty;
  prog_evict_ok k m : prog_maps_ok m -> prog_maps_ok (prog_evict k m);
  prog_keeps_maps ctx i s :
    ctx_wf ctx -> prog_input_ok i -> prog_maps_ok (ks_maps s) -> prog_maps_ok (ks_maps (prog_run ctx i s));
  prog_records_ok ctx i s cfg a :
    ctx_wf ctx -> prog_input_ok i -> prog_maps_ok (ks_maps s) ->
    enabled_config prog_flag s = Some cfg -> TapioConfig_wf cfg ->
    In a (prog_attempts ctx i s) -> forall data, snd a = Some data -> prog_record cfg data;
}.

(** * Lemmas *)

(** A conversion to an unsigned type fits it. *)
Lemma wrap8_width (z : Z) : width 1 (wrap8 z).
Proof. apply Z.mod_pos_bound. reflexivity. Qed.
Lemma wrap16_width (z : Z) : width 2 (wrap16 z).
Proof. apply Z.mod_pos_bound. reflexivity. Qed.
Lemma wrap32_width (z : Z) : width 4 (wrap32 z).
Proof. apply Z.mod_pos_bound. reflexivity. Qed.
Lemma wrap64_width (z : Z) : width 8 (wrap64 z).
Proof. apply Z.mod_pos_bound. reflexivity. Qed.
Lemma i32_cast_ok (z : Z) : i32_ok (i32_cast z).
Proof.
  unfold i32_cast, to_i32, i32_ok. pose proof (wrap32_width z) as H. revert H. unfold width.
  generalize (wrap32 z). intros y Hy. change (256 ^ Z.of_nat 4) with (2 ^ 32) in Hy.
  destruct (Z.ltb_spec y (2 ^ 31)); width_lia.
Qed.

(** The low bits of a value. *)
Lemma land_ones_width (n : nat) (z : Z) : width n (Z.land z (256 ^ Z.of_nat n - 1)).
Proof.
  assert (E : 256 ^ Z.of_nat n = 2 ^ (8 * Z.of_nat n)) by (rewrite Z.pow_mul_r by lia; reflexivity).
  unfold width. rewrite E. change (2 ^ (8 * Z.of_nat n) - 1) with (Z.pred (2 ^ (8 * Z.of_nat n))).
  rewrite <- Z.ones_equiv, Z.land_ones by lia. apply Z.mod_pos_bound. lia.
Qed.

Lemma ctx_tgid_width (ctx : bpf_ctx) : width 4 (ctx_tgid ctx).
Proof. apply wrap32_width. Qed.

Lemma enabled_config_Some {M : Type} (flag : Z) (s : kstate M) (cfg : TapioConfig) :
  enabled_config flag s = Some cfg <-> ks_config s = cfg /\ observer_enabled cfg flag = true.
Proof.
  unfold enabled_config, tapio_config_snapshot, observer_enabled, has_valid_abi.
  destruct (Z.eqb_spec (tc_abi_version (ks_config s)) TAPIO_CONFIG_ABI_VERSION) as [E|E].
  - destruct (Z.land (tc_flags (ks_config s)) flag =? 0) eqn:Ef; split; try done.
    + intros [<- H]. by rewrite Ef, andb_false_r in H.
    + intros [= <-]. rewrite E, Ef. done.
    + by intros [<- _].
  - split; [done|]. intros [<- H]. by rewrite (proj2 (Z.eqb_neq _ _) E) in H.
Qed.

Lemma enabled_config_zero {M : Type} (flag : Z) (s : kstate M) : ks_config s = config_zero -> enabled_config flag s = None.
Proof. unfold enabled_config, tapio_config_snapshot. by intros ->. Qed.

Lemma fold_wrap_add (l : list Z) (a b : Z) :
  wrap64 (fold_left (fun acc v => wrap64 (acc + v)) l (wrap64 (a + b)))
  = wrap64 (fold_left (fun acc v => wrap64 (acc + v)) l (wrap64 a) + b).
Proof.
  revert a. induction l as [|x l IH]; intros a; simpl; [by rewrite wrap64_idem, wrap64_add_l|].
  rewrite !wrap64_add_l. replace (a + b + x) with (a + x + b) by lia. apply IH.
Qed.

Lemma sum_cpus_alter (l : list Z) (cpu : nat) :
  (cpu < length l)%nat ->
  wrap64 (sum_cpus (alter (fun v => wrap64 (v + 1)) cpu l)) = wrap64 (sum_cpus l + 1).
Proof.
  unfold sum_cpus. change 0 with (wrap64 0) at 1 2. generalize 0 as a.
  revert cpu. induction l as [|x l IH]; intros cpu a Hc; simpl in *; [lia|].
  destruct cpu as [|cpu]; simpl; rewrite !wrap64_add_l.
  - replace (a + wrap64 (x + 1)) with (wrap64 (x + 1) + a) by lia. rewrite wrap64_add_l.
    replace (x + 1 + a) with (a + x + 1) by lia. apply fold_wrap_add.
  - apply IH. lia.
Qed.

(** * Emitting *)

Section Emit.
Context {M : Type}.
Implicit Types s : kstate M.

(** The counters of [nr] CPUs, all slots there. *)
Definition metrics_ok (nr : nat) (metrics : list (list Z)) : Prop :=
  map length metrics = replicate METRIC_SLOTS nr.

(** The total the observer reads. *)
Definition lost_total (s : kstate M) : Z :=
  read_percpu_sum (percpu_lookup s) 0 METRIC_LOST_EVENTS.

Lemma map_length_alter (f : list Z -> list Z) (i : nat) (l : list (list Z)) :
  (forall x, length (f x) = length x) -> map length (alter f i l) = map length l.
Proof.
  intros Hf. revert i. induction l as [|x l IH]; intros [|i]; try done.
  - cbn. by rewrite Hf.
  - cbn. f_equal. apply IH.
Qed.

Lemma metric_inc_shape (ctx : bpf_ctx) (idx : Z) s :
  map length (ks_metrics (metric_inc ctx idx s)) = map length (ks_metrics s).
Proof. apply map_length_alter. intros x. apply length_alter. Qed.

Lemma metrics_ok_slot (nr : nat) (metrics : list (list Z)) (i : nat) :
  metrics_ok nr metrics -> (i < METRIC_SLOTS)%nat -> exists l, metrics !! i = Some l /\ length l = nr.
Proof.
  intros Hm Hi. assert (H : map length metrics !! i = Some nr)
    by (rewrite Hm; by apply lookup_replicate_2).
  change (map length metrics) with (length <$> metrics) in H.
  rewrite list_lookup_fmap in H. destruct (metrics !! i) as [l|]; [|done].
  injection H as H. by exists l.
Qed.

Lemma metric_inc_lost (ctx : bpf_ctx) (nr : nat) s :
  metrics_ok nr (ks_metrics s) -> (ctx_cpu ctx < nr)%nat ->
  wrap64 (lost_total (metric_inc ctx METRIC_LOST_EVENTS s)) = wrap64 (lost_total s + 1).
Proof.
  intros Hm Hc. destruct (metrics_ok_slot nr (ks_metrics s) 0 Hm) as (l & Hl & Hn); [unfold METRIC_SLOTS; lia|].
  unfold lost_total, read_percpu_sum, percpu_lookup, metric_inc. cbn [ks_metrics].
  change (Z.to_nat METRIC_LOST_EVENTS) with O. rewrite list_lookup_alter_eq, Hl. simpl.
  apply sum_cpus_alter. lia.
Qed.

Lemma emit_all_config (ctx : bpf_ctx) (l : list attempt) s : ks_config (emit_all ctx l s) = ks_config s.
Proof.
  revert s. induction l as [|a l IH]; intros s; [done|]. simpl. rewrite IH.
  unfold ringbuf_emit. by repeat case_match.
Qed.

Lemma emit_all_maps (ctx : bpf_ctx) (l : list attempt) s : ks_maps (emit_all ctx l s) = ks_maps s.
Proof.
  revert s. induction l as [|a l IH]; intros s; [done|]. simpl. rewrite IH.
  unfold ringbuf_emit. by repeat case_match.
Qed.

Lemma emit_all_with_maps (ctx : bpf_ctx) (l : list attempt) (m : M) s :
  with_maps m (emit_all ctx l s) = emit_all ctx l (with_maps m s).
Proof.
  revert s. induction l as [|a l IH]; intros s; [done|]. simpl. rewrite IH. f_equal.
  unfold ringbuf_emit. by repeat case_match.
Qed.

Lemma emit_all_ring (ctx : bpf_ctx) (l : list attempt) s :
  ks_ring (emit_all ctx l s) = ks_ring s ++ records_of ctx l.
Proof.
  revert s. induction l as [|[place fill] l IH]; intros s; [by rewrite app_nil_r|]. simpl. rewrite IH.
  unfold ringbuf_emit, records_of. simpl.
  destruct (ctx_reserve ctx place); [|done]. destruct fill as [data|]; [|done]. simpl.
  by rewrite <- app_assoc.
Qed.

Lemma emit_all_shape (ctx : bpf_ctx) (l : list attempt) s :
  map length (ks_metrics (emit_all ctx l s)) = map length (ks_metrics s).
Proof.
  revert s. induction l as [|a l IH]; intros s; [done|]. simpl. rewrite IH.
  unfold ringbuf_emit. repeat case_match; try done. apply metric_inc_shape.
Qed.

Lemma emit_all_lost (ctx : bpf_ctx) (nr : nat) (l : list attempt) s :
  metrics_ok nr (ks_metrics s) -> (ctx_cpu ctx < nr)%nat ->
  wrap64 (lost_total (emit_all ctx l s)) = wrap64 (lost_total s + refused_of ctx l).
Proof.
  intros Hm Hc. revert s Hm. induction l as [|[place fill] l IH]; intros s Hm; simpl.
  { by rewrite Z.add_0_r. }
  unfold ringbuf_emit, refused_of in *. simpl. destruct (ctx_reserve ctx place); simpl.
  - destruct fill; by rewrite IH.
  - rewrite IH, zlen_cons by (unfold metrics_ok; by rewrite metric_inc_shape).
    rewrite Z.add_assoc. apply wrap64_cong. by apply (metric_inc_lost ctx nr).
Qed.

Lemma silent_refl s : silent s s.
Proof. by split. Qed.

Lemma silent_with_maps (m : M) s : silent s (with_maps m s).
Proof. by split. Qed.

Lemma silent_lost s s' : silent s s' -> lost_total s' = lost_total s.
Proof. intros [_ _ Hl _]. unfold lost_total, read_percpu_sum, percpu_lookup. by rewrite Hl. Qed.
End Emit.
#[export] Hint Resolve silent_refl silent_with_maps : tapio.
#[export] Hint Resolve wrap8_width wrap16_width wrap32_width wrap64_width i32_cast_ok ctx_tgid_width : tapio.

(** * Runs of a program *)

Section Trace.
Context {M I K : Type} `{!Program M I K} `{!Contract M I K}.
Implicit Types (s : kstate M) (a : kaction I K) (acts : list (kaction I K)).

Definition step_attempts s a : list attempt :=
  match a with Invoke ctx i => prog_attempts ctx i s | _ => [] end.

(** What one action submits, and how many reservations it is refused. *)
Definition step_records s a : list (list Z) :=
  match a with Invoke ctx i => records_of ctx (prog_attempts ctx i s) | _ => [] end.
Definition step_refused s a : Z :=
  match a with Invoke ctx i => refused_of ctx (prog_attempts ctx i s) | _ => 0 end.

Fixpoint krun_records s acts : list (list Z) :=
  match acts with
  | [] => []
  | a :: rest => step_records s a ++ krun_records (kstep s a) rest
  end.

Fixpoint krun_refused s acts : Z :=
  match acts with
  | [] => 0
  | a :: rest => step_refused s a + krun_refused (kstep s a) rest
  end.

(** An action on a machine of [nr] CPUs. *)
Definition on_cpus (nr : nat) a : Prop := match a with Invoke ctx _ => (ctx_cpu ctx < nr)%nat | _ => True end.

Lemma kstep_ring s a : ks_ring (kstep s a) = ks_ring s ++ step_records s a.
Proof.
  destruct a as [ctx i|k|cfg]; simpl; [|by rewrite app_nil_r..].
  destruct (prog_refines ctx i s) as (s' & Hs & ->). by rewrite emit_all_ring, (si_ring _ _ Hs).
Qed.

Lemma kstep_shape s a : map length (ks_metrics (kstep s a)) = map length (ks_metrics s).
Proof.
  destruct a as [ctx i|k|cfg]; simpl; [|done..].
  destruct (prog_refines ctx i s) as (s' & Hs & ->). by rewrite emit_all_shape, (si_shape _ _ Hs).
Qed.

Lemma kstep_config s a :
  ks_config (kstep s a) = match a with Configure cfg => cfg | _ => ks_config s end.
Proof.
  destruct a as [ctx i|k|cfg]; simpl; [|done..].
  destruct (prog_refines ctx i s) as (s' & Hs & ->). by rewrite emit_all_config, (si_config _ _ Hs).
Qed.

Lemma kstep_lost (nr : nat) s a :
  metrics_ok nr (ks_metrics s) -> on_cpus nr a ->
  wrap64 (lost_total (kstep s a)) = wrap64 (lost_total s + step_refused s a).
Proof.
  intros Hm Ha. destruct a as [ctx i|k|cfg]; simpl; [|by rewrite Z.add_0_r..].
  destruct (prog_refines ctx i s) as (s' & Hs & ->).
  rewrite (emit_all_lost ctx nr), (silent_lost _ _ Hs); [done| |done].
  unfold metrics_ok. by rewrite (si_shape _ _ Hs).
Qed.

Lemma krun_app s acts acts' : krun s (acts ++ acts') = krun (krun s acts) acts'.
Proof. apply fold_left_app. Qed.

Lemma krun_ring s acts : ks_ring (krun s acts) = ks_ring s ++ krun_records s acts.
Proof.
  revert s. induction acts as [|a acts IH]; intros s; simpl; [by rewrite app_nil_r|].
  by rewrite IH, kstep_ring, <- app_assoc.
Qed.

Lemma krun_shape s acts : map length (ks_metrics (krun s acts)) = map length (ks_metrics s).
Proof.
  revert s. induction acts as [|a acts IH]; intros s; [done|]. simpl. by rewrite IH, kstep_shape.
Qed.

Lemma krun_lost (nr : nat) s acts :
  metrics_ok nr (ks_metrics s) -> Forall (on_cpus nr) acts ->
  wrap64 (lost_total (krun s acts)) = wrap64 (lost_total s + krun_refused s acts).
Proof.
  intros Hm Ha. revert s Hm. induction Ha as [|a acts Ha _ IH]; intros s Hm; simpl; [by rewrite Z.add_0_r|].
  rewrite IH by (unfold metrics_ok; by rewrite kstep_shape).
  rewrite Z.add_assoc. apply wrap64_cong. by apply (kstep_lost nr).
Qed.

Lemma krun_refused_nonneg s acts : 0 <= krun_refused s acts.
Proof.
  revert s. induction acts as [|a acts IH]; intros s; simpl; [done|]. specialize (IH (kstep s a)).
  assert (0 <= step_refused s a); [|lia]. destruct a as [ctx i|k|cfg]; simpl; [|done..].
  unfold refused_of, zlen. lia.
Qed.

(** ** What the records are *)

Definition action_ok a : Prop :=
  match a with
  | Invoke ctx i => ctx_wf ctx /\ prog_input_ok i
  | Configure cfg => TapioConfig_wf cfg
  | Evict _ => True
  end.

(** Everything in the ring was judged by a configuration that enables the
    program and satisfies [P], as the installed ones do; the maps stay well
    formed. *)
Definition judged (P : TapioConfig -> Prop) (data : list Z) : Prop :=
  exists cfg, P cfg /\ observer_enabled cfg prog_flag = true /\ prog_record cfg data.

Record kinv (P : TapioConfig -> Prop) s : Prop := {
  ki_config : ks_config s = config_zero \/ (P (ks_config s) /\ TapioConfig_wf (ks_config s));
  ki_maps : prog_maps_ok (ks_maps s);
  ki_ring : Forall (judged P) (ks_ring s);
}.

Lemma kinv_zero (P : TapioConfig -> Prop) (nr : nat) : kinv P (kstate_zero nr prog_empty).
Proof. split; [by left|apply prog_empty_ok|constructor]. Qed.

Lemma records_of_In (ctx : bpf_ctx) (l : list attempt) (data : list Z) :
  In data (records_of ctx l) -> exists a : attempt, In a l /\ snd a = Some data.
Proof.
  unfold records_of. rewrite <- list_elem_of_In, list_elem_of_omap.
  intros (a & Ha%list_elem_of_In & E). exists a. split; [done|]. by destruct (ctx_reserve ctx (fst a)).
Qed.

Lemma step_records_ok (P : TapioConfig -> Prop) s a (data : list Z) :
  kinv P s -> action_ok a -> In data (step_records s a) -> judged P data.
Proof.
  intros [Hc Hm _] Ha Hin. destruct a as [ctx i|k|cfg]; simpl in Hin; [|done..].
  destruct Ha as [Hctx Hi]. apply records_of_In in Hin as (at' & Hat & Hd).
  destruct (enabled_config prog_flag s) as [cfg|] eqn:E; [|by rewrite prog_disabled in Hat].
  assert (cfg = ks_config s) as -> by (symmetry; by apply enabled_config_Some in E as [-> _]).
  destruct Hc as [Hz|[HP Hwf]]; [by rewrite enabled_config_zero in E|].
  exists (ks_config s). split; [done|]. split; [by apply enabled_config_Some in E as [_ ?]|]. by eapply prog_records_ok.
Qed.

Lemma kstep_inv (P : TapioConfig -> Prop) s a :
  kinv P s -> action_ok a -> (forall cfg, a = Configure cfg -> P cfg) -> kinv P (kstep s a).
Proof.
  intros Hinv Ha Hcfg. split.
  - rewrite kstep_config. destruct a as [ctx i|k|cfg]; [apply Hinv..|]. right. split; [by apply Hcfg|done].
  - destruct a as [ctx i|k|cfg]; simpl; [|apply prog_evict_ok, Hinv|apply Hinv].
    destruct Ha. apply prog_keeps_maps; [done..|apply Hinv].
  - rewrite kstep_ring. apply Forall_app. split; [apply Hinv|].
    apply List.Forall_forall. intros data. by apply step_records_ok.
Qed.

Lemma krun_inv (P : TapioConfig -> Prop) s acts :
  kinv P s -> Forall action_ok acts -> (forall cfg, In (Configure cfg) acts -> P cfg) -> kinv P (krun s acts).
Proof.
  intros Hinv Ha Hcfg. revert s Hinv. induction Ha as [|a acts Ha _ IH]; intros s Hinv; [done|].
  simpl. apply IH; [intros cfg Hin; apply Hcfg; by right|].
  apply kstep_inv; [done..|]. intros cfg ->. apply Hcfg. by left.
Qed.
End Trace.
