(* ===== verification/KernelNetwork.v ===== *)
(** [ebpf/network_monitor.c] with [headers/tcp.h] and [conn_tracking.h]: the
    round-trip baselines of the connections and the three tracepoints.  What a
    tracepoint passes, and what [bpf_core_read] returns, are arguments: None is
    a read that fails. *)
From Stdlib Require Import String.
From stdpp Require Import gmap.
From S2P Require Import Prelude RustStr CommonEbpf Occurrence NetworkObs Carriers Drain Kernel.
Local Open Scope Z_scope.

Definition IPPROTO_TCP : Z := 6.
Definition UINT8_MAX : Z := 255.

(** * Connections *)

Record conn_key := {
  ck_saddr : list Z;
  ck_daddr : list Z;
  ck_sport : Z;
  ck_dport : Z;
  ck_family : Z;
}.

#[export] Instance conn_key_eq_dec : EqDecision conn_key.
Proof. solve_decision. Defined.

#[export] Instance conn_key_countable : Countable conn_key.
Proof.
  apply (inj_countable'
    (fun k => (ck_saddr k, ck_daddr k, ck_sport k, ck_dport k, ck_family k))
    (fun '(s, d, sp, dp, f) =>
       {| ck_saddr := s; ck_daddr := d; ck_sport := sp; ck_dport := dp; ck_family := f |})).
  by intros [].
Defined.

(** An IPv4 address as IPv4-mapped IPv6. *)
Definition mapped_v4 (addr : list Z) : list Z := replicate 10 0 ++ [255; 255] ++ addr.

Definition fill_conn_key_v4 (saddr daddr : list Z) (sport dport : Z) : conn_key := {|
  ck_saddr := mapped_v4 saddr; ck_daddr := mapped_v4 daddr; ck_sport := sport; ck_dport := dport;
  ck_family := AF_INET |}.

Definition fill_conn_key_v6 (saddr daddr : list Z) (sport dport : Z) : conn_key := {|
  ck_saddr := saddr; ck_daddr := daddr; ck_sport := sport; ck_dport := dport; ck_family := AF_INET6 |}.

(** The fields the three tracepoints share. *)
Record sock_addr := {
  ad_sport : Z;
  ad_dport : Z;
  ad_family : Z;
  ad_saddr : list Z;
  ad_daddr : list Z;
  ad_saddr_v6 : list Z;
  ad_daddr_v6 : list Z;
}.

Definition addr_wf (a : sock_addr) : Prop :=
  width 2 (ad_sport a) /\ width 2 (ad_dport a) /\ width 2 (ad_family a) /\
  length (ad_saddr a) = 4%nat /\ length (ad_daddr a) = 4%nat /\
  Forall (width 1) (ad_saddr a) /\ Forall (width 1) (ad_daddr a) /\
  length (ad_saddr_v6 a) = 16%nat /\ length (ad_daddr_v6 a) = 16%nat.

(** None for a family the program does not track. *)
Definition conn_key_of (a : sock_addr) : option conn_key :=
  if ad_family a =? AF_INET then
    Some (fill_conn_key_v4 (ad_saddr a) (ad_daddr a) (ad_sport a) (ad_dport a))
  else if ad_family a =? AF_INET6 then
    Some (fill_conn_key_v6 (ad_saddr_v6 a) (ad_daddr_v6 a) (ad_sport a) (ad_dport a))
  else None.

(** What can be read of a [tcp_sock]; [snd_cwnd] has two names. *)
Record tcp_sock := {
  tk_srtt_us : option Z;
  tk_total_retrans : option Z;
  tk_has_snd_cwnd : bool;
  tk_snd_cwnd : option Z;
  tk_snd_cwnd_ : option Z;
}.

Definition read_snd_cwnd (sk : tcp_sock) : Z :=
  default 0 (if tk_has_snd_cwnd sk then tk_snd_cwnd sk else tk_snd_cwnd_ sk).

(** * Round-trip baselines *)

Inductive rtt_state := RTT_STATE_LEARNING | RTT_STATE_STABLE.

Record rtt_baseline := {
  bl_baseline_us : Z;
  bl_sample_count : Z;
  bl_state : rtt_state;
  bl_last_update_ns : Z;
  bl_last_activity_ns : Z;
}.

Definition STALE_THRESHOLD_NS : Z := 3600000000000.

Definition new_baseline (rtt_us now_ns : Z) : rtt_baseline := {|
  bl_baseline_us := rtt_us; bl_sample_count := 1; bl_state := RTT_STATE_LEARNING;
  bl_last_update_ns := now_ns; bl_last_activity_ns := now_ns |}.

(** One more sample of a baseline being learnt. *)
Definition learn_sample (cfg : TapioConfig) (rtt_us now_ns : Z) (b : rtt_baseline) : rtt_baseline :=
  let sample_count :=
    if bl_sample_count b <? UINT8_MAX then bl_sample_count b + 1 else bl_sample_count b in
  let baseline_us :=
    wrap32 (wrap32 (bl_baseline_us b * (sample_count - 1)) + rtt_us) / sample_count in
  let learning_samples :=
    if UINT8_MAX <? tc_rtt_min_baseline_samples cfg then UINT8_MAX
    else tc_rtt_min_baseline_samples cfg in
  let with_ baseline_us sample_count state := {|
    bl_baseline_us := baseline_us; bl_sample_count := sample_count; bl_state := state;
    bl_last_update_ns := bl_last_update_ns b; bl_last_activity_ns := now_ns |} in
  if (0 <? learning_samples) && (learning_samples <=? sample_count) then
    if 100000 <? baseline_us then with_ 0 0 RTT_STATE_LEARNING
    else with_ baseline_us sample_count RTT_STATE_STABLE
  else with_ baseline_us sample_count RTT_STATE_LEARNING.

(** A stable baseline moves only when it is an hour old. *)
Definition refresh_stable (rtt_us now_ns : Z) (b : rtt_baseline) : rtt_baseline :=
  let stale := STALE_THRESHOLD_NS <? wrap64 (now_ns - bl_last_update_ns b) in
  {| bl_baseline_us :=
       if stale then wrap32 (wrap32 (bl_baseline_us b * 9) + rtt_us) / 10 else bl_baseline_us b;
     bl_sample_count := bl_sample_count b;
     bl_state := RTT_STATE_STABLE;
     bl_last_update_ns := if stale then now_ns else bl_last_update_ns b;
     bl_last_activity_ns := now_ns |}.

(** Above [ratio] times the baseline, or above the absolute threshold; a zero is
    inert. *)
Definition is_spike (cfg : TapioConfig) (rtt_us baseline_us : Z) : bool :=
  let ratio := tc_rtt_spike_multiplier cfg in
  let abs_us := tc_rtt_spike_abs_us cfg in
  ((0 <? ratio) && (wrap32 (baseline_us * ratio) <? rtt_us))
  || ((0 <? abs_us) && (abs_us <? rtt_us)).

(** The baseline after a sample, and the one a spike is reported against. *)
Definition track_rtt (cfg : TapioConfig) (rtt_us now_ns : Z) (b : option rtt_baseline) :
  rtt_baseline * option Z :=
  match b with
  | None => (new_baseline rtt_us now_ns, None)
  | Some b =>
      match bl_state b with
      | RTT_STATE_LEARNING => (learn_sample cfg rtt_us now_ns b, None)
      | RTT_STATE_STABLE =>
          let b := refresh_stable rtt_us now_ns b in
          (b, if is_spike cfg rtt_us (bl_baseline_us b) then Some (bl_baseline_us b) else None)
      end
  end.

(** * Events *)

Definition clamp16 (z : Z) : Z := if 65535 <? z then 65535 else z.

(** The zeroed record with what every event carries. *)
Definition network_event_of (cfg : TapioConfig) (ctx : bpf_ctx) (a : sock_addr)
    (protocol event_type : Z) : NetworkEvent := {|
  ne_config_generation := tc_generation cfg;
  ne_pid := ctx_tgid ctx;
  ne_src_ip := if ad_family a =? AF_INET then le_combine (ad_saddr a) else 0;
  ne_dst_ip := if ad_family a =? AF_INET then le_combine (ad_daddr a) else 0;
  ne_src_ipv6 :=
    if ad_family a =? AF_INET6 then ad_saddr_v6 a else replicate 16 0;
  ne_dst_ipv6 :=
    if ad_family a =? AF_INET6 then ad_daddr_v6 a else replicate 16 0;
  ne_src_port := ad_sport a;
  ne_dst_port := ad_dport a;
  ne_family := ad_family a;
  ne_protocol := protocol;
  ne_event_type := event_type;
  ne_old_state := 0; ne_new_state := 0; ne_rtt_baseline_ms := 0; ne_rtt_current_ms := 0;
  ne_total_retrans := 0; ne_snd_cwnd := 0;
  ne_comm := ctx_comm ctx |}.

Definition with_states (old_state new_state : Z) (e : NetworkEvent) : NetworkEvent := {|
  ne_config_generation := ne_config_generation e; ne_pid := ne_pid e; ne_src_ip := ne_src_ip e;
  ne_dst_ip := ne_dst_ip e; ne_src_ipv6 := ne_src_ipv6 e; ne_dst_ipv6 := ne_dst_ipv6 e;
  ne_src_port := ne_src_port e; ne_dst_port := ne_dst_port e; ne_family := ne_family e;
  ne_protocol := ne_protocol e; ne_event_type := ne_event_type e;
  ne_old_state := old_state; ne_new_state := new_state;
  ne_rtt_baseline_ms := ne_rtt_baseline_ms e; ne_rtt_current_ms := ne_rtt_current_ms e;
  ne_total_retrans := ne_total_retrans e; ne_snd_cwnd := ne_snd_cwnd e; ne_comm := ne_comm e |}.

Definition with_rtt (baseline_ms current_ms : Z) (e : NetworkEvent) : NetworkEvent := {|
  ne_config_generation := ne_config_generation e; ne_pid := ne_pid e; ne_src_ip := ne_src_ip e;
  ne_dst_ip := ne_dst_ip e; ne_src_ipv6 := ne_src_ipv6 e; ne_dst_ipv6 := ne_dst_ipv6 e;
  ne_src_port := ne_src_port e; ne_dst_port := ne_dst_port e; ne_family := ne_family e;
  ne_protocol := ne_protocol e; ne_event_type := ne_event_type e;
  ne_old_state := ne_old_state e; ne_new_state := ne_new_state e;
  ne_rtt_baseline_ms := baseline_ms; ne_rtt_current_ms := current_ms;
  ne_total_retrans := ne_total_retrans e; ne_snd_cwnd := ne_snd_cwnd e; ne_comm := ne_comm e |}.

Definition with_retrans (total_retrans snd_cwnd : Z) (e : NetworkEvent) : NetworkEvent := {|
  ne_config_generation := ne_config_generation e; ne_pid := ne_pid e; ne_src_ip := ne_src_ip e;
  ne_dst_ip := ne_dst_ip e; ne_src_ipv6 := ne_src_ipv6 e; ne_dst_ipv6 := ne_dst_ipv6 e;
  ne_src_port := ne_src_port e; ne_dst_port := ne_dst_port e; ne_family := ne_family e;
  ne_protocol := ne_protocol e; ne_event_type := ne_event_type e;
  ne_old_state := ne_old_state e; ne_new_state := ne_new_state e;
  ne_rtt_baseline_ms := ne_rtt_baseline_ms e; ne_rtt_current_ms := ne_rtt_current_ms e;
  ne_total_retrans := total_retrans; ne_snd_cwnd := snd_cwnd; ne_comm := ne_comm e |}.

Notation baselines := (gmap conn_key rtt_baseline).

(** * trace_inet_sock_set_state *)

Record inet_sock_set_state_args := {
  iss_sk : tcp_sock;
  iss_oldstate : Z;
  iss_newstate : Z;
  iss_protocol : Z;
  iss_addr : sock_addr;
}.

(** The part before [skip_rtt_tracking].  A new baseline needs room in the map. *)
Definition rtt_tracking (cfg : TapioConfig) (ctx : bpf_ctx) (args : inet_sock_set_state_args)
    (s : kstate baselines) : kstate baselines :=
  match tk_srtt_us (iss_sk args), conn_key_of (iss_addr args) with
  | Some srtt_us, Some key =>
      let rtt_us := Z.shiftr srtt_us 3 in
      if (iss_newstate args =? TCP_ESTABLISHED) && (0 <? rtt_us) then
        let known := ks_maps s !! key in
        let '(b, spike) := track_rtt cfg rtt_us (ctx_ktime_ns ctx) known in
        let s :=
          if bool_decide (known = None) && negb (ctx_map_room ctx) then s
          else with_maps (<[key := b]> (ks_maps s)) s in
        match spike with
        | Some baseline_us =>
            ringbuf_emit ctx 0
              (Some (write_network_event
                 (with_rtt (clamp16 (baseline_us / 1000)) (clamp16 (rtt_us / 1000))
                    (network_event_of cfg ctx (iss_addr args) (wrap8 (iss_protocol args))
                       NET_EVENT_RTT_SPIKE)))) s
        | None => s
        end
      else s
  | _, _ => s
  end.

Definition important_transition (oldstate newstate : Z) : bool :=
  negb (oldstate =? newstate) &&
  ((newstate =? TCP_CLOSE) || (oldstate =? TCP_SYN_SENT) || (oldstate =? TCP_SYN_RECV)
   || (newstate =? TCP_LISTEN)).

Definition state_change_event (cfg : TapioConfig) (ctx : bpf_ctx) (args : inet_sock_set_state_args) :
  NetworkEvent :=
  with_states (wrap16 (iss_oldstate args)) (wrap16 (iss_newstate args))
    (network_event_of cfg ctx (iss_addr args) (wrap8 (iss_protocol args)) NET_EVENT_STATE_CHANGE).

Definition trace_inet_sock_set_state (ctx : bpf_ctx) (args : inet_sock_set_state_args)
    (s : kstate baselines) : kstate baselines :=
  match enabled_config TAPIO_F_NETWORK s with
  | None => s
  | Some cfg =>
      if negb (iss_protocol args =? IPPROTO_TCP) then s
      else
        let s := rtt_tracking cfg ctx args s in
        if important_transition (iss_oldstate args) (iss_newstate args) then
          ringbuf_emit ctx 1 (Some (write_network_event (state_change_event cfg ctx args))) s
        else s
  end.

(** * trace_tcp_receive_reset *)

Definition trace_tcp_receive_reset (ctx : bpf_ctx) (args : sock_addr) (s : kstate baselines) :
  kstate baselines :=
  match enabled_config TAPIO_F_NETWORK s with
  | None => s
  | Some cfg =>
      ringbuf_emit ctx 0
        (Some (write_network_event (network_event_of cfg ctx args IPPROTO_TCP NET_EVENT_RST_RECEIVED))) s
  end.

(** * trace_tcp_retransmit_skb *)

(** None is a null socket. *)
Record tcp_retransmit_skb_args := {
  rt_sk : option tcp_sock;
  rt_addr : sock_addr;
}.

(** The total and the window; None when the total cannot be read, which
    discards the record. *)
Definition retrans_fields (sk : option tcp_sock) : option (Z * Z) :=
  match sk with
  | None => Some (0, 0)
  | Some sk =>
      match tk_total_retrans sk with
      | None => None
      | Some total_retrans => Some (total_retrans, read_snd_cwnd sk)
      end
  end.

Definition trace_tcp_retransmit_skb (ctx : bpf_ctx) (args : tcp_retransmit_skb_args)
    (s : kstate baselines) : kstate baselines :=
  match enabled_config TAPIO_F_NETWORK s with
  | None => s
  | Some cfg =>
      let fill :=
        '(total_retrans, snd_cwnd) ← retrans_fields (rt_sk args);
        Some (write_network_event
          (with_retrans (clamp16 total_retrans) (clamp16 snd_cwnd)
             (network_event_of cfg ctx (rt_addr args) IPPROTO_TCP NET_EVENT_RETRANSMIT))) in
      ringbuf_emit ctx 0 fill s
  end.

(** * Any of the three *)

Inductive network_hook :=
| HookSetState (args : inet_sock_set_state_args)
| HookReceiveReset (args : sock_addr)
| HookRetransmit (args : tcp_retransmit_skb_args).

Definition network_program (ctx : bpf_ctx) (h : network_hook) : kstate baselines -> kstate baselines :=
  match h with
  | HookSetState args => trace_inet_sock_set_state ctx args
  | HookReceiveReset args => trace_tcp_receive_reset ctx args
  | HookRetransmit args => trace_tcp_retransmit_skb ctx args
  end.

(** * The contract *)

#[export] Instance network_kernel : Program baselines network_hook conn_key := {
  prog_flag := TAPIO_F_NETWORK;
  prog_run := network_program;
  prog_empty := ∅;
  prog_evict k m := delete k m;
}.

Definition hook_wf (h : network_hook) : Prop :=
  match h with
  | HookSetState args =>
      addr_wf (iss_addr args) /\
      match tk_srtt_us (iss_sk args) with Some srtt_us => width 4 srtt_us | None => True end
  | HookReceiveReset args => addr_wf args
  | HookRetransmit args =>
      addr_wf (rt_addr args) /\
      match retrans_fields (rt_sk args) with Some (t, w) => width 4 t /\ width 4 w | None => True end
  end.

Definition baseline_wf (b : rtt_baseline) : Prop :=
  width 4 (bl_baseline_us b) /\ width 1 (bl_sample_count b) /\ width 8 (bl_last_update_ns b) /\
  width 8 (bl_last_activity_ns b).

(** The sample a state change brings, for the connection it belongs to. *)
Definition rtt_sample (args : inet_sock_set_state_args) : option (conn_key * Z) :=
  srtt_us ← tk_srtt_us (iss_sk args);
  key ← conn_key_of (iss_addr args);
  let rtt_us := Z.shiftr srtt_us 3 in
  if (iss_newstate args =? TCP_ESTABLISHED) && (0 <? rtt_us) then Some (key, rtt_us) else None.

Definition spike_event (cfg : TapioConfig) (ctx : bpf_ctx) (args : inet_sock_set_state_args)
    (baseline_us rtt_us : Z) : NetworkEvent :=
  with_rtt (clamp16 (baseline_us / 1000)) (clamp16 (rtt_us / 1000))
    (network_event_of cfg ctx (iss_addr args) (wrap8 (iss_protocol args)) NET_EVENT_RTT_SPIKE).

(** What a sample does to the baselines, and the spike it is, if one. *)
Definition tracked (cfg : TapioConfig) (ctx : bpf_ctx) (key : conn_key) (rtt_us : Z) (m : baselines) : baselines :=
  if bool_decide (m !! key = None) && negb (ctx_map_room ctx) then m
  else <[key := fst (track_rtt cfg rtt_us (ctx_ktime_ns ctx) (m !! key))]> m.

Definition rtt_attempts (cfg : TapioConfig) (ctx : bpf_ctx) (args : inet_sock_set_state_args) (m : baselines) :
  list attempt :=
  match rtt_sample args with
  | Some (key, rtt_us) =>
      match snd (track_rtt cfg rtt_us (ctx_ktime_ns ctx) (m !! key)) with
      | Some baseline_us => [(0%nat, Some (write_network_event (spike_event cfg ctx args baseline_us rtt_us)))]
      | None => []
      end
  | None => []
  end.

Definition network_attempts (ctx : bpf_ctx) (h : network_hook) (s : kstate baselines) : list attempt :=
  match enabled_config TAPIO_F_NETWORK s with
  | None => []
  | Some cfg =>
      match h with
      | HookSetState args =>
          if negb (iss_protocol args =? IPPROTO_TCP) then []
          else
            rtt_attempts cfg ctx args (ks_maps s) ++
            (if important_transition (iss_oldstate args) (iss_newstate args)
             then [(1%nat, Some (write_network_event (state_change_event cfg ctx args)))] else [])
      | HookReceiveReset args =>
          [(0%nat, Some (write_network_event (network_event_of cfg ctx args IPPROTO_TCP NET_EVENT_RST_RECEIVED)))]
      | HookRetransmit args =>
          [(0%nat, '(total_retrans, snd_cwnd) ← retrans_fields (rt_sk args);
                   Some (write_network_event
                     (with_retrans (clamp16 total_retrans) (clamp16 snd_cwnd)
                        (network_event_of cfg ctx (rt_addr args) IPPROTO_TCP NET_EVENT_RETRANSMIT))))]
      end
  end.

(** The baselines after a hook. *)
Definition network_maps (ctx : bpf_ctx) (h : network_hook) (s : kstate baselines) : baselines :=
  match enabled_config TAPIO_F_NETWORK s, h with
  | Some cfg, HookSetState args =>
      if negb (iss_protocol args =? IPPROTO_TCP) then ks_maps s
      else match rtt_sample args with
           | Some (key, rtt_us) => tracked cfg ctx key rtt_us (ks_maps s)
           | None => ks_maps s
           end
  | _, _ => ks_maps s
  end.

Lemma rtt_tracking_refines (cfg : TapioConfig) (ctx : bpf_ctx) (args : inet_sock_set_state_args)
    (s : kstate baselines) :
  rtt_tracking cfg ctx args s =
  emit_all ctx (rtt_attempts cfg ctx args (ks_maps s))
    (with_maps (match rtt_sample args with
                | Some (key, rtt_us) => tracked cfg ctx key rtt_us (ks_maps s)
                | None => ks_maps s
                end) s).
Proof.
  unfold rtt_tracking, rtt_attempts, rtt_sample. destruct s as [c m ring maps].
  destruct (tk_srtt_us (iss_sk args)) as [srtt|]; [|done].
  destruct (conn_key_of (iss_addr args)) as [key|]; [|done]. cbn.
  destruct ((iss_newstate args =? TCP_ESTABLISHED) && (0 <? Z.shiftr srtt 3)); [|done].
  unfold tracked. destruct (track_rtt cfg _ _ (maps !! key)) as [b spike]. simpl.
  destruct (bool_decide (maps !! key = None) && negb (ctx_map_room ctx)); by destruct spike.
Qed.

Lemma network_program_refines (ctx : bpf_ctx) (h : network_hook) (s : kstate baselines) :
  network_program ctx h s = emit_all ctx (network_attempts ctx h s) (with_maps (network_maps ctx h s) s).
Proof.
  assert (Hid : with_maps (ks_maps s) s = s) by (by destruct s).
  unfold network_attempts, network_maps.
  destruct h as [args|args|args]; simpl;
    [unfold trace_inet_sock_set_state|unfold trace_tcp_receive_reset|unfold trace_tcp_retransmit_skb];
    destruct (enabled_config TAPIO_F_NETWORK s) as [cfg|]; rewrite ?Hid; try done.
  destruct (negb (iss_protocol args =? IPPROTO_TCP)); [by rewrite Hid|].
  rewrite rtt_tracking_refines. unfold emit_all. rewrite fold_left_app.
  by destruct (important_transition _ _).
Qed.

Lemma le_combine_width (b : list Z) : Forall (width 1) b -> width (length b) (le_combine b).
Proof.
  unfold width. induction 1 as [|x b Hx _ IH]; cbn [length le_combine]; [done|].
  rewrite Nat2Z.inj_succ, Z.pow_succ_r by lia. change (256 ^ Z.of_nat 1) with 256 in Hx. lia.
Qed.

Lemma clamp16_width (z : Z) : 0 <= z -> width 2 (clamp16 z).
Proof.
  unfold clamp16, width. change (256 ^ Z.of_nat 2) with 65536. intros H. destruct (Z.ltb_spec 65535 z); lia.
Qed.

Lemma network_event_of_wf (cfg : TapioConfig) (ctx : bpf_ctx) (a : sock_addr) (protocol event_type : Z) :
  ctx_wf ctx -> TapioConfig_wf cfg -> addr_wf a -> width 1 protocol -> width 1 event_type ->
  NetworkEvent_wf (network_event_of cfg ctx a protocol event_type).
Proof.
  intros (_ & _ & _ & Hcomm & _) (_ & Hg & _) (Hsp & Hdp & Hf & Ls & Ld & Fs & Fd & Ls6 & Ld6) Hp Ht.
  assert (Hs : width 4 (le_combine (ad_saddr a))) by (rewrite <- Ls; by apply le_combine_width).
  assert (Hd : width 4 (le_combine (ad_daddr a))) by (rewrite <- Ld; by apply le_combine_width).
  unfold NetworkEvent_wf. simpl. destruct (ad_family a =? AF_INET), (ad_family a =? AF_INET6);
    (split_and!; auto with tapio; vm_compute; split; congruence).
Qed.

Lemma network_hook_event_wf (cfg : TapioConfig) (ctx : bpf_ctx) (h : network_hook) (s : kstate baselines)
    (at' : attempt) (data : list Z) :
  ctx_wf ctx -> hook_wf h -> map_Forall (fun _ => baseline_wf) (ks_maps s) -> TapioConfig_wf cfg ->
  enabled_config TAPIO_F_NETWORK s = Some cfg -> In at' (network_attempts ctx h s) -> snd at' = Some data ->
  exists e, NetworkEvent_wf e /\ ne_config_generation e = tc_generation cfg /\ data = write_network_event e.
Proof.
  intros Hctx Hh Hm Hcfg E Ha Hd. unfold network_attempts in Ha. rewrite E in Ha.
  destruct h as [args|args|args]; simpl in Hh.
  - destruct (negb _); [done|]. apply in_app_or in Ha. destruct Hh as [Haddr Hsrtt].
    assert (Hbase : forall et, width 1 et ->
      NetworkEvent_wf (network_event_of cfg ctx (iss_addr args) (wrap8 (iss_protocol args)) et)).
    { intros et Het. apply network_event_of_wf; auto with tapio. }
    destruct Ha as [Ha|Ha].
    + unfold rtt_attempts, rtt_sample in Ha.
      destruct (tk_srtt_us (iss_sk args)) as [srtt|]; [|done]. destruct (conn_key_of _) as [key|]; [|done].
      simpl in Ha. destruct (_ && (0 <? Z.shiftr srtt 3)) eqn:Er; [|done].
      destruct (track_rtt cfg (Z.shiftr srtt 3) (ctx_ktime_ns ctx) (ks_maps s !! key)) as [b spike] eqn:Et.
      destruct spike as [baseline|]; [|done]. simpl in Ha. destruct Ha as [<-|[]]. injection Hd as <-.
      exists (spike_event cfg ctx args baseline (Z.shiftr srtt 3)). split; [|done].
      assert (Hb : 0 <= baseline).
      { unfold track_rtt in Et. destruct (ks_maps s !! key) as [b0|] eqn:Eb; [|done].
        destruct (Hm _ _ Eb) as [Hb0 _]. destruct (bl_state b0); [done|].
        destruct (is_spike _ _ _); [|done]. injection Et as <- <-. simpl.
        destruct (STALE_THRESHOLD_NS <? _); [|apply Hb0]. apply Z.div_pos; [apply wrap32_width|lia]. }
      apply andb_true_iff in Er as [_ Er]. destruct (Hbase NET_EVENT_RTT_SPIKE) as (?&?&?&?&?&?&?&?&?&?&?&?&?&?&?&?&?&?);
        [vm_compute; split; congruence|].
      unfold NetworkEvent_wf. simpl. split_and!; try done; apply clamp16_width, Z.div_pos; lia.
    + destruct (important_transition _ _); [|done]. destruct Ha as [<-|[]]. injection Hd as <-.
      exists (state_change_event cfg ctx args). split; [|done].
      destruct (Hbase NET_EVENT_STATE_CHANGE) as (?&?&?&?&?&?&?&?&?&?&?&?&?&?&?&?&?&?); [vm_compute; split; congruence|].
      unfold NetworkEvent_wf. simpl. split_and!; try done; apply wrap16_width.
  - destruct Ha as [<-|[]]. injection Hd as <-.
    exists (network_event_of cfg ctx args IPPROTO_TCP NET_EVENT_RST_RECEIVED). split; [|done].
    apply network_event_of_wf; try done; vm_compute; split; congruence.
  - destruct Ha as [<-|[]]. simpl in Hd. destruct Hh as [Haddr Hf].
    destruct (retrans_fields (rt_sk args)) as [[t w]|]; [|done]. injection Hd as <-. destruct Hf as [Ht Hw].
    exists (with_retrans (clamp16 t) (clamp16 w)
               (network_event_of cfg ctx (rt_addr args) IPPROTO_TCP NET_EVENT_RETRANSMIT)). split; [|done].
    assert (Hb : NetworkEvent_wf (network_event_of cfg ctx (rt_addr args) IPPROTO_TCP NET_EVENT_RETRANSMIT)).
    { apply network_event_of_wf; try done; vm_compute; split; congruence. }
    destruct Hb as (?&?&?&?&?&?&?&?&?&?&?&?&?&?&?&?&?&?).
    unfold NetworkEvent_wf. simpl. split_and!; try done; apply clamp16_width; [apply Ht|apply Hw].
Qed.

(** ** The baselines stay well formed *)

Lemma wrap32_div_width (z d : Z) : 0 < d -> width 4 (wrap32 z / d).
Proof.
  intros Hd. pose proof (wrap32_width z) as [H0 H1]. unfold width in *.
  split; [apply Z.div_pos; lia|]. pose proof (Z.div_le_upper_bound (wrap32 z) d (wrap32 z)). nia.
Qed.

Lemma learn_sample_wf (cfg : TapioConfig) (rtt_us now_ns : Z) (b : rtt_baseline) :
  baseline_wf b -> width 8 now_ns -> baseline_wf (learn_sample cfg rtt_us now_ns b).
Proof.
  intros (Hb & Hc & Hu & Ha) Hn. unfold learn_sample.
  set (n := if bl_sample_count b <? UINT8_MAX then _ else _).
  assert (Hn' : 0 < n <= 255).
  { unfold n, width, UINT8_MAX in *. change (256 ^ Z.of_nat 1) with 256 in Hc.
    destruct (Z.ltb_spec (bl_sample_count b) 255); lia. }
  assert (Hw : width 1 n) by (unfold width; change (256 ^ Z.of_nat 1) with 256; lia).
  assert (Hd : width 4 (wrap32 (wrap32 (bl_baseline_us b * (n - 1)) + rtt_us) / n)) by (apply wrap32_div_width; lia).
  assert (Z4 : width 4 0) by (vm_compute; split; congruence).
  assert (Z1 : width 1 0) by (vm_compute; split; congruence).
  destruct (_ && _); [destruct (100000 <? _)|]; done.
Qed.

Lemma track_rtt_wf (cfg : TapioConfig) (rtt_us now_ns : Z) (b : option rtt_baseline) :
  width 4 rtt_us -> width 8 now_ns -> match b with Some b => baseline_wf b | None => True end ->
  baseline_wf (fst (track_rtt cfg rtt_us now_ns b)).
Proof.
  intros Hr Hn Hb. destruct b as [b|]; simpl.
  - destruct (bl_state b); simpl; [by apply learn_sample_wf|].
    destruct Hb as (Hb & Hc & Hu & Ha). unfold baseline_wf, refresh_stable.
    destruct (STALE_THRESHOLD_NS <? _); simpl; auto using wrap32_div_width with lia.
  - unfold baseline_wf. simpl. split_and!; done.
Qed.

Lemma rtt_sample_range (args : inet_sock_set_state_args) (key : conn_key) (rtt_us : Z) :
  hook_wf (HookSetState args) -> rtt_sample args = Some (key, rtt_us) -> 0 < rtt_us < 2 ^ 29.
Proof.
  intros [_ Hs]. unfold rtt_sample. destruct (tk_srtt_us (iss_sk args)) as [srtt|]; [|done].
  destruct (conn_key_of _); [|done]. simpl. destruct (_ =? _); [|done]. simpl.
  destruct (Z.ltb_spec 0 (Z.shiftr srtt 3)); [|done]. intros [= <- <-]. split; [done|].
  rewrite Z.shiftr_div_pow2 by lia. unfold width in Hs. change (256 ^ Z.of_nat 4) with (2 ^ 29 * 8) in Hs.
  apply Z.div_lt_upper_bound; lia.
Qed.

Lemma network_maps_wf (ctx : bpf_ctx) (h : network_hook) (s : kstate baselines) :
  ctx_wf ctx -> hook_wf h -> map_Forall (fun _ => baseline_wf) (ks_maps s) ->
  map_Forall (fun _ => baseline_wf) (network_maps ctx h s).
Proof.
  intros (Ht & _) Hh Hm. unfold network_maps. destruct (enabled_config _ s) as [cfg|]; [|done].
  destruct h as [args|args|args]; [|done..]. destruct (negb _); [done|].
  destruct (rtt_sample args) as [[key rtt]|] eqn:Er; [|done]. unfold tracked.
  destruct (_ && _); [done|]. apply map_Forall_insert_2; [|done].
  pose proof (rtt_sample_range args key rtt Hh Er) as Hr. apply track_rtt_wf; [|done|].
  - unfold width. change (256 ^ Z.of_nat 4) with (2 ^ 32). lia.
  - destruct (ks_maps s !! key) eqn:Eb; [|done]. exact (Hm _ _ Eb).
Qed.

#[export, program] Instance network_contract : Contract baselines network_hook conn_key := {
  prog_attempts := network_attempts;
  prog_input_ok := hook_wf;
  prog_maps_ok := map_Forall (fun _ => baseline_wf);
  prog_record cfg data :=
    exists e, NetworkEvent_wf e /\ ne_config_generation e = tc_generation cfg /\ data = write_network_event e;
}.
Next Obligation.
  intros ctx h s. eexists. split; [apply silent_with_maps|]. apply network_program_refines.
Qed.
Next Obligation. intros ctx h s E. unfold network_attempts. simpl in E. by rewrite E. Qed.
Next Obligation. apply map_Forall_empty. Qed.
Next Obligation. intros k m Hm. by apply map_Forall_delete. Qed.
Next Obligation.
  intros ctx h s Hctx Hh Hm. simpl. rewrite network_program_refines, emit_all_maps. by apply network_maps_wf.
Qed.
Next Obligation.
  intros ctx h s cfg a Hctx Hh Hm E Hcfg Ha data Hd. by eapply network_hook_event_wf.
Qed.

(** * Round-trip baselines *)

Definition zsum (l : list Z) : Z := fold_right Z.add 0 l.

Lemma zsum_snoc (l : list Z) (x : Z) : zsum (l ++ [x]) = zsum l + x.
Proof. unfold zsum. induction l as [|y l IH]; simpl in *; lia. Qed.

(** [m] is the mean of the samples, but for the rounding of every step. *)
Record mean_of (l : list Z) (m : Z) : Prop := {
  mean_high : zlen l * m <= zsum l;
  mean_low : 2 * zsum l - zlen l * (zlen l - 1) <= 2 * (zlen l * m);
  mean_between lo hi : Forall (fun x => lo <= x <= hi) l -> lo <= m <= hi;
}.

Lemma mean_one (x : Z) : mean_of [x] x.
Proof. split; unfold zlen; simpl; try lia. intros lo hi [H _]%Forall_cons. exact H. Qed.

Lemma mean_step (l : list Z) (m x : Z) :
  mean_of l m -> mean_of (l ++ [x]) ((m * zlen l + x) / (zlen l + 1)).
Proof.
  intros [Hh Hl Hb]. pose proof (zlen_nonneg l) as Hn.
  assert (En : zlen (l ++ [x]) = zlen l + 1) by (rewrite zlen_app; done).
  pose proof (Z.div_mod (m * zlen l + x) (zlen l + 1)) as Hd.
  pose proof (Z.mod_pos_bound (m * zlen l + x) (zlen l + 1)) as Hm.
  set (q := (m * zlen l + x) / (zlen l + 1)) in *.
  split; rewrite ?En, ?zsum_snoc; try nia.
  intros lo hi [Hf [Hx _]%Forall_cons]%Forall_app. specialize (Hb lo hi Hf). nia.
Qed.

(** The baseline after samples with their times, oldest first. *)
Definition learn_all (cfg : TapioConfig) (samples : list (Z * Z)) : option rtt_baseline :=
  fold_left (fun b '(rtt_us, now_ns) => Some (fst (track_rtt cfg rtt_us now_ns b))) samples None.

Definition sample_ok (sample : Z * Z) : Prop := 0 < fst sample < 2 ^ 24.

Lemma learn_all_snoc (cfg : TapioConfig) (samples : list (Z * Z)) (rtt_us now_ns : Z) :
  learn_all cfg (samples ++ [(rtt_us, now_ns)]) = Some (fst (track_rtt cfg rtt_us now_ns (learn_all cfg samples))).
Proof. unfold learn_all. by rewrite fold_left_app. Qed.

(** One sample more of a baseline that learns, without wrapping. *)
Lemma learn_sample_step (cfg : TapioConfig) (l : list Z) (rtt_us now_ns : Z) (b : rtt_baseline) :
  Forall (fun x => 0 < x < 2 ^ 24) l -> mean_of l (bl_baseline_us b) -> bl_sample_count b = zlen l -> zlen l < 255 ->
  l <> [] -> 0 < rtt_us < 2 ^ 24 ->
  let m := (bl_baseline_us b * zlen l + rtt_us) / (zlen l + 1) in
  let k := Z.min (tc_rtt_min_baseline_samples cfg) 255 in
  learn_sample cfg rtt_us now_ns b =
  let done_ := (0 <? k) && (k <=? zlen l + 1) in
  {| bl_baseline_us := if done_ && (100000 <? m) then 0 else m;
     bl_sample_count := if done_ && (100000 <? m) then 0 else zlen l + 1;
     bl_state := if done_ && negb (100000 <? m) then RTT_STATE_STABLE else RTT_STATE_LEARNING;
     bl_last_update_ns := bl_last_update_ns b; bl_last_activity_ns := now_ns |}.
Proof.
  intros Hl Hm Hc Hn Hne Hr. cbv zeta. unfold learn_sample. rewrite Hc.
  pose proof (zlen_nonneg l) as H0. unfold UINT8_MAX.
  rewrite (proj2 (Z.ltb_lt (zlen l) 255)) by done. rewrite Z.add_simpl_r.
  assert (Hb : 0 <= bl_baseline_us b <= 2 ^ 24).
  { apply (mean_between _ _ Hm). eapply Forall_impl; [exact Hl|]. simpl. lia. }
  assert (H254 : bl_baseline_us b * zlen l <= 2 ^ 24 * 254) by nia.
  rewrite (wrap32_small (bl_baseline_us b * zlen l)) by (unfold is_u32, U32_MAX; nia).
  rewrite wrap32_small by (unfold is_u32, U32_MAX; nia).
  assert (Hk : (if 255 <? tc_rtt_min_baseline_samples cfg then 255 else tc_rtt_min_baseline_samples cfg)
    = Z.min (tc_rtt_min_baseline_samples cfg) 255)
    by (destruct (Z.ltb_spec 255 (tc_rtt_min_baseline_samples cfg)); lia).
  rewrite Hk. destruct (_ && _); [|done]. by destruct (100000 <? _).
Qed.

(** Before the last sample it needs, a baseline learns. *)
Lemma learning_mean (cfg : TapioConfig) (samples : list (Z * Z)) :
  Forall sample_ok samples -> samples <> [] -> tc_rtt_min_baseline_samples cfg <= 255 ->
  zlen samples = 1 \/ zlen samples < tc_rtt_min_baseline_samples cfg ->
  exists b, learn_all cfg samples = Some b /\ mean_of (map fst samples) (bl_baseline_us b) /\
    bl_sample_count b = zlen samples /\ bl_state b = RTT_STATE_LEARNING /\
    Some (bl_last_update_ns b) = head (map snd samples).
Proof.
  intros Hok Hne H255. induction samples as [|[rtt now] samples IH] using rev_ind; [done|]. intros Hlen.
  apply Forall_app in Hok as [Hok [Hr _]%Forall_cons]. rewrite learn_all_snoc.
  destruct (decide (samples = [])) as [->|Hne'].
  { exists (new_baseline rtt now). split; [done|]. split; [apply mean_one|]. done. }
  assert (H1 : 1 <= zlen samples) by (destruct samples; [done|rewrite zlen_cons; pose proof (zlen_nonneg samples); lia]).
  rewrite zlen_app in Hlen. change (zlen [(rtt, now)]) with 1 in Hlen.
  destruct IH as (b & -> & Hm & Hc & Hst & Hup); [done|done|lia|].
  cbn [track_rtt]. rewrite Hst. cbn [fst].
  assert (Hl : zlen (map fst samples) = zlen samples) by (unfold zlen; by rewrite length_map).
  rewrite (learn_sample_step cfg (map fst samples)); rewrite ?Hl; try done; try lia.
  - rewrite (proj2 (Z.leb_gt (Z.min _ 255) (zlen samples + 1))) by lia. rewrite andb_false_r. simpl.
    eexists. split; [done|]. simpl. rewrite map_app, zlen_app. split_and!; try done.
    + rewrite <- Hl. by apply mean_step.
    + rewrite Hup, map_app. by destruct samples.
  - by apply Forall_fmap.
  - by destruct samples.
Qed.

(** With the last one it is the mean of all of them, or, above 100 ms, starts
    again. *)
Lemma learnt_mean (cfg : TapioConfig) (samples : list (Z * Z)) :
  Forall sample_ok samples -> 2 <= tc_rtt_min_baseline_samples cfg <= 255 ->
  zlen samples = tc_rtt_min_baseline_samples cfg ->
  exists b m, learn_all cfg samples = Some b /\ mean_of (map fst samples) m /\
    Some (bl_last_update_ns b) = head (map snd samples) /\
    if 100000 <? m then b.(bl_state) = RTT_STATE_LEARNING /\ bl_sample_count b = 0 /\ bl_baseline_us b = 0
    else b.(bl_state) = RTT_STATE_STABLE /\ bl_baseline_us b = m.
Proof.
  intros Hok Hk Hlen. destruct samples as [|[rtt now] samples _] using rev_ind; [rewrite zlen_nil in Hlen; lia|].
  apply Forall_app in Hok as [Hok [Hr _]%Forall_cons]. rewrite zlen_app in Hlen. change (zlen [(rtt, now)]) with 1 in Hlen.
  assert (Hne : samples <> []) by (intros ->; rewrite zlen_nil in Hlen; lia).
  destruct (learning_mean cfg samples) as (b & Eb & Hm & Hc & Hst & Hup); [done|done|lia|lia|].
  rewrite learn_all_snoc, Eb. cbn [track_rtt]. rewrite Hst. cbn [fst].
  assert (Hl : zlen (map fst samples) = zlen samples) by (unfold zlen; by rewrite length_map).
  rewrite (learn_sample_step cfg (map fst samples)); rewrite ?Hl; try done; try lia.
  - rewrite (proj2 (Z.ltb_lt 0 _)), (proj2 (Z.leb_le (Z.min _ 255) (zlen samples + 1))) by lia. simpl.
    eexists _, _. split; [done|]. rewrite <- Hl at 1. rewrite map_app.
    split; [exact (mean_step _ _ rtt Hm)|]. simpl. split; [rewrite Hup, map_app; by destruct samples|].
    rewrite Hl. by destruct (100000 <? _).
  - by apply Forall_fmap.
  - by destruct samples.
Qed.

Lemma is_spike_exact (cfg : TapioConfig) (rtt_us baseline_us : Z) :
  0 <= baseline_us <= 100000 -> 0 <= tc_rtt_spike_multiplier cfg <= 42949 ->
  is_spike cfg rtt_us baseline_us = true <->
  (0 < tc_rtt_spike_multiplier cfg /\ tc_rtt_spike_multiplier cfg * baseline_us < rtt_us) \/
  (0 < tc_rtt_spike_abs_us cfg /\ tc_rtt_spike_abs_us cfg < rtt_us).
Proof.
  intros Hb Hk. unfold is_spike. rewrite wrap32_small by (unfold is_u32, U32_MAX; nia).
  rewrite orb_true_iff, !andb_true_iff, !Z.ltb_lt, (Z.mul_comm baseline_us). done.
Qed.

(** A stable baseline less than an hour old stays, and a sample is a spike
    against it. *)
Lemma track_fresh (cfg : TapioConfig) (rtt_us now_ns : Z) (b : rtt_baseline) :
  bl_state b = RTT_STATE_STABLE -> 0 <= now_ns - bl_last_update_ns b <= STALE_THRESHOLD_NS ->
  snd (track_rtt cfg rtt_us now_ns (Some b)) =
  if is_spike cfg rtt_us (bl_baseline_us b) then Some (bl_baseline_us b) else None.
Proof.
  intros Hst Ht. unfold track_rtt. rewrite Hst. unfold refresh_stable. simpl.
  rewrite wrap64_small by (unfold is_u64, U64_MAX, STALE_THRESHOLD_NS in *; lia).
  by rewrite (proj2 (Z.ltb_ge STALE_THRESHOLD_NS _)) by lia.
Qed.

(** What makes a sample a spike against a mean; a threshold of zero is inert. *)
Definition spike_against (cfg : TapioConfig) (mean_us rtt_us : Z) : Prop :=
  (0 < tc_rtt_spike_multiplier cfg /\ tc_rtt_spike_multiplier cfg * mean_us < rtt_us) \/
  (0 < tc_rtt_spike_abs_us cfg /\ tc_rtt_spike_abs_us cfg < rtt_us).

Lemma set_state_ring (ctx : bpf_ctx) (args : inet_sock_set_state_args) (s : kstate baselines) (cfg : TapioConfig) :
  enabled_config TAPIO_F_NETWORK s = Some cfg -> iss_protocol args = IPPROTO_TCP ->
  ctx_reserve ctx 0 = true -> ctx_reserve ctx 1 = true ->
  ks_ring (trace_inet_sock_set_state ctx args s) =
  ks_ring s ++ omap snd (rtt_attempts cfg ctx args (ks_maps s)) ++
  (if important_transition (iss_oldstate args) (iss_newstate args)
   then [write_network_event (state_change_event cfg ctx args)] else []).
Proof.
  intros Hcfg Hp H0 H1. change (trace_inet_sock_set_state ctx args s) with (network_program ctx (HookSetState args) s).
  rewrite network_program_refines, emit_all_ring. simpl. f_equal. unfold network_attempts. rewrite Hcfg, Hp. simpl.
  unfold records_of. rewrite omap_app. f_equal.
  - unfold rtt_attempts. repeat case_match; try done. simpl. by rewrite H0.
  - destruct (important_transition _ _); [|done]. simpl. by rewrite H1.
Qed.

(** * Properties *)

(** The product of the comparison is of 32 bits: a ratio the agent's TOML file
    can set makes it wrap, and an ordinary round trip is then a spike. *)
Definition wide_ratio : TapioConfig := {|
  tc_abi_version := 2; tc_generation := 1; tc_flags := 15; tc_slow_io_threshold_ns := 50000000;
  tc_io_latency_critical_ns := 200000000; tc_conn_refused_window_ns := 0;
  tc_conn_refused_min_count := 0; tc_rtt_spike_multiplier := 2 ^ 31; tc_rtt_spike_abs_us := 500000;
  tc_rtt_min_baseline_samples := 5; tc_ignore_exit_count := 0;
  tc_ignore_exit_codes := replicate 16 0; tc_pad := 0 |}.

Lemma spike_ratio_wraps : is_spike wide_ratio 1000 1000 = true /\ ~ spike_against wide_ratio 1000 1000.
Proof.
  split; [by vm_compute|]. unfold spike_against. simpl. change (2 ^ 31) with 2147483648. lia.
Qed.

(** C22. Round-trip spikes of TCP connections are judged against the mean of the
    samples, while the network observer is enabled, the ring has room, the
    configuration asks for 2 to 255 samples and its ratio is at most 42949,
    above which the program's 32-bit product can wrap ([spike_ratio_wraps]):
    after exactly as many samples as the configuration asks for, each under
    16.7 s, and within an hour of the first, the next establishment of the
    connection leaves a spike record exactly when that mean is at most 100 ms
    and the new round trip exceeds its multiple or the absolute threshold,
    whichever is set; the mean is the one of all the samples, rounded down by
    less than half their number of microseconds and never outside their range,
    the record carries it, and the agent reports it. *)
Theorem rtt_spikes_exact (ctx : bpf_ctx) (args : inet_sock_set_state_args) (s : kstate baselines) (cfg : TapioConfig)
    (key : conn_key) (rtt_us : Z) (samples : list (Z * Z))
    (Hctx : ctx_wf ctx) (Hargs : hook_wf (HookSetState args)) (Hwf : TapioConfig_wf cfg)
    (Hcfg : enabled_config TAPIO_F_NETWORK s = Some cfg) (Htcp : iss_protocol args = IPPROTO_TCP)
    (Hroom0 : ctx_reserve ctx 0 = true) (Hroom1 : ctx_reserve ctx 1 = true)
    (Hsample : rtt_sample args = Some (key, rtt_us)) (Hknown : ks_maps s !! key = learn_all cfg samples)
    (Hok : Forall sample_ok samples) (Hk : 2 <= tc_rtt_min_baseline_samples cfg <= 255)
    (Hlen : zlen samples = tc_rtt_min_baseline_samples cfg)
    (Hratio : tc_rtt_spike_multiplier cfg <= 42949)
    (Hfresh : forall t0, head (map snd samples) = Some t0 -> 0 <= ctx_ktime_ns ctx - t0 <= STALE_THRESHOLD_NS) :
  exists m, mean_of (map fst samples) m /\
    let s' := trace_inet_sock_set_state ctx args s in
    let changes := if important_transition (iss_oldstate args) (iss_newstate args)
                   then [write_network_event (state_change_event cfg ctx args)] else [] in
    (m <= 100000 /\ spike_against cfg m rtt_us ->
     exists data, ks_ring s' = ks_ring s ++ data :: changes /\
       ne_rtt_baseline_ms (read_NetworkEvent data) = m / 1000 /\
       ne_rtt_current_ms (read_NetworkEvent data) = Z.min (rtt_us / 1000) 65535 /\
       network_anomalous (read_NetworkEvent data) NETWORK_RTT_DEGRADATION Warning InProgress) /\
    (~ (m <= 100000 /\ spike_against cfg m rtt_us) -> ks_ring s' = ks_ring s ++ changes).
Proof.
  destruct (learnt_mean cfg samples Hok Hk Hlen) as (b & m & Eb & Hm & Hup & Hcase).
  exists m. split; [done|]. cbv zeta. rewrite (set_state_ring ctx args s cfg) by done.
  unfold rtt_attempts. rewrite Hsample, Hknown, Eb.
  assert (Hm0 : 0 <= m <= 2 ^ 24).
  { apply (mean_between _ _ Hm), Forall_fmap. eapply Forall_impl; [exact Hok|]. unfold sample_ok. simpl. lia. }
  destruct (Z.ltb_spec 100000 m) as [Hbig|Hsmall].
  { destruct Hcase as (Hst & _ & _). unfold track_rtt. rewrite Hst. simpl. split; [lia|done]. }
  destruct Hcase as (Hst & <-). rewrite track_fresh by (done || by apply Hfresh).
  assert (Hr0 : 0 <= tc_rtt_spike_multiplier cfg) by apply Hwf.
  pose proof (is_spike_exact cfg rtt_us (bl_baseline_us b) (conj (proj1 Hm0) Hsmall) (conj Hr0 Hratio)) as Hspike.
  destruct (is_spike cfg rtt_us (bl_baseline_us b)).
  - split; [|intros Hn; destruct Hn; split; [done|by apply Hspike]]. intros _.
    set (e := spike_event cfg ctx args (bl_baseline_us b) rtt_us). exists (write_network_event e).
    pose proof (rtt_sample_range args key rtt_us Hargs Hsample) as Hr.
    assert (He : NetworkEvent_wf e).
    { assert (Hb : NetworkEvent_wf (network_event_of cfg ctx (iss_addr args) (wrap8 (iss_protocol args)) NET_EVENT_RTT_SPIKE)).
      { apply network_event_of_wf; auto with tapio; [apply Hargs|vm_compute; split; congruence]. }
      destruct Hb as (?&?&?&?&?&?&?&?&?&?&?&?&?&?&?&?&?&?).
      unfold NetworkEvent_wf. simpl. split_and!; try done; apply clamp16_width, Z.div_pos; lia. }
    rewrite read_network_record by done. split; [done|].
    assert (Hc : forall z, 0 <= z -> clamp16 z = Z.min z 65535).
    { intros z Hz. unfold clamp16. destruct (Z.ltb_spec 65535 z); lia. }
    simpl. rewrite !Hc by (apply Z.div_pos; lia). split.
    + rewrite Z.min_l; [done|]. pose proof (Z.div_le_upper_bound (bl_baseline_us b) 1000 100). lia.
    + split; [done|]. by constructor.
  - split; [|done]. intros [_ Hs]. by apply Hspike in Hs.
Qed.

Notation network_action := (kaction network_hook conn_key).

(** The samples of a connection in a history: the times it was established. *)
Definition is_sample_of (key : conn_key) (a : network_action) : bool :=
  match a with
  | Invoke _ (HookSetState args) =>
      match rtt_sample args with Some (key', _) => bool_decide (key' = key) | None => false end
  | _ => false
  end.

Definition establishments (key : conn_key) (acts : list network_action) : Z :=
  zlen (List.filter (is_sample_of key) acts).

(** Every baseline is backed by that many establishments. *)
Definition backed (k : Z) (acts : list network_action) (key : conn_key) (b : rtt_baseline) : Prop :=
  match bl_state b with
  | RTT_STATE_LEARNING => bl_sample_count b <= establishments key acts
  | RTT_STATE_STABLE => k <= establishments key acts
  end.

Definition asks_for (k : Z) (a : network_action) : Prop :=
  match a with Configure cfg => k <= tc_rtt_min_baseline_samples cfg | _ => True end.

Lemma establishments_snoc (key : conn_key) (acts : list network_action) (a : network_action) :
  establishments key (acts ++ [a]) = establishments key acts + (if is_sample_of key a then 1 else 0).
Proof. unfold establishments. rewrite List.filter_app, zlen_app. simpl. by destruct (is_sample_of key a). Qed.

Lemma backed_mono (k : Z) (acts : list network_action) (a : network_action) (key : conn_key) (b : rtt_baseline) :
  backed k acts key b -> backed k (acts ++ [a]) key b.
Proof.
  unfold backed. rewrite establishments_snoc. destruct (bl_state b), (is_sample_of key a); lia.
Qed.

Lemma learn_backed (k : Z) (cfg : TapioConfig) (acts : list network_action) (a : network_action) (key : conn_key)
    (rtt_us now_ns : Z) (b : rtt_baseline) :
  1 <= k <= 255 -> k <= tc_rtt_min_baseline_samples cfg -> is_sample_of key a = true ->
  bl_state b = RTT_STATE_LEARNING -> backed k acts key b ->
  backed k (acts ++ [a]) key (learn_sample cfg rtt_us now_ns b).
Proof.
  unfold backed. rewrite establishments_snoc. intros Hk Hcfg -> -> Hb.
  assert (H0 : 0 <= establishments key acts) by (unfold establishments; apply zlen_nonneg).
  unfold learn_sample. set (n := if bl_sample_count b <? UINT8_MAX then _ else _).
  assert (Hn : n <= establishments key acts + 1) by (unfold n; destruct (_ <? _); lia).
  set (want := if UINT8_MAX <? _ then _ else _).
  assert (Hw : k <= want) by (unfold want, UINT8_MAX; destruct (255 <? _); lia).
  destruct (Z.leb_spec want n); rewrite ?andb_true_r, ?andb_false_r; [|simpl; lia].
  rewrite (proj2 (Z.ltb_lt 0 want)) by lia. destruct (100000 <? _); simpl; lia.
Qed.

Lemma krun_backed (k : Z) (nr : nat) (acts : list network_action) :
  1 <= k <= 255 -> Forall (asks_for k) acts ->
  let s := krun (kstate_zero nr ∅) acts in
  (ks_config s = config_zero \/ k <= tc_rtt_min_baseline_samples (ks_config s)) /\
  map_Forall (backed k acts) (ks_maps s).
Proof.
  intros Hk Hacts. cbv zeta. induction acts as [|a acts IH] using rev_ind.
  { split; [by left|]. apply map_Forall_empty. }
  apply Forall_app in Hacts as [Hacts [Ha _]%Forall_cons]. destruct (IH Hacts) as [Hc Hm]. clear IH.
  rewrite krun_app. cbn [krun fold_left]. set (s := krun _ acts) in *.
  assert (Hmono : map_Forall (backed k (acts ++ [a])) (ks_maps s)).
  { eapply map_Forall_impl; [exact Hm|]. intros key b. apply backed_mono. }
  split; [rewrite kstep_config; destruct a; [done..|by right]|].
  destruct a as [ctx h|key|cfg]; simpl; [|by apply map_Forall_delete|done].
  rewrite network_program_refines, emit_all_maps. simpl. unfold network_maps.
  destruct (enabled_config TAPIO_F_NETWORK s) as [cfg|] eqn:Ecfg; [|done].
  destruct h as [args|args|args]; [|done..]. destruct (negb _); [done|].
  destruct (rtt_sample args) as [[key rtt]|] eqn:Er; [|done]. unfold tracked.
  destruct (_ && _); [done|]. apply map_Forall_insert_2; [|done].
  destruct Hc as [Hz|Hc]; [by rewrite enabled_config_zero in Ecfg|].
  apply enabled_config_Some in Ecfg as [<- _].
  assert (Hs : is_sample_of key (Invoke ctx (HookSetState args)) = true).
  { simpl. rewrite Er. by apply bool_decide_eq_true. }
  destruct (ks_maps s !! key) as [b|] eqn:Eb; cbn [track_rtt].
  - specialize (Hm _ _ Eb). simpl in Hm. destruct (bl_state b) eqn:Est; cbn [fst].
    + by apply learn_backed.
    + unfold backed in *. rewrite Est in Hm. simpl. rewrite establishments_snoc, Hs. lia.
  - unfold backed. simpl. rewrite establishments_snoc, Hs. unfold establishments.
    pose proof (zlen_nonneg (List.filter (is_sample_of key) acts)). lia.
Qed.

(** A round-trip spike takes a learnt baseline: over every history in which each
    configuration asks for at least [k] samples, a connection, by its two
    addresses and ports, is never reported before it has been established [k]
    times, whatever else happened; the tracepoint only fires on state changes. *)
Lemma spike_needs_establishments (k : Z) (nr : nat) (acts : list network_action) (cfg : TapioConfig) (ctx : bpf_ctx)
    (args : inet_sock_set_state_args) (key : conn_key) (rtt_us : Z)
    (Hk : 1 <= k <= 255) (Hacts : Forall (asks_for k) acts)
    (Hsample : rtt_sample args = Some (key, rtt_us))
    (Hspike : rtt_attempts cfg ctx args (ks_maps (krun (kstate_zero nr ∅) acts)) <> []) :
  k <= establishments key acts.
Proof.
  destruct (krun_backed k nr acts Hk Hacts) as [_ Hm]. unfold rtt_attempts in Hspike. rewrite Hsample in Hspike.
  destruct (ks_maps (krun (kstate_zero nr ∅) acts) !! key) as [b|] eqn:Eb; [|done].
  specialize (Hm _ _ Eb). simpl in Hm. unfold backed in Hm. unfold track_rtt in Hspike.
  by destruct (bl_state b).
Qed.

Definition network_config : TapioConfig := {|
  tc_abi_version := 2; tc_generation := 7; tc_flags := 15; tc_slow_io_threshold_ns := 50000000;
  tc_io_latency_critical_ns := 200000000; tc_conn_refused_window_ns := 0;
  tc_conn_refused_min_count := 0; tc_rtt_spike_multiplier := 2; tc_rtt_spike_abs_us := 500000;
  tc_rtt_min_baseline_samples := 3; tc_ignore_exit_count := 0;
  tc_ignore_exit_codes := replicate 16 0; tc_pad := 0 |}.

Lemma network_config_wf : TapioConfig_wf network_config.
Proof.
  unfold TapioConfig_wf. split_and!; [vm_compute; split; congruence..|done|].
  repeat constructor; vm_compute; congruence.
Qed.

Definition net_ctx (time_ns : Z) : bpf_ctx := {|
  ctx_ktime_ns := time_ns; ctx_pid_tgid := 4242 * 2 ^ 32 + 4243; ctx_cgroup_id := 99;
  ctx_comm := sample_comm; ctx_cpu := 0; ctx_reserve _ := true; ctx_map_room := true |}.

Lemma net_ctx_wf (time_ns : Z) : 0 <= time_ns < 2 ^ 64 -> ctx_wf (net_ctx time_ns).
Proof. intros Ht. unfold ctx_wf. split; [exact Ht|]. vm_compute. split_and!; congruence. Qed.

(** A connection that is established with a round trip of [rtt_us]. *)
Definition established (rtt_us : Z) : inet_sock_set_state_args := {|
  iss_sk := {| tk_srtt_us := Some (rtt_us * 8); tk_total_retrans := Some 0; tk_has_snd_cwnd := true;
               tk_snd_cwnd := Some 10; tk_snd_cwnd_ := None |};
  iss_oldstate := TCP_SYN_SENT; iss_newstate := TCP_ESTABLISHED; iss_protocol := IPPROTO_TCP;
  iss_addr := {| ad_sport := 40000; ad_dport := 5432; ad_family := AF_INET; ad_saddr := [10; 0; 0; 1];
                 ad_daddr := [10; 0; 0; 2]; ad_saddr_v6 := replicate 16 0; ad_daddr_v6 := replicate 16 0 |} |}.

Definition established_key : conn_key := fill_conn_key_v4 [10; 0; 0; 1] [10; 0; 0; 2] 40000 5432.

Definition three_samples : list network_action :=
  [Configure network_config; Invoke (net_ctx 1000) (HookSetState (established 900));
   Invoke (net_ctx 2000) (HookSetState (established 1000)); Invoke (net_ctx 3000) (HookSetState (established 1101))].

Lemma established_wf (rtt_us : Z) : 0 <= rtt_us < 2 ^ 28 -> hook_wf (HookSetState (established rtt_us)).
Proof.
  intros Hr. split; [|simpl; unfold width; lia]. unfold addr_wf. split_and!; try done; repeat constructor;
    vm_compute; congruence.
Qed.

(** After round trips of 0.9, 1 and 1.1 ms, one of 2.5 ms is a spike at twice
    the mean and one of 1.5 ms is not. *)
Lemma rtt_spikes_exact_witness :
  let s := krun (kstate_zero 2 ∅) three_samples in
  let after rtt_us := ks_ring (trace_inet_sock_set_state (net_ctx 4000) (established rtt_us) s) in
  (exists data, after 2500 =
     ks_ring s ++ [data; write_network_event (state_change_event network_config (net_ctx 4000) (established 2500))] /\
     network_anomalous (read_NetworkEvent data) NETWORK_RTT_DEGRADATION Warning InProgress) /\
  after 1500 =
    ks_ring s ++ [write_network_event (state_change_event network_config (net_ctx 4000) (established 1500))].
Proof.
  assert (Hok : Forall sample_ok [(900, 1000); (1000, 2000); (1101, 3000)]) by repeat constructor.
  assert (Hk : 2 <= tc_rtt_min_baseline_samples network_config <= 255) by (vm_compute; split; congruence).
  assert (Hratio : tc_rtt_spike_multiplier network_config <= 42949) by (vm_compute; congruence).
  assert (Hctx : ctx_wf (net_ctx 4000)) by (apply net_ctx_wf; lia).
  assert (Hfresh : forall t0, head (map snd [(900, 1000); (1000, 2000); (1101, 3000)]) = Some t0 ->
    0 <= ctx_ktime_ns (net_ctx 4000) - t0 <= STALE_THRESHOLD_NS)
    by (intros t0 [= <-]; vm_compute; split; congruence).
  assert (Hmean : forall m, mean_of [900; 1000; 1101] m -> 900 <= m <= 1101).
  { intros m Hm. apply (mean_between _ _ Hm). repeat constructor; lia. }
  cbv zeta. set (s := krun (kstate_zero 2 ∅) three_samples).
  assert (Hcfg : enabled_config TAPIO_F_NETWORK s = Some network_config) by (vm_compute; reflexivity).
  assert (Hknown : ks_maps s !! established_key = learn_all network_config [(900, 1000); (1000, 2000); (1101, 3000)])
    by (vm_compute; reflexivity).
  split.
  - destruct (rtt_spikes_exact (net_ctx 4000) (established 2500) s network_config established_key 2500 _ Hctx
      (established_wf 2500 ltac:(lia)) network_config_wf Hcfg eq_refl eq_refl eq_refl eq_refl Hknown Hok Hk eq_refl
      Hratio Hfresh) as (m & Hm%Hmean & Hspike & _).
    destruct Hspike as (data & Hd & _ & _ & Ha); [|exists data; exact (conj Hd Ha)].
    split; [lia|]. left. simpl. lia.
  - destruct (rtt_spikes_exact (net_ctx 4000) (established 1500) s network_config established_key 1500 _ Hctx
      (established_wf 1500 ltac:(lia)) network_config_wf Hcfg eq_refl eq_refl eq_refl eq_refl Hknown Hok Hk eq_refl
      Hratio Hfresh) as (m & Hm%Hmean & _ & Hquiet).
    apply Hquiet. intros [_ [[_ Hs]|[_ Hs]]]; simpl in Hs; lia.
Defined.

Lemma spike_needs_establishments_witness : 3 <= establishments established_key three_samples.
Proof.
  apply (spike_needs_establishments 3 2 three_samples network_config (net_ctx 4000) (established 2500)
    established_key 2500).
  - lia.
  - repeat constructor. vm_compute. congruence.
  - reflexivity.
  - vm_compute. congruence.
Defined.
