(* ===== verification/KernelStorage.v ===== *)
(** [ebpf/storage_monitor.c]: the requests in flight and the two tracepoints. *)
From Stdlib Require Import String.
From stdpp Require Import gmap.
From S2P Require Import Prelude RustStr CommonEbpf Occurrence StorageObs Carriers Drain Kernel.
Local Open Scope Z_scope.

Record io_key := {
  ik_dev_major : Z;
  ik_dev_minor : Z;
  ik_sector : Z;
  ik_nr_sector : Z;
  ik_opcode : Z;
}.

#[export] Instance io_key_eq_dec : EqDecision io_key.
Proof. solve_decision. Defined.

#[export] Instance io_key_countable : Countable io_key.
Proof.
  apply (inj_countable'
    (fun k => (ik_dev_major k, ik_dev_minor k, ik_sector k, ik_nr_sector k, ik_opcode k))
    (fun '(ma, mi, s, n, o) =>
       {| ik_dev_major := ma; ik_dev_minor := mi; ik_sector := s; ik_nr_sector := n; ik_opcode := o |})).
  by intros [].
Defined.

Record io_value := {
  iv_issue_ns : Z;
  iv_cgroup_id : Z;
  iv_bytes : Z;
  iv_issuer_pid : Z;
  iv_opcode : Z;
  iv_ambiguous : Z;
}.

Notation inflight := (gmap io_key io_value).

(** What both tracepoints say of a request; [rq_rwbs] is the first byte of
    [rwbs]. *)
Record block_rq := {
  rq_dev : Z;
  rq_sector : Z;
  rq_nr_sector : Z;
  rq_rwbs : Z;
}.

Definition rq_wf (r : block_rq) : Prop :=
  width 4 (rq_dev r) /\ width 8 (rq_sector r) /\ width 4 (rq_nr_sector r).

(** ['R'] and ['W']; the rest (discards, flushes) is skipped. *)
Definition opcode_of_rwbs (c : Z) : option Z :=
  if c =? 82 then Some OP_READ else if c =? 87 then Some OP_WRITE else None.

Definition key_of (r : block_rq) (opcode : Z) : io_key := {|
  ik_dev_major := Z.shiftr (rq_dev r) 20;
  ik_dev_minor := Z.land (rq_dev r) (wrap32 (Z.shiftl 1 20) - 1);
  ik_sector := rq_sector r;
  ik_nr_sector := rq_nr_sector r;
  ik_opcode := opcode |}.

Definition rq_key (r : block_rq) : option io_key := key_of r <$> opcode_of_rwbs (rq_rwbs r).

(** * trace_block_rq_issue *)

Definition mark_ambiguous (v : io_value) : io_value := {|
  iv_issue_ns := iv_issue_ns v; iv_cgroup_id := iv_cgroup_id v; iv_bytes := iv_bytes v;
  iv_issuer_pid := iv_issuer_pid v; iv_opcode := iv_opcode v; iv_ambiguous := 1 |}.

Definition issue_value (ctx : bpf_ctx) (r : block_rq) (opcode : Z) : io_value := {|
  iv_issue_ns := ctx_ktime_ns ctx;
  iv_cgroup_id := ctx_cgroup_id ctx;
  iv_bytes := wrap32 (rq_nr_sector r * 512);
  iv_issuer_pid := ctx_tgid ctx;
  iv_opcode := opcode;
  iv_ambiguous := 0 |}.

(** An update with BPF_NOEXIST fails on a key that is there, which is then
    marked, and on a full map. *)
Definition trace_block_rq_issue (ctx : bpf_ctx) (r : block_rq) (s : kstate inflight) : kstate inflight :=
  match enabled_config TAPIO_F_STORAGE s with
  | None => s
  | Some cfg =>
      match opcode_of_rwbs (rq_rwbs r) with
      | None => s
      | Some opcode =>
          let key := key_of r opcode in
          match ks_maps s !! key with
          | Some existing => with_maps (<[key := mark_ambiguous existing]> (ks_maps s)) s
          | None =>
              if ctx_map_room ctx then with_maps (<[key := issue_value ctx r opcode]> (ks_maps s)) s
              else s
          end
      end
  end.

(** * trace_block_rq_complete *)

(** None is a request that is no anomaly. *)
Definition io_severity (cfg : TapioConfig) (error_code latency_ns : Z) : option Z :=
  if negb (error_code =? 0) then Some STORAGE_SEVERITY_CRITICAL
  else if (0 <? tc_io_latency_critical_ns cfg) && (tc_io_latency_critical_ns cfg <=? latency_ns)
  then Some STORAGE_SEVERITY_CRITICAL
  else if (0 <? tc_slow_io_threshold_ns cfg) && (tc_slow_io_threshold_ns cfg <=? latency_ns)
  then Some STORAGE_SEVERITY_WARNING
  else None.

Definition storage_event_of (cfg : TapioConfig) (ctx : bpf_ctx) (key : io_key) (v : io_value)
    (error_code severity : Z) : StorageEvent := {|
  se_config_generation := tc_generation cfg;
  se_pad0 := 0;
  se_timestamp_ns := ctx_ktime_ns ctx;
  se_latency_ns := wrap64 (ctx_ktime_ns ctx - iv_issue_ns v);
  se_cgroup_id := iv_cgroup_id v;
  se_sector := ik_sector key;
  se_dev_major := ik_dev_major key;
  se_dev_minor := ik_dev_minor key;
  se_bytes := iv_bytes v;
  se_pid := iv_issuer_pid v;
  se_error_code := error_code;
  se_opcode := iv_opcode v;
  se_severity := severity;
  se_comm := ctx_comm ctx;
  se_pad := [0; 0] |}.

(** Whatever the configuration says, the request is no longer in flight. *)
Definition trace_block_rq_complete (ctx : bpf_ctx) (r : block_rq) (error_code : Z)
    (s : kstate inflight) : kstate inflight :=
  match opcode_of_rwbs (rq_rwbs r) with
  | None => s
  | Some opcode =>
      let key := key_of r opcode in
      match ks_maps s !! key with
      | None => s
      | Some v =>
          let done_with s := with_maps (delete key (ks_maps s)) s in
          match enabled_config TAPIO_F_STORAGE s with
          | None => done_with s
          | Some cfg =>
              if negb (iv_ambiguous v =? 0) then
                done_with (metric_inc ctx METRIC_STORAGE_AMBIGUOUS_IO s)
              else
                match io_severity cfg error_code (wrap64 (ctx_ktime_ns ctx - iv_issue_ns v)) with
                | None => done_with s
                | Some severity =>
                    done_with (ringbuf_emit ctx 0
                      (Some (write_storage_event (storage_event_of cfg ctx key v error_code severity))) s)
                end
          end
      end
  end.

Inductive storage_hook :=
| HookIssue (r : block_rq)
| HookComplete (r : block_rq) (error_code : Z).

Definition storage_program (ctx : bpf_ctx) (h : storage_hook) : kstate inflight -> kstate inflight :=
  match h with
  | HookIssue r => trace_block_rq_issue ctx r
  | HookComplete r error_code => trace_block_rq_complete ctx r error_code
  end.

(** * The contract *)

#[export] Instance storage_kernel : Program inflight storage_hook io_key := {
  prog_flag := TAPIO_F_STORAGE;
  prog_run := storage_program;
  prog_empty := ∅;
  prog_evict k m := delete k m;
}.

(** The event a completion reports, if any. *)
Definition completion_event (ctx : bpf_ctx) (r : block_rq) (error_code : Z) (s : kstate inflight) :
  option StorageEvent :=
  cfg ← enabled_config TAPIO_F_STORAGE s;
  key ← rq_key r;
  v ← ks_maps s !! key;
  if iv_ambiguous v =? 0 then
    severity ← io_severity cfg error_code (wrap64 (ctx_ktime_ns ctx - iv_issue_ns v));
    Some (storage_event_of cfg ctx key v error_code severity)
  else None.

Definition storage_attempts (ctx : bpf_ctx) (h : storage_hook) (s : kstate inflight) : list attempt :=
  match h with
  | HookIssue _ => []
  | HookComplete r error_code =>
      match completion_event ctx r error_code s with
      | Some e => [(0%nat, Some (write_storage_event e))]
      | None => []
      end
  end.

Definition io_value_wf (v : io_value) : Prop :=
  width 8 (iv_issue_ns v) /\ width 8 (iv_cgroup_id v) /\ width 4 (iv_bytes v) /\
  width 4 (iv_issuer_pid v) /\ width 1 (iv_opcode v).

Definition storage_hook_wf (h : storage_hook) : Prop :=
  match h with
  | HookIssue r => rq_wf r
  | HookComplete r error_code => rq_wf r /\ i32_ok error_code
  end.

Lemma opcode_of_rwbs_width (c opcode : Z) : opcode_of_rwbs c = Some opcode -> width 1 opcode.
Proof. unfold opcode_of_rwbs. repeat case_match; intros [= <-]; vm_compute; split; congruence. Qed.

Lemma issue_value_wf (ctx : bpf_ctx) (r : block_rq) (opcode : Z) :
  ctx_wf ctx -> width 1 opcode -> io_value_wf (issue_value ctx r opcode).
Proof. intros (Ht & _ & Hc & _ & _) Ho. unfold io_value_wf. simpl. auto 10 with tapio. Qed.

(** The maps after a hook, on every branch. *)
Lemma issue_maps (ctx : bpf_ctx) (r : block_rq) (s : kstate inflight) :
  trace_block_rq_issue ctx r s =
  with_maps (match enabled_config TAPIO_F_STORAGE s, opcode_of_rwbs (rq_rwbs r) with
             | Some _, Some opcode =>
                 match ks_maps s !! key_of r opcode with
                 | Some v => <[key_of r opcode := mark_ambiguous v]> (ks_maps s)
                 | None => if ctx_map_room ctx then <[key_of r opcode := issue_value ctx r opcode]> (ks_maps s)
                           else ks_maps s
                 end
             | _, _ => ks_maps s
             end) s.
Proof.
  unfold trace_block_rq_issue. destruct s as [c m ring maps].
  destruct (enabled_config TAPIO_F_STORAGE _); [|done]. destruct (opcode_of_rwbs _) as [o|]; [|done]. simpl.
  destruct (maps !! key_of r o); [done|]. by destruct (ctx_map_room ctx).
Qed.

Lemma complete_refines (ctx : bpf_ctx) (r : block_rq) (error_code : Z) (s : kstate inflight) :
  exists s', silent s s' /\
    ks_maps s' = match rq_key r with Some key => delete key (ks_maps s) | None => ks_maps s end /\
    trace_block_rq_complete ctx r error_code s = emit_all ctx (storage_attempts ctx (HookComplete r error_code) s) s'.
Proof.
  unfold trace_block_rq_complete, storage_attempts, completion_event, rq_key.
  destruct (opcode_of_rwbs (rq_rwbs r)) as [o|]; simpl.
  2: { exists s. split; [apply silent_refl|]. by destruct (enabled_config TAPIO_F_STORAGE s). }
  destruct (ks_maps s !! key_of r o) as [v|] eqn:Ev; simpl.
  2: { exists s. rewrite delete_id by done. split; [apply silent_refl|]. by destruct (enabled_config TAPIO_F_STORAGE s). }
  destruct (enabled_config TAPIO_F_STORAGE s) as [cfg|]; simpl.
  2: { eexists. split; [apply silent_with_maps|]. done. }
  destruct (iv_ambiguous v =? 0); simpl.
  2: { exists (with_maps (delete (key_of r o) (ks_maps s)) (metric_inc ctx METRIC_STORAGE_AMBIGUOUS_IO s)).
       split; [|done]. split; try done; [|apply metric_inc_shape]. by apply list_lookup_alter_ne. }
  exists (with_maps (delete (key_of r o) (ks_maps s)) s). split; [apply silent_with_maps|]. split; [done|].
  destruct (io_severity _ _ _) as [sev|]; [|done]. simpl. unfold ringbuf_emit. by destruct (ctx_reserve ctx 0).
Qed.

Lemma completion_event_wf (ctx : bpf_ctx) (r : block_rq) (error_code : Z) (s : kstate inflight) (e : StorageEvent) :
  ctx_wf ctx -> rq_wf r -> i32_ok error_code -> map_Forall (fun _ => io_value_wf) (ks_maps s) ->
  TapioConfig_wf (ks_config s) -> completion_event ctx r error_code s = Some e ->
  StorageEvent_wf e /\ se_config_generation e = tc_generation (ks_config s).
Proof.
  intros (Ht & _ & _ & Hcomm & _) (Hdev & Hsec & _) He Hm (_ & Hg & _). unfold completion_event, rq_key.
  destruct (enabled_config TAPIO_F_STORAGE s) as [cfg|] eqn:E; [|done]. apply enabled_config_Some in E as [<- _]. simpl.
  destruct (opcode_of_rwbs (rq_rwbs r)) as [o|]; [|done]. simpl.
  destruct (ks_maps s !! key_of r o) as [v|] eqn:Ev; [|done]. simpl.
  destruct (Hm _ _ Ev) as (Hv1 & Hv2 & Hv3 & Hv4 & Hv5).
  destruct (iv_ambiguous v =? 0); [|done].
  destruct (io_severity _ _ _) as [sev|] eqn:Es; [|done]. intros [= <-]. split; [|done].
  assert (width 1 sev).
  { unfold io_severity in Es. repeat case_match; try done; injection Es as <-; vm_compute; split; congruence. }
  unfold StorageEvent_wf. simpl. split_and!; auto with tapio.
  - vm_compute; split; congruence.
  - unfold width in *. rewrite Z.shiftr_div_pow2 by lia.
    split; [apply Z.div_pos; lia|]. apply Z.div_lt_upper_bound; lia.
  - unfold width in *. change (wrap32 (Z.shiftl 1 20) - 1) with (Z.ones 20). rewrite Z.land_ones by lia.
    pose proof (Z.mod_pos_bound (rq_dev r) (2 ^ 20)). change (256 ^ Z.of_nat 4) with 4294967296. lia.
Qed.

#[export, program] Instance storage_contract : Contract inflight storage_hook io_key := {
  prog_attempts := storage_attempts;
  prog_input_ok := storage_hook_wf;
  prog_maps_ok := map_Forall (fun _ => io_value_wf);
  prog_record cfg data :=
    exists e, StorageEvent_wf e /\ se_config_generation e = tc_generation cfg /\ data = write_storage_event e;
}.
Next Obligation.
  intros ctx [r|r error_code] s; simpl.
  - eexists. split; [|apply issue_maps]. apply silent_with_maps.
  - destruct (complete_refines ctx r error_code s) as (s' & Hs & _ & E). by exists s'.
Qed.
Next Obligation. intros ctx [r|r error_code] s E; [done|]. simpl. unfold completion_event. simpl in E. by rewrite E. Qed.
Next Obligation. apply map_Forall_empty. Qed.
Next Obligation. intros k m Hm. by apply map_Forall_delete. Qed.
Next Obligation.
  intros ctx [r|r error_code] s Hctx Hr Hm; simpl.
  - rewrite issue_maps. simpl. destruct (enabled_config _ s); [|done].
    destruct (opcode_of_rwbs _) as [o|] eqn:Eo; [|done].
    destruct (ks_maps s !! key_of r o) as [v|] eqn:Ev.
    + apply map_Forall_insert_2; [|done]. exact (Hm _ _ Ev).
    + destruct (ctx_map_room ctx); [|done]. apply map_Forall_insert_2; [|done].
      apply issue_value_wf; [done|]. by eapply opcode_of_rwbs_width.
  - destruct (complete_refines ctx r error_code s) as (s' & _ & E & ->). rewrite emit_all_maps, E.
    destruct (rq_key r); [by apply map_Forall_delete|done].
Qed.
Next Obligation.
  intros ctx [r|r error_code] s cfg a Hctx Hr Hm E Hcfg Ha data Hd; [done|]. simpl in Ha, E.
  destruct Hr as [Hr He]. apply enabled_config_Some in E as [<- _].
  destruct (completion_event ctx r error_code s) as [e|] eqn:Ee; [|done].
  destruct Ha as [<-|[]]. injection Hd as <-. exists e.
  by destruct (completion_event_wf ctx r error_code s e Hctx Hr He Hm Hcfg Ee).
Qed.

(** * Correlation of completions with issues *)

Notation storage_action := (kaction storage_hook io_key).

(** What changes the entry of a key: an issue the program records, a
    completion, an eviction. *)
Definition touches (key : io_key) (s : kstate inflight) (a : storage_action) : Prop :=
  match a with
  | Invoke _ (HookIssue r) => rq_key r = Some key /\ enabled_config TAPIO_F_STORAGE s <> None
  | Invoke _ (HookComplete r _) => rq_key r = Some key
  | Evict k => k = key
  | Configure _ => False
  end.

Fixpoint quiet (key : io_key) (s : kstate inflight) (acts : list storage_action) : Prop :=
  match acts with
  | [] => True
  | a :: rest => ~ touches key s a /\ quiet key (kstep s a) rest
  end.

(** The request issued by [ctx0] and [r0] is the one in flight under [key]: it
    was recorded while no other one was, and since then nothing touched the
    key. *)
Definition in_flight_since (s0 : kstate inflight) (acts : list storage_action) (key : io_key)
    (ctx0 : bpf_ctx) (r0 : block_rq) : Prop :=
  exists pre post,
    acts = pre ++ Invoke ctx0 (HookIssue r0) :: post /\ rq_key r0 = Some key /\
    enabled_config TAPIO_F_STORAGE (krun s0 pre) <> None /\ ks_maps (krun s0 pre) !! key = None /\
    ctx_map_room ctx0 = true /\ quiet key (kstep (krun s0 pre) (Invoke ctx0 (HookIssue r0))) post.

Lemma quiet_app (key : io_key) (s : kstate inflight) (acts acts' : list storage_action) :
  quiet key s (acts ++ acts') <-> quiet key s acts /\ quiet key (krun s acts) acts'.
Proof.
  revert s. induction acts as [|a acts IH]; intros s; simpl; [tauto|]. rewrite IH. tauto.
Qed.

Lemma complete_maps (ctx : bpf_ctx) (r : block_rq) (error_code : Z) (s : kstate inflight) :
  ks_maps (trace_block_rq_complete ctx r error_code s) =
  match rq_key r with Some key => delete key (ks_maps s) | None => ks_maps s end.
Proof.
  destruct (complete_refines ctx r error_code s) as (s' & _ & E & ->). by rewrite emit_all_maps.
Qed.

Lemma rq_key_Some (r : block_rq) (key : io_key) :
  rq_key r = Some key <-> exists o, opcode_of_rwbs (rq_rwbs r) = Some o /\ key = key_of r o.
Proof.
  unfold rq_key. destruct (opcode_of_rwbs (rq_rwbs r)) as [o|]; simpl; split.
  - intros [= <-]. by exists o.
  - by intros (o' & [= <-] & ->).
  - done.
  - by intros (o' & ? & _).
Qed.

(** The entry of a key after one more action. *)
Lemma kstep_lookup (key : io_key) (s : kstate inflight) (a : storage_action) :
  (~ touches key s a -> ks_maps (kstep s a) !! key = ks_maps s !! key) /\
  (touches key s a ->
   match a with
   | Invoke ctx (HookIssue r) =>
       match ks_maps s !! key with
       | Some v => ks_maps (kstep s a) !! key = Some (mark_ambiguous v)
       | None => ks_maps (kstep s a) !! key =
                   if ctx_map_room ctx then Some (issue_value ctx r (ik_opcode key)) else None
       end
   | _ => ks_maps (kstep s a) !! key = None
   end).
Proof.
  destruct a as [ctx [r|r error_code]|k|cfg]; simpl.
  - rewrite issue_maps. simpl. destruct (enabled_config TAPIO_F_STORAGE s) as [cfg|]; [|by split; [|intros [_ []]]].
    destruct (opcode_of_rwbs (rq_rwbs r)) as [o|] eqn:Eo.
    2: { split; [done|]. intros [(o & E & _)%rq_key_Some _]. congruence. }
    destruct (decide (key = key_of r o)) as [->|Hne].
    + split.
      * intros []. split; [|done]. apply rq_key_Some. eauto.
      * intros _. destruct (ks_maps s !! key_of r o) as [v|] eqn:Ev; [by rewrite lookup_insert_eq|].
        destruct (ctx_map_room ctx); [by rewrite lookup_insert_eq|done].
    + split.
      * intros _. repeat case_match; rewrite ?lookup_insert_ne by done; done.
      * intros [(o' & E & ->)%rq_key_Some _]. congruence.
  - rewrite complete_maps. destruct (rq_key r) as [k|]; [|by split].
    split; [intros Hn; apply lookup_delete_ne; congruence|intros [= ->]; by rewrite lookup_delete_eq].
  - split; [intros Hn; apply lookup_delete_ne; congruence|intros ->; by rewrite lookup_delete_eq].
  - done.
Qed.

Lemma quiet_lookup (key : io_key) (s : kstate inflight) (acts : list storage_action) :
  quiet key s acts -> ks_maps (krun s acts) !! key = ks_maps s !! key.
Proof.
  revert s. induction acts as [|a acts IH]; intros s; simpl; [done|]. intros [Hn Hq].
  rewrite IH by done. by apply kstep_lookup.
Qed.

Lemma touches_dec (key : io_key) (s : kstate inflight) (a : storage_action) : touches key s a \/ ~ touches key s a.
Proof.
  destruct a as [ctx [r|r error_code]|k|cfg]; simpl.
  - destruct (decide (rq_key r = Some key)), (enabled_config TAPIO_F_STORAGE s); naive_solver.
  - destruct (decide (rq_key r = Some key)); tauto.
  - destruct (decide (k = key)); tauto.
  - tauto.
Qed.

Lemma in_flight_snoc (s0 : kstate inflight) (acts : list storage_action) (a : storage_action) (key : io_key)
    (ctx0 : bpf_ctx) (r0 : block_rq) :
  in_flight_since s0 acts key ctx0 r0 -> ~ touches key (krun s0 acts) a ->
  in_flight_since s0 (acts ++ [a]) key ctx0 r0.
Proof.
  intros (pre & post & -> & Hk & Hc & Hm & Hr & Hq) Hn.
  exists pre, (post ++ [a]). rewrite <- app_assoc. split; [done|]. do 4 (split; [done|]).
  apply quiet_app. split; [done|]. simpl. split; [|done].
  by rewrite krun_app in Hn.
Qed.

(** An entry that is not ambiguous is the value of the one request in flight. *)
Lemma in_flight_iff (s0 : kstate inflight) (acts : list storage_action) (key : io_key) (v : io_value) :
  ks_maps s0 = ∅ ->
  (ks_maps (krun s0 acts) !! key = Some v /\ iv_ambiguous v = 0 <->
   exists ctx0 r0, in_flight_since s0 acts key ctx0 r0 /\ v = issue_value ctx0 r0 (ik_opcode key)).
Proof.
  intros H0. split.
  - revert v. induction acts as [|a acts IH] using rev_ind; intros v [Hv Ha].
    { simpl in Hv. by rewrite H0 in Hv. }
    rewrite krun_app in Hv. simpl in Hv.
    destruct (kstep_lookup key (krun s0 acts) a) as [Hno Hyes].
    destruct (touches_dec key (krun s0 acts) a) as [Ht|Ht].
    + specialize (Hyes Ht). destruct a as [ctx [r|r error_code]|k|cfg]; [|congruence..|destruct Ht].
      destruct (ks_maps (krun s0 acts) !! key) as [v'|] eqn:Ev; rewrite Hyes in Hv.
      { injection Hv as <-. done. }
      destruct (ctx_map_room ctx) eqn:Er; [|done]. injection Hv as <-.
      exists ctx, r. split; [|done]. exists acts, []. destruct Ht. done.
    + rewrite Hno in Hv by done. destruct (IH v) as (ctx0 & r0 & Hf & ->); [done|].
      exists ctx0, r0. split; [by apply in_flight_snoc|done].
  - intros (ctx0 & r0 & (pre & post & -> & Hk & Hc & Hm & Hr & Hq) & ->). split; [|done].
    rewrite krun_app. change (krun ?s (?a :: ?l)) with (krun (kstep s a) l). rewrite quiet_lookup by done.
    destruct (kstep_lookup key (krun s0 pre) (Invoke ctx0 (HookIssue r0))) as [_ Hyes].
    rewrite Hm, Hr in Hyes. by apply Hyes.
Qed.

(** The record of a completion, from the request in flight. *)
Lemma completion_event_iff (s0 : kstate inflight) (acts : list storage_action) (ctx : bpf_ctx) (r : block_rq)
    (error_code : Z) (e : StorageEvent) :
  ks_maps s0 = ∅ ->
  (completion_event ctx r error_code (krun s0 acts) = Some e <->
   exists cfg key ctx0 r0 severity,
     enabled_config TAPIO_F_STORAGE (krun s0 acts) = Some cfg /\ rq_key r = Some key /\
     in_flight_since s0 acts key ctx0 r0 /\
     io_severity cfg error_code (wrap64 (ctx_ktime_ns ctx - ctx_ktime_ns ctx0)) = Some severity /\
     e = storage_event_of cfg ctx key (issue_value ctx0 r0 (ik_opcode key)) error_code severity).
Proof.
  intros H0. unfold completion_event. split.
  - destruct (enabled_config TAPIO_F_STORAGE (krun s0 acts)) as [cfg|]; [|done]. simpl.
    destruct (rq_key r) as [key|]; [|done]. simpl.
    destruct (ks_maps (krun s0 acts) !! key) as [v|] eqn:Ev; [|done]. simpl.
    destruct (Z.eqb_spec (iv_ambiguous v) 0) as [Ha|]; [|done].
    destruct (io_severity _ _ _) as [sev|] eqn:Es; [|done]. intros [= <-].
    destruct (proj1 (in_flight_iff s0 acts key v H0)) as (ctx0 & r0 & Hf & ->); [done|].
    exists cfg, key, ctx0, r0, sev. done.
  - intros (cfg & key & ctx0 & r0 & sev & Hcfg & Hkey & Hf & Hs & ->).
    destruct (proj2 (in_flight_iff s0 acts key (issue_value ctx0 r0 (ik_opcode key)) H0)) as [Ev _]; [eauto|].
    rewrite Hcfg, Hkey. simpl. rewrite Ev. simpl. by rewrite Hs.
Qed.

(** The same from a freshly loaded program. *)
Lemma in_flight_zero (nr : nat) (acts : list storage_action) (key : io_key) (v : io_value) :
  ks_maps (krun (kstate_zero nr ∅) acts) !! key = Some v /\ iv_ambiguous v = 0 <->
  exists ctx0 r0, in_flight_since (kstate_zero nr ∅) acts key ctx0 r0 /\ v = issue_value ctx0 r0 (ik_opcode key).
Proof. by apply in_flight_iff. Qed.

Lemma completion_event_zero (nr : nat) (acts : list storage_action) (ctx : bpf_ctx) (r : block_rq)
    (error_code : Z) (e : StorageEvent) :
  completion_event ctx r error_code (krun (kstate_zero nr ∅) acts) = Some e <->
  exists cfg key ctx0 r0 severity,
    enabled_config TAPIO_F_STORAGE (krun (kstate_zero nr ∅) acts) = Some cfg /\ rq_key r = Some key /\
    in_flight_since (kstate_zero nr ∅) acts key ctx0 r0 /\
    io_severity cfg error_code (wrap64 (ctx_ktime_ns ctx - ctx_ktime_ns ctx0)) = Some severity /\
    e = storage_event_of cfg ctx key (issue_value ctx0 r0 (ik_opcode key)) error_code severity.
Proof. by apply completion_event_iff. Qed.

Lemma complete_ring (ctx : bpf_ctx) (r : block_rq) (error_code : Z) (s : kstate inflight) :
  ctx_reserve ctx 0 = true ->
  ks_ring (trace_block_rq_complete ctx r error_code s) =
  ks_ring s ++ match completion_event ctx r error_code s with Some e => [write_storage_event e] | None => [] end.
Proof.
  intros Hr. destruct (complete_refines ctx r error_code s) as (s' & Hs & _ & ->).
  rewrite emit_all_ring, (si_ring _ _ Hs). simpl. destruct (completion_event _ _ _ _); [|done].
  unfold records_of. simpl. by rewrite Hr.
Qed.

(** A configured program keeps its invariant from the start. *)
Lemma storage_run_inv (nr : nat) (acts : list storage_action) :
  Forall action_ok acts -> kinv (fun _ => True) (krun (kstate_zero nr ∅) acts).
Proof. intros Ha. apply krun_inv; [exact (kinv_zero (Program0 := storage_kernel) _ nr)|done|done]. Qed.

(** * Properties *)

(** What storage_monitor.c says deserves evidence: a request that failed or
    took as long as the critical threshold is critical, one that took only as
    long as the slow one a warning; a threshold of zero is inert. *)
Definition deserves_evidence (cfg : TapioConfig) (error_code latency_ns severity : Z) : Prop :=
  let critical := 0 < tc_io_latency_critical_ns cfg <= latency_ns in
  let slow := 0 < tc_slow_io_threshold_ns cfg <= latency_ns in
  severity = STORAGE_SEVERITY_CRITICAL /\ (error_code <> 0 \/ critical) \/
  severity = STORAGE_SEVERITY_WARNING /\ error_code = 0 /\ ~ critical /\ slow.

Lemma io_severity_deserves (cfg : TapioConfig) (error_code latency_ns severity : Z) :
  io_severity cfg error_code latency_ns = Some severity <->
  deserves_evidence cfg error_code latency_ns severity.
Proof.
  unfold io_severity, deserves_evidence. destruct (Z.eqb_spec error_code 0); simpl;
    [|split; [intros [= <-]; by auto|intros [[-> _]|(_ & ? & _)]; done]].
  destruct (Z.ltb_spec 0 (tc_io_latency_critical_ns cfg)), (Z.leb_spec (tc_io_latency_critical_ns cfg) latency_ns),
    (Z.ltb_spec 0 (tc_slow_io_threshold_ns cfg)), (Z.leb_spec (tc_slow_io_threshold_ns cfg) latency_ns); simpl;
    split; first [intros [= <-]|intros [[-> [?|?]]|(-> & _ & ? & ?)]]; try done; try lia; first [left; split; [done|lia]|right; split; [done|lia]].
Qed.

(** C16. With room in the ring, over every history of the storage program, a
    completion adds at most one record, and adds one exactly when a request is on
    record under its key (issued with storage enabled and room in the table,
    while the key was free, and not touched since), storage is enabled, and
    the request failed or took as long as a threshold that is set.  The
    record then has the latency since that issue, its cgroup, process and size,
    the severity of the threshold, and the generation it was judged by.  It
    is the latency of the issue on record, which is not always that of the
    request that completed: when a key is used again while one of two
    requests that shared it is outstanding, the program has forgotten that one
    ([ambiguity_is_forgotten]). *)
Theorem storage_latency_exact (nr : nat) (acts : list storage_action) (ctx : bpf_ctx) (r : block_rq)
    (error_code : Z)
    (Hacts : Forall action_ok acts) (Hctx : ctx_wf ctx) (Hr : rq_wf r) (He : i32_ok error_code)
    (Hroom : ctx_reserve ctx 0 = true) :
  let s0 := kstate_zero nr ∅ in
  let s := krun s0 acts in
  let s' := trace_block_rq_complete ctx r error_code s in
  (ks_ring s' = ks_ring s \/ exists data, ks_ring s' = ks_ring s ++ [data]) /\
  (forall data, ks_ring s' = ks_ring s ++ [data] ->
   exists cfg key ctx0 r0,
     enabled_config TAPIO_F_STORAGE s = Some cfg /\ rq_key r = Some key /\ in_flight_since s0 acts key ctx0 r0 /\
     let e := read_StorageEvent data in
     se_latency_ns e = wrap64 (ctx_ktime_ns ctx - ctx_ktime_ns ctx0) /\
     se_cgroup_id e = ctx_cgroup_id ctx0 /\ se_pid e = ctx_tgid ctx0 /\
     se_bytes e = wrap32 (rq_nr_sector r0 * 512) /\ se_error_code e = error_code /\
     se_config_generation e = tc_generation cfg /\
     deserves_evidence cfg error_code (se_latency_ns e) (se_severity e)) /\
  (forall cfg key ctx0 r0 severity,
     enabled_config TAPIO_F_STORAGE s = Some cfg -> rq_key r = Some key -> in_flight_since s0 acts key ctx0 r0 ->
     deserves_evidence cfg error_code (wrap64 (ctx_ktime_ns ctx - ctx_ktime_ns ctx0)) severity ->
     exists data, ks_ring s' = ks_ring s ++ [data]).
Proof.
  cbv zeta. rewrite complete_ring by done. split; [|split].
  - destruct (completion_event _ _ _ _); [right; by eexists|left; by rewrite app_nil_r].
  - intros data Hd%app_inv_head. destruct (completion_event _ _ _ _) as [e|] eqn:Ee; [|done].
    injection Hd as <-. pose proof Ee as Ee'.
    apply completion_event_zero in Ee as (cfg & key & ctx0 & r0 & sev & Hcfg & Hkey & Hf & Hs%io_severity_deserves & ->).
    exists cfg, key, ctx0, r0. do 3 (split; [done|]).
    destruct (storage_run_inv nr acts Hacts) as [Hc Hm _].
    assert (Hwf : TapioConfig_wf (ks_config (krun (kstate_zero nr ∅) acts))).
    { destruct Hc as [Hz|[_ Hwf]]; [|done]. by rewrite enabled_config_zero in Hcfg. }
    destruct (completion_event_wf _ _ _ _ _ Hctx Hr He Hm Hwf Ee') as [Hew _].
    rewrite read_storage_record by done. done.
  - intros cfg key ctx0 r0 sev Hcfg Hkey Hf Hs%io_severity_deserves.
    erewrite (proj2 (completion_event_zero _ _ _ _ _ _)); [by eexists|]. by exists cfg, key, ctx0, r0, sev.
Qed.

(** Requests under a key that were issued and have not completed. *)
Definition outstanding (key : io_key) (acts : list storage_action) : Z :=
  fold_left (fun n a =>
    match a with
    | Invoke _ (HookIssue r) => if bool_decide (rq_key r = Some key) then n + 1 else n
    | Invoke _ (HookComplete r _) => if bool_decide (rq_key r = Some key) then n - 1 else n
    | _ => n
    end) acts 0.

Definition storage_config : TapioConfig := {|
  tc_abi_version := 2; tc_generation := 7; tc_flags := 15; tc_slow_io_threshold_ns := 50000000;
  tc_io_latency_critical_ns := 200000000; tc_conn_refused_window_ns := 0;
  tc_conn_refused_min_count := 0; tc_rtt_spike_multiplier := 2; tc_rtt_spike_abs_us := 500000;
  tc_rtt_min_baseline_samples := 5; tc_ignore_exit_count := 0;
  tc_ignore_exit_codes := replicate 16 0; tc_pad := 0 |}.

Lemma storage_config_wf : TapioConfig_wf storage_config.
Proof.
  unfold TapioConfig_wf. split_and!; [vm_compute; split; congruence..|done|].
  repeat constructor; vm_compute; congruence.
Qed.

Definition ctx_at (time_ns : Z) : bpf_ctx := {|
  ctx_ktime_ns := time_ns; ctx_pid_tgid := 4242 * 2 ^ 32 + 4243; ctx_cgroup_id := 99;
  ctx_comm := sample_comm; ctx_cpu := 0; ctx_reserve _ := true; ctx_map_room := true |}.

Definition read_4k : block_rq := {|
  rq_dev := 8388609; rq_sector := 2048; rq_nr_sector := 8; rq_rwbs := 82 |}.

Lemma ctx_at_wf (time_ns : Z) : 0 <= time_ns < 2 ^ 64 -> ctx_wf (ctx_at time_ns).
Proof. intros Ht. unfold ctx_wf. split; [exact Ht|]. vm_compute. split_and!; congruence. Qed.

Lemma read_4k_wf : rq_wf read_4k.
Proof. unfold rq_wf. vm_compute. split_and!; congruence. Qed.

(** Two issues of one key, one completion, another issue. *)
Definition reissued : list storage_action :=
  [Configure storage_config;
   Invoke (ctx_at 1000000000) (HookIssue read_4k);
   Invoke (ctx_at 1001000000) (HookIssue read_4k);
   Invoke (ctx_at 1002000000) (HookComplete read_4k 0);
   Invoke (ctx_at 1100000000) (HookIssue read_4k)].

(** Evidence that cannot be correlated is emitted all the same when a key
    is reused: the completion that drops an ambiguous pair also forgets that
    its other half is outstanding, so that a third issue under the key starts
    afresh, and the next completion, which may be of either of two outstanding
    requests issued at different times, is reported with the latency of the
    later one. *)
Lemma ambiguity_is_forgotten :
  exists key, rq_key read_4k = Some key /\ outstanding key reissued = 2 /\
  let s := krun (kstate_zero 2 ∅) reissued in
  exists data, ks_ring (trace_block_rq_complete (ctx_at 1200000000) read_4k 0 s) = ks_ring s ++ [data] /\
    se_latency_ns (read_StorageEvent data) = 1200000000 - 1100000000 /\
    se_severity (read_StorageEvent data) = STORAGE_SEVERITY_WARNING /\
    storage_classify (read_StorageEvent data) <> None.
Proof.
  eexists. split; [reflexivity|]. split; [by vm_compute|]. eexists. split; [by vm_compute|].
  split; [by vm_compute|]. split; [by vm_compute|]. vm_compute. congruence.
Qed.

Definition one_read : list storage_action :=
  [Configure storage_config; Invoke (ctx_at 1000000000) (HookIssue read_4k)].

Lemma one_read_ok : Forall action_ok one_read.
Proof.
  constructor; [exact storage_config_wf|]. constructor; [|constructor].
  split; [apply ctx_at_wf; lia|exact read_4k_wf].
Qed.

(** A read of a quarter of a second leaves a record of that latency. *)
Lemma storage_latency_exact_witness :
  let s := krun (kstate_zero 2 ∅) one_read in
  exists data, ks_ring (trace_block_rq_complete (ctx_at 1250000000) read_4k 0 s) = ks_ring s ++ [data] /\
  exists cfg, enabled_config TAPIO_F_STORAGE s = Some cfg /\
    deserves_evidence cfg 0 (se_latency_ns (read_StorageEvent data)) (se_severity (read_StorageEvent data)).
Proof.
  assert (He : i32_ok 0) by (vm_compute; split; congruence).
  assert (Hctx : ctx_wf (ctx_at 1250000000)) by (apply ctx_at_wf; lia).
  destruct (storage_latency_exact 2 one_read (ctx_at 1250000000) read_4k 0 one_read_ok Hctx read_4k_wf He eq_refl)
    as [_ [Hrecord Hcomplete]].
  destruct (Hcomplete storage_config {| ik_dev_major := 8; ik_dev_minor := 1; ik_sector := 2048;
      ik_nr_sector := 8; ik_opcode := 0 |} (ctx_at 1000000000) read_4k STORAGE_SEVERITY_CRITICAL)
    as [data Hd]; [reflexivity|reflexivity| |vm_compute; left; split; [reflexivity|right; split; congruence]|].
  - exists [Configure storage_config], []. split; [reflexivity|]. split; [reflexivity|].
    split; [vm_compute; congruence|]. split; [reflexivity|]. split; [reflexivity|exact I].
  - exists data. split; [exact Hd|]. destruct (Hrecord data Hd) as (cfg & _ & _ & _ & Hcfg & _ & _ & _ & _ & _ & _ & _ & _ & Hs).
    exists cfg. split; [exact Hcfg|exact Hs].
Defined.
