(* ===== verification/KernelContainer.v ===== *)
(** [ebpf/container_monitor.c]: out-of-memory kills and process exits. *)
From Stdlib Require Import String.
From S2P Require Import Prelude RustStr Json CommonEbpf Occurrence ContainerObs AgentConfig Carriers Drain Kernel.
Local Open Scope Z_scope.

(** * handle_oom *)

Record mark_victim_args := {
  mv_pid : Z;
  mv_anon_rss : Z;
  mv_file_rss : Z;
  mv_shmem_rss : Z;
}.

Definition mv_wf (a : mark_victim_args) : Prop :=
  i32_ok (mv_pid a) /\ width 8 (mv_anon_rss a) /\ width 8 (mv_file_rss a) /\ width 8 (mv_shmem_rss a).

Definition oom_event (cfg : TapioConfig) (ctx : bpf_ctx) (args : mark_victim_args) : ContainerEvent := {|
  ce_config_generation := tc_generation cfg;
  ce_memory_limit := 0;
  ce_memory_usage := wrap64 (wrap64 (wrap64 (mv_anon_rss args + mv_file_rss args) + mv_shmem_rss args) * 4096);
  ce_timestamp_ns := ctx_ktime_ns ctx;
  ce_cgroup_id := 0;
  ce_event_type := CONTAINER_EVENT_OOM;
  ce_pid := wrap32 (mv_pid args);
  ce_tid := 0;
  ce_exit_code := 137;
  ce_signal := 9 |}.

Definition handle_oom (ctx : bpf_ctx) (args : mark_victim_args) (s : kstate unit) : kstate unit :=
  match enabled_config TAPIO_F_CONTAINER s with
  | None => s
  | Some cfg => ringbuf_emit ctx 0 (Some (write_container_event (oom_event cfg ctx args))) s
  end.

(** * handle_exit *)

(** The process, and its [exit_code]: None without a task or when it cannot be
    read. *)
Record process_exit_args := {
  px_pid : Z;
  px_exit_code : option Z;
}.

Definition px_wf (a : process_exit_args) : Prop :=
  i32_ok (px_pid a) /\ match px_exit_code a with Some c => width 4 c | None => True end.

(** [exit_code] is the code shifted by eight, with the signal below. *)
Definition exit_status (exit_code : Z) : Z := i32_cast (Z.shiftr exit_code 8).
Definition exit_signal (exit_code : Z) : Z := i32_cast (Z.land exit_code 127).

(** The loop over the slots, from the [i]-th on. *)
Fixpoint is_ignored (slots : list Z) (i ignore_count code : Z) : bool :=
  match slots with
  | [] => false
  | slot :: rest =>
      if ignore_count <=? i then false
      else if slot =? code then true
      else is_ignored rest (i + 1) ignore_count code
  end.

Definition exit_event (cfg : TapioConfig) (ctx : bpf_ctx) (args : process_exit_args) (code sig : Z) :
  ContainerEvent := {|
  ce_config_generation := tc_generation cfg;
  ce_memory_limit := 0;
  ce_memory_usage := 0;
  ce_timestamp_ns := ctx_ktime_ns ctx;
  ce_cgroup_id := ctx_cgroup_id ctx;
  ce_event_type := CONTAINER_EVENT_EXIT;
  ce_pid := wrap32 (px_pid args);
  ce_tid := Z.land (ctx_pid_tgid ctx) 4294967295;
  ce_exit_code := code;
  ce_signal := sig |}.

Definition handle_exit (ctx : bpf_ctx) (args : process_exit_args) (s : kstate unit) : kstate unit :=
  match enabled_config TAPIO_F_CONTAINER s with
  | None => s
  | Some cfg =>
      match px_exit_code args with
      | None => s
      | Some exit_code =>
          let code := exit_status exit_code in
          let sig := exit_signal exit_code in
          if (code =? 0) && (sig =? 0) then s
          else if is_ignored (tc_ignore_exit_codes cfg) 0
                    (tapio_clamp_ignore_exit_count (tc_ignore_exit_count cfg)) code then s
          else ringbuf_emit ctx 0 (Some (write_container_event (exit_event cfg ctx args code sig))) s
      end
  end.

Inductive container_hook :=
| HookOom (args : mark_victim_args)
| HookExit (args : process_exit_args).

Definition container_program (ctx : bpf_ctx) (h : container_hook) : kstate unit -> kstate unit :=
  match h with
  | HookOom args => handle_oom ctx args
  | HookExit args => handle_exit ctx args
  end.

(** * The contract *)

#[export] Instance container_kernel : Program unit container_hook Empty_set := {
  prog_flag := TAPIO_F_CONTAINER;
  prog_run := container_program;
  prog_empty := tt;
  prog_evict _ m := m;
}.

Definition exit_ignored (cfg : TapioConfig) (code : Z) : bool :=
  is_ignored (tc_ignore_exit_codes cfg) 0 (tapio_clamp_ignore_exit_count (tc_ignore_exit_count cfg)) code.

(** The event a hook reports, if any. *)
Definition container_event_of (cfg : TapioConfig) (ctx : bpf_ctx) (h : container_hook) : option ContainerEvent :=
  match h with
  | HookOom args => Some (oom_event cfg ctx args)
  | HookExit args =>
      exit_code ← px_exit_code args;
      let code := exit_status exit_code in
      let sig := exit_signal exit_code in
      if (code =? 0) && (sig =? 0) || exit_ignored cfg code then None
      else Some (exit_event cfg ctx args code sig)
  end.

Definition container_attempts (ctx : bpf_ctx) (h : container_hook) (s : kstate unit) : list attempt :=
  match enabled_config TAPIO_F_CONTAINER s with
  | None => []
  | Some cfg =>
      match container_event_of cfg ctx h with
      | Some e => [(0%nat, Some (write_container_event e))]
      | None => []
      end
  end.

Definition container_hook_wf (h : container_hook) : Prop :=
  match h with HookOom args => mv_wf args | HookExit args => px_wf args end.

Lemma container_program_attempts (ctx : bpf_ctx) (h : container_hook) (s : kstate unit) :
  container_program ctx h s = emit_all ctx (container_attempts ctx h s) s.
Proof.
  unfold container_attempts. destruct h as [args|args]; simpl; [unfold handle_oom|unfold handle_exit];
    (destruct (enabled_config TAPIO_F_CONTAINER s) as [cfg|]; [|done]); [done|].
  destruct (px_exit_code args) as [exit_code|]; [|done]. simpl. unfold exit_ignored.
  by destruct ((exit_status exit_code =? 0) && (exit_signal exit_code =? 0)); [|destruct (is_ignored _ _ _ _)].
Qed.

Lemma container_event_wf (cfg : TapioConfig) (ctx : bpf_ctx) (h : container_hook) (e : ContainerEvent) :
  ctx_wf ctx -> container_hook_wf h -> TapioConfig_wf cfg -> container_event_of cfg ctx h = Some e ->
  ContainerEvent_wf e /\ ce_config_generation e = tc_generation cfg.
Proof.
  intros (Ht & _ & Hc & _ & _) Hh (_ & Hg & _) E.
  assert (L : width 4 (Z.land (ctx_pid_tgid ctx) 4294967295)) by apply (land_ones_width 4).
  destruct h as [args|args]; simpl in E.
  - injection E as <-. split; [|done]. unfold ContainerEvent_wf. simpl.
    split_and!; auto with tapio; vm_compute; split; congruence.
  - destruct (px_exit_code args) as [exit_code|]; [|done]. simpl in E.
    destruct (_ || _); [done|]. injection E as <-. split; [|done]. unfold ContainerEvent_wf. simpl.
    split_and!; auto with tapio; try apply i32_cast_ok; vm_compute; split; congruence.
Qed.

#[export, program] Instance container_contract : Contract unit container_hook Empty_set := {
  prog_attempts := container_attempts;
  prog_input_ok := container_hook_wf;
  prog_maps_ok _ := True;
  prog_record cfg data :=
    exists e, ContainerEvent_wf e /\ ce_config_generation e = tc_generation cfg /\ data = write_container_event e;
}.
Next Obligation. intros ctx h s. exists s. split; [apply silent_refl|]. apply container_program_attempts. Qed.
Next Obligation. intros ctx h s E. unfold container_attempts. simpl in E. by rewrite E. Qed.
Next Obligation. done. Qed.
Next Obligation. done. Qed.
Next Obligation. done. Qed.
Next Obligation.
  intros ctx h s cfg a Hctx Hh _ E Hcfg Ha data Hd. unfold container_attempts in Ha. simpl in E. rewrite E in Ha.
  destruct (container_event_of cfg ctx h) as [e|] eqn:Ee; [|done].
  destruct Ha as [<-|[]]. injection Hd as <-. exists e.
  by destruct (container_event_wf cfg ctx h e Hctx Hh Hcfg Ee).
Qed.

(** * Exits *)

Lemma is_ignored_spec (slots : list Z) (i n code : Z) :
  is_ignored slots i n code = true <-> In code (take (Z.to_nat (n - i)) slots).
Proof.
  revert i. induction slots as [|slot slots IH]; intros i; simpl; [by rewrite take_nil|].
  destruct (Z.leb_spec n i).
  { replace (Z.to_nat (n - i)) with O by lia. by rewrite take_0. }
  replace (Z.to_nat (n - i)) with (S (Z.to_nat (n - (i + 1)))) by lia. simpl.
  destruct (Z.eqb_spec slot code); [by split; [left|]|]. rewrite IH. tauto.
Qed.

(** At most the sixteen slots are read, whatever the count says. *)
Lemma exit_ignored_spec (cfg : TapioConfig) (code : Z) :
  TapioConfig_wf cfg -> exit_ignored cfg code = true <-> In code (kernel_exit_codes cfg).
Proof.
  intros Hwf. assert (H16 : length (tc_ignore_exit_codes cfg) = 16%nat) by apply Hwf.
  unfold exit_ignored, kernel_exit_codes, tapio_clamp_ignore_exit_count.
  rewrite is_ignored_spec, Z.sub_0_r. change (Z.of_nat TAPIO_CONFIG_MAX_IGNORE_EXIT_CODES) with 16.
  destruct (Z.ltb_spec 16 (tc_ignore_exit_count cfg)); [|done].
  by rewrite !take_ge by (rewrite H16; lia).
Qed.

(** How a process ends, and its [exit_code] in the kernel. *)
Inductive death :=
| Exited (code : Z)
| Killed (signal : Z) (core_dumped : bool).

Definition death_ok (d : death) : Prop :=
  match d with Exited code => 0 <= code <= 255 | Killed signal _ => 1 <= signal <= 64 end.

Definition status_of (d : death) : Z :=
  match d with
  | Exited code => Z.shiftl code 8
  | Killed signal core_dumped => if core_dumped then Z.lor signal 128 else signal
  end.

Definition death_code (d : death) : Z := match d with Exited code => code | Killed _ _ => 0 end.
Definition death_signal (d : death) : Z := match d with Exited _ => 0 | Killed signal _ => signal end.

Definition abnormal (d : death) : Prop := d <> Exited 0.

Lemma death_fields (d : death) :
  death_ok d -> exit_status (status_of d) = death_code d /\ exit_signal (status_of d) = death_signal d.
Proof.
  destruct d as [code|signal core]; simpl; intros H.
  - assert (E : (exit_status (Z.shiftl code 8) =? code) && (exit_signal (Z.shiftl code 8) =? 0) = true).
    { revert code H. apply (small_range (fun code =>
        (exit_status (Z.shiftl code 8) =? code) && (exit_signal (Z.shiftl code 8) =? 0)) 255). by vm_compute. }
    lia.
  - assert (E : forallb (fun core : bool =>
      let x := if core then Z.lor signal 128 else signal in
      (signal =? 0) || (exit_status x =? 0) && (exit_signal x =? signal)) [true; false] = true).
    { revert signal H. intros signal H. apply (small_range (fun signal => forallb (fun core : bool =>
        let x := if core then Z.lor signal 128 else signal in
        (signal =? 0) || (exit_status x =? 0) && (exit_signal x =? signal)) [true; false]) 64); [by vm_compute|lia]. }
    simpl in E. destruct core; lia.
Qed.

Lemma status_width (d : death) : death_ok d -> width 4 (status_of d).
Proof.
  intros H. unfold width. change (256 ^ Z.of_nat 4) with 4294967296. destruct d as [code|signal core]; simpl in *.
  - rewrite Z.shiftl_mul_pow2 by lia. lia.
  - destruct core; [|lia]. assert (H' : (0 <=? Z.lor signal 128) && (Z.lor signal 128 <? 4294967296) = true); [|lia].
    apply (small_range (fun signal => (0 <=? Z.lor signal 128) && (Z.lor signal 128 <? 4294967296)) 64);
      [by vm_compute|lia].
Qed.

(** What happens to the end of a process: enabled, with room in the ring, it is
    submitted unless it is normal or its code is ignored. *)
Lemma handle_exit_spec (ctx : bpf_ctx) (pid : Z) (d : death) (s : kstate unit) (cfg : TapioConfig) :
  death_ok d -> enabled_config TAPIO_F_CONTAINER s = Some cfg -> TapioConfig_wf cfg -> ctx_reserve ctx 0 = true ->
  let args := {| px_pid := pid; px_exit_code := Some (status_of d) |} in
  (abnormal d /\ ~ In (death_code d) (kernel_exit_codes cfg) ->
   handle_exit ctx args s =
   ringbuf_submit (write_container_event (exit_event cfg ctx args (death_code d) (death_signal d))) s) /\
  (d = Exited 0 \/ In (death_code d) (kernel_exit_codes cfg) -> handle_exit ctx args s = s).
Proof.
  intros Hd Hcfg Hwf Hr args. unfold handle_exit. rewrite Hcfg. cbn [px_exit_code args].
  destruct (death_fields d Hd) as [-> ->]. fold (exit_ignored cfg (death_code d)).
  assert (Hn : (death_code d =? 0) && (death_signal d =? 0) = true <-> d = Exited 0).
  { destruct d as [code|signal core]; simpl in *; split; intros E; try done.
    - f_equal. lia.
    - injection E as ->. done.
    - lia. }
  pose proof (exit_ignored_spec cfg (death_code d) Hwf) as Hi. unfold abnormal.
  destruct ((death_code d =? 0) && (death_signal d =? 0)) eqn:En.
  { split; [|done]. intros [Ha _]. by destruct Ha; apply Hn. }
  destruct (exit_ignored cfg (death_code d)).
  { split; [|done]. intros [_ Ha]. by destruct Ha; apply Hi. }
  split.
  - intros _. unfold ringbuf_emit. by rewrite Hr.
  - intros [E|E]; [by apply Hn in E|by apply Hi in E].
Qed.

(** * Properties *)

(** C23. From the end of a process to the evidence of it: with the observer on
    and room in the ring, a process that ends abnormally with a code the
    configuration does not ignore leaves one record, which the agent
    classifies as an abnormal exit, an error when a signal killed it and a
    warning otherwise; any other end leaves nothing.  A killed process has the
    code 0 here, so a configuration that ignores 0 hides every kill. *)
Theorem exits_reported (ctx : bpf_ctx) (pid : Z) (d : death) (s : kstate unit) (cfg : TapioConfig)
    (Hctx : ctx_wf ctx) (Hpid : i32_ok pid) (Hd : death_ok d)
    (Hcfg : enabled_config TAPIO_F_CONTAINER s = Some cfg) (Hwf : TapioConfig_wf cfg)
    (Hroom : ctx_reserve ctx 0 = true) :
  let s' := handle_exit ctx {| px_pid := pid; px_exit_code := Some (status_of d) |} s in
  (abnormal d -> ~ In (death_code d) (kernel_exit_codes cfg) ->
   exists data a, ks_ring s' = ks_ring s ++ [data] /\
     ce_config_generation (read_ContainerEvent data) = tc_generation cfg /\
     container_classify (read_ContainerEvent data) = Some a /\
     ca_event_type a = CONTAINER_ABNORMAL_EXIT /\
     ca_severity a = match d with Killed _ _ => Error | Exited _ => Warning end) /\
  (d = Exited 0 \/ In (death_code d) (kernel_exit_codes cfg) -> s' = s) /\
  (In 0 (kernel_exit_codes cfg) -> forall signal core_dumped, d = Killed signal core_dumped -> s' = s).
Proof.
  destruct (handle_exit_spec ctx pid d s cfg Hd Hcfg Hwf Hroom) as [Hyes Hno].
  split; [|split; [exact Hno|intros H0 sig core ->; apply Hno; by right]].
  intros Ha Hi. cbv zeta. rewrite Hyes by done. clear Hyes Hno.
  set (args := {| px_pid := pid; px_exit_code := Some (status_of d) |}).
  assert (He : ContainerEvent_wf (exit_event cfg ctx args (death_code d) (death_signal d))).
  { assert (E : container_event_of cfg ctx (HookExit args)
      = Some (exit_event cfg ctx args (death_code d) (death_signal d))).
    { simpl. destruct (death_fields d Hd) as [-> ->].
      assert (exit_ignored cfg (death_code d) = false) as ->.
      { apply not_true_iff_false. by rewrite exit_ignored_spec. }
      destruct d as [code|signal core]; simpl in *; unfold abnormal in Ha;
        destruct (Z.eqb_spec code 0) || destruct (Z.eqb_spec signal 0); subst; done || lia. }
    eapply container_event_wf; [done| |done|exact E]. split; [done|by apply status_width]. }
  exists (write_container_event (exit_event cfg ctx args (death_code d) (death_signal d))).
  assert (Hread : read_ContainerEvent
      (write_container_event (exit_event cfg ctx args (death_code d) (death_signal d)))
    = exit_event cfg ctx args (death_code d) (death_signal d)) by (by apply read_container_record).
  rewrite Hread. unfold container_classify. simpl.
  destruct d as [code|signal core]; simpl in *; unfold abnormal in Ha.
  - destruct (Z.eqb_spec code 0) as [->|]; [done|]. by eexists.
  - destruct (Z.eqb_spec signal 0); [lia|]. by eexists.
Qed.

(** The kill of an out-of-memory victim is always reported, as a critical
    anomaly with the victim's process, but never with its memory limit: the
    program writes no cgroup, and then the agent looks nothing up, whatever
    the file system holds and the cache knows. *)
Lemma oom_kills_reported (read_file : string -> option string) (cache : list (Z * Z)) (id : string)
    (boot_offset_ns : Z) (ctx : bpf_ctx) (args : mark_victim_args) (s : kstate unit) (cfg : TapioConfig)
    (Hctx : ctx_wf ctx) (Hargs : mv_wf args)
    (Hcfg : enabled_config TAPIO_F_CONTAINER s = Some cfg) (Hwf : TapioConfig_wf cfg)
    (Hroom : ctx_reserve ctx 0 = true) :
  exists data a, ks_ring (handle_oom ctx args s) = ks_ring s ++ [data] /\
    container_classify (read_ContainerEvent data) = Some a /\
    ca_event_type a = CONTAINER_OOM_KILL /\ ca_severity a = Critical /\
    let '(occ, cache') := container_build_occurrence read_file id cache (read_ContainerEvent data) a boot_offset_ns in
    cache' = cache /\
    (oc_data occ ≫= json_get "pid") = Some (JInt (wrap32 (mv_pid args))) /\
    (oc_data occ ≫= json_get "memory_limit_bytes") = Some (JInt 0) /\
    (oc_data occ ≫= json_get "cgroup_id") = Some (JInt 0).
Proof.
  destruct (container_event_wf cfg ctx (HookOom args) (oom_event cfg ctx args)) as [He _]; [done..|].
  unfold handle_oom, ringbuf_emit. rewrite Hcfg, Hroom. cbn [negb ringbuf_submit ks_ring].
  exists (write_container_event (oom_event cfg ctx args)).
  rewrite read_container_record by done. by eexists.
Qed.

Definition container_config : TapioConfig := {|
  tc_abi_version := 2; tc_generation := 7; tc_flags := 15; tc_slow_io_threshold_ns := 50000000;
  tc_io_latency_critical_ns := 200000000; tc_conn_refused_window_ns := 0;
  tc_conn_refused_min_count := 0; tc_rtt_spike_multiplier := 2; tc_rtt_spike_abs_us := 500000;
  tc_rtt_min_baseline_samples := 5; tc_ignore_exit_count := 2;
  tc_ignore_exit_codes := [143; 3] ++ replicate 14 0; tc_pad := 0 |}.

Definition sample_ctx : bpf_ctx := {|
  ctx_ktime_ns := 5000000000; ctx_pid_tgid := 4242 * 2 ^ 32 + 4243; ctx_cgroup_id := 99;
  ctx_comm := sample_comm; ctx_cpu := 0; ctx_reserve _ := true; ctx_map_room := true |}.

Lemma sample_ctx_wf : ctx_wf sample_ctx.
Proof. unfold ctx_wf. split_and!; vm_compute; try split; congruence. Qed.

Lemma container_config_wf : TapioConfig_wf container_config.
Proof.
  unfold TapioConfig_wf. split_and!; [vm_compute; split; congruence..|done|].
  repeat constructor; vm_compute; congruence.
Qed.

Lemma exits_reported_witness :
  let s := write_config container_config (kstate_zero 2 tt) in
  handle_exit sample_ctx {| px_pid := 4242; px_exit_code := Some (status_of (Exited 143)) |} s = s.
Proof.
  apply (exits_reported sample_ctx 4242 (Exited 143) (write_config container_config (kstate_zero 2 tt))
    container_config sample_ctx_wf).
  - vm_compute. split; congruence.
  - vm_compute. split; congruence.
  - reflexivity.
  - apply container_config_wf.
  - reflexivity.
  - right. left. reflexivity.
Defined.

Lemma oom_kills_reported_witness :
  exists data a, ks_ring (handle_oom sample_ctx
      {| mv_pid := 4242; mv_anon_rss := 65536; mv_file_rss := 0; mv_shmem_rss := 1 |}
      (write_config container_config (kstate_zero 2 tt))) = [] ++ [data] /\
    container_classify (read_ContainerEvent data) = Some a /\
    ca_event_type a = CONTAINER_OOM_KILL.
Proof.
  destruct (oom_kills_reported (fun _ => Some "max") [] "id" 0 sample_ctx
    {| mv_pid := 4242; mv_anon_rss := 65536; mv_file_rss := 0; mv_shmem_rss := 1 |}
    (write_config container_config (kstate_zero 2 tt)) container_config sample_ctx_wf) as (data & a & H1 & H2 & H3 & _).
  - unfold mv_wf, i32_ok, width. vm_compute. intuition congruence.
  - reflexivity.
  - apply container_config_wf.
  - reflexivity.
  - exists data, a. exact (conj H1 (conj H2 H3)).
Defined.
