(* ===== verification/KernelPmc.v ===== *)
(** [ebpf/node_pmc_monitor.c]: the sampling of the performance counters. *)
From Stdlib Require Import String.
From S2P Require Import Prelude RustStr CommonEbpf Carriers Drain Kernel.
Local Open Scope Z_scope.

(** [bpf_perf_event_read_value] of the three counters on a CPU; None is an
    error. *)
Record pmc_counters := {
  pc_cycles : option Z;
  pc_instructions : option Z;
  pc_stalls : option Z;
}.

Definition pc_wf (c : pmc_counters) : Prop :=
  Forall (fun o => match o with Some v => width 8 v | None => True end)
    [pc_cycles c; pc_instructions c; pc_stalls c].

Definition i64_cast (z : Z) : Z := if wrap64 z <=? I64_MAX then wrap64 z else wrap64 z - 2 ^ 64.

(** The counter as a signed value, -1 on an error. *)
Definition read_pmc (counter : option Z) : Z :=
  match counter with Some v => i64_cast v | None => -1 end.

(** None discards the reserved record. *)
Definition pmc_event_of (cfg : TapioConfig) (ctx : bpf_ctx) (c : pmc_counters) : option PmcEvent :=
  let cycles := read_pmc (pc_cycles c) in
  let instructions := read_pmc (pc_instructions c) in
  let stalls := read_pmc (pc_stalls c) in
  if (cycles <? 0) || (instructions <? 0) then None
  else
    let stalls := if stalls <? 0 then 0 else stalls in
    Some {| pe_config_generation := tc_generation cfg;
            pe_cpu := Z.of_nat (ctx_cpu ctx);
            pe_cycles := wrap64 cycles;
            pe_instructions := wrap64 instructions;
            pe_stall_cycles := wrap64 stalls;
            pe_timestamp := ctx_ktime_ns ctx |}.

Definition sample_pmc (ctx : bpf_ctx) (c : pmc_counters) (s : kstate unit) : kstate unit :=
  match enabled_config TAPIO_F_NODE_PMC s with
  | None => s
  | Some cfg => ringbuf_emit ctx 0 (write_pmc_event <$> pmc_event_of cfg ctx c) s
  end.

(** * The contract *)

#[export] Instance pmc_kernel : Program unit pmc_counters Empty_set := {
  prog_flag := TAPIO_F_NODE_PMC;
  prog_run := sample_pmc;
  prog_empty := tt;
  prog_evict _ m := m;
}.

Definition pmc_attempts (ctx : bpf_ctx) (c : pmc_counters) (s : kstate unit) : list attempt :=
  match enabled_config TAPIO_F_NODE_PMC s with
  | None => []
  | Some cfg => [(0%nat, write_pmc_event <$> pmc_event_of cfg ctx c)]
  end.

(** A counter the program accepts: read, and less than 2^63. *)
Definition counter_ok (counter : option Z) : Prop :=
  match counter with Some v => v <= I64_MAX | None => False end.

Lemma read_pmc_spec (counter : option Z) :
  match counter with Some v => width 8 v | None => True end ->
  (0 <= read_pmc counter <-> counter_ok counter) /\ (counter_ok counter -> counter = Some (read_pmc counter)).
Proof.
  unfold read_pmc, counter_ok, i64_cast, width. change (256 ^ Z.of_nat 8) with (2 ^ 64).
  destruct counter as [v|]; [|split; [lia|done]]. intros H.
  rewrite (wrap64_small v) by width_lia. destruct (Z.leb_spec v I64_MAX); split; try lia; try done; try tauto;
    width_lia.
Qed.

Lemma pmc_event_of_spec (cfg : TapioConfig) (ctx : bpf_ctx) (c : pmc_counters) :
  pc_wf c ->
  (counter_ok (pc_cycles c) /\ counter_ok (pc_instructions c) ->
   exists e, pmc_event_of cfg ctx c = Some e /\
     Some (pe_cycles e) = pc_cycles c /\ Some (pe_instructions e) = pc_instructions c /\
     (counter_ok (pc_stalls c) -> Some (pe_stall_cycles e) = pc_stalls c) /\
     (~ counter_ok (pc_stalls c) -> pe_stall_cycles e = 0)) /\
  (~ (counter_ok (pc_cycles c) /\ counter_ok (pc_instructions c)) -> pmc_event_of cfg ctx c = None).
Proof.
  intros Hwf. unfold pc_wf in Hwf. rewrite !Forall_cons in Hwf. destruct Hwf as (Hc & Hi & Hs & _).
  destruct (read_pmc_spec _ Hc) as [Hc1 Hc2], (read_pmc_spec _ Hi) as [Hi1 Hi2], (read_pmc_spec _ Hs) as [Hs1 Hs2].
  assert (Hsmall : forall o, counter_ok o -> 0 <= read_pmc o -> wrap64 (read_pmc o) = read_pmc o).
  { intros o Ho Hp. apply wrap64_small. split; [done|]. destruct o as [v|]; [|done]. simpl in *.
    unfold i64_cast in *. pose proof (wrap64_range v). destruct (Z.leb_spec (wrap64 v) I64_MAX); width_lia. }
  unfold pmc_event_of. split.
  - intros [Hok1 Hok2].
    destruct (Z.ltb_spec (read_pmc (pc_cycles c)) 0) as [|Hp1]; [apply Hc1 in Hok1; lia|].
    destruct (Z.ltb_spec (read_pmc (pc_instructions c)) 0) as [|Hp2]; [apply Hi1 in Hok2; lia|].
    eexists. split; [done|]. simpl. rewrite !Hsmall by done. split; [by rewrite <- Hc2|].
    split; [by rewrite <- Hi2|]. split.
    + intros Hok3. destruct (Z.ltb_spec (read_pmc (pc_stalls c)) 0) as [|Hp3]; [apply Hs1 in Hok3; lia|].
      by rewrite Hsmall, <- Hs2.
    + intros Hok3. destruct (Z.ltb_spec (read_pmc (pc_stalls c)) 0); [done|]. by destruct Hok3; apply Hs1.
  - intros Hno. destruct (Z.ltb_spec (read_pmc (pc_cycles c)) 0) as [|Hp1]; [done|].
    destruct (Z.ltb_spec (read_pmc (pc_instructions c)) 0) as [|Hp2]; [done|].
    destruct Hno. split; [by apply Hc1|by apply Hi1].
Qed.

Lemma pmc_event_wf (cfg : TapioConfig) (ctx : bpf_ctx) (c : pmc_counters) (e : PmcEvent) :
  ctx_wf ctx -> TapioConfig_wf cfg -> pmc_event_of cfg ctx c = Some e ->
  PmcEvent_wf e /\ pe_config_generation e = tc_generation cfg.
Proof.
  intros (Ht & _ & _ & _ & Hcpu) (_ & Hg & _). unfold pmc_event_of. destruct (_ || _); [done|].
  intros [= <-]. split; [|done]. unfold PmcEvent_wf. simpl. split_and!; auto with tapio.
Qed.

#[export, program] Instance pmc_contract : Contract unit pmc_counters Empty_set := {
  prog_attempts := pmc_attempts;
  prog_input_ok := pc_wf;
  prog_maps_ok _ := True;
  prog_record cfg data :=
    exists e, PmcEvent_wf e /\ pe_config_generation e = tc_generation cfg /\ data = write_pmc_event e;
}.
Next Obligation.
  intros ctx c s. exists s. split; [apply silent_refl|]. simpl. unfold sample_pmc, pmc_attempts.
  by destruct (enabled_config TAPIO_F_NODE_PMC s).
Qed.
Next Obligation. intros ctx c s E. unfold pmc_attempts. simpl in E. by rewrite E. Qed.
Next Obligation. done. Qed.
Next Obligation. done. Qed.
Next Obligation. done. Qed.
Next Obligation.
  intros ctx c s cfg a Hctx Hc _ E Hcfg Ha data Hd. unfold pmc_attempts in Ha. simpl in E. rewrite E in Ha.
  destruct Ha as [<-|[]]. simpl in Hd. destruct (pmc_event_of cfg ctx c) as [e|] eqn:Ee; [|done].
  injection Hd as <-. exists e. by destruct (pmc_event_wf cfg ctx c e Hctx Hcfg Ee).
Qed.
