(* ===== verification/KernelDrain.v ===== *)
(** A kernel program and the observer that drains it: the records of the one are
    what the loop of the other reads, and what the program could not place is
    what the observer counts as lost.  Stated once for any program that meets
    its contract and any observer that reads the program's format. *)
From Stdlib Require Import String.
From stdpp Require Import gmap.
From S2P Require Import Prelude RustStr Float64 CommonEbpf Occurrence PmcObs Metrics Sink Carriers Drain.
From S2P Require Import Kernel KernelNetwork KernelStorage KernelContainer KernelPmc.
Local Open Scope Z_scope.

(** The observer reads what the program writes. *)
Class Reads (M I K L W : Type) `{!Program M I K} `{!Contract M I K} `{!Observer W L} := {
  reads_size cfg data : prog_record cfg data -> obs_size <= zlen data;
}.

Lemma samples_wf : NetworkEvent_wf sample_network /\ StorageEvent_wf sample_storage.
Proof. unfold NetworkEvent_wf, StorageEvent_wf, width, i32_ok. vm_compute. split; split_and!; congruence. Qed.

Lemma record_sizes (n : NetworkEvent) (c : ContainerEvent) (s : StorageEvent) (p : PmcEvent) :
  (NetworkEvent_wf n -> zlen (write_network_event n) = size_of_NetworkEvent) /\
  zlen (write_container_event c) = size_of_ContainerEvent /\
  (StorageEvent_wf s -> zlen (write_storage_event s) = size_of_StorageEvent) /\
  zlen (write_pmc_event p) = size_of_PmcEvent.
Proof.
  destruct samples_wf as [Hn Hs]. destruct (event_sizes _ c _ p Hn Hs) as (_ & Hc & _ & Hp).
  split; [intros H; apply (event_sizes n c _ p H Hs)|]. split; [done|].
  split; [intros H; apply (event_sizes _ c s p Hn H)|done].
Qed.

Section Readers.
Context {W : Type} `{Env W}.
Variable boot_offset_ns : Z.

#[export] Instance network_reads :
  Reads baselines network_hook conn_key unit W (Observer0 := network_observer).
Proof.
  split. intros cfg data (e & He & _ & ->).
  by rewrite (proj1 (record_sizes e sample_container sample_storage sample_pmc_event) He).
Qed.

#[export] Instance container_reads :
  Reads unit container_hook Empty_set (list (Z * Z)) W (Observer0 := container_observer boot_offset_ns).
Proof.
  split. intros cfg data (e & He & _ & ->).
  by destruct (record_sizes sample_network e sample_storage sample_pmc_event) as (_ & -> & _).
Qed.

#[export] Instance storage_reads :
  Reads inflight storage_hook io_key unit W (Observer0 := storage_observer boot_offset_ns).
Proof.
  split. intros cfg data (e & He & _ & ->).
  destruct (record_sizes sample_network sample_container e sample_pmc_event) as (_ & _ & Hs & _). by rewrite Hs.
Qed.

#[export] Instance pmc_reads :
  Reads unit pmc_counters Empty_set unit W (Observer0 := pmc_observer boot_offset_ns).
Proof.
  split. intros cfg data (e & He & _ & ->).
  by destruct (record_sizes sample_network sample_container sample_storage e) as (_ & _ & _ & ->).
Qed.
End Readers.

(** * The records and the losses of a session *)

Section Session.
Context {M I K : Type} `{!Program M I K} `{!Contract M I K}.
Implicit Types (s : kstate M) (segs : list (list (kaction I K))).

Fixpoint seg_records s segs : list (list Z) :=
  match segs with
  | [] => []
  | acts :: rest => krun_records s acts ++ seg_records (snd (consume (krun s acts))) rest
  end.

Fixpoint seg_refused s segs : Z :=
  match segs with
  | [] => 0
  | acts :: rest => krun_refused s acts + seg_refused (snd (consume (krun s acts))) rest
  end.

Lemma kernel_ticks_records s segs :
  ks_ring s = [] -> concat (map fst (fst (kernel_ticks s segs))) = seg_records s segs.
Proof.
  revert s. induction segs as [|acts segs IH]; intros s Hs; [done|]. simpl.
  destruct (kernel_ticks _ segs) as [ticks s'] eqn:E. simpl.
  rewrite krun_ring, Hs. simpl. f_equal. by rewrite <- IH, E.
Qed.

Lemma kernel_ticks_length s segs : zlen (fst (kernel_ticks s segs)) = zlen segs.
Proof.
  revert s. induction segs as [|acts segs IH]; intros s; [done|]. simpl.
  specialize (IH (snd (consume (krun s acts)))). simpl in IH. destruct (kernel_ticks _ segs) as [ticks s'].
  simpl in *. by rewrite !zlen_cons, IH.
Qed.

(** A record of the session is what the contract says. *)
Lemma seg_records_judged (P : TapioConfig -> Prop) s segs :
  kinv P s -> Forall (Forall action_ok) segs ->
  (forall cfg acts, In acts segs -> In (Configure cfg) acts -> P cfg) -> Forall (judged P) (seg_records s segs).
Proof.
  intros Hs Hok Hcfg. revert s Hs. induction Hok as [|acts segs Ha _ IH]; intros s Hs; [constructor|]. simpl.
  assert (Hrun : kinv P (krun s acts)) by (apply krun_inv; [done|done|intros cfg; apply Hcfg; by left]).
  apply Forall_app. split.
  - destruct Hrun as [_ _ Hr]. rewrite krun_ring in Hr. by apply Forall_app in Hr as [_ Hr].
  - apply IH; [intros cfg acts' Hin; apply Hcfg; by right|]. destruct Hrun. split; [done|done|constructor].
Qed.

(** What the reading ticks see of the losses. *)
Lemma seg_lost_seen (nr : nat) (fd : Z) s segs (n acc base : Z) :
  metrics_ok nr (ks_metrics s) -> Forall (Forall (on_cpus nr)) segs ->
  lost_total s = base -> 0 <= acc <= base -> base + seg_refused s segs <= U64_MAX -> 0 <= n ->
  n + zlen segs <= U64_MAX ->
  let seen := lost_seen (Some fd) (fst (kernel_ticks s segs)) n acc in
  acc <= seen <= base + seg_refused s segs /\
  (segs <> [] -> (n + zlen segs) mod LOST_EVENTS_CHECK_INTERVAL = 0 -> seen = base + seg_refused s segs).
Proof.
  intros Hm Hcpu. revert s n acc base Hm. induction Hcpu as [|acts segs Ha _ IH]; intros s n acc base Hm Hl Hacc Hmax Hn Hlen.
  { simpl in *. split; [lia|done]. }
  rewrite zlen_cons in Hlen. cbn [seg_refused] in *.
  set (s1 := snd (consume (krun s acts))) in *.
  pose proof (krun_refused_nonneg s acts) as Hr0.
  assert (Hr1 : forall segs s, 0 <= seg_refused s segs).
  { clear. induction segs as [|acts segs IH]; intros s; simpl; [done|].
    pose proof (krun_refused_nonneg s acts). specialize (IH (snd (consume (krun s acts)))). simpl in IH. lia. }
  specialize (Hr1 segs s1).
  assert (Hm1 : metrics_ok nr (ks_metrics s1)) by (unfold metrics_ok; simpl; by rewrite krun_shape).
  assert (Hl1 : lost_total s1 = base + krun_refused s acts).
  { pose proof (krun_lost nr s acts Hm Ha) as E. rewrite Hl in E.
    change (lost_total (krun s acts)) with (lost_total s1) in E.
    pose proof (read_percpu_sum_range (percpu_lookup s1) 0 METRIC_LOST_EVENTS) as Hu.
    rewrite !wrap64_small in E; [exact E| |exact Hu]. unfold is_u64. lia. }
  cbn [kernel_ticks]. fold s1. simpl. change ({| ks_config := _; ks_metrics := _; ks_ring := []; ks_maps := _ |}) with s1.
  destruct (kernel_ticks s1 segs) as [ticks s'] eqn:E. cbn [fst lost_seen].
  rewrite (wrap64_small (n + 1)) by (unfold is_u64; pose proof (zlen_nonneg segs); lia).
  change (read_percpu_sum (percpu_lookup s1) fd METRIC_LOST_EVENTS) with (lost_total s1). rewrite Hl1.
  set (acc1 := if (n + 1) mod LOST_EVENTS_CHECK_INTERVAL =? 0 then _ else acc).
  assert (Hacc1 : acc <= acc1 <= base + krun_refused s acts) by (unfold acc1; destruct (_ =? 0); lia).
  specialize (IH s1 (n + 1) acc1 (base + krun_refused s acts) Hm1 Hl1). rewrite E in IH. cbn [fst] in IH.
  destruct IH as [Hb He]; [lia..|]. split; [lia|]. intros _ Hmod.
  rewrite zlen_cons in Hmod. destruct segs as [|acts' segs].
  - simpl in E. injection E as <- <-. simpl in *. change (zlen []) with 0 in Hmod. rewrite Z.add_0_r in Hmod.
    unfold acc1. rewrite Hmod. simpl. lia.
  - rewrite He; [lia|done|]. rewrite <- Z.add_assoc, (Z.add_comm 1). by rewrite <- Hmod; f_equal; lia.
Qed.
End Session.

Section Together.
Context {M I K L W : Type} `{!Program M I K} `{!Contract M I K} `{Reporter W} `{!Observer W L}.
Context `{!Reads M I K L W}.

Lemma shorts_full (l : list (list Z)) : Forall (fun d => obs_size <= zlen d) l -> shorts l = 0 /\ fulls l = zlen l.
Proof.
  unfold shorts, fulls, is_short. induction 1 as [|d l Hd _ IH]; [done|]. simpl.
  rewrite (proj2 (Z.ltb_ge _ _) Hd). simpl. rewrite !zlen_cons. destruct IH as [-> ->]. done.
Qed.

Lemma fulls_filter (l : list (list Z)) :
  fulls l = zlen l -> List.filter (fun d => negb (is_short d)) l = l.
Proof.
  unfold fulls. induction l as [|d l IH]; [done|]. simpl. rewrite zlen_cons.
  destruct (is_short d); simpl; rewrite ?zlen_cons.
  - pose proof (List.filter_length_le (fun d => negb (is_short d)) l). unfold zlen. lia.
  - intros E. rewrite IH by lia. done.
Qed.

(** The losses of a fresh machine start at zero. *)
Lemma lost_total_zero (nr : nat) (maps : M) : lost_total (kstate_zero nr maps) = 0.
Proof.
  unfold lost_total, read_percpu_sum, percpu_lookup, kstate_zero. simpl.
  induction nr as [|nr IH]; [done|]. simpl. exact IH.
Qed.

Lemma metrics_zero_ok (nr : nat) : metrics_ok nr (metrics_zero nr).
Proof.
  unfold metrics_ok, metrics_zero. generalize METRIC_SLOTS. intros n.
  induction n as [|n IH]; [done|]. simpl. by rewrite length_replicate, IH.
Qed.

(** * Properties *)

(** C13. Nothing the kernel saw goes missing between it and the observer.  Over a
    session of any length, in which hooks fire, configurations are installed
    and entries evicted in any order, the records the observer looked at, as
    a log of its calls shows them, followed by those it left in the ring are
    exactly the records the program submitted, each once and in order; none
    was malformed, each one looked at was counted, and none is left when no
    tick brings more than 2048.  While the losses fit in 64 bits, the loss it
    exports never exceeds the number of reservations the program was refused,
    and is exactly that number after a tick that reads it. *)
Theorem observer_accounts_for_kernel (nr : nat) (fd : Z) (segs : list (list (kaction I K))) (l : L) (w : W)
    (Hok : Forall (Forall action_ok) segs) (Hcpu : Forall (Forall (on_cpus nr)) segs)
    (Hmax : seg_refused (kstate_zero nr prog_empty) segs <= U64_MAX) (Hlen : zlen segs <= U64_MAX) :
  let s0 := kstate_zero nr prog_empty in
  let ticks := fst (kernel_ticks s0 segs) in
  let m := dr_metrics (run (Some fd) ticks (fresh_state l w)) in
  let '(in_ring, seen) :=
    run_ticks (Observer0 := logged_observer) (Some fd) ticks [] (fresh_state ([], l) w) in
  (run_ticks (Some fd) ticks [] (fresh_state l w) = (in_ring, forget_log seen) /\
   observed_records seen ++ in_ring = seg_records s0 segs) /\
  (wrap64 (metric_value MEvents [obs_name] m) = wrap64 (zlen (observed_records seen)) /\
   wrap64 (metric_value MMalformed [obs_name] m) = 0) /\
  (Forall (fun t => zlen (fst t) <= MAX_DRAIN_PER_TICK) ticks -> in_ring = []) /\
  wrap64 (metric_value MLost [obs_name] m) <= seg_refused s0 segs /\
  (segs <> [] -> zlen segs mod LOST_EVENTS_CHECK_INTERVAL = 0 ->
   wrap64 (metric_value MLost [obs_name] m) = seg_refused s0 segs).
Proof.
  cbv zeta. set (s0 := kstate_zero nr prog_empty). set (ticks := fst (kernel_ticks s0 segs)).
  assert (Hall : Forall (judged (fun _ => True)) (seg_records s0 segs))
    by (apply seg_records_judged; [apply kinv_zero|done|done]).
  destruct (run_lost (Some fd) ticks l w) as [Hlost _].
  destruct (seg_lost_seen nr fd s0 segs 0 0 0) as [Hb Heq]; try done;
    [apply metrics_zero_ok|apply lost_total_zero|]. rewrite Hlost.
  destruct (run_metrics (Some fd) ticks (fresh_state l w)) as [-> _].
  pose proof (run_ticks_keeps_up (Some fd) ticks (fresh_state l w)) as Hkeeps.
  pose proof (run_ticks_conserves (Some fd) ticks [] (fresh_state l w)) as Hc.
  pose proof (logged_run_ticks (Some fd) ticks [] (fresh_state ([], l) w)) as Hlog.
  destruct (run_ticks (Observer0 := logged_observer) _ _ _ _) as [in_ring seen].
  destruct Hlog as [E (handled & Hh & Hr)]. change (forget_log (fresh_state ([], l) w)) with (fresh_state l w) in E.
  rewrite E in *. destruct Hc as (handled' & Hh' & He & Hm & _). simpl in Hh, Hh', Hr.
  rewrite Hh in Hh'. apply app_inv_tail in Hh' as <-.
  unfold ticks in Hh. rewrite kernel_ticks_records in Hh by done. rewrite Hh in Hall |- *.
  apply Forall_app in Hall as [Hj _].
  destruct (shorts_full handled) as [Hs Hf].
  { eapply Forall_impl; [exact Hj|]. intros d (cfg & _ & _ & Hd). by eapply reads_size. }
  rewrite (fulls_filter _ Hf) in Hr. rewrite Hr. split; [done|].
  split; [|split; [exact Hkeeps|]; split; [apply Hb|exact Heq]].
  rewrite Hf in He. rewrite Hs in Hm. split; [by apply (grown_value _ _ _ _ _ He)|].
  exact (grown_value _ _ _ _ _ Hm eq_refl).
Qed.

(** C26. Every record a program submits is well formed, of the format its
    observer reads, and evidence of one judgement: it was made under a
    configuration that had been installed, is of this version and enables the
    program, and carries that configuration's generation; the program's maps
    stay well formed throughout. *)
Theorem records_are_judged (nr : nat) (acts : list (kaction I K)) (Hok : Forall action_ok acts) :
  let s := krun (kstate_zero nr prog_empty) acts in
  Forall (fun data => obs_size <= zlen data /\
    exists cfg, In (Configure cfg) acts /\ observer_enabled cfg prog_flag = true /\ prog_record cfg data) (ks_ring s) /\
  prog_maps_ok (ks_maps s).
Proof.
  destruct (krun_inv (fun cfg => In (Configure cfg) acts) _ _ (kinv_zero _ nr) Hok (fun _ H => H)) as [_ Hm Hr].
  split; [|exact Hm]. eapply Forall_impl; [exact Hr|]. intros data (cfg & Hin & Hon & Hd).
  split; [by eapply reads_size|]. by exists cfg.
Qed.
End Together.

(** The storage program and its observer, with a sink that does nothing. *)
#[local, program] Instance null_reporter : Reporter unit := {
  report _ m w := (Ok tt, m, w);
  report_flush w := (Ok tt, w);
}.
Next Obligation. done. Qed.

#[local] Instance null_env : Env unit := {
  env_now w := (0, w);
  env_id w := (EmptyString, w);
  env_thresholds w := {| pt_stall_pct_warning := f64_of_Z 20; pt_stall_pct_critical := f64_of_Z 40;
                         pt_ipc_degradation := f64_of_Z 1 |};
  env_read_file _ _ := None;
}.

Definition no_room (ctx : bpf_ctx) : bpf_ctx := {|
  ctx_ktime_ns := ctx_ktime_ns ctx; ctx_pid_tgid := ctx_pid_tgid ctx; ctx_cgroup_id := ctx_cgroup_id ctx;
  ctx_comm := ctx_comm ctx; ctx_cpu := ctx_cpu ctx; ctx_reserve _ := false; ctx_map_room := ctx_map_room ctx |}.

(** One slow read is reported, the next one finds no room; a thousand ticks. *)
Definition lossy_session : list (list (kaction storage_hook io_key)) :=
  [Configure storage_config; Invoke (ctx_at 1000000000) (HookIssue read_4k);
   Invoke (ctx_at 1250000000) (HookComplete read_4k 0);
   Invoke (ctx_at 2000000000) (HookIssue read_4k);
   Invoke (no_room (ctx_at 2250000000)) (HookComplete read_4k 0)] :: replicate 999 [].

Lemma lossy_session_ok : Forall (Forall action_ok) lossy_session /\ Forall (Forall (on_cpus 2)) lossy_session.
Proof.
  assert (Hc : forall t, 0 <= t < 2 ^ 64 -> ctx_wf (no_room (ctx_at t))).
  { intros t Ht. exact (ctx_at_wf t Ht). }
  assert (He : i32_ok 0) by (vm_compute; split; congruence).
  split; (constructor; [|apply Forall_replicate; constructor]).
  - constructor; [exact storage_config_wf|].
    constructor; [split; [apply ctx_at_wf; lia|exact read_4k_wf]|].
    constructor; [split; [apply ctx_at_wf; lia|exact (conj read_4k_wf He)]|].
    constructor; [split; [apply ctx_at_wf; lia|exact read_4k_wf]|].
    constructor; [split; [apply Hc; lia|exact (conj read_4k_wf He)]|constructor].
  - repeat constructor.
Qed.

Lemma observer_accounts_for_kernel_witness :
  let s0 := kstate_zero 2 ∅ in
  let ticks := fst (kernel_ticks s0 lossy_session) in
  let m := dr_metrics (run (Observer0 := storage_observer 0) (Some 5) ticks (fresh_state tt tt)) in
  let '(in_ring, seen) :=
    run_ticks (Observer0 := logged_observer (Observer0 := storage_observer 0)) (Some 5) ticks []
      (fresh_state ([], tt) tt) in
  seg_refused s0 lossy_session = 1 /\ zlen (seg_records s0 lossy_session) = 1 /\
  observed_records seen ++ in_ring = seg_records s0 lossy_session /\ in_ring = [] /\
  wrap64 (metric_value MLost ["storage"] m) = seg_refused s0 lossy_session.
Proof.
  assert (Hmax : seg_refused (kstate_zero 2 prog_empty) lossy_session <= U64_MAX) by (vm_compute; congruence).
  assert (Hlen : zlen lossy_session <= U64_MAX) by (vm_compute; congruence).
  assert (H1 : seg_refused (kstate_zero 2 ∅) lossy_session = 1) by (vm_compute; reflexivity).
  assert (H2 : zlen (seg_records (kstate_zero 2 ∅) lossy_session) = 1) by (vm_compute; reflexivity).
  assert (Hne : lossy_session <> []) by discriminate.
  assert (Hmod : zlen lossy_session mod LOST_EVENTS_CHECK_INTERVAL = 0) by (vm_compute; reflexivity).
  assert (Hfew : forallb (fun t : list (list Z) * (Z -> Z -> option (list Z)) => zlen (fst t) <=? MAX_DRAIN_PER_TICK)
    (fst (kernel_ticks (kstate_zero 2 prog_empty) lossy_session)) = true) by (vm_compute; reflexivity).
  rewrite forallb_forall in Hfew.
  pose proof (observer_accounts_for_kernel (Observer0 := storage_observer 0) 2 5 lossy_session tt tt
    (proj1 lossy_session_ok) (proj2 lossy_session_ok) Hmax Hlen) as H.
  cbv zeta in H |- *. change (kstate_zero 2 ∅) with (kstate_zero 2 (M := inflight) prog_empty) in *.
  destruct (run_ticks (Observer0 := logged_observer) _ _ _ _) as [in_ring seen].
  destruct H as [[_ Hr] [_ [Hleft [_ Hlost]]]].
  split; [exact H1|]. split; [exact H2|]. split; [exact Hr|]. split; [|exact (Hlost Hne Hmod)].
  apply Hleft, Forall_forall. intros t Ht. apply Z.leb_le, Hfew, list_elem_of_In, Ht.
Defined.

Lemma records_are_judged_witness :
  prog_maps_ok (ks_maps (krun (kstate_zero 2 prog_empty) (List.hd [] lossy_session))).
Proof.
  apply (records_are_judged (Observer0 := storage_observer 0) (L := unit) (W := unit) 2 (List.hd [] lossy_session)).
  pose proof (proj1 lossy_session_ok) as H. apply Forall_cons in H. exact (proj1 H).
Defined.
