(* ===== verification/Otlp.v ===== *)
(** [tapio-agent/src/sink/otlp.rs]: the OTLP log exporter.  Protobuf encoding
    (prost), compression (flate2) and the reading of a timestamp (chrono) are
    third-party code; connecting to a socket address is the class [TcpAddr]. *)
From Stdlib Require Import String.
From S2P Require Import Prelude RustStr BTree Occurrence Metrics AgentConfig Sink HttpSink.
From S2P Require Import NetAddr.

Local Open Scope Z_scope.

(** * The message *)

Record AnyValue := { av_string_value : string }.

Record KeyValue := {
  kv_key : string;
  kv_value : option AnyValue;
}.

Record LogRecord := {
  lr_time_unix_nano : Z;
  lr_severity_number : Z;
  lr_body : option AnyValue;
  lr_attributes : list KeyValue;
}.

Record ScopeLogs := { sl_log_records : list LogRecord }.

Record Resource := { rs_attributes : list KeyValue }.

Record ResourceLogs := {
  rl_resource : option Resource;
  rl_scope_logs : list ScopeLogs;
}.

Record ExportLogsServiceRequest := { er_resource_logs : list ResourceLogs }.

Inductive SeverityNumber := SnInfo | SnWarn | SnError | SnFatal.

Definition SeverityNumber_as_i32 (n : SeverityNumber) : Z :=
  match n with SnInfo => 9 | SnWarn => 13 | SnError => 17 | SnFatal => 21 end.

Definition severity_to_otlp (s : Severity) : Z :=
  SeverityNumber_as_i32
    match s with
    | Debug | Info => SnInfo
    | Warning => SnWarn
    | Error => SnError
    | Critical => SnFatal
    end.

Definition kv (key val : string) : KeyValue :=
  {| kv_key := key; kv_value := Some {| av_string_value := val |} |}.

Definition opt_kv (key : string) (o : option string) : list KeyValue :=
  match o with Some v => [kv key v] | None => [] end.

(** [s.split_whitespace()]; [cur] is the word being read, reversed. *)
Definition end_word (cur : string) (rest : list string) : list string :=
  if str_empty cur then rest else str_rev cur :: rest.

Fixpoint words_from (s cur : string) : list string :=
  match s with
  | EmptyString => end_word cur []
  | String a s1 =>
      if ws1 a then end_word cur (words_from s1 EmptyString)
      else
        match s1 with
        | String b s2 =>
            if ws2 a b then end_word cur (words_from s2 EmptyString)
            else
              match s2 with
              | String c s3 =>
                  if ws3 a b c then end_word cur (words_from s3 EmptyString)
                  else words_from s1 (String a cur)
              | EmptyString => words_from s1 (String a cur)
              end
        | EmptyString => words_from s1 (String a cur)
        end
  end.

Definition split_whitespace (s : string) : list string := words_from s EmptyString.

(** What came of a connection: it failed, a write failed, the first line could
    not be read, or it was read. *)
Inductive otlp_io :=
| OConnectFailed (e : string)
| OWriteFailed (e : string)
| OReadFailed (e : string)
| OLine (status_line : string).

Class TcpAddr (W : Type) := {
  addr_exchange : SocketAddr -> string -> string -> W -> otlp_io * W;
  addr_sleep : Z -> W -> W;
}.

(** * The sink *)

Record OtlpSinkState := {
  os_endpoint : string;
  os_auth_header : option string;
  os_batch_size : Z;
  os_flush_interval : Z;
  os_retry_backoff_ms : list Z;
  os_buffer : list Occurrence;
  os_last_flush : Z;
}.

Definition normalize_http_endpoint (endpoint : string) : result string SinkError :=
  let trimmed := trim_end_matches "/" (trim endpoint) in
  if str_empty trimmed then Err (Connection "OTLP endpoint is empty")
  else if starts_with trimmed "https://" then
    Err (Connection "OTLP sink supports plaintext http:// only; use a local collector or TLS-terminating proxy for HTTPS")
  else
    match strip_prefix trimmed "http://" with
    | None => Err (Connection ("OTLP endpoint must start with http://: " +:+ trimmed))
    | Some rest =>
        if str_empty (hd EmptyString (split "/" rest)) then
          Err (Connection ("OTLP endpoint missing host: " +:+ trimmed))
        else Ok trimmed
    end.

(** [fits] says which numbers of occurrences a vector can be given room for: a
    larger capacity makes [Vec::with_capacity] panic, which is None.  An
    occurrence takes more than ten bytes, so that ten times a batch size that
    fits is a [usize]. *)
Definition OtlpSink_new (fits : Z -> bool) (endpoint : string) (auth_header : option string)
    (batch_size flush_interval now : Z) : option (result OtlpSinkState SinkError) :=
  match normalize_http_endpoint endpoint with
  | Err e => Some (Err e)
  | Ok endpoint =>
      if fits batch_size then
        Some (Ok {| os_endpoint := endpoint;
                    os_auth_header := auth_header;
                    os_batch_size := batch_size;
                    os_flush_interval := flush_interval;
                    os_retry_backoff_ms := [500; 1000; 2000];
                    os_buffer := [];
                    os_last_flush := now |})
      else None
  end.

Definition with_otlp_buffer (buffer : list Occurrence) (last_flush : Z) (s : OtlpSinkState) :
  OtlpSinkState := {|
  os_endpoint := os_endpoint s; os_auth_header := os_auth_header s; os_batch_size := os_batch_size s;
  os_flush_interval := os_flush_interval s; os_retry_backoff_ms := os_retry_backoff_ms s;
  os_buffer := buffer; os_last_flush := last_flush |}.

Definition MAX_BUFFER_MULTIPLIER : Z := 10.

Section Otlp.
(** [DateTime::parse_from_rfc3339]: None for an error, the instant's nanoseconds
    when they fit an [i64] otherwise. *)
Variable parse_from_rfc3339 : string -> option (option Z).
Variable package_version : string.
Variable encode_request : ExportLogsServiceRequest -> string.
Variable gzip : string -> result string string.
Context {W : Type} `{Host W} `{TcpAddr W}.

Definition occurrence_to_log_record (occ : Occurrence) : LogRecord :=
  let attrs :=
    [kv "occurrence.id" (oc_id occ); kv "anomaly.type" (oc_occurrence_type occ);
     kv "tapio.source" (oc_source occ)] in
  let attrs :=
    attrs ++
    match oc_context occ with
    | None => []
    | Some ctx =>
        opt_kv "k8s.node.name" (ctx_node ctx) ++
        opt_kv "k8s.namespace.name" (ctx_namespace ctx) ++
        concat (map (fun entity =>
          if String.eqb (ent_kind entity) "pod" then opt_kv "k8s.pod.name" (ent_name entity) else [])
          (ctx_entities ctx))
    end in
  let body_text := match oc_error occ with Some e => oe_message e | None => EmptyString end in
  let time_unix_nano :=
    match parse_from_rfc3339 (oc_timestamp occ) with
    | Some nanos => wrap64 (default 0 nanos)
    | None => 0
    end in
  {| lr_time_unix_nano := time_unix_nano;
     lr_severity_number := severity_to_otlp (oc_severity occ);
     lr_body := Some {| av_string_value := body_text |};
     lr_attributes := attrs |}.

Definition otlp_request_head (path host : string) (auth : option string) (body_len : Z) : string :=
  "POST " +:+ path +:+ " HTTP/1.1" +:+ Httpc.http_crlf +:+
  "Host: " +:+ host +:+ Httpc.http_crlf +:+
  "Content-Type: application/x-protobuf" +:+ Httpc.http_crlf +:+
  "Content-Encoding: gzip" +:+ Httpc.http_crlf +:+
  "Content-Length: " +:+ dec body_len +:+ Httpc.http_crlf +:+
  match auth with
  | Some auth => "Authorization: " +:+ auth +:+ Httpc.http_crlf
  | None => EmptyString
  end +:+
  "Connection: close" +:+ Httpc.http_crlf +:+ Httpc.http_crlf.

(** The status of the answer, 0 when its first line has none. *)
Definition status_of_line (status_line : string) : Z :=
  match split_whitespace status_line with
  | _ :: code :: _ => default 0 (parse_unsigned U16_MAX code)
  | _ => 0
  end.

Definition http_post (auth : option string) (url body : string) (w : W) : result Z SinkError * W :=
  match strip_prefix url "http://" with
  | None => (Err (Connection ("OTLP endpoint must use http://: " +:+ url)), w)
  | Some url =>
      let '(host, path) :=
        match split_once "/" url with
        | Some (host, path) => (host, "/" +:+ path)
        | None => (url, "/")
        end in
      let addr := if contains_char ":" host then host else host +:+ ":80" in
      match parse_socket_addr addr with
      | None => (Err (Connection ("invalid address " +:+ addr +:+ ": invalid socket address syntax")), w)
      | Some a =>
          let '(io, w) := addr_exchange a (otlp_request_head path host auth (slen body)) body w in
          (match io with
           | OConnectFailed e => Err (Connection e)
           | OWriteFailed e => Err (Send e)
           | OReadFailed e => Err (Send e)
           | OLine l => Ok (status_of_line l)
           end, w)
      end
  end.

(** The loop over the delays, from attempt number [attempt] on. *)
Fixpoint export_attempts (delays : list Z) (attempt retries : nat) (auth : option string)
    (url body : string) (w : W) : result unit SinkError * W :=
  match delays with
  | [] => (Err (Send "OTLP export: retries exhausted"), w)
  | backoff_ms :: rest =>
      let w := if (0 <? attempt)%nat then addr_sleep (from_millis backoff_ms) w else w in
      let '(r, w) := http_post auth url body w in
      match r with
      | Ok status =>
          if (200 <=? status) && (status <? 300) then (Ok tt, w)
          else if (status =? 429) || (500 <=? status) then
            export_attempts rest (S attempt) retries auth url body w
          else (Err (Send ("OTLP export failed: HTTP " +:+ dec status)), w)
      | Err e =>
          if (attempt <? retries)%nat then export_attempts rest (S attempt) retries auth url body w
          else (Err e, w)
      end
  end.

Definition export_request (batch : list Occurrence) : ExportLogsServiceRequest := {|
  er_resource_logs :=
    [{| rl_resource :=
          Some {| rs_attributes :=
                    [kv "service.name" "tapio"; kv "service.version" package_version] |};
        rl_scope_logs := [{| sl_log_records := map occurrence_to_log_record batch |}] |}] |}.

Definition export_batch (batch : list Occurrence) (s : OtlpSinkState) (w : W) :
  result unit SinkError * W :=
  if is_empty batch then (Ok tt, w)
  else
    match gzip (encode_request (export_request batch)) with
    | Err e => (Err (Serialization e), w)
    | Ok compressed =>
        export_attempts (0 :: os_retry_backoff_ms s) 0 (length (os_retry_backoff_ms s))
          (os_auth_header s) (os_endpoint s +:+ "/v1/logs") compressed w
    end.

Definition otlp_push (s : OtlpSinkState) (o : Occurrence) : list Occurrence :=
  let max_buffer := os_batch_size s * MAX_BUFFER_MULTIPLIER in
  (if max_buffer <=? zlen (os_buffer s) then
     drop (Z.to_nat (zlen (os_buffer s) - os_batch_size s)) (os_buffer s)
   else os_buffer s) ++ [o].

Definition otlp_send (o : Occurrence) (s : OtlpSinkState) (w : W) :
  result unit SinkError * OtlpSinkState * W :=
  let buffer := otlp_push s o in
  let '(should_flush, w) :=
    if os_batch_size s <=? zlen buffer then (true, w)
    else let '(now, w) := host_now w in (os_flush_interval s <=? now - os_last_flush s, w) in
  if should_flush then
    let '(now, w) := host_now w in
    let s := with_otlp_buffer [] now s in
    let '(r, w) := export_batch buffer s w in (r, s, w)
  else (Ok tt, with_otlp_buffer buffer (os_last_flush s) s, w).

Definition otlp_flush (s : OtlpSinkState) (w : W) : result unit SinkError * OtlpSinkState * W :=
  if is_empty (os_buffer s) then (Ok tt, s, w)
  else
    let '(now, w) := host_now w in
    let s' := with_otlp_buffer [] now s in
    let '(r, w) := export_batch (os_buffer s) s' w in (r, s', w).

Definition OtlpSink : Sink W OtlpSinkState :=
  {| sink_send := otlp_send; sink_flush := otlp_flush; sink_name := "otlp" |}.

(** * The attempts of an export *)

Definition is_2xx (r : result Z SinkError) : bool :=
  match r with Ok status => (200 <=? status) && (status <? 300) | Err _ => false end.

Definition is_retryable (r : result Z SinkError) : bool :=
  match r with
  | Ok status => negb ((200 <=? status) && (status <? 300)) && ((status =? 429) || (500 <=? status))
  | Err _ => true
  end.

(** Successive posts, each after its delay but the first. *)
Inductive posted (auth : option string) (url body : string) :
  nat -> list Z -> W -> list (result Z SinkError) -> W -> Prop :=
| posted_nil n ds w : posted auth url body n ds w [] w
| posted_cons n d ds w r w' rs w'' :
    http_post auth url body (if (0 <? n)%nat then addr_sleep (from_millis d) w else w) = (r, w') ->
    posted auth url body (S n) ds w' rs w'' ->
    posted auth url body n (d :: ds) w (r :: rs) w''.

Lemma export_attempts_spec (ds : list Z) (n : nat) (auth : option string) (url body : string) (w : W) :
  ds <> [] ->
  exists earlier r,
    posted auth url body n ds w (earlier ++ [r]) (snd (export_attempts ds n (n + length ds - 1) auth url body w)) /\
    Forall (fun r => is_retryable r = true) earlier /\
    (fst (export_attempts ds n (n + length ds - 1) auth url body w) = Ok tt <-> is_2xx r = true) /\
    (length earlier < length ds)%nat /\
    (is_retryable r = true -> length ds = S (length earlier)).
Proof.
  revert n w. induction ds as [|d ds IH]; intros n w Hds; [done|].
  cbn [export_attempts]. set (w1 := if (0 <? n)%nat then _ else w).
  destruct (http_post auth url body w1) as [r w'] eqn:Ep.
  (* the attempts after this one *)
  assert (Hnext : is_retryable r = true -> ds <> [] -> exists earlier r0,
    posted auth url body n (d :: ds) w (earlier ++ [r0])
      (snd (export_attempts ds (S n) (S n + length ds - 1) auth url body w')) /\
    Forall (fun r => is_retryable r = true) earlier /\
    (fst (export_attempts ds (S n) (S n + length ds - 1) auth url body w') = Ok tt <-> is_2xx r0 = true) /\
    (length earlier < length (d :: ds))%nat /\
    (is_retryable r0 = true -> length (d :: ds) = S (length earlier))).
  { intros Hr Hne. destruct (IH (S n) w' Hne) as (earlier & r0 & Hp & Hf & Hv & Hl & Hlast).
    exists (r :: earlier), r0. split; [by econstructor|]. split; [by constructor|]. split; [done|].
    simpl. split; [lia|]. intros Hr0. rewrite Hlast by done. done. }
  assert (Hone : posted auth url body n (d :: ds) w ([] ++ [r]) w').
  { econstructor; [exact Ep|constructor]. }
  replace (n + length (d :: ds) - 1)%nat with (S n + length ds - 1)%nat by (simpl; lia).
  destruct r as [status|e]; simpl in Hnext.
  - destruct ((200 <=? status) && (status <? 300)) eqn:E2.
    { exists [], (Ok status). simpl. rewrite E2. split; [done|]. split; [done|]. split; [done|].
      split; [lia|done]. }
    destruct ((status =? 429) || (500 <=? status)) eqn:Er.
    + destruct (decide (ds = [])) as [->|Hne]; [|by apply Hnext].
      exists [], (Ok status). simpl. rewrite E2, Er. repeat split; solve [done|lia].
    + exists [], (Ok status). simpl. rewrite E2, Er. split; [done|]. split; [done|].
      split; [done|]. split; [lia|done].
  - destruct (Nat.ltb_spec n (S n + length ds - 1)) as [Hlt|Hge].
    + apply Hnext; [done|]. intros ->. simpl in Hlt. lia.
    + destruct ds; [|simpl in Hge; lia]. exists [], (Err e). simpl. repeat split; solve [done|lia].
Qed.

(** A character that can start a host name but not an address. *)
Definition names_host (a : ascii) : bool :=
  negb (is_digit a) && negb (Ascii.eqb a "[") && negb (Ascii.eqb a "/").

Definition invalid_address (r : result Z SinkError) : Prop :=
  exists addr, r = Err (Connection ("invalid address " +:+ addr +:+ ": invalid socket address syntax")).

Lemma http_post_names_host (auth : option string) (a : ascii) (rest body : string) :
  names_host a = true -> exists addr, forall w,
  http_post auth ("http://" +:+ String a rest) body w =
    (Err (Connection ("invalid address " +:+ addr +:+ ": invalid socket address syntax")), w).
Proof.
  unfold names_host. intros Hn. apply andb_prop in Hn as [Hn Hs]. apply andb_prop in Hn as [Hd Hb].
  rewrite negb_true_iff in Hs, Hd, Hb.
  unfold http_post. rewrite strip_prefix_app. cbn [split_once]. rewrite Hs.
  assert (Hp : forall h, parse_socket_addr (if contains_char ":" (String a h) then String a h
                                       else String a h +:+ ":80") = None).
  { intros h. destruct (contains_char ":" (String a h)); by apply parse_socket_addr_head. }
  destruct (split_once "/" rest) as [[h p]|]; (eexists; intros w; by rewrite Hp).
Qed.

(** * The buffer *)

(** The largest batch: one occurrence for a batch size of zero. *)
Definition batch_limit (s : OtlpSinkState) : Z := Z.max 1 (os_batch_size s).

Record otlp_inv (s : OtlpSinkState) : Prop := {
  ov_size : 0 <= os_batch_size s;
  ov_buffer : zlen (os_buffer s) < batch_limit s;
  ov_retries : os_retry_backoff_ms s = [500; 1000; 2000];
}.

Lemma otlp_new_inv (fits : Z -> bool) (endpoint : string) (auth : option string) (batch_size interval now : Z)
    (s : OtlpSinkState) :
  0 <= batch_size -> OtlpSink_new fits endpoint auth batch_size interval now = Some (Ok s) -> otlp_inv s.
Proof.
  intros Hb. unfold OtlpSink_new. destruct (normalize_http_endpoint endpoint); [|done].
  destruct (fits batch_size); [|done]. intros [= <-]. constructor; [done| |done]. unfold batch_limit. simpl.
  rewrite zlen_nil. lia.
Qed.

Lemma otlp_push_small (s : OtlpSinkState) (o : Occurrence) :
  otlp_inv s -> otlp_push s o = os_buffer s ++ [o] /\ zlen (otlp_push s o) <= batch_limit s.
Proof.
  intros [Hpos Hs _]. unfold otlp_push, MAX_BUFFER_MULTIPLIER, batch_limit in *. pose proof (zlen_nonneg (os_buffer s)).
  destruct (Z.leb_spec (os_batch_size s * 10) (zlen (os_buffer s))).
  - assert (E : os_buffer s = []) by (destruct (os_buffer s); [done|rewrite zlen_cons in *;
      pose proof (zlen_nonneg l); lia]).
    rewrite E, !drop_nil. split; [done|]. change (zlen ([] ++ [o])) with 1. lia.
  - rewrite zlen_app, zlen_cons, zlen_nil. split; [done|lia].
Qed.

(** * Properties *)

(** An export posts a non-empty batch at most four times, waiting half a
    second, one and two seconds before the second, third and fourth: it stops
    at the first answer that is not worth retrying (a connection error, 429
    and 5xx are), it succeeds exactly when that answer is 2xx, and it gives up
    on a retryable answer only after the last attempt. *)
Lemma otlp_export_retries (batch : list Occurrence) (s : OtlpSinkState) (compressed : string) (w : W)
    (Hbatch : batch <> []) (Hretry : os_retry_backoff_ms s = [500; 1000; 2000])
    (Hgzip : gzip (encode_request (export_request batch)) = Ok compressed) :
  exists earlier r,
    posted (os_auth_header s) (os_endpoint s +:+ "/v1/logs") compressed 0 [0; 500; 1000; 2000] w
      (earlier ++ [r]) (snd (export_batch batch s w)) /\
    Forall (fun r => is_retryable r = true) earlier /\
    (fst (export_batch batch s w) = Ok tt <-> is_2xx r = true) /\
    (length earlier <= 3)%nat /\ (is_retryable r = true -> length earlier = 3%nat).
Proof.
  unfold export_batch. rewrite (proj2 (is_empty_false batch) Hbatch), Hgzip, Hretry.
  destruct (export_attempts_spec [0; 500; 1000; 2000] 0 (os_auth_header s)
    (os_endpoint s +:+ "/v1/logs") compressed w) as (earlier & r & Hp & Hf & Hv & Hl & Hlast); [done|].
  exists earlier, r. simpl in Hl, Hlast. split; [exact Hp|]. split; [exact Hf|]. split; [exact Hv|].
  split; [lia|]. intros Hr. specialize (Hlast Hr). lia.
Qed.

(** ** A session *)

(** What the export of a batch returns after its last answer. *)
Definition answer_result (answer : result Z SinkError) : result unit SinkError :=
  match answer with
  | Err e => Err e
  | Ok status =>
      if is_2xx answer then Ok tt
      else if is_retryable answer then Err (Send "OTLP export: retries exhausted")
      else Err (Send ("OTLP export failed: HTTP " +:+ dec status))
  end.

(** One export, from the network as it is to the network after it. *)
Definition exported (s : OtlpSinkState) (batch : list Occurrence) (w : W) (r : result unit SinkError) (w' : W) : Prop :=
  match gzip (encode_request (export_request batch)) with
  | Err e => r = Err (Serialization e) /\ w' = w
  | Ok compressed =>
      exists earlier answer,
        posted (os_auth_header s) (os_endpoint s +:+ "/v1/logs") compressed 0 [0; 500; 1000; 2000] w
          (earlier ++ [answer]) w' /\
        Forall (fun a => is_retryable a = true) earlier /\ (length earlier <= 3)%nat /\
        (is_retryable answer = true -> length earlier = 3%nat) /\ r = answer_result answer
  end.

(** The clock may be read between two exports. *)
Inductive ticked : W -> W -> Prop :=
| ticked_now w : ticked w w
| ticked_later w w' : ticked (snd (host_now w)) w' -> ticked w w'.

(** The exports of a session, one after another, and nothing else. *)
Inductive exports (s : OtlpSinkState) : W -> list (list Occurrence * result unit SinkError) -> W -> Prop :=
| exports_none w w' : ticked w w' -> exports s w [] w'
| exports_one w w1 w2 w' batch r log :
    ticked w w1 -> batch <> [] -> zlen batch <= batch_limit s -> exported s batch w1 r w2 -> exports s w2 log w' ->
    exports s w ((batch, r) :: log) w'.

Lemma ticked_trans (w w' w'' : W) : ticked w w' -> ticked w' w'' -> ticked w w''.
Proof. induction 1; [done|]. intros H2. apply ticked_later. auto. Qed.

Lemma exports_after (s : OtlpSinkState) (w w' w'' : W) (log : list (list Occurrence * result unit SinkError)) :
  ticked w w' -> exports s w' log w'' -> exports s w log w''.
Proof.
  intros Ht He. inversion He as [? ? Ht'|? w1 ? ? ? ? ? Ht']; subst.
  - apply exports_none. by eapply ticked_trans.
  - eapply exports_one; [by eapply ticked_trans|eassumption..].
Qed.

Lemma exports_app (s : OtlpSinkState) (w w' w'' : W) (log log' : list (list Occurrence * result unit SinkError)) :
  exports s w log w' -> exports s w' log' w'' -> exports s w (log ++ log') w''.
Proof.
  intros H1 H2. induction H1; [by eapply exports_after|]. simpl. eapply exports_one; try eassumption. auto.
Qed.

(** Only the fixed fields matter. *)
Lemma exports_static (s s' : OtlpSinkState) (w w' : W) (log : list (list Occurrence * result unit SinkError)) :
  os_endpoint s' = os_endpoint s /\ os_auth_header s' = os_auth_header s /\ os_batch_size s' = os_batch_size s ->
  exports s' w log w' -> exports s w log w'.
Proof.
  intros (E1 & E2 & E3). induction 1; [by apply exports_none|]. unfold batch_limit, exported in *.
  rewrite E1, E2, E3 in *. by eapply exports_one.
Qed.

Lemma export_attempts_result (ds : list Z) (n : nat) (auth : option string) (url body : string) (w : W)
    (earlier : list (result Z SinkError)) (answer : result Z SinkError) (w' : W) :
  posted auth url body n ds w (earlier ++ [answer]) w' ->
  Forall (fun r => is_retryable r = true) earlier -> (length earlier < length ds)%nat ->
  (is_retryable answer = true -> length ds = S (length earlier)) ->
  fst (export_attempts ds n (n + length ds - 1) auth url body w) = answer_result answer.
Proof.
  revert n ds w. induction earlier as [|r earlier IH]; intros n ds w Hp Hf Hl Hlast.
  - inversion Hp as [|? d ds' ? ? w1 ? ? Ep Hp']; subst. cbn [export_attempts]. rewrite Ep.
    unfold answer_result, is_2xx, is_retryable in *. destruct answer as [status|e].
    + destruct ((200 <=? status) && (status <? 300)); [done|]. simpl in *.
      destruct ((status =? 429) || (500 <=? status)); [|done]. specialize (Hlast eq_refl).
      by destruct ds'.
    + specialize (Hlast eq_refl). destruct ds'; [|done]. simpl. by rewrite (proj2 (Nat.ltb_ge n _)) by lia.
  - apply Forall_cons in Hf as [Hr Hf]. inversion Hp as [|? d ds' ? ? w1 ? ? Ep Hp']; subst.
    cbn [export_attempts]. rewrite Ep. simpl in Hl, Hlast.
    assert (Hds : (1 <= length ds')%nat) by lia.
    assert (Hnext : fst (export_attempts ds' (S n) (n + length (d :: ds') - 1) auth url body w1) = answer_result answer).
    { replace (n + length (d :: ds') - 1)%nat with (S n + length ds' - 1)%nat by (simpl; lia).
      apply IH; [done|done|lia|]. intros Ha. specialize (Hlast Ha). lia. }
    destruct r as [status|e]; simpl in Hr.
    + apply andb_true_iff in Hr as [H2 Hr]. rewrite negb_true_iff in H2. by rewrite H2, Hr.
    + rewrite (proj2 (Nat.ltb_lt n _)) by (simpl; lia). exact Hnext.
Qed.

Lemma export_batch_exported (batch : list Occurrence) (s : OtlpSinkState) (w : W) :
  batch <> [] -> os_retry_backoff_ms s = [500; 1000; 2000] ->
  exported s batch w (fst (export_batch batch s w)) (snd (export_batch batch s w)).
Proof.
  intros Hb Hret. unfold exported. destruct (gzip (encode_request (export_request batch))) as [compressed|e] eqn:Eg.
  - destruct (otlp_export_retries batch s compressed w Hb Hret Eg) as (earlier & answer & Hp & Hf & _ & Hl & Hlast).
    exists earlier, answer. do 4 (split; [done|]).
    unfold export_batch. rewrite (proj2 (is_empty_false batch) Hb), Eg, Hret.
    eapply (export_attempts_result [0; 500; 1000; 2000] 0); [exact Hp|done|simpl; lia|].
    intros Ha. rewrite Hlast by done. done.
  - unfold export_batch. by rewrite (proj2 (is_empty_false batch) Hb), Eg.
Qed.

Lemma otlp_do_static (a : sink_call) (s : OtlpSinkState) (w : W) :
  let s' := snd (fst (sink_do OtlpSink a s w)) in
  os_endpoint s' = os_endpoint s /\ os_auth_header s' = os_auth_header s /\ os_batch_size s' = os_batch_size s.
Proof.
  destruct a as [o|]; simpl; unfold otlp_send, otlp_flush.
  - destruct (os_batch_size s <=? zlen (otlp_push s o)); [|destruct (host_now w) as [now w0];
      destruct (os_flush_interval s <=? now - os_last_flush s); [|done]];
      destruct (host_now _) as [now' w1]; by destruct (export_batch (otlp_push s o) _ w1).
  - destruct (is_empty (os_buffer s)); [done|]. destruct (host_now w) as [now w0].
    by destruct (export_batch (os_buffer s) _ w0).
Qed.

(** A call that exports the whole buffer. *)
Lemma export_call (s : OtlpSinkState) (new : list Occurrence) (w : W) :
  otlp_inv s -> os_buffer s ++ new <> [] -> zlen (os_buffer s ++ new) <= batch_limit s ->
  let '(r, s', w') :=
    (let '(now, w) := host_now w in
     let s' := with_otlp_buffer [] now s in
     let '(r, w) := export_batch (os_buffer s ++ new) s' w in (r, s', w)) in
  otlp_inv s' /\ exists log, exports s w log w' /\
    os_buffer s ++ new = concat (map fst log) ++ os_buffer s' /\
    option_list (error_of r) = omap (fun x => error_of (snd x)) log.
Proof.
  intros [Hpos Hs Hret] Hb Hlen. destruct (host_now w) as [now w1] eqn:En.
  pose proof (export_batch_exported (os_buffer s ++ new) (with_otlp_buffer [] now s) w1 Hb Hret) as He.
  cbv zeta. destruct (export_batch _ _ w1) as [r w2]. split.
  { constructor; [done| |done]. unfold batch_limit. simpl. rewrite zlen_nil. lia. }
  exists [(os_buffer s ++ new, r)]. split; [|split; [simpl; by rewrite !app_nil_r|by destruct r]].
  eapply exports_one; [apply ticked_later; rewrite En; apply ticked_now|done|done|exact He|].
  apply exports_none, ticked_now.
Qed.

Lemma otlp_do_spec (a : sink_call) (s : OtlpSinkState) (w : W) :
  otlp_inv s ->
  let '(r, s', w') := sink_do OtlpSink a s w in
  otlp_inv s' /\ exists log, exports s w log w' /\
    os_buffer s ++ offered a = concat (map fst log) ++ os_buffer s' /\
    option_list (error_of r) = omap (fun x => error_of (snd x)) log.
Proof.
  intros Hs. destruct a as [o|]; simpl.
  - destruct (otlp_push_small s o Hs) as [Hp Hl]. unfold otlp_send. rewrite Hp in *.
    assert (Hne : os_buffer s ++ [o] <> []) by by destruct (os_buffer s).
    destruct (Z.leb_spec (os_batch_size s) (zlen (os_buffer s ++ [o]))) as [Hge|Hlt]; [by apply export_call|].
    destruct (host_now w) as [now w0] eqn:En.
    destruct (os_flush_interval s <=? now - os_last_flush s).
    + pose proof (export_call s [o] w0 Hs Hne Hl) as He. cbv zeta in *. destruct (host_now w0) as [now1 w1].
      destruct (export_batch _ _ w1) as [r w2]. destruct He as [Hi (log & He & E)]. split; [done|].
      exists log. split; [|exact E]. eapply exports_after; [|exact He]. apply ticked_later. rewrite En. apply ticked_now.
    + split; [|exists []; split; [|done]].
      * destruct Hs. constructor; [done| |done]. unfold batch_limit. simpl. lia.
      * apply exports_none, ticked_later. rewrite En. apply ticked_now.
  - unfold otlp_flush. destruct (is_empty (os_buffer s)) eqn:Ee.
    + split; [done|]. exists []. simpl. rewrite app_nil_r. split; [apply exports_none, ticked_now|done].
    + apply is_empty_false in Ee. pose proof (export_call s [] w Hs) as He. rewrite app_nil_r in *.
      apply He; [done|]. destruct Hs. lia.
Qed.

(** C37. Over any session of sends and flushes the exporter accounts for every
    occurrence, whatever the network does: the occurrences left its buffer in
    order, in batches of at most the batch size (one for a size of zero), and
    all the session did on the network was to export these batches one after
    another, each posted up to four times with delays of half a second, one
    and two seconds, until an answer that is not worth retrying; the rest is
    still buffered; its calls return, in order, the errors of the batches that
    failed, each the one its last answer calls for, and success otherwise; the
    overflow rule never drops anything. *)
Theorem otlp_sink_accounts (calls : list sink_call) (s : OtlpSinkState) (w : W) (Hs : otlp_inv s) :
  let '(answers, s', w') := sink_session OtlpSink calls s w in
  otlp_inv s' /\ length answers = length calls /\
  exists log, exports s w log w' /\
    os_buffer s ++ concat (map offered calls) = concat (map fst log) ++ os_buffer s' /\
    omap error_of answers = omap (fun x => error_of (snd x)) log.
Proof.
  revert s w Hs. induction calls as [|a calls IH]; intros s w Hs; simpl.
  { split; [done|]. split; [done|]. exists []. rewrite app_nil_r. split; [apply exports_none, ticked_now|done]. }
  pose proof (otlp_do_spec a s w Hs) as Ha. pose proof (otlp_do_static a s w) as Hst.
  destruct (sink_do OtlpSink a s w) as [[r s1] w1]. destruct Ha as (Hs1 & log1 & He1 & E1 & Hr1).
  specialize (IH s1 w1 Hs1). destruct (sink_session OtlpSink calls s1 w1) as [[rs s2] w2].
  destruct IH as (Hs2 & Hlen & log2 & He2 & E2 & Hr2). split; [done|]. split; [simpl; by rewrite Hlen|].
  exists (log1 ++ log2). split; [|split].
  - eapply exports_app; [exact He1|]. by eapply exports_static.
  - rewrite map_app, concat_app, app_assoc, E1, <- !app_assoc. by f_equal.
  - rewrite omap_app, <- Hr1, <- Hr2. by destruct r.
Qed.

(** An endpoint with a host name instead of an address, which the default
    endpoint has, never exports anything: no connection is attempted, the
    batch is lost after the three delays, and the error says the address is
    invalid. *)
Lemma otlp_host_name_never_connects (batch : list Occurrence) (s : OtlpSinkState) (a : ascii)
    (rest compressed : string) (w : W)
    (Hbatch : batch <> []) (Hretry : os_retry_backoff_ms s = [500; 1000; 2000])
    (Hhost : names_host a = true) (Hend : os_endpoint s = "http://" +:+ String a rest)
    (Hgzip : gzip (encode_request (export_request batch)) = Ok compressed) :
  exists addr,
    export_batch batch s w =
    (Err (Connection ("invalid address " +:+ addr +:+ ": invalid socket address syntax")),
     addr_sleep (from_millis 2000) (addr_sleep (from_millis 1000) (addr_sleep (from_millis 500) w))).
Proof.
  unfold export_batch. rewrite (proj2 (is_empty_false batch) Hbatch), Hgzip, Hretry, Hend, str_app_assoc.
  destruct (http_post_names_host (os_auth_header s) a (rest +:+ "/v1/logs") compressed Hhost)
    as [addr Hp].
  change (String a rest +:+ "/v1/logs") with (String a (rest +:+ "/v1/logs")).
  exists addr. cbn [export_attempts length]. simpl (0 <? 0)%nat. cbv iota. by rewrite !Hp.
Qed.

End Otlp.

(** A network on which every address answers with the same status line; its
    state is a clock. *)
#[export] Instance answering_addr (line : string) : TcpAddr Z := {
  addr_exchange := fun _ _ _ t => (OLine line, t);
  addr_sleep := fun d t => t + d;
}.

Definition sample_otlp (endpoint : string) : OtlpSinkState := {|
  os_endpoint := endpoint; os_auth_header := None; os_batch_size := 100;
  os_flush_interval := from_secs 5; os_retry_backoff_ms := [500; 1000; 2000]; os_buffer := [];
  os_last_flush := 0 |}.

Example otlp_default_endpoint :
  OtlpSink_new (fun _ => true) (ot_endpoint OtlpConfig_default) None 100 (from_secs 5) 0 =
  Some (Ok (sample_otlp "http://localhost:4318")).
Proof. reflexivity. Qed.

Example otlp_refused :
  export_batch (fun _ => None) "1" (fun _ => EmptyString) (fun s => Ok s) (H0 := answering_addr "HTTP/1.1 503 Busy")
    [sample_occurrence] (sample_otlp "http://127.0.0.1:4318") 0 =
  (Err (Send "OTLP export: retries exhausted"), from_millis 3500).
Proof. reflexivity. Qed.

Lemma otlp_export_retries_witness :
  fst (export_batch (fun _ => None) "1" (fun _ => EmptyString) (fun s => Ok s)
    (H0 := answering_addr "HTTP/1.1 200 OK") [sample_occurrence] (sample_otlp "http://127.0.0.1:4318") 0)
  = Ok tt.
Proof.
  destruct (otlp_export_retries (fun _ => None) "1" (fun _ => EmptyString) (fun s => Ok s)
    (H0 := answering_addr "HTTP/1.1 200 OK") [sample_occurrence] (sample_otlp "http://127.0.0.1:4318")
    EmptyString 0) as (earlier & r & _ & _ & Hok & _); [done|done|reflexivity|].
  reflexivity.
Defined.

Lemma otlp_host_name_never_connects_witness :
  exists addr, export_batch (fun _ => None) "1" (fun _ => EmptyString) (fun s => Ok s)
    (H0 := answering_addr "HTTP/1.1 200 OK") [sample_occurrence]
    (sample_otlp (ot_endpoint OtlpConfig_default)) 0 =
  (Err (Connection ("invalid address " +:+ addr +:+ ": invalid socket address syntax")), from_millis 3500).
Proof.
  exact (otlp_host_name_never_connects (fun _ => None) "1" (fun _ => EmptyString) (fun s => Ok s)
    (H0 := answering_addr "HTTP/1.1 200 OK") [sample_occurrence]
    (sample_otlp (ot_endpoint OtlpConfig_default)) "l" "ocalhost:4318" EmptyString 0
    ltac:(discriminate) eq_refl eq_refl eq_refl eq_refl).
Defined.

(** An answer not worth retrying: the batch is lost with its error. *)
Definition refused_session : list (result unit SinkError) * OtlpSinkState * Z :=
  sink_session (OtlpSink (fun _ => None) "1" (fun _ => EmptyString) (fun s => Ok s)
    (H0 := answering_addr "HTTP/1.1 400 Bad Request")) [CallSend sample_occurrence; CallFlush]
    (sample_otlp "http://127.0.0.1:4318") 0.

Lemma otlp_sink_accounts_witness :
  fst (fst refused_session) = [Ok tt; Err (Send "OTLP export failed: HTTP 400")] /\
  exists log : list (list Occurrence * result unit SinkError),
    omap error_of (fst (fst refused_session)) = omap (fun x => error_of (snd x)) log /\
    [sample_occurrence] = concat (map fst log) ++ os_buffer (snd (fst refused_session)).
Proof.
  pose proof (otlp_sink_accounts (fun _ => None) "1" (fun _ => EmptyString) (fun s => Ok s)
    (H0 := answering_addr "HTTP/1.1 400 Bad Request") [CallSend sample_occurrence; CallFlush]
    (sample_otlp "http://127.0.0.1:4318") 0
    ltac:(constructor; [vm_compute; congruence|vm_compute; reflexivity|reflexivity])) as H.
  split; [vm_compute; reflexivity|]. unfold refused_session.
  destruct (sink_session _ _ _ _) as [[answers s'] w']. destruct H as (_ & _ & log & _ & E & Hr).
  exists log. exact (conj Hr E).
Defined.
