(* ===== verification/AgentMain.v ===== *)
(** [tapio-agent/src/main.rs]: the arguments, the sinks they name, the log level,
    what the agent starts with, and the start of the observers' tasks, in any
    order.  What follows, up to the end of the process, is [AgentRun]'s; the
    environment, the file system and the clocks are arguments. *)
From Stdlib Require Import String.
From S2P Require Import Prelude RustStr BTree Float64 CommonEbpf Httpc PmcObs AgentConfig.
From S2P Require Import Heartbeat Carriers Setup Poll Sink HttpSink NetAddr Otlp.

Local Open Scope Z_scope.

Definition UNCONFIGURED_CONFIG_VERSION : string := "0".
Definition STANDALONE_CONFIG_VERSION : string := "1".

(** * The standard error guard *)

Inductive io_error := BrokenPipe | OtherError (e : string).

Definition BrokenPipeGuard_write (stderr : result Z io_error) (len : Z) : result Z io_error :=
  match stderr with
  | Err BrokenPipe => Ok len
  | other => other
  end.

Definition BrokenPipeGuard_flush (stderr : result unit io_error) : result unit io_error :=
  match stderr with
  | Err BrokenPipe => Ok tt
  | other => other
  end.

(** * Arguments *)

Record Args := {
  args_config : string;
  args_sinks : list string;
  args_ebpf_dir : string;
  args_data_dir : string;
  args_http_endpoint : string;
  args_controller_endpoint : option string;
  args_config_poll_interval : Z;
  args_heartbeat_interval : Z;
}.

Definition Args_default : Args := {|
  args_config := "/etc/tapio/tapio.toml";
  args_sinks := ["stdout"];
  args_ebpf_dir := "/opt/tapio/ebpf";
  args_data_dir := ".tapio/occurrences";
  args_http_endpoint := "http://localhost:8765";
  args_controller_endpoint := None;
  args_config_poll_interval := from_secs 30;
  args_heartbeat_interval := from_secs 30;
|}.

(** What a successful parse comes to: arguments, or a text to print before the
    process exits. *)
Inductive parse_outcome :=
| Parsed (args : Args)
| HelpExit
| VersionExit.

Definition validate_http_endpoint (flag endpoint : string) : result unit string :=
  if starts_with endpoint "https://" then
    Err (flag +:+ " does not support https://; use an explicit http:// endpoint")
  else if negb (starts_with endpoint "http://") then Err (flag +:+ " must start with http://")
  else Ok tt.

(** The value and the arguments left. *)
Definition next_arg (flag : string) (inline_value : option string) (rest : list string) :
  result (string * list string) string :=
  match inline_value with
  | Some value =>
      if str_empty value then Err (flag +:+ " requires a non-empty value") else Ok (value, rest)
  | None =>
      match rest with
      | value :: rest =>
          if negb (starts_with value "-") then Ok (value, rest)
          else Err (flag +:+ " requires a value, got " +:+ value)
      | [] => Err (flag +:+ " requires a value")
      end
  end.

Definition parse_seconds (flag value : string) : result Z string :=
  match parse_unsigned U64_MAX value with
  | None => Err (flag +:+ " must be seconds: " +:+ parse_int_error value)
  | Some seconds =>
      if seconds <? 5 then Err (flag +:+ " must be at least 5 seconds") else Ok (from_secs seconds)
  end.

Definition with_sinks (sinks : list string) (a : Args) : Args := {|
  args_config := args_config a; args_sinks := sinks; args_ebpf_dir := args_ebpf_dir a;
  args_data_dir := args_data_dir a; args_http_endpoint := args_http_endpoint a;
  args_controller_endpoint := args_controller_endpoint a;
  args_config_poll_interval := args_config_poll_interval a;
  args_heartbeat_interval := args_heartbeat_interval a |}.

Definition set_args (config ebpf_dir data_dir http_endpoint : string) (controller : option string)
    (poll heartbeat : Z) (a : Args) : Args := {|
  args_config := config; args_sinks := args_sinks a; args_ebpf_dir := ebpf_dir;
  args_data_dir := data_dir; args_http_endpoint := http_endpoint;
  args_controller_endpoint := controller; args_config_poll_interval := poll;
  args_heartbeat_interval := heartbeat |}.

(** The flags that take a value. *)
Definition VALUE_FLAGS : list string :=
  ["--config"; "--sink"; "--ebpf-dir"; "--data-dir"; "--http-endpoint"; "--controller-endpoint";
   "--config-poll-interval"; "--heartbeat-interval"].

(** The arm of a flag, once its value is read: the arguments and the explicit
    sinks after it. *)
Definition apply_flag (flag value : string) (a : Args) (sinks : list string) :
  result (Args * list string) string :=
  let set config ebpf data http controller poll hb :=
    (set_args config ebpf data http controller poll hb a, sinks) in
  let c := args_config a in let e := args_ebpf_dir a in let d := args_data_dir a in
  let h := args_http_endpoint a in let k := args_controller_endpoint a in
  let p := args_config_poll_interval a in let b := args_heartbeat_interval a in
  if String.eqb flag "--config" then Ok (set value e d h k p b)
  else if String.eqb flag "--sink" then Ok (a, sinks ++ [value])
  else if String.eqb flag "--ebpf-dir" then Ok (set c value d h k p b)
  else if String.eqb flag "--data-dir" then Ok (set c e value h k p b)
  else if String.eqb flag "--http-endpoint" then Ok (set c e d value k p b)
  else if String.eqb flag "--controller-endpoint" then
    validate_http_endpoint "--controller-endpoint" value ;;?
    Ok (set c e d h (Some value) p b)
  else if String.eqb flag "--config-poll-interval" then
    seconds <-? parse_seconds "--config-poll-interval" value ;;
    Ok (set c e d h k seconds b)
  else
    seconds <-? parse_seconds "--heartbeat-interval" value ;;
    Ok (set c e d h k p seconds).

(** Each turn consumes at least one argument, so as many turns as arguments are
    enough. *)
Fixpoint parse_loop (fuel : nat) (values : list string) (a : Args) (sinks : list string) :
  result parse_outcome string :=
  match values, fuel with
  | [], _ => Ok (Parsed (if is_empty sinks then a else with_sinks sinks a))
  | _, O => Err EmptyString
  | arg :: rest, S fuel =>
      let '(flag, inline_value) :=
        match split_once "=" arg with
        | Some (flag, value) => (flag, Some value)
        | None => (arg, None)
        end in
      if String.eqb flag "--help" || String.eqb flag "-h" then Ok HelpExit
      else if String.eqb flag "--version" || String.eqb flag "-V" then Ok VersionExit
      else if existsb (String.eqb flag) VALUE_FLAGS then
        vr <-? next_arg flag inline_value rest ;;
        let '(value, rest) := vr in
        st <-? apply_flag flag value a sinks ;;
        let '(a, sinks) := st in
        parse_loop fuel rest a sinks
      else Err ("unknown argument: " +:+ flag)
  end.

Definition parse_from (values : list string) : result parse_outcome string :=
  parse_loop (length values) values Args_default [].

(** What [--version] and [--help] print. *)
Definition CARGO_PKG_VERSION : string := "4.0.0".

Definition print_version : string := "tapio-agent " +:+ CARGO_PKG_VERSION +:+ newline_str.

Definition print_help : string := join newline_str
  ["tapio-agent " +:+ CARGO_PKG_VERSION;
   "Opinionated eBPF observer for Linux and Kubernetes";
   "";
   "Usage: tapio-agent [OPTIONS]";
   "";
   "Options:";
   "  --config <path>          TOML config file [default: /etc/tapio/tapio.toml]";
   "  --sink <name>            Output sink: stdout, file, http, controller; otlp with --features otlp [default: stdout]";
   "  --ebpf-dir <path>        Directory containing compiled eBPF .o files [default: /opt/tapio/ebpf]";
   "  --data-dir <path>        Directory for file sink output [default: .tapio/occurrences]";
   "  --http-endpoint <url>    Endpoint for the http sink [default: http://localhost:8765]";
   "  --controller-endpoint <url> Controller config URL (http:// only)";
   "  --config-poll-interval <seconds> Config poll interval, minimum 5 [default: 30]";
   "  --heartbeat-interval <seconds> Controller heartbeat interval, minimum 5 [default: 30]";
   "  -h, --help               Print help";
   "  -V, --version            Print version"].

(** * The environment *)

Section Start.
(** [std::env::var(name).ok()] *)
Variable env_var : string -> option string.

Definition node_name : string :=
  match env_var "TAPIO_NODE_NAME" with
  | Some v => v
  | None => default "unknown-node" (env_var "HOSTNAME")
  end.

Definition agent_id : string := default ("node/" +:+ node_name) (env_var "TAPIO_AGENT_ID").

(** [content] is the file's content when it can be read. *)
Definition config_file_mentions_thresholds (content : option string) : bool :=
  match content with
  | Some content => existsb (fun line => String.eqb (trim line) "[thresholds]") (lines content)
  | None => false
  end.

Inductive LevelFilter := LevelOff | LevelError | LevelWarn | LevelInfo | LevelDebug | LevelTrace.

Definition log_level_from_rust_log (value : option string) : LevelFilter :=
  match value with
  | None => LevelError
  | Some value =>
      let part := hd EmptyString (split "," value) in
      let level := match rsplit_once "=" part with Some (_, level) => level | None => part end in
      let directive := to_ascii_lowercase (trim level) in
      if String.eqb directive "trace" then LevelTrace
      else if String.eqb directive "debug" then LevelDebug
      else if String.eqb directive "info" then LevelInfo
      else if String.eqb directive "warn" then LevelWarn
      else if String.eqb directive "error" then LevelError
      else if String.eqb directive "off" then LevelOff
      else LevelError
  end.

Definition log_level_from_env : LevelFilter := log_level_from_rust_log (env_var "RUST_LOG").

(** * The sinks *)

(** Each boxed sink in the state its constructor gives it. *)
Inductive sink_box :=
| BoxStdout
| BoxFile (dir : string)
| BoxHttp (s : HttpSinkState)
| BoxController (c : ControllerConfig)
| BoxOtlp (s : OtlpSinkState).

Definition controller_config (endpoint : string) (a : Args) : ControllerConfig := {|
  ctl_endpoint := endpoint;
  ctl_agent_id := agent_id;
  ctl_node_name := node_name;
  ctl_poll_interval := args_config_poll_interval a;
  ctl_heartbeat_interval := args_heartbeat_interval a |}.

(** [feature_otlp]: None when the crate is built without the feature, otherwise
    which capacities a vector can be given.  [now] is the instant the
    constructors read. *)
Definition create_sink (feature_otlp : option (Z -> bool)) (now : Z) (a : Args) (cfg : Config) (name : string) :
  result sink_box string :=
  if String.eqb name "stdout" then Ok BoxStdout
  else if String.eqb name "file" then Ok (BoxFile (args_data_dir a))
  else if String.eqb name "http" then
    Ok (BoxHttp (HttpSink_new (args_http_endpoint a) 100 (from_secs 1) now))
  else if String.eqb name "controller" then
    match args_controller_endpoint a with
    | None => Err "--sink controller requires --controller-endpoint"
    | Some endpoint => Ok (BoxController (controller_config endpoint a))
    end
  else if String.eqb name "otlp" then
    match feature_otlp with
    | Some fits =>
        let o := conf_otlp cfg in
        match OtlpSink_new fits (ot_endpoint o) (ot_auth_header o) (ot_batch_size o)
                (from_secs (ot_flush_interval_secs o)) now with
        | Some r => rmap BoxOtlp (map_err SinkError_to_string r)
        | None => Err "capacity overflow" (* a panic, which ends main as well *)
        end
    | None => Err "otlp sink requires building tapio-agent with --features otlp"
    end
  else Err ("unknown sink: " +:+ name).

Fixpoint create_sink_list (feature_otlp : option (Z -> bool)) (now : Z) (a : Args) (cfg : Config)
    (names : list string) : result (list sink_box) string :=
  match names with
  | [] => Ok []
  | name :: rest =>
      s <-? create_sink feature_otlp now a cfg name ;;
      ss <-? create_sink_list feature_otlp now a cfg rest ;;
      Ok (s :: ss)
  end.

Definition create_sinks (feature_otlp : option (Z -> bool)) (now : Z) (a : Args) (cfg : Config) :
  result (list sink_box) string :=
  sinks <-? create_sink_list feature_otlp now a cfg (args_sinks a) ;;
  if is_empty sinks then Err "at least one sink is required" else Ok sinks.

(** * What [main] starts with *)

(** The wall clock less the monotonic one, both in nanoseconds. *)
Definition boot_offset_ns (wall_ns mono_ns : Z) : Z := wrap64 (wall_ns - mono_ns).

(** [s.parse::<IpAddr>()], as the address of a socket on [port]. *)
Definition parse_ip_addr (s : string) (port : Z) : option SocketAddr :=
  let r :=
    match read_ipv4 s with
    | Some (ip, rest) => Some (SocketV4 ip port, rest)
    | None => match read_ipv6 s with
              | Some (segs, rest) => Some (SocketV6 segs 0 port, rest)
              | None => None
              end
    end in
  match r with
  | Some (addr, rest) => if str_empty rest then Some addr else None
  | None => None
  end.

Record AgentStart := {
  ag_controller_state : ControllerState;
  ag_sinks : list sink_box;
  ag_metrics_addr : option SocketAddr;
  ag_tapio_config : TapioConfig;
  ag_carriers : ConfigCarrierState;
  ag_active_config : ActiveConfigIdentity;
  ag_pmc_thresholds : PmcThresholds;
  ag_controller : option ControllerConfig;
  ag_ebpf_paths : list string;
}.

Definition standalone_thresholds (cfg : Config) : PmcThresholds := {|
  pt_stall_pct_warning := th_stall_pct_warning (conf_thresholds cfg);
  pt_stall_pct_critical := th_stall_pct_critical (conf_thresholds cfg);
  pt_ipc_degradation := th_ipc_degradation (conf_thresholds cfg) |}.

(** From the parsed arguments and the loaded file to the tasks: the state the
    registration and poll tasks (when there is a controller) and the four
    observers are given. *)
Definition agent_start (feature_otlp : option (Z -> bool)) (now : Z) (a : Args) (cfg : Config) :
  result AgentStart string :=
  let controller_mode := match args_controller_endpoint a with Some _ => true | None => false end in
  let initial_config_version :=
    if controller_mode then UNCONFIGURED_CONFIG_VERSION else STANDALONE_CONFIG_VERSION in
  sinks <-? create_sinks feature_otlp now a cfg ;;
  metrics_addr <-?
    (if mc_enabled (conf_metrics cfg) then
       match parse_ip_addr (mc_bind_address (conf_metrics cfg)) (mc_port (conf_metrics cfg)) with
       | Some addr => Ok (Some addr)
       | None => Err "invalid metrics bind_address: invalid IP address syntax"
       end
     else Ok None) ;;
  let tapio_config := if controller_mode then TapioConfig_default else Config_tapio_config cfg in
  Ok {|
    ag_controller_state := ControllerState_new initial_config_version;
    ag_sinks := sinks;
    ag_metrics_addr := metrics_addr;
    ag_tapio_config := tapio_config;
    ag_carriers := ConfigCarrierState_default;
    ag_active_config :=
      if controller_mode then None
      else mark_applied {| ac_version := STANDALONE_CONFIG_VERSION; ac_hash := EmptyString;
                           ac_flags := tc_flags tapio_config |} None;
    ag_pmc_thresholds := standalone_thresholds cfg;
    ag_controller := (fun endpoint => controller_config endpoint a) <$> args_controller_endpoint a;
    ag_ebpf_paths :=
      map (fun name => args_ebpf_dir a +:+ name)
        ["/network_monitor.o"; "/container_monitor.o"; "/storage_monitor.o"; "/node_pmc_monitor.o"];
  |}.
End Start.

(** * The observer tasks *)

Inductive observer_task := NetworkTask | ContainerTask | StorageTask | PmcTask.

Section Tasks.
Context {W : Type} `{Aya W}.
Variable writable : nat -> Z -> bool.

Definition task_object (t : observer_task) : string :=
  match t with
  | NetworkTask => "/network_monitor.o"
  | ContainerTask => "/container_monitor.o"
  | StorageTask => "/storage_monitor.o"
  | PmcTask => "/node_pmc_monitor.o"
  end.

Definition task_setup (t : observer_task) : string -> TapioConfig -> setup (option Z * Z) :=
  match t with
  | NetworkTask => network_setup writable
  | ContainerTask => container_setup writable
  | StorageTask => storage_setup writable
  | PmcTask => pmc_setup writable
  end.

(** What a task logs when its observer ends with an error. *)
Definition task_error (t : observer_task) : string :=
  match t with
  | NetworkTask => "network observer failed"
  | ContainerTask => "container observer failed"
  | StorageTask => "storage observer failed"
  | PmcTask => "PMC observer failed"
  end.

(** One task, up to its loop: the errors logged, and whether it goes on. *)
Definition start_task (dir : string) (config : TapioConfig) (t : observer_task) (s : setup_state W) :
  list string * bool * setup_state W :=
  match task_setup t (dir +:+ task_object t) config s with
  | (Ok _, s) => ([], true, s)
  | (Err (SetupFailed e), s) => ([task_error t +:+ ": " +:+ e], false, s)
  | (Err SetupDisabled, s) => ([], false, s)
  end.

(** The tasks are spawned together and start in any order; one that fails
    leaves the others alone. *)
Fixpoint start_tasks (dir : string) (config : TapioConfig) (order : list observer_task) (s : setup_state W) :
  list string * list observer_task * setup_state W :=
  match order with
  | [] => ([], [], s)
  | t :: rest =>
      let '(errors, goes_on, s) := start_task dir config t s in
      let '(errors', running, s) := start_tasks dir config rest s in
      (errors ++ errors', if goes_on then t :: running else running, s)
  end.

(** What registering a map keeps, a task's start keeps. *)
Lemma task_setup_keeps (P : ConfigCarrierState -> Maps -> Prop) (t : observer_task) (path : string)
    (config : TapioConfig) (s : setup_state W) :
  (forall map_fd observer cs m, P cs m ->
     let '(_, cs', m') := init_and_register_tapio_config writable map_fd observer config cs m in P cs' m') ->
  P (su_carriers s) (su_maps s) ->
  let s' := snd (task_setup t path config s) in P (su_carriers s') (su_maps s').
Proof.
  intros HP Hs. destruct t; simpl; apply configured_keeps; try (by intros; apply HP); try done;
    (apply tracepoint_rest_logs || (apply pmc_rest_logs; [by left|done..])).
Qed.

Lemma task_setup_world (I : W -> Prop) (t : observer_task) (path : string) (config : TapioConfig) (s : setup_state W) :
  outside_keeps I -> I (su_world s) -> I (su_world (snd (task_setup t path config s))).
Proof.
  intros HI Hs. destruct t; simpl; [by apply (keeps_tracepoint_setup writable I HI)..|by apply (keeps_pmc_setup writable I HI)].
Qed.

Lemma task_setup_agree (t : observer_task) (path : string) (config : TapioConfig) (s : setup_state W) :
  agree (su_carriers s) (su_maps s) ->
  let s' := snd (task_setup t path config s) in
  agree (su_carriers s') (su_maps s') /\ cst_current (su_carriers s') = cst_current (su_carriers s).
Proof.
  intros Hag. apply (task_setup_keeps (fun cs m => agree cs m /\ cst_current cs = cst_current (su_carriers s)));
    [|done]. intros map_fd observer cs m [Ha Hc].
  pose proof (init_and_register_agree writable map_fd observer config cs m Ha) as Ha'.
  pose proof (init_and_register_current writable map_fd observer config cs m) as Hc'.
  destruct (init_and_register_tapio_config _ _ _ _ _ _) as [[ok cs'] m']. simpl in *. split; [exact Ha'|congruence].
Qed.

(** In whatever order the observers start and whichever of them fail, the
    registered maps stay on the fleet's current configuration, and only the
    tasks that were spawned run. *)
Lemma start_tasks_agree (dir : string) (config : TapioConfig) (order : list observer_task) (s : setup_state W) :
  agree (su_carriers s) (su_maps s) ->
  let '(errors, running, s') := start_tasks dir config order s in
  agree (su_carriers s') (su_maps s') /\ cst_current (su_carriers s') = cst_current (su_carriers s) /\
  (length errors + length running <= length order)%nat /\ incl running order.
Proof.
  revert s. induction order as [|t order IH]; intros s Hag; simpl.
  { split; [exact Hag|]. split; [done|]. split; [done|]. apply incl_nil_l. }
  pose proof (task_setup_agree t (dir +:+ task_object t) config s Hag) as [Ha Hc].
  unfold start_task. destruct (task_setup t (dir +:+ task_object t) config s) as [[a|[e|]] s1]; simpl in Ha, Hc;
    specialize (IH s1 Ha); destruct (start_tasks dir config order s1) as [[errors running] s'];
    destruct IH as (Ha' & Hc' & Hl & Hi); (split; [done|]); (split; [congruence|]); simpl; (split; [lia|]).
  - apply incl_cons; [by left|]. by apply incl_tl.
  - by apply incl_tl.
  - by apply incl_tl.
Qed.
End Tasks.

Example args_example :
  parse_from ["--sink=file"; "--sink"; "http"; "--config-poll-interval=10"] =
  Ok (Parsed (with_sinks ["file"; "http"]
    (set_args "/etc/tapio/tapio.toml" "/opt/tapio/ebpf" ".tapio/occurrences" "http://localhost:8765"
       None (from_secs 10) (from_secs 30) Args_default))).
Proof. reflexivity. Qed.

Example args_missing_value : parse_from ["--sink"; "--config"] = Err "--sink requires a value, got --config".
Proof. reflexivity. Qed.

Example log_level_example : log_level_from_rust_log (Some "tapio_agent= Debug ,info") = LevelDebug.
Proof. reflexivity. Qed.

(** * Lemmas *)

(** A turn never needs more fuel than there are arguments. *)
Lemma parse_loop_fuel (f : nat) : forall values a sinks,
  (length values <= f)%nat -> parse_loop f values a sinks = parse_loop (length values) values a sinks.
Proof.
  induction f as [f IH] using lt_wf_ind. intros [|arg rest] a sinks Hf; [by destruct f|].
  destruct f as [|f]; [simpl in Hf; lia|]. simpl in Hf.
  cbn [length parse_loop]. destruct (match split_once "=" arg with Some (x, y) => (x, Some y) | None => (arg, None) end)
    as [flag inline].
  repeat (case_match; [done|]). case_match; [|done].
  destruct (next_arg flag inline rest) as [[v rest']|e] eqn:En; [|done]. simpl.
  assert (Hl : (length rest' <= length rest)%nat).
  { unfold next_arg in En. destruct inline; [destruct (str_empty s); by simplify_eq|].
    destruct rest as [|x rest]; [done|]. destruct (negb (starts_with x "-")); simplify_eq/=. lia. }
  destruct (apply_flag flag v a sinks) as [[a' sinks']|]; [|done]. simpl.
  rewrite (IH f) by lia. symmetry. apply IH; lia.
Qed.

(** The arguments as the command line that gives them. *)
Definition render_args (a : Args) : list string :=
  ["--config=" +:+ args_config a; "--ebpf-dir=" +:+ args_ebpf_dir a;
   "--data-dir=" +:+ args_data_dir a; "--http-endpoint=" +:+ args_http_endpoint a;
   "--config-poll-interval=" +:+ dec (as_secs (args_config_poll_interval a));
   "--heartbeat-interval=" +:+ dec (as_secs (args_heartbeat_interval a))] ++
  match args_controller_endpoint a with
  | Some e => ["--controller-endpoint=" +:+ e]
  | None => []
  end ++
  map (fun s => "--sink=" +:+ s) (args_sinks a).

(** Whole seconds, at least five. *)
Definition interval_ok (t : Z) : Prop := exists s, t = from_secs s /\ 5 <= s <= U64_MAX.

Record args_ok (a : Args) : Prop := {
  ao_config : args_config a <> EmptyString;
  ao_ebpf : args_ebpf_dir a <> EmptyString;
  ao_data : args_data_dir a <> EmptyString;
  ao_http : args_http_endpoint a <> EmptyString;
  ao_controller : forall e, args_controller_endpoint a = Some e -> starts_with e "http://" = true;
  ao_poll : interval_ok (args_config_poll_interval a);
  ao_heartbeat : interval_ok (args_heartbeat_interval a);
  ao_sinks : args_sinks a <> [];
  ao_names : Forall (fun s => s <> EmptyString) (args_sinks a);
}.

Definition is_value_flag (flag : string) : bool :=
  existsb (String.eqb flag) VALUE_FLAGS && negb (contains_char "=" flag) &&
  negb (String.eqb flag "--help" || String.eqb flag "-h") &&
  negb (String.eqb flag "--version" || String.eqb flag "-V").

Lemma parse_loop_inline (fuel : nat) (flag value : string) (rest : list string) (a : Args)
    (sinks : list string) :
  is_value_flag flag = true -> value <> EmptyString ->
  parse_loop (S fuel) ((flag +:+ String "=" value) :: rest) a sinks =
  (st <-? apply_flag flag value a sinks ;;
   parse_loop fuel rest (fst st) (snd st)).
Proof.
  unfold is_value_flag. intros Hf Hv.
  apply andb_prop in Hf as [Hf Hver]. apply andb_prop in Hf as [Hf Hhelp].
  apply andb_prop in Hf as [Hmem Heq]. rewrite negb_true_iff in *.
  cbn [parse_loop]. rewrite split_once_app by done. rewrite Hhelp, Hver, Hmem.
  unfold next_arg. destruct value; [done|]. simpl. by destruct (apply_flag _ _ _ _) as [[]|].
Qed.

Lemma starts_with_not_https (e : string) :
  starts_with e "http://" = true -> starts_with e "https://" = false.
Proof.
  destruct e as [|a0 [|a1 [|a2 [|a3 [|a4 e]]]]]; cbn [starts_with]; rewrite ?andb_false_r; try done.
  destruct (Ascii.eqb_spec a4 ":") as [->|]; simpl; [intros _|]; by rewrite ?andb_false_r.
Qed.

Lemma parse_seconds_dec (flag : string) (t : Z) :
  interval_ok t -> parse_seconds flag (dec (as_secs t)) = Ok t.
Proof.
  intros (s & -> & Hs). unfold as_secs, from_secs, ns_per_sec. rewrite Z.div_mul by done.
  unfold parse_seconds. rewrite parse_unsigned_dec by lia.
  destruct (Z.ltb_spec s 5); [lia|done].
Qed.

Lemma dec_nonempty (n : Z) : 0 <= n -> dec n <> EmptyString.
Proof.
  intros Hn Hd. destruct (dec_spec n Hn) as (k & Hk & _ & _ & _ & Hl & _). rewrite Hd in Hl. simpl in Hl. lia.
Qed.

Lemma interval_dec_nonempty (t : Z) : interval_ok t -> dec (as_secs t) <> EmptyString.
Proof.
  intros (s & -> & Hs). apply dec_nonempty. unfold as_secs, from_secs, ns_per_sec.
  rewrite Z.div_mul by done. lia.
Qed.

Lemma parse_sinks (fuel : nat) (names : list string) (a : Args) (sinks : list string) :
  Forall (fun s => s <> EmptyString) names -> (length names <= fuel)%nat ->
  parse_loop fuel (map (fun s => "--sink=" +:+ s) names) a sinks =
  Ok (Parsed (if is_empty (sinks ++ names) then a else with_sinks (sinks ++ names) a)).
Proof.
  revert fuel sinks. induction names as [|s names IH]; intros fuel sinks Hn Hf.
  { rewrite app_nil_r. by destruct fuel. }
  apply Forall_cons in Hn as [Hs Hn]. destruct fuel as [|fuel]; [simpl in Hf; lia|].
  cbn [map]. rewrite (parse_loop_inline fuel "--sink" s) by done.
  unfold apply_flag. simpl. simpl in Hf. rewrite IH by (done || lia). by rewrite <- app_assoc.
Qed.

(** Reads the next argument of the command line, [flag=value]. *)
Ltac read_flag flag value :=
  etrans; [refine (parse_loop_inline _ flag value _ _ _ eq_refl _); auto using interval_dec_nonempty|];
  unfold apply_flag; cbn [String.eqb Ascii.eqb Bool.eqb];
  rewrite ?parse_seconds_dec by done;
  cbn [rbind fst snd set_args Args_default args_config args_sinks args_ebpf_dir args_data_dir
       args_http_endpoint args_controller_endpoint args_config_poll_interval args_heartbeat_interval].

Lemma render_args_parse (a : Args) : args_ok a -> parse_from (render_args a) = Ok (Parsed a).
Proof.
  intros [Hc He Hd Hh Hk Hp Hb Hs Hn]. unfold parse_from, Args_default.
  set (n := length (render_args a)).
  assert (Hn' : (7 + length (args_sinks a) - (if args_controller_endpoint a then 0 else 1) = n)%nat).
  { unfold n, render_args. destruct (args_controller_endpoint a); simpl; rewrite length_map; lia. }
  clearbody n. unfold render_args. cbn [app].
  destruct n as [|[|[|[|[|[|n]]]]]]; [destruct (args_controller_endpoint a); lia..|].
  read_flag "--config" (args_config a). read_flag "--ebpf-dir" (args_ebpf_dir a).
  read_flag "--data-dir" (args_data_dir a). read_flag "--http-endpoint" (args_http_endpoint a).
  read_flag "--config-poll-interval" (dec (as_secs (args_config_poll_interval a))).
  read_flag "--heartbeat-interval" (dec (as_secs (args_heartbeat_interval a))).
  destruct (args_controller_endpoint a) as [e|] eqn:Ek.
  - destruct n as [|n]; [lia|]. cbn [app].
    assert (e <> EmptyString) by (intros ->; by specialize (Hk _ eq_refl)).
    read_flag "--controller-endpoint" e. unfold validate_http_endpoint.
    rewrite starts_with_not_https, Hk by auto. cbn [negb rbind fst snd].
    rewrite parse_sinks by (done || lia). cbn [app]. destruct a; simpl in *. subst.
    destruct (is_empty args_sinks0) eqn:Em; [by apply is_empty_true in Em|done].
  - cbn [app]. rewrite parse_sinks by (done || lia). cbn [app]. destruct a; simpl in *. subst.
    destruct (is_empty args_sinks0) eqn:Em; [by apply is_empty_true in Em|done].
Qed.

Lemma create_sink_list_Ok (f : string -> option string) (otlp : option (Z -> bool)) (now : Z) (a : Args) (cfg : Config)
    (names : list string) (sinks : list sink_box) :
  create_sink_list f otlp now a cfg names = Ok sinks <->
  Forall2 (fun n s => create_sink f otlp now a cfg n = Ok s) names sinks.
Proof.
  revert sinks. induction names as [|n names IH]; intros sinks; simpl.
  - split; [by intros [= <-]|]. by intros ->%Forall2_nil_inv_l.
  - rewrite rbind_Ok. split.
    + intros (s & Hs & Hr). apply rbind_Ok in Hr as (ss & Hss & [= <-]).
      constructor; [done|by apply IH].
    + intros (s & ss & Hs & Hss%IH & ->)%Forall2_cons_inv_l. exists s. by rewrite Hss.
Qed.

(** * Properties *)

(** C40. Every complete set of arguments the agent can be given is read back from the
    command line that spells it out, each flag with its value inline: nothing
    in a value, an equals sign or a leading dash included, changes what is
    parsed. *)
Theorem args_round_trip (a : Args) (Ha : args_ok a) : parse_from (render_args a) = Ok (Parsed a).
Proof. by apply render_args_parse. Qed.

(** What the agent starts with: with a controller, the version 0, an empty
    kernel configuration and no applied identity until the first poll; alone,
    the version 1, the file's thresholds in the kernel configuration and that
    configuration as the applied identity.  Either way the sinks are built one
    for each requested name, in order, and the performance-counter thresholds
    are the file's, which with a controller the agent says it ignores. *)
Lemma agent_start_spec (env_var : string -> option string) (otlp : option (Z -> bool)) (now : Z) (a : Args)
    (cfg : Config) (st : AgentStart)
    (Hstart : agent_start env_var otlp now a cfg = Ok st) :
  Forall2 (fun name s => create_sink env_var otlp now a cfg name = Ok s) (args_sinks a) (ag_sinks st) /\
  ag_sinks st <> [] /\
  ag_pmc_thresholds st = standalone_thresholds cfg /\
  match args_controller_endpoint a with
  | Some endpoint =>
      cs_config_version (ag_controller_state st) = "0" /\
      ag_tapio_config st = TapioConfig_default /\ ag_active_config st = None /\
      ag_controller st = Some (controller_config env_var endpoint a)
  | None =>
      cs_config_version (ag_controller_state st) = "1" /\
      ag_tapio_config st = Config_tapio_config cfg /\
      ag_active_config st =
        Some {| ac_version := "1"; ac_hash := ""; ac_flags := tc_flags (Config_tapio_config cfg) |} /\
      ag_controller st = None
  end.
Proof.
  unfold agent_start in Hstart. apply rbind_Ok in Hstart as (sinks & Hsinks & H).
  apply rbind_Ok in H as (addr & _ & [= <-]).
  unfold create_sinks in Hsinks. apply rbind_Ok in Hsinks as (ss & Hss & He).
  destruct (is_empty ss) eqn:Em; [done|]. injection He as ->.
  apply is_empty_false in Em. apply create_sink_list_Ok in Hss. cbn.
  split; [done|]. split; [done|]. split; [done|]. by destruct (args_controller_endpoint a).
Qed.

Definition sample_args : Args := {|
  args_config := "/etc/tapio=prod.toml"; args_sinks := ["http"; "controller"];
  args_ebpf_dir := "-ebpf"; args_data_dir := "data"; args_http_endpoint := "http://127.0.0.1:8765";
  args_controller_endpoint := Some "http://10.0.0.1:8080"; args_config_poll_interval := from_secs 5;
  args_heartbeat_interval := from_secs 60 |}.

Lemma args_round_trip_witness : parse_from (render_args sample_args) = Ok (Parsed sample_args).
Proof.
  apply args_round_trip. constructor; try done.
  - intros e [= <-]. reflexivity.
  - exists 5. split; [reflexivity|done].
  - exists 60. split; [reflexivity|done].
  - repeat constructor; done.
Defined.

Lemma agent_start_spec_witness :
  exists st, agent_start (fun _ => None) None 0 sample_args Config_default = Ok st /\
    ag_pmc_thresholds st = standalone_thresholds Config_default /\ ag_active_config st = None.
Proof.
  eexists. split; [reflexivity|].
  destruct (agent_start_spec (fun _ => None) None 0 sample_args Config_default _ eq_refl)
    as (_ & _ & Ht & _ & _ & Ha & _). by split.
Defined.
