(* ===== verification/AgentRun.v ===== *)
(** [tapio-agent/src/main.rs], from the spawning of the tasks to the end of the
    process: the signal task and its watch channel, the join set, the metrics
    server outside it, and what main's return takes down.  The bodies of the
    tasks are an interface; [Agent] implements it. *)
From Stdlib Require Import String.
From S2P Require Import Prelude RustStr CommonEbpf Carriers Setup Poll AgentMain.

Local Open Scope Z_scope.

(** * The tasks *)

Inductive agent_task :=
| RegistrationTask
| PollTask
| ObserverTask (o : observer_task).

#[export] Instance observer_task_eq_dec : EqDecision observer_task.
Proof. solve_decision. Defined.
#[export] Instance agent_task_eq_dec : EqDecision agent_task.
Proof. solve_decision. Defined.

Definition OBSERVER_TASKS : list observer_task := [NetworkTask; ContainerTask; StorageTask; PmcTask].

(** What [main] spawns into the join set. *)
Definition agent_tasks (controller_mode : bool) : list agent_task :=
  (if controller_mode then [RegistrationTask; PollTask] else []) ++ map ObserverTask OBSERVER_TASKS.

(** What the runtime asks of the bodies: to run up to the loop, and whether it
    is reached; one turn of the loop; what follows the loop; one turn of the
    metrics server, false when an error ends it; and the drop of the sinks. *)
Class Bodies (W : Type) := {
  task_enter : agent_task -> W -> bool * W;
  task_turn : agent_task -> W -> W;
  task_end : agent_task -> W -> W;
  serve_turn : W -> bool * W;
  sinks_drop : W -> W;
}.

(** Where a task is; an ended or joined one remembers whether it had entered its
    loop. *)
Inductive task_phase := Spawned | Looping | Ended (entered : bool) | Joined (entered : bool).

#[export] Instance task_phase_eq_dec : EqDecision task_phase.
Proof. solve_decision. Defined.

Inductive main_phase := Joining | Returned | Exited.

#[export] Instance main_phase_eq_dec : EqDecision main_phase.
Proof. solve_decision. Defined.

(** The process: the join set, whether the signal task still waits (it owns the
    sender), the value of the watch channel, whether the metrics server runs,
    and where main is. *)
Record Process (W : Type) := {
  pr_tasks : list (agent_task * task_phase);
  pr_waiting : bool;
  pr_shutdown : bool;
  pr_server : bool;
  pr_main : main_phase;
  pr_world : W;
}.
Arguments pr_tasks {W} _.
Arguments pr_waiting {W} _.
Arguments pr_shutdown {W} _.
Arguments pr_server {W} _.
Arguments pr_main {W} _.
Arguments pr_world {W} _.

(** What can happen next. *)
Inductive process_event :=
| PSignal
| PEnter (t : agent_task)
| PTurn (t : agent_task)
| PStop (t : agent_task)
| PJoin (t : agent_task)
| PServe
| PServeFail
| PServerStop
| PReturn
| PExit.

Definition phase_of (t : agent_task) (tasks : list (agent_task * task_phase)) : option task_phase :=
  snd <$> find (fun x => bool_decide (fst x = t)) tasks.

Definition set_phase (t : agent_task) (p : task_phase) (tasks : list (agent_task * task_phase)) :
  list (agent_task * task_phase) :=
  map (fun x => if bool_decide (fst x = t) then (t, p) else x) tasks.

Definition all_joined (tasks : list (agent_task * task_phase)) : bool :=
  forallb (fun x => match snd x with Joined _ => true | _ => false end) tasks.

Section Process.
Context {W : Type} `{Bodies W}.

Definition process_start (controller_mode metrics_enabled : bool) (w : W) : Process W := {|
  pr_tasks := map (fun t => (t, Spawned)) (agent_tasks controller_mode);
  pr_waiting := true;
  pr_shutdown := false;
  pr_server := metrics_enabled;
  pr_main := Joining;
  pr_world := w |}.

Definition with_task (t : agent_task) (p : task_phase) (w : W) (r : Process W) : Process W := {|
  pr_tasks := set_phase t p (pr_tasks r); pr_waiting := pr_waiting r; pr_shutdown := pr_shutdown r;
  pr_server := pr_server r; pr_main := pr_main r; pr_world := w |}.

Definition with_server (running : bool) (w : W) (r : Process W) : Process W := {|
  pr_tasks := pr_tasks r; pr_waiting := pr_waiting r; pr_shutdown := pr_shutdown r;
  pr_server := running; pr_main := pr_main r; pr_world := w |}.

(** One event; None when it cannot happen.  A loop that could also see the
    shutdown may still take another turn: the branches of [select!] are tried
    in random order.  When main returns the runtime is dropped: the signal task
    is cancelled with its sender, but the server's thread is waited for. *)
Definition process_step (r : Process W) (e : process_event) : option (Process W) :=
  match e with
  | PSignal =>
      if pr_waiting r then
        Some {| pr_tasks := pr_tasks r; pr_waiting := false; pr_shutdown := true;
                pr_server := pr_server r; pr_main := pr_main r; pr_world := pr_world r |}
      else None
  | PEnter t =>
      match phase_of t (pr_tasks r) with
      | Some Spawned =>
          let '(entered, w) := task_enter t (pr_world r) in
          Some (with_task t (if entered then Looping else Ended false) w r)
      | _ => None
      end
  | PTurn t =>
      match phase_of t (pr_tasks r) with
      | Some Looping => Some (with_task t Looping (task_turn t (pr_world r)) r)
      | _ => None
      end
  | PStop t =>
      match phase_of t (pr_tasks r) with
      | Some Looping =>
          if pr_shutdown r then Some (with_task t (Ended true) (task_end t (pr_world r)) r) else None
      | _ => None
      end
  | PJoin t =>
      match phase_of t (pr_tasks r) with
      | Some (Ended entered) => Some (with_task t (Joined entered) (pr_world r) r)
      | _ => None
      end
  | PServe =>
      let '(ok, w) := serve_turn (pr_world r) in
      if pr_server r && negb (pr_shutdown r) && ok then Some (with_server true w r) else None
  | PServeFail =>
      let '(ok, w) := serve_turn (pr_world r) in
      if pr_server r && negb (pr_shutdown r) && negb ok then Some (with_server false w r) else None
  | PServerStop =>
      if pr_server r && pr_shutdown r then Some (with_server false (pr_world r) r) else None
  | PReturn =>
      if bool_decide (pr_main r = Joining) && all_joined (pr_tasks r) then
        Some {| pr_tasks := pr_tasks r; pr_waiting := false; pr_shutdown := pr_shutdown r;
                pr_server := pr_server r; pr_main := Returned; pr_world := sinks_drop (pr_world r) |}
      else None
  | PExit =>
      if bool_decide (pr_main r = Returned) && negb (pr_server r) then
        Some {| pr_tasks := pr_tasks r; pr_waiting := pr_waiting r; pr_shutdown := pr_shutdown r;
                pr_server := pr_server r; pr_main := Exited; pr_world := pr_world r |}
      else None
  end.

Fixpoint process_run (r : Process W) (evs : list process_event) : option (Process W) :=
  match evs with
  | [] => Some r
  | e :: rest => match process_step r e with Some r' => process_run r' rest | None => None end
  end.

(** Turns repeat; every other event takes the process on. *)
Definition progress (e : process_event) : bool :=
  match e with PTurn _ | PServe | PSignal => false | _ => true end.

Definition phase_left (p : task_phase) : nat :=
  match p with Spawned => 3 | Looping => 2 | Ended _ => 1 | Joined _ => 0 end.
Definition main_left (p : main_phase) : nat := match p with Joining => 2 | Returned => 1 | Exited => 0 end.

Definition steps_left (r : Process W) : nat :=
  sum_list (map (fun x => phase_left (snd x)) (pr_tasks r)) + main_left (pr_main r)
  + (if pr_server r then 1 else 0).
End Process.

(** * Lemmas *)

(** ** The join set *)

Lemma set_phase_names (t : agent_task) (p : task_phase) (tasks : list (agent_task * task_phase)) :
  map fst (set_phase t p tasks) = map fst tasks.
Proof.
  unfold set_phase. rewrite map_map. apply map_ext. intros [t' q]. simpl. by case_bool_decide; subst.
Qed.

Lemma phase_of_in (t : agent_task) (q : task_phase) (tasks : list (agent_task * task_phase)) :
  phase_of t tasks = Some q -> In (t, q) tasks.
Proof.
  unfold phase_of. destruct (find _ tasks) as [[t' q']|] eqn:E; [|done]. intros [= <-].
  apply find_some in E as [Hin Ht]. simpl in Ht. by apply bool_decide_eq_true in Ht as ->.
Qed.

Lemma in_phase_of (t : agent_task) (q : task_phase) (tasks : list (agent_task * task_phase)) :
  NoDup (map fst tasks) -> In (t, q) tasks -> phase_of t tasks = Some q.
Proof.
  unfold phase_of. induction tasks as [|[t' q'] tasks IH]; [done|]. simpl. intros [Hn Hd]%NoDup_cons.
  intros [[= -> ->]|Hin]; [by rewrite bool_decide_true|]. rewrite bool_decide_false; [auto|].
  intros ->. apply Hn. apply list_elem_of_In, in_map_iff. by exists (t, q).
Qed.

Lemma not_all_joined (tasks : list (agent_task * task_phase)) :
  all_joined tasks = false ->
  exists t p, In (t, p) tasks /\ match p with Joined _ => False | _ => True end.
Proof.
  induction tasks as [|[t p] tasks IH]; [done|]. simpl. intros [Hp|Hj]%andb_false_iff.
  - exists t, p. split; [by left|]. by destruct p.
  - destruct (IH Hj) as (t' & p' & Hin & Hp'). exists t', p'. auto.
Qed.

(** A property of the phases survives one task's change. *)
Lemma set_phase_Forall (P : agent_task * task_phase -> Prop) (t : agent_task) (p : task_phase)
    (tasks : list (agent_task * task_phase)) :
  Forall P tasks -> P (t, p) -> Forall P (set_phase t p tasks).
Proof.
  intros Ht Hp. unfold set_phase. apply List.Forall_map. eapply Forall_impl; [exact Ht|].
  intros x Hx. by case_bool_decide.
Qed.

Notation left_in tasks := (sum_list (map (fun x => phase_left (snd x)) tasks)).

Lemma phase_of_set (t u : agent_task) (p : task_phase) (tasks : list (agent_task * task_phase)) :
  phase_of u (set_phase t p tasks) = if decide (u = t) then const p <$> phase_of t tasks else phase_of u tasks.
Proof.
  unfold phase_of. induction tasks as [|[t' q] tasks IH]; [by case_decide|]. simpl in *.
  case_decide as Hu; repeat case_bool_decide; simplify_eq/=; try done; by rewrite IH.
Qed.

Lemma set_phase_absent (t : agent_task) (p : task_phase) (tasks : list (agent_task * task_phase)) :
  t ∉ map fst tasks -> set_phase t p tasks = tasks.
Proof.
  intros Hn. unfold set_phase. rewrite <- (map_id tasks) at 2. apply map_ext_in. intros [t' q] Hin. simpl.
  rewrite bool_decide_false; [done|]. intros ->. apply Hn, list_elem_of_In, in_map_iff. by exists (t, q).
Qed.

Lemma set_phase_left (t : agent_task) (p q : task_phase) (tasks : list (agent_task * task_phase)) :
  NoDup (map fst tasks) -> phase_of t tasks = Some q ->
  (left_in (set_phase t p tasks) + phase_left q = left_in tasks + phase_left p)%nat.
Proof.
  unfold phase_of. induction tasks as [|[t' q'] tasks IH]; [done|]. simpl. intros [Hn Hd]%NoDup_cons.
  destruct (decide (t' = t)) as [->|Hne].
  - rewrite bool_decide_true by done. intros [= ->]. simpl. fold (set_phase t p tasks).
    rewrite set_phase_absent by done. lia.
  - rewrite bool_decide_false by done. intros Hq. simpl. fold (set_phase t p tasks).
    specialize (IH Hd Hq). lia.
Qed.

Section Runs.
Context {W : Type} `{Bodies W}.

(** ** Reachable processes *)

(** A task that has entered its loop is in it until the shutdown, and one that
    ended without had no loop to enter. *)
Definition phase_ok (shutdown : bool) (x : agent_task * task_phase) : Prop :=
  match snd x with
  | Spawned | Looping => True
  | Ended true | Joined true => shutdown = true
  | Ended false | Joined false => exists w, fst (task_enter (fst x) w) = false
  end.

Record process_inv (controller_mode : bool) (r : Process W) : Prop := {
  pi_tasks : map fst (pr_tasks r) = agent_tasks controller_mode;
  pi_phases : Forall (phase_ok (pr_shutdown r)) (pr_tasks r);
  pi_main : pr_main r <> Joining -> all_joined (pr_tasks r) = true /\ pr_waiting r = false;
  pi_signal : pr_main r = Joining -> pr_waiting r = negb (pr_shutdown r);
  pi_exit : pr_main r = Exited -> pr_server r = false;
}.

Lemma agent_tasks_nodup (controller_mode : bool) : NoDup (agent_tasks controller_mode).
Proof. apply (bool_decide_unpack _). by destruct controller_mode. Qed.

Lemma process_start_inv (mode metrics : bool) (w : W) : process_inv mode (process_start mode metrics w).
Proof.
  constructor; simpl; try done.
  - rewrite map_map. apply map_id.
  - apply List.Forall_map. apply List.Forall_forall. intros t _. exact I.
Qed.

(** A task's event: the join set was being joined, since a joined task has none. *)
Lemma task_live (mode : bool) (r : Process W) (t : agent_task) (p : task_phase) :
  process_inv mode r -> phase_of t (pr_tasks r) = Some p -> match p with Joined _ => False | _ => True end ->
  pr_main r = Joining.
Proof.
  intros Hi Hp Hl. destruct (decide (pr_main r = Joining)) as [|Hne]; [done|].
  destruct (pi_main _ _ Hi Hne) as [Hj _]. unfold all_joined in Hj. rewrite forallb_forall in Hj.
  apply phase_of_in in Hp. specialize (Hj _ Hp). simpl in Hj. by destruct p.
Qed.

Lemma with_task_inv (mode : bool) (r : Process W) (t : agent_task) (p q : task_phase) (w : W) :
  process_inv mode r -> phase_of t (pr_tasks r) = Some q -> match q with Joined _ => False | _ => True end ->
  phase_ok (pr_shutdown r) (t, p) -> process_inv mode (with_task t p w r).
Proof.
  intros Hi Hq Hl Hp. pose proof (task_live mode r t q Hi Hq Hl) as Hm. destruct Hi as [H1 H2 H3 H4 H5].
  constructor; simpl; [by rewrite set_phase_names|by apply set_phase_Forall|congruence|done|congruence].
Qed.

Lemma process_step_inv (mode : bool) (r r' : Process W) (e : process_event) :
  process_inv mode r -> process_step r e = Some r' -> process_inv mode r'.
Proof.
  intros Hi. destruct e as [|t|t|t|t| | | | |]; simpl.
  - destruct (pr_waiting r) eqn:Ew; [|done]. intros [= <-]. destruct Hi as [H1 H2 H3 H4 H5].
    constructor; simpl; try done; [|naive_solver].
    eapply Forall_impl; [exact H2|]. intros [t p]. by destruct p as [| |[]|[]].
  - destruct (phase_of t (pr_tasks r)) as [[| |b|b]|] eqn:Ep; try done.
    destruct (task_enter t (pr_world r)) as [[] w] eqn:Ee; intros [= <-]; eapply with_task_inv; try done.
    exists (pr_world r). simpl. by rewrite Ee.
  - destruct (phase_of t (pr_tasks r)) as [[| |b|b]|] eqn:Ep; try done.
    intros [= <-]; by eapply with_task_inv.
  - destruct (phase_of t (pr_tasks r)) as [[| |b|b]|] eqn:Ep; try done.
    destruct (pr_shutdown r) eqn:Es; [|done]. intros [= <-]. by eapply with_task_inv.
  - destruct (phase_of t (pr_tasks r)) as [[| |b|b]|] eqn:Ep; try done.
    intros [= <-]. eapply with_task_inv; try done.
    pose proof (pi_phases _ _ Hi) as Hp. rewrite Forall_forall in Hp. apply phase_of_in, list_elem_of_In in Ep.
    by apply (Hp _ Ep).
  - destruct (serve_turn (pr_world r)) as [ok w]. destruct (pr_server r && _ && ok) eqn:Es; [|done]. intros [= <-].
    destruct Hi as [H1 H2 H3 H4 H5]. constructor; simpl; try done. intros Hx. rewrite (H5 Hx) in Es. done.
  - destruct (serve_turn (pr_world r)) as [ok w]. destruct (pr_server r && _ && _); [|done]. intros [= <-].
    destruct Hi as [H1 H2 H3 H4 H5]. by constructor.
  - destruct (pr_server r && _); [|done]. intros [= <-]. destruct Hi as [H1 H2 H3 H4 H5]. by constructor.
  - destruct (bool_decide (pr_main r = Joining) && all_joined (pr_tasks r)) eqn:Ej; [|done]. intros [= <-].
    apply andb_true_iff in Ej as [_ Ej]. destruct Hi as [H1 H2 H3 H4 H5]. by constructor.
  - destruct (bool_decide (pr_main r = Returned) && negb (pr_server r)) eqn:Ej; [|done]. intros [= <-].
    apply andb_true_iff in Ej as [Er%bool_decide_eq_true Es%negb_true_iff]. destruct Hi as [H1 H2 H3 H4 H5].
    constructor; simpl; try done. intros _. apply H3. by rewrite Er.
Qed.

Lemma process_run_inv (mode : bool) (evs : list process_event) (r r' : Process W) :
  process_inv mode r -> process_run r evs = Some r' -> process_inv mode r'.
Proof.
  revert r. induction evs as [|e evs IH]; intros r Hi; simpl; [by intros [= <-]|].
  destruct (process_step r e) as [r1|] eqn:E; [|done]. apply IH. by eapply process_step_inv.
Qed.

Lemma process_run_app (evs evs' : list process_event) (r : Process W) :
  process_run r (evs ++ evs') =
  match process_run r evs with Some r' => process_run r' evs' | None => None end.
Proof.
  revert r. induction evs as [|e evs IH]; intros r; simpl; [done|]. by destruct (process_step r e).
Qed.
(** The world after an event. *)
Definition event_world (e : process_event) (w : W) : W :=
  match e with
  | PEnter t => snd (task_enter t w)
  | PTurn t => task_turn t w
  | PStop t => task_end t w
  | PServe | PServeFail => snd (serve_turn w)
  | PReturn => sinks_drop w
  | _ => w
  end.

Lemma process_step_world (r r' : Process W) (e : process_event) :
  process_step r e = Some r' -> pr_world r' = event_world e (pr_world r).
Proof.
  destruct e as [|t|t|t|t| | | | |]; simpl; try (destruct (task_enter t (pr_world r)) as [b w]);
    try (destruct (serve_turn (pr_world r)) as [b w]); repeat case_match; try done; intros [= <-]; done.
Qed.

(** What an observer of the run notes, event by event, from the world each finds. *)
Fixpoint process_notes {G : Type} (note : process_event -> W -> G -> G) (r : Process W)
    (evs : list process_event) (g : G) : G :=
  match evs with
  | [] => g
  | e :: rest =>
      match process_step r e with
      | Some r' => process_notes note r' rest (note e (pr_world r) g)
      | None => g
      end
  end.

(** What every event keeps, a run keeps, with what was noted. *)
Lemma process_run_notes {G : Type} (note : process_event -> W -> G -> G) (P : W -> G -> Prop)
    (evs : list process_event) (r r' : Process W) (g : G) :
  (forall e w g, P w g -> P (event_world e w) (note e w g)) ->
  P (pr_world r) g -> process_run r evs = Some r' -> P (pr_world r') (process_notes note r evs g).
Proof.
  intros Hn. revert r g. induction evs as [|e evs IH]; intros r g Hr; simpl; [by intros [= <-]|].
  destruct (process_step r e) as [r1|] eqn:E; [|done]. apply IH.
  rewrite (process_step_world _ _ _ E). by apply Hn.
Qed.

Lemma process_run_world (P : W -> Prop) (evs : list process_event) (r r' : Process W) :
  (forall t w, P w -> P (snd (task_enter t w))) -> (forall t w, P w -> P (task_turn t w)) ->
  (forall t w, P w -> P (task_end t w)) -> (forall w, P w -> P (snd (serve_turn w))) ->
  (forall w, P w -> P (sinks_drop w)) ->
  P (pr_world r) -> process_run r evs = Some r' -> P (pr_world r').
Proof.
  intros He Ht Hd Hs Hk. apply (process_run_notes (fun _ _ g => g) (fun w _ => P w) evs r r' tt).
  intros [] w _; simpl; auto.
Qed.

(** Nothing happens in a process that is gone, and only the exit takes it there. *)
Lemma exited_still (mode : bool) (r : Process W) (e : process_event) :
  process_inv mode r -> pr_main r = Exited -> process_step r e = None.
Proof.
  intros Hi Hx. destruct (pi_main _ _ Hi ltac:(by rewrite Hx)) as [_ Hw]. pose proof (pi_exit _ _ Hi Hx) as Hs.
  assert (Ht : forall t, match phase_of t (pr_tasks r) with Some (Joined _) | None => True | _ => False end).
  { intros t. destruct (phase_of t (pr_tasks r)) as [p|] eqn:Ep; [|done].
    destruct p; try done; by rewrite (task_live mode r t _ Hi Ep Logic.I) in Hx. }
  destruct e as [|t|t|t|t| | | | |]; simpl; rewrite ?Hw, ?Hs, ?Hx; try done;
    try (specialize (Ht t); by destruct (phase_of t (pr_tasks r)) as [[]|]); by destruct (serve_turn (pr_world r)).
Qed.

Lemma only_exit (r r' : Process W) (e : process_event) :
  process_step r e = Some r' -> pr_main r' = Exited -> e = PExit \/ pr_main r = Exited.
Proof.
  intros Hs Hx. destruct e as [|t|t|t|t| | | | |]; simpl in Hs; repeat case_match; simplify_eq/=; auto.
Qed.

(** ** Progress *)

Lemma with_task_left (mode : bool) (r : Process W) (t : agent_task) (p q : task_phase) (w : W) :
  process_inv mode r -> phase_of t (pr_tasks r) = Some q ->
  (steps_left (with_task t p w r) + phase_left q = steps_left r + phase_left p)%nat.
Proof.
  intros Hi Hq. unfold steps_left. simpl.
  pose proof (set_phase_left t p q (pr_tasks r)) as Hl. rewrite (pi_tasks _ _ Hi) in Hl.
  specialize (Hl (agent_tasks_nodup mode) Hq). lia.
Qed.

Lemma process_step_left (mode : bool) (r r' : Process W) (e : process_event) :
  process_inv mode r -> process_step r e = Some r' ->
  ((if progress e then 1 else 0) + steps_left r' <= steps_left r)%nat.
Proof.
  intros Hi. destruct e as [|t|t|t|t| | | | |]; simpl.
  - destruct (pr_waiting r); [|done]. by intros [= <-].
  - destruct (phase_of t (pr_tasks r)) as [[| |b|b]|] eqn:Ep; try done.
    destruct (task_enter t (pr_world r)) as [[] w]; intros [= <-];
      pose proof (with_task_left mode r t Looping _ w Hi Ep);
      pose proof (with_task_left mode r t (Ended false) _ w Hi Ep); simpl in *; lia.
  - destruct (phase_of t (pr_tasks r)) as [[| |b|b]|] eqn:Ep; try done. intros [= <-].
    pose proof (with_task_left mode r t Looping _ (task_turn t (pr_world r)) Hi Ep). simpl in *. lia.
  - destruct (phase_of t (pr_tasks r)) as [[| |b|b]|] eqn:Ep; try done.
    destruct (pr_shutdown r); [|done]. intros [= <-].
    pose proof (with_task_left mode r t (Ended true) _ (task_end t (pr_world r)) Hi Ep). simpl in *. lia.
  - destruct (phase_of t (pr_tasks r)) as [[| |b|b]|] eqn:Ep; try done. intros [= <-].
    pose proof (with_task_left mode r t (Joined b) _ (pr_world r) Hi Ep). simpl in *. lia.
  - destruct (serve_turn (pr_world r)) as [ok w]. destruct (pr_server r) eqn:Es; [|done].
    destruct (_ && _ && ok); [|done]. intros [= <-]. unfold steps_left. simpl. rewrite Es. lia.
  - destruct (serve_turn (pr_world r)) as [ok w]. destruct (pr_server r) eqn:Es; [|done].
    destruct (_ && _ && _); [|done]. intros [= <-]. unfold steps_left. simpl. rewrite Es. lia.
  - destruct (pr_server r) eqn:Es; [|done]. destruct (_ && _); [|done]. intros [= <-].
    unfold steps_left. simpl. rewrite Es. lia.
  - destruct (pr_main r) eqn:Em; simpl; [|done|done]. destruct (all_joined _); [|done]. intros [= <-].
    unfold steps_left. simpl. rewrite Em. simpl. lia.
  - destruct (pr_main r) eqn:Em; simpl; [done| |done]. destruct (negb _); [|done]. intros [= <-].
    unfold steps_left. simpl. rewrite Em. simpl. lia.
Qed.

Lemma process_run_left (mode : bool) (evs : list process_event) (r r' : Process W) :
  process_inv mode r -> process_run r evs = Some r' ->
  (length (List.filter progress evs) + steps_left r' <= steps_left r)%nat.
Proof.
  revert r. induction evs as [|e evs IH]; intros r Hi; simpl; [by intros [= <-]|].
  destruct (process_step r e) as [r1|] eqn:E; [|done]. intros Hr.
  pose proof (process_step_left mode r r1 e Hi E). specialize (IH r1 (process_step_inv mode r r1 e Hi E) Hr).
  destruct (progress e); simpl; lia.
Qed.

Lemma shutdown_stays (evs : list process_event) (r r' : Process W) :
  process_run r evs = Some r' -> pr_shutdown r = true -> pr_shutdown r' = true.
Proof.
  revert r. induction evs as [|e evs IH]; intros r; simpl; [by intros [= <-]|].
  destruct (process_step r e) as [r1|] eqn:E; [|done]. intros Hr Hs. apply (IH r1 Hr).
  destruct e; simpl in E; repeat case_match; simplify_eq/=; done.
Qed.

(** After the signal the process can always be taken further. *)
Lemma next_progress (mode : bool) (r : Process W) :
  process_inv mode r -> pr_shutdown r = true -> pr_main r <> Exited ->
  exists e r', progress e = true /\ process_step r e = Some r'.
Proof.
  intros Hi Hs Hm. destruct (all_joined (pr_tasks r)) eqn:Ej.
  - destruct (pr_main r) eqn:Em; [|destruct (pr_server r) eqn:Er|done].
    + exists PReturn. simpl. rewrite Em, Ej. simpl. by eauto.
    + exists PServerStop. simpl. rewrite Er, Hs. simpl. by eauto.
    + exists PExit. simpl. rewrite Em, Er. simpl. by eauto.
  - assert (Hx : exists t p, phase_of t (pr_tasks r) = Some p /\ match p with Joined _ => False | _ => True end).
    { apply not_all_joined in Ej as (t & p & Hin & Hp). exists t, p. split; [|done].
      apply in_phase_of; [rewrite (pi_tasks _ _ Hi); apply agent_tasks_nodup|done]. }
    destruct Hx as (t & [| |b|b] & Hp & Hl); [exists (PEnter t)|exists (PStop t)|exists (PJoin t)|done];
      simpl; rewrite Hp; [destruct (task_enter t (pr_world r)) as [[] w]|rewrite Hs|]; by eauto.
Qed.

Lemma can_exit (mode : bool) (n : nat) (r : Process W) :
  (steps_left r <= n)%nat -> process_inv mode r -> pr_shutdown r = true ->
  exists evs r', process_run r evs = Some r' /\ pr_main r' = Exited.
Proof.
  revert r. induction n as [|n IH]; intros r Hn Hi Hs;
    (destruct (decide (pr_main r = Exited)) as [|Hm]; [by exists [], r|]);
    destruct (next_progress mode r Hi Hs Hm) as (e & r1 & Hp & E);
    pose proof (process_step_left mode r r1 e Hi E) as Hl; rewrite Hp in Hl; [lia|].
  assert (Hs1 : pr_shutdown r1 = true) by (apply (shutdown_stays [e] r r1); simpl; by rewrite ?E).
  destruct (IH r1 ltac:(lia) (process_step_inv mode r r1 e Hi E) Hs1) as (evs & r' & Hr & Hx).
  exists (e :: evs), r'. simpl. by rewrite E.
Qed.

(** * Properties *)

(** C19. The agent runs until it is told to stop: before the signal, a task that
    has entered its loop is still in it, so main can only return when no task
    had a loop to enter.  With a controller, whose tasks always have one, main
    does not return at all, however many observers fail. *)
Theorem agent_runs_until_signalled (controller_mode metrics : bool) (w : W) (evs : list process_event)
    (r : Process W) (Hrun : process_run (process_start controller_mode metrics w) evs = Some r)
    (Hquiet : pr_shutdown r = false) :
  Forall (fun x => match snd x with Ended true | Joined true => False | _ => True end) (pr_tasks r) /\
  (pr_main r <> Joining ->
   Forall (fun x => snd x = Joined false /\ exists w, fst (task_enter (fst x) w) = false) (pr_tasks r)) /\
  (controller_mode = true -> (forall w, fst (task_enter RegistrationTask w) = true) -> pr_main r = Joining).
Proof.
  pose proof (process_run_inv _ _ _ _ (process_start_inv controller_mode metrics w) Hrun) as Hi.
  pose proof (pi_phases _ _ Hi) as Hp. rewrite Hquiet in Hp.
  assert (Hret : pr_main r <> Joining ->
    Forall (fun x => snd x = Joined false /\ exists w, fst (task_enter (fst x) w) = false) (pr_tasks r)).
  { intros Hm. destruct (pi_main _ _ Hi Hm) as [Hj _]. unfold all_joined in Hj. rewrite forallb_forall in Hj.
    rewrite Forall_forall in Hp |- *. intros [t p] Hin. specialize (Hp _ Hin).
    apply list_elem_of_In in Hin. specialize (Hj _ Hin). simpl in *. by destruct p as [| |b|[]]. }
  split; [|split; [done|]].
  - eapply Forall_impl; [exact Hp|]. intros [t p]. unfold phase_ok. by destruct p as [| |[]|[]].
  - intros -> Hent. destruct (decide (pr_main r = Joining)) as [|Hm]; [done|]. exfalso.
    specialize (Hret Hm). rewrite Forall_forall in Hret.
    assert (Hin : In RegistrationTask (map fst (pr_tasks r))) by (rewrite (pi_tasks _ _ Hi); by left).
    apply in_map_iff in Hin as ([t p] & Ht & Hin). apply list_elem_of_In in Hin.
    destruct (Hret _ Hin) as [_ [w' Hw]]. simpl in *. subst t. rewrite Hent in Hw. done.
Qed.

(** C14. The agent stops when it is told to: after the signal at most twenty-one
    events other than turns can happen (each task enters, stops and is joined,
    main returns, the metrics server stops, the process exits), whatever the
    order and however the loops are scheduled; until the exit the next one can
    always be taken, and a run of them reaches it.  At the exit every task has
    been joined and the server has stopped. *)
Theorem agent_stops_when_signalled (controller_mode metrics : bool) (w : W) (evs evs' : list process_event)
    (r r' : Process W) (Hrun : process_run (process_start controller_mode metrics w) evs = Some r)
    (Hsignal : pr_shutdown r = true) (Hrest : process_run r evs' = Some r') :
  (length (List.filter progress evs') <= 21)%nat /\
  (pr_main r' <> Exited -> exists e r'', progress e = true /\ process_step r' e = Some r'') /\
  (exists evs'' r'', process_run r' evs'' = Some r'' /\ pr_main r'' = Exited) /\
  (pr_main r' = Exited -> all_joined (pr_tasks r') = true /\ pr_server r' = false).
Proof.
  pose proof (process_start_inv controller_mode metrics w) as Hi0.
  pose proof (process_run_inv _ _ _ _ Hi0 Hrun) as Hi. pose proof (process_run_inv _ _ _ _ Hi Hrest) as Hi'.
  pose proof (process_run_left _ _ _ _ Hi0 Hrun). pose proof (process_run_left _ _ _ _ Hi Hrest).
  pose proof (shutdown_stays _ _ _ Hrest Hsignal) as Hs.
  assert (steps_left (process_start controller_mode metrics w) <= 21)%nat by (destruct controller_mode, metrics; vm_compute; lia).
  split; [lia|]. split; [by apply (next_progress controller_mode)|].
  split; [by apply (can_exit controller_mode (steps_left r'))|].
  intros Hx. split; [|by apply (pi_exit _ _ Hi')]. by apply (pi_main _ _ Hi'); rewrite Hx.
Qed.

(** ** A return without a signal *)

Definition server_fails (e : process_event) : bool := match e with PServeFail => true | _ => false end.

Definition hung (r : Process W) : Prop :=
  pr_main r = Returned /\ pr_shutdown r = false /\ pr_waiting r = false /\ pr_server r = true /\
  all_joined (pr_tasks r) = true.

Lemma joined_phase (r : Process W) (t : agent_task) (p : task_phase) :
  all_joined (pr_tasks r) = true -> phase_of t (pr_tasks r) = Some p -> exists b, p = Joined b.
Proof.
  unfold all_joined. rewrite forallb_forall. intros Hj Hp%phase_of_in. specialize (Hj _ Hp). simpl in Hj.
  destruct p; try done. by eexists.
Qed.

Lemma hung_step (r r' : Process W) (e : process_event) :
  hung r -> server_fails e = false -> process_step r e = Some r' -> hung r'.
Proof.
  intros (Hm & Hs & Hw & Hr & Hj) He. unfold process_step.
  destruct e as [|t|t|t|t| | | | |]; try done; rewrite ?Hm, ?Hs, ?Hw, ?Hr; simpl; try done.
  1-4: destruct (phase_of t (pr_tasks r)) as [p|] eqn:Ep; [|done];
    destruct (joined_phase r t p Hj Ep) as [b ->]; done.
  destruct (serve_turn (pr_world r)) as [[] w]; simpl; [|done]. by intros [= <-].
Qed.

Lemma hung_run (evs : list process_event) (r r' : Process W) :
  hung r -> forallb (fun e => negb (server_fails e)) evs = true -> process_run r evs = Some r' -> hung r'.
Proof.
  revert r. induction evs as [|e evs IH]; intros r Hh; simpl; [by intros _ [= <-]|].
  intros [He Hevs]%andb_true_iff. destruct (process_step r e) as [r1|] eqn:E; [|done].
  apply IH; [|done]. eapply hung_step; [exact Hh| |exact E]. by apply negb_true_iff.
Qed.

(** C38. Without a controller, when no observer gets as far as its loop, main
    returns by itself, without the shutdown ever being sent; if the metrics
    server is on, its loop still waits for it, its thread is waited for, and
    the process hangs: whatever happens from then on, unless the server itself
    fails, main has returned and the process has not exited, and no signal can
    be received any more. *)
Theorem unsignalled_return_hangs (w : W)
    (Hends : forall o w, fst (task_enter (ObserverTask o) w) = false) :
  exists evs r, process_run (process_start false true w) evs = Some r /\ pr_main r = Returned /\
    forall evs' r', forallb (fun e => negb (server_fails e)) evs' = true -> process_run r evs' = Some r' ->
      pr_main r' = Returned /\ pr_server r' = true /\ process_step r' PSignal = None /\
      process_step r' PExit = None.
Proof.
  set (evs := concat (map (fun o => [PEnter (ObserverTask o); PJoin (ObserverTask o)]) OBSERVER_TASKS) ++ [PReturn]).
  assert (Hrun : exists r, process_run (process_start false true w) evs = Some r /\ hung r).
  { unfold evs. cbv -[task_enter sinks_drop hung].
    destruct (task_enter (ObserverTask NetworkTask) w) as [b1 w1] eqn:E1.
    pose proof (Hends NetworkTask w) as H1. rewrite E1 in H1. simpl in H1. subst b1. cbv -[task_enter sinks_drop hung].
    destruct (task_enter (ObserverTask ContainerTask) w1) as [b2 w2] eqn:E2.
    pose proof (Hends ContainerTask w1) as H2. rewrite E2 in H2. simpl in H2. subst b2. cbv -[task_enter sinks_drop hung].
    destruct (task_enter (ObserverTask StorageTask) w2) as [b3 w3] eqn:E3.
    pose proof (Hends StorageTask w2) as H3. rewrite E3 in H3. simpl in H3. subst b3. cbv -[task_enter sinks_drop hung].
    destruct (task_enter (ObserverTask PmcTask) w3) as [b4 w4] eqn:E4.
    pose proof (Hends PmcTask w3) as H4. rewrite E4 in H4. simpl in H4. subst b4. cbv -[task_enter sinks_drop hung].
    eexists. split; [reflexivity|]. by repeat split. }
  destruct Hrun as (r & Hrun & Hh). exists evs, r. split; [exact Hrun|]. split; [apply Hh|].
  intros evs' r' Hf Hr. destruct (hung_run evs' r r' Hh Hf Hr) as (Hm & Hs & Hw & Hsv & Hj).
  split; [done|]. split; [done|]. unfold process_step. rewrite Hw, Hm, Hsv. done.
Qed.
End Runs.

(** * Witnesses *)

(** A machine without performance counters; its state counts the turns. *)
#[local] Instance counting_bodies : Bodies Z := {
  task_enter t w := (match t with ObserverTask PmcTask => false | _ => true end, w);
  task_turn _ w := w + 1;
  task_end _ w := w;
  serve_turn w := (true, w);
  sinks_drop w := w;
}.

Definition early_events : list process_event :=
  [PEnter (ObserverTask PmcTask); PEnter RegistrationTask; PTurn RegistrationTask; PServe;
   PJoin (ObserverTask PmcTask); PEnter PollTask; PTurn PollTask].

Lemma agent_runs_until_signalled_witness :
  exists r, process_run (process_start true true 0) early_events = Some r /\ pr_main r = Joining /\ pr_world r = 2.
Proof.
  assert (Hrun : exists r, process_run (process_start true true 0) early_events = Some r /\
    pr_shutdown r = false /\ pr_world r = 2) by (eexists; split; [vm_compute; reflexivity|vm_compute; done]).
  destruct Hrun as (r & Hrun & Hq & Hw). exists r. split; [exact Hrun|]. split; [|exact Hw].
  exact (proj2 (proj2 (agent_runs_until_signalled true true 0 early_events r Hrun Hq)) eq_refl (fun _ => eq_refl)).
Defined.

Definition late_events : list process_event :=
  [PTurn PollTask; PStop PollTask; PServerStop; PEnter (ObserverTask NetworkTask); PStop (ObserverTask NetworkTask);
   PJoin PollTask; PTurn RegistrationTask].

Lemma agent_stops_when_signalled_witness :
  exists r r', process_run (process_start true true 0) (early_events ++ [PSignal]) = Some r /\
    process_run r late_events = Some r' /\ pr_world r' = 4 /\
    exists evs r'', process_run r' evs = Some r'' /\ pr_main r'' = Exited.
Proof.
  assert (Hrun : exists r r', process_run (process_start true true 0) (early_events ++ [PSignal]) = Some r /\
    pr_shutdown r = true /\ process_run r late_events = Some r' /\ pr_world r' = 4).
  { eexists _, _. split; [vm_compute; reflexivity|]. split; [vm_compute; reflexivity|].
    split; [vm_compute; reflexivity|]. vm_compute. reflexivity. }
  destruct Hrun as (r & r' & Hrun & Hs & Hrest & Hw). exists r, r'. split; [exact Hrun|]. split; [exact Hrest|].
  split; [exact Hw|].
  exact (proj1 (proj2 (proj2 (agent_stops_when_signalled true true 0 (early_events ++ [PSignal]) late_events r r'
    Hrun Hs Hrest)))).
Defined.
