(* ===== verification/Agent.v ===== *)
(** The running agent: the bodies of its tasks, each a component modelled on its
    own, over the cells [main] hands to all of them (the counters, the
    controller's cells, the carriers and the kernel maps, the applied identity,
    the thresholds channel), run by [AgentRun].  A turn of a task is atomic; the
    interleavings inside a fan-out are those of [Carriers]. *)
From Stdlib Require Import String.
From S2P Require Import Prelude RustStr BTree Wire CommonEbpf Occurrence PmcObs ContainerObs.
From S2P Require Import Metrics Httpc AgentConfig Heartbeat Carriers Setup Poll Registration Sink Drain.
From S2P Require Import AgentMain AgentRun.

Local Open Scope Z_scope.

(** What else the tasks ask of the outside: the records that arrived in an
    observer's ring and the kernel's counters, the time since the start, the
    kernel's release file, the metrics listener, and the drop of the sinks. *)
Class Outside (W : Type) := {
  out_arrived : observer_task -> W -> list (list Z) * W;
  out_percpu : W -> Z -> Z -> option (list Z);
  out_elapsed : W -> Z;
  out_osrelease : W -> option string;
  out_accept : W -> accept_event * W;
  out_drop_sinks : W -> W;
}.

(** The cells the tasks share. *)
Record Cells := {
  ce_metrics : TapioMetrics;
  ce_state : ControllerState;
  ce_carriers : ConfigCarrierState;
  ce_maps : Maps;
  ce_active : ActiveConfigIdentity;
  ce_thresholds : PmcThresholds;
}.

(** An observer past its setup: the variables of its loop, what is in its ring,
    the descriptor of the kernel's counters. *)
Record ObserverLoop := {
  ol_counts : DrainCounts;
  ol_ring : list (list Z);
  ol_metrics_fd : option Z;
}.

(** The network, which only the controller's tasks use here (the sinks have
    their own connections behind [Reporter]), is apart from the node. *)
Record AgentWorld (W N : Type) := {
  aw_cells : Cells;
  aw_registration : reg_phase;
  aw_etag : option string;
  aw_loops : observer_task -> ObserverLoop;
  aw_limits : list (Z * Z);
  aw_calls : list setup_call;
  aw_outside : W;
  aw_network : N;
}.
Arguments aw_cells {W N} _.
Arguments aw_registration {W N} _.
Arguments aw_etag {W N} _.
Arguments aw_loops {W N} _.
Arguments aw_limits {W N} _.
Arguments aw_calls {W N} _.
Arguments aw_outside {W N} _.
Arguments aw_network {W N} _.

(** The outside with the thresholds channel in view, as the processor's observer
    has it. *)
#[export] Instance channel_env {W : Type} `{Env W} : Env (W * PmcThresholds) := {
  env_now w := let '(now, w0) := env_now (fst w) in (now, (w0, snd w));
  env_id w := let '(id, w0) := env_id (fst w) in (id, (w0, snd w));
  env_thresholds w := snd w;
  env_read_file w := env_read_file (fst w);
}.

#[export, program] Instance channel_reporter {W : Type} `{Reporter W} : Reporter (W * PmcThresholds) := {
  report o m w := let '(r, m, w0) := report o m (fst w) in (r, m, (w0, snd w));
  report_flush w := let '(r, w0) := report_flush (fst w) in (r, (w0, snd w));
}.
Next Obligation.
  intros W H o m [w t] k labels Hk. cbn [fst snd].
  pose proof (report_frame o m w k labels Hk) as Hf. by destruct (report o m w) as [[r m'] w'].
Qed.

Section Agent.
Variable utf8_error : string -> string.
Variable package_version arch : string.
Variable encode_hello : HelloRequest -> result string string.
Variable decode_hello : string -> result HelloResponse string.
Variable encode_heartbeat : HeartbeatRequest -> result string string.
Variable decode_heartbeat : string -> result HeartbeatResponse string.
Variable decode_config : string -> result ConfigResponse string.
Variable writable : nat -> Z -> bool.
Variable boot_offset_ns : Z.
(** The directory of the eBPF objects, and what [main] starts with. *)
Variable ebpf_dir : string.
Variable start : AgentStart.
Context {W N : Type} `{Aya W} `{Env W} `{Reporter W} `{Outside W} `{Net N}.

Definition with_cells (c : Cells) (w : W) (a : AgentWorld W N) : AgentWorld W N := {|
  aw_cells := c; aw_registration := aw_registration a; aw_etag := aw_etag a; aw_loops := aw_loops a;
  aw_limits := aw_limits a; aw_calls := aw_calls a; aw_outside := w; aw_network := aw_network a |}.

(** ** Registration *)

Definition registration_state (a : AgentWorld W N) : RegState := {|
  rg_phase := aw_registration a; rg_state := ce_state (aw_cells a); rg_metrics := ce_metrics (aw_cells a) |}.

Definition put_registration (s : RegState) (n : N) (a : AgentWorld W N) : AgentWorld W N := {|
  aw_cells := {| ce_metrics := rg_metrics s; ce_state := rg_state s;
                 ce_carriers := ce_carriers (aw_cells a); ce_maps := ce_maps (aw_cells a);
                 ce_active := ce_active (aw_cells a); ce_thresholds := ce_thresholds (aw_cells a) |};
  aw_registration := rg_phase s; aw_etag := aw_etag a; aw_loops := aw_loops a;
  aw_limits := aw_limits a; aw_calls := aw_calls a; aw_outside := aw_outside a; aw_network := n |}.

(** What the loop waits for, and what comes of it. *)
Definition registration_event (c : ControllerConfig) (a : AgentWorld W N) : reg_event * N :=
  let w := aw_outside a in
  let n := aw_network a in
  match aw_registration a with
  | RHello _ =>
      let '(r, n) := hello_once utf8_error package_version arch encode_hello decode_hello c
                       (kernel_release_from (out_osrelease w)) n in (EvHello r, n)
  | RHeartbeat =>
      let '(r, n) := heartbeat_once utf8_error encode_heartbeat decode_heartbeat c (ce_metrics (aw_cells a))
                       (ce_active (aw_cells a)) (out_elapsed w) n in (EvHeartbeat r, n)
  | RSleep _ | RStopped => (EvSlept, n)
  end.

Definition registration_turn (c : ControllerConfig) (a : AgentWorld W N) : AgentWorld W N :=
  let '(ev, n) := registration_event c a in
  put_registration (default (registration_state a) (reg_step (registration_state a) ev)) n a.

Definition registration_end (a : AgentWorld W N) : AgentWorld W N :=
  put_registration (default (registration_state a) (reg_step (registration_state a) EvShutdown)) (aw_network a) a.

(** ** Poll *)

Definition poll_state (a : AgentWorld W N) : PollState := {|
  po_etag := aw_etag a; po_carriers := ce_carriers (aw_cells a); po_maps := ce_maps (aw_cells a);
  po_thresholds := ce_thresholds (aw_cells a); po_active := ce_active (aw_cells a);
  po_metrics := ce_metrics (aw_cells a); po_state := ce_state (aw_cells a) |}.

(** [main] keeps a receiver of the thresholds, so the channel stays open. *)
Definition poll_turn (c : ControllerConfig) (a : AgentWorld W N) : AgentWorld W N :=
  let '(s, n) := poll_tick utf8_error decode_config writable true c (poll_state a) (aw_network a) in
  {| aw_cells := {| ce_metrics := po_metrics s; ce_state := po_state s; ce_carriers := po_carriers s;
                    ce_maps := po_maps s; ce_active := po_active s; ce_thresholds := po_thresholds s |};
     aw_registration := aw_registration a; aw_etag := po_etag s; aw_loops := aw_loops a;
     aw_limits := aw_limits a; aw_calls := aw_calls a; aw_outside := aw_outside a; aw_network := n |}.

(** ** Observers *)

Definition set_loop (o : observer_task) (l : ObserverLoop) (loops : observer_task -> ObserverLoop) :
  observer_task -> ObserverLoop := fun o' => if decide (o' = o) then l else loops o'.

Definition observer_enter (o : observer_task) (a : AgentWorld W N) : bool * AgentWorld W N :=
  let c := aw_cells a in
  let '(r, s) :=
    task_setup writable o (ebpf_dir +:+ task_object o) (ag_tapio_config start)
      {| su_carriers := ce_carriers c; su_maps := ce_maps c; su_calls := aw_calls a; su_world := aw_outside a |} in
  let loops :=
    match r with
    | Ok (metrics_fd, _) =>
        set_loop o {| ol_counts := DrainCounts_zero; ol_ring := []; ol_metrics_fd := metrics_fd |} (aw_loops a)
    | Err _ => aw_loops a
    end in
  (is_ok r,
   {| aw_cells := {| ce_metrics := ce_metrics c; ce_state := ce_state c; ce_carriers := su_carriers s;
                     ce_maps := su_maps s; ce_active := ce_active c; ce_thresholds := ce_thresholds c |};
      aw_registration := aw_registration a; aw_etag := aw_etag a; aw_loops := loops;
      aw_limits := aw_limits a; aw_calls := su_calls s; aw_outside := su_world s;
      aw_network := aw_network a |}).

(** One tick of an observer's loop over the shared counters. *)
Definition observer_tick {L : Type} (obs : Observer (W * PmcThresholds) L) (o : observer_task) (l : L)
    (a : AgentWorld W N) : L * AgentWorld W N :=
  let '(arrived, w) := out_arrived o (aw_outside a) in
  let c := aw_cells a in
  let ol := aw_loops a o in
  let '(ring, s) :=
    tick (Observer0 := obs) (ol_metrics_fd ol) (out_percpu w) (ol_ring ol ++ arrived)
      {| dr_counts := ol_counts ol; dr_metrics := ce_metrics c; dr_local := l; dr_world := (w, ce_thresholds c) |} in
  (dr_local s,
   {| aw_cells := {| ce_metrics := dr_metrics s; ce_state := ce_state c; ce_carriers := ce_carriers c;
                     ce_maps := ce_maps c; ce_active := ce_active c; ce_thresholds := ce_thresholds c |};
      aw_registration := aw_registration a; aw_etag := aw_etag a;
      aw_loops := set_loop o {| ol_counts := dr_counts s; ol_ring := ring; ol_metrics_fd := ol_metrics_fd ol |}
                    (aw_loops a);
      aw_limits := aw_limits a; aw_calls := aw_calls a; aw_outside := fst (dr_world s);
      aw_network := aw_network a |}).

Definition with_limits (limits : list (Z * Z)) (a : AgentWorld W N) : AgentWorld W N := {|
  aw_cells := aw_cells a; aw_registration := aw_registration a; aw_etag := aw_etag a; aw_loops := aw_loops a;
  aw_limits := limits; aw_calls := aw_calls a; aw_outside := aw_outside a; aw_network := aw_network a |}.

Definition observer_turn (o : observer_task) (a : AgentWorld W N) : AgentWorld W N :=
  match o with
  | NetworkTask => snd (observer_tick network_observer o tt a)
  | ContainerTask =>
      let '(limits, a) := observer_tick (container_observer boot_offset_ns) o (aw_limits a) a in
      with_limits limits a
  | StorageTask => snd (observer_tick (storage_observer boot_offset_ns) o tt a)
  | PmcTask => snd (observer_tick (pmc_observer boot_offset_ns) o tt a)
  end.

(** ** The bodies *)

Definition body_enter (t : agent_task) (a : AgentWorld W N) : bool * AgentWorld W N :=
  match t with
  | ObserverTask o => observer_enter o a
  | _ => (true, a)
  end.

Definition body_turn (t : agent_task) (a : AgentWorld W N) : AgentWorld W N :=
  match t, ag_controller start with
  | RegistrationTask, Some c => registration_turn c a
  | PollTask, Some c => poll_turn c a
  | ObserverTask o, _ => observer_turn o a
  | _, None => a
  end.

(** After its loop an observer flushes the sink; the others only return. *)
Definition body_end (t : agent_task) (a : AgentWorld W N) : AgentWorld W N :=
  match t with
  | RegistrationTask => registration_end a
  | PollTask => a
  | ObserverTask _ => with_cells (aw_cells a) (snd (report_flush (aw_outside a))) a
  end.

Definition body_serve (a : AgentWorld W N) : bool * AgentWorld W N :=
  let '(ev, w) := out_accept (aw_outside a) in
  (is_ok (serve_step (ce_metrics (aw_cells a)) ev), with_cells (aw_cells a) w a).

#[export] Instance agent_bodies : Bodies (AgentWorld W N) := {
  task_enter := body_enter;
  task_turn := body_turn;
  task_end := body_end;
  serve_turn := body_serve;
  sinks_drop a := with_cells (aw_cells a) (out_drop_sinks (aw_outside a)) a;
}.

(** The process as [main] has built it when it joins the tasks. *)
Definition agent_world (metrics : TapioMetrics) (w : W) (n : N) : AgentWorld W N := {|
  aw_cells := {| ce_metrics := metrics; ce_state := ag_controller_state start; ce_carriers := ag_carriers start;
                 ce_maps := Maps_new; ce_active := ag_active_config start;
                 ce_thresholds := ag_pmc_thresholds start |};
  aw_registration := RHello INITIAL_HELLO_BACKOFF;
  aw_etag := None;
  aw_loops := fun _ => {| ol_counts := DrainCounts_zero; ol_ring := []; ol_metrics_fd := None |};
  aw_limits := [];
  aw_calls := [];
  aw_outside := w;
  aw_network := n |}.

Definition controller_mode : bool := match ag_controller start with Some _ => true | None => false end.

Definition agent_process (metrics : TapioMetrics) (w : W) (n : N) : Process (AgentWorld W N) :=
  process_start controller_mode (match ag_metrics_addr start with Some _ => true | None => false end)
    (agent_world metrics w n).
(** * Lemmas *)

(** The cells agree on what runs: the maps hold what was applied, or what the
    agent started with; the identity, the thresholds and the entity tag are those of
    the response that was applied. *)
Record agent_inv (a : AgentWorld W N) : Prop := {
  ai_maps : all_on (ag_tapio_config start) (ce_carriers (aw_cells a)) (ce_maps (aw_cells a));
  ai_installed :
    match cst_current (ce_carriers (aw_cells a)) with
    | None =>
        ce_active (aw_cells a) = ag_active_config start /\
        ce_thresholds (aw_cells a) = ag_pmc_thresholds start /\ aw_etag a = None
    | Some t => is_Some (ag_controller start) /\ exists r g, acceptable r g t /\
        ce_active (aw_cells a) =
          Some {| ac_version := dec g; ac_hash := cr_config_hash r; ac_flags := tc_flags t |} /\
        ce_thresholds (aw_cells a) = pmc_thresholds_from_compiled (cr_config r) /\
        aw_etag a = Some (etag_of (cr_config_hash r))
    end;
  ai_registration : batching_ok (ce_state (aw_cells a)) /\ backoff_ok (aw_registration a);
}.

(** Steps that leave the configuration alone. *)
Lemma same_config_inv (a a' : AgentWorld W N) :
  agent_inv a ->
  ce_carriers (aw_cells a') = ce_carriers (aw_cells a) -> ce_maps (aw_cells a') = ce_maps (aw_cells a) ->
  ce_active (aw_cells a') = ce_active (aw_cells a) -> ce_thresholds (aw_cells a') = ce_thresholds (aw_cells a) ->
  aw_etag a' = aw_etag a -> batching_ok (ce_state (aw_cells a')) -> backoff_ok (aw_registration a') ->
  agent_inv a'.
Proof.
  intros [Hm Hi Hr] Ec Em Ea Et Ee Hb Hk. constructor; rewrite ?Ec, ?Em, ?Ea, ?Et, ?Ee; done.
Qed.

Lemma registration_put_inv (a : AgentWorld W N) (ev : reg_event) (n : N) :
  agent_inv a -> agent_inv (put_registration (default (registration_state a) (reg_step (registration_state a) ev)) n a).
Proof.
  intros Ha. pose proof (ai_registration _ Ha) as Hr.
  assert (Hi : reg_inv (default (registration_state a) (reg_step (registration_state a) ev))).
  { destruct (reg_step (registration_state a) ev) as [s|] eqn:E; [|exact Hr].
    exact (reg_step_inv (registration_state a) s ev Hr E). }
  destruct Hi as [Hb Hk]. by apply (same_config_inv a).
Qed.

Lemma registration_turn_inv (c : ControllerConfig) (a : AgentWorld W N) : agent_inv a -> agent_inv (registration_turn c a).
Proof. unfold registration_turn. destruct (registration_event c a) as [ev n]. apply registration_put_inv. Qed.

Lemma poll_turn_inv (c : ControllerConfig) (a : AgentWorld W N) :
  ag_controller start = Some c -> agent_inv a -> agent_inv (poll_turn c a).
Proof.
  intros Hc Ha. unfold poll_turn.
  pose proof (poll_tick_cases utf8_error decode_config writable true c (poll_state a) (aw_network a) eq_refl) as Hp.
  destruct (poll_tick utf8_error decode_config writable true c (poll_state a) (aw_network a)) as [s n].
  cbn [fst] in Hp. pose proof (ai_registration _ Ha) as [Hb Hk].
  destruct Hp as [[_ [label ->]]|(r & g & t & _ & Hacc & Hu & Ht & Hact & He & Hst)]; [by apply (same_config_inv a)|].
  pose proof (update_all_agree writable t (po_carriers (poll_state a)) (po_maps (poll_state a))) as Hag.
  pose proof (update_all_current writable t (po_carriers (poll_state a)) (po_maps (poll_state a))) as Hcur.
  destruct (update_all writable t (po_carriers (poll_state a)) (po_maps (poll_state a))) as [[failed cs] m].
  destruct Hu as [Hcs Hm]. simpl in Hcur. constructor; simpl.
  - rewrite Hcs, Hm. by apply (agree_all_on _ t).
  - rewrite Hcs, Hcur, Hact, Ht, He. split; [by rewrite Hc|]. by exists r, g.
  - rewrite Hst. split; [|done]. exact Hb.
Qed.

Lemma observer_enter_inv (o : observer_task) (a : AgentWorld W N) : agent_inv a -> agent_inv (snd (observer_enter o a)).
Proof.
  intros [Hm Hi Hr]. unfold observer_enter.
  set (s0 := {| su_carriers := _; su_maps := _; su_calls := _; su_world := _ |}).
  pose proof (task_setup_keeps writable
    (fun cs m => all_on (ag_tapio_config start) cs m /\ cst_current cs = cst_current (ce_carriers (aw_cells a)))
    o (ebpf_dir +:+ task_object o) (ag_tapio_config start) s0) as Hs.
  destruct (task_setup writable o _ _ s0) as [r s]. destruct Hs as [Hall Hcur].
  - intros map_fd observer cs m [Hall Hc].
    pose proof (init_and_register_all_on writable map_fd observer (ag_tapio_config start) cs m Hall) as Ha'.
    pose proof (init_and_register_current writable map_fd observer (ag_tapio_config start) cs m) as Hc'.
    destruct (init_and_register_tapio_config _ _ _ _ _ _) as [[ok cs'] m']. simpl in *. split; [exact Ha'|congruence].
  - done.
  - simpl in Hall, Hcur. constructor; simpl; [done|by rewrite Hcur|done].
Qed.

Lemma observer_tick_inv {L : Type} (obs : Observer (W * PmcThresholds) L) (o : observer_task) (l : L)
    (a : AgentWorld W N) : agent_inv a -> agent_inv (snd (observer_tick obs o l a)).
Proof.
  intros Ha. pose proof (ai_registration _ Ha) as [Hb Hk]. unfold observer_tick.
  destruct (out_arrived o (aw_outside a)) as [arrived w]. destruct (tick _ _ _ _) as [ring s].
  by apply (same_config_inv a).
Qed.

Lemma observer_turn_inv (o : observer_task) (a : AgentWorld W N) : agent_inv a -> agent_inv (observer_turn o a).
Proof.
  intros Ha. destruct o; try by apply observer_tick_inv. unfold observer_turn.
  pose proof (observer_tick_inv (container_observer boot_offset_ns) ContainerTask (aw_limits a) a Ha) as Ht.
  destruct (observer_tick _ _ _ _) as [limits a']. simpl in Ht. pose proof (ai_registration _ Ht) as [Hb Hk].
  by apply (same_config_inv a').
Qed.

Lemma outside_inv (w : W) (a : AgentWorld W N) : agent_inv a -> agent_inv (with_cells (aw_cells a) w a).
Proof. intros Ha. pose proof (ai_registration _ Ha) as [Hb Hk]. by apply (same_config_inv a). Qed.

Lemma agent_run_inv (evs : list process_event) (r r' : Process (AgentWorld W N)) :
  agent_inv (pr_world r) -> process_run r evs = Some r' -> agent_inv (pr_world r').
Proof.
  apply process_run_world.
  - intros [| |o] a Ha; [done|done|]. by apply observer_enter_inv.
  - intros t a Ha. simpl. unfold body_turn. destruct t as [| |o]; [| |by apply observer_turn_inv];
      destruct (ag_controller start) as [c|] eqn:Ec; try done; [by apply registration_turn_inv|by apply poll_turn_inv].
  - intros [| |o] a Ha; [by apply registration_put_inv|done|by apply outside_inv].
  - intros a Ha. simpl. unfold body_serve. destruct (out_accept (aw_outside a)) as [ev w]. by apply outside_inv.
  - intros a Ha. by apply outside_inv.
Qed.

(** What the tasks find in the cells. *)
Lemma agent_start_cells (env_var : string -> option string) (feature_otlp : option (Z -> bool)) (now : Z) (args : Args) (cfg : Config) :
  agent_start env_var feature_otlp now args cfg = Ok start ->
  ag_carriers start = ConfigCarrierState_default /\ batching_ok (ag_controller_state start) /\
  ag_controller start = (fun e => controller_config env_var e args) <$> args_controller_endpoint args /\
  match args_controller_endpoint args with
  | Some _ => ag_tapio_config start = TapioConfig_default /\ ag_active_config start = None
  | None => ag_tapio_config start = Config_tapio_config cfg
  end.
Proof.
  unfold agent_start. intros (sinks & _ & Hstart)%rbind_Ok.
  apply rbind_Ok in Hstart as (addr & _ & Hstart). apply Ok_inj in Hstart. rewrite <- Hstart. simpl.
  split; [done|]. split; [vm_compute; split; congruence|]. split; [done|]. by destruct (args_controller_endpoint args).
Qed.

Lemma agent_start_batching (env_var : string -> option string) (feature_otlp : option (Z -> bool)) (now : Z) (args : Args) (cfg : Config) :
  agent_start env_var feature_otlp now args cfg = Ok start ->
  cs_max_batch_events (ag_controller_state start) = 256.
Proof.
  unfold agent_start. intros (sinks & _ & Hstart)%rbind_Ok.
  apply rbind_Ok in Hstart as (addr & _ & Hstart). apply Ok_inj in Hstart. by rewrite <- Hstart.
Qed.

Lemma agent_world_inv (env_var : string -> option string) (feature_otlp : option (Z -> bool)) (now : Z) (args : Args) (cfg : Config)
    (metrics : TapioMetrics) (w : W) (n : N) :
  agent_start env_var feature_otlp now args cfg = Ok start -> agent_inv (agent_world metrics w n).
Proof.
  intros (Hc & Hb & _)%agent_start_cells. constructor; simpl; [rewrite Hc; constructor|by rewrite Hc|].
  split; [done|]. vm_compute. split; congruence.
Qed.

(** The configuration a run has applied: that of the last of its polls that was
    answered with an acceptable one, as the answer gave it. *)
Definition note_poll (e : process_event) (a : AgentWorld W N) (applied : option (ConfigResponse * Z * TapioConfig)) :
  option (ConfigResponse * Z * TapioConfig) :=
  match e, ag_controller start with
  | PTurn PollTask, Some c =>
      match poll_accepts decode_config (fst (poll_response utf8_error c (aw_etag a) (aw_network a))) with
      | Some x => Some x
      | None => applied
      end
  | _, _ => applied
  end.

Definition last_applied (r : Process (AgentWorld W N)) (evs : list process_event) :
  option (ConfigResponse * Z * TapioConfig) := process_notes note_poll r evs None.

Definition applied_inv (a : AgentWorld W N) (applied : option (ConfigResponse * Z * TapioConfig)) : Prop :=
  agent_inv a /\
  match applied with
  | None => cst_current (ce_carriers (aw_cells a)) = None
  | Some (r, g, t) => acceptable r g t /\ cst_current (ce_carriers (aw_cells a)) = Some t /\
      ce_active (aw_cells a) =
        Some {| ac_version := dec g; ac_hash := cr_config_hash r; ac_flags := tc_flags t |} /\
      ce_thresholds (aw_cells a) = pmc_thresholds_from_compiled (cr_config r)
  end.

(** Steps that leave what was applied alone. *)
Lemma same_applied (a a' : AgentWorld W N) (applied : option (ConfigResponse * Z * TapioConfig)) :
  applied_inv a applied -> agent_inv a' ->
  cst_current (ce_carriers (aw_cells a')) = cst_current (ce_carriers (aw_cells a)) ->
  ce_active (aw_cells a') = ce_active (aw_cells a) -> ce_thresholds (aw_cells a') = ce_thresholds (aw_cells a) ->
  applied_inv a' applied.
Proof. intros [_ Hx] Hi Ec Ea Et. split; [done|]. by rewrite Ec, Ea, Et. Qed.

Lemma poll_turn_applied (c : ControllerConfig) (a : AgentWorld W N)
    (applied : option (ConfigResponse * Z * TapioConfig)) :
  ag_controller start = Some c -> applied_inv a applied ->
  applied_inv (poll_turn c a) (note_poll (PTurn PollTask) a applied).
Proof.
  intros Hc Ha. pose proof (poll_turn_inv c a Hc (proj1 Ha)) as Hi. revert Hi.
  unfold poll_turn, note_poll. rewrite Hc.
  pose proof (poll_tick_cases utf8_error decode_config writable true c (poll_state a) (aw_network a) eq_refl) as Hp.
  destruct (poll_tick utf8_error decode_config writable true c (poll_state a) (aw_network a)) as [s n].
  cbn [fst] in Hp. change (po_etag (poll_state a)) with (aw_etag a) in Hp. intros Hi.
  destruct Hp as [[-> [label ->]]|(r & g & t & -> & Hacc & Hu & Ht & Hact & _)]; [by apply (same_applied a)|].
  split; [exact Hi|]. pose proof (update_all_current writable t (po_carriers (poll_state a)) (po_maps (poll_state a))) as Hcur.
  destruct (update_all writable t (po_carriers (poll_state a)) (po_maps (poll_state a))) as [[failed cs] m].
  destruct Hu as [Hcs _]. simpl in *. by rewrite Hcs.
Qed.

Lemma observer_enter_applied (o : observer_task) (a : AgentWorld W N) :
  let a' := snd (observer_enter o a) in
  cst_current (ce_carriers (aw_cells a')) = cst_current (ce_carriers (aw_cells a)) /\
  ce_active (aw_cells a') = ce_active (aw_cells a) /\ ce_thresholds (aw_cells a') = ce_thresholds (aw_cells a).
Proof.
  unfold observer_enter.
  set (s0 := {| su_carriers := _; su_maps := _; su_calls := _; su_world := _ |}).
  pose proof (task_setup_keeps writable (fun cs _ => cst_current cs = cst_current (ce_carriers (aw_cells a)))
    o (ebpf_dir +:+ task_object o) (ag_tapio_config start) s0) as Hs.
  destruct (task_setup writable o _ _ s0) as [r s]. simpl in *. split; [|done]. apply Hs; [|done].
  intros map_fd observer cs m Hc.
  pose proof (init_and_register_current writable map_fd observer (ag_tapio_config start) cs m) as Hc'.
  destruct (init_and_register_tapio_config _ _ _ _ _ _) as [[ok cs'] m']. simpl in *. congruence.
Qed.

Lemma observer_tick_applied {L : Type} (obs : Observer (W * PmcThresholds) L) (o : observer_task) (l : L)
    (a : AgentWorld W N) :
  let a' := snd (observer_tick obs o l a) in
  ce_carriers (aw_cells a') = ce_carriers (aw_cells a) /\
  ce_active (aw_cells a') = ce_active (aw_cells a) /\ ce_thresholds (aw_cells a') = ce_thresholds (aw_cells a).
Proof.
  unfold observer_tick. destruct (out_arrived o (aw_outside a)) as [arrived w].
  by destruct (tick _ _ _ _) as [ring s].
Qed.

Lemma observer_turn_applied (o : observer_task) (a : AgentWorld W N) :
  let a' := observer_turn o a in
  ce_carriers (aw_cells a') = ce_carriers (aw_cells a) /\
  ce_active (aw_cells a') = ce_active (aw_cells a) /\ ce_thresholds (aw_cells a') = ce_thresholds (aw_cells a).
Proof.
  destruct o; try apply observer_tick_applied. unfold observer_turn.
  pose proof (observer_tick_applied (container_observer boot_offset_ns) ContainerTask (aw_limits a) a) as Ht.
  by destruct (observer_tick _ _ _ _) as [limits a'].
Qed.

Lemma event_applied (e : process_event) (a : AgentWorld W N) (applied : option (ConfigResponse * Z * TapioConfig)) :
  applied_inv a applied -> applied_inv (event_world e a) (note_poll e a applied).
Proof.
  intros Ha. pose proof (proj1 Ha) as Hi.
  assert (Hbatch := ai_registration _ Hi). destruct Hbatch as [Hb Hk].
  destruct e as [|t|t|t|t| | | | |]; cbn [event_world]; try exact Ha.
  - destruct t as [| |o]; try exact Ha.
    destruct (observer_enter_applied o a) as (Ec & Ea & Et). apply (same_applied a); try done. by apply observer_enter_inv.
  - simpl. unfold body_turn. destruct t as [| |o].
    + unfold note_poll. destruct (ag_controller start) as [c|]; [|exact Ha].
      apply (same_applied a); [done|by apply registration_turn_inv|..];
        unfold registration_turn; by destruct (registration_event c a).
    + destruct (ag_controller start) as [c|] eqn:Ec; [|exact Ha].
      pose proof (poll_turn_applied c a applied Ec Ha) as Hp. unfold note_poll in Hp. by rewrite Ec in Hp.
    + destruct (observer_turn_applied o a) as (Ec & Ea & Et).
      apply (same_applied a); [done|by apply observer_turn_inv|by rewrite Ec|done|done].
  - destruct t as [| |o]; simpl; [|exact Ha|]; (apply (same_applied a); [done| |done..]);
      [by apply registration_put_inv|by apply outside_inv].
  - simpl. unfold body_serve. destruct (out_accept (aw_outside a)) as [ev w]. apply (same_applied a); [done|by apply outside_inv|done..].
  - simpl. unfold body_serve. destruct (out_accept (aw_outside a)) as [ev w]. apply (same_applied a); [done|by apply outside_inv|done..].
  - apply (same_applied a); [done|by apply outside_inv|done..].
Qed.

(** * Properties *)

(** C6. What the agent reports is what it last applied, and its maps follow.
    Take the tasks' turns as atomic, in any order, with whichever observers
    failing.  At any moment of any run, with the answer of the last poll that
    was answered with an acceptable configuration (a 200 that passed every
    check; [last_applied]): every registered map is up to date with that
    answer's configuration, before the first such answer with the one the agent
    started with, except that a map whose last write failed keeps what it held;
    the next heartbeat carries exactly that answer's version and hash, and the
    thresholds are that answer's; until then the agent runs the disabled
    configuration and reports itself unconfigured.  The observers it reports as
    running are those the configuration enables, also when their tasks have
    ended.  Without a controller the file's configuration stays.  The batching
    cells never drop to zero and the hello backoff stays between a second and a
    minute.  (Where turns are not atomic, a registration that overlaps an update
    can leave its map behind: [Carriers.carriers_race].) *)
Theorem running_config_is_reported (env_var : string -> option string) (feature_otlp : option (Z -> bool)) (now : Z)
    (args : Args) (cfg : Config) (metrics : TapioMetrics) (w : W) (n : N) (evs : list process_event)
    (r : Process (AgentWorld W N))
    (Hstart : agent_start env_var feature_otlp now args cfg = Ok start)
    (Hrun : process_run (agent_process metrics w n) evs = Some r) :
  let cells := aw_cells (pr_world r) in
  let applied := last_applied (agent_process metrics w n) evs in
  Forall (fun k => up_to_date (match applied with Some (_, _, t) => t | None => ag_tapio_config start end)
                     (ce_maps cells) (car_map_fd k))
    (cst_carriers (ce_carriers cells)) /\
  (forall c elapsed,
    let heartbeat := build_heartbeat_request c (ce_metrics cells) (ce_active cells) elapsed in
    match args_controller_endpoint args, applied with
    | Some _, None =>
        tc_flags (ag_tapio_config start) = 0 /\ hb_config_hash heartbeat = EmptyString /\
        hb_degraded_reasons heartbeat = [Unconfigured]
    | Some _, Some (answer, g, t) => acceptable answer g t /\
        hb_config_version heartbeat = dec g /\ hb_config_hash heartbeat = cr_config_hash answer /\
        hb_degraded_reasons heartbeat = [] /\
        (forall name flag, In (name, flag) OBSERVERS ->
           bt_get name (hb_observers heartbeat) =
           Some (if negb (Z.land (tc_flags t) flag =? 0) then Running else Disabled)) /\
        ce_thresholds cells = pmc_thresholds_from_compiled (cr_config answer)
    | None, _ => applied = None /\ ag_tapio_config start = Config_tapio_config cfg
    end) /\
  batching_ok (ce_state cells) /\ backoff_ok (aw_registration (pr_world r)).
Proof.
  intros cells applied.
  assert (Happlied : applied_inv (pr_world r) applied).
  { apply (process_run_notes note_poll applied_inv evs (agent_process metrics w n) r None); [apply event_applied| |done].
    split; [by eapply agent_world_inv|]. destruct (agent_start_cells _ _ _ _ _ Hstart) as (Hc & _). simpl. by rewrite Hc. }
  destruct (agent_start_cells _ _ _ _ _ Hstart) as (_ & _ & Hctl & Hmode). clear Hstart.
  destruct Happlied as [[Hm Hi Hr] Hx]. fold cells in Hm, Hi, Hr, Hx. split.
  { unfold all_on in Hm. destruct applied as [[[answer g] t]|]; [destruct Hx as (_ & Hx & _)|]; by rewrite Hx in Hm. }
  split; [|exact Hr]. intros c elapsed heartbeat.
  assert (Hhb : heartbeat = build_heartbeat_request c (ce_metrics cells) (ce_active cells) elapsed) by done.
  clearbody heartbeat. rewrite Hctl in Hi.
  destruct (args_controller_endpoint args) as [endpoint|]; destruct applied as [[[answer g] t]|].
  - destruct Hx as (Hacc & _ & Ha & Ht). rewrite Hhb, Ha. do 4 (split; [done|]).
    split; [|exact Ht]. intros name flag Hin. exact (observer_statuses_get _ name flag Hin).
  - rewrite Hx in Hi. destruct Hi as (Ha & _ & _). destruct Hmode as [-> Hnone]. by rewrite Hhb, Ha, Hnone.
  - destruct Hx as (_ & Hx & _). rewrite Hx in Hi. by destruct Hi as [[x Hx'] _].
  - done.
Qed.
End Agent.

(** * Witnesses *)

(** A node on which the storage programs do not load, the controller always
    gives the same answer, and nothing else happens. *)
#[local] Instance sample_node : Aya unit := {
  aya_load_file path w := (if contains_str path "storage" then Err "no BTF" else Ok tt, w);
  aya_map name _ := if String.eqb name "tapio_config" then Some 3 else Some 4;
  aya_program _ _ := Some (Ok tt);
  aya_program_load _ w := (Ok tt, w);
  aya_attach _ _ w := (Ok tt, w);
  aya_nr_cpus _ := Ok 2;
  aya_ring_buf _ := Ok tt;
  sys_perf_event_open _ _ w := (Ok 10, w);
  sys_map_set_fd _ _ _ w := (Ok tt, w);
}.

#[local] Instance sample_env : Env unit := {
  env_now w := (0, w);
  env_id w := ("01J0000000000000000000000", w);
  env_thresholds _ := standalone_thresholds Config_default;
  env_read_file _ _ := None;
}.

#[local, program] Instance sample_reporter : Reporter unit := {
  report o m w := (Ok tt, m, w);
  report_flush w := (Ok tt, w);
}.
Next Obligation. done. Qed.

#[local] Instance sample_outside : Outside unit := {
  out_arrived _ w := ([], w);
  out_percpu _ _ _ := None;
  out_elapsed _ := 0;
  out_osrelease _ := None;
  out_accept w := (WouldBlock, w);
  out_drop_sinks w := w;
}.

Definition agent_args : Args :=
  with_sinks ["stdout"] (set_args "" "/ebpf" "" "" (Some "http://127.0.0.1:8080") (from_secs 30) (from_secs 30)
    Args_default).

Definition sample_start : AgentStart := {|
  ag_controller_state := ControllerState_new "0";
  ag_sinks := [BoxStdout];
  ag_metrics_addr := None;
  ag_tapio_config := TapioConfig_default;
  ag_carriers := ConfigCarrierState_default;
  ag_active_config := None;
  ag_pmc_thresholds := standalone_thresholds Config_default;
  ag_controller := Some (controller_config (fun _ => None) "http://127.0.0.1:8080" agent_args);
  ag_ebpf_paths := ["/ebpf/network_monitor.o"; "/ebpf/container_monitor.o";
                    "/ebpf/storage_monitor.o"; "/ebpf/node_pmc_monitor.o"] |}.

Notation sample_process evs :=
  (process_run (H := agent_bodies (fun _ => EmptyString) "4.0.0" "x86_64" (fun _ => Err "no") (fun _ => Err "no")
      (fun _ => Err "no") (fun _ => Err "no") sample_decode write_works 0 "/ebpf" sample_start)
    (agent_process sample_start TapioMetrics_new tt sample_reads) evs).

Definition sample_events : list process_event :=
  [PEnter PollTask; PEnter (ObserverTask NetworkTask); PEnter (ObserverTask StorageTask); PTurn PollTask;
   PJoin (ObserverTask StorageTask); PTurn (ObserverTask NetworkTask)].

Notation sample_applied :=
  (last_applied (fun _ => EmptyString) "4.0.0" "x86_64" (fun _ => Err "no") (fun _ => Err "no")
      (fun _ => Err "no") (fun _ => Err "no") sample_decode write_works 0 "/ebpf" sample_start
    (agent_process sample_start TapioMetrics_new tt sample_reads) sample_events).

Lemma running_config_is_reported_witness :
  exists r t, sample_process sample_events = Some r /\
    phase_of (ObserverTask StorageTask) (pr_tasks r) = Some (Joined false) /\
    (let heartbeat := build_heartbeat_request sample_controller (ce_metrics (aw_cells (pr_world r)))
                        (ce_active (aw_cells (pr_world r))) 0 in
     hb_config_hash heartbeat = "abc" /\ hb_config_version heartbeat = "7" /\
     bt_get "storage" (hb_observers heartbeat) = Some Running) /\
    Forall (fun k => up_to_date t (ce_maps (aw_cells (pr_world r))) (car_map_fd k))
      (cst_carriers (ce_carriers (aw_cells (pr_world r)))) /\ tc_generation t = 7.
Proof.
  destruct (sample_process sample_events) as [r|] eqn:Hrun; [|vm_compute in Hrun; discriminate].
  assert (Hp : match sample_process sample_events with
               | Some r => phase_of (ObserverTask StorageTask) (pr_tasks r) = Some (Joined false)
               | None => False
               end) by (vm_compute; reflexivity).
  rewrite Hrun in Hp.
  destruct (running_config_is_reported (fun _ => EmptyString) "4.0.0" "x86_64" (fun _ => Err "no") (fun _ => Err "no")
    (fun _ => Err "no") (fun _ => Err "no") sample_decode write_works 0 "/ebpf" sample_start (fun _ => None) None 0
    agent_args Config_default TapioMetrics_new tt sample_reads sample_events r ltac:(vm_compute; reflexivity) Hrun)
    as (Hm & Hb & _).
  assert (Ha : match sample_applied with
               | Some (answer, g, t) => cr_config_hash answer = "abc" /\ dec g = "7" /\
                   negb (Z.land (tc_flags t) TAPIO_F_STORAGE =? 0) = true /\ tc_generation t = 7
               | None => False
               end) by (vm_compute; repeat split).
  specialize (Hb sample_controller 0). cbn [args_controller_endpoint agent_args] in Hb. revert Hm Hb Ha.
  generalize sample_applied. intros [[[answer g] t]|] Hm Hb Ha; [|destruct Ha]. destruct Ha as (Hh & Hg & Hs & Ht).
  destruct Hb as (_ & Hv & Hc & _ & Hobs & _). exists r, t. split; [reflexivity|]. split; [exact Hp|].
  split; [|exact (conj Hm Ht)]. split; [congruence|]. split; [congruence|].
  pose proof (Hobs "storage" TAPIO_F_STORAGE (or_intror (or_introl eq_refl))) as Hx. rewrite Hs in Hx. exact Hx.
Defined.

(** On a node where no eBPF object loads, an agent without a controller but with
    the metrics server hangs. *)
#[local] Instance bare_node : Aya unit := {
  aya_load_file _ w := (Err "no BTF", w);
  aya_map _ _ := None;
  aya_program _ _ := None;
  aya_program_load _ w := (Err "", w);
  aya_attach _ _ w := (Err "", w);
  aya_nr_cpus _ := Ok 2;
  aya_ring_buf _ := Ok tt;
  sys_perf_event_open _ _ w := (Err "", w);
  sys_map_set_fd _ _ _ w := (Err "", w);
}.

Notation bare_bodies :=
  (agent_bodies (H := bare_node) (fun _ => EmptyString) "4.0.0" "x86_64" (fun _ => Err "no") (fun _ => Err "no")
     (fun _ => Err "no") (fun _ => Err "no") sample_decode write_works 0 "/ebpf" sample_start).

Lemma unsignalled_return_hangs_witness :
  exists evs r,
    process_run (H := bare_bodies) (process_start false true (agent_world sample_start TapioMetrics_new tt sample_reads))
      evs = Some r /\ pr_main r = Returned /\ pr_server r = true /\ process_step (H := bare_bodies) r PExit = None.
Proof.
  destruct (unsignalled_return_hangs (H := bare_bodies) (agent_world sample_start TapioMetrics_new tt sample_reads))
    as (evs & r & Hrun & Hm & Hh).
  - intros o w. destruct o; reflexivity.
  - exists evs, r. destruct (Hh [] r eq_refl eq_refl) as (_ & Hs & _ & Hx).
    exact (conj Hrun (conj Hm (conj Hs Hx))).
Defined.
