(* ===== verification/Cli.v ===== *)
(** [tapio-cli/src/main.rs]: the inspection tool over the directory the file sink
    writes.  The directory is a [Dir]; parsing and printing JSON (serde_json),
    instants (chrono) and arguments (clap) are third-party code and arguments
    of the definitions.  A command gives the lines it writes; what was written
    before a failure is not kept. *)
From Stdlib Require Import String Sorting.Sorted.
From S2P Require Import Prelude RustStr BTree Float64 Json Occurrence Httpc Sink.

Local Open Scope Z_scope.

(** A directory: whether it exists, its entries (a file name, or an error for
    one entry), and the text of a file. *)
Record Dir := {
  dir_path : string;
  dir_exists : bool;
  dir_entries : result (list (result string string)) string;
  dir_read : string -> result string string;
}.

(** An error ends a command; so does a panic. *)
Inductive cli_error :=
| CliErr (e : string)
| CliPanic.

Inductive Command :=
| CmdStatus
| CmdWatch (json network container storage node : bool)
| CmdRecent (json : bool) (since : option string)
| CmdHealth (observer : option string)
| CmdMcp.

Definition watch_filters (network container storage node : bool) : list string :=
  (if network then ["network"] else []) ++ (if container then ["container"] else []) ++
  (if storage then ["storage"] else []) ++ (if node then ["node"] else []).

(** [path.extension()] of a file name. *)
Definition extension (name : string) : option string :=
  match rsplit_once "." name with
  | Some (before, ext) => if str_empty before then None else Some ext
  | None => None
  end.

Definition has_json_extension (name : string) : bool :=
  match extension name with Some e => String.eqb e "json" | None => false end.

(** [slice::sort_by] is stable. *)
Fixpoint insert_by {A : Type} (le : A -> A -> bool) (x : A) (l : list A) : list A :=
  match l with
  | [] => [x]
  | y :: l' => if le x y then x :: y :: l' else y :: insert_by le x l'
  end.

Fixpoint sort_by {A : Type} (le : A -> A -> bool) (l : list A) : list A :=
  match l with
  | [] => []
  | x :: l' => insert_by le x (sort_by le l')
  end.

Definition oldest_first (a b : Occurrence) : bool := str_leb (oc_timestamp a) (oc_timestamp b).
Definition newest_first (a b : Occurrence) : bool := str_leb (oc_timestamp b) (oc_timestamp a).

(** The number of characters: bytes that do not continue one. *)
Fixpoint char_count (s : string) : nat :=
  match s with
  | EmptyString => O
  | String a s' => (if ((128 <=? byte_val a) && (byte_val a <? 192))%Z then char_count s' else S (char_count s'))
  end.

Fixpoint spaces (n : nat) : string :=
  match n with O => EmptyString | S n' => String " " (spaces n') end.

(** [{:<w}] *)
Definition pad_right (w : nat) (s : string) : string := s +:+ spaces (w - char_count s).

(** * Helpers *)

Definition health_status (total_count total_critical : Z) : string :=
  if (3 <=? total_critical) || (20 <=? total_count) then "critical"
  else if 0 <? total_count then "degraded"
  else "healthy".

Definition observer_category (occurrence_type : string) : string :=
  match split "." occurrence_type with
  | _ :: second :: _ => second
  | _ => "unknown"
  end.

Definition matches_filter (occ : Occurrence) (filters : list string) : bool :=
  if is_empty filters then true
  else existsb (String.eqb (observer_category (oc_occurrence_type occ))) filters.

Definition severity_label (s : Severity) : string :=
  match s with
  | Debug => "DEBUG"
  | Info => "INFO"
  | Warning => "WARNING"
  | Error => "ERROR"
  | Critical => "CRITICAL"
  end.

(** Slicing off a character's boundary panics. *)
Definition format_timestamp (ts : string) : result string cli_error :=
  if 19 <=? slen ts then ok_or (str_get 0 19 ts) CliPanic else Ok ts.

(** The duration in seconds.  [duration_ok] says what chrono can represent: a
    longer one panics. *)
Definition parse_duration (duration_ok : Z -> bool) (s : string) : result Z cli_error :=
  let s := trim s in
  if slen s <? 2 then Err (CliErr ("invalid duration: " +:+ s))
  else
    let cut := (String.length s - 1)%nat in
    if negb (is_char_boundary cut s) then Err CliPanic
    else
      let num_str := str_take cut s in
      let unit := str_drop cut s in
      match parse_signed I64_MIN I64_MAX num_str with
      | None => Err (CliErr ("invalid duration number: " +:+ num_str))
      | Some num =>
          if num <=? 0 then Err (CliErr ("duration must be positive: " +:+ s))
          else
            let of_seconds secs := if duration_ok secs then Ok secs else Err CliPanic in
            if String.eqb unit "s" then of_seconds num
            else if String.eqb unit "m" then of_seconds (num * 60)
            else if String.eqb unit "h" then of_seconds (num * 3600)
            else if String.eqb unit "d" then of_seconds (num * 86400)
            else Err (CliErr ("unknown duration unit: " +:+ unit +:+ " (use s/m/h/d)"))
      end.

#[local] Set Default Proof Using "Type".

Section Cli.
(** [serde_json]: an occurrence and a value from a text and to one. *)
Variable parse_occurrence : string -> result Occurrence string.
Variable occurrence_json : Occurrence -> result string string.
Variable occurrences_json : list Occurrence -> result string string.
Variable parse_json : string -> option json.
Variable json_pretty : json -> result string string.
Variable package_version : string.
(** [chrono]: which durations exist, and the RFC 3339 text of an instant that
    many seconds before now, None when the subtraction panics. *)
Variable duration_ok : Z -> bool.
Variable rfc3339_ago : Z -> option string.
(** The order in which a hash map gives its entries. *)
Variable hm_iter : forall {V : Type}, list (string * V) -> list (string * V).

Definition seconds_ago (seconds : Z) : result string cli_error :=
  if duration_ok seconds then ok_or (rfc3339_ago seconds) CliPanic else Err CliPanic.

Definition read_occurrence_file (d : Dir) (name : string) : result Occurrence string :=
  data <-? map_err (fun e => "failed to read occurrence file: " +:+ e) (dir_read d name) ;;
  occ <-? map_err (fun e => "failed to parse occurrence JSON: " +:+ e) (parse_occurrence data) ;;
  map_err (fun errors => "invalid occurrence: " +:+ join "; " errors) (Occurrence_validate occ) ;;?
  Ok occ.

(** The occurrences that can be read, and the warnings about the others. *)
Fixpoint load_entries (d : Dir) (entries : list (result string string)) :
  list Occurrence * list string :=
  match entries with
  | [] => ([], [])
  | entry :: rest =>
      let '(occs, warnings) := load_entries d rest in
      match entry with
      | Err e => (occs, ("warning: failed to read occurrence directory entry: " +:+ e) :: warnings)
      | Ok name =>
          if has_json_extension name then
            match read_occurrence_file d name with
            | Ok occ => (occ :: occs, warnings)
            | Err e =>
                (occs, ("warning: skipped " +:+ path_join (dir_path d) name +:+ ": " +:+ e) :: warnings)
            end
          else (occs, warnings)
      end
  end.

Definition load_occurrences (d : Dir) : result (list Occurrence * list string) cli_error :=
  if negb (dir_exists d) then Ok ([], [])
  else
    match dir_entries d with
    | Err e => Err (CliErr e)
    | Ok entries => Ok (load_entries d entries)
    end.

Definition write_occurrence (occ : Occurrence) (json : bool) : result (list string) cli_error :=
  if json then rmap (fun s => [s]) (map_err CliErr (occurrence_json occ))
  else
    ts <-? format_timestamp (oc_timestamp occ) ;;
    Ok ((ts +:+ " " +:+ pad_right 8 (severity_label (oc_severity occ)) +:+ "  " +:+ oc_occurrence_type occ)
        :: match oc_error occ with
           | Some err => ["  " +:+ oe_message err]
           | None => []
           end).

Fixpoint write_all (occs : list Occurrence) (json : bool) : result (list string) cli_error :=
  match occs with
  | [] => Ok []
  | occ :: rest =>
      ls <-? write_occurrence occ json ;;
      rest <-? write_all rest json ;;
      Ok (ls ++ rest)
  end.

(** * Status *)

Definition group_by_observer (occs : list Occurrence) : list (string * list Occurrence) :=
  fold_left (fun m o =>
    let cat := observer_category (oc_occurrence_type o) in
    bt_insert cat (default [] (bt_get cat m) ++ [o]) m) occs [].

Definition max_timestamp (occs : list Occurrence) : option string :=
  fold_left (fun acc o =>
    match acc with
    | Some m => Some (if str_leb m (oc_timestamp o) then oc_timestamp o else m)
    | None => Some (oc_timestamp o)
    end) occs None.

Fixpoint status_lines (groups : list (string * list Occurrence)) : result (list string) cli_error :=
  match groups with
  | [] => Ok []
  | (name, occs) :: rest =>
      last <-? format_timestamp (default "-" (max_timestamp occs)) ;;
      rest <-? status_lines rest ;;
      Ok ((pad_right 12 name +:+ " " +:+ pad_right 5 (dec (zlen occs)) +:+ "  " +:+ last) :: rest)
  end.

Definition cmd_status (d : Dir) : result (list string) cli_error :=
  loaded <-? load_occurrences d ;;
  let '(occs, _) := loaded in
  if is_empty occs then Ok ["no anomalies recorded"]
  else
    rows <-? status_lines (group_by_observer occs) ;;
    Ok (["Observer     Count  Last Seen"; "─────────    ─────  ─────────"] ++ rows ++
        ["─────────    ─────"; "total        " +:+ dec (zlen occs)]).

(** * Watch *)

(** One entry: the names seen, the occurrence if the file is new and can be read,
    and the warnings.  A name is seen before its file is read. *)
Definition watch_entry (d : Dir) (entry : result string string) (seen : list string) :
  list string * option Occurrence * list string :=
  match entry with
  | Err _ => (seen, None, ["warning: failed to read occurrence directory entry"])
  | Ok name =>
      if existsb (String.eqb name) seen then (seen, None, [])
      else if has_json_extension name then
        match read_occurrence_file d name with
        | Ok occ => (name :: seen, Some occ, [])
        | Err e => (name :: seen, None, ["warning: skipped " +:+ path_join (dir_path d) name +:+ ": " +:+ e])
        end
      else (name :: seen, None, [])
  end.

Fixpoint watch_entries (d : Dir) (entries : list (result string string)) (seen : list string) :
  list string * list Occurrence * list string :=
  match entries with
  | [] => (seen, [], [])
  | entry :: rest =>
      let '(seen, occ, warning) := watch_entry d entry seen in
      let '(seen, occs, warnings) := watch_entries d rest seen in
      (seen, match occ with Some o => o :: occs | None => occs end, warning ++ warnings)
  end.

(** What is printed of the new occurrences. *)
Definition watch_output (json : bool) (filters : list string) (new_occs : list Occurrence) :
  result (list string) cli_error :=
  write_all (List.filter (fun o => matches_filter o filters) (sort_by oldest_first new_occs)) json.

(** One turn of the loop, with its warnings. *)
Definition watch_turn (d : Dir) (json : bool) (filters : list string) (seen : list string) :
  result (list string * list string) cli_error * list string :=
  if negb (dir_exists d) then (Ok (seen, []), [])
  else
    match dir_entries d with
    | Err e => (Ok (seen, []), ["warning: failed to read " +:+ dir_path d +:+ ": " +:+ e])
    | Ok entries =>
        let '(seen, new_occs, warnings) := watch_entries d entries seen in
        (ls <-? watch_output json filters new_occs ;; Ok (seen, ls), warnings)
    end.

(** The names in the directory when the command starts. *)
Fixpoint names_of (entries : list (result string string)) : result (list string) cli_error :=
  match entries with
  | [] => Ok []
  | Err e :: _ => Err (CliErr e)
  | Ok name :: rest => rest <-? names_of rest ;; Ok (name :: rest)
  end.

Definition watch_start (d : Dir) : result (list string) cli_error :=
  if dir_exists d then
    match dir_entries d with
    | Err e => Err (CliErr e)
    | Ok entries => names_of entries
    end
  else Ok [].

(** The directory at each turn until the interrupt. *)
Fixpoint watch_turns (json : bool) (filters : list string) (dirs : list Dir) (seen : list string) :
  result (list string) cli_error * list string :=
  match dirs with
  | [] => (Ok [], [])
  | d :: rest =>
      let '(r, warnings) := watch_turn d json filters seen in
      match r with
      | Err e => (Err e, warnings)
      | Ok (seen, ls) =>
          let '(more, later) := watch_turns json filters rest seen in
          (rmap (app ls) more, warnings ++ later)
      end
  end.

Definition cmd_watch (d : Dir) (json : bool) (filters : list string) (dirs : list Dir) :
  result (list string) cli_error * list string :=
  match watch_start d with
  | Err e => (Err e, [])
  | Ok seen => watch_turns json filters dirs seen
  end.

(** * Recent *)

Definition since_cutoff (cutoff : string) (occs : list Occurrence) : list Occurrence :=
  List.filter (fun o => str_leb cutoff (oc_timestamp o)) occs.

Definition cmd_recent (d : Dir) (json : bool) (since : option string) : result (list string) cli_error :=
  loaded <-? load_occurrences d ;;
  let '(occs, _) := loaded in
  if is_empty occs then Ok ["no anomalies recorded"]
  else
    occs <-? match since with
             | None => Ok occs
             | Some since_str =>
                 seconds <-? parse_duration duration_ok since_str ;;
                 cutoff <-? ok_or (rfc3339_ago seconds) CliPanic ;;
                 Ok (since_cutoff cutoff occs)
             end ;;
    write_all (take 20 (sort_by newest_first occs)) json.

(** * Health *)

Record ObserverStats := {
  ost_count : Z;
  ost_critical_count : Z;
  ost_last_seen : string;
  ost_type_counts : list (string * Z);
}.

Definition is_critical (o : Occurrence) : bool :=
  match oc_severity o with Critical => true | _ => false end.

Definition ObserverStats_add (o : Occurrence) (s : ObserverStats) : ObserverStats := {|
  ost_count := ost_count s + 1;
  ost_critical_count := ost_critical_count s + (if is_critical o then 1 else 0);
  ost_last_seen := if str_ltb (ost_last_seen s) (oc_timestamp o) then oc_timestamp o else ost_last_seen s;
  ost_type_counts :=
    bt_insert (oc_occurrence_type o) (default 0 (bt_get (oc_occurrence_type o) (ost_type_counts s)) + 1)
      (ost_type_counts s) |}.

Definition ObserverStats_empty : ObserverStats := {|
  ost_count := 0; ost_critical_count := 0; ost_last_seen := EmptyString; ost_type_counts := [] |}.

Definition collect_stats (recent : list Occurrence) : list (string * ObserverStats) :=
  fold_left (fun m o =>
    let cat := observer_category (oc_occurrence_type o) in
    bt_insert cat (ObserverStats_add o (default ObserverStats_empty (bt_get cat m))) m) recent [].

Definition most_counted (a b : string * Z) : bool := snd b <=? snd a.

(** [max_by_key]: the last of the greatest. *)
Definition most_frequent (types : list (string * Z)) : option (string * Z) :=
  fold_left (fun acc tc =>
    match acc with
    | Some m => Some (if snd m <=? snd tc then tc else m)
    | None => Some tc
    end) types None.

Definition CATEGORIES : list string := ["network"; "container"; "storage"; "node"].

(** A row, and what it adds to the totals. *)
Definition health_row (stats : list (string * ObserverStats)) (cat : string) :
  result (string * Z * Z) cli_error :=
  row <-? match bt_get cat stats with
          | Some s =>
              last <-? format_timestamp (ost_last_seen s) ;;
              let most :=
                match most_frequent (hm_iter (ost_type_counts s)) with
                | Some (t, c) => t +:+ " (" +:+ dec c +:+ ")"
                | None => EmptyString
                end in
              Ok (ost_count s, ost_critical_count s, last, most)
          | None => Ok (0, 0, "-", "-")
          end ;;
  let '(count, critical, last, most_freq) := row in
  Ok (pad_right 12 cat +:+ " " +:+ pad_right 9 (dec count) +:+ "  " +:+ pad_right 20 last +:+ " " +:+ most_freq,
      count, critical).

Fixpoint health_rows (stats : list (string * ObserverStats)) (cats : list string) :
  result (list string * Z * Z) cli_error :=
  match cats with
  | [] => Ok ([], 0, 0)
  | cat :: rest =>
      row <-? health_row stats cat ;;
      rows <-? health_rows stats rest ;;
      let '(line, count, critical) := row in
      let '(ls, total, total_critical) := rows in
      Ok (line :: ls, count + total, critical + total_critical)
  end.

Definition HOUR : Z := 3600.

Definition cmd_health (d : Dir) (observer_filter : option string) : result (list string) cli_error :=
  loaded <-? load_occurrences d ;;
  let '(occs, _) := loaded in
  one_hour_ago <-? seconds_ago HOUR ;;
  let stats := collect_stats (since_cutoff one_hour_ago occs) in
  match observer_filter with
  | Some f =>
      let head := ["Observer: " +:+ f; EmptyString] in
      match bt_get f stats with
      | None => Ok (head ++ ["  no anomalies in last hour"])
      | Some s =>
          last <-? format_timestamp (ost_last_seen s) ;;
          Ok (head ++
              ["  anomalies:  " +:+ dec (ost_count s); "  critical:   " +:+ dec (ost_critical_count s);
               "  last seen:  " +:+ last; EmptyString] ++
              map (fun tc => "  " +:+ fst tc +:+ "  (" +:+ dec (snd tc) +:+ ")")
                (sort_by most_counted (hm_iter (ost_type_counts s))))
      end
  | None =>
      rows <-? health_rows stats CATEGORIES ;;
      let '(ls, total_count, total_critical) := rows in
      Ok (["Observer     Anomalies  Last Seen            Most Frequent";
           "─────────    ─────────  ─────────            ─────────────"] ++ ls ++
          [EmptyString;
           "overall: " +:+ health_status total_count total_critical +:+ " (" +:+ dec total_count +:+
           " anomalies, " +:+ dec total_critical +:+ " critical in last hour)"])
  end.

(** * The MCP server *)

Definition opt_json (o : option json) : json := default JNull o.

Definition mcp_result_response (id : option json) (res : json) : json :=
  json_obj [("jsonrpc", JString "2.0"); ("id", opt_json id); ("result", res)].

Definition mcp_error_response (id : option json) (code : Z) (message : string) : json :=
  json_obj [("jsonrpc", JString "2.0"); ("id", opt_json id);
            ("error", json_obj [("code", JInt code); ("message", JString message)])].

Definition text_content (content : string) : json :=
  json_obj [("content", JArray [json_obj [("type", JString "text"); ("text", JString content)]])].

(** [args.get(key).and_then(|v| v.as_str())] *)
Definition get_str (key : string) (j : json) : option string := json_get key j ≫= as_str.

Definition severity_name (s : Severity) : string :=
  match s with
  | Warning => "warning"
  | Error => "error"
  | Critical => "critical"
  | _ => "other"
  end.

Definition observer_is (observer : string) (o : Occurrence) : bool :=
  String.eqb (observer_category (oc_occurrence_type o)) observer.

(** The occurrences the first tool answers with. *)
Definition recent_anomalies (cutoff observer severity : string) (occs : list Occurrence) :
  list Occurrence :=
  let occs := since_cutoff cutoff occs in
  let occs := if String.eqb observer "all" then occs else List.filter (observer_is observer) occs in
  let occs :=
    if String.eqb severity "all" then occs
    else List.filter (fun o => String.eqb (severity_name (oc_severity o)) severity) occs in
  sort_by newest_first occs.

Definition count_by_observer (recent : list Occurrence) : list (string * (Z * Z)) :=
  fold_left (fun m o =>
    let cat := observer_category (oc_occurrence_type o) in
    let '(c, k) := default (0, 0) (bt_get cat m) in
    bt_insert cat (c + 1, k + (if is_critical o then 1 else 0)) m) recent [].

Definition sum_counts (m : list (string * (Z * Z))) : Z * Z :=
  fold_left (fun acc kv => (fst acc + fst (snd kv), snd acc + snd (snd kv))) m (0, 0).

Definition node_health (recent : list Occurrence) : json :=
  let by_observer := hm_iter (count_by_observer recent) in
  let '(total, total_critical) := sum_counts by_observer in
  json_obj
    [("status", JString (health_status total total_critical));
     ("total_anomalies_1h", JInt total);
     ("total_critical_1h", JInt total_critical);
     ("observers",
      JArray (map (fun kv => json_obj [("name", JString (fst kv)); ("anomalies", JInt (fst (snd kv)));
                                       ("critical", JInt (snd (snd kv)))]) by_observer))].

Definition mcp_call_tool (d : Dir) (name : string) (args : json) : result json cli_error :=
  if String.eqb name "tapio_recent_anomalies" then
    let minutes := default (f64_of_Z 5) (json_get "minutes" args ≫= as_f64) in
    let observer := default "all" (get_str "observer" args) in
    let severity := default "all" (get_str "severity" args) in
    loaded <-? load_occurrences d ;;
    let '(occs, _) := loaded in
    cutoff <-? seconds_ago (f64_as_i64 (f64_mul minutes (f64_of_Z 60))) ;;
    content <-? map_err CliErr (occurrences_json (recent_anomalies cutoff observer severity occs)) ;;
    Ok (text_content content)
  else if String.eqb name "tapio_node_health" then
    loaded <-? load_occurrences d ;;
    let '(occs, _) := loaded in
    one_hour_ago <-? seconds_ago HOUR ;;
    content <-? map_err CliErr (json_pretty (node_health (since_cutoff one_hour_ago occs))) ;;
    Ok (text_content content)
  else if String.eqb name "tapio_watch_stream" then
    let observer := get_str "observer" args in
    let max := default 50 (json_get "max_events" args ≫= as_u64) in
    loaded <-? load_occurrences d ;;
    let '(occs, _) := loaded in
    let occs := match observer with Some obs => List.filter (observer_is obs) occs | None => occs end in
    content <-? map_err CliErr (occurrences_json (take (Z.to_nat max) (sort_by newest_first occs))) ;;
    Ok (text_content content)
  else
    Ok (json_obj
          [("content", JArray [json_obj [("type", JString "text");
                                         ("text", JString ("Unknown tool: " +:+ name))]]);
           ("isError", JBool true)]).

Definition OBSERVER_ENUM : json :=
  JArray [JString "network"; JString "container"; JString "storage"; JString "node"; JString "all"].

Definition tools_list : json :=
  json_obj [("tools", JArray [
    json_obj [("name", JString "tapio_recent_anomalies");
              ("description", JString "Get recent kernel anomalies from the last N minutes");
              ("inputSchema", json_obj [("type", JString "object"); ("properties", json_obj [
                ("minutes", json_obj [("type", JString "number"); ("default", JInt 5);
                                      ("description", JString "Time window in minutes")]);
                ("observer", json_obj [("type", JString "string"); ("enum", OBSERVER_ENUM);
                                       ("default", JString "all")]);
                ("severity", json_obj [("type", JString "string");
                                       ("enum", JArray [JString "warning"; JString "error";
                                                        JString "critical"; JString "all"]);
                                       ("default", JString "all")])])])];
    json_obj [("name", JString "tapio_node_health");
              ("description", JString "Get current node health summary across all observers");
              ("inputSchema", json_obj [("type", JString "object"); ("properties", json_obj [])])];
    json_obj [("name", JString "tapio_watch_stream");
              ("description", JString "Get the most recent anomalies (snapshot, not streaming)");
              ("inputSchema", json_obj [("type", JString "object"); ("properties", json_obj [
                ("observer", json_obj [("type", JString "string");
                                       ("description", JString "Filter by observer")]);
                ("max_events", json_obj [("type", JString "number"); ("default", JInt 50);
                                         ("description", JString "Maximum events to return")])])])]])].

Definition initialize_result : json :=
  json_obj [("protocolVersion", JString "2024-11-05");
            ("capabilities", json_obj [("tools", json_obj [])]);
            ("serverInfo", json_obj [("name", JString "tapio"); ("version", JString package_version)])].

(** The answer, None for a notification; a panic ends the server. *)
Definition mcp_handle_request (d : Dir) (request : json) : result (option json) cli_error :=
  let id := json_get "id" request in
  let method := default EmptyString (get_str "method" request) in
  let params := default (json_obj []) (json_get "params" request) in
  match id with
  | None => Ok None
  | Some _ =>
      if String.eqb method "initialize" then Ok (Some (mcp_result_response id initialize_result))
      else if String.eqb method "tools/list" then Ok (Some (mcp_result_response id tools_list))
      else if String.eqb method "tools/call" then
        let tool_name := default EmptyString (get_str "name" params) in
        let args := default (json_obj []) (json_get "arguments" params) in
        match mcp_call_tool d tool_name args with
        | Ok res => Ok (Some (mcp_result_response id res))
        | Err (CliErr err) =>
            Ok (Some (mcp_error_response id (-32603)
                        ("Tool call failed for '" +:+ tool_name +:+ "': " +:+ err)))
        | Err CliPanic => Err CliPanic
        end
      else Ok (Some (mcp_error_response id (-32601) ("Method not found: " +:+ method)))
  end.

Definition mcp_handle_line (d : Dir) (line : string) : result (option json) cli_error :=
  match parse_json line with
  | None => Ok (Some (mcp_error_response None (-32700) "Parse error"))
  | Some request => mcp_handle_request d request
  end.

(** The lines read from the standard input, with the directory as it is at each;
    the end of the list is the end of the input. *)
Fixpoint cmd_mcp (input : list (Dir * result string string)) : result (list json) cli_error :=
  match input with
  | [] => Ok []
  | (_, Err e) :: _ => Err (CliErr e)
  | (d, Ok line) :: rest =>
      let trimmed := trim line in
      if str_empty trimmed then cmd_mcp rest
      else
        response <-? mcp_handle_line d trimmed ;;
        more <-? cmd_mcp rest ;;
        Ok (option_list response ++ more)
  end.

(** * Sorting *)

Lemma insert_by_perm {A : Type} (le : A -> A -> bool) (x : A) (l : list A) :
  Permutation (insert_by le x l) (x :: l).
Proof.
  induction l as [|y l IH]; simpl; [done|]. destruct (le x y); [done|].
  rewrite IH. apply perm_swap.
Qed.

Lemma sort_by_perm {A : Type} (le : A -> A -> bool) (l : list A) : Permutation (sort_by le l) l.
Proof. induction l as [|x l IH]; simpl; [done|]. by rewrite insert_by_perm, IH. Qed.

Lemma insert_by_sorted {A : Type} (le : A -> A -> bool) (x : A) (l : list A) :
  (forall a b, le a b = false -> le b a = true) ->
  Sorted (fun a b => le a b = true) l -> Sorted (fun a b => le a b = true) (insert_by le x l).
Proof.
  intros Htot. induction l as [|y l IH]; intros Hs; simpl; [repeat constructor|].
  destruct (le x y) eqn:E; [by constructor; [|constructor]|].
  apply Sorted_inv in Hs as [Hs Hy]. constructor; [by apply IH|].
  destruct l as [|z l]; simpl; [constructor; by apply Htot|].
  apply HdRel_inv in Hy. destruct (le x z); constructor; auto.
Qed.

Lemma sort_by_sorted {A : Type} (le : A -> A -> bool) (l : list A) :
  (forall a b, le a b = false -> le b a = true) ->
  Sorted (fun a b => le a b = true) (sort_by le l).
Proof. intros Htot. induction l; simpl; [constructor|by apply insert_by_sorted]. Qed.

Lemma str_leb_total (a b : string) : str_leb a b = false -> str_leb b a = true.
Proof.
  unfold str_leb. pose proof (kcmp_opp (K := string) a b) as Ho. simpl in Ho. rewrite Ho.
  by destruct (str_cmp a b).
Qed.

(** * Loading *)

Definition readable (d : Dir) (entries : list (result string string)) (o : Occurrence) : Prop :=
  exists name, In (Ok name) entries /\ has_json_extension name = true /\
    read_occurrence_file d name = Ok o.

Lemma readable_cons (d : Dir) (entry : result string string) (rest : list (result string string))
    (o : Occurrence) :
  readable d (entry :: rest) o <->
  (exists name, entry = Ok name /\ has_json_extension name = true /\ read_occurrence_file d name = Ok o) \/
  readable d rest o.
Proof.
  unfold readable. split.
  - intros (name & [->|Hin] & Hx & Hr); [left|right]; eauto.
  - intros [(name & -> & Hx & Hr)|(name & Hin & Hx & Hr)]; exists name; simpl; auto.
Qed.

Lemma load_entries_In (d : Dir) (entries : list (result string string)) (o : Occurrence) :
  In o (fst (load_entries d entries)) <-> readable d entries o.
Proof.
  induction entries as [|entry rest IH]; simpl.
  { unfold readable. split; [done|]. by intros (name & [] & _). }
  rewrite readable_cons, <- IH. destruct (load_entries d rest) as [occs warnings]. simpl in *.
  destruct entry as [name|e]; [|simpl; split; [auto|by intros [(n & ? & _)|?]]].
  destruct (has_json_extension name) eqn:Ex.
  - destruct (read_occurrence_file d name) as [occ|e] eqn:Er; simpl.
    + split; [intros [->|?]; eauto|]. intros [(n & [= <-] & _ & Hr)|?]; [left; congruence|auto].
    + split; [auto|]. intros [(n & [= <-] & _ & Hr)|?]; [congruence|done].
  - simpl. split; [auto|]. intros [(n & [= <-] & Hx & _)|?]; [congruence|done].
Qed.

Lemma read_occurrence_file_valid (d : Dir) (name : string) (o : Occurrence) :
  read_occurrence_file d name = Ok o ->
  exists data, dir_read d name = Ok data /\ parse_occurrence data = Ok o /\ Occurrence_validate o = Ok tt.
Proof.
  unfold read_occurrence_file. intros H. apply rbind_Ok in H as (data & Hd & H).
  apply rbind_Ok in H as (occ & Hp & H). apply unit_rbind_Ok in H as [Hv [= ->]].
  exists data. destruct (dir_read d name) as [x|]; [|done]. simpl in Hd. injection Hd as <-.
  destruct (parse_occurrence x) as [y|]; [|done]. simpl in Hp. injection Hp as <-.
  by destruct (Occurrence_validate y) as [[]|].
Qed.

(** * Counting *)

Definition count_if (p : Occurrence -> bool) (l : list Occurrence) : Z := zlen (List.filter p l).

Lemma count_if_snoc (p : Occurrence -> bool) (l : list Occurrence) (o : Occurrence) :
  count_if p (l ++ [o]) = count_if p l + (if p o then 1 else 0).
Proof.
  unfold count_if. rewrite List.filter_app, zlen_app. simpl. by destruct (p o).
Qed.

Definition both (p q : Occurrence -> bool) (o : Occurrence) : bool := p o && q o.

(** What each category's statistics count. *)
Lemma collect_stats_get (recent : list Occurrence) (cat : string) :
  match bt_get cat (collect_stats recent) with
  | Some s => ost_count s = count_if (observer_is cat) recent /\
              ost_critical_count s = count_if (both (observer_is cat) is_critical) recent
  | None => count_if (observer_is cat) recent = 0 /\
            count_if (both (observer_is cat) is_critical) recent = 0
  end.
Proof.
  unfold collect_stats. induction recent as [|o recent IH] using rev_ind; [done|].
  rewrite fold_left_app. cbn [fold_left]. rewrite !count_if_snoc.
  set (m := fold_left _ recent []) in *. unfold both, observer_is at 2 4 6 8.
  destruct (String.eqb_spec (observer_category (oc_occurrence_type o)) cat) as [->|Hne].
  - rewrite bt_get_insert_eq. cbn [ost_count ost_critical_count ObserverStats_add].
    destruct (bt_get cat m) as [s|]; simpl; destruct IH as [IH1 IH2]; fold (observer_is cat) in *;
      unfold both in IH2; rewrite ?IH1, ?IH2; split; try done; lia.
  - rewrite bt_get_insert_ne by done. rewrite !Z.add_0_r. exact IH.
Qed.

Lemma health_row_counts (recent : list Occurrence) (cat line : string) (count critical : Z) :
  health_row (collect_stats recent) cat = Ok (line, count, critical) ->
  count = count_if (observer_is cat) recent /\
  critical = count_if (both (observer_is cat) is_critical) recent.
Proof.
  unfold health_row. pose proof (collect_stats_get recent cat) as Hg.
  destruct (bt_get cat (collect_stats recent)) as [s|]; simpl.
  - destruct (format_timestamp (ost_last_seen s)); simpl; [|done]. intros [= _ <- <-]. done.
  - intros [= _ <- <-]. destruct Hg. done.
Qed.

Definition observer_in (cats : list string) (o : Occurrence) : bool :=
  existsb (String.eqb (observer_category (oc_occurrence_type o))) cats.

Lemma count_if_cons_cat (q : Occurrence -> bool) (cat : string) (cats : list string)
    (recent : list Occurrence) :
  ~ In cat cats ->
  count_if (both (observer_in (cat :: cats)) q) recent =
  count_if (both (observer_is cat) q) recent + count_if (both (observer_in cats) q) recent.
Proof.
  intros Hn. induction recent as [|o recent IH] using rev_ind; [done|].
  rewrite !count_if_snoc, IH. unfold both, observer_in, observer_is. simpl.
  destruct (String.eqb_spec (observer_category (oc_occurrence_type o)) cat) as [E|_]; simpl; [|lia].
  assert (existsb (String.eqb (observer_category (oc_occurrence_type o))) cats = false) as ->.
  { apply not_true_iff_false. rewrite existsb_exists. intros (x & Hx & Ex%String.eqb_eq).
    apply Hn. by rewrite <- E, Ex. }
  destruct (q o); simpl; lia.
Qed.

Lemma count_if_ext (p q : Occurrence -> bool) (l : list Occurrence) :
  (forall o, In o l -> p o = q o) -> count_if p l = count_if q l.
Proof. intros H. unfold count_if. f_equal. by apply List.filter_ext_in. Qed.

Lemma categories_NoDup : NoDup CATEGORIES.
Proof. by apply (bool_decide_unpack _). Qed.

Lemma count_if_all (l : list Occurrence) : count_if (fun _ => true) l = zlen l.
Proof. unfold count_if. f_equal. induction l; simpl; congruence. Qed.

Lemma health_rows_counts (recent : list Occurrence) (cats : list string) (ls : list string) (t c : Z) :
  NoDup cats ->
  health_rows (collect_stats recent) cats = Ok (ls, t, c) ->
  t = count_if (observer_in cats) recent /\ c = count_if (both (observer_in cats) is_critical) recent.
Proof.
  revert ls t c. induction cats as [|cat cats IH]; intros ls t c Hnd H.
  { injection H as <- <- <-. split; unfold count_if, both, observer_in; simpl;
      by induction recent as [|o r IHr]. }
  apply NoDup_cons in Hnd as [Hn Hnd]. simpl in H.
  apply rbind_Ok in H as ([[line count] critical] & Hrow & H).
  apply rbind_Ok in H as ([[ls' t'] c'] & Hrows & [= <- <- <-]).
  apply health_row_counts in Hrow as [-> ->].
  destruct (IH _ _ _ Hnd Hrows) as [-> ->].
  assert (Hn' : ~ In cat cats) by (by rewrite <- list_elem_of_In).
  split; [|by rewrite count_if_cons_cat].
  assert (Ht : forall p, count_if (both p (fun _ => true)) recent = count_if p recent).
  { intros p. apply count_if_ext. intros o _. unfold both. by rewrite andb_true_r. }
  by rewrite <- (Ht (observer_in (cat :: cats))), <- (Ht (observer_in cats)), <- (Ht (observer_is cat)),
    count_if_cons_cat.
Qed.

(** The sums over the categories do not depend on their order. *)
Lemma sum_counts_acc (m : list (string * (Z * Z))) (a b : Z) :
  fold_left (fun acc kv => (fst acc + fst (snd kv), snd acc + snd (snd kv))) m (a, b) =
  (a + fst (sum_counts m), b + snd (sum_counts m)).
Proof.
  unfold sum_counts. revert a b. induction m as [|[k [c r]] m IH]; intros a b.
  - simpl. f_equal; lia.
  - cbn [fold_left fst snd]. rewrite IH, (IH (0 + c) (0 + r)). simpl. f_equal; lia.
Qed.

Lemma sum_counts_cons (k : string) (v : Z * Z) (m : list (string * (Z * Z))) :
  sum_counts ((k, v) :: m) = (fst v + fst (sum_counts m), snd v + snd (sum_counts m)).
Proof. unfold sum_counts at 1. cbn [fold_left fst snd]. by rewrite sum_counts_acc. Qed.

Lemma sum_counts_perm (l m : list (string * (Z * Z))) : Permutation l m -> sum_counts l = sum_counts m.
Proof.
  induction 1 as [|[k v] l m _ IH|[k v] [k' v'] l|l m n _ IH1 _ IH2]; [done| | |congruence].
  - by rewrite !sum_counts_cons, IH.
  - rewrite !sum_counts_cons. simpl. f_equal; lia.
Qed.

Lemma sum_counts_insert (k : string) (v : Z * Z) (m : list (string * (Z * Z))) :
  sum_counts (bt_insert k v m) =
  (fst (sum_counts m) + fst v - fst (default (0, 0) (bt_get k m)),
   snd (sum_counts m) + snd v - snd (default (0, 0) (bt_get k m))).
Proof.
  induction m as [|[k' v'] m IH]; cbn [bt_insert bt_get].
  - rewrite sum_counts_cons. simpl. f_equal; lia.
  - destruct (kcmp k k') eqn:E.
    + rewrite !sum_counts_cons. simpl. f_equal; lia.
    + rewrite !sum_counts_cons. simpl. f_equal; lia.
    + rewrite !sum_counts_cons, IH. simpl. f_equal; lia.
Qed.

Lemma count_by_observer_sums (recent : list Occurrence) :
  sum_counts (count_by_observer recent) = (zlen recent, count_if is_critical recent).
Proof.
  unfold count_by_observer. induction recent as [|o recent IH] using rev_ind; [done|].
  rewrite fold_left_app. cbn [fold_left]. set (m := fold_left _ recent []) in *.
  clearbody m. rewrite zlen_app, count_if_snoc. change (zlen [o]) with 1.
  destruct (default (0, 0) (bt_get (observer_category (oc_occurrence_type o)) m)) as [c k] eqn:E.
  rewrite sum_counts_insert, IH, E. simpl. f_equal; lia.
Qed.

(** Every entry with the extension is loaded or warned about, every unreadable
    entry is warned about. *)
Definition asks_reading (entry : result string string) : bool :=
  match entry with Ok name => has_json_extension name | Err _ => true end.

Lemma load_entries_count (d : Dir) (entries : list (result string string)) :
  zlen (fst (load_entries d entries)) + zlen (snd (load_entries d entries)) =
  zlen (List.filter asks_reading entries).
Proof.
  induction entries as [|entry rest IH]; [done|]. simpl.
  destruct (load_entries d rest) as [occs warnings]. simpl in IH.
  destruct entry as [name|e]; simpl; [|rewrite !zlen_cons; lia].
  destruct (has_json_extension name); [|done].
  destruct (read_occurrence_file d name); simpl; rewrite !zlen_cons; lia.
Qed.

(** * The answers of the MCP server *)

(** A JSON-RPC answer to the request with this id: a result or an error. *)
Definition is_answer (id : json) (r : json) : Prop :=
  (exists res, r = mcp_result_response (Some id) res) \/
  (exists code message, r = mcp_error_response (Some id) code message).

Lemma answer_fields (id r : json) :
  is_answer id r ->
  json_get "jsonrpc" r = Some (JString "2.0") /\ json_get "id" r = Some id /\
  (json_get "result" r = None <-> json_get "error" r <> None).
Proof. intros [(res & ->)|(code & message & ->)]; cbn; (split; [done|split; [done|]]); split; done. Qed.

(** * Properties *)

(** The tool reads every occurrence it can: what it loads from a directory are
    exactly the valid occurrences of the files named [.json], one unreadable,
    malformed or invalid file never hides another, and each such file and each
    unreadable entry is warned about instead. *)
Lemma load_reads_every_valid_file (d : Dir) (entries : list (result string string))
    (Hexists : dir_exists d = true) (Hentries : dir_entries d = Ok entries) :
  exists occs warnings,
    load_occurrences d = Ok (occs, warnings) /\
    (forall o, In o occs <-> exists name data,
       In (Ok name) entries /\ has_json_extension name = true /\ dir_read d name = Ok data /\
       parse_occurrence data = Ok o /\ Occurrence_validate o = Ok tt) /\
    zlen occs + zlen warnings = zlen (List.filter asks_reading entries).
Proof.
  unfold load_occurrences. rewrite Hexists, Hentries. simpl.
  exists (fst (load_entries d entries)), (snd (load_entries d entries)).
  split; [by destruct (load_entries d entries)|]. split; [|apply load_entries_count].
  intros o. rewrite load_entries_In. split.
  - intros (name & Hin & Hx & Hr). apply read_occurrence_file_valid in Hr as (data & Hd & Hp & Hv). eauto 10.
  - intros (name & data & Hin & Hx & Hd & Hp & Hv). exists name. split; [done|]. split; [done|].
    unfold read_occurrence_file. rewrite Hd. simpl. rewrite Hp. simpl. by rewrite Hv.
Qed.

(** The recent anomalies the MCP tool answers with are the loaded occurrences
    not older than the cutoff, of the observer and the severity asked for, none
    twice and none lost, the newest first. *)
Lemma recent_anomalies_spec (cutoff observer severity : string) (occs : list Occurrence) :
  Permutation (recent_anomalies cutoff observer severity occs)
    (List.filter (fun o => str_leb cutoff (oc_timestamp o) &&
       ((String.eqb observer "all" || String.eqb (observer_category (oc_occurrence_type o)) observer) &&
        (String.eqb severity "all" || String.eqb (severity_name (oc_severity o)) severity))) occs) /\
  Sorted (fun a b => str_leb (oc_timestamp b) (oc_timestamp a) = true)
    (recent_anomalies cutoff observer severity occs).
Proof.
  unfold recent_anomalies. split.
  - rewrite sort_by_perm. match goal with |- Permutation ?a ?b => enough (a = b) as ->; [done|] end.
    unfold since_cutoff, observer_is.
    assert (Hf : forall (p q : Occurrence -> bool) (l : list Occurrence),
      List.filter q (List.filter p l) = List.filter (fun o => p o && q o) l).
    { intros p q l. induction l as [|x l IH]; simpl; [done|].
      destruct (p x); simpl; [destruct (q x); simpl; by rewrite IH|done]. }
    destruct (String.eqb observer "all"), (String.eqb severity "all"); rewrite ?Hf;
      apply List.filter_ext; intros o; simpl; rewrite ?andb_true_r, ?andb_assoc; done.
  - apply sort_by_sorted. intros a b. apply str_leb_total.
Qed.

(** The health summaries count what they show: the MCP totals are the numbers
    of recent occurrences and of critical ones among them, in whatever order the
    hash map is read; the totals of the command's table are those of the four
    known observers, so both report the same health when there is no other
    observer. *)
Lemma health_totals (recent : list Occurrence) (ls : list string) (t c : Z)
    (Hiter : forall m : list (string * (Z * Z)), Permutation (hm_iter m) m)
    (Hrows : health_rows (collect_stats recent) CATEGORIES = Ok (ls, t, c)) :
  sum_counts (hm_iter (count_by_observer recent)) = (zlen recent, count_if is_critical recent) /\
  t = count_if (observer_in CATEGORIES) recent /\
  c = count_if (both (observer_in CATEGORIES) is_critical) recent /\
  (Forall (fun o => observer_in CATEGORIES o = true) recent ->
   json_get "status" (node_health recent) = Some (JString (health_status t c))).
Proof.
  assert (Hs : sum_counts (hm_iter (count_by_observer recent)) = (zlen recent, count_if is_critical recent)).
  { rewrite (sum_counts_perm _ _ (Hiter _)). apply count_by_observer_sums. }
  destruct (health_rows_counts recent CATEGORIES ls t c categories_NoDup Hrows) as [Ht Hc].
  split; [exact Hs|]. split; [exact Ht|]. split; [exact Hc|]. intros Hall.
  unfold node_health. rewrite Hs. rewrite Forall_forall in Hall.
  assert (Ht' : t = zlen recent).
  { rewrite Ht. transitivity (count_if (fun _ => true) recent).
    - apply count_if_ext. intros o Ho. apply Hall. by apply list_elem_of_In.
    - apply count_if_all. }
  assert (Hc' : c = count_if is_critical recent).
  { rewrite Hc. apply count_if_ext. intros o Ho. unfold both. rewrite Hall; [done|]. by apply list_elem_of_In. }
  rewrite <- Ht', <- Hc'. done.
Qed.

(** How many seconds before now the tool a request calls looks back. *)
Definition looks_back (request : json) : option Z :=
  let params := default (json_obj []) (json_get "params" request) in
  let args := default (json_obj []) (json_get "arguments" params) in
  let name := default EmptyString (get_str "name" params) in
  if negb (String.eqb (default EmptyString (get_str "method" request)) "tools/call") then None
  else if String.eqb name "tapio_recent_anomalies" then
    Some (f64_as_i64 (f64_mul (default (f64_of_Z 5) (json_get "minutes" args ≫= as_f64)) (f64_of_Z 60)))
  else if String.eqb name "tapio_node_health" then Some HOUR
  else None.

(** It has occurrences to date but chrono cannot represent that instant. *)
Definition looks_too_far (d : Dir) (request : json) : bool :=
  match looks_back request with
  | Some seconds => is_ok (load_occurrences d) && negb (is_ok (seconds_ago seconds))
  | None => false
  end.

Lemma seconds_ago_panics (seconds : Z) (e : cli_error) : seconds_ago seconds = Err e -> e = CliPanic.
Proof. unfold seconds_ago. destruct (duration_ok seconds); [destruct (rfc3339_ago seconds)|]; by intros [= <-]. Qed.

Lemma load_occurrences_errs (d : Dir) (e : cli_error) : load_occurrences d = Err e -> exists err, e = CliErr err.
Proof.
  unfold load_occurrences. destruct (negb (dir_exists d)); [done|].
  destruct (dir_entries d); [done|]. intros [= <-]. by eexists.
Qed.

Lemma content_errs (content : result string string) (e : cli_error) :
  (content <-? map_err CliErr content ;; Ok (text_content content)) = Err e -> exists err, e = CliErr err.
Proof. destruct content; [done|]. intros [= <-]. by eexists. Qed.

(** A tool panics exactly when it looks back to such an instant. *)
Lemma mcp_call_tool_panics (d : Dir) (request : json) :
  let params := default (json_obj []) (json_get "params" request) in
  default EmptyString (get_str "method" request) = "tools/call" ->
  mcp_call_tool d (default EmptyString (get_str "name" params))
    (default (json_obj []) (json_get "arguments" params)) = Err CliPanic <->
  looks_too_far d request = true.
Proof.
  cbv zeta. intros Hm. unfold looks_too_far, looks_back. rewrite Hm.
  set (params := default (json_obj []) (json_get "params" request)).
  set (args := default (json_obj []) (json_get "arguments" params)).
  assert (Htool : forall seconds k, (forall cutoff occs e, k cutoff occs = Err e -> exists err, e = CliErr err) ->
    (loaded <-? load_occurrences d ;; let '(occs, _) := loaded in cutoff <-? seconds_ago seconds ;; k cutoff occs)
      = Err (A := json) CliPanic <->
    is_ok (load_occurrences d) && negb (is_ok (seconds_ago seconds)) = true).
  { intros seconds k Hk. destruct (load_occurrences d) as [[occs ws]|e] eqn:El; simpl.
    - destruct (seconds_ago seconds) as [cutoff|e] eqn:Es; simpl.
      + split; [|done]. intros Ek. by apply Hk in Ek as [err ?].
      + apply seconds_ago_panics in Es as ->. done.
    - apply load_occurrences_errs in El as [err ->]. done. }
  unfold mcp_call_tool. set (name := default EmptyString (get_str "name" params)). rewrite String.eqb_refl. simpl negb.
  destruct (String.eqb name "tapio_recent_anomalies").
  { apply Htool. intros. by eapply content_errs. }
  destruct (String.eqb name "tapio_node_health").
  { apply Htool. intros. by eapply content_errs. }
  split; [|done]. destruct (String.eqb name "tapio_watch_stream"); [|done].
  destruct (load_occurrences d) as [[occs ws]|e] eqn:El; simpl.
  - intros Ek. by apply content_errs in Ek as [err ?].
  - apply load_occurrences_errs in El as [err ->]. done.
Qed.

(** C39. The MCP server answers every request and no notification: with an id, null
    included, the answer carries the protocol version and that id, and either a
    result or an error, never both, whatever the method, the tool and the
    directory; without an id there is no answer.  The one exception is a call
    of a tool that looks back further than an instant can be represented
    ([minutes] is any number), over a directory it can read: there the server
    panics. *)
Theorem mcp_answers_requests (d : Dir) (request : json) :
  match json_get "id" request with
  | None => mcp_handle_request d request = Ok None
  | Some id =>
      if looks_too_far d request then mcp_handle_request d request = Err CliPanic
      else
        exists r, mcp_handle_request d request = Ok (Some r) /\
          json_get "jsonrpc" r = Some (JString "2.0") /\ json_get "id" r = Some id /\
          (json_get "result" r = None <-> json_get "error" r <> None)
  end.
Proof.
  unfold mcp_handle_request. destruct (json_get "id" request) as [id|]; [|done].
  assert (Ha : forall r, is_answer id r -> exists r', Ok (E := cli_error) (Some r) = Ok (Some r') /\
    json_get "jsonrpc" r' = Some (JString "2.0") /\ json_get "id" r' = Some id /\
    (json_get "result" r' = None <-> json_get "error" r' <> None)).
  { intros r Hr. exists r. split; [done|]. by apply answer_fields. }
  destruct (String.eqb_spec (default EmptyString (get_str "method" request)) "tools/call") as [Em|Em].
  - rewrite Em. simpl. pose proof (mcp_call_tool_panics d request Em) as Hp. cbv zeta in Hp.
    destruct (mcp_call_tool d _ _) as [res|[err|]].
    + destruct (looks_too_far d request); [by specialize (proj2 Hp eq_refl)|]. apply Ha. left. eauto.
    + destruct (looks_too_far d request); [by specialize (proj2 Hp eq_refl)|]. apply Ha. right. eauto.
    + by rewrite (proj1 Hp eq_refl).
  - assert (Hfar : looks_too_far d request = false)
      by (unfold looks_too_far, looks_back; by rewrite (proj2 (String.eqb_neq _ _) Em)).
    rewrite Hfar. destruct (String.eqb _ "initialize"); [apply Ha; left; eauto|].
    destruct (String.eqb _ "tools/list"); [apply Ha; left; eauto|]. apply Ha. right. eauto.
Qed.
End Cli.

(** The last byte of the unit is not on a character's boundary. *)
Example parse_duration_micro :
  parse_duration (fun _ => true) "5µ" = Err CliPanic /\
  parse_duration (fun _ => true) " 90m " = Ok 5400 /\
  parse_duration (fun _ => true) "0s" = Err (CliErr "duration must be positive: 0s").
Proof. repeat split; reflexivity. Qed.

Example format_timestamp_panics : format_timestamp "2024-02-29T12:34:5½" = Err CliPanic.
Proof. reflexivity. Qed.

Definition stored (n timestamp type_ : string) (s : Severity) : Occurrence :=
  Occurrence_at n timestamp type_ s Failure.

Definition sample_stored : list Occurrence :=
  [stored "a" "2024-02-29T12:34:56+00:00" NETWORK_RETRANSMIT_SPIKE Warning;
   stored "b" "2024-02-29T12:34:57+00:00" CONTAINER_OOM_KILL Critical;
   stored "c" "2024-02-28T12:34:57+00:00" CONTAINER_OOM_KILL Critical].

(** A directory with one readable file, one malformed and one of another kind. *)
Definition sample_dir : Dir := {|
  dir_path := "data"; dir_exists := true;
  dir_entries := Ok [Ok "a.json"; Ok "notes.txt"; Ok "bad.json"; Err "io"];
  dir_read := fun name => Ok name |}.

Definition sample_parse (text : string) : result Occurrence string :=
  if String.eqb text "a.json" then Ok (stored "a" "2024-02-29T12:34:56+00:00" NETWORK_RETRANSMIT_SPIKE Warning)
  else Err "expected value".

Lemma load_reads_every_valid_file_witness :
  exists occs warnings,
    load_occurrences sample_parse sample_dir = Ok (occs, warnings) /\ zlen occs + zlen warnings = 3.
Proof.
  destruct (load_reads_every_valid_file sample_parse sample_dir
    [Ok "a.json"; Ok "notes.txt"; Ok "bad.json"; Err "io"] eq_refl eq_refl) as (occs & ws & Hl & _ & Hn).
  exists occs, ws. split; [exact Hl|]. rewrite Hn. reflexivity.
Defined.

Lemma health_totals_witness :
  json_get "status" (node_health (fun V m => m) sample_stored) = Some (JString "degraded").
Proof.
  refine (proj2 (proj2 (proj2 (health_totals (fun V m => m) sample_stored _ 3 2 _ eq_refl))) _).
  - intros m. reflexivity.
  - repeat constructor.
Defined.
