(* ===== verification/Archive.v ===== *)
(** The file sink of the agent ([tapio-agent/src/sink/file.rs]) and the tool that
    reads its directory ([tapio-cli/src/main.rs]): what the one writes the
    other loads. *)
From Stdlib Require Import String Permutation.
From stdpp Require Import gmap.
From S2P Require Import Prelude RustStr Float64 Json Occurrence NetworkObs Sink Cli.
Local Open Scope Z_scope.

(** The name of one entry of a directory. *)
Definition plain (name : string) : Prop := name <> EmptyString /\ contains_char "/" name = false.

(** A host whose files can be read back: what a write stores, what a directory
    lists, and that a directory with an entry exists. *)
Class FileStore (W : Type) `{Host W} := {
  fs_get : string -> W -> option string;
  fs_list : string -> W -> list string;
  fs_write : forall path data w w', host_write_file path data w = (Ok tt, w') ->
    forall p, fs_get p w' = if decide (p = path) then Some data else fs_get p w;
  fs_mkdir : forall dir w p, fs_get p (snd (host_create_dir_all dir w)) = fs_get p w;
  fs_list_spec : forall dir w name,
    In name (fs_list dir w) <-> plain name /\ fs_get (path_join dir name) w <> None;
  fs_list_nodup : forall dir w, NoDup (fs_list dir w);
  fs_parent : forall dir w, fs_list dir w <> [] -> host_exists dir w = true;
}.

(** The directory as the tool sees it. *)
Definition dir_view {W : Type} `{FileStore W} (dir : string) (w : W) : Dir := {|
  dir_path := dir;
  dir_exists := host_exists dir w;
  dir_entries := Ok (map Ok (fs_list dir w));
  dir_read := fun name => ok_or (fs_get (path_join dir name) w) "No such file or directory" |}.

(** The name the sink gives a file. *)
Definition file_name (o : Occurrence) : string := oc_id o +:+ ".json".

(** * What [serde_json] promises of a document that is read back *)

(** A null in an optional field reads back as nothing. *)
Definition data_reads (d d' : option json) : Prop :=
  match d, d' with
  | (None | Some JNull), None => True
  | Some JNull, Some _ => False
  | Some j, Some j' => json_like j j'
  | _, _ => False
  end.

(** The confidence is a float. *)
Definition reasoning_reads (r r' : option Reasoning) : Prop :=
  match r, r' with
  | None, None => True
  | Some r, Some r' =>
      (rea_summary r' = rea_summary r /\ rea_explanation r' = rea_explanation r) /\
      (rea_causal_chain r' = rea_causal_chain r /\ rea_patterns_matched r' = rea_patterns_matched r) /\
      (rea_confidence r = None -> rea_confidence r' = None)
  | _, _ => False
  end.

Record reads_as (o o' : Occurrence) : Prop := {
  ra_id : oc_id o' = oc_id o;
  ra_timestamp : oc_timestamp o' = oc_timestamp o;
  ra_source : oc_source o' = oc_source o;
  ra_type : oc_occurrence_type o' = oc_occurrence_type o;
  ra_severity : oc_severity o' = oc_severity o;
  ra_outcome : oc_outcome o' = oc_outcome o;
  ra_protocol_version : oc_protocol_version o' = oc_protocol_version o;
  ra_error : oc_error o' = oc_error o;
  ra_context : oc_context o' = oc_context o;
  ra_reasoning : reasoning_reads (oc_reasoning o) (oc_reasoning o');
  ra_history : oc_history o' = oc_history o;
  ra_data : data_reads (oc_data o) (oc_data o');
}.

Lemma reads_as_valid (o o' : Occurrence) : reads_as o o' -> Occurrence_validate o' = Occurrence_validate o.
Proof. intros H. unfold Occurrence_validate. by rewrite (ra_source _ _ H), (ra_type _ _ H), (ra_protocol_version _ _ H). Qed.

Lemma reads_as_name (o o' : Occurrence) : reads_as o o' -> file_name o' = file_name o.
Proof. intros H. unfold file_name. by rewrite (ra_id _ _ H). Qed.

Section Archive.
Variable to_json_pretty : Occurrence -> result string string.
Variable parse_occurrence : string -> result Occurrence string.
Context {W : Type} `{FileStore W}.

(** The document of an occurrence can be read back: so it is unless its data
    are nested beyond the parser's limit. *)
Definition readable (o : Occurrence) : Prop :=
  forall data, to_json_pretty o = Ok data -> exists o', parse_occurrence data = Ok o' /\ reads_as o o'.

(** Occurrences sent one after another, up to the first error. *)
Fixpoint file_send_all (os : list Occurrence) (dir : string) (w : W) : result unit SinkError * W :=
  match os with
  | [] => (Ok tt, w)
  | o :: rest =>
      match file_send to_json_pretty o dir w with
      | (Err e, _, w) => (Err e, w)
      | (Ok _, dir, w) => file_send_all rest dir w
      end
  end.

(** * Lemmas *)

Lemma path_join_prefix (dir name : string) : path_join dir name = path_join dir EmptyString +:+ name.
Proof.
  unfold path_join. destruct (str_empty dir); [done|].
  destruct (starts_with (str_rev dir) "/"); by rewrite !str_app_assoc.
Qed.

Lemma path_join_inj (dir a b : string) : path_join dir a = path_join dir b -> a = b.
Proof. rewrite (path_join_prefix dir a), (path_join_prefix dir b). apply str_app_inj_l. Qed.

Lemma rsplit_once_app (c : ascii) (s t : string) :
  contains_char c t = false -> rsplit_once c (s +:+ String c t) = Some (s, t).
Proof.
  intros Ht. induction s as [|a s IH]; simpl.
  - assert (Hn : rsplit_once c t = None).
    { clear -Ht. induction t as [|a t IH]; [done|]. simpl in *. apply orb_false_iff in Ht as [Ha Ht].
      by rewrite IH, Ha. }
    by rewrite Hn, Ascii.eqb_refl.
  - by rewrite IH.
Qed.

Lemma file_name_extension (o : Occurrence) :
  oc_id o <> EmptyString -> has_json_extension (file_name o) = true.
Proof.
  intros Hid. unfold has_json_extension, extension, file_name.
  change ".json" with (String "." "json"). rewrite rsplit_once_app by done.
  by destruct (oc_id o).
Qed.

Lemma file_name_plain (o : Occurrence) : plain (oc_id o) -> plain (file_name o).
Proof.
  intros [Hid Hs]. unfold plain, file_name. rewrite contains_char_app, Hs.
  split; [|done]. by destruct (oc_id o).
Qed.

Lemma file_name_inj (a b : Occurrence) : file_name a = file_name b -> oc_id a = oc_id b.
Proof.
  unfold file_name. intros E. apply (f_equal str_rev) in E. rewrite !str_rev_app in E.
  apply str_app_inj_l in E. by rewrite <- (str_rev_involutive (oc_id a)), E, str_rev_involutive.
Qed.

(** A successful send stores the occurrence and changes no other file. *)
Lemma file_send_stores (o : Occurrence) (dir dir' : string) (w w' : W) :
  file_send to_json_pretty o dir w = (Ok tt, dir', w') ->
  dir' = dir /\ exists data, to_json_pretty o = Ok data /\
    forall p, fs_get p w' = if decide (p = path_join dir (file_name o)) then Some data else fs_get p w.
Proof.
  unfold file_send, ensure_dir, file_name.
  assert (Hm : forall w1, (forall p, fs_get p w1 = fs_get p w) ->
    match to_json_pretty o with
    | Err e => (Err (Serialization e), dir, w1)
    | Ok data => let '(r, w2) := host_write_file (path_join dir (oc_id o +:+ ".json")) data w1 in
        (map_err Io r, dir, w2)
    end = (Ok tt, dir', w') ->
    dir' = dir /\ exists data, to_json_pretty o = Ok data /\
      forall p, fs_get p w' = if decide (p = path_join dir (oc_id o +:+ ".json")) then Some data else fs_get p w).
  { intros w1 Hw1. destruct (to_json_pretty o) as [data|]; [|done].
    destruct (host_write_file _ data w1) as [[[]|] w2] eqn:Ew; [|done]. simpl. intros [= <- <-].
    split; [done|]. exists data. split; [done|]. intros p. rewrite (fs_write _ _ _ _ Ew).
    case_decide; [done|apply Hw1]. }
  destruct (negb (host_exists dir w)); [|by apply Hm].
  pose proof (fs_mkdir dir w) as Hd. destruct (host_create_dir_all dir w) as [[[]|] w1]; [|done].
  by apply Hm.
Qed.

Lemma file_sends_keep (os : list Occurrence) (dir p : string) (w w' : W) :
  file_send_all os dir w = (Ok tt, w') ->
  ~ In p (map (fun o => path_join dir (file_name o)) os) -> fs_get p w' = fs_get p w.
Proof.
  revert w. induction os as [|o os IH]; intros w; simpl; [by intros [= ->]|].
  destruct (file_send to_json_pretty o dir w) as [[[[]|] dir1] w1] eqn:Es; [|done].
  apply file_send_stores in Es as (-> & data & _ & Hg). intros Hr Hp.
  rewrite (IH w1 Hr) by naive_solver. rewrite Hg. rewrite decide_False; naive_solver.
Qed.

Lemma file_sends_store (os : list Occurrence) (dir : string) (w w' : W) :
  file_send_all os dir w = (Ok tt, w') -> NoDup (map oc_id os) ->
  Forall (fun o => exists data, to_json_pretty o = Ok data /\
    fs_get (path_join dir (file_name o)) w' = Some data) os.
Proof.
  revert w. induction os as [|o os IH]; intros w; simpl; [constructor|].
  destruct (file_send to_json_pretty o dir w) as [[[[]|] dir1] w1] eqn:Es; [|done].
  apply file_send_stores in Es as (-> & data & Hj & Hg). intros Hr Hn.
  apply NoDup_cons in Hn as [Ho Hn]. constructor; [|by eapply IH].
  exists data. split; [done|]. rewrite (file_sends_keep os dir _ w1 w' Hr).
  - rewrite Hg. by rewrite decide_True.
  - rewrite in_map_iff. intros (o' & E & Hin). apply path_join_inj, file_name_inj in E.
    apply Ho. rewrite <- E. apply list_elem_of_In. by apply in_map.
Qed.

(** The directory lists exactly the files that were written into it. *)
Lemma file_sends_listing (os : list Occurrence) (dir : string) (w w' : W) :
  file_send_all os dir w = (Ok tt, w') -> fs_list dir w = [] ->
  NoDup (map oc_id os) -> Forall (fun o => plain (oc_id o)) os ->
  Permutation (fs_list dir w') (map file_name os).
Proof.
  intros Hs He Hn Hp. apply NoDup_Permutation; [apply fs_list_nodup| |].
  - clear -Hn. induction os as [|o os IH]; [constructor|]. simpl in *.
    apply NoDup_cons in Hn as [Ho Hn]. constructor; [|auto]. rewrite list_elem_of_In, in_map_iff.
    intros (o' & E & Hin). apply Ho. rewrite <- (file_name_inj _ _ E). apply list_elem_of_In. by apply in_map.
  - intros name. rewrite !list_elem_of_In, fs_list_spec. split.
    + intros [Hpl Hg]. destruct (in_dec string_dec name (map file_name os)) as [|Hni]; [done|]. exfalso.
      rewrite (file_sends_keep os dir _ w w' Hs) in Hg.
      * assert (Hi : In name (fs_list dir w)) by (rewrite fs_list_spec; done). by rewrite He in Hi.
      * rewrite in_map_iff in *. intros (o & E & Hin). apply path_join_inj in E. eauto.
    + rewrite in_map_iff. intros (o & <- & Hin). rewrite Forall_forall in Hp. split.
      * apply file_name_plain. by apply Hp, list_elem_of_In.
      * pose proof (file_sends_store os dir w w' Hs Hn) as Hst. rewrite Forall_forall in Hst.
        destruct (Hst o) as (data & _ & ->); [by apply list_elem_of_In|done].
Qed.

Lemma load_entries_all (d : Dir) (names : list string) (os : list Occurrence) :
  Forall2 (fun name o => has_json_extension name = true /\
    read_occurrence_file parse_occurrence d name = Ok o) names os ->
  load_entries parse_occurrence d (map Ok names) = (os, []).
Proof. induction 1 as [|name o names os [Hx Hr] _ IH]; [done|]. simpl. by rewrite IH, Hx, Hr. Qed.

(** * Property *)

(** C25. What the agent files the tool finds: valid occurrences with distinct
    identifiers without a slash, whose documents can be read back, sent to the
    file sink over an empty directory, are loaded from it by the command line
    tool, each one once, without a warning and as it was sent, except that a
    float may differ in value and that data of null count as none. *)
Theorem filed_occurrences_are_loaded (os : list Occurrence) (dir : string) (w w' : W)
    (Hcodec : Forall readable os)
    (Hsent : file_send_all os dir w = (Ok tt, w')) (Hempty : fs_list dir w = [])
    (Hids : NoDup (map oc_id os)) (Hplain : Forall (fun o => plain (oc_id o)) os)
    (Hvalid : Forall (fun o => Occurrence_validate o = Ok tt) os) :
  exists os' occs, Forall2 reads_as os os' /\ Permutation os' occs /\
    load_occurrences parse_occurrence (dir_view dir w') = Ok (occs, []).
Proof.
  pose proof (file_sends_listing os dir w w' Hsent Hempty Hids Hplain) as Hl.
  pose proof (file_sends_store os dir w w' Hsent Hids) as Hst.
  assert (Hr : exists os', Forall2 reads_as os os' /\ Forall2 (fun name o => has_json_extension name = true /\
    read_occurrence_file parse_occurrence (dir_view dir w') name = Ok o) (map file_name os) os').
  { clear Hl Hsent Hids. induction os as [|o os IH]; [by exists []|].
    apply Forall_cons in Hplain as [Hp1 Hp2], Hvalid as [Hv1 Hv2], Hcodec as [Hc1 Hc2].
    apply Forall_cons in Hst as [(data & Hj & Hg) Hst]. destruct IH as (os' & Hos & Hread); [done..|].
    destruct (Hc1 data Hj) as (o' & Ho & Hra). exists (o' :: os'). split; [by constructor|]. constructor; [|done].
    split; [apply file_name_extension, Hp1|]. unfold read_occurrence_file. simpl. rewrite Hg. simpl. rewrite Ho. simpl.
    by rewrite (reads_as_valid _ _ Hra), Hv1. }
  destruct Hr as (os' & Hos & Hr). destruct (Permutation_Forall2 (Permutation_sym Hl) Hr) as (occs & Hp & Ha).
  exists os', occs. split; [exact Hos|]. split; [exact Hp|]. unfold load_occurrences. simpl.
  destruct (host_exists dir w') eqn:Ex; simpl; [by rewrite (load_entries_all _ _ _ Ha)|].
  destruct (fs_list dir w') as [|x l] eqn:El; [by inversion Ha|].
  rewrite fs_parent in Ex; [done|]. by rewrite El.
Qed.
End Archive.

(** * Witness: a file system in memory *)

Definition plain_name (name : string) : bool := negb (str_empty name) && negb (contains_char "/" name).

Lemma plain_name_spec (name : string) : plain_name name = true <-> plain name.
Proof. unfold plain_name, plain. destruct name; simpl; [naive_solver|]. destruct (_ || _); naive_solver. Qed.

Lemma strip_prefix_Some (s p r : string) : strip_prefix s p = Some r <-> s = p +:+ r.
Proof.
  split; [|intros ->; apply strip_prefix_app].
  revert s. induction p as [|b p IH]; intros s; [destruct s; by intros [= <-]|].
  destruct s as [|a s]; [done|]. simpl. destruct (Ascii.eqb_spec a b) as [->|]; [|done].
  intros E. by rewrite (IH s E).
Qed.

Definition memory_list (dir : string) (w : gmap string string) : list string :=
  List.filter plain_name (omap (fun p => strip_prefix p (path_join dir EmptyString)) (map_to_list w).*1).

#[export] Instance memory_host : Host (gmap string string) := {
  host_now := fun w => (0, w);
  host_stdout_write := fun _ w => (Ok tt, w);
  host_stdout_flush := fun w => (Ok tt, w);
  host_exists := fun _ _ => true;
  host_create_dir_all := fun _ w => (Ok tt, w);
  host_write_file := fun path data w => (Ok tt, <[path := data]> w);
}.

Lemma memory_list_spec (dir : string) (w : gmap string string) (name : string) :
  In name (memory_list dir w) <-> plain name /\ w !! path_join dir name <> None.
Proof.
  unfold memory_list. rewrite filter_In, plain_name_spec, <- list_elem_of_In, list_elem_of_omap.
  rewrite (path_join_prefix dir name). split.
  - intros [(p & Hin & Hs) Hp]. split; [done|]. apply strip_prefix_Some in Hs as ->.
    apply list_elem_of_fmap in Hin as ([p v] & -> & Hin). apply elem_of_map_to_list in Hin. simpl. congruence.
  - intros [Hp Hw]. split; [|done]. destruct (w !! _) as [v|] eqn:E; [|done].
    eexists. split; [|by apply strip_prefix_Some]. apply list_elem_of_fmap.
    exists (path_join dir EmptyString +:+ name, v). split; [done|]. by apply elem_of_map_to_list.
Qed.

Lemma memory_list_nodup (dir : string) (w : gmap string string) : NoDup (memory_list dir w).
Proof.
  unfold memory_list. apply NoDup_ListNoDup, List.NoDup_filter, NoDup_ListNoDup.
  pose proof (NoDup_fst_map_to_list w) as Hn. induction Hn as [|p l Hp Hn IH]; [constructor|]. simpl.
  destruct (strip_prefix p _) as [r|] eqn:Er; [|done]. constructor; [|done].
  rewrite list_elem_of_omap. intros (p' & Hin & Hp'). apply strip_prefix_Some in Er, Hp'. congruence.
Qed.

#[export, program] Instance memory_store : FileStore (gmap string string) := {
  fs_get := fun p w => w !! p;
  fs_list := memory_list;
}.
Next Obligation. intros path data w w' [= <-] p. case_decide; [subst; by rewrite lookup_insert_eq|by rewrite lookup_insert_ne]. Qed.
Next Obligation. done. Qed.
Next Obligation. apply memory_list_spec. Qed.
Next Obligation. apply memory_list_nodup. Qed.
Next Obligation. done. Qed.

(** Occurrences told apart by their identifiers, without data, with null and with
    a float, and a codec of just them that keeps neither the null nor the
    float's digits, and whose documents end in a brace. *)
Definition archived (id : string) (data : option json) : Occurrence :=
  let model := Occurrence_new_at id NETWORK_RETRANSMIT_SPIKE Warning Failure 0 in
  {| oc_id := id; oc_timestamp := oc_timestamp model; oc_source := oc_source model;
     oc_occurrence_type := oc_occurrence_type model; oc_severity := oc_severity model;
     oc_outcome := oc_outcome model; oc_protocol_version := oc_protocol_version model;
     oc_error := None; oc_context := None; oc_reasoning := None; oc_history := None; oc_data := data |}.

Definition half : f64 := f64_div (f64_of_Z 1) (f64_of_Z 2).

Definition toy_data (data : option json) : result string string :=
  match data with
  | None => Ok EmptyString
  | Some JNull => Ok ":null"
  | Some (JFloat _) => Ok ":0.5"
  | _ => Err "unsupported"
  end.

Definition toy_json (o : Occurrence) : result string string :=
  match oc_error o, oc_context o, oc_reasoning o, oc_history o with
  | None, None, None, None =>
      let model := archived EmptyString None in
      if decide (oc_timestamp o = oc_timestamp model /\ oc_source o = oc_source model /\
                 oc_occurrence_type o = oc_occurrence_type model /\ oc_severity o = oc_severity model /\
                 oc_outcome o = oc_outcome model /\ oc_protocol_version o = oc_protocol_version model)
      then
        if contains_char "}" (oc_id o) || contains_char ":" (oc_id o) then Err "unsupported"
        else rmap (fun data => oc_id o +:+ data +:+ "}") (toy_data (oc_data o))
      else Err "unsupported"
  | _, _, _, _ => Err "unsupported"
  end.

Definition toy_parse (s : string) : result Occurrence string :=
  match strip_suffix s "}" with
  | None => Err "no end"
  | Some body =>
      match rsplit_once ":" body with
      | None => Ok (archived body None)
      | Some (id, data) => Ok (archived id (if String.eqb data "null" then None else Some (JFloat half)))
      end
  end.

Lemma toy_json_Ok (o : Occurrence) (s : string) :
  toy_json o = Ok s -> o = archived (oc_id o) (oc_data o) /\
  contains_char "}" (oc_id o) = false /\ contains_char ":" (oc_id o) = false /\
  exists data, toy_data (oc_data o) = Ok data /\ s = oc_id o +:+ data +:+ "}".
Proof.
  destruct o as [id ts src ty sev out ver [] [] [] [] data]; try done.
  unfold toy_json. cbn [oc_error oc_context oc_reasoning oc_history oc_data oc_id]. case_decide as Hd; [|done].
  cbn in Hd. destruct Hd as (-> & -> & -> & -> & -> & ->).
  destruct (contains_char "}" id), (contains_char ":" id); try done. cbn [orb rmap].
  destruct (toy_data data) as [d|]; [|done]. cbn [rmap]. intros [= <-]. split; [reflexivity|]. do 2 (split; [done|]). by exists d.
Qed.

Lemma rsplit_once_absent (c : ascii) (s : string) : contains_char c s = false -> rsplit_once c s = None.
Proof.
  induction s as [|a s IH]; [done|]. simpl. intros [Ha Hs]%orb_false_iff. by rewrite (IH Hs), Ha.
Qed.

Lemma toy_readable (o : Occurrence) : readable toy_json toy_parse o.
Proof.
  intros s (Ho & _ & Hc & data & Hd & ->)%toy_json_Ok. unfold toy_parse. rewrite <- str_app_assoc, strip_suffix_app.
  assert (Hra : forall d, data_reads (oc_data o) d -> reads_as o (archived (oc_id o) d)).
  { intros d Hda. rewrite Ho. by constructor. }
  destruct (oc_data o) as [[]|] eqn:Eo; try done; injection Hd as <-.
  - change ":null" with (String ":" "null"). rewrite rsplit_once_app by done. eexists. split; [done|]. by apply Hra.
  - change ":0.5" with (String ":" "0.5"). rewrite rsplit_once_app by done. eexists. split; [done|]. by apply Hra.
  - rewrite str_app_nil_r, rsplit_once_absent by done. eexists. split; [done|]. by apply Hra.
Qed.

(** Three occurrences; the floats and the null come back as the codec has them. *)
Lemma filed_occurrences_are_loaded_witness :
  let os := [archived "b" None; archived "a" (Some JNull); archived "c" (Some (JFloat (f64_of_Z 3)))] in
  exists w os' occs,
    file_send_all toy_json os "data" ∅ = (Ok tt, w) /\ Forall2 reads_as os os' /\ Permutation os' occs /\
    load_occurrences toy_parse (dir_view "data" w) = Ok (occs, []).
Proof.
  cbv zeta. set (os := [archived "b" None; archived "a" (Some JNull); archived "c" (Some (JFloat (f64_of_Z 3)))]).
  assert (Hs : exists w, file_send_all toy_json os "data" ∅ = (Ok tt, w)) by (eexists; vm_compute; reflexivity).
  destruct Hs as [w Hs].
  destruct (filed_occurrences_are_loaded toy_json toy_parse os "data" ∅ w) as (os' & occs & Ho & Hp & Hl);
    [| | | | | |exact (ex_intro _ w (ex_intro _ os' (ex_intro _ occs (conj Hs (conj Ho (conj Hp Hl))))))].
  - do 3 (apply Forall_cons_2; [apply toy_readable|]). apply Forall_nil_2.
  - exact Hs.
  - reflexivity.
  - vm_compute. repeat constructor; rewrite ?list_elem_of_In; simpl; intuition discriminate.
  - do 3 (apply Forall_cons_2; [split; [discriminate|reflexivity]|]). apply Forall_nil_2.
  - do 3 (apply Forall_cons_2; [vm_compute; reflexivity|]). apply Forall_nil_2.
Defined.
