(* ===== verification/Watch.v ===== *)
(** [tapio watch] ([tapio-cli/src/main.rs]) beside the agent whose file sink
    ([tapio-agent/src/sink/file.rs]) fills the directory it looks at: two
    processes, with the writing of a file and the reading of a directory taken
    apart into the steps between which the other one runs.  A listing is taken at
    once: a file that appears while the directory is read is left to the next
    turn, as one whose listing fails is. *)
From Stdlib Require Import String Permutation.
From stdpp Require Import gmap.
From S2P Require Import Prelude RustStr Float64 Json Occurrence NetworkObs Sink Cli Archive.
Local Open Scope Z_scope.

(** Between two turns of the watch's loop, within one with the entries still to
    come and the new occurrences so far, or ended by a failure to print them,
    whose lines before the failure are not kept. *)
Inductive watch_phase :=
| WatchSleeps
| WatchLooks (entries : list (result string string)) (new_occs : list Occurrence)
| WatchEnded (e : cli_error) (unprinted : list Occurrence).

(** The files by their paths and whether the directory exists; the occurrence
    whose file the sink has open, with what is still to be written; the answers
    of the sink so far; and the watch with the names it has seen, the new
    occurrences of each turn it has finished and what it has put out, line by
    line. *)
Record Desk := {
  dk_files : gmap string string;
  dk_exists : bool;
  dk_writing : option (Occurrence * string);
  dk_answers : list (Occurrence * result unit SinkError);
  dk_watch : watch_phase;
  dk_seen : list string;
  dk_printed : list (list Occurrence);
  dk_lines : list string;
  dk_warnings : list string;
}.

(** What can happen next.  The agent: a call of [send] up to the opening of the
    file, which empties it, with the error of the directory's creation if there
    is one; the writing of some bytes more, with the answer after the last; a
    failure to write.  The watch: a turn starts with the listing of the
    directory, which may fail; an entry is looked at; the new occurrences are
    printed. *)
Inductive desk_event :=
| SinkOpens (o : Occurrence) (no_dir : option string)
| SinkWrites (bytes : nat)
| SinkFails (e : string)
| WatchLists
| WatchCannotList (e : string)
| WatchReads
| WatchPrints.

Definition with_files (files : gmap string string) (writing : option (Occurrence * string))
    (answers : list (Occurrence * result unit SinkError)) (k : Desk) : Desk := {|
  dk_files := files; dk_exists := true; dk_writing := writing; dk_answers := answers; dk_watch := dk_watch k;
  dk_seen := dk_seen k; dk_printed := dk_printed k; dk_lines := dk_lines k; dk_warnings := dk_warnings k |}.

Definition with_watch (phase : watch_phase) (seen : list string) (printed : list (list Occurrence))
    (lines warnings : list string) (k : Desk) : Desk := {|
  dk_files := dk_files k; dk_exists := dk_exists k; dk_writing := dk_writing k; dk_answers := dk_answers k;
  dk_watch := phase; dk_seen := seen; dk_printed := dk_printed k ++ printed;
  dk_lines := dk_lines k ++ lines; dk_warnings := dk_warnings k ++ warnings |}.

(** A call of [send] that has no file to show for it. *)
Definition refuse (exists_ : bool) (o : Occurrence) (e : SinkError) (k : Desk) : Desk := {|
  dk_files := dk_files k; dk_exists := exists_; dk_writing := None; dk_answers := dk_answers k ++ [(o, Err e)];
  dk_watch := dk_watch k;
  dk_seen := dk_seen k; dk_printed := dk_printed k; dk_lines := dk_lines k; dk_warnings := dk_warnings k |}.

Section Watch.
Variable to_json_pretty : Occurrence -> result string string.
Variable parse_occurrence : string -> result Occurrence string.
Variable occurrence_json : Occurrence -> result string string.
Variable dir : string.
Variable json : bool.
Variable filters : list string.

Definition file_path (o : Occurrence) : string := path_join dir (file_name o).

(** The directory as the watch finds it. *)
Definition desk_dir (k : Desk) : Dir := {|
  dir_path := dir; dir_exists := dk_exists k; dir_entries := Ok (map Ok (memory_list dir (dk_files k)));
  dir_read := fun name => ok_or (dk_files k !! path_join dir name) "No such file or directory" |}.

Definition desk_step (k : Desk) (e : desk_event) : option Desk :=
  match e, dk_writing k, dk_watch k with
  | SinkOpens o no_dir, None, _ =>
      Some (match dk_exists k, no_dir with
            | false, Some e => refuse false o (Io e) k
            | _, _ =>
                match to_json_pretty o with
                | Err e => refuse true o (Serialization e) k
                | Ok data =>
                    let files := <[file_path o := EmptyString]> (dk_files k) in
                    if str_empty data then with_files files None (dk_answers k ++ [(o, Ok tt)]) k
                    else with_files files (Some (o, data)) (dk_answers k) k
                end
            end)
  | SinkWrites n, Some (o, more), _ =>
      let files := <[file_path o := default EmptyString (dk_files k !! file_path o) +:+ str_take n more]> (dk_files k) in
      Some (if str_empty (str_drop n more) then with_files files None (dk_answers k ++ [(o, Ok tt)]) k
            else with_files files (Some (o, str_drop n more)) (dk_answers k) k)
  | SinkFails e, Some (o, _), _ => Some (with_files (dk_files k) None (dk_answers k ++ [(o, Err (Io e))]) k)
  | WatchLists, _, WatchSleeps =>
      Some (if dk_exists k then with_watch (WatchLooks (map Ok (memory_list dir (dk_files k))) []) (dk_seen k) [] [] [] k
            else k)
  | WatchCannotList e, _, WatchSleeps =>
      Some (with_watch WatchSleeps (dk_seen k) [] [] ["warning: failed to read " +:+ dir +:+ ": " +:+ e] k)
  | WatchReads, _, WatchLooks (entry :: rest) new_occs =>
      let '(seen, occ, warning) := watch_entry parse_occurrence (desk_dir k) entry (dk_seen k) in
      Some (with_watch (WatchLooks rest (new_occs ++ match occ with Some o => [o] | None => [] end)) seen [] [] warning k)
  | WatchPrints, _, WatchLooks [] new_occs =>
      Some (match watch_output occurrence_json json filters new_occs with
            | Ok lines => with_watch WatchSleeps (dk_seen k) [new_occs] lines [] k
            | Err e => with_watch (WatchEnded e new_occs) (dk_seen k) [] [] [] k
            end)
  | _, _, _ => None
  end.

Fixpoint desk_run (k : Desk) (evs : list desk_event) : option Desk :=
  match evs with
  | [] => Some k
  | e :: rest => match desk_step k e with Some k' => desk_run k' rest | None => None end
  end.

(** The watch starts over the files there are: their names count as seen. *)
Definition desk_start (files : gmap string string) (exists_ : bool) : Desk := {|
  dk_files := files; dk_exists := exists_; dk_writing := None; dk_answers := [];
  dk_watch := WatchSleeps; dk_seen := if exists_ then memory_list dir files else [];
  dk_printed := []; dk_lines := []; dk_warnings := [] |}.

(** What the turns show: of the new occurrences of each those that match the
    filters, oldest first. *)
Definition shown_of (turns : list (list Occurrence)) : list Occurrence :=
  concat (map (fun new_occs => List.filter (fun o => matches_filter o filters) (sort_by oldest_first new_occs)) turns).

Definition shown (k : Desk) : list Occurrence := shown_of (dk_printed k).

(** The occurrences the sink was called with. *)
Definition sends (evs : list desk_event) : list Occurrence :=
  omap (fun e => match e with SinkOpens o _ => Some o | _ => None end) evs.

(** The occurrences read so far. *)
Definition read_so_far (k : Desk) : list Occurrence :=
  concat (dk_printed k) ++ match dk_watch k with
                           | WatchLooks _ new_occs | WatchEnded _ new_occs => new_occs
                           | WatchSleeps => []
                           end.

(** Its document was read, as the parser has it. *)
Definition was_read (o : Occurrence) (k : Desk) : Prop := exists x, reads_as o x /\ In x (read_so_far k).

Definition skipped (o : Occurrence) (k : Desk) : Prop :=
  exists e, In ("warning: skipped " +:+ file_path o +:+ ": " +:+ e) (dk_warnings k).

(** * Lemmas *)

(** ** The steps and the whole *)

Lemma desk_run_app (evs evs' : list desk_event) (k : Desk) :
  desk_run k (evs ++ evs') = match desk_run k evs with Some k' => desk_run k' evs' | None => None end.
Proof. revert k. induction evs as [|e evs IH]; intros k; simpl; [done|]. by destruct (desk_step k e). Qed.

(** A call of [send], undisturbed, is that of the file sink. *)
Lemma send_by_steps (o : Occurrence) (k : Desk) :
  dk_writing k = None ->
  let '(r, _, w) := file_send to_json_pretty o dir (dk_files k) in
  exists evs k', desk_run k evs = Some k' /\ dk_writing k' = None /\ dk_answers k' = dk_answers k ++ [(o, r)] /\
    dk_files k' = w /\ dk_watch k' = dk_watch k.
Proof.
  intros Hw. unfold file_send, ensure_dir. simpl. destruct (to_json_pretty o) as [data|e] eqn:Ej.
  - assert (Hs : desk_run k [SinkOpens o None] = Some
      (let files := <[file_path o := EmptyString]> (dk_files k) in
       if str_empty data then with_files files None (dk_answers k ++ [(o, Ok tt)]) k
       else with_files files (Some (o, data)) (dk_answers k) k)).
    { simpl. rewrite Hw, Ej. by destruct (dk_exists k). }
    destruct (str_empty data) eqn:Ed.
    { exists [SinkOpens o None]. eexists. split; [exact Hs|]. repeat split. by destruct data. }
    exists ([SinkOpens o None] ++ [SinkWrites (String.length data)]).
    eexists. rewrite desk_run_app, Hs. simpl. rewrite str_drop_all, str_take_all, lookup_insert_eq, insert_insert_eq. simpl.
    by repeat split.
  - exists [SinkOpens o None], (refuse true o (Serialization e) k). simpl. rewrite Hw, Ej.
    split; [by destruct (dk_exists k)|]. by repeat split.
Qed.

Lemma entries_by_steps (entries : list (result string string)) (news : list Occurrence) (k : Desk) :
  dk_watch k = WatchLooks entries news ->
  let '(seen, occs, warnings) := watch_entries parse_occurrence (desk_dir k) entries (dk_seen k) in
  desk_run k (replicate (length entries) WatchReads) =
    Some (with_watch (WatchLooks [] (news ++ occs)) seen [] [] warnings k).
Proof.
  revert news k. induction entries as [|entry rest IH]; intros news k Hw; simpl.
  { rewrite app_nil_r. f_equal. destruct k. simpl in *. subst. unfold with_watch. simpl. by rewrite !app_nil_r. }
  rewrite Hw. destruct (watch_entry _ _ entry (dk_seen k)) as [[seen occ] warning].
  specialize (IH _ (with_watch (WatchLooks rest (news ++ match occ with Some o => [o] | None => [] end)) seen [] [] warning k)
    eq_refl).
  change (desk_dir (with_watch _ _ _ _ _ k)) with (desk_dir k) in IH. cbn [with_watch dk_seen] in IH.
  destruct (watch_entries _ _ rest seen) as [[seen' occs] warnings]. rewrite IH. f_equal. unfold with_watch. simpl.
  rewrite !app_nil_r, <- !app_assoc. by destruct occ.
Qed.

(** A turn, undisturbed, is that of the watch. *)
Lemma watch_turn_by_steps (k : Desk) (seen ls warnings : list string) :
  dk_watch k = WatchSleeps ->
  watch_turn parse_occurrence occurrence_json (desk_dir k) json filters (dk_seen k) = (Ok (seen, ls), warnings) ->
  exists evs k', desk_run k evs = Some k' /\ dk_watch k' = WatchSleeps /\ dk_seen k' = seen /\
    dk_lines k' = dk_lines k ++ ls /\ dk_warnings k' = dk_warnings k ++ warnings /\ dk_files k' = dk_files k.
Proof.
  intros Hw. unfold watch_turn. cbn [desk_dir dir_exists dir_entries]. destruct (dk_exists k) eqn:Ex; simpl.
  - set (entries := map Ok (memory_list dir (dk_files k))).
    set (k1 := with_watch (WatchLooks entries []) (dk_seen k) [] [] [] k).
    pose proof (entries_by_steps entries [] k1 eq_refl) as He.
    change (desk_dir k1) with (desk_dir k) in He. change (dk_seen k1) with (dk_seen k) in He.
    destruct (watch_entries _ _ entries (dk_seen k)) as [[seen' occs] warnings'].
    destruct (watch_output _ _ _ occs) as [lines|e] eqn:El; [|done]. simpl. intros [= <- <- <-].
    exists ([WatchLists] ++ replicate (length entries) WatchReads ++ [WatchPrints]). eexists.
    rewrite desk_run_app. simpl. rewrite Hw, Ex. fold entries. fold k1. rewrite desk_run_app, He. simpl. rewrite El.
    split; [done|]. simpl. by rewrite !app_nil_r.
  - intros [= <- <- <-]. exists [], k. by rewrite !app_nil_r.
Qed.

(** ** The invariant *)

(** A document that is cut short is not one. *)
Hypothesis Hcut : forall o data b t, to_json_pretty o = Ok data -> b +:+ t = data -> t <> EmptyString ->
  is_ok (parse_occurrence b) = false.

Section Invariant.
(** The names there are at the start. *)
Variable old : list string.

Definition fine (o : Occurrence) : Prop :=
  readable to_json_pretty parse_occurrence o /\ plain (oc_id o) /\ Occurrence_validate o = Ok tt /\
  ~ In (file_name o) old.

(** What is in the file of an occurrence: nothing yet, a part of the document,
    or the document once the sink has answered. *)
Definition file_state (o : Occurrence) (k : Desk) : Prop :=
  match dk_files k !! file_path o with
  | None => True
  | Some b => exists data t, to_json_pretty o = Ok data /\ b +:+ t = data /\
      (t = EmptyString -> In (o, Ok tt) (dk_answers k)) /\
      (forall o' more, dk_writing k = Some (o', more) -> o' = o -> t = more)
  end.

Record desk_inv (os : list Occurrence) (k : Desk) : Prop := {
  di_lines : write_all occurrence_json (shown k) json = Ok (dk_lines k);
  di_known : forall o r, In (o, r) (dk_answers k) -> In o os;
  di_files : forall o, In o os -> file_state o k;
  di_open : forall o more, dk_writing k = Some (o, more) ->
    In o os /\ more <> EmptyString /\ is_Some (dk_files k !! file_path o) /\ ~ In (o, Ok tt) (dk_answers k);
  di_filed : forall o, In (o, Ok tt) (dk_answers k) ->
    exists data, to_json_pretty o = Ok data /\ dk_files k !! file_path o = Some data;
  di_names : forall name, plain name -> is_Some (dk_files k !! path_join dir name) ->
    In name old \/ exists o, In o os /\ name = file_name o;
  di_old : incl old (dk_seen k);
  di_seen : forall name, In name (dk_seen k) -> In name old \/ exists o, In o os /\ name = file_name o;
  di_exists : forall o, In (o, Ok tt) (dk_answers k) -> dk_exists k = true;
  di_entries : match dk_watch k with
    | WatchLooks entries _ => exists names, entries = map Ok names /\
        Forall (fun name => plain name /\ is_Some (dk_files k !! path_join dir name)) names
    | _ => True
    end;
  di_distinct : NoDup (map oc_id (read_so_far k));
  di_read : forall x, In x (read_so_far k) ->
    (exists o, In (o, Ok tt) (dk_answers k) /\ reads_as o x) /\ In (file_name x) (dk_seen k);
  di_told : forall o, In o os -> In (file_name o) (dk_seen k) -> was_read o k \/ skipped o k;
}.

Definition good (os : list Occurrence) : Prop := NoDup (map oc_id os) /\ forall o, In o os -> fine o.

Lemma same_name (os : list Occurrence) (o o' : Occurrence) :
  good os -> In o os -> In o' os -> file_name o = file_name o' -> o = o'.
Proof.
  intros [Hn _] Ho Ho' E%file_name_inj. induction os as [|x os IH]; [done|]. simpl in Hn.
  apply NoDup_cons in Hn as [Hx Hn]. rewrite list_elem_of_In in Hx.
  destruct Ho as [->|Ho], Ho' as [->|Ho']; [done| | |auto]; destruct Hx; [rewrite E|rewrite <- E]; by apply in_map.
Qed.

Lemma same_path (os : list Occurrence) (o o' : Occurrence) :
  good os -> In o os -> In o' os -> file_path o = file_path o' -> o = o'.
Proof. intros Hg Ho Ho' E%path_join_inj. by eapply same_name. Qed.

(** A call with an occurrence that is new. *)
Lemma new_name (os : list Occurrence) (o o' : Occurrence) : good (os ++ [o]) -> In o' os -> file_name o' <> file_name o.
Proof.
  intros [Hn _] Ho' E%file_name_inj. rewrite map_app, NoDup_app in Hn. destruct Hn as (_ & Hn & _).
  apply (Hn (oc_id o')); [apply list_elem_of_In; by apply in_map|]. apply list_elem_of_In. simpl. auto.
Qed.

Lemma new_inv (os : list Occurrence) (o : Occurrence) (k : Desk) :
  good (os ++ [o]) -> desk_inv os k ->
  desk_inv (os ++ [o]) k /\ dk_files k !! file_path o = None /\ (forall r, ~ In (o, r) (dk_answers k)).
Proof.
  intros Hg [H1 H2 H3 H4 H5 H6 H7 H8 Hex H9 H10 H11 H12].
  assert (Hin : forall x, In x os -> In x (os ++ [o])) by (intros x Hx; apply in_or_app; by left).
  assert (Hfine : fine o) by (apply Hg, in_or_app; right; by left).
  assert (Hfree : dk_files k !! file_path o = None).
  { destruct (dk_files k !! file_path o) eqn:E; [|done].
    destruct (H6 (file_name o)) as [Ho|(o' & Ho' & En)];
      [apply file_name_plain, Hfine|by eexists|by destruct Hfine as (_ & _ & _ & [])|].
    by destruct (new_name os o o' Hg Ho'). }
  split; [|split; [done|]].
  - constructor; try done.
    + eauto.
    + intros x [Hx|[<-|[]]]%in_app_or; [by apply H3|]. unfold file_state. by rewrite Hfree.
    + intros x more Hx. destruct (H4 x more Hx) as (Hx1 & Hx2). auto.
    + intros name Hp Hs. destruct (H6 name Hp Hs) as [|(x & Hx & ->)]; eauto.
    + intros name Hs. destruct (H8 name Hs) as [|(x & Hx & ->)]; eauto.
    + intros x [Hx|[<-|[]]]%in_app_or Hs; [by apply H12|]. exfalso.
      destruct (H8 _ Hs) as [Ho|(o' & Ho' & En)]; [by destruct Hfine as (_ & _ & _ & [])|].
      by destruct (new_name os o o' Hg Ho').
  - intros r Hr. by destruct (new_name os o o Hg (H2 _ _ Hr)).
Qed.

(** More of a document in its file, or the whole of it and the answer. *)
Lemma put_inv (os : list Occurrence) (o : Occurrence) (data b t : string) (k : Desk) :
  good os -> desk_inv os k -> In o os -> to_json_pretty o = Ok data -> b +:+ t = data ->
  ~ In (o, Ok tt) (dk_answers k) -> (forall o' m, dk_writing k = Some (o', m) -> o' = o) ->
  desk_inv os (with_files (<[file_path o := b]> (dk_files k)) (if str_empty t then None else Some (o, t))
                 (if str_empty t then dk_answers k ++ [(o, Ok tt)] else dk_answers k) k).
Proof.
  intros Hg [H1 H2 H3 H4 H5 H6 H7 H8 Hex H9 H10 H11 H12] Ho Hd Hb Hun Hw.
  set (files := <[file_path o := b]> (dk_files k)). set (answers := if str_empty t then _ else dk_answers k).
  assert (Ha : forall x r, In (x, r) answers -> In (x, r) (dk_answers k) \/ (x = o /\ r = Ok tt /\ t = EmptyString)).
  { intros x r. unfold answers. destruct t as [|a t]; simpl; [|auto]. intros [Hx|[[= <- <-]|[]]]%in_app_or; auto. }
  assert (Hmore : forall x, In x (dk_answers k) -> In x answers).
  { intros x Hx. unfold answers. destruct (str_empty t); [apply in_or_app|]; auto. }
  assert (Hsome : forall p, is_Some (dk_files k !! p) -> is_Some (files !! p)).
  { intros p Hp. unfold files. destruct (decide (file_path o = p)) as [->|];
      [rewrite lookup_insert_eq|rewrite lookup_insert_ne]; eauto. }
  assert (Hother : forall x, In x os -> x <> o -> files !! file_path x = dk_files k !! file_path x).
  { intros x Hx Hne. unfold files. apply lookup_insert_ne. intros E. destruct Hne. symmetry. by apply (same_path os). }
  assert (Hself : files !! file_path o = Some b) by apply lookup_insert_eq.
  constructor; try done.
  - intros x r [Hx|(-> & _)]%Ha; eauto.
  - intros x Hx. unfold file_state. cbn [with_files dk_files dk_answers dk_writing].
    fold files answers. destruct (decide (file_name x = file_name o)) as [E|E].
    + rewrite (same_name os x o Hg Hx Ho E), Hself. exists data, t. do 2 (split; [done|]). split.
      * intros ->. unfold answers. simpl. apply in_or_app. right. by left.
      * intros o' m. destruct (str_empty t); [done|]. by intros [= <- <-].
    + assert (Hne : x <> o) by congruence. rewrite Hother by done. specialize (H3 x Hx). unfold file_state in H3.
      destruct (dk_files k !! file_path x) as [b'|]; [|done]. destruct H3 as (data' & t' & Hd' & Hb' & Ht' & _).
      exists data', t'. do 2 (split; [done|]). split; [auto|]. intros o' m. destruct (str_empty t); [done|].
      intros [= <- <-] <-. done.
  - intros x m. cbn [with_files dk_writing]. destruct t as [|a t]; [done|]. intros [= <- <-].
    repeat split; [done|done|by eexists|done].
  - intros x [Hx|(-> & _ & ->)]%Ha; cbn [with_files dk_files]; fold files.
    + rewrite Hother; [by apply H5|by eapply H2|by intros ->].
    + exists data. split; [done|]. by rewrite Hself, <- (str_app_nil_r b), Hb.
  - intros name Hp Hs. destruct (decide (file_path o = path_join dir name)) as [E%path_join_inj|E]; [eauto|].
    apply H6; [done|]. cbn [with_files dk_files] in Hs. unfold files in Hs. by rewrite lookup_insert_ne in Hs.
  - cbn [with_files dk_watch dk_files]. destruct (dk_watch k); try done. destruct H9 as (names & -> & Hn).
    exists names. split; [done|]. eapply Forall_impl; [exact Hn|]. intros name [Hp Hs]. auto.
  - intros x Hx. destruct (H11 x Hx) as [(o' & Ho' & Hra) Hs]. split; [by exists o'; auto|done].
Qed.

(** A call that fails, before its file or with a part of it written. *)
Lemma failed_inv (os : list Occurrence) (o : Occurrence) (e : SinkError) (ex : bool) (k : Desk) :
  desk_inv os k -> In o os -> (dk_exists k = true -> ex = true) -> desk_inv os (refuse ex o e k).
Proof.
  intros [H1 H2 H3 H4 H5 H6 H7 H8 Hex H9 H10 H11 H12] Ho He.
  assert (Ha : forall x, In (x, Ok tt) (dk_answers k ++ [(o, Err e)]) -> In (x, Ok tt) (dk_answers k))
    by (intros x [Hx|[Hx|[]]]%in_app_or; [done|discriminate]).
  constructor; try done.
  - intros x r [Hx|[[= <- <-]|[]]]%in_app_or; [eauto|done].
  - intros x Hx. specialize (H3 x Hx). unfold file_state in *. cbn [refuse dk_files dk_answers dk_writing].
    destruct (dk_files k !! file_path x); [|done]. destruct H3 as (data & t & Hd & Hb & Ht & _).
    exists data, t. split; [done|]. split; [done|]. split; [|done]. intros E. apply in_or_app. auto.
  - intros x Hx%Ha. by apply H5.
  - intros x Hx%Ha. by eapply He, Hex.
  - intros x Hx. destruct (H11 x Hx) as [(o' & Ho' & Hra) Hs]. split; [|done].
    exists o'. split; [apply in_or_app; by left|done].
Qed.

Lemma sink_step_inv (os : list Occurrence) (k k' : Desk) (e : desk_event) :
  good (os ++ sends [e]) -> desk_inv os k ->
  match e with SinkOpens _ _ | SinkWrites _ | SinkFails _ => True | _ => False end ->
  desk_step k e = Some k' -> desk_inv (os ++ sends [e]) k'.
Proof.
  intros Hg Hi He. destruct e as [o no_dir|n|e| | | |]; try done; simpl in *; rewrite ?app_nil_r in *.
  - destruct (dk_writing k) as [|] eqn:Ew; [done|]. intros [= <-].
    destruct (new_inv os o k Hg Hi) as (Hi' & Hfree & Hun).
    assert (Ho : In o (os ++ [o])) by (apply in_or_app; right; by left).
    assert (Hopen : desk_inv (os ++ [o]) match to_json_pretty o with
      | Err e => refuse true o (Serialization e) k
      | Ok data =>
          let files := <[file_path o := EmptyString]> (dk_files k) in
          if str_empty data then with_files files None (dk_answers k ++ [(o, Ok tt)]) k
          else with_files files (Some (o, data)) (dk_answers k) k
      end).
    { destruct (to_json_pretty o) as [data|e] eqn:Ej; [|by apply failed_inv].
      pose proof (put_inv (os ++ [o]) o data EmptyString data k Hg Hi' Ho Ej eq_refl (Hun _)
        ltac:(intros ? ? E; by rewrite Ew in E)) as Hp. by destruct data. }
    destruct (dk_exists k) eqn:Ek, no_dir; try exact Hopen. apply failed_inv; [done|done|by rewrite Ek].
  - destruct (dk_writing k) as [[o more]|] eqn:Ew; [|done]. intros [= <-].
    destruct (di_open _ _ Hi o more Ew) as (Ho & Hmore & [b Hb] & Hun).
    pose proof (di_files _ _ Hi o Ho) as Hf. unfold file_state in Hf. rewrite Hb in *.
    destruct Hf as (data & t & Hd & Hbt & _ & Ht). rewrite (Ht o more Ew eq_refl) in Hbt.
    pose proof (put_inv os o data (b +:+ str_take n more) (str_drop n more) k Hg Hi Ho Hd
      ltac:(rewrite str_app_assoc, str_take_drop; exact Hbt) Hun ltac:(intros ? ? E; rewrite Ew in E; congruence)) as Hp.
    cbn [default from_option]. by destruct (str_empty (str_drop n more)).
  - destruct (dk_writing k) as [[o more]|] eqn:Ew; [|done]. intros [= <-].
    destruct (di_open _ _ Hi o more Ew) as (Ho & _).
    pose proof (failed_inv os o (Io e) (dk_exists k) k Hi Ho ltac:(done)) as [H1 H2 H3 H4 H5 H6 H7 H8 Hex H9 H10 H11 H12].
    by constructor.
Qed.
(** What a turn reads of an entry. *)
Lemma entry_inv (os : list Occurrence) (name : string) (rest : list (result string string)) (news : list Occurrence)
    (k : Desk) :
  good os -> desk_inv os k -> dk_watch k = WatchLooks (Ok name :: rest) news ->
  let '(seen, occ, warning) := watch_entry parse_occurrence (desk_dir k) (Ok name) (dk_seen k) in
  In name seen /\ incl (dk_seen k) seen /\
  ((seen = dk_seen k /\ occ = None /\ warning = []) \/
   exists o, In o os /\ name = file_name o /\ ~ In name (dk_seen k) /\ seen = name :: dk_seen k /\
     (((exists x, occ = Some x /\ reads_as o x) /\ In (o, Ok tt) (dk_answers k) /\ warning = []) \/
      (occ = None /\ exists e, warning = ["warning: skipped " +:+ file_path o +:+ ": " +:+ e]))).
Proof.
  intros Hg Hi Hw. unfold watch_entry. destruct (existsb (String.eqb name) (dk_seen k)) eqn:Es.
  { apply existsb_exists in Es as (x & Hx & ->%String.eqb_eq). split; [done|]. split; [apply incl_refl|by left]. }
  assert (Hns : ~ In name (dk_seen k)).
  { intros Hs. rewrite (proj2 (existsb_exists _ _)) in Es; [done|]. exists name. by rewrite String.eqb_refl. }
  pose proof (di_entries _ _ Hi) as He. rewrite Hw in He. destruct He as (names & E & Hn).
  destruct names as [|name' names]; [done|]. injection E as <- Erest. apply Forall_cons in Hn as [[Hp [b Hb]] _].
  destruct (di_names _ _ Hi name Hp ltac:(by eexists)) as [Ho|(o & Ho & ->)]; [by destruct Hns; apply (di_old _ _ Hi)|].
  destruct (proj2 Hg o Ho) as (Hcodec & Hpl & Hv & _). rewrite file_name_extension by apply Hpl.
  pose proof (di_files _ _ Hi o Ho) as Hf. unfold file_state, file_path in Hf. rewrite Hb in Hf.
  destruct Hf as (data & t & Hd & Hbt & Hdone & _).
  assert (Hread : match read_occurrence_file parse_occurrence (desk_dir k) (file_name o) with
                  | Ok x => reads_as o x /\ t = EmptyString | Err _ => True end).
  { unfold read_occurrence_file. cbn [desk_dir dir_read]. rewrite Hb. cbn [ok_or map_err rbind].
    destruct (string_dec t EmptyString) as [->|Hne].
    - rewrite str_app_nil_r in Hbt. subst b. destruct (Hcodec data Hd) as (x & -> & Hra). cbn [map_err rbind].
      by rewrite (reads_as_valid _ _ Hra), Hv.
    - pose proof (Hcut o data b t Hd Hbt Hne). by destruct (parse_occurrence b). }
  destruct (read_occurrence_file _ _ _) as [x|e]; (split; [by left|]); (split; [by right|]); right; exists o;
    do 4 (split; [done|]).
  - left. destruct Hread as [Hra Ht]. split; [by exists x|auto].
  - right. split; [done|]. by exists e.
Qed.

Lemma write_all_app (occs occs' : list Occurrence) (ls ls' : list string) :
  write_all occurrence_json occs json = Ok ls -> write_all occurrence_json occs' json = Ok ls' ->
  write_all occurrence_json (occs ++ occs') json = Ok (ls ++ ls').
Proof.
  intros Ho Ho'. revert ls Ho. induction occs as [|x occs IH]; intros ls; simpl; [by intros [= <-]|].
  destruct (write_occurrence _ x json) as [l1|]; [|done]. simpl.
  destruct (write_all _ occs json) as [l2|]; [|done]. simpl. intros [= <-]. rewrite (IH l2 eq_refl). simpl.
  by rewrite app_assoc.
Qed.

(** Steps of the watch that read nothing. *)
Lemma idle_inv (os : list Occurrence) (phase : watch_phase) (printed : list (list Occurrence)) (lines warnings : list string)
    (k : Desk) :
  desk_inv os k -> write_all occurrence_json (shown_of (dk_printed k ++ printed)) json = Ok (dk_lines k ++ lines) ->
  match phase with
  | WatchLooks entries _ => exists names, entries = map Ok names /\
      Forall (fun name => plain name /\ is_Some (dk_files k !! path_join dir name)) names
  | _ => True
  end ->
  read_so_far (with_watch phase (dk_seen k) printed lines warnings k) = read_so_far k ->
  desk_inv os (with_watch phase (dk_seen k) printed lines warnings k).
Proof.
  intros [H1 H2 H3 H4 H5 H6 H7 H8 Hex H9 H10 H11 H12] Hl He Hr. constructor; rewrite ?Hr; try done.
  intros o Ho Hs. unfold was_read. rewrite Hr. destruct (H12 o Ho Hs) as [|[e Hin]]; [by left|right].
  exists e. apply in_or_app. by left.
Qed.

Lemma reads_inv (os : list Occurrence) (entry : result string string) (rest : list (result string string))
    (news : list Occurrence) (k : Desk) :
  good os -> desk_inv os k -> dk_watch k = WatchLooks (entry :: rest) news ->
  let '(seen, occ, warning) := watch_entry parse_occurrence (desk_dir k) entry (dk_seen k) in
  desk_inv os (with_watch (WatchLooks rest (news ++ match occ with Some o => [o] | None => [] end)) seen [] [] warning k).
Proof.
  intros Hg Hi Hw. pose proof (di_entries _ _ Hi) as He. rewrite Hw in He. destruct He as ([|name names] & E & Hn); [done|].
  injection E as -> ->. apply Forall_cons in Hn as [_ Hn]. pose proof (entry_inv os name _ news k Hg Hi Hw) as Hx.
  destruct (watch_entry _ _ _ _) as [[seen occ] warning]. destruct Hx as (_ & Hseen & Hx).
  set (k' := with_watch _ _ _ _ _ k).
  assert (Hr : read_so_far k' = read_so_far k ++ match occ with Some o => [o] | None => [] end).
  { unfold read_so_far, k'. rewrite Hw. simpl. by rewrite app_nil_r, app_assoc. }
  destruct Hi as [H1 H2 H3 H4 H5 H6 H7 H8 Hex H9 H10 H11 H12].
  assert (Hold : forall x, In x (read_so_far k) ->
    (exists o, In (o, Ok tt) (dk_answers k) /\ reads_as o x) /\ In (file_name x) seen)
    by (intros x Hx'; destruct (H11 x Hx'); auto).
  assert (Htold : forall o, In o os -> In (file_name o) (dk_seen k) -> was_read o k' \/ skipped o k').
  { intros o Ho Hs. destruct (H12 o Ho Hs) as [(x & Hra & Hin)|[e Hin]]; [left|right].
    - exists x. split; [done|]. rewrite Hr. apply in_or_app. by left.
    - exists e. apply in_or_app. by left. }
  assert (Hbase : write_all occurrence_json (shown_of (dk_printed k ++ [])) json = Ok (dk_lines k ++ []))
    by (by rewrite !app_nil_r).
  assert (Hent : exists names', map (@Ok _ string) names = map Ok names' /\
    Forall (fun name => plain name /\ is_Some (dk_files k !! path_join dir name)) names') by eauto.
  destruct Hx as [(-> & -> & ->)|(o & Ho & -> & Hns & -> & Hocc)].
  { rewrite app_nil_r in Hr. constructor; rewrite ?Hr; done. }
  assert (Hseen' : forall name, In name (file_name o :: dk_seen k) -> In name old \/ exists o, In o os /\ name = file_name o)
    by (intros name [<-|Hs]; eauto).
  assert (Hincl : incl old (file_name o :: dk_seen k)) by (intros x Hx; right; auto).
  destruct Hocc as [((x & -> & Hra) & Ha & ->)|(-> & e & ->)].
  - constructor; rewrite ?Hr; try done.
    + rewrite map_app. apply NoDup_app. split; [done|]. split; [|apply NoDup_singleton].
      intros id (y & -> & Hy)%list_elem_of_fmap Eid%list_elem_of_singleton. apply list_elem_of_In in Hy.
      destruct (H11 y Hy) as [_ Hsy]. destruct Hns. unfold file_name. by rewrite <- (ra_id _ _ Hra), <- Eid.
    + intros y [Hy|[<-|[]]]%in_app_or; [by apply Hold|]. split; [by exists o|]. left. symmetry. by apply reads_as_name.
    + intros y Hy [E|Hs]; [|by apply Htold]. left. rewrite (same_name os y o) by done.
      exists x. split; [done|]. rewrite Hr. apply in_or_app. right. by left.
  - constructor; rewrite ?Hr, ?app_nil_r; try done.
    intros y Hy [E|Hs]; [|by apply Htold]. right.
    rewrite (same_name os y o) by done. exists e. apply in_or_app. right. by left.
Qed.

Lemma watch_step_inv (os : list Occurrence) (k k' : Desk) (e : desk_event) :
  good os -> desk_inv os k ->
  match e with SinkOpens _ _ | SinkWrites _ | SinkFails _ => False | _ => True end ->
  desk_step k e = Some k' -> desk_inv os k'.
Proof.
  intros Hg Hi He Hs. destruct e as [o no_dir|n|e| |e| |]; try done; simpl in Hs.
  - destruct (dk_watch k) eqn:Ew; try done. injection Hs as <-. destruct (dk_exists k); [|done].
    apply idle_inv; try done.
    + rewrite !app_nil_r. apply Hi.
    + exists (memory_list dir (dk_files k)). split; [done|]. apply Forall_forall. intros name Hn%list_elem_of_In.
      apply memory_list_spec in Hn as [Hp Hn]. split; [done|]. destruct (dk_files k !! _); [by eexists|done].
    + unfold read_so_far. rewrite Ew. simpl. by rewrite !app_nil_r.
  - destruct (dk_watch k) eqn:Ew; try done. injection Hs as <-. apply idle_inv; try done.
    + rewrite !app_nil_r. apply Hi.
    + unfold read_so_far. rewrite Ew. simpl. by rewrite !app_nil_r.
  - destruct (dk_watch k) as [|[|entry rest] news|] eqn:Ew; try done.
    pose proof (reads_inv os entry rest news k Hg Hi Ew) as Hr. destruct (watch_entry _ _ _ _) as [[seen occ] warning].
    by injection Hs as <-.
  - destruct (dk_watch k) as [|[|entry rest] news|] eqn:Ew; try done.
    destruct (watch_output _ _ _ news) as [lines|e] eqn:El; injection Hs as <-; apply idle_inv; try done.
    + unfold shown_of. rewrite map_app, concat_app. apply write_all_app; [apply Hi|]. simpl. by rewrite app_nil_r.
    + unfold read_so_far. rewrite Ew. simpl. rewrite concat_app, app_nil_r. simpl. by rewrite app_nil_r.
    + rewrite !app_nil_r. apply Hi.
    + unfold read_so_far. rewrite Ew. simpl. by rewrite !app_nil_r.
Qed.
(** ** Runs *)

Lemma sends_app (evs evs' : list desk_event) : sends (evs ++ evs') = sends evs ++ sends evs'.
Proof. apply omap_app. Qed.

Lemma good_prefix (os os' : list Occurrence) : good (os ++ os') -> good os.
Proof.
  intros [Hn Hf]. rewrite map_app, NoDup_app in Hn. destruct Hn as [Hn _]. split; [done|].
  intros o Ho. apply Hf, in_or_app. by left.
Qed.

Lemma desk_step_inv (os : list Occurrence) (k k' : Desk) (e : desk_event) :
  good (os ++ sends [e]) -> desk_inv os k -> desk_step k e = Some k' -> desk_inv (os ++ sends [e]) k'.
Proof.
  intros Hg Hi Hs. destruct e as [o no_dir|n|e| |e| |];
    [exact (sink_step_inv _ _ _ _ Hg Hi Logic.I Hs)..| | | |];
    change (sends _) with (@nil Occurrence) in *; rewrite app_nil_r in *;
    (eapply watch_step_inv; [exact Hg|exact Hi| |exact Hs]; exact Logic.I).
Qed.

Lemma desk_run_inv (os : list Occurrence) (evs : list desk_event) (k k' : Desk) :
  good (os ++ sends evs) -> desk_inv os k -> desk_run k evs = Some k' -> desk_inv (os ++ sends evs) k'.
Proof.
  revert os k. induction evs as [|e evs IH]; intros os k Hg Hi; simpl desk_run.
  - intros [= <-]. by rewrite app_nil_r.
  - destruct (desk_step k e) as [k1|] eqn:Es; [|done]. change (e :: evs) with ([e] ++ evs) in *.
    rewrite sends_app, app_assoc in *. intros Hr. apply (IH _ k1); [done| |done].
    apply (desk_step_inv os k); [by eapply good_prefix|done|done].
Qed.

(** An occurrence whose file the watch has seen or is about to look at. *)
Definition due (o : Occurrence) (k : Desk) : Prop :=
  In (file_name o) (dk_seen k) \/
  match dk_watch k with WatchLooks entries _ => In (Ok (file_name o)) entries | _ => False end.

Lemma due_step (os : list Occurrence) (o : Occurrence) (k k' : Desk) (e : desk_event) :
  good os -> desk_inv os k -> due o k -> desk_step k e = Some k' -> due o k'.
Proof.
  intros Hg Hi Hd Hs. destruct e as [o' no_dir|n|e| |e| |]; simpl in Hs.
  - destruct (dk_writing k); [done|]. by repeat case_match; simplify_eq.
  - destruct (dk_writing k) as [[]|]; [|done]. by repeat case_match; simplify_eq.
  - destruct (dk_writing k) as [[]|]; [|done]. by injection Hs as <-.
  - unfold due in *. destruct (dk_watch k) eqn:Ew; try done. injection Hs as <-. destruct Hd as [Hd|[]].
    destruct (dk_exists k); by left.
  - unfold due in *. destruct (dk_watch k) eqn:Ew; try done. injection Hs as <-. destruct Hd as [Hd|[]]. by left.
  - unfold due in *. destruct (dk_watch k) as [|[|entry rest] news|] eqn:Ew; try done.
    pose proof (di_entries _ _ Hi) as He. rewrite Ew in He. destruct He as ([|name names] & E & _); [done|].
    injection E as -> ->. pose proof (entry_inv os name _ news k Hg Hi Ew) as Hx.
    destruct (watch_entry _ _ _ _) as [[seen occ] warning]. injection Hs as <-. destruct Hx as (Hin & Hincl & _).
    destruct Hd as [Hd|[[= ->]|Hd]]; [left; by apply Hincl|by left|by right].
  - unfold due in *. destruct (dk_watch k) as [|[|entry rest] news|] eqn:Ew; try done. destruct Hd as [Hd|[]].
    destruct (watch_output _ _ _ news); injection Hs as <-; by left.
Qed.

Lemma due_run (os : list Occurrence) (o : Occurrence) (evs : list desk_event) (k k' : Desk) :
  good (os ++ sends evs) -> desk_inv os k -> due o k -> desk_run k evs = Some k' -> due o k'.
Proof.
  revert os k. induction evs as [|e evs IH]; intros os k Hg Hi Hd; simpl desk_run; [by intros [= <-]|].
  destruct (desk_step k e) as [k1|] eqn:Es; [|done]. change (e :: evs) with ([e] ++ evs) in *.
  rewrite sends_app, app_assoc in *. apply (IH (os ++ sends [e])); [done|..].
  - apply (desk_step_inv os k); [by eapply good_prefix|done|done].
  - eapply (due_step os); [by do 2 eapply good_prefix|done..].
Qed.

Lemma answers_run (evs : list desk_event) (k k' : Desk) (x : Occurrence * result unit SinkError) :
  desk_run k evs = Some k' -> In x (dk_answers k) -> In x (dk_answers k').
Proof.
  revert k. induction evs as [|e evs IH]; intros k; simpl; [by intros [= <-]|].
  destruct (desk_step k e) as [k1|] eqn:Es; [|done]. intros Hr Hx. apply (IH k1 Hr). clear IH Hr.
  unfold desk_step in Es. repeat case_match; simplify_eq/=; rewrite ?in_app_iff; auto.
Qed.

Lemma desk_start_inv (files : gmap string string) (exists_ : bool) :
  (exists_ = false -> memory_list dir files = []) -> old = memory_list dir files -> desk_inv [] (desk_start files exists_).
Proof.
  intros He E. assert (Hs : dk_seen (desk_start files exists_) = old)
    by (rewrite E; destruct exists_; [done|by rewrite He]).
  constructor; rewrite ?Hs; try done.
  - intros name Hp [data Hd]. left. rewrite E. apply memory_list_spec. split; [done|]. simpl in Hd. congruence.
  - apply incl_refl.
  - intros name Hn. by left.
  - constructor.
Qed.

(** A turn that starts once an occurrence is filed comes to its file. *)
Lemma listed_seen (os : list Occurrence) (o : Occurrence) (evs : list desk_event) (k k' : Desk) :
  good (os ++ sends evs) -> desk_inv os k -> In (o, Ok tt) (dk_answers k) -> In WatchLists evs ->
  desk_run k evs = Some k' -> dk_watch k' = WatchSleeps -> In (file_name o) (dk_seen k').
Proof.
  intros Hg Hi Ha (l1 & l2 & ->)%in_split Hrun Hsleep. change (WatchLists :: l2) with ([WatchLists] ++ l2) in *.
  rewrite desk_run_app in Hrun. destruct (desk_run k l1) as [k1|] eqn:E1; [|done].
  rewrite !sends_app, !app_assoc in Hg.
  pose proof (desk_run_inv os l1 k k1 ltac:(by do 2 eapply good_prefix) Hi E1) as Hi1.
  pose proof (answers_run l1 k k1 _ E1 Ha) as Ha1.
  change (desk_run k1 ([WatchLists] ++ l2))
    with (match desk_step k1 WatchLists with Some k' => desk_run k' l2 | None => None end) in Hrun.
  destruct (desk_step k1 WatchLists) as [k2|] eqn:E2; [|done].
  pose proof (desk_step_inv _ k1 k2 WatchLists ltac:(by eapply good_prefix) Hi1 E2) as Hi2.
  assert (Hd : due o k2).
  { simpl in E2. destruct (dk_watch k1); try done. injection E2 as <-. rewrite (di_exists _ _ Hi1 o Ha1). right. simpl.
    apply in_map, memory_list_spec. destruct (di_filed _ _ Hi1 o Ha1) as (data & _ & Hf). split;
      [|by change (path_join dir (file_name o)) with (file_path o); rewrite Hf].
    apply file_name_plain. do 2 apply good_prefix in Hg. by apply Hg, (di_known _ _ Hi1 o (Ok tt)). }
  destruct (due_run _ o l2 k2 k' Hg Hi2 Hd Hrun) as [|Hd']; [done|]. by rewrite Hsleep in Hd'.
Qed.

(** What is seen but was not read is not read any more. *)
Definition unread (o : Occurrence) (k : Desk) : Prop := ~ In (oc_id o) (map oc_id (read_so_far k)).

Lemma unread_step (os : list Occurrence) (o : Occurrence) (k k' : Desk) (e : desk_event) :
  good os -> desk_inv os k -> In (file_name o) (dk_seen k) -> unread o k -> desk_step k e = Some k' ->
  In (file_name o) (dk_seen k') /\ unread o k'.
Proof.
  unfold unread. intros Hg Hi Hs Hr Hst. destruct e as [o' no_dir|n|e| |e| |]; simpl in Hst.
  - destruct (dk_writing k); [done|]. by repeat case_match; simplify_eq.
  - destruct (dk_writing k) as [[]|]; [|done]. by repeat case_match; simplify_eq.
  - destruct (dk_writing k) as [[]|]; [|done]. by injection Hst as <-.
  - unfold read_so_far in *. destruct (dk_watch k) eqn:Ew; try done. injection Hst as <-.
    destruct (dk_exists k); [|by rewrite Ew]. split; [done|]. simpl. by rewrite !app_nil_r in *.
  - unfold read_so_far in *. destruct (dk_watch k) eqn:Ew; try done. injection Hst as <-. split; [done|]. simpl.
    by rewrite !app_nil_r in *.
  - unfold read_so_far in *. destruct (dk_watch k) as [|[|entry rest] news|] eqn:Ew; try done.
    pose proof (di_entries _ _ Hi) as He. rewrite Ew in He. destruct He as ([|name names] & E & _); [done|].
    injection E as -> ->. pose proof (entry_inv os name _ news k Hg Hi Ew) as Hx.
    destruct (watch_entry _ _ _ _) as [[seen occ] warning]. injection Hst as <-. destruct Hx as (Hin & Hincl & Hx).
    split; [by apply Hincl|]. simpl. rewrite app_nil_r, app_assoc, map_app, in_app_iff. intros [Ho|Ho]; [done|].
    destruct Hx as [(_ & -> & _)|(x & _ & -> & Hns & _ & [((y & -> & Hra) & _)|(-> & _)])]; [done| |done].
    destruct Ho as [E|[]]. destruct Hns. rewrite <- (reads_as_name _ _ Hra). unfold file_name. by rewrite E.
  - unfold read_so_far in *. destruct (dk_watch k) as [|[|entry rest] news|] eqn:Ew; try done.
    destruct (watch_output _ _ _ news); injection Hst as <-; (split; [done|]); simpl;
      by rewrite ?concat_app, ?app_nil_r; simpl; rewrite ?app_nil_r.
Qed.

Lemma unread_run (os : list Occurrence) (o : Occurrence) (evs : list desk_event) (k k' : Desk) :
  good (os ++ sends evs) -> desk_inv os k -> In (file_name o) (dk_seen k) -> unread o k ->
  desk_run k evs = Some k' -> unread o k'.
Proof.
  revert os k. induction evs as [|e evs IH]; intros os k Hg Hi Hs Hr; simpl desk_run; [by intros [= <-]|].
  destruct (desk_step k e) as [k1|] eqn:Es; [|done]. change (e :: evs) with ([e] ++ evs) in *.
  rewrite sends_app, app_assoc in *.
  destruct (unread_step os o k k1 e ltac:(by do 2 eapply good_prefix) Hi Hs Hr Es).
  apply (IH (os ++ sends [e])); try done. apply (desk_step_inv os k); [by eapply good_prefix|done|done].
Qed.
End Invariant.

Lemma shown_spec (turns : list (list Occurrence)) :
  (forall x, In x (shown_of turns) <-> In x (concat turns) /\ matches_filter x filters = true) /\
  exists rest, Permutation (concat turns) (shown_of turns ++ rest).
Proof.
  unfold shown_of. induction turns as [|turn turns [IH [rest Hp]]]; simpl; [by split; [tauto|exists []]|]. split.
  - intros x. rewrite !in_app_iff, filter_In, IH.
    assert (Hs : In x (sort_by oldest_first turn) <-> In x turn).
    { split; apply Permutation_in; [|symmetry]; apply sort_by_perm. }
    rewrite Hs. tauto.
  - exists (List.filter (fun o => negb (matches_filter o filters)) (sort_by oldest_first turn) ++ rest).
    rewrite Hp, <- (sort_by_perm oldest_first turn) at 1. rewrite !app_assoc. apply Permutation_app_tail.
    rewrite <- !app_assoc. rewrite (Permutation_app_comm (concat _)), app_assoc. apply Permutation_app_tail.
    clear. induction (sort_by oldest_first turn) as [|x l IH]; [done|]. simpl.
    destruct (matches_filter x filters); simpl; [by rewrite <- IH|]. rewrite <- Permutation_middle. by rewrite <- IH.
Qed.

Lemma shown_nodup (turns : list (list Occurrence)) :
  NoDup (map oc_id (concat turns)) -> NoDup (map oc_id (shown_of turns)).
Proof.
  destruct (shown_spec turns) as [_ [rest Hp]]. rewrite (Permutation_map oc_id Hp), map_app.
  by intros [Hn _]%NoDup_app.
Qed.

(** * Property *)

(** C24. The watch and the sink beside each other, in any interleaving of the
    writing of a file with the reading of the directory, for occurrences with
    distinct identifiers without a slash whose documents can be read back, over
    a directory that holds none of their files.  The lines put out are those of
    occurrences that match the filters and that the sink has filed, as their
    whole documents read back, each shown at most once; one that matches
    and is filed before a turn starts is shown by its end, unless the
    watch has warned that it skipped the file; and it does skip it, for ever,
    when it has seen the file without reading an occurrence from it. *)
Theorem watch_prints_once_or_warns (files : gmap string string) (exists_ : bool) (evs : list desk_event) (k : Desk)
    (Hexists : exists_ = false -> memory_list dir files = [])
    (Hids : NoDup (map oc_id (sends evs)))
    (Hfine : Forall (fun o => readable to_json_pretty parse_occurrence o /\ plain (oc_id o) /\
                              Occurrence_validate o = Ok tt /\ ~ In (file_name o) (memory_list dir files)) (sends evs))
    (Hrun : desk_run (desk_start files exists_) evs = Some k) :
  write_all occurrence_json (shown k) json = Ok (dk_lines k) /\
  NoDup (map oc_id (shown k)) /\
  Forall (fun x => matches_filter x filters = true /\ exists o, In (o, Ok tt) (dk_answers k) /\ reads_as o x) (shown k) /\
  forall evs1 evs2 k1 o, evs = evs1 ++ evs2 -> desk_run (desk_start files exists_) evs1 = Some k1 ->
    (In (o, Ok tt) (dk_answers k1) -> In WatchLists evs2 -> dk_watch k = WatchSleeps ->
       matches_filter o filters = true -> (exists x, In x (shown k) /\ reads_as o x) \/ skipped o k) /\
    (In (file_name o) (dk_seen k1) -> ~ In (oc_id o) (map oc_id (read_so_far k1)) ->
       ~ In (oc_id o) (map oc_id (shown k))).
Proof.
  set (old := memory_list dir files) in *.
  assert (Hgood : good old (sends evs)).
  { split; [done|]. intros o Ho. rewrite Forall_forall in Hfine. by apply Hfine, list_elem_of_In. }
  pose proof (desk_start_inv old files exists_ Hexists eq_refl) as Hstart.
  pose proof (desk_run_inv old [] evs _ k Hgood Hstart Hrun) as Hi. simpl in Hi.
  destruct (shown_spec (dk_printed k)) as [Hshown _]. change (shown_of (dk_printed k)) with (shown k) in Hshown.
  assert (Hprinted : forall o, In o (shown k) -> In o (read_so_far k))
    by (intros o [Ho _]%Hshown; apply in_or_app; by left).
  split; [apply Hi|]. split.
  { pose proof (di_distinct _ _ _ Hi) as Hd. unfold read_so_far in Hd. rewrite map_app in Hd.
    apply NoDup_app in Hd as [Hd _]. by apply shown_nodup. }
  split; [apply Forall_forall; intros x Hx%list_elem_of_In; split; [by apply Hshown in Hx as [_ Hx]|];
    by apply (di_read _ _ _ Hi), Hprinted|].
  intros evs1 evs2 k1 o -> Hrun1. rewrite sends_app in *.
  pose proof (desk_run_inv old [] evs1 _ k1 (good_prefix _ _ _ Hgood) Hstart Hrun1) as Hi1.
  rewrite desk_run_app, Hrun1 in Hrun. split.
  - intros Ha Hl Hsleep Hm. pose proof (di_known _ _ _ Hi1 _ _ Ha) as Ho.
    pose proof (listed_seen old (sends evs1) o evs2 k1 k Hgood Hi1 Ha Hl Hrun Hsleep) as Hs.
    destruct (di_told _ _ _ Hi o (proj2 (in_app_iff _ _ _) (or_introl Ho)) Hs) as [(x & Hra & Hx)|]; [left|by right].
    unfold read_so_far in Hx. rewrite Hsleep, app_nil_r in Hx. exists x. split; [|done]. apply Hshown. split; [done|].
    unfold matches_filter in *. by rewrite (ra_type _ _ Hra).
  - intros Hs Hr Ho. apply (unread_run old (sends evs1) o evs2 k1 k Hgood Hi1 Hs Hr Hrun).
    apply in_map_iff in Ho as (x & <- & Hx). by apply in_map, Hprinted.
Qed.
End Watch.

(** * Witness *)

(** [Archive]'s codec has an end mark. *)
Lemma before_mark (id b t : string) : b +:+ t = id +:+ "}" -> t <> EmptyString -> exists u, id = b +:+ u.
Proof.
  revert id. induction b as [|a b IH]; intros id E Ht; [by exists id|]. destruct id as [|a' id].
  - injection E as _ E. by destruct b.
  - injection E as -> E. destruct (IH id E Ht) as [u ->]. by exists u.
Qed.

Lemma toy_cut (o : Occurrence) (data b t : string) :
  toy_json o = Ok data -> b +:+ t = data -> t <> EmptyString -> is_ok (toy_parse b) = false.
Proof.
  intros (_ & Hc & _ & d & Hd & ->)%toy_json_Ok E Ht. rewrite <- str_app_assoc in E.
  destruct (before_mark _ b t E Ht) as [u Hu].
  assert (Hb : contains_char "}" (oc_id o +:+ d) = false).
  { rewrite contains_char_app, Hc. by destruct (oc_data o) as [[]|]; try done; injection Hd as <-. }
  unfold toy_parse. destruct (strip_suffix b "}") as [r|] eqn:Es; [|done]. exfalso. unfold strip_suffix in Es.
  destruct (strip_prefix (str_rev b) (str_rev "}")) as [r'|] eqn:Ep; [|done]. apply strip_prefix_Some in Ep.
  apply (f_equal str_rev) in Ep. rewrite str_rev_involutive, str_rev_app in Ep. rewrite Hu, Ep in Hb.
  rewrite !contains_char_app in Hb. simpl in Hb. by rewrite !orb_true_r in Hb.
Qed.

(** Two occurrences: the second turn of the watch finds the file of the first,
    whole, and that of the second, of which one byte is written. *)
Definition with_float : Occurrence := archived "b" (Some (JFloat (f64_of_Z 3))).
Definition desk_events : list desk_event :=
  [WatchLists; WatchPrints; SinkOpens with_float None; SinkWrites 9; SinkOpens (archived "a" None) None; SinkWrites 1;
   WatchLists; WatchReads; WatchReads; WatchPrints; SinkWrites 1].

Definition later_turn : list desk_event := [WatchLists; WatchReads; WatchReads; WatchPrints].

Notation desk_ran evs :=
  (desk_run toy_json toy_parse toy_json "data" false ["network"] (desk_start "data" ∅ true) evs).

(** The first is shown; the second is filed but never shown, although a turn
    comes after. *)
Lemma watch_prints_once_or_warns_witness :
  exists k, desk_ran (desk_events ++ later_turn) = Some k /\
    dk_answers k = [(with_float, Ok tt); (archived "a" None, Ok tt)] /\
    dk_lines k = ["1970-01-01T00:00:00 WARNING   kernel.network.retransmit_spike"] /\
    (exists x, In x (shown ["network"] k) /\ reads_as with_float x) /\
    ((exists x, In x (shown ["network"] k) /\ reads_as (archived "a" None) x) \/ skipped "data" (archived "a" None) k) /\
    ~ In "a" (map oc_id (shown ["network"] k)).
Proof.
  assert (Hrun : exists k k1, desk_ran (desk_events ++ later_turn) = Some k /\ desk_ran desk_events = Some k1 /\
    dk_answers k = [(with_float, Ok tt); (archived "a" None, Ok tt)] /\ dk_answers k1 = dk_answers k /\
    dk_lines k = ["1970-01-01T00:00:00 WARNING   kernel.network.retransmit_spike"] /\ dk_watch k = WatchSleeps /\
    existsb (String.eqb "a.json") (dk_seen k1) = true /\ map oc_id (read_so_far k1) = ["b"] /\
    map (fun x => (oc_id x, oc_data x)) (shown ["network"] k) = [("b", Some (JFloat half))] /\
    length (dk_warnings k) = 1%nat).
  { do 2 eexists. do 2 (split; [vm_compute; reflexivity|]). vm_compute. repeat split. }
  destruct Hrun as (k & k1 & Hk & Hk1 & Ha & Ha1 & Hl & Hw & Hs & Hr & Hsh & _). exists k. do 3 (split; [assumption|]).
  destruct (watch_prints_once_or_warns toy_json toy_parse toy_json "data" false ["network"] toy_cut ∅ true
    (desk_events ++ later_turn) k) as (_ & _ & Hfiled & Hx); [discriminate| | |exact Hk|].
  { vm_compute. repeat constructor; rewrite ?list_elem_of_In; simpl; intuition discriminate. }
  { change (sends _) with [with_float; archived "a" None].
    apply Forall_cons_2; [|apply Forall_cons_2; [|apply Forall_nil_2]].
    all: split; [apply toy_readable|]; split; [split; [discriminate|reflexivity]|]; split; [vm_compute; reflexivity|].
    all: change (memory_list "data" ∅) with (@nil string); exact (fun x => x). }
  destruct (Hx desk_events later_turn k1 (archived "a" None) eq_refl Hk1) as [Hdue Hnever].
  split; [|split].
  - destruct (shown ["network"] k) as [|x [|y l]]; [discriminate Hsh| |discriminate Hsh].
    apply Forall_cons in Hfiled as [[_ (o & Ho & Hra)] _]. exists x. split; [left; reflexivity|].
    rewrite Ha in Ho. destruct Ho as [E|[E|[]]]; injection E as <-; [exact Hra|].
    assert (Eid : oc_id x = "b")
      by exact (f_equal (fun l => match l with (id, _) :: _ => id | [] => EmptyString end) Hsh). rewrite (ra_id _ _ Hra) in Eid. discriminate Eid.
  - apply Hdue; [|left; reflexivity|exact Hw|reflexivity]. rewrite Ha1, Ha. right. left. reflexivity.
  - apply Hnever.
    + apply existsb_exists in Hs as (x & Hin & E%String.eqb_eq). subst x. exact Hin.
    + rewrite Hr. intros [E|[]]. discriminate E.
Defined.
