(* ===== verification/System.v ===== *)
(** The parts together: what an observer sees reaches the controller, a
    profile reaches the kernel, and an agent and a controller agree on the
    configuration they run. *)
From Stdlib Require Import String.
From S2P Require Import Prelude RustStr BTree Float64 Json Wire Profile CommonEbpf Occurrence.
From S2P Require Import Timestamps.
From S2P Require Import NetworkObs ContainerObs StorageObs PmcObs Metrics Httpc AgentConfig.
From S2P Require Import Heartbeat.
From S2P Require Import Carriers Poll Registration Sink ControllerSink Controller.
From S2P Require Import ControllerHttp Drain.

Local Open Scope Z_scope.

(** * From an observer to the controller *)

Definition EVENT_OBSERVERS : list (string * string) :=
  [(NETWORK_CONNECTION_REFUSED, "network"); (NETWORK_CONNECTION_TIMEOUT, "network");
   (NETWORK_RETRANSMIT_SPIKE, "network"); (NETWORK_RTT_DEGRADATION, "network");
   (CONTAINER_OOM_KILL, "container"); (CONTAINER_ABNORMAL_EXIT, "container");
   (STORAGE_IO_ERROR, "storage"); (STORAGE_LATENCY_SPIKE, "storage");
   (NODE_CPU_STALL, "node"); (NODE_MEMORY_PRESSURE, "node"); (NODE_IPC_DEGRADATION, "node")].

(** An occurrence of this type and instant that the controller will accept. *)
Definition deliverable (observer event_type : string) (nanos : Z) (o : Occurrence) : Prop :=
  oc_occurrence_type o = event_type /\ Occurrence_validate o = Ok tt /\
  exists e, occurrence_to_wire_event o = Ok e /\ WireEvent_validate e = Ok tt /\
    we_event_type e = event_type /\ we_observer e = observer /\ we_timestamp_unix_nanos e = nanos.

(** A field of the facts: no reasoning key, no nested object. *)
Definition plain_field (kv : string * json) : Prop :=
  is_reasoning_key (fst kv) = false /\ match snd kv with JObject _ => False | _ => True end.

Lemma json_f64_plain (k : string) (f : f64) : is_reasoning_key k = false -> plain_field (k, json_f64 f).
Proof. intros Hk. split; [done|]. simpl. unfold json_f64. by destruct (f64_is_finite f). Qed.

Lemma json_obj_no_reasoning (l : list (string * json)) :
  Forall plain_field l -> no_reasoning (json_obj l).
Proof.
  intros Hl. unfold no_reasoning. apply reject_reasoning_Ok. unfold json_obj. apply flat_object_Ok.
  apply Forall_forall. intros [k v] Hin%list_elem_of_In. apply fold_insert_In in Hin as [Hin|[]]; [|constructor].
  rewrite Forall_forall in Hl. by apply (Hl (k, v)), list_elem_of_In.
Qed.

(** What the four observers build. *)
Lemma built_deliverable (id event_type observer code message : string) (severity : Severity)
    (outcome : Outcome) (nanos : Z) (l : list (string * json)) :
  In (event_type, observer) EVENT_OBSERVERS -> is_u64 nanos -> Forall plain_field l ->
  deliverable observer event_type nanos
    (with_data (json_obj l) (with_error code message
       (Occurrence_at id (unix_nanos_to_rfc3339 nanos) event_type severity outcome))).
Proof.
  intros Hin Hn Hl. unfold deliverable, occurrence_to_wire_event.
  cbn [oc_occurrence_type oc_timestamp oc_severity oc_data with_data with_error Occurrence_at default].
  assert (Ht : observer_from_type event_type = Ok observer /\ blank event_type = false /\
    blank observer = false /\ starts_with event_type "kernel." = true /\
    is_empty (type_errors event_type) = true).
  { repeat (destruct Hin as [[= <- <-]|Hin]; [repeat split; reflexivity|]). by destruct Hin. }
  destruct Ht as (Ho & Hb & Hbo & Hk & Hv). apply is_empty_true in Hv.
  split; [done|]. split; [by unfold Occurrence_validate; cbn; rewrite Hv|].
  rewrite Ho. cbn [rbind]. eexists. split; [done|].
  rewrite timestamp_of_rfc3339 by done. rewrite WireEvent_validate_Ok. cbn.
  auto 10 using json_obj_no_reasoning.
Qed.

Ltac plain_fields :=
  repeat first [apply Forall_cons; split | apply Forall_nil]; try (apply json_f64_plain); done.

Lemma network_deliverable (id : string) (now : Z) (e : NetworkEvent) (a : NetworkAnomaly) :
  network_classify e = Some a ->
  deliverable "network" (na_event_type a) (unix_now now) (network_build_occurrence id now e a).
Proof.
  intros Ha%network_classify_Some. destruct Ha as [Ha _].
  apply built_deliverable; [|apply unix_now_u64|].
  - destruct Ha; simpl; tauto.
  - apply Forall_app. split; [plain_fields|].
    repeat (case_match; [plain_fields|]). constructor.
Qed.

Lemma container_classify_types (e : ContainerEvent) (a : ContainerAnomaly) :
  container_classify e = Some a ->
  ca_event_type a = CONTAINER_OOM_KILL \/ ca_event_type a = CONTAINER_ABNORMAL_EXIT.
Proof. unfold container_classify. repeat case_match; intros; simplify_eq/=; auto. Qed.

Lemma container_deliverable (read_file : string -> option string) (id : string)
    (c c' : list (Z * Z)) (e : ContainerEvent) (a : ContainerAnomaly) (boot : Z) (o : Occurrence) :
  container_classify e = Some a ->
  container_build_occurrence read_file id c e a boot = (o, c') ->
  deliverable "container" (ca_event_type a) (wrap64 (boot + ce_timestamp_ns e)) o.
Proof.
  intros Ha%container_classify_types. unfold container_build_occurrence.
  destruct (if ce_memory_limit e =? 0 then _ else _) as [limit c1]. intros [= <- _].
  apply built_deliverable; [|apply wrap64_range|plain_fields].
  destruct Ha as [-> | ->]; simpl; tauto.
Qed.

Lemma storage_deliverable (id : string) (e : StorageEvent) (a : StorageAnomaly) (boot : Z) :
  storage_classify e = Some a ->
  deliverable "storage" (sa_event_type a) (wrap64 (boot + se_timestamp_ns e))
    (storage_build_occurrence id e a boot).
Proof.
  intros Ha. destruct (storage_classify_cases e) as (a' & Ha' & Ht). rewrite Ha in Ha'. injection Ha' as <-.
  apply built_deliverable; [|apply wrap64_range|plain_fields].
  destruct Ht as [-> | ->]; simpl; tauto.
Qed.

Lemma pmc_deliverable (id : string) (e : PmcEvent) (t : PmcThresholds) (a : PmcAnomaly) (boot : Z) :
  pmc_classify e t = Some a ->
  deliverable "node" (pa_event_type a) (wrap64 (boot + pe_timestamp e)) (pmc_build_occurrence id e a boot).
Proof.
  intros Ha%pmc_classify_cases.
  apply built_deliverable; [|apply wrap64_range|plain_fields].
  destruct Ha as [(-> & _)|[(-> & _)|(-> & _)]]; simpl; tauto.
Qed.

(** * From a profile to the kernel *)

Lemma served_config_acceptable (v : ValidatedProfile) (generation : Z) (hash : string) :
  profile_wf (resolved v) -> 0 <= generation <= U32_MAX -> hash <> EmptyString ->
  exists t,
    acceptable {| cr_wire_version := WIRE_VERSION; cr_version := dec generation; cr_config_hash := hash;
                  cr_config := profile_compile v;
                  cr_batching := {| bc_send_interval_ms := 1000; bc_max_batch_events := 256 |} |}
      generation t /\
    kernel_view (profile_compile v) t /\ tc_generation t = generation.
Proof.
  intros Hwf Hg Hh. destruct (compile_exact v Hwf) as [_ _ _ _ _ Hio _ _ _ _ _].
  assert (Hp : parse_unsigned U32_MAX (dec generation) = Some generation) by by apply parse_unsigned_dec.
  destruct (tapio_config_from_compiled (profile_compile v) (dec generation)) as [t|e] eqn:Et.
  2: { unfold tapio_config_from_compiled in Et. by rewrite Hp in Et. }
  destruct (from_compiled_view _ _ _ Et) as [Hgen Hv]. rewrite Hp in Hgen. injection Hgen as Hgen.
  exists t. split; [|done]. split; [|split; [by destruct hash|done]].
  unfold ConfigResponse_validate. autorewrite with tapio. cbn -[profile_compile dec].
  rewrite dec_not_blank by lia. repeat split; lia.
Qed.

(** A profile the controller loads, as the record the agent writes for it. *)
Lemma loaded_profile_kernel (parse_yaml : string -> result EvidenceProfile string)
    (config_json : CompiledConfig -> result string string) (sha256 : string -> list Z)
    (yaml : string) (path : option string) (c : CompiledConfig) (generation : Z) (r : ConfigResponse)
    (Hyaml : compile_profile_yaml parse_yaml yaml path = Ok c) (Hgen : 0 <= generation <= U32_MAX)
    (Hresp : config_response_from_compiled config_json sha256 c generation = Ok r) :
  exists p v t, parse_yaml yaml = Ok p /\ profile_validate p BuiltinSet_v0 = Ok v /\
    profile_compile v = c /\ profile_wf (resolved v) /\
    acceptable r generation t /\ kernel_view c t /\ tc_generation t = generation.
Proof.
  unfold compile_profile_yaml in Hyaml.
  apply rbind_Ok in Hyaml as (p & Hp%map_err_Ok & Hyaml). apply rbind_Ok in Hyaml as (v & Hv%map_err_Ok & [= <-]).
  assert (Hwf : profile_wf (resolved v)).
  { pose proof Hv as Hv'. apply validate_iff in Hv' as (_ & _ & name & base & _ & _ & Hb & Hr & Ho & ->).
    apply merge_wf; [by eapply builtins_v0_wf|done|done]. }
  unfold config_response_from_compiled in Hresp.
  apply rbind_Ok in Hresp as (hash & Hhash & [= <-]).
  unfold config_hash in Hhash. apply rbind_Ok in Hhash as (bytes & _ & [= <-]).
  destruct (served_config_acceptable v generation
    ("sha256:" +:+ fold_right (fun b acc => hex2 b +:+ acc) EmptyString (sha256 bytes)) Hwf Hgen)
    as (t & Ha & Hk & Hg); [done|].
  by exists p, v, t.
Qed.

(** * The entity tag *)

Lemma trim_quoted (h : string) : trim (quote_str +:+ h +:+ quote_str) = quote_str +:+ h +:+ quote_str.
Proof. by apply (trim_visible_ends dquote dquote). Qed.

Lemma quoted_inj (h h' : string) :
  quote_str +:+ h +:+ quote_str = quote_str +:+ h' +:+ quote_str -> h = h'.
Proof.
  intros E%str_app_inj_l. apply (f_equal str_rev) in E. rewrite !str_rev_app in E.
  apply str_app_inj_l in E. apply (f_equal str_rev) in E. by rewrite !str_rev_involutive in E.
Qed.

(** The query of [config_url]. *)
Definition config_query (c : ControllerConfig) : string :=
  "agent_id=" +:+ url_component (ctl_agent_id c) +:+ "&node_name=" +:+ url_component (ctl_node_name c).

Lemma config_url_query (c : ControllerConfig) :
  config_url c = (trim_end_matches "/" (ctl_endpoint c) +:+ "/v1/agents/config?") +:+ config_query c.
Proof. unfold config_url, config_query. by rewrite !str_app_assoc. Qed.

Lemma hex_upper_plain (d : Z) :
  0 <= d < 16 -> visible (hex_upper d) = true /\ Ascii.eqb (hex_upper d) "&" = false /\
    Ascii.eqb (hex_upper d) "=" = false.
Proof.
  intros Hd. assert (Hc : In d (map Z.of_nat (seq 0 16))).
  { replace d with (Z.of_nat (Z.to_nat d)) by lia. apply in_map, in_seq. lia. }
  revert d Hd Hc. cbn. intros d _ Hc.
  repeat (destruct Hc as [<-|Hc]; [repeat split; reflexivity|]). by destruct Hc.
Qed.

Lemma url_component_no_char (c : ascii) (s : string) :
  c = "&"%char \/ c = "="%char -> contains_char c (url_component s) = false.
Proof.
  intros Hc. induction s as [|a s IH]; [done|]. cbn [url_component]. rewrite contains_char_app, IH, orb_false_r.
  destruct (is_unreserved a) eqn:Ha.
  - simpl. rewrite orb_false_r. apply Ascii.eqb_neq. intros ->. by destruct Hc as [-> | ->].
  - pose proof (byte_val_range a) as Hr.
    assert (H1 : 0 <= Z.shiftr (byte_val a) 4 < 16).
    { rewrite Z.shiftr_div_pow2 by lia. change (2 ^ 4) with 16. Z.div_mod_to_equations. lia. }
    assert (H2 : 0 <= Z.land (byte_val a) 15 < 16).
    { change 15 with (Z.ones 4). rewrite Z.land_ones by lia. change (2 ^ 4) with 16. Z.div_mod_to_equations. lia. }
    destruct (hex_upper_plain _ H1) as (_ & Ha1 & Ha2). destruct (hex_upper_plain _ H2) as (_ & Hb1 & Hb2).
    cbn [contains_char]. destruct Hc as [-> | ->]; [rewrite Ha1, Hb1|rewrite Ha2, Hb2]; done.
Qed.

Lemma url_component_not_blank (s : string) : s <> EmptyString -> blank (url_component s) = false.
Proof.
  destruct s as [|a s]; [done|]. intros _. cbn [url_component].
  destruct (is_unreserved a) eqn:Ha; cbn [String.append]; apply visible_not_blank; [|done].
  unfold is_unreserved in Ha. unfold visible.
  destruct (Ascii.eqb_spec a "-") as [->|_]; [done|]. destruct (Ascii.eqb_spec a "_") as [->|_]; [done|].
  destruct (Ascii.eqb_spec a ".") as [->|_]; [done|]. destruct (Ascii.eqb_spec a "~") as [->|_]; [done|]. lia.
Qed.

(** The controller finds both identifiers in the agent's query. *)
Lemma config_query_params (c : ControllerConfig) :
  query_param (Some (config_query c)) "agent_id" = Some (url_component (ctl_agent_id c)) /\
  query_param (Some (config_query c)) "node_name" = Some (url_component (ctl_node_name c)).
Proof.
  assert (Hsplit : split "&" (config_query c) =
    ["agent_id=" +:+ url_component (ctl_agent_id c); "node_name=" +:+ url_component (ctl_node_name c)]).
  { unfold config_query.
    change ("agent_id=" +:+ url_component (ctl_agent_id c) +:+ "&node_name=" +:+ url_component (ctl_node_name c))
      with ("agent_id=" +:+ (url_component (ctl_agent_id c) +:+ String "&" ("node_name=" +:+ url_component (ctl_node_name c)))).
    rewrite <- str_app_assoc, split_app, split_none; rewrite ?contains_char_app, ?url_component_no_char by auto; done. }
  unfold query_param. rewrite Hsplit. split; cbn [find_pair]; [reflexivity|].
  reflexivity.
Qed.

(** * Properties *)

Section Observed.
Context {W : Type} `{Env W}.

Lemma network_observe_deliverable (data : list Z) (l l' : unit) (w w' : W) (t : string) (o : Occurrence) :
  network_observe data l w = (Some (t, o), l', w') ->
  deliverable "network" t (unix_now (fst (env_now (snd (env_id w))))) o.
Proof.
  unfold network_observe.
  destruct (network_classify (read_NetworkEvent data)) as [a|] eqn:Ea; [|done].
  destruct (env_id w) as [id w1]. cbn [snd]. destruct (env_now w1) as [now w2]. intros [= <- <- _ _].
  by apply network_deliverable.
Qed.

Lemma container_observe_deliverable (boot : Z) (data : list Z) (c c' : list (Z * Z)) (w w' : W) (t : string)
    (o : Occurrence) :
  container_observe boot data c w = (Some (t, o), c', w') ->
  deliverable "container" t (wrap64 (boot + ce_timestamp_ns (read_ContainerEvent data))) o.
Proof.
  unfold container_observe. destruct (container_classify (read_ContainerEvent data)) as [a|] eqn:Ea; [|done].
  destruct (env_id w) as [id w1].
  destruct (container_build_occurrence _ id c _ a boot) as [o1 c1] eqn:Eb. intros [= <- <- _ _].
  by eapply container_deliverable.
Qed.

Lemma storage_observe_deliverable (boot : Z) (data : list Z) (l l' : unit) (w w' : W) (t : string) (o : Occurrence) :
  storage_observe boot data l w = (Some (t, o), l', w') ->
  deliverable "storage" t (wrap64 (boot + se_timestamp_ns (read_StorageEvent data))) o.
Proof.
  unfold storage_observe. destruct (storage_classify (read_StorageEvent data)) as [a|] eqn:Ea; [|done].
  destruct (env_id w) as [id w1]. intros [= <- <- _ _]. by apply storage_deliverable.
Qed.

Lemma pmc_observe_deliverable (boot : Z) (data : list Z) (l l' : unit) (w w' : W) (t : string) (o : Occurrence) :
  pmc_observe boot data l w = (Some (t, o), l', w') ->
  deliverable "node" t (wrap64 (boot + pe_timestamp (read_PmcEvent data))) o.
Proof.
  unfold pmc_observe. destruct (pmc_classify (read_PmcEvent data) (env_thresholds w)) as [a|] eqn:Ea; [|done].
  destruct (env_id w) as [id w1]. intros [= <- <- _ _]. by eapply pmc_deliverable.
Qed.

(** C7. Every anomaly any of the four observers reports is a valid occurrence that
    the controller sink converts and that passes the controller's validation:
    a kernel event of its observer without any reasoning field, stamped with
    exactly the nanoseconds of the event's own clock moved by the boot offset,
    for the network with those the agent's clock answers when the occurrence is
    built, after its identifier was drawn. *)
Theorem anomalies_are_deliverable (boot : Z) (data : list Z) (w : W) :
  (forall l t o l' w', network_observe data l w = (Some (t, o), l', w') ->
     deliverable "network" t (unix_now (fst (env_now (snd (env_id w))))) o) /\
  (forall c t o c' w', container_observe boot data c w = (Some (t, o), c', w') ->
     deliverable "container" t (wrap64 (boot + ce_timestamp_ns (read_ContainerEvent data))) o) /\
  (forall l t o l' w', storage_observe boot data l w = (Some (t, o), l', w') ->
     deliverable "storage" t (wrap64 (boot + se_timestamp_ns (read_StorageEvent data))) o) /\
  (forall l t o l' w', pmc_observe boot data l w = (Some (t, o), l', w') ->
     deliverable "node" t (wrap64 (boot + pe_timestamp (read_PmcEvent data))) o).
Proof.
  split; [|split; [|split]]; intros *.
  - apply network_observe_deliverable.
  - apply container_observe_deliverable.
  - apply storage_observe_deliverable.
  - apply pmc_observe_deliverable.
Qed.
End Observed.

(** A batch as [serde_json] reads it back. *)
Record event_reads (e e' : WireEvent) : Prop := {
  er_type : we_event_type e' = we_event_type e;
  er_timestamp : we_timestamp_unix_nanos e' = we_timestamp_unix_nanos e;
  er_observer : we_observer e' = we_observer e;
  er_severity : we_severity e' = we_severity e;
  er_facts : json_like (we_facts e) (we_facts e');
}.

Record batch_reads (r r' : EventBatchRequest) : Prop := {
  br_wire_version : eb_wire_version r' = eb_wire_version r;
  br_agent_id : eb_agent_id r' = eb_agent_id r;
  br_node_name : eb_node_name r' = eb_node_name r;
  br_sequence : eb_sequence r' = eb_sequence r;
  br_sent_at : eb_sent_at_unix_nanos r' = eb_sent_at_unix_nanos r;
  br_events : Forall2 event_reads (eb_events r) (eb_events r');
}.

(** The keys of the facts are what they were. *)
Lemma json_like_rejects (a b : json) :
  json_like a b -> forall path, reject_reasoning_fields path b = reject_reasoning_fields path a.
Proof.
  revert b. induction a as [|x|x|x|x|x _|m IH] using json_nested_ind; intros j; destruct j as [|y|y|y|y|y|m']; try done.
  intros Hl path. simpl in *. revert m' Hl. induction IH as [|[k x] m Hx _ IHm]; intros [|[k' y] m']; try done.
  intros (<- & Hxy & Hm). destruct (is_reasoning_key k); [done|].
  cbn [snd] in Hx. rewrite (Hx y Hxy). destruct (reject_reasoning_fields _ x); simpl; [by apply IHm|reflexivity].
Qed.

Lemma batch_reads_valid (r r' : EventBatchRequest) (limit : Z) :
  batch_reads r r' -> EventBatchRequest_validate r limit = Ok tt ->
  EventBatchRequest_validate r' limit = Ok tt /\ zlen (eb_events r') = zlen (eb_events r).
Proof.
  intros [H1 H2 H3 _ _ He] Hv.
  assert (Hl : zlen (eb_events r') = zlen (eb_events r)) by (unfold zlen; by rewrite (Forall2_length _ _ _ He)).
  split; [|done]. apply event_batch_validate_accepts. apply event_batch_validate_accepts in Hv as (V1 & V2 & V3 & V4 & V5).
  rewrite H1, H2, H3, Hl. do 4 (split; [done|]). clear -He V5.
  induction He as [|e e' es es' [E1 _ E3 _ E5] _ IH]; [constructor|]. apply Forall_cons in V5 as [V V5].
  constructor; [|by apply IH]. apply WireEvent_validate_Ok. apply WireEvent_validate_Ok in V.
  unfold WireEvent_validate in *. by rewrite E1, E3, (json_like_rejects _ _ E5).
Qed.

(** C8. The controller accepts every batch the agent's worker cuts its buffer into
    and whose body it takes and decodes: when the buffered events are valid, as
    converted occurrences are, the agent has a name and keeps to the
    controller's batch size, and the body of the batch is read back as
    serde_json does, floats among the facts up to a last digit, the POST of each batch is answered 200 with its events counted in full and
    none rejected, and the total moves by them.  That is unless the body is
    longer than the controller's limit of 262144 bytes, which the agent's
    reckoning of a batch's size does not exclude: then the answer is 413 and
    nothing changes. *)
Theorem agent_batches_are_accepted (encode_batch : EventBatchRequest -> result string string)
    (encode_event : WireEvent -> result string string)
    (decode_batch : string -> result EventBatchRequest JsonRejection) (text : string)
    (header_value_ok : string -> bool) (k : Worker) (max_batch_events now received_at : Z)
    (s : InnerState)
    (Hid : blank (ctl_agent_id (wk_controller k)) = false)
    (Hnode : blank (ctl_node_name (wk_controller k)) = false)
    (Hevents : Forall (fun e => WireEvent_validate e = Ok tt) (wk_buffer k))
    (Hmax : 1 <= max_batch_events <= bc_max_batch_events (cr_batching (in_config s))) :
  Forall (fun batch => forall body received,
      encode_batch (batch_request k batch now) = Ok body ->
      decode_batch body = Ok received -> batch_reads (batch_request k batch now) received ->
      let '(answer, s') :=
        route header_value_ok (PostEvents (json_body decode_batch text body)) received_at s in
      if slen body <=? 262144
      then answer = json_response 200 (BodyEvents
             {| ebr_wire_version := WIRE_VERSION; ebr_accepted := zlen batch; ebr_rejected := 0;
                ebr_next_config_version := cr_version (in_config s) |}) /\
           in_accepted_events_total s' = wrap64 (in_accepted_events_total s + zlen batch)
      else api_status answer = 413 /\ s' = s)
    (split_events_by_size encode_batch encode_event (wk_buffer k) max_batch_events (wk_max_request_bytes k)).
Proof.
  set (batches := split_events_by_size _ _ _ _ _).
  assert (Hc : concat batches = wk_buffer k) by (unfold batches, split_events_by_size; by rewrite split_loop_concat).
  assert (Hne : Forall (fun b => b <> []) batches) by apply split_loop_nonempty.
  assert (Hn : Forall (fun b => zlen b <= max_batch_events) batches).
  { apply split_loop_count; [lia|rewrite zlen_nil; lia]. }
  rewrite Forall_forall in Hne, Hn |- *. intros b Hb.
  assert (Hv : EventBatchRequest_validate (batch_request k b now)
    (bc_max_batch_events (cr_batching (in_config s))) = Ok tt).
  { unfold EventBatchRequest_validate. autorewrite with tapio. cbn [batch_request eb_wire_version
      eb_agent_id eb_node_name eb_events].
    rewrite (proj2 (is_empty_false b) (Hne b Hb)).
    destruct (Z.ltb_spec (bc_max_batch_events (cr_batching (in_config s))) (zlen b)) as [Hlt|_].
    { specialize (Hn b Hb). lia. }
    autorewrite with tapio. rewrite try_for_each_Ok. do 3 (split; [done|]). split; [|done].
    rewrite <- Hc in Hevents. rewrite Forall_forall in Hevents |- *. intros e He. apply Hevents.
    apply list_elem_of_In, in_concat. exists b. by rewrite <- !list_elem_of_In. }
  intros body received _ Hd Hr. unfold json_body. change MAX_REQUEST_BODY_BYTES with 262144.
  destruct (Z.ltb_spec 262144 (slen body)) as [Hlt|Hle]; [rewrite (proj2 (Z.leb_gt _ _)) by lia; done|].
  rewrite (proj2 (Z.leb_le _ _)) by lia. rewrite Hd. cbn [route handle_events json_payload map_err].
  destruct (batch_reads_valid _ _ _ Hr Hv) as [Hv' Hl].
  change (zlen (eb_events (batch_request k b now))) with (zlen b) in Hl.
  unfold record_event_batch. by rewrite Hv', Hl.
Qed.

(** A profile the controller loads reaches the kernel maps as written: whatever
    document validates and compiles, the response built from it is one the
    agent accepts, and the record the agent writes for it enables the profile's
    observers, holds its I/O thresholds in nanoseconds and its exit codes in
    full, under the response's generation. *)
Lemma loaded_profile_reaches_kernel (parse_yaml : string -> result EvidenceProfile string)
    (config_json : CompiledConfig -> result string string) (sha256 : string -> list Z)
    (yaml : string) (path : option string) (c : CompiledConfig) (generation : Z) (r : ConfigResponse)
    (Hyaml : compile_profile_yaml parse_yaml yaml path = Ok c) (Hgen : 0 <= generation <= U32_MAX)
    (Hresp : config_response_from_compiled config_json sha256 c generation = Ok r) :
  exists v t, profile_compile v = c /\ profile_wf (resolved v) /\
    acceptable r generation t /\ tc_generation t = generation /\
    observer_enabled t TAPIO_F_STORAGE = rs_enabled (res_storage (resolved v)) /\
    tc_slow_io_threshold_ns t = 1000000 * rs_slow_io_warning_ms (res_storage (resolved v)) /\
    tc_io_latency_critical_ns t = 1000000 * rs_slow_io_critical_ms (res_storage (resolved v)) /\
    kernel_exit_codes t = rc_ignore_exit_codes (res_container (resolved v)).
Proof.
  destruct (loaded_profile_kernel _ _ _ _ _ _ _ _ Hyaml Hgen Hresp) as (p & v & t & _ & _ & <- & Hwf & Ha & Hk & Hg).
  destruct (compile_exact v Hwf) as [_ _ _ Hw Hcr _ _ _ _ Hcount _]. destruct Hk as [_ Hst _ _ Hcodes _ _ [Hio1 Hio2] _].
  exists v, t. split; [done|]. split; [done|]. split; [exact Ha|]. split; [done|].
  split; [exact Hst|]. split; [by rewrite Hio1|]. split; [by rewrite Hio2|].
  rewrite Hcodes. change (cc_ignore_exit_codes (cfg_container (profile_compile v)))
    with (rc_ignore_exit_codes (res_container (resolved v))) in *.
  apply take_ge. unfold zlen in Hcount. lia.
Qed.

(** C17. The conditional poll means what it says: to the request an agent makes for
    its configuration, with the tag it kept from the hash [h], the controller
    answers 304 exactly when [h] is the hash of the configuration it runs, and
    200 with that configuration otherwise. *)
Theorem conditional_poll_agrees (header_value_ok : string -> bool) (c : ControllerConfig) (h : string)
    (s : InnerState)
    (Hid : ctl_agent_id c <> EmptyString) (Hnode : ctl_node_name c <> EmptyString) :
  let response := handle_config header_value_ok (Some (config_query c)) (Some (etag_of h)) s in
  if String.eqb h (cr_config_hash (in_config s)) then api_status response = 304
  else api_status response = 200 /\ api_body response = BodyConfig (in_config s).
Proof.
  cbn zeta. rewrite handle_config_cases. destruct (config_query_params c) as [-> ->].
  unfold config_for. rewrite !url_component_not_blank by done.
  unfold if_none_match_matches, etag_of, quoted_etag. rewrite trim_quoted.
  destruct (String.eqb_spec h (cr_config_hash (in_config s))) as [->|Hne].
  - rewrite String.eqb_refl. by destruct (insert_etag_fields header_value_ok
      (quote_str +:+ cr_config_hash (in_config s) +:+ quote_str)
      {| api_status := 304; api_etag := None; api_body := BodyEmpty |}) as [-> _].
  - destruct (String.eqb_spec (quote_str +:+ h +:+ quote_str)
      (quote_str +:+ cr_config_hash (in_config s) +:+ quote_str)) as [E|_].
    { by apply quoted_inj in E. }
    destruct (insert_etag_fields header_value_ok
      (quote_str +:+ cr_config_hash (in_config s) +:+ quote_str)
      (json_response 200 (BodyConfig (in_config s)))) as [-> ->]. done.
Qed.

(** * A session of an agent with its controller *)

Section Session.
Variable utf8_error : string -> string.
Variable decode_config : string -> result ConfigResponse string.
Variable writable : nat -> Z -> bool.
Context {W : Type} `{Net W}.

(** An agent that registers, polls and sends a heartbeat has converged: the
    controller accepts its hello and its heartbeat, the heartbeat reports the
    hash of the configuration the poll applied, so the controller lists the
    agent as registered, no longer as unconverged, and not as stale until the
    heartbeat is older than the age allowed. *)
Lemma session_converges (c : ControllerConfig) (package_version arch kernel_release : string)
    (s0 : InnerState) (ps : PollState) (w : W) (g : Z) (t : TapioConfig)
    (metrics : TapioMetrics) (registered_at elapsed seen_at now max_age : Z)
    (Hid : blank (ctl_agent_id c) = false) (Hnode : blank (ctl_node_name c) = false)
    (Hversion : blank package_version = false) (Harch : blank arch = false)
    (Hkernel : blank kernel_release = false)
    (Hserved : poll_accepts decode_config (fst (poll_response utf8_error c (po_etag ps) w))
               = Some (in_config s0, g, t))
    (Hage : 0 <= now - seen_at <= max_age) :
  let '(hello, s1) :=
    register_agent (build_hello_request package_version arch c kernel_release) registered_at s0 in
  let ps' := fst (poll_tick utf8_error decode_config writable true c ps w) in
  let '(heartbeat, s2) :=
    record_heartbeat (build_heartbeat_request c metrics (po_active ps') elapsed) seen_at s1 in
  hello = Ok (HelloResponse_from_config CONTROLLER_ID (in_config s0)) /\
  heartbeat = Ok (HeartbeatResponse_new_accepted (cr_version (in_config s0))) /\
  is_Some (bt_get (ctl_agent_id c) (in_agents s2)) /\
  ~ In (ctl_agent_id c) (unconverged_agents (cr_config_hash (in_config s0)) s2) /\
  ~ In (ctl_agent_id c) (stale_agents max_age now s2).
Proof.
  pose proof (poll_tick_accepted utf8_error decode_config writable true c ps w _ g t eq_refl Hserved) as Ht.
  destruct (update_all writable t (po_carriers ps) (po_maps ps)) as [[failed cs] m].
  unfold register_agent. rewrite hello_valid by done. cbn zeta. rewrite Ht. cbn [fst po_active].
  assert (Hg : 0 <= g).
  { unfold poll_accepts in Hserved. destruct (fst (poll_response utf8_error c (po_etag ps) w)) as [resp|]; [|done].
    destruct (resp_status resp =? 200); [|done].
    destruct (accept_config decode_config (resp_body resp)) as [x|] eqn:Ea; [|done]. injection Hserved as ->.
    apply accept_config_Ok in Ea as (_ & _ & _ & Hp & _). apply parse_unsigned_range in Hp. lia. }
  unfold record_heartbeat. unfold build_heartbeat_request at 1.
  rewrite heartbeat_valid; [|done|done| |].
  2: { intros a [= <-]. by apply dec_not_blank. }
  2: { cbn [sn_observers]. apply is_empty_false, observer_statuses_nonempty. }
  split; [done|]. split; [done|]. cbn [in_agents].
  split; [rewrite bt_get_insert_eq; eauto|].
  unfold unconverged_agents, stale_agents. rewrite !List.filter_In.
  unfold is_unconverged, is_stale, last_heartbeat, duration_since.
  cbn [in_last_heartbeats build_heartbeat_request build_heartbeat hb_agent_id sn_agent_id].
  change (hb_agent_id (build_heartbeat_request c metrics _ elapsed)) with (ctl_agent_id c).
  rewrite !bt_get_insert_eq. cbn [sh_heartbeat sh_seen_at]. split; intros [_ Hbad].
  - by rewrite (proj2 (String.eqb_eq _ _) eq_refl) in Hbad.
  - destruct (Z.leb_spec seen_at now); [|lia]. destruct (Z.ltb_spec max_age (now - seen_at)); [lia|done].
Qed.
End Session.

(** * Witnesses *)

(** An environment that is a clock, with one identifier and no files. *)
#[export] Instance clock_env : Env Z := {
  env_now := fun t => (t, t);
  env_id := fun t => ("01J0000000000000000000000", t);
  env_thresholds := fun _ => {| pt_stall_pct_warning := f64_of_Z 20;
                                pt_stall_pct_critical := f64_of_Z 40; pt_ipc_degradation := f64_of_Z 1 |};
  env_read_file := fun _ _ => None;
}.

Lemma anomalies_are_deliverable_witness :
  exists o, fst (fst (storage_observe 1000 (write_storage_event sample_storage) tt 0)) =
      Some (STORAGE_IO_ERROR, o) /\
    deliverable "storage" STORAGE_IO_ERROR 5000001000 o.
Proof.
  eexists. split; [reflexivity|].
  refine (proj1 (proj2 (proj2 (anomalies_are_deliverable 1000 (write_storage_event sample_storage) 0)))
    tt STORAGE_IO_ERROR _ tt 0 _).
  reflexivity.
Defined.

(** The first of the three batches five events are cut into. *)
Lemma agent_batches_are_accepted_witness :
  let request := batch_request sample_worker (replicate 2 sample_event) 0 in
  exists body, sized_batch request = Ok body /\
  let '(answer, s') :=
    route (fun _ => true) (PostEvents (json_body (fun _ => Ok request) "length limit exceeded" body)) 0
      (InnerState_new ConfigResponse_default_v1 0) in
  answer = json_response 200 (BodyEvents
    {| ebr_wire_version := WIRE_VERSION; ebr_accepted := 2; ebr_rejected := 0; ebr_next_config_version := "1" |}) /\
  in_accepted_events_total s' = 2.
Proof.
  pose proof (agent_batches_are_accepted sized_batch sized_event
    (fun _ => Ok (batch_request sample_worker (replicate 2 sample_event) 0)) "length limit exceeded" (fun _ => true)
    sample_worker 3 0 0 (InnerState_new ConfigResponse_default_v1 0) eq_refl eq_refl
    ltac:(repeat constructor) ltac:(split; vm_compute; congruence)) as H.
  assert (E : split_events_by_size sized_batch sized_event (wk_buffer sample_worker) 3 (wk_max_request_bytes sample_worker)
    = [replicate 2 sample_event; replicate 2 sample_event; [sample_event]]) by (vm_compute; reflexivity).
  rewrite E in H. apply Forall_inv in H.
  eexists. split; [vm_compute; reflexivity|]. apply (H _ _ eq_refl eq_refl).
  constructor; [reflexivity..|]. repeat constructor; reflexivity.
Defined.

Lemma loaded_profile_reaches_kernel_witness :
  exists r, config_response_from_compiled (fun _ => Ok "{}") (fun _ => [255; 0])
      (profile_compile sample_validated) 1 = Ok r /\
    exists v t, profile_compile v = profile_compile sample_validated /\ profile_wf (resolved v) /\
      acceptable r 1 t /\ tc_generation t = 1 /\
      observer_enabled t TAPIO_F_STORAGE = rs_enabled (res_storage (resolved v)) /\
      tc_slow_io_threshold_ns t = 1000000 * rs_slow_io_warning_ms (res_storage (resolved v)) /\
      tc_io_latency_critical_ns t = 1000000 * rs_slow_io_critical_ms (res_storage (resolved v)) /\
      kernel_exit_codes t = rc_ignore_exit_codes (res_container (resolved v)).
Proof.
  eexists. split; [reflexivity|].
  refine (loaded_profile_reaches_kernel (fun _ => Ok sample_profile) (fun _ => Ok "{}") (fun _ => [255; 0])
    "" None _ 1 _ _ _ eq_refl).
  - vm_compute. reflexivity.
  - unfold U32_MAX. lia.
Defined.

Lemma conditional_poll_agrees_witness :
  api_status (handle_config (fun _ => true) (Some (config_query sample_controller)) (Some (etag_of "abc"))
    (InnerState_new sample_config_response 0)) = 304.
Proof.
  exact (conditional_poll_agrees (fun _ => true) sample_controller "abc"
    (InnerState_new sample_config_response 0) ltac:(discriminate) ltac:(discriminate)).
Defined.

Definition sample_kernel : TapioConfig :=
  match tapio_config_from_compiled (cr_config sample_config_response) "7" with
  | Ok t => t
  | Err _ => TapioConfig_default
  end.

Lemma session_converges_witness :
  let '(hello, s1) := register_agent (build_hello_request "4.0.0" "x86_64" sample_controller "6.8.0") 0
                        (InnerState_new sample_config_response 0) in
  let ps' := fst (poll_tick (fun _ => EmptyString) sample_decode write_works true sample_controller
                    sample_poll_state sample_reads) in
  let '(heartbeat, s2) :=
    record_heartbeat (build_heartbeat_request sample_controller TapioMetrics_new (po_active ps') 0) 10 s1 in
  hello = Ok (HelloResponse_from_config CONTROLLER_ID sample_config_response) /\
  heartbeat = Ok (HeartbeatResponse_new_accepted "7") /\
  is_Some (bt_get (ctl_agent_id sample_controller) (in_agents s2)) /\
  ~ In (ctl_agent_id sample_controller) (unconverged_agents "abc" s2) /\
  ~ In (ctl_agent_id sample_controller) (stale_agents 60 12 s2).
Proof.
  refine (session_converges (fun _ => EmptyString) sample_decode write_works
    sample_controller "4.0.0" "x86_64" "6.8.0" (InnerState_new sample_config_response 0) sample_poll_state
    sample_reads 7 sample_kernel TapioMetrics_new 0 0 10 12 60 eq_refl eq_refl eq_refl eq_refl eq_refl _ _).
  - vm_compute. reflexivity.
  - lia.
Defined.
