(* ===== verification/AgentLink.v ===== *)
(** The running agent and the controller it is configured from, joined by the
    network of [Link]: [Agent]'s process with the poll, the hello and the
    heartbeat going to the handlers of [ControllerHttp]. *)
From Stdlib Require Import String.
From S2P Require Import Prelude RustStr BTree Wire CommonEbpf PmcObs Metrics Httpc AgentConfig Heartbeat.
From S2P Require Import Carriers Poll Registration Controller NetAddr ControllerHttp ControllerSink Delivery Link.
From S2P Require Import Setup Drain AgentMain AgentRun Agent System.

Local Open Scope Z_scope.

Section AgentLink.
Variable utf8_error : string -> string.
Variable package_version arch : string.
Variable encode_hello : HelloRequest -> result string string.
Variable decode_hello : string -> result HelloResponse string.
Variable encode_heartbeat : HeartbeatRequest -> result string string.
Variable decode_heartbeat : string -> result HeartbeatResponse string.
Variable decode_config : string -> result ConfigResponse string.
Variable header_value_ok : string -> bool.
Variable extract : string -> string -> http_request.
Variable render : ApiResponse -> string.
Variable payload : ApiBody -> string.

#[local] Instance agent_net : Net link := link_net header_value_ok extract render.

(** The agent, and the configuration of the controller. *)
Variable c : ControllerConfig.
Variable config : ConfigResponse.

Definition config_headers (etag : option string) : list (string * string) :=
  match etag with Some e => [("If-None-Match", e)] | None => [] end.

(** The entity tags the agent comes to send. *)
Definition tag_ok (etag : option string) : Prop :=
  etag = None \/ etag = Some (etag_of (cr_config_hash config)).

Variable host : string.

(** What hyper, axum and serde_json do with the exchanges in play: the query and
    the entity tag of a poll are found again, a heartbeat is decoded to what
    was encoded, an answer is read back with its status and its body, the
    configuration decodes to itself and, cut short, not at all. *)
Record config_wiring : Prop := {
  cw_poll : forall etag, tag_ok etag ->
    extract (request_head "GET" ("/v1/agents/config?" +:+ config_query c) host (config_headers etag) EmptyString)
      EmptyString = GetConfig (Some (config_query c)) etag;
  cw_heartbeat : forall heartbeat body, encode_heartbeat heartbeat = Ok body ->
    extract (request_head "POST" "/v1/agents/heartbeat" host [("Content-Type", "application/json")] body) body
      = PostHeartbeat (Ok heartbeat);
  cw_hello : forall hello body, encode_hello hello = Ok body ->
    extract (request_head "POST" "/v1/agents/hello" host [("Content-Type", "application/json")] body) body
      = PostHello (Ok hello);
  cw_answer : forall a, In (api_status a) API_STATUSES ->
    parse_response utf8_error (render a) =
      Ok {| resp_status := api_status a; resp_body := payload (api_body a) |};
  cw_config : decode_config (payload (BodyConfig config)) = Ok config;
  cw_cut : forall b t, b +:+ t = payload (BodyConfig config) -> t <> EmptyString ->
    is_ok (decode_config b) = false;
}.

Hypothesis Hhost : strip_prefix (trim_end_matches "/" (ctl_endpoint c)) "http://" = Some host.
Hypothesis Hslash : contains_char "/" host = false.
Hypothesis Hwiring : config_wiring.

(** * One poll *)

Notation poll_head etag :=
  (request_head "GET" ("/v1/agents/config?" +:+ config_query c) host (config_headers etag) EmptyString).
Notation response := (poll_response (H := agent_net) utf8_error c).

Lemma poll_exchange (etag : option string) (w : link) :
  response etag w =
  let '(outcome, w') := link_exchange header_value_ok extract render (poll_head etag) EmptyString w in
  (match outcome with
   | ConnectFailed e => Err ("connect: " +:+ e)
   | WriteFailed e => Err ("write: " +:+ e)
   | WriteBodyFailed e => Err ("write body: " +:+ e)
   | Connected reads => read_response utf8_error reads DEFAULT_MAX_RESPONSE_BYTES
   end, w').
Proof.
  unfold poll_response, http_get, request. rewrite config_url_query, str_app_assoc.
  rewrite (strip_prefix_extends _ _ _ _ Hhost). unfold host_and_path.
  change ("/v1/agents/config?" +:+ config_query c) with (String "/" ("v1/agents/config?" +:+ config_query c)).
  by rewrite split_before_app.
Qed.

(** The answer of the configuration endpoint, whatever it is asked. *)
Lemma config_answer (query header : option string) (s : InnerState) :
  let a := handle_config header_value_ok query header s in
  In (api_status a) API_STATUSES /\ (api_status a = 200 -> api_body a = BodyConfig (in_config s)).
Proof.
  cbv zeta. rewrite handle_config_cases.
  destruct (query_param query "agent_id") as [a|]; [|by split; [simpl; auto 10|]].
  destruct (query_param query "node_name") as [n|]; [|by split; [simpl; auto 10|]].
  unfold config_for. destruct (blank a); [by split; [simpl; auto 10|]|]. destruct (blank n); [by split; [simpl; auto 10|]|].
  cbv beta iota zeta. destruct (if_none_match_matches header (quoted_etag (cr_config_hash (in_config s)))).
  - set (r := {| api_status := 304; api_etag := None; api_body := BodyEmpty |}).
    destruct (insert_etag_fields header_value_ok (quoted_etag (cr_config_hash (in_config s))) r) as [-> ->].
    by split; [simpl; auto|].
  - set (r := json_response 200 _).
    destruct (insert_etag_fields header_value_ok (quoted_etag (cr_config_hash (in_config s))) r) as [-> ->].
    by split; [simpl; auto|].
Qed.

(** Whatever part of an answer arrives, what the poll accepts of it is the
    controller's configuration. *)
Lemma accepted_is_config (a : ApiResponse) (s t : string) (r : ConfigResponse) (g : Z) (tc : TapioConfig) :
  In (api_status a) API_STATUSES -> (api_status a = 200 -> api_body a = BodyConfig config) ->
  s +:+ t = render a ->
  poll_accepts decode_config (read_response utf8_error [ReadData s] DEFAULT_MAX_RESPONSE_BYTES) = Some (r, g, tc) ->
  r = config /\ acceptable config g tc.
Proof.
  intros Ha Hb Ht. unfold poll_accepts.
  destruct (read_response utf8_error [ReadData s] DEFAULT_MAX_RESPONSE_BYTES) as [resp|e] eqn:Er; [|done].
  apply read_one_Ok in Er. pose proof (cw_answer Hwiring a Ha) as Hp. rewrite <- Ht in Hp.
  destruct (parse_response_prefix _ _ _ _ _ Hp Er) as [Hst Hbody]. simpl in Hst, Hbody.
  destruct (Z.eqb_spec (resp_status resp) 200) as [E|_]; [|done].
  rewrite Hb in Hbody by congruence.
  destruct (accept_config decode_config (resp_body resp)) as [[[r' g'] t']|e] eqn:Ea; [|done].
  intros [= -> -> ->]. apply accept_config_Ok in Ea as [Hd Hacc].
  destruct (string_dec t EmptyString) as [->|Hne].
  - rewrite str_app_nil_r in Hbody. rewrite Hbody, (cw_config Hwiring) in Hd. injection Hd as <-. done.
  - pose proof (cw_cut Hwiring _ _ Hbody Hne) as Hc. by rewrite Hd in Hc.
Qed.

Lemma poll_accepts_config (etag : option string) (w : link) (r : ConfigResponse) (g : Z) (t : TapioConfig) :
  tag_ok etag -> in_config (lk_controller w) = config ->
  poll_accepts decode_config (fst (response etag w)) = Some (r, g, t) -> r = config /\ acceptable config g t.
Proof.
  intros Htag Hw. rewrite poll_exchange. unfold link_exchange.
  destruct (lk_plan w) as [|h rest]; [done|].
  assert (Hb : in_config (lk_controller (link_before h rest w)) = config) by (rewrite <- Hw; apply steps_config).
  unfold link_serve. rewrite (cw_poll Hwiring etag Htag). cbn [route processed].
  pose proof (config_answer (Some (config_query c)) etag (lk_controller (link_before h rest w))) as [Ha Hbody].
  rewrite Hb in Hbody. set (a := handle_config _ _ _ _) in *.
  destruct (hop_fate h) as [e|e|e|n|]; simpl fst; try done.
  - destruct (str_take_app n (render a)) as [u Hu]. by apply (accepted_is_config a _ u).
  - apply (accepted_is_config a _ EmptyString); [done|done|apply str_app_nil_r].
Qed.

Lemma link_keeps_config (host' head body : string) (w : link) :
  in_config (lk_controller w) = config -> in_config (lk_controller (snd (net_exchange host' head body w))) = config.
Proof. apply (exchange_keeps _ _ _ (fun s => in_config s = config)), step_config. Qed.

(** Nor does the controller forget an agent. *)
Definition registered (w : link) : Prop := is_Some (bt_get (ctl_agent_id c) (in_agents (lk_controller w))).

Lemma step_registered (s : InnerState) (r : ctl_request) :
  is_Some (bt_get (ctl_agent_id c) (in_agents s)) -> is_Some (bt_get (ctl_agent_id c) (in_agents (ctl_step s r))).
Proof.
  intros Hs. destruct r as [hello now|hb now|b]; simpl; unfold register_agent, record_heartbeat, record_event_batch;
    case_match; try done. cbn [snd in_agents].
  destruct (decide (hello_agent_id hello = ctl_agent_id c)) as [->|]; [rewrite bt_get_insert_eq|rewrite bt_get_insert_ne];
    eauto.
Qed.

Lemma link_keeps_registered (host' head body : string) (w : link) :
  registered w -> registered (snd (net_exchange host' head body w)).
Proof.
  apply (exchange_keeps _ _ _ (fun s => is_Some (bt_get (ctl_agent_id c) (in_agents s)))), step_registered.
Qed.

(** The post of a hello or a heartbeat is one exchange. *)
Lemma post_exchange (path body : string) (max : Z) (w : link) :
  post_json_response (H := agent_net) utf8_error (trim_end_matches "/" (ctl_endpoint c) +:+ String "/" path) body max w =
  let '(outcome, w') :=
    link_exchange header_value_ok extract render
      (request_head "POST" (String "/" path) host [("Content-Type", "application/json")] body) body w in
  (match outcome with
   | ConnectFailed e => Err ("connect: " +:+ e)
   | WriteFailed e => Err ("write: " +:+ e)
   | WriteBodyFailed e => Err ("write body: " +:+ e)
   | Connected reads => read_response utf8_error reads max
   end, w').
Proof.
  unfold post_json_response, request. rewrite (strip_prefix_extends _ _ _ _ Hhost). unfold host_and_path.
  by rewrite split_before_app.
Qed.

(** A hello that is answered has registered the agent. *)
Lemma hello_registers (kernel_release : string) (w : link) :
  let '(r, w') := hello_once (H := agent_net) utf8_error package_version arch encode_hello decode_hello c
                    kernel_release w in
  is_ok r = true -> registered w'.
Proof.
  unfold hello_once, exchange_once. set (hello := build_hello_request package_version arch c kernel_release).
  destruct (HelloRequest_validate hello) as [[]|e] eqn:Ev; [|done].
  destruct (encode_hello hello) as [body|e] eqn:Eb; [|done].
  unfold hello_url. change "/v1/agents/hello" with (String "/" "v1/agents/hello"). rewrite post_exchange.
  unfold link_exchange. destruct (lk_plan w) as [|h rest]; [done|].
  unfold link_serve. rewrite (cw_hello Hwiring hello body Eb).
  cbn [route processed]. unfold handle_hello, register_agent. cbn [json_payload map_err]. rewrite Ev.
  destruct (hop_fate h); try done; intros _; unfold registered; simpl; rewrite bt_get_insert_eq; by eexists.
Qed.

(** ** Answered exchanges *)

Hypothesis Hid : blank (ctl_agent_id c) = false.
Hypothesis Hnode : blank (ctl_node_name c) = false.

Lemma exchange_plan (head body : string) (w : link) :
  lk_plan (snd (link_exchange header_value_ok extract render head body w)) = tail (lk_plan w).
Proof.
  assert (Hs : forall w, lk_plan (snd (link_serve header_value_ok extract head body w)) = lk_plan w).
  { intros w'. unfold link_serve. by destruct (route _ _ _ _). }
  unfold link_exchange. destruct (lk_plan w) as [|h rest] eqn:E; [simpl; by rewrite ?E|].
  specialize (Hs (link_before h rest w)).
  destruct (hop_fate h); try done; by destruct (link_serve _ _ _ _ (link_before h rest w)).
Qed.

(** The answer to a poll of a named agent: the configuration, or 304 for its tag. *)
Lemma config_answer_named (etag : option string) (s : InnerState) :
  tag_ok etag -> in_config s = config ->
  let a := handle_config header_value_ok (Some (config_query c)) etag s in
  match etag with
  | None => api_status a = 200 /\ api_body a = BodyConfig config
  | Some _ => api_status a = 304
  end.
Proof.
  intros Htag Hs. cbv zeta. rewrite handle_config_cases. destruct (config_query_params c) as [-> ->].
  unfold config_for. rewrite !url_component_not_blank by (intros E; by rewrite E in *).
  cbv beta iota zeta. rewrite Hs. destruct Htag as [-> | ->]; cbn [if_none_match_matches].
  - set (r := json_response 200 _).
    by destruct (insert_etag_fields header_value_ok (quoted_etag (cr_config_hash config)) r) as [-> ->].
  - change (etag_of (cr_config_hash config)) with (quoted_etag (cr_config_hash config)).
    unfold quoted_etag at 1. rewrite trim_quoted. fold (quoted_etag (cr_config_hash config)). rewrite String.eqb_refl.
    set (r := {| api_status := 304; api_etag := None; api_body := BodyEmpty |}).
    by destruct (insert_etag_fields header_value_ok (quoted_etag (cr_config_hash config)) r) as [-> _].
Qed.

Hypothesis Hfits : forall a, api_status a = 200 -> api_body a = BodyConfig config -> slen (render a) <= DEFAULT_MAX_RESPONSE_BYTES.

(** A poll without a tag that is answered accepts the configuration. *)
Lemma answered_poll_accepts (w : link) (h : hop) (rest : list hop) (g : Z) (t : TapioConfig) :
  in_config (lk_controller w) = config -> lk_plan w = h :: rest -> hop_fate h = Answered ->
  acceptable config g t ->
  poll_accepts decode_config (fst (response None w)) = Some (config, g, t).
Proof.
  intros Hw Hp Hf Hacc. rewrite poll_exchange. unfold link_exchange. rewrite Hp, Hf.
  assert (Hb : in_config (lk_controller (link_before h rest w)) = config) by (rewrite <- Hw; apply steps_config).
  unfold link_serve. rewrite (cw_poll Hwiring None (or_introl eq_refl)). cbn [route processed].
  pose proof (config_answer_named None (lk_controller (link_before h rest w)) (or_introl eq_refl) Hb) as [Hst Hbody].
  set (a := handle_config _ _ _ _) in *. cbn [fst].
  rewrite read_one_fits by by apply Hfits.
  rewrite (cw_answer Hwiring a) by (rewrite Hst; simpl; auto). unfold poll_accepts. cbn [resp_status resp_body].
  rewrite Hst, Hbody. cbn [Z.eqb Pos.eqb].
  by rewrite (proj2 (accept_config_Ok decode_config _ config g t) (conj (cw_config Hwiring) Hacc)).
Qed.

(** A heartbeat that arrives is stored. *)
Lemma heartbeat_arrives (heartbeat : HeartbeatRequest) (w : link) (h : hop) (rest : list hop) :
  lk_plan w = h :: rest -> arrives (hop_fate h) = true -> is_ok (encode_heartbeat heartbeat) = true ->
  HeartbeatRequest_validate heartbeat = Ok tt ->
  let w' := snd (exchange_once (H := agent_net) utf8_error "HeartbeatRequest" "HeartbeatResponse" (heartbeat_url c)
    MAX_HEARTBEAT_RESPONSE_BYTES HeartbeatRequest_validate encode_heartbeat decode_heartbeat HeartbeatResponse_validate
    heartbeat w) in
  exists seen_at, last_heartbeat (hb_agent_id heartbeat) (lk_controller w') =
    Some {| sh_heartbeat := heartbeat; sh_seen_at := seen_at |}.
Proof.
  intros Hp Ha He Hv. unfold exchange_once. rewrite Hv.
  destruct (encode_heartbeat heartbeat) as [body|e] eqn:Eb; [|done].
  unfold heartbeat_url. change "/v1/agents/heartbeat" with (String "/" "v1/agents/heartbeat"). rewrite post_exchange.
  unfold link_exchange. rewrite Hp. unfold link_serve. rewrite (cw_heartbeat Hwiring heartbeat body Eb).
  cbn [route processed]. unfold handle_heartbeat, record_heartbeat. cbn [json_payload map_err]. rewrite Hv.
  destruct (hop_fate h); try done; cbn [fst snd lk_controller]; unfold last_heartbeat; simpl;
    rewrite bt_get_insert_eq; by eexists.
Qed.

(** * The agent *)

Section Process.
Variable writable : nat -> Z -> bool.
Variable boot_offset_ns : Z.
Variable ebpf_dir : string.
Variable start : AgentStart.
Hypothesis Hcontroller : ag_controller start = Some c.
Context {W : Type} `{Aya W} `{Env W} `{Reporter W} `{Outside W}.

Notation world := (AgentWorld W link).
#[local] Instance link_bodies : Bodies world :=
  agent_bodies (N := link) utf8_error package_version arch encode_hello decode_hello encode_heartbeat
    decode_heartbeat decode_config writable boot_offset_ns ebpf_dir start.

Definition starts_or_serves (t : TapioConfig) : Prop :=
  t = ag_tapio_config start \/ exists g, acceptable config g t.

(** On top of the invariant of the agent: the controller still has its
    configuration, what runs, if anything was applied, is that one, and no map
    holds any other, the one the agent starts with apart. *)
Record link_agent_inv (a : world) : Prop := {
  la_agent : agent_inv start a;
  la_config : in_config (lk_controller (aw_network a)) = config;
  la_tag : tag_ok (aw_etag a);
  la_registered : aw_registration a = RHeartbeat -> registered (aw_network a);
  la_only :
    match cst_current (ce_carriers (aw_cells a)) with
    | None => True
    | Some t => exists g, acceptable config g t /\
        ce_active (aw_cells a) =
          Some {| ac_version := dec g; ac_hash := cr_config_hash config; ac_flags := tc_flags t |} /\
        ce_thresholds (aw_cells a) = pmc_thresholds_from_compiled (cr_config config)
    end;
  la_held : hold_only starts_or_serves (ce_maps (aw_cells a));
}.

Lemma same_only_inv (a a' : world) :
  link_agent_inv a -> agent_inv start a' ->
  cst_current (ce_carriers (aw_cells a')) = cst_current (ce_carriers (aw_cells a)) ->
  ce_active (aw_cells a') = ce_active (aw_cells a) -> ce_thresholds (aw_cells a') = ce_thresholds (aw_cells a) ->
  aw_etag a' = aw_etag a -> in_config (lk_controller (aw_network a')) = config ->
  (aw_registration a' = RHeartbeat -> registered (aw_network a')) ->
  hold_only starts_or_serves (ce_maps (aw_cells a')) -> link_agent_inv a'.
Proof. intros [_ Hc Ht _ Ho _] Ha Ec Ea Eth Ee En Hm. constructor; rewrite ?Ec, ?Ea, ?Eth, ?Ee; done. Qed.

(** The loop sends heartbeats after an answered hello only. *)
Lemma reg_step_heartbeat (s s' : RegState) (ev : reg_event) :
  reg_step s ev = Some s' -> rg_phase s' = RHeartbeat ->
  rg_phase s = RHeartbeat \/ exists r, ev = EvHello r /\ is_ok r = true.
Proof.
  unfold reg_step. destruct (rg_phase s) as [b|b| |], ev as [[r|e]| |r|]; try done; try (intros [= <-] E; done);
    try by (intros; left).
  intros _ _. right. by eexists.
Qed.

(** What a turn of the registration does to the network: one exchange, or none. *)
Lemma registration_event_keeps (I : link -> Prop) (a : world) :
  (forall host head body w, I w -> I (snd (net_exchange host head body w))) -> I (aw_network a) ->
  I (snd (registration_event utf8_error package_version arch encode_hello decode_hello encode_heartbeat
            decode_heartbeat c a)).
Proof.
  intros Hk Hn. unfold registration_event, hello_once, heartbeat_once. destruct (aw_registration a); try done.
  - pose proof (exchange_once_keeps (H := agent_net) utf8_error I "HelloRequest" "HelloResponse" (hello_url c)
      MAX_HELLO_RESPONSE_BYTES HelloRequest_validate encode_hello decode_hello HelloResponse_validate
      (build_hello_request package_version arch c (kernel_release_from (out_osrelease (aw_outside a))))
      (aw_network a) Hk Hn) as He.
    by destruct (exchange_once _ _ _ _ _ _ _ _ _ _ _) as [r n].
  - pose proof (exchange_once_keeps (H := agent_net) utf8_error I "HeartbeatRequest" "HeartbeatResponse" (heartbeat_url c)
      MAX_HEARTBEAT_RESPONSE_BYTES HeartbeatRequest_validate encode_heartbeat decode_heartbeat HeartbeatResponse_validate
      (build_heartbeat_request c (ce_metrics (aw_cells a)) (ce_active (aw_cells a)) (out_elapsed (aw_outside a)))
      (aw_network a) Hk Hn) as He.
    by destruct (exchange_once _ _ _ _ _ _ _ _ _ _ _) as [r n].
Qed.

Lemma hello_event_registers (a : world) :
  let '(ev, n) := registration_event utf8_error package_version arch encode_hello decode_hello encode_heartbeat
                    decode_heartbeat c a in
  forall r, ev = EvHello r -> is_ok r = true -> registered n.
Proof.
  unfold registration_event. destruct (aw_registration a); try done.
  - pose proof (hello_registers (kernel_release_from (out_osrelease (aw_outside a))) (aw_network a)) as Hr.
    destruct (hello_once _ _ _ _ _ _ _ _) as [r n]. by intros r' [= <-].
  - by destruct (heartbeat_once _ _ _ _ _ _ _ _) as [r n].
Qed.

Lemma registration_turn_link (a : world) :
  link_agent_inv a ->
  link_agent_inv (registration_turn utf8_error package_version arch encode_hello decode_hello encode_heartbeat
                    decode_heartbeat c a).
Proof.
  intros Ha. pose proof (la_agent _ Ha) as Hi. pose proof (la_config _ Ha) as Hn.
  pose proof (registration_event_keeps (fun w => in_config (lk_controller w) = config) a link_keeps_config Hn) as Hc.
  pose proof (registration_event_keeps registered a link_keeps_registered) as Hr.
  pose proof (hello_event_registers a) as Hh.
  pose proof (registration_turn_inv utf8_error package_version arch encode_hello decode_hello encode_heartbeat
    decode_heartbeat start (H3 := agent_net) c a Hi) as Hi'.
  unfold registration_turn in *.
  destruct (registration_event _ _ _ _ _ _ _ c a) as [ev n]. cbn [snd] in Hc, Hr.
  apply (same_only_inv a); try done; [|apply (la_held _ Ha)].
  unfold put_registration. cbn [aw_registration aw_network].
  destruct (reg_step (registration_state a) ev) as [s|] eqn:E; cbn [default].
  - intros Hp. destruct (reg_step_heartbeat _ _ _ E Hp) as [Hb|(r & -> & Hok)]; [|by apply (Hh r)].
    by apply Hr, (la_registered _ Ha).
  - intros Hp. by apply Hr, (la_registered _ Ha).
Qed.

Lemma poll_turn_link (a : world) :
  link_agent_inv a -> link_agent_inv (poll_turn utf8_error decode_config writable c a).
Proof.
  intros Ha. pose proof (la_agent _ Ha) as Hi. pose proof (la_config _ Ha) as Hn. pose proof (la_tag _ Ha) as Htag.
  pose proof (poll_turn_inv utf8_error decode_config writable start (H3 := agent_net) c a Hcontroller Hi) as Hi'.
  pose proof (poll_tick_cases utf8_error decode_config writable true (H := agent_net) c (poll_state a) (aw_network a) eq_refl) as Hp.
  pose proof (poll_tick_world utf8_error decode_config writable true (H := agent_net) c (poll_state a) (aw_network a)) as Hw.
  unfold poll_turn in *.
  destruct (poll_tick utf8_error decode_config writable true c (poll_state a) (aw_network a)) as [s n].
  cbn [fst snd] in Hp, Hw.
  assert (Hkeep : forall I : link -> Prop,
    (forall host head body w, I w -> I (snd (net_exchange host head body w))) -> I (aw_network a) -> I n).
  { intros I HI Ha'. rewrite Hw. unfold poll_response, http_get. by apply (request_keeps (H := agent_net) utf8_error I). }
  pose proof (Hkeep (fun w => in_config (lk_controller w) = config) link_keeps_config Hn) as Hc.
  assert (Hr : aw_registration a = RHeartbeat -> registered n).
  { intros E. by apply (Hkeep registered link_keeps_registered), (la_registered _ Ha). }
  pose proof (la_held _ Ha) as Hheld.
  destruct Hp as [[_ [label ->]]|(r & g & t & Hacc & Hinst)]; [by apply (same_only_inv a)|].
  destruct (poll_accepts_config _ _ r g t Htag Hn Hacc) as [-> Hok].
  destruct Hinst as (_ & Hu & Ht & Hact & He & Hst).
  pose proof (update_all_current writable t (po_carriers (poll_state a)) (po_maps (poll_state a))) as Hcur.
  pose proof (update_all_hold_only writable starts_or_serves t (po_carriers (poll_state a)) (po_maps (poll_state a))
    ltac:(right; by exists g) Hheld) as Hh.
  destruct (update_all writable t (po_carriers (poll_state a)) (po_maps (poll_state a))) as [[failed cs] m].
  destruct Hu as [Hcs Hm]. simpl in Hcur, Hh. constructor; [exact Hi'|exact Hc|..]; simpl.
  - right. exact He.
  - exact Hr.
  - rewrite Hcs, Hcur. by exists g.
  - by rewrite Hm.
Qed.

Lemma link_enter (o : agent_task) (a : world) : link_agent_inv a -> link_agent_inv (snd (task_enter o a)).
Proof.
  intros Ha. destruct o as [| |o]; [done|done|].
  pose proof (observer_enter_inv writable ebpf_dir start o a (la_agent _ Ha)) as Hi.
  pose proof (task_setup_keeps writable
    (fun cs m => cst_current cs = cst_current (ce_carriers (aw_cells a)) /\ hold_only starts_or_serves m)
    o (ebpf_dir +:+ task_object o)
    (ag_tapio_config start) {| su_carriers := ce_carriers (aw_cells a); su_maps := ce_maps (aw_cells a);
       su_calls := aw_calls a; su_world := aw_outside a |}) as Hs.
  assert (Hcur : forall t, cst_current (ce_carriers (aw_cells a)) = Some t -> starts_or_serves t).
  { intros t E. pose proof (la_only _ Ha) as Ho. rewrite E in Ho. right. destruct Ho as (g & Hg & _). by exists g. }
  simpl. unfold observer_enter in *. destruct (task_setup _ _ _ _ _) as [x s]. destruct Hs as [Hs1 Hs2].
  - intros map_fd observer cs m [Hc Hm].
    pose proof (init_and_register_current writable map_fd observer (ag_tapio_config start) cs m) as Hc'.
    pose proof (init_and_register_hold_only writable starts_or_serves map_fd observer (ag_tapio_config start) cs m
      (or_introl eq_refl) ltac:(rewrite Hc; exact Hcur) Hm) as Hm'.
    destruct (init_and_register_tapio_config _ _ _ _ _ _) as [[ok cs'] m']. simpl in *. split; [congruence|done].
  - split; [done|apply (la_held _ Ha)].
  - apply (same_only_inv a); try done; [apply (la_config _ Ha)|apply (la_registered _ Ha)].
Qed.

Lemma link_turn (t : agent_task) (a : world) : link_agent_inv a -> link_agent_inv (task_turn t a).
Proof.
  intros Ha. simpl. unfold body_turn. rewrite Hcontroller.
  destruct t as [| |o]; [by apply registration_turn_link|by apply poll_turn_link|].
  pose proof (observer_turn_inv boot_offset_ns start o a (la_agent _ Ha)) as Hi.
  unfold observer_turn, observer_tick in *. pose proof (la_config _ Ha). pose proof (la_registered _ Ha).
  pose proof (la_held _ Ha).
  destruct o; destruct (out_arrived _ (aw_outside a)) as [arrived w]; destruct (tick _ _ _ _) as [ring s];
    by apply (same_only_inv a).
Qed.

(** Steps of the outside alone. *)
Lemma link_outside (w : W) (a : world) : link_agent_inv a -> link_agent_inv (with_cells (aw_cells a) w a).
Proof.
  intros Ha. pose proof (la_config _ Ha). pose proof (la_registered _ Ha). pose proof (la_held _ Ha).
  apply (same_only_inv a); try done. by apply outside_inv, la_agent.
Qed.

Lemma link_end (t : agent_task) (a : world) : link_agent_inv a -> link_agent_inv (task_end t a).
Proof.
  intros Ha. destruct t as [| |o]; [|done|by apply link_outside]. pose proof (la_config _ Ha). pose proof (la_held _ Ha).
  apply (same_only_inv a); try done; [by apply registration_put_inv, la_agent|].
  simpl. unfold registration_end, reg_step, registration_state.
  simpl. destruct (aw_registration a); intros E; cbn in E; discriminate E.
Qed.

Lemma link_serving (a : world) : link_agent_inv a -> link_agent_inv (snd (serve_turn a)).
Proof. intros Ha. simpl. unfold body_serve. destruct (out_accept (aw_outside a)) as [ev w]. by apply link_outside. Qed.

Lemma link_run_inv (evs : list process_event) (r r' : Process world) :
  link_agent_inv (pr_world r) -> process_run r evs = Some r' -> link_agent_inv (pr_world r').
Proof.
  apply process_run_world; auto using link_enter, link_turn, link_end, link_serving.
  intros a Ha. by apply link_outside.
Qed.

(** ** What the two sides come to *)

Variable env_var : string -> option string.
Variable feature_otlp : option (Z -> bool).
Variable started_at : Z.
Variable args : Args.
Variable cfg : Config.
Hypothesis Hstart : agent_start env_var feature_otlp started_at args cfg = Ok start.
Variable s0 : InnerState.
Hypothesis Hs0 : in_config s0 = config.

Notation started metrics w plan now := (agent_process start metrics w (link_start s0 plan now)).

Lemma started_inv (metrics : TapioMetrics) (w : W) (plan : list hop) (now : Z) (evs : list process_event)
    (r : Process world) :
  process_run (started metrics w plan now) evs = Some r -> link_agent_inv (pr_world r).
Proof.
  intros Hrun. apply (link_run_inv evs (started metrics w plan now) r); [|exact Hrun].
  constructor; simpl; [by eapply agent_world_inv|done|by left|done| |done].
  destruct (agent_start_cells _ _ _ _ _ _ Hstart) as (-> & _). done.
Qed.

(** A poll that is answered leaves the controller's configuration applied. *)
Lemma poll_turn_applies (a : world) (h : hop) (rest : list hop) (g : Z) (t : TapioConfig) :
  link_agent_inv a -> acceptable config g t -> lk_plan (aw_network a) = h :: rest -> hop_fate h = Answered ->
  let a' := poll_turn utf8_error decode_config writable c a in
  lk_plan (aw_network a') = rest /\ aw_registration a' = aw_registration a /\
  cst_current (ce_carriers (aw_cells a')) = Some t.
Proof.
  intros Ha Hok Hp Hf a'. pose proof (poll_turn_link a Ha) as Ha'. fold a' in Ha'.
  assert (Hcur : is_Some (cst_current (ce_carriers (aw_cells a'))) /\ lk_plan (aw_network a') = rest /\
    aw_registration a' = aw_registration a).
  { clear Ha'. subst a'. unfold poll_turn.
    pose proof (poll_tick_cases utf8_error decode_config writable true (H := agent_net) c (poll_state a) (aw_network a) eq_refl) as Hc.
    pose proof (poll_tick_world utf8_error decode_config writable true (H := agent_net) c (poll_state a) (aw_network a)) as Hw.
    destruct (poll_tick utf8_error decode_config writable true c (poll_state a) (aw_network a)) as [s n].
    cbn [fst snd] in Hc, Hw. split.
    - destruct Hc as [[Hnone [label ->]]|(r & g' & t' & _ & _ & Hu & _)]; simpl.
      + pose proof (ai_installed _ _ (la_agent _ Ha)) as Hi.
        destruct (cst_current (ce_carriers (aw_cells a))) as [t'|] eqn:E; [done|].
        destruct Hi as (_ & _ & He). cbn [poll_state po_etag] in Hnone. rewrite He in Hnone.
        by rewrite (answered_poll_accepts _ h rest g t (la_config _ Ha) Hp Hf Hok) in Hnone.
      + pose proof (update_all_current writable t' (po_carriers (poll_state a)) (po_maps (poll_state a))) as Hcur.
        destruct (update_all writable t' (po_carriers (poll_state a)) (po_maps (poll_state a))) as [[failed cs] m].
        destruct Hu as [-> _]. simpl in Hcur. by rewrite Hcur.
    - split; [|done]. cbn [aw_network]. rewrite Hw, poll_exchange.
      pose proof (exchange_plan (poll_head (po_etag (poll_state a))) EmptyString (aw_network a)) as Hx.
      destruct (link_exchange _ _ _ _ _ (aw_network a)) as [o w']. cbn [snd] in *. by rewrite Hx, Hp. }
  destruct Hcur as ([t' Ht] & Hplan & Hreg). split; [done|]. split; [done|]. rewrite Ht.
  pose proof (la_only _ Ha') as Ho. rewrite Ht in Ho. destruct Ho as (g' & (_ & _ & Hg' & Ht') & _).
  destruct Hok as (_ & _ & Hg & Ht0). congruence.
Qed.

Lemma registration_turn_fields (a : world) :
  let a' := registration_turn utf8_error package_version arch encode_hello decode_hello encode_heartbeat
              decode_heartbeat c a in
  ce_carriers (aw_cells a') = ce_carriers (aw_cells a) /\ ce_maps (aw_cells a') = ce_maps (aw_cells a) /\
  ce_thresholds (aw_cells a') = ce_thresholds (aw_cells a) /\
  aw_network a' = snd (registration_event utf8_error package_version arch encode_hello decode_hello encode_heartbeat
                         decode_heartbeat c a).
Proof. unfold registration_turn. by destruct (registration_event _ _ _ _ _ _ _ c a). Qed.

(** The heartbeat the loop would send now. *)
Definition next_heartbeat (a : world) : HeartbeatRequest :=
  build_heartbeat_request c (ce_metrics (aw_cells a)) (ce_active (aw_cells a)) (out_elapsed (aw_outside a)).

(** A heartbeat that arrives reports what is applied. *)
Lemma registration_turn_reports (a : world) (h : hop) (rest : list hop) (g : Z) (t : TapioConfig) :
  link_agent_inv a -> acceptable config g t -> cst_current (ce_carriers (aw_cells a)) = Some t ->
  aw_registration a = RHeartbeat -> lk_plan (aw_network a) = h :: rest -> arrives (hop_fate h) = true ->
  is_ok (encode_heartbeat (next_heartbeat a)) = true ->
  let a' := registration_turn utf8_error package_version arch encode_hello decode_hello encode_heartbeat
              decode_heartbeat c a in
  exists seen, last_heartbeat (ctl_agent_id c) (lk_controller (aw_network a')) = Some seen /\
    hb_config_version (sh_heartbeat seen) = dec g /\ hb_config_hash (sh_heartbeat seen) = cr_config_hash config.
Proof.
  intros Ha Hok Hcur Hreg Hp Hf Henc a'. subst a'. unfold registration_turn, registration_event. rewrite Hreg.
  pose proof (la_only _ Ha) as Ho. rewrite Hcur in Ho. destruct Ho as (g' & (_ & _ & Hg' & _) & Hact & _).
  assert (g' = g) as -> by (destruct Hok as (_ & _ & Hg & _); congruence).
  unfold next_heartbeat in Henc.
  set (hb := build_heartbeat_request c (ce_metrics (aw_cells a)) (ce_active (aw_cells a)) (out_elapsed (aw_outside a))) in *.
  assert (Hv : HeartbeatRequest_validate hb = Ok tt).
  { apply heartbeat_valid; [exact Hid|exact Hnode| |apply is_empty_false, observer_statuses_nonempty].
    cbn [sn_active_config]. rewrite Hact. intros x [= <-]. apply dec_not_blank. apply parse_unsigned_range in Hg'. lia. }
  destruct (heartbeat_arrives hb (aw_network a) h rest Hp Hf Henc Hv) as [seen_at Hs].
  unfold heartbeat_once. fold hb. destruct (exchange_once _ _ _ _ _ _ _ _ _ _ _) as [x n]. cbn [snd] in Hs.
  assert (Hb : hb_agent_id hb = ctl_agent_id c /\ hb_config_version hb = dec g /\
    hb_config_hash hb = cr_config_hash config) by (unfold hb, build_heartbeat_request; by rewrite Hact).
  destruct Hb as (Hb & Hb' & Hb''). rewrite Hb in Hs. eexists. split; [exact Hs|]. done.
Qed.

(** C10. Over a network that may lose requests and answers or cut them short, the
    agent runs nothing but its controller's configuration.  Take the tasks'
    turns as atomic, in any order, and let any write to a map fail.  At any
    moment of any run no kernel map holds anything but the disabled configuration
    or the one the controller serves, complete; the identity the next heartbeat
    reports and the thresholds are those of the one the controller serves, once
    it was applied, and until then nothing is applied or reported.  Once it was
    applied every registered map is up to date with it: it holds it, unless the
    last write to it failed, which nothing repeats.  An agent that sends
    heartbeats is registered at the controller. *)
Theorem only_controllers_config (metrics : TapioMetrics) (w : W) (plan : list hop) (now : Z)
    (evs : list process_event) (r : Process world)
    (Hrun : process_run (started metrics w plan now) evs = Some r) :
  let cells := aw_cells (pr_world r) in
  let current := cst_current (ce_carriers cells) in
  in_config (lk_controller (aw_network (pr_world r))) = config /\
  (forall fd t, map_config (ce_maps cells) fd = Some t ->
     t = TapioConfig_default \/ exists g, acceptable config g t) /\
  Forall (fun k => up_to_date (default TapioConfig_default current) (ce_maps cells) (car_map_fd k))
    (cst_carriers (ce_carriers cells)) /\
  match current with
  | None => ce_active cells = None
  | Some t => exists g, acceptable config g t /\
      ce_active cells = Some {| ac_version := dec g; ac_hash := cr_config_hash config; ac_flags := tc_flags t |} /\
      ce_thresholds cells = pmc_thresholds_from_compiled (cr_config config)
  end /\
  (aw_registration (pr_world r) = RHeartbeat -> registered (aw_network (pr_world r))).
Proof.
  intros cells current. pose proof (started_inv _ _ _ _ _ _ Hrun) as Ha.
  destruct (agent_start_cells _ _ _ _ _ _ Hstart) as (_ & _ & Hctl & Hmode). rewrite Hcontroller in Hctl.
  destruct (args_controller_endpoint args) as [endpoint|]; [|done]. destruct Hmode as [Hdefault Hactive].
  split; [exact (la_config _ Ha)|]. split; [|split; [|split; [|exact (la_registered _ Ha)]]].
  - pose proof (la_held _ Ha) as Hm. unfold hold_only, starts_or_serves in Hm. by rewrite Hdefault in Hm.
  - pose proof (ai_maps _ _ (la_agent _ Ha)) as Hm. by rewrite Hdefault in Hm.
  - pose proof (la_only _ Ha) as Ho. pose proof (ai_installed _ _ (la_agent _ Ha)) as Hi. unfold current, cells.
    destruct (cst_current (ce_carriers (aw_cells (pr_world r)))) as [t|]; [exact Ho|].
    destruct Hi as (-> & _). exact Hactive.
Qed.

(** C3. The agent converges as soon as the network lets it: from any moment of
    any run in which it is registered, one poll that is answered and one
    heartbeat that arrives are enough, whatever was lost before and whether the
    answer to the heartbeat comes back: the poll can be taken, the heartbeat
    after it, the thresholds are then those of the controller's configuration,
    the controller has the agent's report of its version and hash, and no longer
    lists the agent as unconverged.  Every registered map is then up to date with
    that configuration: it holds it, unless the last write to it, in this poll or
    in an earlier one that already applied the configuration, failed; such a map
    keeps what it held, and no later poll that finds nothing new repeats the
    write.  (The tasks' turns are taken as atomic.) *)
Theorem agent_converges (metrics : TapioMetrics) (w : W) (plan : list hop) (now : Z)
    (evs : list process_event) (r : Process world) (h1 h2 : hop) (rest : list hop) (g : Z) (t : TapioConfig)
    (Hrun : process_run (started metrics w plan now) evs = Some r)
    (Hpoll : phase_of PollTask (pr_tasks r) = Some Looping)
    (Hbeat : phase_of RegistrationTask (pr_tasks r) = Some Looping)
    (Hphase : aw_registration (pr_world r) = RHeartbeat)
    (Hplan : lk_plan (aw_network (pr_world r)) = h1 :: h2 :: rest)
    (Hanswered : hop_fate h1 = Answered) (Harrives : arrives (hop_fate h2) = true)
    (Hok : acceptable config g t)
    (Henc : is_ok (encode_heartbeat (next_heartbeat (poll_turn utf8_error decode_config writable c (pr_world r)))) = true) :
  exists r', process_run r [PTurn PollTask; PTurn RegistrationTask] = Some r' /\
    let cells := aw_cells (pr_world r') in
    let controller := lk_controller (aw_network (pr_world r')) in
    Forall (fun k => up_to_date t (ce_maps cells) (car_map_fd k)) (cst_carriers (ce_carriers cells)) /\
    ce_thresholds cells = pmc_thresholds_from_compiled (cr_config config) /\
    (exists seen, last_heartbeat (ctl_agent_id c) controller = Some seen /\
       hb_config_version (sh_heartbeat seen) = dec g /\ hb_config_hash (sh_heartbeat seen) = cr_config_hash config) /\
    is_Some (bt_get (ctl_agent_id c) (in_agents controller)) /\
    ~ In (ctl_agent_id c) (unconverged_agents (cr_config_hash config) controller).
Proof.
  pose proof (started_inv _ _ _ _ _ _ Hrun) as Ha.
  destruct (poll_turn_applies _ _ _ g t Ha Hok Hplan Hanswered) as (Hp1 & Hr1 & Hc1).
  pose proof (poll_turn_link _ Ha) as Ha1. rewrite <- Hr1 in Hphase.
  pose proof (registration_turn_reports _ _ _ g t Ha1 Hok Hc1 Hphase Hp1 Harrives Henc) as Hseen.
  pose proof (registration_turn_link _ Ha1) as Ha2.
  pose proof (registration_event_keeps registered _ link_keeps_registered (la_registered _ Ha1 Hphase)) as Hreg.
  eexists. split.
  { cbn [process_run process_step]. rewrite Hpoll. cbn [with_task pr_tasks]. rewrite phase_of_set, decide_False, Hbeat by done.
    reflexivity. }
  cbn [with_task pr_world task_turn link_bodies agent_bodies body_turn]. rewrite !Hcontroller.
  cbv zeta in Hseen.
  destruct (registration_turn_fields (poll_turn utf8_error decode_config writable c (pr_world r))) as (Ec & Em & Et & En).
  set (a1 := poll_turn _ _ _ _ _) in *. set (a2 := registration_turn _ _ _ _ _ _ _ _ _) in *.
  pose proof (ai_maps _ _ (la_agent _ Ha1)) as Hm. pose proof (la_only _ Ha1) as Ho. unfold all_on in Hm. rewrite Hc1 in Hm, Ho.
  rewrite Ec, Em, Et. split; [exact Hm|]. split; [by destruct Ho as (? & _ & _ & ->)|]. split; [exact Hseen|].
  split; [rewrite En; exact Hreg|]. destruct Hseen as (seen & Hs & _ & Hh).
  unfold unconverged_agents, is_unconverged. rewrite List.filter_In. rewrite Hs, Hh, String.eqb_refl. by intros [_ ?].
Qed.
End Process.
End AgentLink.

(** * Witnesses *)

#[local] Existing Instance Agent.sample_node.
#[local] Existing Instance Agent.sample_env.
#[local] Existing Instance Agent.sample_reporter.
#[local] Existing Instance Agent.sample_outside.

#[local] Instance observer_status_eq_dec : EqDecision ObserverStatus.
Proof. solve_decision. Defined.
#[local] Instance degraded_reason_eq_dec : EqDecision DegradedReason.
Proof. solve_decision. Defined.
#[local] Instance counters_eq_dec : EqDecision HeartbeatCounters.
Proof. solve_decision. Defined.
#[local] Instance heartbeat_eq_dec : EqDecision HeartbeatRequest.
Proof. solve_decision. Defined.
#[local] Instance hello_eq_dec : EqDecision HelloRequest.
Proof. solve_decision. Defined.

(** The agent of [Agent]'s witness, and a controller with its configuration. *)
Definition joined_agent : ControllerConfig := controller_config (fun _ => None) "http://127.0.0.1:8080" agent_args.

Definition joined_hello : HelloRequest := build_hello_request "4.0.0" "x86_64" joined_agent "unknown".

Definition joined_heartbeat : HeartbeatRequest :=
  build_heartbeat_request joined_agent TapioMetrics_new
    (Some {| ac_version := "7"; ac_hash := "abc"; ac_flags := tc_flags sample_kernel |}) 0.

(** A codec for these two. *)
Definition joined_encode_hello (r : HelloRequest) : result string string :=
  if decide (r = joined_hello) then Ok "hello" else Err "no".

Definition joined_encode_heartbeat (r : HeartbeatRequest) : result string string :=
  if decide (r = joined_heartbeat) then Ok "beat" else Err "no".

Definition joined_decode_hello (body : string) : result HelloResponse string :=
  if String.eqb body "{}" then Ok (HelloResponse_from_config CONTROLLER_ID sample_config_response) else Err "no".

Definition joined_head (method path : string) (headers : list (string * string)) (body : string) : string :=
  request_head method path "127.0.0.1:8080" headers body.

Definition joined_extract (head body : string) : http_request :=
  let json := [("Content-Type", "application/json")] in
  let config := "/v1/agents/config?" +:+ config_query joined_agent in
  if String.eqb head (joined_head "POST" "/v1/agents/hello" json "hello") then PostHello (Ok joined_hello)
  else if String.eqb head (joined_head "POST" "/v1/agents/heartbeat" json "beat") then PostHeartbeat (Ok joined_heartbeat)
  else if String.eqb head (joined_head "GET" config [] EmptyString) then GetConfig (Some (config_query joined_agent)) None
  else if String.eqb head (joined_head "GET" config [("If-None-Match", etag_of "abc")] EmptyString)
  then GetConfig (Some (config_query joined_agent)) (Some (etag_of "abc"))
  else OtherPath.

Definition joined_payload (b : ApiBody) : string := "{}".

Definition joined_render (a : ApiResponse) : string :=
  "HTTP/1.1 " +:+ dec (api_status a) +:+ " " +:+ http_crlf +:+ http_crlf +:+ "{}".

Lemma joined_wiring :
  config_wiring (fun _ => EmptyString) joined_encode_hello joined_encode_heartbeat sample_decode joined_extract
    joined_render joined_payload joined_agent sample_config_response "127.0.0.1:8080".
Proof.
  constructor.
  - intros etag [-> | ->]; vm_compute; reflexivity.
  - intros heartbeat body. unfold joined_encode_heartbeat. case_decide as E; [|done]. intros Hb%Ok_inj. subst.
    vm_compute. reflexivity.
  - intros hello body. unfold joined_encode_hello. case_decide as E; [|done]. intros Hb%Ok_inj. subst.
    vm_compute. reflexivity.
  - intros [st et b] Ha. simpl in Ha. repeat (destruct Ha as [<-|Ha]; [reflexivity|]). done.
  - reflexivity.
  - intros b t. unfold joined_payload. intros E Ht.
    destruct b as [|x [|y [|z b]]]; simpl in E; simplify_eq; try reflexivity.
Qed.

(** The hello is answered, the first poll is cut short, the next finds no
    controller; then a poll is answered and the answer to a heartbeat is lost. *)
Definition joined_hop (f : fate) : hop := {| hop_before := []; hop_elapsed := 1; hop_fate := f |}.

Definition joined_plan : list hop :=
  map joined_hop [Answered; AnswerCut 18; Unreachable "refused"; Answered; AnswerLost "timed out"].

Definition joined_events : list process_event :=
  [PEnter RegistrationTask; PEnter (ObserverTask NetworkTask); PTurn RegistrationTask; PEnter PollTask;
   PTurn PollTask; PTurn PollTask].

Notation joined_start := (agent_process sample_start TapioMetrics_new tt
  (link_start (InnerState_new sample_config_response 0) joined_plan 0)).

Notation joined_bodies :=
  (link_bodies (fun _ => EmptyString) "4.0.0" "x86_64" joined_encode_hello joined_decode_hello joined_encode_heartbeat
     (fun _ => Err "no") sample_decode (fun _ => true) joined_extract joined_render write_works 0 "/ebpf" sample_start).

Lemma joined_started : agent_start (fun _ => None) None 0 agent_args Config_default = Ok sample_start.
Proof. vm_compute. reflexivity. Qed.

(** After the polls that were cut short and refused nothing is applied; after the
    one that is answered the whole configuration is. *)
Lemma only_controllers_config_witness :
  exists r, process_run (H := joined_bodies) joined_start (joined_events ++ [PTurn PollTask]) = Some r /\
    cst_current (ce_carriers (aw_cells (pr_world r))) = Some sample_kernel /\
    exists g, acceptable sample_config_response g sample_kernel /\
      ce_active (aw_cells (pr_world r)) =
        Some {| ac_version := dec g; ac_hash := "abc"; ac_flags := tc_flags sample_kernel |}.
Proof.
  assert (Hrun : exists r, process_run (H := joined_bodies) joined_start (joined_events ++ [PTurn PollTask]) = Some r /\
    cst_current (ce_carriers (aw_cells (pr_world r))) = Some sample_kernel)
    by (eexists; split; [vm_compute; reflexivity|vm_compute; reflexivity]).
  destruct Hrun as (r & Hrun & Hc). exists r. split; [exact Hrun|]. split; [exact Hc|].
  destruct (only_controllers_config (fun _ => EmptyString) "4.0.0" "x86_64" joined_encode_hello joined_decode_hello
    joined_encode_heartbeat (fun _ => Err "no") sample_decode (fun _ => true) joined_extract joined_render joined_payload
    joined_agent sample_config_response "127.0.0.1:8080" eq_refl eq_refl joined_wiring write_works 0 "/ebpf"
    sample_start eq_refl (fun _ => None) None 0 agent_args Config_default joined_started
    (InnerState_new sample_config_response 0) eq_refl TapioMetrics_new tt joined_plan 0
    (joined_events ++ [PTurn PollTask]) r Hrun) as (_ & _ & _ & Hx & _).
  rewrite Hc in Hx. destruct Hx as (g & Hok & Ha & _). exists g. exact (conj Hok Ha).
Defined.

Lemma agent_converges_witness :
  exists r, process_run (H := joined_bodies) joined_start joined_events = Some r /\
    cst_current (ce_carriers (aw_cells (pr_world r))) = None /\
  exists r', process_run (H := joined_bodies) r [PTurn PollTask; PTurn RegistrationTask] = Some r' /\
    Forall (fun k => up_to_date sample_kernel (ce_maps (aw_cells (pr_world r'))) (car_map_fd k))
      (cst_carriers (ce_carriers (aw_cells (pr_world r')))) /\
    is_Some (bt_get (ctl_agent_id joined_agent) (in_agents (lk_controller (aw_network (pr_world r'))))) /\
    ~ In (ctl_agent_id joined_agent) (unconverged_agents "abc" (lk_controller (aw_network (pr_world r')))).
Proof.
  assert (Hrun : exists r, process_run (H := joined_bodies) joined_start joined_events = Some r /\
    cst_current (ce_carriers (aw_cells (pr_world r))) = None /\
    phase_of PollTask (pr_tasks r) = Some Looping /\ phase_of RegistrationTask (pr_tasks r) = Some Looping /\
    aw_registration (pr_world r) = RHeartbeat /\
    lk_plan (aw_network (pr_world r)) = [joined_hop Answered; joined_hop (AnswerLost "timed out")] /\
    is_ok (joined_encode_heartbeat (next_heartbeat joined_agent
      (poll_turn (H3 := agent_net (fun _ => true) joined_extract joined_render) (fun _ => EmptyString) sample_decode
         write_works joined_agent (pr_world r)))) = true).
  { eexists. split; [vm_compute; reflexivity|]. vm_compute. repeat split. }
  destruct Hrun as (r & Hrun & Hc & Hp & Hb & Hph & Hpl & He). exists r. split; [exact Hrun|]. split; [exact Hc|].
  destruct (agent_converges (fun _ => EmptyString) "4.0.0" "x86_64" joined_encode_hello joined_decode_hello
    joined_encode_heartbeat (fun _ => Err "no") sample_decode (fun _ => true) joined_extract joined_render joined_payload
    joined_agent sample_config_response "127.0.0.1:8080" eq_refl eq_refl joined_wiring eq_refl eq_refl
    ltac:(intros [st et b] Hst _; simpl in Hst; rewrite Hst; vm_compute; discriminate) write_works 0 "/ebpf"
    sample_start eq_refl (fun _ => None) None 0 agent_args Config_default joined_started
    (InnerState_new sample_config_response 0) eq_refl TapioMetrics_new tt joined_plan 0
    joined_events r (joined_hop Answered) (joined_hop (AnswerLost "timed out")) [] 7 sample_kernel
    Hrun Hp Hb Hph Hpl eq_refl eq_refl ltac:(vm_compute; repeat split) He) as (r' & Hr' & Hm & _ & _ & Hreg & Hun).
  exists r'. exact (conj Hr' (conj Hm (conj Hreg Hun))).
Defined.
