(* ===== verification/Node.v ===== *)
(** The whole agent: [Agent]'s process with the controller sink among its sinks,
    the worker of that sink ([sink/controller.rs]) as one more thread of the
    process, one exchange at a time ([WorkerSteps]), and the controller at the
    other end of [Link]'s network.  The observers call the sink, the worker reads
    the batch size the registration stores and posts over the network the other
    tasks use, which take their turns between any two of its steps, and the drop
    of the sinks at the end of main waits for it. *)
From Stdlib Require Import String Sorting.Sorted.
From S2P Require Import Prelude RustStr BTree Json Wire CommonEbpf Occurrence PmcObs ContainerObs StorageObs Metrics Httpc.
From S2P Require Import AgentConfig Heartbeat Carriers Poll Registration Sink Controller NetAddr ControllerHttp.
From S2P Require Import ControllerSink Delivery WorkerSteps Link Setup Drain AgentMain AgentRun Agent System AgentLink.

Local Open Scope Z_scope.

(** * The sink as the observers see it *)

(** The sink's end of the queue and the worker, its place and its variables, in
    front of the rest of the node, which holds the other sinks. *)
Record Port (V : Type) := {
  pt_queue : Queue;
  pt_open : bool;
  pt_phase : worker_phase;
  pt_sequence : Z;
  pt_max_request_bytes : Z;
  pt_buffer : list WireEvent;
  pt_rest : V;
}.
Arguments pt_queue {V} _.
Arguments pt_open {V} _.
Arguments pt_phase {V} _.
Arguments pt_sequence {V} _.
Arguments pt_max_request_bytes {V} _.
Arguments pt_buffer {V} _.
Arguments pt_rest {V} _.

Section Port.
Context {V : Type}.

Definition with_queue (q : Queue) (open : bool) (v : V) (p : Port V) : Port V := {|
  pt_queue := q; pt_open := open; pt_phase := pt_phase p; pt_sequence := pt_sequence p;
  pt_max_request_bytes := pt_max_request_bytes p; pt_buffer := pt_buffer p; pt_rest := v |}.

Definition with_rest (v : V) (p : Port V) : Port V := with_queue (pt_queue p) (pt_open p) v p.

(** [ControllerSink::new]. *)
Definition port_start (v : V) : Port V := {|
  pt_queue := {| q_capacity := DEFAULT_QUEUE_CAPACITY; q_messages := []; q_connected := true |};
  pt_open := true; pt_phase := WIdle; pt_sequence := 1;
  pt_max_request_bytes := DEFAULT_MAX_REQUEST_BYTES; pt_buffer := []; pt_rest := v |}.

Definition lift {A : Type} (f : V -> A * V) (p : Port V) : A * Port V :=
  let '(a, v) := f (pt_rest p) in (a, with_rest v p).

#[export] Instance port_aya `{Aya V} : Aya (Port V) := {
  aya_load_file path := lift (aya_load_file path);
  aya_map name p := aya_map name (pt_rest p);
  aya_program name p := aya_program name (pt_rest p);
  aya_program_load name := lift (aya_program_load name);
  aya_attach name point := lift (aya_attach name point);
  aya_nr_cpus p := aya_nr_cpus (pt_rest p);
  aya_ring_buf p := aya_ring_buf (pt_rest p);
  sys_perf_event_open attr cpu := lift (sys_perf_event_open attr cpu);
  sys_map_set_fd fd cpu v := lift (sys_map_set_fd fd cpu v);
}.

#[export] Instance port_env `{Env V} : Env (Port V) := {
  env_now := lift env_now;
  env_id := lift env_id;
  env_thresholds p := env_thresholds (pt_rest p);
  env_read_file p := env_read_file (pt_rest p);
}.

#[export] Instance port_outside `{Outside V} : Outside (Port V) := {
  out_arrived o := lift (out_arrived o);
  out_percpu p := out_percpu (pt_rest p);
  out_elapsed p := out_elapsed (pt_rest p);
  out_osrelease p := out_osrelease (pt_rest p);
  out_accept := lift out_accept;
  out_drop_sinks p := with_queue (pt_queue p) false (out_drop_sinks (pt_rest p)) p;
}.

(** The fan-out: the controller sink first, then the other sinks, which count
    their own writes. *)
Definition port_report `{Reporter V} (o : Occurrence) (m : TapioMetrics) (p : Port V) :
  result unit SinkError * TapioMetrics * Port V :=
  let '(r, tx, m) := controller_send o (if pt_open p then Some (pt_queue p) else None) m in
  let m := bump MSinkWrites ["controller"; if is_ok r then "ok" else "err"] 1 m in
  let '(r', m, v) := report o m (pt_rest p) in
  (match r' with Ok _ => r | Err e => Err e end, m, with_queue (default (pt_queue p) tx) (pt_open p) v p).

(** The observer ends here whatever the answer, which is only logged.  A turn
    is one step, so a full queue, which the code tries again until its deadline,
    is tried once. *)
Definition port_flush `{Reporter V} (p : Port V) : result unit SinkError * Port V :=
  let '(r, v) := report_flush (pt_rest p) in
  (r, with_queue (if pt_open p then snd (try_send (MsgFlush 0) (pt_queue p)) else pt_queue p) (pt_open p) v p).

#[export, program] Instance port_reporter `{Reporter V} : Reporter (Port V) := {
  report := port_report;
  report_flush := port_flush;
}.
Next Obligation.
  intros HR o m p k labels Hk. unfold port_report.
  pose proof (controller_send_frame o (if pt_open p then Some (pt_queue p) else None) m k ltac:(by intros ->)) as Hc.
  destruct (controller_send o _ m) as [[r tx] m1]. simpl in Hc.
  pose proof (report_frame o (bump MSinkWrites ["controller"; if is_ok r then "ok" else "err"] 1 m1) (pt_rest p) k labels Hk)
    as Hr.
  destruct (report o _ _) as [[r' m2] v]. simpl in *. rewrite Hr, bump_other by (left; by intros <-).
  unfold metric_value. by rewrite Hc.
Qed.
End Port.

Section Node.
Variable utf8_error : string -> string.
Variable package_version arch : string.
Variable encode_hello : HelloRequest -> result string string.
Variable decode_hello : string -> result HelloResponse string.
Variable encode_heartbeat : HeartbeatRequest -> result string string.
Variable decode_heartbeat : string -> result HeartbeatResponse string.
Variable decode_config : string -> result ConfigResponse string.
Variable encode_batch : EventBatchRequest -> result string string.
Variable encode_event : WireEvent -> result string string.
Variable decode_batch_response : string -> result EventBatchResponse string.
Variable header_value_ok : string -> bool.
Variable extract : string -> string -> http_request.
Variable render : ApiResponse -> string.
Variable payload : ApiBody -> string.
Variable writable : nat -> Z -> bool.
Variable boot_offset_ns : Z.
Variable ebpf_dir : string.
Variable start : AgentStart.
(** The agent's identity and its controller. *)
Variable c : ControllerConfig.
Context {V : Type} `{Aya V} `{Env V} `{Reporter V} `{Outside V}.

#[local] Instance node_net : Net link := link_net header_value_ok extract render.

Notation world := (AgentWorld (Port V) link).
#[local] Instance node_bodies : Bodies world :=
  agent_bodies (N := link) utf8_error package_version arch encode_hello decode_hello encode_heartbeat
    decode_heartbeat decode_config writable boot_offset_ns ebpf_dir start.

(** * The worker *)

(** Its variables are in the cells of the agent and in the port. *)
Definition port_worker (m : TapioMetrics) (p : Port V) : Worker := {|
  wk_controller := c; wk_metrics := m; wk_sequence := pt_sequence p;
  wk_max_request_bytes := pt_max_request_bytes p; wk_buffer := pt_buffer p |}.

Definition worker_port (x : worker_phase) (k : Worker) (q : Queue) (p : Port V) : Port V := {|
  pt_queue := q; pt_open := pt_open p; pt_phase := x; pt_sequence := wk_sequence k;
  pt_max_request_bytes := wk_max_request_bytes k; pt_buffer := wk_buffer k; pt_rest := pt_rest p |}.

Definition put_worker (x : worker_phase) (k : Worker) (q : Queue) (n : link) (a : world) : world := {|
  aw_cells := {| ce_metrics := wk_metrics k; ce_state := ce_state (aw_cells a);
                 ce_carriers := ce_carriers (aw_cells a); ce_maps := ce_maps (aw_cells a);
                 ce_active := ce_active (aw_cells a); ce_thresholds := ce_thresholds (aw_cells a) |};
  aw_registration := aw_registration a; aw_etag := aw_etag a; aw_loops := aw_loops a;
  aw_limits := aw_limits a; aw_calls := aw_calls a;
  aw_outside := worker_port x k q (aw_outside a); aw_network := n |}.

(** What can happen to it: it reads the batch size the registration has stored;
    what it waits for comes, a message, its timeout or the closed queue; it
    takes a step of a flush; its turn ends. *)
Inductive worker_event := WRead | WReceive | WTimeout | WDisconnect | WAdvance | WEnd.

(** The queue as a turn leaves it. *)
Definition rest_of (messages : list WorkerMessage) (q : Queue) : Queue :=
  {| q_capacity := q_capacity q; q_messages := messages; q_connected := q_connected q |}.

Definition worker_step (e : worker_event) (a : world) : option world :=
  let p := aw_outside a in
  let q := pt_queue p in
  let k := port_worker (ce_metrics (aw_cells a)) p in
  let begin r mb messages :=
    let '(x, k) := begin_turn encode_batch encode_event r mb k in
    Some (put_worker x k (rest_of messages q) (aw_network a) a) in
  match e, pt_phase p with
  | WRead, WIdle => Some (put_worker (WWaiting (snd (batching (ce_state (aw_cells a))))) k q (aw_network a) a)
  | WReceive, WWaiting mb =>
      match q_messages q with msg :: rest => begin (Received msg) mb rest | [] => None end
  | WTimeout, WWaiting mb =>
      if is_empty (q_messages q) && pt_open p then begin RecvTimeout mb [] else None
  | WDisconnect, WWaiting mb =>
      if is_empty (q_messages q) && negb (pt_open p) then begin RecvDisconnected mb [] else None
  | WAdvance, (WFlushing _ | WAttempting _ _) as x =>
      let '(x, k, n) :=
        worker_advance (H := node_net) utf8_error encode_batch decode_batch_response link_sleep lk_now (x, k, aw_network a) in
      Some (put_worker x k q n a)
  | WEnd, WEnding _ goes_on =>
      (* the end of the thread drops its end of the queue *)
      Some (put_worker (if goes_on then WIdle else WDone) k
              {| q_capacity := q_capacity q; q_messages := q_messages q; q_connected := q_connected q && goes_on |}
              (aw_network a) a)
  | _, _ => None
  end.

(** The same as a relation, by where the worker is. *)
Inductive worker_moves (a : world) : world -> Prop :=
| MoveRead (E : pt_phase (aw_outside a) = WIdle) :
    worker_moves a (put_worker (WWaiting (snd (batching (ce_state (aw_cells a)))))
                      (port_worker (ce_metrics (aw_cells a)) (aw_outside a)) (pt_queue (aw_outside a)) (aw_network a) a)
| MoveTurn r mb rest (E : pt_phase (aw_outside a) = WWaiting mb)
    (Hq : q_messages (pt_queue (aw_outside a)) = match r with Received msg => msg :: rest | _ => rest end)
    (Hd : r = RecvDisconnected -> rest = [] /\ pt_open (aw_outside a) = false)
    (Ho : r = RecvTimeout -> pt_open (aw_outside a) = true) :
    worker_moves a (let '(x, k) := begin_turn encode_batch encode_event r mb
                                     (port_worker (ce_metrics (aw_cells a)) (aw_outside a)) in
                    put_worker x k (rest_of rest (pt_queue (aw_outside a))) (aw_network a) a)
| MoveBatch j (E : pt_phase (aw_outside a) = WFlushing j) :
    worker_moves a (let '(x, k) := next_batch encode_batch lk_now j
                                     (port_worker (ce_metrics (aw_cells a)) (aw_outside a)) (aw_network a) in
                    put_worker x k (pt_queue (aw_outside a)) (aw_network a) a)
| MoveAttempt f j (E : pt_phase (aw_outside a) = WAttempting f j) :
    worker_moves a (let '(x, k, n) := one_attempt (H := node_net) utf8_error decode_batch_response link_sleep f j
                                        (port_worker (ce_metrics (aw_cells a)) (aw_outside a)) (aw_network a) in
                    put_worker x k (pt_queue (aw_outside a)) n a)
| MoveEnd answer g (E : pt_phase (aw_outside a) = WEnding answer g) :
    worker_moves a (put_worker (if g then WIdle else WDone) (port_worker (ce_metrics (aw_cells a)) (aw_outside a))
                      {| q_capacity := q_capacity (pt_queue (aw_outside a));
                         q_messages := q_messages (pt_queue (aw_outside a));
                         q_connected := q_connected (pt_queue (aw_outside a)) && g |} (aw_network a) a).

Lemma worker_step_moves (e : worker_event) (a a' : world) : worker_step e a = Some a' -> worker_moves a a'.
Proof.
  unfold worker_step. destruct e, (pt_phase (aw_outside a)) as [|mb|j|f j|answer g|] eqn:E; try done.
  - intros [= <-]. by apply MoveRead.
  - destruct (q_messages _) as [|msg rest] eqn:Eq; [done|].
    pose proof (MoveTurn a (Received msg) mb rest E Eq ltac:(done) ltac:(done)) as Hm.
    revert Hm. destruct (begin_turn _ _ _ _ _) as [x k]. by intros ? [= <-].
  - destruct (q_messages _) as [|msg rest] eqn:Eq; [|done]. destruct (pt_open (aw_outside a)) eqn:Eo; [|done].
    cbn [negb andb is_empty].
    pose proof (MoveTurn a RecvTimeout mb [] E Eq ltac:(done) ltac:(done)) as Hm.
    revert Hm. destruct (begin_turn _ _ _ _ _) as [x k]. by intros ? [= <-].
  - destruct (q_messages _) as [|msg rest] eqn:Eq; [|done]. destruct (pt_open (aw_outside a)) eqn:Eo; [done|].
    cbn [negb andb is_empty].
    pose proof (MoveTurn a RecvDisconnected mb [] E Eq ltac:(done) ltac:(done)) as Hm.
    revert Hm. destruct (begin_turn _ _ _ _ _) as [x k]. by intros ? [= <-].
  - pose proof (MoveBatch a j E) as Hm. unfold worker_advance. revert Hm. destruct (next_batch _ _ _ _ _) as [x k]. by intros ? [= <-].
  - pose proof (MoveAttempt a f j E) as Hm. unfold worker_advance. revert Hm.
    destruct (one_attempt _ _ _ _ _ _ _) as [[x k] n]. by intros ? [= <-].
  - intros [= <-]. by apply (MoveEnd a answer g).
Qed.

Definition pt_running (p : Port V) : bool := match pt_phase p with WDone => false | _ => true end.

(** * The node *)

Inductive node_event := NProcess (e : process_event) | NWorker (e : worker_event).

Definition with_world (a : world) (r : Process world) : Process world := {|
  pr_tasks := pr_tasks r; pr_waiting := pr_waiting r; pr_shutdown := pr_shutdown r;
  pr_server := pr_server r; pr_main := pr_main r; pr_world := a |}.

(** The drop of the sink joins the worker: the process does not end before it. *)
Definition node_step (r : Process world) (e : node_event) : option (Process world) :=
  match e with
  | NProcess PExit => if pt_running (aw_outside (pr_world r)) then None else process_step r PExit
  | NProcess e => process_step r e
  | NWorker e => (fun a => with_world a r) <$> worker_step e (pr_world r)
  end.

Fixpoint node_run (r : Process world) (evs : list node_event) : option (Process world) :=
  match evs with
  | [] => Some r
  | e :: rest => match node_step r e with Some r' => node_run r' rest | None => None end
  end.

Definition node_start (v : V) (n : link) : Process world :=
  agent_process start TapioMetrics_new (port_start v) n.

(** What serde_json does with the answer to a hello: it decodes to what was
    encoded and, cut short, not at all. *)
Definition hello_answer (config : ConfigResponse) : HelloResponse := HelloResponse_from_config CONTROLLER_ID config.

Record hello_wiring (config : ConfigResponse) : Prop := {
  hw_answer : decode_hello (payload (BodyHello (hello_answer config))) = Ok (hello_answer config);
  hw_cut : forall b t, b +:+ t = payload (BodyHello (hello_answer config)) -> t <> EmptyString ->
    is_ok (decode_hello b) = false;
}.

(** ** What is on its way, and what is kept of a log *)

Definition in_flight (x : worker_phase) : list WireEvent :=
  match x with WAttempting f _ => fl_batch f | _ => [] end.

Definition todo (x : worker_phase) : list (list WireEvent) :=
  match x with WFlushing j | WAttempting _ j => fj_todo j | _ => [] end.

Definition waiting (p : Port V) : list WireEvent :=
  in_flight (pt_phase p) ++ concat (todo (pt_phase p)) ++ pt_buffer p
  ++ concat (map message_event (q_messages (pt_queue p))).

Definition kept (log : list (list WireEvent * send_outcome)) : list (list WireEvent * send_outcome) :=
  List.filter (fun x => negb (bool_decide (snd x = Dropped))) log.

(** The counters, over all labels; a heartbeat reports the second. *)
Definition anomalies (m : TapioMetrics) : Z := counter_sum (get_metric MAnomalies m).
Definition sink_drops (m : TapioMetrics) : Z := counter_sum (get_metric MSinkDrops m).

(** * Lemmas *)

Variable s0 : InnerState.
Variable host : string.
Notation config := (in_config s0).
Notation id := (ctl_agent_id c).
Notation max_batch := (bc_max_batch_events (cr_batching config)).
Hypothesis Hcontroller : ag_controller start = Some c.
Hypothesis Hhost : strip_prefix (trim_end_matches "/" (ctl_endpoint c)) "http://" = Some host.
Hypothesis Hslash : contains_char "/" host = false.
Hypothesis Hversion : blank (cr_version config) = false.
Hypothesis Hbatches : wiring_ok utf8_error encode_batch decode_batch_response extract render payload (cr_version config).
Hypothesis Hconfig : config_wiring utf8_error encode_hello encode_heartbeat decode_config extract render payload c
  config host.
Hypothesis Hhello : hello_wiring config.
(** The batch size the agent starts with, until a hello is answered. *)
Hypothesis Hmax : 256 <= max_batch <= U64_MAX.
Hypothesis Hid : blank id = false.
Hypothesis Hnode : blank (ctl_node_name c) = false.
(** The other sinks count neither anomalies nor drops. *)
Hypothesis Hother : forall o m v k, k = MAnomalies \/ k = MSinkDrops ->
  get_metric k (snd (fst (report o m v))) = get_metric k m.

Section Books.
(** Whether nothing is lost on the way back. *)
Variable lossless : bool.

Lemma max_u64 : is_u64 max_batch.
Proof. clear -Hmax. unfold is_u64. lia. Qed.

Definition valid_event (e : WireEvent) : Prop := WireEvent_validate e = Ok tt.

Definition goes_on (x : worker_phase) : bool :=
  match x with
  | WDone => false
  | WEnding _ g => g
  | WFlushing j | WAttempting _ j => fj_goes_on j
  | _ => true
  end.

Definition batch_ok (b : list WireEvent) : Prop := b <> [] /\ zlen b <= max_batch.

(** The batch under way is that of a request the controller accepts; it has
    arrived no more often than it was sent. *)
Definition flight_ok (number : Z) (arrived : nat) (x : worker_phase) : Prop :=
  match x with
  | WAttempting f _ =>
      (arrived + fl_retries f <= MAX_RETRIES)%nat /\
      exists r, encode_batch r = Ok (fl_body f) /\ eb_agent_id r = id /\ eb_sequence r = number /\
        eb_events r = fl_batch f /\ is_u64 (eb_sent_at_unix_nanos r) /\ EventBatchRequest_validate r max_batch = Ok tt
  | _ => arrived = 0%nat
  end.

Record worker_ok (p : Port V) (number : Z) (arrived : nat) : Prop := {
  pk_limit : match pt_phase p with WWaiting mb => 1 <= mb <= max_batch | _ => True end;
  pk_todo : Forall batch_ok (todo (pt_phase p));
  pk_flight : flight_ok number arrived (pt_phase p);
  pk_sequence : pt_sequence p = match pt_phase p with WAttempting _ _ => Z.min (number + 1) U64_MAX | _ => number end;
  pk_stopped : goes_on (pt_phase p) = false -> pt_open p = false /\ q_messages (pt_queue p) = [] /\ pt_buffer p = [];
}.

(** The number of the batch after these. *)
Definition next_number (log : list (list WireEvent * send_outcome)) : Z := Z.min (1 + zlen log) U64_MAX.

(** The worker's log so far, how often each batch arrived, and the one under
    way, and what the queue refused: with the counters, the port and the network
    they add up. *)
Record books_of (m : TapioMetrics) (p : Port V) (n : link) (log : list (list WireEvent * send_outcome))
    (copies : list nat) (arrived : nat) (refused : Z) : Prop := {
  bk_anomalies : wrap64 (anomalies m) = wrap64 (zlen (logged log) + zlen (waiting p) + refused);
  bk_drops : wrap64 (sink_drops m) = wrap64 (zlen (logged (dropped log)) + refused);
  bk_worker : worker_ok p (next_number log) arrived;
  bk_link : link_inv c s0 true n;
  bk_copies : Forall2 copies_ok log copies;
  bk_own : own id (lk_history n) =
    arrivals 1 log copies ++ replicate arrived (next_number log, in_flight (pt_phase p));
  bk_valid : Forall valid_event (logged log ++ waiting p);
  bk_lossless : lossless = true -> quiet n /\ Forall2 copies_exact log copies /\ arrived = 0%nat;
}.

Definition books (m : TapioMetrics) (p : Port V) (n : link) : Prop :=
  exists log copies arrived refused, books_of m p n log copies arrived refused.

(** Other counters, the other sinks, other exchanges. *)
Lemma books_metrics (m m' : TapioMetrics) (p : Port V) (n : link) :
  books m p n -> get_metric MAnomalies m' = get_metric MAnomalies m -> get_metric MSinkDrops m' = get_metric MSinkDrops m ->
  books m' p n.
Proof.
  intros (log & copies & k & x & [B1 B2 B3 B4 B5 B6 B7 B8]) Ha Hd. exists log, copies, k, x.
  constructor; unfold anomalies, sink_drops in *; rewrite ?Ha, ?Hd; done.
Qed.

Lemma books_bump (k : metric) (labels : list string) (v : Z) (m : TapioMetrics) (p : Port V) (n : link) :
  k <> MAnomalies -> k <> MSinkDrops -> books m p n -> books (bump k labels v m) p n.
Proof. intros Ha Hd Hb. apply (books_metrics m); [done|by apply bump_get|by apply bump_get]. Qed.

Lemma books_rest (m : TapioMetrics) (p : Port V) (n : link) (v : V) : books m p n -> books m (with_rest v p) n.
Proof.
  intros (log & copies & k & x & [B1 B2 [P1 P2 P3 P4 P5] B4 B5 B6 B7 B8]). exists log, copies, k, x.
  by constructor.
Qed.

Lemma books_network (m : TapioMetrics) (p : Port V) (n n' : link) :
  books m p n -> link_inv c s0 true n' -> own id (lk_history n') = own id (lk_history n) -> (quiet n -> quiet n') ->
  books m p n'.
Proof.
  intros (log & copies & k & x & [B1 B2 B3 B4 B5 B6 B7 B8]) Hl Ho Hq. exists log, copies, k, x.
  constructor; try done; [by rewrite Ho|]. intros Hx. destruct (B8 Hx) as (Hn & Hc & Hk). auto.
Qed.

Lemma message_events_app (l l' : list WorkerMessage) :
  concat (map message_event (l ++ l')) = concat (map message_event l) ++ concat (map message_event l').
Proof. by rewrite map_app, concat_app. Qed.

(** The drop of the sinks, and a flush request. *)
Lemma books_queue (m : TapioMetrics) (p : Port V) (n : link) (q : Queue) (open : bool) (v : V) :
  books m p n -> concat (map message_event (q_messages q)) = concat (map message_event (q_messages (pt_queue p))) ->
  (pt_open p = false -> open = false /\ q = pt_queue p) -> books m (with_queue q open v p) n.
Proof.
  intros (log & copies & k & x & [B1 B2 [P1 P2 P3 P4 P5] B4 B5 B6 B7 B8]) Hq Ho. exists log, copies, k, x.
  assert (Hw : waiting (with_queue q open v p) = waiting p) by (unfold waiting; simpl; by rewrite Hq).
  constructor; rewrite ?Hw; try done. constructor; try done. simpl. intros Hr. destruct (P5 Hr) as [Hc Hb].
  by destruct (Ho Hc) as [-> ->].
Qed.

Lemma books_flush (m : TapioMetrics) (p : Port V) (n : link) : books m p n -> books m (snd (port_flush p)) n.
Proof.
  intros Hb. unfold port_flush. destruct (report_flush (pt_rest p)) as [r v]. apply books_queue; [done| |by intros ->].
  destruct (pt_open p); [|done]. unfold try_send. destruct (negb _); [done|]. destruct (_ <=? _); [done|]. simpl.
  by rewrite message_events_app, app_nil_r.
Qed.

(** An anomaly more: it waits, or the queue refuses it and it is counted. *)
Lemma books_event (m m1 : TapioMetrics) (p : Port V) (n : link) (e : WireEvent) (q : Queue) :
  books m p n -> valid_event e -> total_grew MAnomalies 1 m m1 ->
  (let p' := with_queue q (pt_open p) (pt_rest p) p in
   (waiting p' = waiting p ++ [e] /\ total_grew MSinkDrops 0 m m1 /\ pt_open p = true) \/
   (q = pt_queue p /\ total_grew MSinkDrops 1 m m1)) ->
  books m1 (with_queue q (pt_open p) (pt_rest p) p) n.
Proof.
  unfold total_grew, books. cbv zeta. fold (anomalies m) (anomalies m1) (sink_drops m) (sink_drops m1).
  intros (log & copies & k & x & [B1 B2 [P1 P2 P3 P4 P5] B4 B5 B6 B7 B8]) He Ha [(Hw & Hd & Ho)|[-> Hd]].
  - exists log, copies, k, x. constructor; rewrite ?Hw; try done.
    + rewrite Ha, zlen_app, zlen_cons, zlen_nil.
      rewrite <- (wrap64_add_l _ 1), B1, wrap64_add_l. f_equal. lia.
    + by rewrite Hd, Z.add_0_r.
    + constructor; try done. simpl. intros Hr. destruct (P5 Hr). congruence.
    + rewrite app_assoc. apply Forall_app. split; [done|]. by constructor.
  - exists log, copies, k, (x + 1). set (p' := with_queue _ _ _ p). change (waiting p) with (waiting p') in *.
    constructor; try done.
    + rewrite Ha. rewrite <- (wrap64_add_l _ 1), B1, wrap64_add_l. f_equal. lia.
    + rewrite Hd. rewrite <- (wrap64_add_l _ 1), B2, wrap64_add_l. f_equal. lia.
Qed.

Lemma books_report (o : Occurrence) (e : WireEvent) (name t : string) (m : TapioMetrics) (p : Port V) (n : link) :
  occurrence_to_wire_event o = Ok e -> valid_event e ->
  books m p n -> let '(_, m', p') := port_report o (bump MAnomalies [name; t] 1 m) p in books m' p' n.
Proof.
  intros Ho He Hb. unfold port_report. set (m1 := bump MAnomalies [name; t] 1 m).
  assert (Ha1 : total_grew MAnomalies 1 m m1) by apply total_bump.
  assert (Hd1 : total_grew MSinkDrops 0 m m1) by by apply total_0, bump_get.
  assert (Hs : let '(_, tx, m2) := controller_send o (if pt_open p then Some (pt_queue p) else None) m1 in
    books m2 (with_queue (default (pt_queue p) tx) (pt_open p) (pt_rest p) p) n).
  { unfold controller_send, try_enqueue_controller_event. rewrite Ho.
    assert (Hrefuse : forall l, books (bump MSinkDrops l 1 m1) (with_queue (pt_queue p) (pt_open p) (pt_rest p) p) n).
    { intros l. apply (books_event m _ p n e); [done|done|exact Ha1|].
      right. split; [done|]. apply (total_trans _ 0 1 _ m1); [exact Hd1|apply total_bump]. }
    destruct (pt_open p) eqn:Eo; [|by apply Hrefuse]. unfold try_send.
    destruct (q_connected (pt_queue p)) eqn:Ec; simpl; [|by apply Hrefuse].
    destruct (q_capacity (pt_queue p) <=? zlen (q_messages (pt_queue p))); [by apply Hrefuse|].
    simpl. rewrite <- Eo. apply (books_event m _ p n e); try done. left. unfold waiting. simpl.
    by rewrite message_events_app, !app_assoc. }
  destruct (controller_send o _ m1) as [[r tx] m2].
  pose proof (Hother o (bump MSinkWrites ["controller"; if is_ok r then "ok" else "err"] 1 m2) (pt_rest p)) as Hr.
  destruct (report o _ (pt_rest p)) as [[r' m3] v]. simpl in Hr.
  apply (books_metrics m2); [|rewrite Hr by auto; by apply bump_get..].
  exact (books_rest m2 (with_queue (default (pt_queue p) tx) (pt_open p) (pt_rest p) p) n v Hs).
Qed.

(** *** The worker's steps *)

(** Where the end of a wait leads. *)
Definition settled (x : worker_phase) : bool := match x with WFlushing _ | WEnding _ _ => true | _ => false end.

Lemma settled_flight (x : worker_phase) : settled x = true -> in_flight x = [] /\ forall n, flight_ok n 0 x.
Proof. by destruct x. Qed.

(** The worker moves on with what it has. *)
Lemma books_move (m : TapioMetrics) (p : Port V) (n : link) (x : worker_phase) (k : Worker) (q : Queue) :
  books m p n -> (forall f j, pt_phase p <> WAttempting f j) -> (forall f j, x <> WAttempting f j) ->
  wk_metrics k = m -> wk_sequence k = pt_sequence p -> waiting (worker_port x k q p) = waiting p ->
  match x with WWaiting mb => 1 <= mb <= max_batch | _ => True end -> Forall batch_ok (todo x) ->
  (goes_on x = false -> pt_open p = false /\ q_messages q = [] /\ wk_buffer k = []) ->
  books (wk_metrics k) (worker_port x k q p) n.
Proof.
  intros (log & copies & a & r & [B1 B2 [P1 P2 P3 P4 P5] B4 B5 B6 B7 B8]) Hp Hx -> Hs Hw Hl Ht Hg.
  assert (Ha : a = 0%nat) by (destruct (pt_phase p) eqn:E; try exact P3; by edestruct Hp).
  subst a. exists log, copies, 0%nat, r. constructor; rewrite ?Hw; try done.
  constructor; try done; cbn [worker_port pt_phase pt_sequence].
  - destruct x; try done. by edestruct Hx.
  - rewrite Hs, P4. destruct (pt_phase p) eqn:E; try (by edestruct Hp); destruct x; try done; by edestruct Hx.
Qed.

Lemma split_nonempty (events : list WireEvent) (mb max_bytes : Z) :
  Forall (fun b => b <> []) (split_events_by_size encode_batch encode_event events mb max_bytes).
Proof. apply split_loop_nonempty. Qed.

Lemma split_ok (events : list WireEvent) (mb max_bytes : Z) :
  1 <= mb <= max_batch -> Forall batch_ok (split_events_by_size encode_batch encode_event events mb max_bytes).
Proof.
  intros Hmb. apply Forall_and. split; [apply split_nonempty|].
  eapply Forall_impl; [apply (split_loop_count _ _ mb); [lia|rewrite zlen_nil; lia]|]. simpl. lia.
Qed.

(** What a turn starts from what it has received. *)
Record begun (r : recv_outcome) (mb : Z) (k : Worker) (x : worker_phase) (k' : Worker) : Prop := {
  bg_settled : settled x = true;
  bg_events : concat (todo x) ++ wk_buffer k' = wk_buffer k ++ received_events r;
  bg_metrics : wk_metrics k' = wk_metrics k;
  bg_sequence : wk_sequence k' = wk_sequence k;
  bg_nonempty : Forall (fun b => b <> []) (todo x);
  bg_batches : 1 <= mb <= max_batch -> Forall batch_ok (todo x);
  bg_goes_on : goes_on x = match r with RecvDisconnected => false | _ => true end;
  bg_flushed : match r with Received _ => True | _ => wk_buffer k' = [] end;
}.

Lemma begin_flush_begun (retry : bool) (ack : option Z) (r : recv_outcome) (mb : Z) (k k1 : Worker) :
  wk_buffer k1 = wk_buffer k ++ received_events r -> wk_metrics k1 = wk_metrics k -> wk_sequence k1 = wk_sequence k ->
  let '(x, k') := begin_flush encode_batch encode_event retry ack match r with RecvDisconnected => false | _ => true end
                    mb k1 in
  begun r mb k x k'.
Proof.
  intros Hb Hm Hs. unfold begin_flush. destruct (is_empty (wk_buffer k1)) eqn:Ee.
  - assert (He : wk_buffer k1 = []) by (by destruct (wk_buffer k1)). constructor; simpl; auto. by destruct r.
  - constructor; cbn [todo fj_todo settled goes_on fj_goes_on with_worker wk_metrics wk_sequence wk_buffer]; auto.
    + unfold split_events_by_size. by rewrite split_loop_concat, app_nil_r.
    + apply split_nonempty.
    + apply split_ok.
    + by destruct r.
Qed.

Lemma begin_turn_begun (r : recv_outcome) (mb : Z) (k : Worker) :
  let '(x, k') := begin_turn encode_batch encode_event r mb k in begun r mb k x k'.
Proof.
  unfold begin_turn. destruct r as [[e|ack]| |].
  - set (k1 := with_worker _ _ _ k). destruct (mb <=? zlen (wk_buffer k1)); [|by constructor; simpl; auto].
    by apply (begin_flush_begun true None (Received (MsgEvent e)) mb k k1).
  - apply (begin_flush_begun true (Some ack) (Received (MsgFlush ack)) mb k k); [by rewrite app_nil_r|done..].
  - apply (begin_flush_begun true None RecvTimeout mb k k); [by rewrite app_nil_r|done..].
  - apply (begin_flush_begun false None RecvDisconnected mb k k); [by rewrite app_nil_r|done..].
Qed.

Lemma turn_waiting (m : TapioMetrics) (p : Port V) (r : recv_outcome) (mb : Z) (rest : list WorkerMessage) :
  pt_phase p = WWaiting mb -> q_messages (pt_queue p) = match r with Received msg => msg :: rest | _ => rest end ->
  let '(x, k) := begin_turn encode_batch encode_event r mb (port_worker m p) in
  waiting (worker_port x k (rest_of rest (pt_queue p)) p) = waiting p.
Proof.
  intros Hp Hq. pose proof (begin_turn_begun r mb (port_worker m p)) as Hs. destruct (begin_turn _ _ _ _ _) as [x k].
  destruct Hs as [Hx Hw _ _ _ _ _ _]. unfold waiting. cbn [worker_port pt_phase pt_buffer pt_queue rest_of q_messages].
  rewrite Hp, Hq, (proj1 (settled_flight x Hx)). cbn [in_flight todo concat app]. rewrite app_assoc, Hw.
  cbn [port_worker wk_buffer]. rewrite <- app_assoc. f_equal. by destruct r.
Qed.

(** The end of its wait. *)
Lemma books_turn (m : TapioMetrics) (p : Port V) (n : link) (r : recv_outcome) (mb : Z) (rest : list WorkerMessage) :
  books m p n -> pt_phase p = WWaiting mb ->
  q_messages (pt_queue p) = match r with Received msg => msg :: rest | _ => rest end ->
  (r = RecvDisconnected -> rest = [] /\ pt_open p = false) ->
  let '(x, k) := begin_turn encode_batch encode_event r mb (port_worker m p) in
  books (wk_metrics k) (worker_port x k (rest_of rest (pt_queue p)) p) n.
Proof.
  intros Hb Hp Hq Hd. assert (Hmb : 1 <= mb <= max_batch).
  { destruct Hb as (? & ? & ? & ? & [_ _ [Hl _ _ _ _] _ _ _ _ _]). by rewrite Hp in Hl. }
  pose proof (begin_turn_begun r mb (port_worker m p)) as Hs. pose proof (turn_waiting m p r mb rest Hp Hq) as Hw.
  destruct (begin_turn _ _ _ _ _) as [x k]. destruct Hs as [Hx _ Hm Hsq _ Ht Hg Hbuf].
  apply (books_move m); try done.
  - intros f j E. by rewrite Hp in E.
  - intros f j ->. done.
  - by destruct x.
  - by apply Ht.
  - intros Hf. rewrite Hg in Hf. destruct r; try done. destruct (Hd eq_refl) as [-> Ho]. by repeat split.
Qed.

(** A batch ends as [o]. *)
Lemma books_logged (m m' : TapioMetrics) (p p' : Port V) (n n' : link) (log : list (list WireEvent * send_outcome))
    (copies : list nat) (a : nat) (r : Z) (b : list WireEvent) (o : send_outcome) (k : nat) :
  books_of m p n log copies a r -> waiting p = b ++ waiting p' ->
  link_inv c s0 true n' -> own id (lk_history n') = arrivals 1 log copies ++ replicate k (next_number log, b) ->
  copies_ok (b, o) k -> (lossless = true -> quiet n' /\ copies_exact (b, o) k) ->
  get_metric MAnomalies m' = get_metric MAnomalies m -> total_grew MSinkDrops (zlen (logged (dropped [(b, o)]))) m m' ->
  worker_ok p' (Z.min (next_number log + 1) U64_MAX) 0 -> books m' p' n'.
Proof.
  intros [B1 B2 B3 B4 B5 B6 B7 B8] Hw Hi Hown Hc Hx Hm Hd Hk. exists (log ++ [(b, o)]), (copies ++ [k]), 0%nat, r.
  assert (Hb : logged [(b, o)] = b) by apply app_nil_r.
  assert (Hn : next_number (log ++ [(b, o)]) = Z.min (next_number log + 1) U64_MAX)
    by (unfold next_number; rewrite zlen_app, zlen_cons, zlen_nil; width_lia).
  assert (Hlen : length copies = length log) by (symmetry; by eapply Forall2_length).
  constructor; rewrite ?Hn; try done.
  - unfold anomalies in *. by rewrite Hm, B1, Hw, logged_app, Hb, !zlen_app, !Z.add_assoc.
  - unfold total_grew in Hd. unfold sink_drops in *. rewrite Hd, dropped_app, logged_app, zlen_app.
    rewrite <- wrap64_add_l, B2, wrap64_add_l. f_equal. lia.
  - apply Forall2_app; [done|constructor; [exact Hc|constructor]].
  - rewrite Hown, arrivals_app by (done || width_lia). fold (next_number log). cbn [arrivals]. by rewrite !app_nil_r.
  - by rewrite logged_app, Hb, <- app_assoc, <- Hw.
  - intros El. destruct (B8 El) as (_ & He & _). destruct (Hx El) as [Hq Hx']. split; [done|].
    split; [|done]. apply Forall2_app; [done|constructor; [exact Hx'|constructor]].
Qed.

Lemma books_batch (m : TapioMetrics) (p : Port V) (n : link) (j : flush_job) :
  books m p n -> pt_phase p = WFlushing j ->
  let '(x, k) := next_batch encode_batch lk_now j (port_worker m p) n in
  books (wk_metrics k) (worker_port x k (pt_queue p) p) n.
Proof.
  intros Hb Hp. unfold next_batch. pose proof Hb as (log & copies & a & r & B). pose proof B as [B1 B2 B3 B4 B5 B6 B7 B8].
  destruct B3 as [_ P2 P3 P4 P5]. rewrite Hp in *. cbn [todo flight_ok goes_on] in *. subst a.
  destruct (fj_todo j) as [|b rest] eqn:Ej.
  { apply (books_move m); try done; try constructor; [by rewrite Hp|]. unfold waiting. by rewrite Hp; cbn; rewrite Ej. }
  apply Forall_cons in P2 as [[Hne Hlen] Hrest].
  set (k := port_worker m p). set (q := batch_request k b _). set (k1 := with_worker _ _ _ _).
  assert (Hw : waiting p = b ++ concat rest ++ pt_buffer p ++ concat (map message_event (q_messages (pt_queue p))))
    by (unfold waiting; rewrite Hp; cbn [in_flight todo]; rewrite Ej; simpl; by rewrite <- !app_assoc).
  assert (Hs : sat_add64 (pt_sequence p) 1 = Z.min (next_number log + 1) U64_MAX) by (rewrite P4; done).
  destruct (EventBatchRequest_validate q U64_MAX) as [[]|e] eqn:Ev.
  - destruct (encode_batch q) as [body|e] eqn:Eb; [|by pose proof (wo_encodes _ _ _ _ _ _ _ Hbatches q) as He; rewrite Eb in He].
    exists log, copies, 0%nat, r.
    constructor; try done; unfold waiting in *;
      cbn [worker_port pt_phase pt_buffer pt_queue in_flight todo fl_batch with_todo fj_todo k1 with_worker wk_buffer k
           port_worker];
      rewrite <- ?Hw; try done.
    constructor; try done. cbn [worker_port pt_phase flight_ok fl_retries].
    split; [cbn; destruct (fj_retry j); unfold MAX_RETRIES; lia|].
    exists q. split; [done|]. split; [done|]. split; [by cbn; rewrite P4|]. split; [done|].
    split; [apply unix_now_u64|]. by apply (validate_within encode_batch q U64_MAX).
  - destruct (refused_batch c s0 max_u64 Hid Hnode k b _ e eq_refl Hne Hlen Ev) as (ev & Hin & Hbad).
    apply (books_logged m _ p _ n n log copies 0 r b Unaccounted 0 B); try done.
    + split; [lia|]. right. by exists ev.
    + intros El. destruct (B8 El) as (Hq & _). done.
    + by apply total_0.
Qed.

Lemma counted_drop_total (count : Z) (m : TapioMetrics) : total_grew MSinkDrops count m (counted_drop count m).
Proof. apply (total_trans _ 0 count _ (bump MSendFailures ["events"] 1 m)); [by apply total_0, bump_get|apply total_bump]. Qed.

(** The batch under way ends as [o]. *)
Lemma flight_ends (m m' : TapioMetrics) (p : Port V) (n n' : link) (f : flight) (j : flush_job)
    (log : list (list WireEvent * send_outcome)) (copies : list nat) (a : nat) (r : Z) (res : result unit string)
    (o : send_outcome) (k : nat) :
  books_of m p n log copies a r -> pt_phase p = WAttempting f j -> copies_ok (fl_batch f, o) k -> link_inv c s0 true n' ->
  own id (lk_history n') = arrivals 1 log copies ++ replicate k (next_number log, fl_batch f) ->
  (lossless = true -> quiet n' /\ copies_exact (fl_batch f, o) k) ->
  get_metric MAnomalies m' = get_metric MAnomalies m ->
  total_grew MSinkDrops (zlen (logged (dropped [(fl_batch f, o)]))) m m' ->
  books m' (worker_port (WFlushing (with_result res j)) (with_worker m' (pt_sequence p) (pt_buffer p) (port_worker m p))
              (pt_queue p) p) n'.
Proof.
  intros B Hp Hc Hi Ho Hq Hm Hd. pose proof (bk_worker _ _ _ _ _ _ _ B) as [_ P2 P3 P4 P5].
  rewrite Hp in *. apply (books_logged m m' p _ n n' log copies a r (fl_batch f) o k B); try done.
  unfold waiting. by rewrite Hp.
Qed.

(** It is given up. *)
Lemma failed_flight (m : TapioMetrics) (p : Port V) (n n' : link) (f : flight) (j : flush_job)
    (log : list (list WireEvent * send_outcome)) (copies : list nat) (a : nat) (r : Z) (res : result unit string) (k : nat) :
  books_of m p n log copies a r -> pt_phase p = WAttempting f j -> fl_retries f = 0%nat -> (k <= 1)%nat ->
  link_inv c s0 true n' ->
  own id (lk_history n') = arrivals 1 log copies ++ replicate (a + k) (next_number log, fl_batch f) ->
  (lossless = true -> quiet n' /\ k = 0%nat) ->
  let m' := counted_drop (zlen (fl_batch f)) m in
  books m' (worker_port (WFlushing (with_result res j)) (with_worker m' (pt_sequence p) (pt_buffer p) (port_worker m p))
              (pt_queue p) p) n'.
Proof.
  intros B Hp Er Hk Hi Ho Hq m'. pose proof (bk_worker _ _ _ _ _ _ _ B) as [_ _ P3 _ _]. rewrite Hp in P3.
  destruct P3 as [Ha _]. apply (flight_ends m m' p n n' f j log copies a r res Dropped (a + k) B Hp); try done.
  - split; [simpl; lia|done].
  - intros El. destruct (bk_lossless _ _ _ _ _ _ _ B El) as (_ & _ & ->), (Hq El) as [Hn' ->]. done.
  - unfold logged. simpl. rewrite app_nil_r. apply counted_drop_total.
Qed.

(** It is tried again. *)
Lemma flight_again (m : TapioMetrics) (p : Port V) (n n' : link) (f : flight) (j : flush_job)
    (log : list (list WireEvent * send_outcome)) (copies : list nat) (a : nat) (r : Z) (i k : nat) (pause : Z) :
  books_of m p n log copies a r -> pt_phase p = WAttempting f j -> fl_retries f = S i -> (k <= 1)%nat ->
  link_inv c s0 true n' ->
  own id (lk_history n') = arrivals 1 log copies ++ replicate (a + k) (next_number log, fl_batch f) ->
  (lossless = true -> quiet n' /\ k = 0%nat) ->
  books m (worker_port (WAttempting {| fl_batch := fl_batch f; fl_body := fl_body f; fl_retries := i; fl_backoff := pause |} j)
             (port_worker m p) (pt_queue p) p) n'.
Proof.
  intros [B1 B2 [_ P2 P3 P4 P5] B4 B5 B6 B7 B8] Hp Er Hk Hi Ho Hq. exists log, copies, (a + k)%nat, r.
  constructor; unfold waiting in *; rewrite ?Hp in *; try done.
  - destruct P3 as [Ha P3]. constructor; try done. split; [cbn [fl_retries]; lia|done].
  - intros El. destruct (B8 El) as (_ & Hc & ->), (Hq El) as [Hn ->]. done.
Qed.

Lemma books_attempt (m : TapioMetrics) (p : Port V) (n : link) (f : flight) (j : flush_job) :
  books m p n -> pt_phase p = WAttempting f j ->
  let '(x, k, n') := one_attempt (H := node_net) utf8_error decode_batch_response link_sleep f j (port_worker m p) n in
  books (wk_metrics k) (worker_port x k (pt_queue p) p) n'.
Proof.
  intros (log & copies & a & r & B) Hp. pose proof (bk_worker _ _ _ _ _ _ _ B) as [_ _ P3 _ _]. rewrite Hp in P3.
  destruct P3 as (Ha & q & He & Hqa & Hqs & Hqe & _ & Hqv).
  pose proof (exchange_link utf8_error encode_batch decode_batch_response header_value_ok extract render payload c s0 host
    Hhost Hslash Hversion Hbatches max_u64 true q (fl_body f) n He Hqa Hqv (bk_link _ _ _ _ _ _ _ B)) as Hx.
  unfold one_attempt. change (wk_controller (port_worker m p)) with c.
  change (link_net header_value_ok extract render) with node_net in Hx.
  destruct (post_json_response _ _ _ _ n) as [res n'] eqn:Epost.
  assert (Hown : forall k, own id (lk_history n') = own id (lk_history n) ++ replicate k (eb_sequence q, eb_events q) ->
    own id (lk_history n') = arrivals 1 log copies ++ replicate (a + k) (next_number log, fl_batch f)).
  { intros k ->. by rewrite (bk_own _ _ _ _ _ _ _ B), Hp, Hqs, Hqe, <- app_assoc, replicate_add. }
  destruct (match res with Ok resp => is_success (resp_status resp) | Err _ => false end) eqn:Es.
  - destruct res as [resp|]; [|done]. rewrite Es. destruct Hx as (Hi & k & _ & Ho & Hs & Hq).
    rewrite (Hs resp eq_refl Es) in *.
    apply (flight_ends m m p n n' f j log copies a r _
      (match read_answer decode_batch_response resp with Ok _ => Acknowledged | Err _ => Unaccounted end) (a + 1) B Hp);
      [|done|by apply Hown| |done|].
    + destruct (read_answer _ resp); (split; [simpl; lia|]); simpl; [|left]; lia.
    + intros El. destruct (bk_lossless _ _ _ _ _ _ _ B El) as (Hn & _ & ->), (Hq Hn) as [Hn' Hack]. split; [done|].
      destruct (Hack eq_refl) as (resp' & ans & [= <-] & _ & Hd & Hv). unfold read_answer. by rewrite Hd; simpl; rewrite Hv.
    + destruct (read_answer _ resp); by apply total_0.
  - destruct (failure_quiet _ _ _ _ _ _ _ _ Hx) as (Hi & k & Hk & Ho & Hq).
    { by destruct res. }
    assert (Hl : lossless = true -> quiet n' /\ k = 0%nat)
      by (intros El; destruct (bk_lossless _ _ _ _ _ _ _ B El) as (Hn & _); auto).
    destruct res as [resp|e]; rewrite ?Es; (destruct (fl_retries f) as [|i] eqn:Er;
      [apply (failed_flight m p n n' f j log copies a r _ k B Hp Er)|apply (flight_again m p n _ f j log copies a r i k)]);
      auto.
Qed.

(** ** The controller's tasks *)

Notation hello release n :=
  (hello_once (H := node_net) utf8_error package_version arch encode_hello decode_hello c release n).

(** What a hello that is answered brings is the controller's batch size. *)
Lemma hello_says (release : string) (n : link) (r : HelloResponse) :
  in_config (lk_controller n) = config -> fst (hello release n) = Ok r -> hr_max_batch_events r = max_batch.
Proof.
  intros Hn. unfold hello_once, exchange_once. set (req := build_hello_request package_version arch c release).
  destruct (HelloRequest_validate req) as [[]|e] eqn:Ev; [|done].
  destruct (encode_hello req) as [body|e] eqn:Eb; [|done].
  unfold hello_url. change "/v1/agents/hello" with (String "/" "v1/agents/hello").
  erewrite (post_exchange utf8_error header_value_ok extract render c host Hhost Hslash).
  unfold link_exchange. destruct (lk_plan n) as [|h rest]; [done|].
  unfold link_serve. rewrite (cw_hello _ _ _ _ _ _ _ _ _ _ Hconfig req body Eb).
  cbn [route processed]. unfold handle_hello, register_agent. cbn [json_payload map_err]. rewrite Ev.
  change (in_config (lk_controller (link_before h rest n)))
    with (in_config (fold_left ctl_step (hop_before h) (lk_controller n))).
  rewrite steps_config, Hn. fold (hello_answer config). cbn [map_err respond_with]. set (a := json_response 200 _).
  assert (Hread : forall s t, s +:+ t = render a -> forall resp,
    read_response utf8_error [ReadData s] MAX_HELLO_RESPONSE_BYTES = Ok resp ->
    forall r, decode_hello (resp_body resp) = Ok r -> hr_max_batch_events r = max_batch).
  { intros s t Es resp Hr%read_one_Ok r' Hd.
    pose proof (cw_answer _ _ _ _ _ _ _ _ _ _ Hconfig a ltac:(simpl; auto)) as Hp. rewrite <- Es in Hp.
    destruct (parse_response_prefix _ _ _ _ _ Hp Hr) as [_ Hbody]. cbn [resp_body a json_response api_body] in Hbody.
    destruct (string_dec t EmptyString) as [->|Hne].
    - rewrite str_app_nil_r in Hbody. rewrite Hbody, (hw_answer _ Hhello) in Hd. by injection Hd as <-.
    - pose proof (hw_cut _ Hhello _ _ Hbody Hne) as Hc. by rewrite Hd in Hc. }
  assert (Hend : forall s t, s +:+ t = render a ->
    fst (response <-? read_response utf8_error [ReadData s] MAX_HELLO_RESPONSE_BYTES ;;
         (if is_success (resp_status response) then
            resp <-? map_err (fun e => "decode HelloResponse: " +:+ e) (decode_hello (resp_body response)) ;;
            map_err WireError_to_string (HelloResponse_validate resp) ;;? Ok resp
          else Err ("HTTP " +:+ dec (resp_status response))), n) = Ok r -> hr_max_batch_events r = max_batch).
  { intros s t Es. specialize (Hread s t Es).
    destruct (read_response utf8_error [ReadData s] MAX_HELLO_RESPONSE_BYTES) as [resp|e]; [|done]. simpl.
    destruct (is_success (resp_status resp)); [|done]. destruct (decode_hello (resp_body resp)) as [r'|e] eqn:Ed; [|done].
    simpl. destruct (HelloResponse_validate r'); [|done]. intros [= <-]. by apply (Hread resp). }
  destruct (hop_fate h) as [e|e|e|k|]; try done.
  - destruct (str_take_app k (render a)) as [u Hu]. exact (Hend _ u Hu).
  - exact (Hend _ EmptyString (str_app_nil_r _)).
Qed.

(** Its post, and a heartbeat's, is not a batch. *)
Notation other_kept n n' :=
  (link_inv c s0 true n' /\ own id (lk_history n') = own id (lk_history n) /\ (quiet n -> quiet n')).

Notation json_head path body :=
  (request_head "POST" path host [("Content-Type", "application/json")] body).

Lemma registration_other (a : world) :
  link_inv c s0 true (aw_network a) ->
  other_kept (aw_network a)
    (snd (registration_event (H3 := node_net) utf8_error package_version arch encode_hello decode_hello encode_heartbeat
            decode_heartbeat c a)).
Proof.
  intros Hi. unfold registration_event, hello_once, heartbeat_once. destruct (aw_registration a); try done;
    unfold exchange_once.
  - set (req := build_hello_request _ _ _ _). destruct (HelloRequest_validate req); [|done].
    destruct (encode_hello req) as [body|e] eqn:Eb; [|done].
    unfold hello_url. change "/v1/agents/hello" with (String "/" "v1/agents/hello").
    rewrite (post_exchange utf8_error header_value_ok extract render c host Hhost Hslash).
    pose proof (exchange_other header_value_ok extract render c s0 (json_head "/v1/agents/hello" body) body
      (aw_network a)) as Hx.
    rewrite (cw_hello _ _ _ _ _ _ _ _ _ _ Hconfig req body Eb) in Hx. specialize (Hx Logic.I Hi).
    by destruct (link_exchange _ _ _ _ _ _) as [o n].
  - set (req := build_heartbeat_request _ _ _ _). destruct (HeartbeatRequest_validate req); [|done].
    destruct (encode_heartbeat req) as [body|e] eqn:Eb; [|done].
    unfold heartbeat_url. change "/v1/agents/heartbeat" with (String "/" "v1/agents/heartbeat").
    rewrite (post_exchange utf8_error header_value_ok extract render c host Hhost Hslash).
    pose proof (exchange_other header_value_ok extract render c s0 (json_head "/v1/agents/heartbeat" body) body
      (aw_network a)) as Hx.
    rewrite (cw_heartbeat _ _ _ _ _ _ _ _ _ _ Hconfig req body Eb) in Hx. specialize (Hx Logic.I Hi).
    by destruct (link_exchange _ _ _ _ _ _) as [o n].
Qed.

Lemma poll_other (s : PollState) (n : link) :
  tag_ok config (po_etag s) -> link_inv c s0 true n ->
  other_kept n (snd (poll_tick (H := node_net) utf8_error decode_config writable true c s n)).
Proof.
  intros Ht Hi. rewrite (poll_tick_world utf8_error decode_config writable true (H := node_net)).
  rewrite (poll_exchange utf8_error header_value_ok extract render c host Hhost Hslash).
  pose proof (exchange_other header_value_ok extract render c s0
    (request_head "GET" ("/v1/agents/config?" +:+ config_query c) host (config_headers (po_etag s)) EmptyString)
    EmptyString n) as Hx.
  rewrite (cw_poll _ _ _ _ _ _ _ _ _ _ Hconfig _ Ht) in Hx. specialize (Hx Logic.I Hi).
  by destruct (link_exchange _ _ _ _ _ _) as [o n'].
Qed.

(** ** The invariant *)

Notation joined := (link_agent_inv c config start).

(** The agent and its controller, the books, and a batch size stored that the
    controller takes. *)
Record node_inv (a : world) : Prop := {
  ni_link : joined a;
  ni_books : books (ce_metrics (aw_cells a)) (aw_outside a) (aw_network a);
  ni_batch : 1 <= cs_max_batch_events (ce_state (aw_cells a)) <= max_batch;
}.

Lemma node_same (a a' : world) :
  node_inv a -> joined a' -> books (ce_metrics (aw_cells a')) (aw_outside a') (aw_network a') ->
  ce_state (aw_cells a') = ce_state (aw_cells a) -> node_inv a'.
Proof. intros [H3 H4 H5] Hj Hb Es. constructor; rewrite ?Es; done. Qed.

Lemma node_registration (a : world) :
  node_inv a ->
  node_inv (registration_turn (H3 := node_net) utf8_error package_version arch encode_hello decode_hello encode_heartbeat
              decode_heartbeat c a).
Proof.
  intros [Hj Hb Hm].
  pose proof (registration_turn_link utf8_error package_version arch encode_hello decode_hello encode_heartbeat
    decode_heartbeat decode_config header_value_ok extract render payload c config host Hhost Hslash Hconfig
    start a Hj) as Hj'.
  assert (Hi : link_inv c s0 true (aw_network a)) by (by destruct Hb as (? & ? & ? & ? & [])).
  destruct (registration_other a Hi) as (Hi' & Ho & Hq).
  assert (Hsays : forall r, fst (registration_event (H3 := node_net) utf8_error package_version arch encode_hello
    decode_hello encode_heartbeat decode_heartbeat c a) = EvHello (Ok r) -> hr_max_batch_events r = max_batch).
  { intros r. unfold registration_event. destruct (aw_registration a); try done.
    - pose proof (hello_says (kernel_release_from (out_osrelease (aw_outside a))) (aw_network a) r
        (la_config _ _ _ _ Hj)) as Hs. destruct (hello _ _) as [x n]. cbn [fst] in *. intros [= ->]. by apply Hs.
    - by destruct (heartbeat_once _ _ _ _ _ _ _ _) as [x n]. }
  unfold registration_turn in *. change (agent_net header_value_ok extract render) with node_net in *.
  destruct (registration_event _ _ _ _ _ _ _ c a) as [ev n]. cbn [fst snd] in *.
  destruct (reg_step (registration_state a) ev) as [s|] eqn:Es; cbn [default] in *; [change (Datatypes.id s) with s in *|].
  - constructor; [exact Hj'| |]; cbn [put_registration aw_cells ce_metrics aw_outside aw_network ce_state].
    + apply (books_metrics (ce_metrics (aw_cells a))); [by apply (books_network _ _ (aw_network a))|..];
        by apply (reg_step_counters _ _ _ _ Es).
    + destruct (reg_step_batching _ _ _ Es) as [E|(r & -> & E)]; rewrite E; [exact Hm|]. rewrite (Hsays r) by done. lia.
  - constructor; [exact Hj'| |exact Hm]. cbn. by apply (books_network _ _ (aw_network a)).
Qed.

Lemma node_poll (a : world) : node_inv a -> node_inv (poll_turn (H3 := node_net) utf8_error decode_config writable c a).
Proof.
  intros Ha. pose proof Ha as [Hj Hb Hm].
  pose proof (poll_turn_link utf8_error encode_hello encode_heartbeat decode_config header_value_ok extract render payload
    c config host Hhost Hslash Hconfig writable start Hcontroller a Hj) as Hj'.
  assert (Hi : link_inv c s0 true (aw_network a)) by (by destruct Hb as (? & ? & ? & ? & [])).
  destruct (poll_other (poll_state a) (aw_network a) (la_tag _ _ _ _ Hj) Hi) as (Hi' & Ho & Hq).
  pose proof (poll_tick_counters utf8_error decode_config writable true (H := node_net) c (poll_state a) (aw_network a)
    eq_refl) as [[label Ec] Eb].
  unfold poll_turn in *. change (agent_net header_value_ok extract render) with node_net in *.
  destruct (poll_tick _ _ _ _ _ _ _) as [s n]. cbn [fst snd] in *.
  constructor; [exact Hj'| |]; cbn [aw_cells ce_metrics aw_outside aw_network ce_state].
  - rewrite Ec. apply books_bump; [done|done|]. by apply (books_network _ _ (aw_network a)).
  - injection Eb as _ ->. exact Hm.
Qed.

(** ** The observers *)

Definition rest_only (p p' : Port V) : Prop := exists v, p' = with_rest v p.

Lemma rest_only_refl (p : Port V) : rest_only p p.
Proof. exists (pt_rest p). by destruct p. Qed.

Lemma lift_rest {A : Type} (f : V -> A * V) (p q : Port V) : rest_only p q -> rest_only p (snd (lift f q)).
Proof. intros [v ->]. unfold lift. cbn [with_rest with_queue pt_rest]. destruct (f v) as [x v']. by exists v'. Qed.

Lemma port_keeps (p : Port V) : outside_keeps (rest_only p).
Proof. constructor; intros; by apply lift_rest. Qed.

Lemma books_rest_only (m : TapioMetrics) (p p' : Port V) (n : link) : rest_only p p' -> books m p n -> books m p' n.
Proof. intros [v ->]. apply books_rest. Qed.

(** What an observer reads of the outside leaves the sink alone, and what it
    makes of a record is a valid event. *)
Definition observes {L : Type} (obs : Observer (Port V * PmcThresholds) L) : Prop :=
  forall data l w, let '(observed, _, w') := obs_observe (Observer := obs) data l w in
    rest_only (fst w) (fst w') /\
    match observed with
    | Some (_, o) => exists e, occurrence_to_wire_event o = Ok e /\ valid_event e
    | None => True
    end.

Lemma deliverable_event (observer t : string) (nanos : Z) (o : Occurrence) :
  deliverable observer t nanos o -> exists e, occurrence_to_wire_event o = Ok e /\ valid_event e.
Proof. intros (_ & _ & e & He & Hv & _). by exists e. Qed.

Lemma env_now_rest (p : Port V) (w : Port V * PmcThresholds) :
  rest_only p (fst w) -> rest_only p (fst (snd (env_now w))).
Proof. intros Hp%(lift_rest env_now). simpl. by destruct (lift env_now (fst w)). Qed.

Lemma env_id_rest (p : Port V) (w : Port V * PmcThresholds) :
  rest_only p (fst w) -> rest_only p (fst (snd (env_id w))).
Proof. intros Hp%(lift_rest env_id). simpl. by destruct (lift env_id (fst w)). Qed.

Lemma observes_intro {L : Type} (obs : Observer (Port V * PmcThresholds) L) (observer : string) :
  (forall p data l w, rest_only p (fst w) -> rest_only p (fst (snd (obs_observe (Observer := obs) data l w)))) ->
  (forall data l l' w w' t o, obs_observe (Observer := obs) data l w = (Some (t, o), l', w') ->
     exists nanos, deliverable observer t nanos o) -> observes obs.
Proof.
  intros Hk Hd data l w. pose proof (Hk _ data l w (rest_only_refl _)) as Hr.
  destruct (obs_observe data l w) as [[[[t o]|] l'] w'] eqn:E; [|done]. split; [exact Hr|].
  destruct (Hd _ _ _ _ _ _ _ E) as [nanos Ho]. by eapply deliverable_event.
Qed.

Notation kept_by_env p := (fun w : Port V * PmcThresholds => rest_only p (fst w)).

Lemma network_observes : observes network_observer.
Proof.
  apply (observes_intro _ "network").
  - intros p data l w. exact (network_observe_keeps (kept_by_env p) (env_now_rest p) (env_id_rest p) data l w).
  - intros data l l' w w' t o E. eexists. exact (network_observe_deliverable _ _ _ _ _ _ _ E).
Qed.

Lemma container_observes : observes (container_observer boot_offset_ns).
Proof.
  apply (observes_intro _ "container").
  - intros p data l w. exact (container_observe_keeps (kept_by_env p) (env_id_rest p) boot_offset_ns data l w).
  - intros data l l' w w' t o E. eexists. exact (container_observe_deliverable _ _ _ _ _ _ _ _ E).
Qed.

Lemma storage_observes : observes (storage_observer boot_offset_ns).
Proof.
  apply (observes_intro _ "storage").
  - intros p data l w. exact (storage_observe_keeps (kept_by_env p) (env_id_rest p) boot_offset_ns data l w).
  - intros data l l' w w' t o E. eexists. exact (storage_observe_deliverable _ _ _ _ _ _ _ _ E).
Qed.

Lemma pmc_observes : observes (pmc_observer boot_offset_ns).
Proof.
  apply (observes_intro _ "node").
  - intros p data l w. exact (pmc_observe_keeps (kept_by_env p) (env_id_rest p) boot_offset_ns data l w).
  - intros data l l' w w' t o E. eexists. exact (pmc_observe_deliverable _ _ _ _ _ _ _ _ E).
Qed.

(** One tick, from what has arrived to what is reported. *)
Lemma tick_books {L : Type} (obs : Observer (Port V * PmcThresholds) L) (n : link)
    (fd : option Z) (lookup : Z -> Z -> option (list Z)) (ring : list (list Z))
    (s : drain_state L (Port V * PmcThresholds)) :
  observes obs -> books (dr_metrics s) (fst (dr_world s)) n ->
  let s' := snd (tick (Observer0 := obs) fd lookup ring s) in books (dr_metrics s') (fst (dr_world s')) n.
Proof.
  intros Hobs. apply (tick_keeps (Observer0 := obs) (fun m (w : Port V * PmcThresholds) => books m (fst w) n)).
  - intros k labels v m w Hk Ha Hb. apply books_bump; [by auto|by intros ->|done].
  - intros data l m w Hb. specialize (Hobs data l w).
    destruct (obs_observe data l w) as [[[[t o]|] l'] w']; destruct Hobs as [[v Hv] Ho].
    + destruct Ho as (e & He & Hve). pose proof (books_report o e obs_name t m (fst w') n He Hve) as Hr.
      simpl. rewrite Hv in *. specialize (Hr (books_rest _ _ _ v Hb)).
      by destruct (port_report o _ _) as [[r m'] p'].
    + rewrite Hv. by apply books_rest.
Qed.

(** ** The bodies *)

Lemma node_tick {L : Type} (obs : Observer (Port V * PmcThresholds) L) (o : observer_task) (l : L) (a : world) :
  observes obs -> node_inv a ->
  let a' := snd (observer_tick obs o l a) in
  books (ce_metrics (aw_cells a')) (aw_outside a') (aw_network a') /\
  ce_state (aw_cells a') = ce_state (aw_cells a).
Proof.
  intros Hobs [_ Hb _]. unfold observer_tick.
  change (out_arrived o (aw_outside a)) with (lift (out_arrived o) (aw_outside a)). unfold lift.
  destruct (out_arrived o (pt_rest (aw_outside a))) as [arrived v].
  pose proof (tick_books obs (aw_network a) (ol_metrics_fd (aw_loops a o))
    (out_percpu (with_rest v (aw_outside a))) (ol_ring (aw_loops a o) ++ arrived)
    {| dr_counts := ol_counts (aw_loops a o); dr_metrics := ce_metrics (aw_cells a); dr_local := l;
       dr_world := (with_rest v (aw_outside a), ce_thresholds (aw_cells a)) |} Hobs
    (books_rest _ _ _ v Hb)) as Hb'.
  destruct (tick _ _ _ _) as [ring s]. simpl in *. done.
Qed.

Lemma node_observer (o : observer_task) (a : world) : node_inv a -> node_inv (observer_turn boot_offset_ns o a).
Proof.
  intros Ha. pose proof (link_turn utf8_error package_version arch encode_hello decode_hello encode_heartbeat
    decode_heartbeat decode_config header_value_ok extract render payload c config host Hhost Hslash Hconfig
    writable boot_offset_ns ebpf_dir start Hcontroller (ObserverTask o) a (ni_link _ Ha)) as Hj.
  simpl in Hj. unfold body_turn in Hj. apply (node_same a); [exact Ha|exact Hj|..]; clear Hj; destruct o; simpl;
    try (destruct (node_tick network_observer NetworkTask tt a network_observes Ha) as [? ?]; assumption);
    try (destruct (node_tick (storage_observer boot_offset_ns) StorageTask tt a storage_observes Ha) as [? ?]; assumption);
    try (destruct (node_tick (pmc_observer boot_offset_ns) PmcTask tt a pmc_observes Ha) as [? ?]; assumption);
    destruct (node_tick (container_observer boot_offset_ns) ContainerTask (aw_limits a) a container_observes Ha) as [? ?];
    by destruct (observer_tick _ _ _ _) as [limits a'].
Qed.

Lemma node_turn (t : agent_task) (a : world) : node_inv a -> node_inv (task_turn t a).
Proof.
  intros Ha. simpl. unfold body_turn. rewrite Hcontroller.
  destruct t as [| |o]; [by apply node_registration|by apply node_poll|by apply node_observer].
Qed.

Lemma node_enter (t : agent_task) (a : world) : node_inv a -> node_inv (snd (task_enter t a)).
Proof.
  intros Ha. pose proof (link_enter utf8_error package_version arch encode_hello decode_hello encode_heartbeat
    decode_heartbeat decode_config header_value_ok extract render c config writable boot_offset_ns ebpf_dir start t a
    (ni_link _ Ha)) as Hj. destruct t as [| |o]; [done|done|].
  pose proof (task_setup_world writable (rest_only (aw_outside a)) o (ebpf_dir +:+ task_object o) (ag_tapio_config start)
    {| su_carriers := ce_carriers (aw_cells a); su_maps := ce_maps (aw_cells a); su_calls := aw_calls a;
       su_world := aw_outside a |} (port_keeps _) (rest_only_refl _)) as Hr.
  simpl in *. unfold observer_enter in *. destruct (task_setup _ _ _ _ _) as [x s]. cbn [snd] in *.
  apply (node_same a); [exact Ha|exact Hj| |done]; cbn.
  by apply (books_rest_only _ _ _ _ Hr), ni_books.
Qed.

(** Steps of the outside alone. *)
Lemma node_outside (p : Port V) (a : world) :
  node_inv a -> books (ce_metrics (aw_cells a)) p (aw_network a) -> node_inv (with_cells (aw_cells a) p a).
Proof. intros Ha Hb. apply (node_same a); try done. by apply link_outside, ni_link. Qed.

Lemma node_end (t : agent_task) (a : world) : node_inv a -> node_inv (task_end t a).
Proof.
  intros Ha. pose proof (link_end utf8_error package_version arch encode_hello decode_hello encode_heartbeat
    decode_heartbeat decode_config header_value_ok extract render c config writable boot_offset_ns ebpf_dir start t a
    (ni_link _ Ha)) as Hj. destruct t as [| |o]; [|done|].
  - simpl in *. unfold registration_end in *. set (st := default _ _) in *.
    assert (Es : rg_metrics st = ce_metrics (aw_cells a) /\ rg_state st = ce_state (aw_cells a)).
    { unfold st, reg_step, registration_state. simpl. by destruct (aw_registration a). }
    destruct Es as [Em Est]. apply (node_same a); [exact Ha|exact Hj|..]; cbn; rewrite ?Em, ?Est; [apply Ha|done].
  - apply node_outside; [done|apply books_flush, Ha].
Qed.

Lemma node_serve (a : world) : node_inv a -> node_inv (snd (serve_turn a)).
Proof.
  intros Ha. simpl. unfold body_serve. simpl. unfold lift. destruct (out_accept _) as [ev v].
  apply node_outside; [done|apply books_rest, Ha].
Qed.

Lemma node_drop (a : world) : node_inv a -> node_inv (sinks_drop a).
Proof. intros Ha. apply node_outside; [done|by apply books_queue; [apply Ha|..]]. Qed.

(** ** The worker and the whole node *)

(** A step of the worker keeps what the controller's requests keep. *)
Lemma worker_step_network (P : InnerState -> Prop) (a a' : world) :
  (forall s r, P s -> P (ctl_step s r)) -> worker_moves a a' -> P (lk_controller (aw_network a)) ->
  P (lk_controller (aw_network a')).
Proof.
  intros Hstep Hm Ha. destruct Hm as [E|r mb rest E Hq Hd|j E|f j E|answer g E]; try done.
  - by destruct (begin_turn _ _ _ _ _).
  - by destruct (next_batch _ _ _ _ _).
  - pose proof (request_keeps (H := node_net) utf8_error (fun n => P (lk_controller n)) "POST" (events_url c)
      [("Content-Type", "application/json")] (fl_body f) MAX_EVENTS_RESPONSE_BYTES (aw_network a)) as Hr.
    specialize (Hr ltac:(intros ? ? ? w Hn; by apply (exchange_keeps _ _ _ P)) Ha).
    unfold one_attempt, post_json_response. cbn [port_worker wk_controller]. destruct (request _ _ _ _ _ _ _) as [res n].
    repeat case_match; simplify_eq; exact Hr.
Qed.

Lemma node_worker (a a' : world) : node_inv a -> worker_moves a a' -> node_inv a'.
Proof.
  intros [Hj Hb Hm] Hw.
  assert (Hk : forall P : InnerState -> Prop, (forall s r, P s -> P (ctl_step s r)) ->
    P (lk_controller (aw_network a)) -> P (lk_controller (aw_network a'))) by (intros P Hs; by apply worker_step_network).
  assert (Hsame : forall x k q n, a' = put_worker x k q n a -> books (wk_metrics k) (worker_port x k q (aw_outside a)) n ->
    node_inv a').
  { intros x k q n -> Hb'. constructor; [|exact Hb'|exact Hm]. apply (same_only_inv _ _ _ a); try done; cbn.
    - apply (same_config_inv _ a); try done; apply (la_agent _ _ _ _ Hj).
    - apply (Hk (fun s => in_config s = config)); [apply step_config|apply (la_config _ _ _ _ Hj)].
    - intros Hr. apply (Hk (fun s => is_Some (bt_get id (in_agents s)))); [|by apply (la_registered _ _ _ _ Hj)].
      intros s1 q1. apply (step_registered c s1 q1).
    - apply (la_held _ _ _ _ Hj). }
  destruct Hw as [E|r mb rest E Hq Hd|j E|f j E|answer g E].
  - apply (Hsame _ _ _ _ eq_refl). apply (books_move _ _ _ _ _ _ Hb); try done.
    + by rewrite E.
    + unfold waiting. by rewrite E.
  - pose proof (books_turn _ _ _ r mb rest Hb E Hq Hd) as Ht. destruct (begin_turn _ _ _ _ _) as [x k].
    by apply (Hsame _ _ _ _ eq_refl).
  - pose proof (books_batch _ _ _ j Hb E) as Ht. destruct (next_batch _ _ _ _ _) as [x k].
    by apply (Hsame _ _ _ _ eq_refl).
  - pose proof (books_attempt _ _ _ f j Hb E) as Ht. destruct (one_attempt _ _ _ _ _ _ _) as [[x k] n].
    by apply (Hsame _ _ _ _ eq_refl).
  - apply (Hsame _ _ _ _ eq_refl). pose proof Hb as (log & copies & a0 & r & [_ _ [_ _ _ _ Hst] _ _ _ _ _]).
    rewrite E in Hst. apply (books_move _ _ _ _ _ _ Hb); try done.
    + by rewrite E.
    + by destruct g.
    + unfold waiting. rewrite E. by destruct g.
    + by destruct g.
    + by destruct g.
    + by destruct g.
Qed.

Record node_run_inv (r : Process world) : Prop := {
  nr_process : process_inv (controller_mode start) r;
  nr_node : node_inv (pr_world r);
  nr_exit : pr_main r = Exited -> pt_running (aw_outside (pr_world r)) = false;
}.

Lemma process_node_step (r r' : Process world) (e : process_event) :
  node_inv (pr_world r) -> process_step r e = Some r' -> node_inv (pr_world r').
Proof.
  intros Hr He. apply (process_run_world node_inv [e] r r'); auto using node_enter, node_turn, node_end, node_serve, node_drop.
  simpl. by rewrite He.
Qed.

Lemma node_step_inv (r r' : Process world) (e : node_event) : node_run_inv r -> node_step r e = Some r' -> node_run_inv r'.
Proof.
  intros [Hp Hn Hx]. destruct e as [e|e].
  - intros Hs. assert (Hs' : process_step r e = Some r' /\ (e = PExit -> pt_running (aw_outside (pr_world r)) = false)).
    { destruct e; try (split; [exact Hs|done]). simpl in Hs. by destruct (pt_running _). }
    destruct Hs' as [He Hexit]. constructor; [by eapply process_step_inv|by eapply process_node_step|].
    intros Hx'. destruct (only_exit _ _ _ He Hx') as [->|Hx0].
    + simpl in He. destruct (_ && _); [|done]. injection He as <-. simpl. auto.
    + by rewrite (exited_still _ _ e Hp Hx0) in He.
  - simpl. destruct (worker_step e (pr_world r)) as [a|] eqn:E; [|done]. intros [= <-].
    apply worker_step_moves in E. constructor; [by destruct Hp|by eapply node_worker|]. simpl. intros Hx0.
    specialize (Hx Hx0). unfold pt_running in Hx. exfalso. destruct E; by rewrite E in Hx.
Qed.

Lemma node_run_keeps (evs : list node_event) (r r' : Process world) :
  node_run_inv r -> node_run r evs = Some r' -> node_run_inv r'.
Proof.
  revert r. induction evs as [|e evs IH]; intros r Hr; simpl; [by intros [= <-]|].
  destruct (node_step r e) as [r1|] eqn:E; [|done]. apply IH. by eapply node_step_inv.
Qed.
End Books.

(** ** The end of the node *)

(** The steps of the worker that are left once the sink is dropped, at most: for
    a message or the closed queue a reading of the batch size, a receive and the
    end of the turn, and for each event that is still to be sent, in a batch of
    its own, one for the batch and one for each attempt; for what is under way,
    what is left of it. *)
Definition loop_left (p : Port V) : nat :=
  4 * S (length (q_messages (pt_queue p)))
  + (2 + MAX_RETRIES) * length (pt_buffer p ++ concat (map message_event (q_messages (pt_queue p)))).

Definition worker_left (p : Port V) : nat := sends_left (loop_left p) (pt_phase p).

Lemma concat_length (l : list (list WireEvent)) :
  Forall (fun b => b <> []) l -> (length l <= length (concat l))%nat.
Proof. induction 1 as [|[|e b] l Hb _ IH]; simpl; rewrite ?length_app; [lia|done|lia]. Qed.

Lemma turn_left (r : recv_outcome) (mb : Z) (rest : list WorkerMessage) (m : TapioMetrics) (p : Port V) :
  pt_phase p = WWaiting mb -> q_messages (pt_queue p) = match r with Received msg => msg :: rest | _ => rest end ->
  (r = RecvDisconnected -> rest = [] /\ pt_open p = false) -> r <> RecvTimeout ->
  let '(x, k) := begin_turn encode_batch encode_event r mb (port_worker m p) in
  (worker_left (worker_port x k (rest_of rest (pt_queue p)) p) < worker_left p)%nat.
Proof.
  intros Hp Hq Hd Hr. pose proof (begin_turn_begun r mb (port_worker m p)) as Hs.
  destruct (begin_turn _ _ _ _ _) as [x k]. destruct Hs as [Hx Hw _ _ Hne _ Hg _].
  apply concat_length in Hne. apply (f_equal length) in Hw. rewrite !length_app in Hw.
  unfold worker_left, loop_left. rewrite Hp, Hq. cbn [worker_port pt_phase pt_buffer pt_queue rest_of q_messages].
  rewrite !length_app. clear -Hx Hw Hne Hg Hd Hr. destruct r as [msg| |]; [|done|destruct (Hd eq_refl) as [-> _]];
    cbn [received_events map concat length port_worker wk_buffer] in *; rewrite ?length_app;
    destruct x; try done; unfold sends_left, flush_left, MAX_RETRIES; cbn [todo goes_on concat length] in *; rewrite ?Hg; lia.
Qed.

Lemma worker_moves_left (a a' : world) :
  pt_open (aw_outside a) = false -> worker_moves a a' ->
  pt_open (aw_outside a') = false /\ (worker_left (aw_outside a') < worker_left (aw_outside a))%nat.
Proof.
  intros Ho [E|r mb rest E Hq Hd Hn|j E|f j E|answer g E].
  - split; [done|]. unfold worker_left. rewrite E. simpl. unfold loop_left. simpl. lia.
  - assert (Hr : r <> RecvTimeout) by (intros ->; by rewrite (Hn eq_refl) in Ho).
    pose proof (turn_left r mb rest (ce_metrics (aw_cells a)) _ E Hq Hd Hr) as Hl. by destruct (begin_turn _ _ _ _ _).
  - pose proof (next_batch_left encode_batch lk_now (loop_left (aw_outside a)) j
      (port_worker (ce_metrics (aw_cells a)) (aw_outside a)) (aw_network a)) as Hl.
    destruct (next_batch _ _ _ _ _) as [x k]. destruct Hl as [Hb Hl]. split; [done|].
    unfold worker_left. rewrite E. simpl. unfold loop_left at 1. simpl. by rewrite Hb.
  - pose proof (one_attempt_left (H := node_net) utf8_error decode_batch_response link_sleep (loop_left (aw_outside a)) f j
      (port_worker (ce_metrics (aw_cells a)) (aw_outside a)) (aw_network a)) as Hl.
    destruct (one_attempt _ _ _ _ _ _ _) as [[x k] n]. destruct Hl as [Hb Hl]. split; [done|].
    unfold worker_left. rewrite E. simpl. unfold loop_left at 1. simpl. by rewrite Hb.
  - split; [done|]. unfold worker_left. rewrite E. simpl. destruct g; simpl; unfold loop_left; simpl; lia.
Qed.

Lemma worker_goes_on (a : world) :
  pt_running (aw_outside a) = true -> pt_open (aw_outside a) = false -> exists e a', worker_step e a = Some a'.
Proof.
  unfold pt_running, worker_step. intros Hr Ho. destruct (pt_phase (aw_outside a)) as [|mb|j|f j|answer g|]; [| | | | |done].
  - by exists WRead; eexists.
  - destruct (q_messages (pt_queue (aw_outside a))) as [|msg rest].
    + exists WDisconnect. rewrite Ho. cbn [is_empty andb negb]. destruct (begin_turn _ _ _ _ _) as [x k]. by eexists.
    + exists WReceive. destruct (begin_turn _ _ _ _ _) as [x k]. by eexists.
  - exists WAdvance. destruct (worker_advance _ _ _ _ _ _) as [[x k] n]. by eexists.
  - exists WAdvance. destruct (worker_advance _ _ _ _ _ _) as [[x k] n]. by eexists.
  - exists WEnd. by eexists.
Qed.

Lemma node_run_app (evs evs' : list node_event) (r : Process world) :
  node_run r (evs ++ evs') = match node_run r evs with Some r' => node_run r' evs' | None => None end.
Proof. revert r. induction evs as [|e evs IH]; intros r; simpl; [done|]. by destruct (node_step r e). Qed.

Lemma worker_run_left (turns : list worker_event) (r r' : Process world) :
  pt_open (aw_outside (pr_world r)) = false -> node_run r (map NWorker turns) = Some r' ->
  (length turns + worker_left (aw_outside (pr_world r')) <= worker_left (aw_outside (pr_world r)))%nat.
Proof.
  revert r. induction turns as [|e turns IH]; intros r Ho; simpl; [by intros [= <-]|].
  destruct (worker_step e (pr_world r)) as [a|] eqn:E; [|done]. simpl. apply worker_step_moves in E.
  destruct (worker_moves_left _ a Ho E) as [Ho' Hl]. intros Hr. specialize (IH (with_world a r) Ho' Hr). simpl in IH. lia.
Qed.

Lemma worker_run_open (turns : list worker_event) (r r' : Process world) :
  pt_open (aw_outside (pr_world r)) = false -> node_run r (map NWorker turns) = Some r' ->
  pt_open (aw_outside (pr_world r')) = false.
Proof.
  revert r. induction turns as [|e turns IH]; intros r Ho; simpl; [by intros [= <-]|].
  destruct (worker_step e (pr_world r)) as [a|] eqn:E; [|done]. simpl. intros Hr. refine (IH (with_world a r) _ Hr).
  by destruct (worker_moves_left _ a Ho (worker_step_moves _ _ _ E)).
Qed.

Lemma worker_can_stop (n : nat) (r : Process world) :
  pt_open (aw_outside (pr_world r)) = false -> (worker_left (aw_outside (pr_world r)) <= n)%nat ->
  exists turns r', node_run r (map NWorker turns) = Some r' /\ pt_running (aw_outside (pr_world r')) = false /\
    pr_main r' = pr_main r /\ pr_server r' = pr_server r.
Proof.
  revert r. induction n as [|n IH]; intros r Ho Hn;
    (destruct (pt_running (aw_outside (pr_world r))) eqn:Er; [|by exists [], r]);
    destruct (worker_goes_on (pr_world r) Er Ho) as (e & a & E);
    destruct (worker_moves_left _ a Ho (worker_step_moves _ _ _ E)) as [Ho' Hl]; [lia|].
  destruct (IH (with_world a r) Ho' ltac:(simpl; lia)) as (turns & r' & Hr & H3 & H4 & H5). exists (e :: turns), r'.
  simpl. rewrite E. done.
Qed.

(** When main has returned the sinks are dropped. *)
Definition closed_inv (r : Process world) : Prop :=
  process_inv (controller_mode start) r /\ (pr_main r <> Joining -> pt_open (aw_outside (pr_world r)) = false).

Lemma closed_process_step (r r' : Process world) (e : process_event) :
  closed_inv r -> process_step r e = Some r' -> closed_inv r'.
Proof.
  intros [Hp Ho] Hs. split; [by eapply process_step_inv|]. intros Hm. destruct (decide (pr_main r = Joining)) as [Hj|Hj].
  - destruct e; simpl in Hs; rewrite ?Hj in Hs; repeat case_match; simplify_eq/=; done.
  - specialize (Ho Hj). assert (Ht : forall t p, phase_of t (pr_tasks r) = Some p -> match p with Joined _ => True | _ => False end).
    { intros t p Ep. destruct p; try done; by destruct (Hj (task_live _ r t _ Hp Ep Logic.I)). }
    assert (Hserve : pt_open (aw_outside (snd (serve_turn (pr_world r)))) = false).
    { simpl. unfold body_serve. simpl. unfold lift. by destruct (out_accept _). }
    destruct e as [|t|t|t|t| | | | |]; cbn [process_step] in Hs;
      try (specialize (Ht t); destruct (phase_of t (pr_tasks r)) as [[]|]; try done; by destruct (Ht _ eq_refl));
      try (destruct (serve_turn (pr_world r)) as [ok w]); repeat case_match; simplify_eq/=; done.
Qed.

Lemma closed_run (evs : list node_event) (r r' : Process world) :
  closed_inv r -> node_run r evs = Some r' -> closed_inv r'.
Proof.
  revert r. induction evs as [|e evs IH]; intros r Hr; simpl; [by intros [= <-]|].
  destruct (node_step r e) as [r1|] eqn:E; [|done]. apply IH. destruct e as [e|e].
  - apply (closed_process_step r r1 e Hr). destruct e; try exact E. simpl in E. by destruct (pt_running _).
  - simpl in E. destruct (worker_step e (pr_world r)) as [a|] eqn:Ew; [|done]. injection E as <-. destruct Hr as [Hp Ho].
    split; [by destruct Hp|]. intros Hm. by destruct (worker_moves_left _ a (Ho Hm) (worker_step_moves _ _ _ Ew)).
Qed.

(** ** Delivery *)

Definition pending (p : Port V) : list WireEvent := pt_buffer p ++ concat (map message_event (q_messages (pt_queue p))).

(** The worker's steps to a sink with nothing on its way, at most. *)
Definition loop_pending (p : Port V) : nat :=
  4 * (length (q_messages (pt_queue p)) + Nat.min 1 (length (pending p)))
  + (2 + MAX_RETRIES) * length (pending p).

Definition delivery_left (p : Port V) : nat := sends_left (loop_pending p) (pt_phase p).

Lemma waiting_pending (p : Port V) :
  waiting p = in_flight (pt_phase p) ++ concat (todo (pt_phase p)) ++ pending p.
Proof. done. Qed.

Lemma turn_delivers (r : recv_outcome) (mb : Z) (rest : list WorkerMessage) (m : TapioMetrics) (p : Port V) :
  pt_phase p = WWaiting mb -> q_messages (pt_queue p) = match r with Received msg => msg :: rest | _ => rest end ->
  (r = RecvDisconnected \/ r = RecvTimeout -> rest = []) -> waiting p <> [] ->
  let '(x, k) := begin_turn encode_batch encode_event r mb (port_worker m p) in
  (delivery_left (worker_port x k (rest_of rest (pt_queue p)) p) < delivery_left p)%nat.
Proof.
  intros Hp Hq Hd Hne. pose proof (begin_turn_begun r mb (port_worker m p)) as Hs.
  destruct (begin_turn _ _ _ _ _) as [x k]. destruct Hs as [Hx Hw _ _ Hb _ Hg Hf].
  apply concat_length in Hb. apply (f_equal length) in Hw. rewrite !length_app in Hw.
  assert (Hn : (0 < length (pending p))%nat).
  { rewrite waiting_pending, Hp in Hne. simpl in Hne. destruct (pending p); [done|simpl; lia]. }
  unfold delivery_left, loop_pending. rewrite Hp, Hq. unfold pending in *. rewrite Hq in *.
  cbn [worker_port pt_phase pt_buffer pt_queue rest_of q_messages]. rewrite !length_app in *.
  clear -Hx Hw Hb Hg Hd Hn Hf. unfold MAX_RETRIES. destruct r as [msg| |]; [|rewrite Hf, Hd in * by auto..];
    cbn [received_events map concat length port_worker wk_buffer] in *; rewrite ?length_app in *;
    destruct x; try done; unfold sends_left, flush_left, MAX_RETRIES; cbn [todo goes_on concat length] in *; rewrite ?Hg; lia.
Qed.

Lemma next_batch_waiting (m : TapioMetrics) (p : Port V) (n : link) (j : flush_job) :
  pt_phase p = WFlushing j -> Forall batch_ok (fj_todo j) -> Forall valid_event (waiting p) ->
  let '(x, k) := next_batch encode_batch lk_now j (port_worker m p) n in
  waiting (worker_port x k (pt_queue p) p) = waiting p /\ wk_metrics k = m.
Proof.
  intros Hp Ht Hv. rewrite waiting_pending, Hp in *. unfold next_batch. cbn [in_flight todo app] in *.
  destruct (fj_todo j) as [|b rest] eqn:Ej; [done|]. apply Forall_cons in Ht as [[Hne Hlen] _].
  apply Forall_app in Hv as [[Hv _]%Forall_app _].
  destruct (EventBatchRequest_validate _ U64_MAX) as [[]|e] eqn:Ev.
  - destruct (encode_batch _) as [body|e] eqn:Eb; [split; [|done]; rewrite waiting_pending; cbn; by rewrite <- app_assoc|].
    pose proof (wo_encodes _ _ _ _ _ _ _ Hbatches (batch_request (port_worker m p) b (unix_now (lk_now n)))) as He.
    by rewrite Eb in He.
  - destruct (refused_batch c s0 max_u64 Hid Hnode (port_worker m p) b _ e eq_refl Hne Hlen Ev) as (ev & Hin & Hbad).
    rewrite List.Forall_forall in Hv. by destruct Hbad; apply Hv.
Qed.

Section Delivery.
(** The events on their way, batches of which the controller can decode. *)
Variable W : list WireEvent.
Hypothesis Haccepts : forall r body, encode_batch r = Ok body -> eb_agent_id r = id -> is_u64 (eb_sequence r) ->
  is_u64 (eb_sent_at_unix_nanos r) -> EventBatchRequest_validate r max_batch = Ok tt -> incl (eb_events r) W ->
  extract (request_head "POST" "/v1/events" host [("Content-Type", "application/json")] body) body = PostEvents (Ok r).

Record ready (a : world) : Prop := {
  rd_node : node_inv false a;
  rd_plan : Forall (fun h => hop_fate h = Answered) (lk_plan (aw_network a));
  rd_room : (length (waiting (aw_outside a)) <= length (lk_plan (aw_network a)))%nat;
  rd_events : incl (waiting (aw_outside a)) W;
}.

(** What has reached the controller in between, and nothing else has changed. *)
Definition brought (batches : list (Z * list WireEvent)) (a a' : world) : Prop :=
  own id (lk_history (aw_network a')) = own id (lk_history (aw_network a)) ++ batches /\
  waiting (aw_outside a) = concat (map snd batches) ++ waiting (aw_outside a') /\
  ce_metrics (aw_cells a') = ce_metrics (aw_cells a).

Definition progress (a : world) : Prop :=
  exists e a' batches, worker_step e a = Some a' /\ ready a' /\ brought batches a a' /\
    (delivery_left (aw_outside a') < delivery_left (aw_outside a))%nat.

(** A step that only moves what is waiting. *)
Lemma still_progress (e : worker_event) (x : worker_phase) (k : Worker) (q : Queue) (a : world) :
  ready a -> let a' := put_worker x k q (aw_network a) a in
  worker_step e a = Some a' -> wk_metrics k = ce_metrics (aw_cells a) ->
  waiting (worker_port x k q (aw_outside a)) = waiting (aw_outside a) ->
  (delivery_left (worker_port x k q (aw_outside a)) < delivery_left (aw_outside a))%nat -> progress a.
Proof.
  intros [Hn Hp Hl Hi] a' Hs Hm Hw Hd. exists e, a', []. split; [done|]. split; [|split; [|done]].
  - constructor; cbn [a' put_worker aw_outside aw_network]; rewrite ?Hw; try done.
    by apply (node_worker false a); [|apply (worker_step_moves e)].
  - unfold brought. cbn [a' put_worker aw_outside aw_network aw_cells ce_metrics]. by rewrite app_nil_r, Hw.
Qed.

Lemma attempt_progress (f : flight) (j : flush_job) (a : world) :
  ready a -> pt_phase (aw_outside a) = WAttempting f j -> progress a.
Proof.
  intros [Hn Hp Hl Hi] E. pose proof (ni_books _ _ Hn) as (log & copies & n & r & B).
  pose proof (bk_worker _ _ _ _ _ _ _ _ B) as [_ Ht Hf _ _]. rewrite E in Hf, Ht.
  destruct Hf as (_ & q & He & Hqa & Hqs & Hqe & Hqt & Hqv).
  set (m := ce_metrics (aw_cells a)) in *. set (p := aw_outside a) in *. set (net := aw_network a) in *.
  rewrite waiting_pending, E in Hl, Hi. cbn [in_flight todo] in Hl, Hi.
  assert (Hne : fl_batch f <> []).
  { intros E0. apply event_batch_validate_accepts in Hqv. rewrite Hqe, E0, zlen_nil in Hqv. lia. }
  destruct (lk_plan net) as [|h rest] eqn:Ep; [rewrite !length_app in Hl; destruct (fl_batch f); simpl in Hl; [done|lia]|].
  apply Forall_cons in Hp as [Hh Hrest].
  pose proof (answered_exchange utf8_error encode_batch decode_batch_response header_value_ok extract render payload c s0
    host Hhost Hslash Hversion Hbatches max_u64 true q (fl_body f) h rest net Ep Hh) as Hx.
  specialize (Hx ltac:(apply (Haccepts q); try done; [rewrite Hqs; unfold next_number; pose proof (zlen_nonneg log); width_lia|
    rewrite Hqe; intros ev Hev; apply Hi, in_or_app; by left]) Hqa Hqv (bk_link _ _ _ _ _ _ _ _ B)).
  pose proof (one_attempt_left (H := node_net) utf8_error decode_batch_response link_sleep (loop_pending p) f j
    (port_worker m p) net) as Hleft.
  assert (Hs : worker_step WAdvance a = let '(x, k, n) := one_attempt (H := node_net) utf8_error decode_batch_response
    link_sleep f j (port_worker m p) net in Some (put_worker x k (pt_queue p) n a)) by (unfold worker_step; fold p; by rewrite E).
  unfold one_attempt in Hs, Hleft. change (wk_controller (port_worker m p)) with c in Hs, Hleft.
  change (link_net header_value_ok extract render) with node_net in Hx.
  destruct (post_json_response _ _ _ _ net) as [res n'].
  destruct Hx as ((resp & ans & -> & Hok & Hdec & Hans) & Hown & Hplan).
  unfold read_answer in Hs, Hleft. rewrite Hok, Hdec in Hs, Hleft. cbn [map_err rbind] in Hs, Hleft. rewrite Hans in Hs, Hleft.
  eexists WAdvance, _, [(eb_sequence q, eb_events q)]. split; [exact Hs|].
  assert (Hw : waiting p = fl_batch f ++ waiting (worker_port (WFlushing (with_result (Ok tt) j)) (port_worker m p) (pt_queue p) p)).
  { rewrite (waiting_pending p). by rewrite E. }
  split; [|split; [|by unfold delivery_left; fold p; rewrite E; apply Hleft]].
  - constructor; cbn [put_worker aw_outside aw_network].
    + by apply (node_worker false a); [|apply (worker_step_moves WAdvance)].
    + by rewrite Hplan.
    + rewrite Hplan. change (waiting _) with (concat (fj_todo j) ++ pending p). rewrite (length_app (fl_batch f)) in Hl.
      destruct (fl_batch f); [done|]. simpl in Hl. lia.
    + intros ev Hev. apply Hi. apply in_or_app. by right.
  - split; [exact Hown|]. split; [|done]. cbn [map snd concat put_worker aw_outside]. by rewrite Hqe, app_nil_r.
Qed.

Lemma turn_progress (mb : Z) (a : world) :
  ready a -> waiting (aw_outside a) <> [] -> pt_phase (aw_outside a) = WWaiting mb -> progress a.
Proof.
  intros Ha Hne E. set (m := ce_metrics (aw_cells a)). set (p := aw_outside a) in *.
  assert (Hturn : forall e r rest, q_messages (pt_queue p) = match r with Received msg => msg :: rest | _ => rest end ->
    (r = RecvDisconnected \/ r = RecvTimeout -> rest = []) ->
    worker_step e a = (let '(x, k) := begin_turn encode_batch encode_event r mb (port_worker m p) in
                       Some (put_worker x k (rest_of rest (pt_queue p)) (aw_network a) a)) -> progress a).
  { intros e r rest Hq Hd Hs. pose proof (turn_waiting m p r mb rest E Hq) as Hw.
    pose proof (turn_delivers r mb rest m p E Hq Hd Hne) as Hl. pose proof (begin_turn_begun r mb (port_worker m p)) as Hb.
    destruct (begin_turn _ _ _ _ _) as [x k]. by apply (still_progress e x k _ a Ha Hs (bg_metrics _ _ _ _ _ Hb)). }
  destruct (q_messages (pt_queue p)) as [|msg rest] eqn:Eq; [destruct (pt_open p) eqn:Eo|].
  - apply (Hturn WTimeout RecvTimeout []); try done. unfold worker_step. fold p. by rewrite E, Eq, Eo.
  - apply (Hturn WDisconnect RecvDisconnected []); try done. unfold worker_step. fold p. by rewrite E, Eq, Eo.
  - apply (Hturn WReceive (Received msg) rest); try done; [by intros []|]. unfold worker_step. fold p. by rewrite E, Eq.
Qed.

Lemma worker_progress (a : world) : ready a -> waiting (aw_outside a) <> [] -> progress a.
Proof.
  intros Ha Hne. pose proof (ni_books _ _ (rd_node _ Ha)) as (log & copies & n & r & B).
  pose proof (bk_worker _ _ _ _ _ _ _ _ B) as [_ Ht _ _ Hstop]. pose proof (bk_valid _ _ _ _ _ _ _ _ B) as [_ Hv]%Forall_app.
  set (m := ce_metrics (aw_cells a)) in *. set (p := aw_outside a) in *.
  assert (Hon : goes_on (pt_phase p) = false -> in_flight (pt_phase p) = [] -> todo (pt_phase p) = [] -> False).
  { intros Hg Hi Hd. destruct (Hstop Hg) as (_ & Hq & Hb). rewrite waiting_pending, Hi, Hd in Hne. unfold pending in Hne.
    by rewrite Hq, Hb in Hne. }
  destruct (pt_phase p) as [|mb|j|f j|answer g|] eqn:E.
  - apply (still_progress WRead (WWaiting (snd (batching (ce_state (aw_cells a))))) (port_worker m p) (pt_queue p)); try done.
    + unfold worker_step. fold p. by rewrite E.
    + fold p. unfold waiting. by rewrite E.
    + fold p. rewrite waiting_pending, E in Hne. cbn [in_flight todo concat app] in Hne. unfold delivery_left. rewrite E.
      change (loop_pending (worker_port _ _ _ _)) with (loop_pending p). cbn [worker_port pt_phase sends_left].
      unfold loop_pending. destruct (pending p); [done|]. simpl length. lia.
  - by apply (turn_progress mb).
  - pose proof (next_batch_waiting m p (aw_network a) j E Ht Hv) as Hw.
    pose proof (next_batch_left encode_batch lk_now (loop_pending p) j (port_worker m p) (aw_network a)) as Hl.
    assert (Hs : worker_step WAdvance a = let '(x, k) := next_batch encode_batch lk_now j (port_worker m p) (aw_network a) in
      Some (put_worker x k (pt_queue p) (aw_network a) a)).
    { unfold worker_step. fold p. rewrite E. unfold worker_advance. by destruct (next_batch _ _ _ _ _). }
    destruct (next_batch _ _ _ _ _) as [x k]. destruct Hw as [Hw Hm], Hl as [Hb Hl].
    apply (still_progress WAdvance x k (pt_queue p)); try done. fold p. unfold delivery_left. rewrite E.
    replace (loop_pending (worker_port x k (pt_queue p) p)) with (loop_pending p) by (unfold loop_pending, pending; simpl; by rewrite Hb).
    exact Hl.
  - by apply (attempt_progress f j).
  - destruct g; [|by destruct (Hon eq_refl eq_refl eq_refl)].
    apply (still_progress WEnd WIdle (port_worker m p)
      {| q_capacity := q_capacity (pt_queue p); q_messages := q_messages (pt_queue p);
         q_connected := q_connected (pt_queue p) && true |}); try done.
    + unfold worker_step. fold p. by rewrite E.
    + fold p. unfold waiting. by rewrite E.
    + unfold delivery_left. fold p. rewrite E. simpl. unfold loop_pending, pending. simpl. lia.
  - by destruct (Hon eq_refl eq_refl eq_refl).
Qed.

Lemma worker_delivers (i : nat) (r : Process world) :
  ready (pr_world r) -> (delivery_left (aw_outside (pr_world r)) <= i)%nat ->
  exists turns r' batches, node_run r (map NWorker turns) = Some r' /\ waiting (aw_outside (pr_world r')) = [] /\
    brought batches (pr_world r) (pr_world r').
Proof.
  revert r. induction i as [|i IH]; intros r Hr Hi.
  all: destruct (waiting (aw_outside (pr_world r))) as [|ev l] eqn:Ew;
    [by exists [], r, []; split; [|split; [|split; [by rewrite app_nil_r|]]]|].
  all: destruct (worker_progress (pr_world r) Hr) as (e & a' & b & Hs & Hr' & (Ho & Hw & Hm) & Hl); [by rewrite Ew|].
  - lia.
  - destruct (IH (with_world a' r) Hr' ltac:(simpl; lia)) as (turns & r' & b' & Hrun & Hdone & (Ho' & Hw' & Hm')).
    exists (e :: turns), r', (b ++ b'). simpl. rewrite Hs. split; [exact Hrun|]. split; [done|]. simpl in *.
    split; [by rewrite Ho', Ho, app_assoc|]. split; [|by rewrite Hm'].
    rewrite map_app, concat_app, <- app_assoc, Hw. f_equal. by rewrite Hw'.
Qed.
End Delivery.

(** ** What a log comes to *)

Lemma kept_count (log : list (list WireEvent * send_outcome)) :
  zlen (logged log) = zlen (logged (kept log)) + zlen (logged (dropped log)).
Proof.
  unfold logged. induction log as [|[batch o] log IH]; [done|].
  destruct o; simpl in *; rewrite !zlen_app; lia.
Qed.

(** A batch of valid events that was not dropped has arrived. *)
Lemma valid_arrived (log : list (list WireEvent * send_outcome)) (copies : list nat) :
  Forall2 copies_ok log copies -> Forall valid_event (logged log) ->
  Forall2 (fun x k => snd x = Dropped \/ (1 <= k)%nat) log copies.
Proof.
  unfold logged. induction 1 as [|[batch o] k log copies [_ Hc] _ IH]; intros Hv; [constructor|].
  simpl in Hv. apply Forall_app in Hv as [Hb Hv]. constructor; [|by apply IH].
  destruct o; simpl in *; [by right|by left|right]. destruct Hc as [Hc|(e & Hin & Hbad)]; [done|].
  rewrite List.Forall_forall in Hb. by destruct Hbad; apply Hb.
Qed.

(** * Properties *)

Variable env_var : string -> option string.
Variable feature_otlp : option (Z -> bool).
Variable started_at : Z.
Variable args : Args.
Variable cfg : Config.
Hypothesis Hstart : agent_start env_var feature_otlp started_at args cfg = Ok start.
Variable v : V.
Variable plan : list hop.
Variable now : Z.
Hypothesis Hplan : forallb (hop_ok id) plan = true.

Notation started := (node_start v (link_start s0 plan now)).
Notation network r := (aw_network (pr_world r)).

Lemma started_node (lossless : bool) (evs : list node_event) (r : Process world) :
  (lossless = true -> forallb (fun h => reliable (hop_fate h)) plan = true) ->
  node_run started evs = Some r -> node_run_inv lossless r.
Proof.
  intros Hq Hrun. refine (node_run_keeps lossless evs started r _ Hrun).
  pose proof (started_inv utf8_error package_version arch encode_hello decode_hello encode_heartbeat decode_heartbeat
    decode_config header_value_ok extract render payload c config host Hhost Hslash Hconfig writable boot_offset_ns ebpf_dir
    start Hcontroller env_var feature_otlp started_at args cfg Hstart s0 eq_refl TapioMetrics_new (port_start v) plan now []
    started eq_refl) as Hj.
  constructor; [apply process_start_inv| |done]. constructor; [exact Hj| |]; cbn.
  - exists [], [], 0%nat, 0. constructor; try done; try (by constructor). intros El. split; [by apply Hq|by constructor].
  - rewrite (agent_start_batching _ _ _ _ _ _ Hstart). lia.
Qed.

(** C1. No anomaly an observer counts is lost without a trace, on its way from
    the ring buffer to the controller.  At any moment of any run of the agent,
    whatever its tasks and the worker of its sink take turns at, also between
    two attempts of a batch, and whatever the network loses: the worker's
    batches that reached the controller are those of its log, in order, each
    that was not counted as dropped at least once and none more than four times,
    and then the batch under way, as often as it was sent at most; and the
    anomalies the observers counted are the events of the batches that were not
    dropped, those the drop counter holds and those still on their way, of which
    an agent that has exited leaves none. *)
Theorem no_anomaly_is_lost_silently (evs : list node_event) (r : Process world)
    (Hrun : node_run started evs = Some r) :
  let m := ce_metrics (aw_cells (pr_world r)) in
  let p := aw_outside (pr_world r) in
  exists log copies arrived,
    own id (lk_history (network r)) =
      arrivals 1 log copies ++ replicate arrived (next_number log, in_flight (pt_phase p)) /\
    Forall2 copies_ok log copies /\
    Forall2 (fun x k => snd x = Dropped \/ (1 <= k)%nat) log copies /\
    (arrived + match pt_phase p with WAttempting f _ => fl_retries f | _ => MAX_RETRIES end <= MAX_RETRIES)%nat /\
    wrap64 (anomalies m) = wrap64 (zlen (logged (kept log)) + sink_drops m + zlen (waiting p)) /\
    (pr_main r = Exited -> waiting p = []).
Proof.
  intros m p. destruct (started_node false evs r ltac:(done) Hrun) as [_ [_ (log & copies & a & x & Hb) _] Hx].
  exists log, copies, a. pose proof (bk_valid _ _ _ _ _ _ _ _ Hb) as [Hv _]%Forall_app.
  pose proof (bk_worker _ _ _ _ _ _ _ _ Hb) as [_ _ Hf _ Hs].
  split; [apply Hb|]. split; [apply Hb|]. split; [by apply valid_arrived; [apply Hb|]|]. split.
  { unfold p. destruct (pt_phase _); try (by rewrite Hf). by destruct Hf. }
  split.
  - pose proof (bk_anomalies _ _ _ _ _ _ _ _ Hb) as Ha. pose proof (bk_drops _ _ _ _ _ _ _ _ Hb) as Hd.
    unfold m, p. rewrite Ha, kept_count. apply wrap64_eq in Hd as [k Ek]. apply wrap64_eq. exists (- k). lia.
  - intros He. specialize (Hx He). unfold pt_running in Hx. unfold p, waiting.
    destruct (pt_phase (aw_outside (pr_world r))); try done. by destruct (Hs eq_refl) as (_ & -> & ->).
Qed.

(** C15. The agent does not exit before its sink's worker has stopped, and it always
    comes to that: once main has returned and the metrics server is gone, every
    step of the worker, whatever the network answers, brings it nearer to its
    end, by a count that is known in worker_advance; while it has not stopped it can
    take a step and the process cannot exit; and when it has, within that count,
    the process can. *)
Theorem exit_waits_for_worker (evs : list node_event) (r : Process world)
    (Hrun : node_run started evs = Some r) (Hmain : pr_main r = Returned) (Hserver : pr_server r = false) :
  let left r := worker_left (aw_outside (pr_world r)) in
  (forall turns r', node_run r (map NWorker turns) = Some r' ->
     (length turns + left r' <= left r)%nat /\
     (pt_running (aw_outside (pr_world r')) = true ->
        node_step r' (NProcess PExit) = None /\ exists e r'', node_step r' (NWorker e) = Some r'')) /\
  exists turns r', node_run r (map NWorker turns ++ [NProcess PExit]) = Some r' /\ pr_main r' = Exited /\
    (length turns <= left r)%nat.
Proof.
  intros left. assert (Hc : closed_inv started) by (split; [apply process_start_inv|intros E; by destruct E]).
  destruct (closed_run evs started r Hc Hrun) as [_ Ho].
  specialize (Ho ltac:(by rewrite Hmain)). split.
  - intros turns r' Hr. split; [by apply worker_run_left|]. intros Hp. split; [simpl; by rewrite Hp|].
    destruct (worker_goes_on (pr_world r') Hp (worker_run_open turns r r' Ho Hr)) as (e & a & E).
    exists e. simpl. rewrite E. by eexists.
  - destruct (worker_can_stop _ r Ho (Nat.le_refl _)) as (turns & r' & Hr & Hstop & Hm & Hs).
    pose proof (worker_run_left turns r r' Ho Hr) as Hl.
    exists turns. eexists. rewrite node_run_app, Hr. simpl. rewrite Hstop, Hm, Hs, Hmain, Hserver. simpl.
    split; [done|]. split; [done|]. unfold left. lia.
Qed.

(** C5. What is on its way arrives once the network works.  From any moment of any
    run, when every exchange from then on is answered and the controller decodes
    what it is sent, the worker has steps to take after which nothing is waiting
    any more; they have brought the controller exactly the events that were
    waiting, in their order and each once, and no counter has moved. *)
Theorem waiting_is_delivered (evs : list node_event) (r : Process world)
    (Hrun : node_run started evs = Some r)
    (Hanswered : Forall (fun h => hop_fate h = Answered) (lk_plan (network r)))
    (Henough : (length (waiting (aw_outside (pr_world r))) <= length (lk_plan (network r)))%nat)
    (Haccepts : forall b body, encode_batch b = Ok body -> eb_agent_id b = id -> is_u64 (eb_sequence b) ->
       is_u64 (eb_sent_at_unix_nanos b) -> EventBatchRequest_validate b max_batch = Ok tt ->
       incl (eb_events b) (waiting (aw_outside (pr_world r))) ->
       extract (request_head "POST" "/v1/events" host [("Content-Type", "application/json")] body) body = PostEvents (Ok b)) :
  exists turns r' batches,
    node_run r (map NWorker turns) = Some r' /\ waiting (aw_outside (pr_world r')) = [] /\
    own id (lk_history (network r')) = own id (lk_history (network r)) ++ batches /\
    concat (map snd batches) = waiting (aw_outside (pr_world r)) /\
    ce_metrics (aw_cells (pr_world r')) = ce_metrics (aw_cells (pr_world r)).
Proof.
  destruct (started_node false evs r ltac:(done) Hrun) as [_ Hn _].
  destruct (worker_delivers _ Haccepts _ r (Build_ready _ _ Hn Hanswered Henough (incl_refl _)) (Nat.le_refl _))
    as (turns & r' & batches & Hr & Hdone & Hown & Hw & Hm).
  exists turns, r', batches. split; [done|]. split; [done|]. split; [done|]. split; [|done].
  by rewrite Hw, Hdone, app_nil_r.
Qed.

(** Batches sent once each at most are numbered upwards, as long as their counter
    has not come to its end. *)
Definition ascends (x y : Z) : Prop := x < y \/ (x = U64_MAX /\ y = U64_MAX).

Lemma exact_ascend (log : list (list WireEvent * send_outcome)) (copies : list nat) (n : Z) :
  n <= U64_MAX -> Forall2 copies_exact log copies ->
  Forall (fun x => n <= x) (map fst (arrivals n log copies)) /\
  StronglySorted ascends (map fst (arrivals n log copies)).
Proof.
  intros Hn He. revert n Hn. induction He as [|[batch o] k log copies Hk _ IH]; intros n Hn; [by split; constructor|].
  cbn [arrivals]. rewrite map_app, map_fst_replicate.
  assert (Hs : sat_add64 n 1 = Z.min (n + 1) U64_MAX) by done.
  destruct (IH (sat_add64 n 1) ltac:(width_lia)) as [Hge Hsort].
  assert (Hge' : Forall (fun x => n <= x) (map fst (arrivals (sat_add64 n 1) log copies))).
  { eapply Forall_impl; [exact Hge|]. simpl. intros x Hx. width_lia. }
  unfold copies_exact in Hk. simpl in Hk. destruct o; subst k; simpl; try (split; assumption).
  split; [by constructor|]. constructor; [exact Hsort|].
  assert (Hle : Forall (fun x => x <= U64_MAX) (map fst (arrivals (sat_add64 n 1) log copies))).
  { apply arrivals_le. width_lia. }
  apply List.Forall_forall. intros x Hx. unfold ascends.
  pose proof (proj1 (List.Forall_forall _ _) Hge x Hx). pose proof (proj1 (List.Forall_forall _ _) Hle x Hx).
  simpl in *. width_lia.
Qed.

(** C4. With nothing lost on the way back, the agent's and the controller's counters
    balance at any moment of any run.  The agent's batches that reached the
    controller are numbered upwards, each number once (as long as the counter
    has not come to its end, 2^64 - 1); the anomalies the agent's observers
    counted are the events of those batches, those the agent counted as dropped
    and those still on their way; and so what the controller has accepted beyond
    the events of other agents, with what the agent counted as dropped and what
    is still on its way, are the anomalies counted. *)
Theorem anomaly_counters_balance (evs : list node_event) (r : Process world)
    (Hreliable : forallb (fun h => reliable (hop_fate h)) plan = true)
    (Hrun : node_run started evs = Some r) :
  let m := ce_metrics (aw_cells (pr_world r)) in
  let controller := lk_controller (network r) in
  let arrived := own id (lk_history (network r)) in
  StronglySorted ascends (map fst arrived) /\
  wrap64 (anomalies m) =
    wrap64 (zlen (concat (map snd arrived)) + sink_drops m + zlen (waiting (aw_outside (pr_world r)))) /\
  wrap64 (in_accepted_events_total controller + sink_drops m + zlen (waiting (aw_outside (pr_world r)))) =
    wrap64 (in_accepted_events_total s0
            + zlen (accepted_events max_batch (List.filter (foreign id) (lk_history (network r)))) + anomalies m).
Proof.
  intros m controller arrived. destruct (started_node true evs r ltac:(done) Hrun) as [_ [_ (log & copies & a & x & Hb) _] _].
  destruct (bk_lossless _ _ _ _ _ _ _ _ Hb eq_refl) as (_ & He & ->).
  assert (Hown : arrived = arrivals 1 log copies) by (unfold arrived; by rewrite (bk_own _ _ _ _ _ _ _ _ Hb), app_nil_r).
  assert (Hack : map snd arrived = map fst (acknowledged log)) by (rewrite Hown; by apply exact_arrivals).
  split; [rewrite Hown; by apply (exact_ascend log copies 1)|].
  pose proof (bk_valid _ _ _ _ _ _ _ _ Hb) as [Hv _]%Forall_app.
  pose proof (ledger_count log (exact_accounted log copies (bk_copies _ _ _ _ _ _ _ _ Hb) He Hv)) as Hl.
  destruct (bk_link _ _ _ _ _ _ _ _ Hb) as (Hi & Hp & _).
  pose proof (accepted_total s0 (lk_history (network r)) s0 eq_refl) as Hacc.
  rewrite <- Hi, (accepted_split c s0 true) in Hacc by done. fold arrived in Hacc. rewrite Hack in Hacc.
  rewrite Hack. fold (logged (acknowledged log)) in Hacc |- *.
  pose proof (bk_anomalies _ _ _ _ _ _ _ _ Hb) as Ha. pose proof (bk_drops _ _ _ _ _ _ _ _ Hb) as Hd.
  unfold m, controller.
  apply wrap64_eq in Hacc as [k0 E0], Ha as [k1 E1], Hd as [k2 E2]. split; apply wrap64_eq.
  - exists (k1 - k2). rewrite E1, E2, Hl. lia.
  - exists (k0 - k1 + k2). rewrite E0, E1, E2, Hl. lia.
Qed.
End Node.

(** * Witnesses *)

(** A node whose storage program alone can be loaded, and to whose ring buffer
    one failed write is still to come per record of its state. *)
#[local] Instance node_aya : Aya nat := {
  aya_load_file path w := (if contains_str path "storage" then Ok tt else Err "no BTF", w);
  aya_map name _ := if String.eqb name "tapio_config" then Some 3 else Some 4;
  aya_program _ _ := Some (Ok tt);
  aya_program_load _ w := (Ok tt, w);
  aya_attach _ _ w := (Ok tt, w);
  aya_nr_cpus _ := Ok 2;
  aya_ring_buf _ := Ok tt;
  sys_perf_event_open _ _ w := (Ok 10, w);
  sys_map_set_fd _ _ _ w := (Ok tt, w);
}.

#[local] Instance node_env : Env nat := {
  env_now w := (0, w);
  env_id w := ("01J0000000000000000000000", w);
  env_thresholds _ := standalone_thresholds Config_default;
  env_read_file _ _ := None;
}.

#[local, program] Instance node_reporter : Reporter nat := {
  report o m w := (Ok tt, m, w);
  report_flush w := (Ok tt, w);
}.
Next Obligation. done. Qed.

#[local] Instance node_outside_world : Outside nat := {
  out_arrived _ w := match w with O => ([], w) | S w => ([write_storage_event sample_storage], w) end;
  out_percpu _ _ _ := None;
  out_elapsed _ := 0;
  out_osrelease _ := None;
  out_accept w := (WouldBlock, w);
  out_drop_sinks w := w;
}.

Definition node_args : Args :=
  with_sinks ["controller"; "stdout"]
    (set_args "" "/ebpf" "" "" (Some "http://127.0.0.1:8080") (from_secs 30) (from_secs 30) Args_default).

Definition node_agent : AgentStart :=
  match agent_start (fun _ => None) None 0 node_args Config_default with Ok s => s | Err _ => sample_start end.

(** The event of a write, and batches of such events. *)
Definition node_wire : WireEvent :=
  match storage_observe (W := nat) 0 (write_storage_event sample_storage) tt O with
  | (Some (_, o), _, _) => match occurrence_to_wire_event o with Ok e => e | Err _ => sample_wire end
  | _ => sample_wire
  end.

Definition node_batch (sequence sent_at : Z) (n : nat) (name : string) : EventBatchRequest := {|
  eb_wire_version := WIRE_VERSION; eb_agent_id := ctl_agent_id joined_agent; eb_node_name := name;
  eb_sequence := sequence; eb_sent_at_unix_nanos := sent_at; eb_events := replicate n node_wire |}.

#[local] Instance severity_eq_dec : EqDecision EventSeverity.
Proof. solve_decision. Defined.
#[local] Instance wire_eq_dec : EqDecision WireEvent.
Proof. solve_decision. Defined.
#[local] Instance batch_eq_dec : EqDecision EventBatchRequest.
Proof. solve_decision. Defined.

(** A codec for these batches, on top of that of [AgentLink]'s witnesses. *)
Definition node_encode (r : EventBatchRequest) : result string string :=
  let n := length (eb_events r) in
  Ok (if decide (r = node_batch (eb_sequence r) (eb_sent_at_unix_nanos r) n (eb_node_name r) /\ is_u64 (eb_sequence r)
                 /\ is_u64 (eb_sent_at_unix_nanos r) /\ is_u64 (Z.of_nat n))
      then fix_dec 20 (eb_sequence r) +:+ fix_dec 20 (eb_sent_at_unix_nanos r) +:+ fix_dec 20 (Z.of_nat n)
           +:+ eb_node_name r
      else "?").

Definition node_parse (body : string) : result EventBatchRequest JsonRejection :=
  match parse_unsigned U64_MAX (str_take 20 body), parse_unsigned U64_MAX (str_take 20 (str_drop 20 body)),
        parse_unsigned U64_MAX (str_take 20 (str_drop 20 (str_drop 20 body))) with
  | Some sequence, Some sent_at, Some n =>
      Ok (node_batch sequence sent_at (Z.to_nat n) (str_drop 20 (str_drop 20 (str_drop 20 body))))
  | _, _, _ => Err {| rej_status := 400; rej_text := "not a batch" |}
  end.

Definition node_extract (head body : string) : http_request :=
  if starts_with head "POST /v1/events " then PostEvents (node_parse body) else joined_extract head body.

Definition node_payload (b : ApiBody) : string :=
  match b with BodyEvents r => fix_dec 20 (ebr_accepted r) | _ => "{}" end.

Definition node_render (a : ApiResponse) : string :=
  "HTTP/1.1 " +:+ dec (api_status a) +:+ " " +:+ http_crlf +:+ http_crlf +:+ node_payload (api_body a).

Definition node_decode (s : string) : result EventBatchResponse string :=
  match parse_unsigned U64_MAX s with Some n => Ok (events_answer "7" n) | None => Err "no" end.

Lemma node_parse_encoded (r : EventBatchRequest) :
  let n := length (eb_events r) in
  r = node_batch (eb_sequence r) (eb_sent_at_unix_nanos r) n (eb_node_name r) /\ is_u64 (eb_sequence r)
    /\ is_u64 (eb_sent_at_unix_nanos r) /\ is_u64 (Z.of_nat n) ->
  node_parse (fix_dec 20 (eb_sequence r) +:+ fix_dec 20 (eb_sent_at_unix_nanos r) +:+ fix_dec 20 (Z.of_nat n)
              +:+ eb_node_name r) = Ok r.
Proof.
  intros n (E & Hs & Ht & Hn). unfold node_parse.
  assert (Hd : forall a s, str_take 20 (fix_dec 20 a +:+ s) = fix_dec 20 a /\ str_drop 20 (fix_dec 20 a +:+ s) = s).
  { intros a s. pose proof (str_take_length (fix_dec 20 a) s) as H3. pose proof (str_drop_length (fix_dec 20 a) s) as H4.
    rewrite fix_dec_length in H3, H4. done. }
  unfold is_u64, U64_MAX in *. 
  do 3 rewrite (proj1 (Hd _ _)), (proj2 (Hd _ _)).
  rewrite !parse_unsigned_fix_dec by lia. by rewrite Nat2Z.id, <- E.
Qed.

Lemma node_batches :
  wiring_ok (fun _ => EmptyString) node_encode node_decode node_extract node_render node_payload "7".
Proof.
  constructor.
  - done.
  - intros host body r He%Ok_inj. cbv zeta.
    replace (node_extract _ body) with (PostEvents (node_parse body)) by reflexivity.
    subst body. case_decide as E; [left; by rewrite node_parse_encoded|right; by eexists].
  - intros [st et b] Ha. simpl in Ha. unfold node_render. cbn [api_status api_body].
    repeat (destruct Ha as [<-|Ha]; [destruct (node_payload b); reflexivity|]). done.
  - intros n Hn. unfold is_u64, U64_MAX in Hn. split.
    + unfold node_decode. cbn [node_payload ebr_accepted events_answer].
      by rewrite parse_unsigned_fix_dec by (unfold U64_MAX; lia).
    + unfold node_render, slen. rewrite !str_length_app.
      cbn [node_payload api_body json_response ebr_accepted events_answer]. rewrite fix_dec_length. vm_compute. done.
Qed.

Lemma node_configured :
  config_wiring (fun _ => EmptyString) joined_encode_hello joined_encode_heartbeat sample_decode node_extract
    node_render node_payload joined_agent sample_config_response "127.0.0.1:8080".
Proof.
  constructor.
  - intros etag [-> | ->]; vm_compute; reflexivity.
  - intros heartbeat body. unfold joined_encode_heartbeat. case_decide as E; [|done]. intros Hb%Ok_inj. subst.
    vm_compute. reflexivity.
  - intros hello body. unfold joined_encode_hello. case_decide as E; [|done]. intros Hb%Ok_inj. subst.
    vm_compute. reflexivity.
  - apply (wo_answer _ _ _ _ _ _ _ node_batches).
  - reflexivity.
  - intros b t. cbn [node_payload]. intros E Ht. destruct b as [|x [|y [|z b]]]; simpl in E; simplify_eq; reflexivity.
Qed.

Lemma node_hello : hello_wiring joined_decode_hello node_payload sample_config_response.
Proof.
  constructor; [reflexivity|]. intros b t. cbn [node_payload]. intros E Ht.
  destruct b as [|x [|y [|z b]]]; simpl in E; simplify_eq; reflexivity.
Qed.

(** Two failed writes.  The first is sent once, the second happens then, and the
    first is sent again; the second is on its way when the agent is told to stop,
    and the network is gone by then. *)
Definition node_between : list node_event :=
  map NProcess [PEnter RegistrationTask; PTurn RegistrationTask; PEnter (ObserverTask StorageTask);
                PTurn (ObserverTask StorageTask)]
  ++ map NWorker [WRead; WReceive; WEnd; WRead; WTimeout; WAdvance; WAdvance]
  ++ [NProcess (PTurn (ObserverTask StorageTask))].

Definition node_returned : list node_event :=
  let stopped := map NProcess
    [PSignal; PEnter PollTask; PEnter (ObserverTask NetworkTask); PEnter (ObserverTask ContainerTask);
     PEnter (ObserverTask PmcTask); PStop RegistrationTask; PStop PollTask; PStop (ObserverTask StorageTask)] in
  let gone := map (fun t => NProcess (PJoin t)) (agent_tasks true) in
  node_between ++ map NWorker [WAdvance; WAdvance; WEnd] ++ stopped ++ gone ++ [NProcess PReturn].

Definition node_events : list node_event :=
  node_returned
  ++ map NWorker ([WRead; WReceive; WEnd; WRead; WReceive; WAdvance] ++ replicate 4 WAdvance
                  ++ [WAdvance; WEnd; WRead; WDisconnect; WEnd])
  ++ [NProcess PExit].

Notation node_ran plan evs :=
  (node_run (fun _ => EmptyString) "4.0.0" "x86_64" joined_encode_hello joined_decode_hello joined_encode_heartbeat
     (fun _ => Err "no") sample_decode node_encode sized_event node_decode (fun _ => true) node_extract node_render
     write_works 0 "/ebpf" node_agent joined_agent
     (node_start node_agent 2%nat (link_start (InnerState_new sample_config_response 0) plan 0)) evs).

Definition node_plan (f : fate) : list hop := map joined_hop [Answered; f; Answered].

Lemma node_started : agent_start (fun _ => None) None 0 node_args Config_default = Ok node_agent.
Proof. vm_compute. reflexivity. Qed.

(** The answer to the first batch is lost, so it arrives twice, and in between it
    and the second are on their way; the second is dropped, and nothing is left
    when the agent is gone. *)
Lemma no_anomaly_is_lost_silently_witness :
  (exists r, node_ran (node_plan (AnswerLost "timed out")) node_between = Some r /\
    own (ctl_agent_id joined_agent) (lk_history (aw_network (pr_world r))) = [(1, [node_wire])] /\
    zlen (waiting (aw_outside (pr_world r))) = 2) /\
  exists r, node_ran (node_plan (AnswerLost "timed out")) node_events = Some r /\ pr_main r = Exited /\
    own (ctl_agent_id joined_agent) (lk_history (aw_network (pr_world r))) = replicate 2 (1, [node_wire]) /\
    exists log, wrap64 2 = wrap64 (zlen (logged (kept log)) + 1 + 0).
Proof.
  split; [eexists; split; [vm_compute; reflexivity|]; vm_compute; repeat split|].
  assert (Hrun : exists r, node_ran (node_plan (AnswerLost "timed out")) node_events = Some r /\ pr_main r = Exited /\
    own (ctl_agent_id joined_agent) (lk_history (aw_network (pr_world r))) = replicate 2 (1, [node_wire]) /\
    anomalies (ce_metrics (aw_cells (pr_world r))) = 2 /\ sink_drops (ce_metrics (aw_cells (pr_world r))) = 1).
  { eexists. split; [vm_compute; reflexivity|]. vm_compute. repeat split. }
  destruct Hrun as (r & Hrun & He & Ho & Ha & Hd). exists r. do 3 (split; [assumption|]).
  destruct (no_anomaly_is_lost_silently (fun _ => EmptyString) "4.0.0" "x86_64" joined_encode_hello joined_decode_hello
    joined_encode_heartbeat (fun _ => Err "no") sample_decode node_encode sized_event node_decode (fun _ => true)
    node_extract node_render node_payload write_works 0 "/ebpf" node_agent joined_agent
    (InnerState_new sample_config_response 0) "127.0.0.1:8080" eq_refl eq_refl eq_refl eq_refl node_batches
    node_configured node_hello ltac:(vm_compute; split; congruence) eq_refl eq_refl
    ltac:(intros o m v k _; reflexivity) (fun _ => None) None 0 node_args Config_default node_started 2%nat
    (node_plan (AnswerLost "timed out")) 0 eq_refl node_events r Hrun) as (log & copies & arrived & _ & _ & _ & _ & Hb & Hw).
  exists log. specialize (Hw He). cbv zeta in Hb. rewrite Ha, Hd, Hw in Hb. exact Hb.
Defined.

(** The first batch finds no controller, then arrives once. *)
Lemma anomaly_counters_balance_witness :
  exists r, node_ran (node_plan (Unreachable "refused")) node_events = Some r /\
    in_accepted_events_total (lk_controller (aw_network (pr_world r))) = 1 /\
    wrap64 2 = wrap64 (zlen (concat (map snd (own (ctl_agent_id joined_agent) (lk_history (aw_network (pr_world r)))))) + 1 + 0) /\
    wrap64 (1 + 1 + 0) = wrap64 (0 + 0 + 2).
Proof.
  assert (Hrun : exists r, node_ran (node_plan (Unreachable "refused")) node_events = Some r /\
    in_accepted_events_total (lk_controller (aw_network (pr_world r))) = 1 /\
    anomalies (ce_metrics (aw_cells (pr_world r))) = 2 /\ sink_drops (ce_metrics (aw_cells (pr_world r))) = 1 /\
    zlen (waiting (aw_outside (pr_world r))) = 0 /\
    zlen (accepted_events 256 (List.filter (foreign (ctl_agent_id joined_agent)) (lk_history (aw_network (pr_world r))))) = 0).
  { eexists. split; [vm_compute; reflexivity|]. vm_compute. repeat split. }
  destruct Hrun as (r & Hrun & Ht & Ha & Hd & Hw & Hf). exists r. do 2 (split; [assumption|]).
  destruct (anomaly_counters_balance (fun _ => EmptyString) "4.0.0" "x86_64" joined_encode_hello joined_decode_hello
    joined_encode_heartbeat (fun _ => Err "no") sample_decode node_encode sized_event node_decode (fun _ => true)
    node_extract node_render node_payload write_works 0 "/ebpf" node_agent joined_agent
    (InnerState_new sample_config_response 0) "127.0.0.1:8080" eq_refl eq_refl eq_refl eq_refl node_batches
    node_configured node_hello ltac:(vm_compute; split; congruence) eq_refl eq_refl
    ltac:(intros o m v k _; reflexivity) (fun _ => None) None 0 node_args Config_default node_started 2%nat
    (node_plan (Unreachable "refused")) 0 eq_refl node_events r eq_refl Hrun) as (_ & Hc & Hb).
  cbv zeta in Hb, Hc. rewrite Ha, Hd, Hw in Hc. split; [exact Hc|]. rewrite Ht, Ha, Hd, Hw in Hb. change (bc_max_batch_events _) with 256 in Hb. rewrite Hf in Hb. exact Hb.
Defined.

(** The second write and the flush request are queued when main returns. *)
Lemma exit_waits_for_worker_witness :
  exists r, node_ran (node_plan (AnswerLost "timed out")) node_returned = Some r /\ pr_main r = Returned /\
    exists turns, (length turns <= 17)%nat /\ exists r',
      node_ran (node_plan (AnswerLost "timed out")) (node_returned ++ map NWorker turns ++ [NProcess PExit]) = Some r' /\
      pr_main r' = Exited.
Proof.
  assert (Hrun : exists r, node_ran (node_plan (AnswerLost "timed out")) node_returned = Some r /\ pr_main r = Returned /\
    pr_server r = false /\ worker_left (aw_outside (pr_world r)) = 17%nat).
  { eexists. split; [vm_compute; reflexivity|]. vm_compute. repeat split. }
  destruct Hrun as (r & Hrun & Hm & Hs & Hl). exists r. do 2 (split; [assumption|]).
  destruct (exit_waits_for_worker (fun _ => EmptyString) "4.0.0" "x86_64" joined_encode_hello joined_decode_hello
    joined_encode_heartbeat (fun _ => Err "no") sample_decode node_encode sized_event node_decode (fun _ => true)
    node_extract node_render write_works 0 "/ebpf" node_agent joined_agent
    (InnerState_new sample_config_response 0) 2%nat (node_plan (AnswerLost "timed out")) 0 node_returned r Hrun Hm Hs)
    as (_ & turns & r' & Hr & He & Ht).
  exists turns. cbv zeta in Ht. rewrite Hl in Ht. split; [exact Ht|]. exists r'. rewrite node_run_app, Hrun. exact (conj Hr He).
Defined.

(** What the controller takes of batches of such events. *)
Lemma node_accepts (b : EventBatchRequest) (body : string) (n : nat) :
  node_encode b = Ok body -> eb_agent_id b = ctl_agent_id joined_agent -> is_u64 (eb_sequence b) ->
  is_u64 (eb_sent_at_unix_nanos b) -> EventBatchRequest_validate b 256 = Ok tt -> incl (eb_events b) (replicate n node_wire) ->
  node_extract (request_head "POST" "/v1/events" "127.0.0.1:8080" [("Content-Type", "application/json")] body) body =
    PostEvents (Ok b).
Proof.
  intros He Hid Hs Ht Hv Hin. apply event_batch_validate_accepts in Hv as (Hw & _ & _ & Hn & _).
  assert (Hev : eb_events b = replicate (length (eb_events b)) node_wire).
  { symmetry. apply replicate_as_elem_of. split; [done|]. intros e Hx%list_elem_of_In%Hin%list_elem_of_In.
    by apply elem_of_replicate in Hx as [-> _]. }
  assert (Hb : b = node_batch (eb_sequence b) (eb_sent_at_unix_nanos b) (length (eb_events b)) (eb_node_name b)).
  { destruct b as [w i nn s t ev]. cbn [eb_events eb_sequence eb_sent_at_unix_nanos eb_node_name] in *. simpl in *. subst w i.
    unfold node_batch. by rewrite <- Hev. }
  apply Ok_inj in He. unfold node_extract. change (starts_with _ _) with true. cbv iota. f_equal. subst body.
  rewrite decide_True; [apply node_parse_encoded|]; (split; [exact Hb|]); (split; [done|]); (split; [done|]);
    unfold is_u64, zlen, U64_MAX in *; lia.
Qed.

(** The answer to the first batch was lost, another event waits behind it; the
    network works from there on. *)
Definition restored_plan : list hop := map joined_hop [Answered; AnswerLost "timed out"; Answered; Answered].

Lemma waiting_is_delivered_witness :
  exists r, node_ran restored_plan node_between = Some r /\
    own (ctl_agent_id joined_agent) (lk_history (aw_network (pr_world r))) = [(1, [node_wire])] /\
    exists turns r' batches, node_ran restored_plan (node_between ++ map NWorker turns) = Some r' /\
      waiting (aw_outside (pr_world r')) = [] /\ concat (map snd batches) = [node_wire; node_wire] /\
      own (ctl_agent_id joined_agent) (lk_history (aw_network (pr_world r'))) = (1, [node_wire]) :: batches.
Proof.
  assert (Hrun : exists r, node_ran restored_plan node_between = Some r /\
    own (ctl_agent_id joined_agent) (lk_history (aw_network (pr_world r))) = [(1, [node_wire])] /\
    waiting (aw_outside (pr_world r)) = replicate 2 node_wire /\
    lk_plan (aw_network (pr_world r)) = map joined_hop [Answered; Answered]).
  { eexists. split; [vm_compute; reflexivity|]. vm_compute. repeat split. }
  destruct Hrun as (r & Hrun & Ho & Hw & Hp). exists r. do 2 (split; [assumption|]).
  destruct (waiting_is_delivered (fun _ => EmptyString) "4.0.0" "x86_64" joined_encode_hello joined_decode_hello
    joined_encode_heartbeat (fun _ => Err "no") sample_decode node_encode sized_event node_decode (fun _ => true)
    node_extract node_render node_payload write_works 0 "/ebpf" node_agent joined_agent
    (InnerState_new sample_config_response 0) "127.0.0.1:8080" eq_refl eq_refl eq_refl eq_refl node_batches
    node_configured node_hello ltac:(vm_compute; split; congruence) eq_refl eq_refl
    ltac:(intros o m v k _; reflexivity) (fun _ => None) None 0 node_args Config_default node_started 2%nat
    restored_plan 0 eq_refl node_between r Hrun) as (turns & r' & batches & Hr & Hd & Hown & Hb & _).
  - rewrite Hp. repeat constructor.
  - rewrite Hw, Hp. simpl. lia.
  - rewrite Hw. intros b body. apply node_accepts.
  - exists turns, r', batches. rewrite node_run_app, Hrun. split; [exact Hr|]. split; [exact Hd|].
    split; [rewrite Hb; exact Hw|]. rewrite Hown, Ho. reflexivity.
Defined.
