(* ===== verification/KernelSystem.v ===== *)
(** From the profile an operator writes, through the kernel programs it
    configures, to the evidence the controller receives. *)
From Stdlib Require Import String.
From stdpp Require Import gmap.
From S2P Require Import Prelude RustStr Float64 Json Wire Profile CommonEbpf Occurrence Metrics.
From S2P Require Import NetworkObs ContainerObs StorageObs PmcObs Httpc AgentConfig Heartbeat Carriers Poll Sink.
From S2P Require Import Controller NetAddr ControllerHttp Drain.
From S2P Require Import Kernel KernelNetwork KernelStorage KernelContainer KernelPmc System.
Local Open Scope Z_scope.

(** * A loaded profile in the kernel *)

Lemma flag_if_range (b : bool) (flag acc : Z) : 0 <= flag <= 15 -> 0 <= acc <= 15 -> 0 <= flag_if b flag acc <= 15.
Proof.
  intros Hf Ha. destruct b; [|exact Ha]. simpl.
  assert (H : (0 <=? Z.lor acc flag) && (Z.lor acc flag <=? 15) = true); [|lia]. revert acc Ha.
  apply (small_range (fun acc => (0 <=? Z.lor acc flag) && (Z.lor acc flag <=? 15)) 15). revert flag Hf.
  apply (small_range (fun flag => forallb (fun i => (0 <=? Z.lor (Z.of_nat i) flag) && (Z.lor (Z.of_nat i) flag <=? 15))
    (seq 0 16)) 15). by vm_compute.
Qed.

Lemma fill_slots_Forall (P : Z -> Prop) (slots codes : list Z) :
  Forall P slots -> Forall P codes -> Forall P (fill_slots slots codes).
Proof.
  intros Hs. revert codes. induction Hs as [|x slots Hx Hs IH]; intros codes Hc; [by destruct codes|].
  destruct Hc as [|c codes Hc0 Hc]; simpl; constructor; auto.
Qed.

(** The record the agent writes for a valid profile fits its fields. *)
Lemma profile_config_wf (r : ResolvedProfile) (c : CompiledConfig) (generation : string) (t : TapioConfig) :
  compiled_exact r c -> tapio_config_from_compiled c generation = Ok t -> TapioConfig_wf t.
Proof.
  intros [_ Habs Hratio _ _ Hio Hior Hcodes _ Hcount _ (Hs & Hw & Hm)] Ht.
  unfold tapio_config_from_compiled in Ht.
  destruct (parse_unsigned U32_MAX generation) as [g|] eqn:Eg; [|done]. apply Ok_inj in Ht as <-.
  assert (Hg : 0 <= g <= U32_MAX) by (by eapply parse_unsigned_range).
  set (flags := flag_if _ TAPIO_F_NODE_PMC _).
  assert (Hf : 0 <= flags <= 15).
  { unfold flags. apply flag_if_range; [vm_compute; split; congruence|].
    apply flag_if_range; [vm_compute; split; congruence|]. apply flag_if_range; [vm_compute; split; congruence|].
    apply flag_if_range; [vm_compute; split; congruence|lia]. }
  unfold TapioConfig_wf, width. change (256 ^ Z.of_nat 4) with (2 ^ 32). change (256 ^ Z.of_nat 8) with (2 ^ 64).
  cbn [tc_abi_version tc_generation tc_flags tc_slow_io_threshold_ns tc_io_latency_critical_ns
    tc_conn_refused_window_ns tc_conn_refused_min_count tc_rtt_spike_multiplier tc_rtt_spike_abs_us
    tc_rtt_min_baseline_samples tc_ignore_exit_count tc_ignore_exit_codes].
  pose proof (zlen_nonneg (cc_ignore_exit_codes (cfg_container c))).
  change (Z.of_nat TAPIO_CONFIG_MAX_IGNORE_EXIT_CODES) with 16. unfold TAPIO_CONFIG_ABI_VERSION.
  split_and!; try width_lia.
  - apply (fill_slots_length no_exit_codes).
  - apply fill_slots_Forall; [repeat constructor; vm_compute; congruence|].
    eapply Forall_impl; [exact Hcodes|]. intros code Hcode. unfold i32_ok. width_lia.
Qed.

(** The severity of a completed request under a profile. *)
Definition profile_severity (r : ResolvedProfile) (error_code latency_ns : Z) : option Severity :=
  if negb (error_code =? 0) then Some Critical
  else if rs_slow_io_critical_ms (res_storage r) * 1000000 <=? latency_ns then Some Critical
  else if rs_slow_io_warning_ms (res_storage r) * 1000000 <=? latency_ns then Some Warning
  else None.

Definition kernel_severity (severity : Z) : Severity :=
  if severity =? STORAGE_SEVERITY_CRITICAL then Critical else Warning.

Lemma profile_io_severity (v : ValidatedProfile) (t : TapioConfig) (error_code latency_ns : Z) :
  profile_wf (resolved v) -> kernel_view (profile_compile v) t ->
  kernel_severity <$> io_severity t error_code latency_ns = profile_severity (resolved v) error_code latency_ns.
Proof.
  intros Hwf Hk. destruct (compile_exact v Hwf) as [_ _ _ Hw Hc Hio _ _ _ _ _ _].
  destruct Hk as [_ _ _ _ _ _ _ [H1 H2] _]. unfold io_severity, profile_severity. rewrite H1, H2, Hw, Hc in *.
  rewrite !(proj2 (Z.ltb_lt 0 _)) by lia. cbn [andb].
  rewrite !(Z.mul_comm _ 1000000). by repeat case_match.
Qed.

(** * Properties *)

Section Loaded.
Variable parse_yaml : string -> result EvidenceProfile string.
Variable config_json : CompiledConfig -> result string string.
Variable sha256 : string -> list Z.

(** The record [t] a kernel runs is the one of the profile [v], loaded by the
    controller, served under [generation] and accepted by the agent. *)
Definition runs_profile (v : ValidatedProfile) (generation : Z) (t : TapioConfig) : Prop :=
  exists yaml path r,
    compile_profile_yaml parse_yaml yaml path = Ok (profile_compile v) /\ profile_wf (resolved v) /\
    config_response_from_compiled config_json sha256 (profile_compile v) generation = Ok r /\
    acceptable r generation t.

Lemma runs_profile_view (v : ValidatedProfile) (generation : Z) (t : TapioConfig) :
  runs_profile v generation t ->
  profile_wf (resolved v) /\ TapioConfig_wf t /\ kernel_view (profile_compile v) t /\ tc_generation t = generation.
Proof.
  intros (yaml & path & r & Hy & Hwf & Hr & _ & _ & Hgen & Ht).
  assert (Hc : cr_config r = profile_compile v).
  { unfold config_response_from_compiled in Hr. by apply rbind_Ok in Hr as (h & _ & [= <-]). }
  rewrite Hc in Ht. destruct (from_compiled_view _ _ _ Ht) as [Hg Hk].
  split; [done|]. split; [by eapply profile_config_wf; [apply compile_exact|]|]. split; [done|]. congruence.
Qed.

(** C2. Slow and failed I/O is judged by the operator's profile and reaches the
    controller.  With a loaded profile in the kernel, storage enabled and room in
    the ring buffer (a full one loses the record and counts it), a
    request that completes, correlated with its issue, leaves a record exactly
    when it failed or took at least the profile's warning milliseconds; from
    that record the agent builds an occurrence the controller accepts, at the
    time of the completion, critical from the profile's critical milliseconds
    on or on an error. *)
Theorem slow_io_reaches_controller {W : Type} `{Env W} (v : ValidatedProfile) (generation : Z) (t : TapioConfig)
    (nr : nat) (acts : list (kaction storage_hook io_key)) (ctx ctx0 : bpf_ctx) (r r0 : block_rq) (key : io_key)
    (error_code boot : Z) (w : W)
    (Hrun : runs_profile v generation t) (Hacts : Forall action_ok acts) (Hctx : ctx_wf ctx) (Hr : rq_wf r)
    (He : i32_ok error_code) (Hroom : ctx_reserve ctx 0 = true) (Hkey : rq_key r = Some key)
    (Hconfig : ks_config (krun (kstate_zero nr ∅) acts) = t)
    (Hon : rs_enabled (res_storage (resolved v)) = true)
    (Hflight : in_flight_since (kstate_zero nr ∅) acts key ctx0 r0) :
  let s := krun (kstate_zero nr ∅) acts in
  let s' := trace_block_rq_complete ctx r error_code s in
  match profile_severity (resolved v) error_code (wrap64 (ctx_ktime_ns ctx - ctx_ktime_ns ctx0)) with
  | None => ks_ring s' = ks_ring s
  | Some severity =>
      exists data event_type occ w',
        ks_ring s' = ks_ring s ++ [data] /\
        storage_observe boot data tt w = (Some (event_type, occ), tt, w') /\
        event_type = (if error_code =? 0 then STORAGE_LATENCY_SPIKE else STORAGE_IO_ERROR) /\
        oc_severity occ = severity /\
        deliverable "storage" event_type (wrap64 (boot + ctx_ktime_ns ctx)) occ
  end.
Proof.
  destruct (runs_profile_view v generation t Hrun) as (Hwf & Htwf & Hk & Hg). cbv zeta.
  rewrite complete_ring by done. rewrite <- (profile_io_severity v t) by done.
  set (s := krun (kstate_zero nr ∅) acts) in *.
  set (latency := wrap64 (ctx_ktime_ns ctx - ctx_ktime_ns ctx0)).
  assert (Hcfg : enabled_config TAPIO_F_STORAGE s = Some t).
  { apply enabled_config_Some. split; [done|]. destruct Hk as [_ Hst _ _ _ _ _ _ _]. rewrite Hst. exact Hon. }
  assert (Hev : forall e, completion_event ctx r error_code s = Some e <->
    exists severity, io_severity t error_code latency = Some severity /\
      e = storage_event_of t ctx key (issue_value ctx0 r0 (ik_opcode key)) error_code severity).
  { intros e. destruct (proj2 (in_flight_zero nr acts key (issue_value ctx0 r0 (ik_opcode key)))) as [Ev _]; [eauto|].
    unfold completion_event. rewrite Hcfg, Hkey. simpl. fold s in Ev. rewrite Ev. simpl.
    fold latency. destruct (io_severity t error_code latency) as [sev|]; simpl; naive_solver. }
  destruct (io_severity t error_code latency) as [sev|] eqn:Es; simpl.
  - set (e := storage_event_of t ctx key (issue_value ctx0 r0 (ik_opcode key)) error_code sev).
    assert (Ee : completion_event ctx r error_code s = Some e) by (apply Hev; by exists sev).
    rewrite Ee. destruct (storage_run_inv nr acts Hacts) as [_ Hm _]. fold s in Hm.
    destruct (completion_event_wf ctx r error_code s e Hctx Hr He Hm) as [Hewf _]; [by rewrite Hconfig|done|].
    destruct (storage_classify_cases e) as (a & Ha & _).
    destruct (env_id w) as [id w1] eqn:Ew.
    exists (write_storage_event e), (sa_event_type a), (storage_build_occurrence id e a boot), w1.
    split; [done|]. unfold storage_observe. rewrite read_storage_record, Ha, Ew by done. split; [done|].
    assert (Hsev : sa_event_type a = (if error_code =? 0 then STORAGE_LATENCY_SPIKE else STORAGE_IO_ERROR) /\
      sa_severity a = kernel_severity sev).
    { unfold storage_classify, has_error in Ha. cbn [e storage_event_of se_error_code se_severity] in Ha.
      unfold io_severity in Es. destruct (error_code =? 0); simpl in Ha, Es; injection Ha as <-; [done|].
      by injection Es as <-. }
    destruct Hsev as [-> Hsev]. split; [done|]. split; [exact Hsev|].
    replace (if error_code =? 0 then STORAGE_LATENCY_SPIKE else STORAGE_IO_ERROR) with (sa_event_type a).
    + exact (storage_deliverable id e a boot Ha).
    + unfold storage_classify, has_error in Ha. cbn [e storage_event_of se_error_code se_severity] in Ha.
      by destruct (error_code =? 0); injection Ha as <-.
  - destruct (completion_event ctx r error_code s) as [e|] eqn:Ee; [|by rewrite app_nil_r].
    by destruct (proj1 (Hev e) eq_refl) as (sev & ? & _).
Qed.

(** C11. An operator's profile is what the kernel programs enforce: with its
    record in their maps each program is on exactly when the profile enables
    its observer and stamps the served generation; an exit code is ignored
    exactly when the profile lists it; a round trip is a spike exactly when it
    exceeds the profile's multiple of the baseline or its milliseconds, and
    the baseline takes the profile's number of samples; the severity of I/O
    is the profile's. *)
Theorem profile_governs_kernel (v : ValidatedProfile) (generation : Z) (t : TapioConfig)
    (Hrun : runs_profile v generation t) :
  (forall (M : Type) (s : kstate M), ks_config s = t ->
     enabled_config TAPIO_F_NETWORK s = (if rn_enabled (res_network (resolved v)) then Some t else None) /\
     enabled_config TAPIO_F_STORAGE s = (if rs_enabled (res_storage (resolved v)) then Some t else None) /\
     enabled_config TAPIO_F_CONTAINER s = (if rc_enabled (res_container (resolved v)) then Some t else None) /\
     enabled_config TAPIO_F_NODE_PMC s = (if rp_enabled (res_node_pmc (resolved v)) then Some t else None)) /\
  tc_generation t = generation /\
  (forall code, exit_ignored t code = true <-> In code (rc_ignore_exit_codes (res_container (resolved v)))) /\
  (forall rtt_us baseline_us, 0 <= baseline_us <= 100000 ->
     is_spike t rtt_us baseline_us = true <->
     rn_rtt_spike_ratio (res_network (resolved v)) * baseline_us < rtt_us \/
     rn_rtt_spike_abs_ms (res_network (resolved v)) * 1000 < rtt_us) /\
  tc_rtt_min_baseline_samples t = rn_rtt_min_baseline_samples (res_network (resolved v)) /\
  (forall error_code latency_ns,
     kernel_severity <$> io_severity t error_code latency_ns = profile_severity (resolved v) error_code latency_ns).
Proof.
  destruct (runs_profile_view v generation t Hrun) as (Hwf & Htwf & Hk & Hg).
  pose proof Hk as Hk'. destruct (compile_exact v Hwf) as [Habs _ Hratio _ _ _ _ _ _ Hcount _ _].
  destruct Hk as [Hn Hs Hc Hp Hcodes _ _ _ (Hr1 & Hr2 & Hr3)].
  split.
  { intros M s Hs'. assert (H : forall flag, enabled_config flag s = if observer_enabled t flag then Some t else None).
    { intros flag. destruct (observer_enabled t flag) eqn:E; [by apply enabled_config_Some|].
      destruct (enabled_config flag s) as [c|] eqn:Ec; [|done]. apply enabled_config_Some in Ec as [<- Ec]. congruence. }
    rewrite !H, Hn, Hs, Hc, Hp. done. }
  split; [done|]. split.
  { intros code. rewrite exit_ignored_spec, Hcodes by done.
    rewrite take_ge; [done|]. unfold zlen in Hcount. lia. }
  split.
  { intros rtt base Hb. rewrite is_spike_exact by (done || rewrite Hr1; lia). rewrite Hr1, Hr2, Habs.
    change (cn_rtt_spike_ratio (cfg_network (profile_compile v))) with (rn_rtt_spike_ratio (res_network (resolved v))) in *.
    destruct Hwf as [Hw1 Hw2 _ _ _ _ _ _ _ _ _ _]. lia. }
  split; [exact Hr3|]. intros error_code latency. by apply profile_io_severity.
Qed.

(** The answer of the controller [s] to the agent's request, as it arrives: with
    the status of the handler's answer, and a body that decodes to the
    configuration when the answer is one. *)
Definition carries_answer (decode_config : string -> result ConfigResponse string) (header_value_ok : string -> bool)
    (c : ControllerConfig) (etag : option string) (s : InnerState) (r : result HttpResponse string) : Prop :=
  let answer := handle_config header_value_ok (Some (config_query c)) etag s in
  exists response, r = Ok response /\ resp_status response = api_status answer /\
    forall config, api_body answer = BodyConfig config -> decode_config (resp_body response) = Ok config.

(** C12. From the operator's file to every kernel: when a controller starts, with
    the profile its arguments name ([--profile], or the built-in default) read,
    parsed and validated, and its answer to an agent's first poll arrives, that
    one tick, taken as atomic, brings the map of every observer registered before
    it up to date with that profile's record, and so does the registration of
    every observer after it with its own map: it holds the record, unless the
    last write to it failed.  The thresholds of the profile reach the observer of
    the processor's counters; the agent then reports the controller's hash, and
    its next poll is answered 304. *)
Theorem first_poll_installs_profile {W : Type} `{Net W} (read_file : string -> result string string)
    (utf8_error : string -> string) (decode_config : string -> result ConfigResponse string)
    (writable : nat -> Z -> bool) (header_value_ok : string -> bool)
    (args : list string) (start : Z) (addr : SocketAddr) (s : InnerState) (c : ControllerConfig)
    (ps : PollState) (w : W)
    (Hstart : controller_main parse_yaml config_json sha256 read_file args start = Ok (addr, s))
    (Hid : ctl_agent_id c <> EmptyString) (Hnode : ctl_node_name c <> EmptyString) (Hfirst : po_etag ps = None)
    (Hanswer : carries_answer decode_config header_value_ok c None s (fst (poll_response utf8_error c None w))) :
  let ps' := fst (poll_tick utf8_error decode_config writable true c ps w) in
  exists a yaml p v t,
    controller_parse_args args = Ok a /\
    match cargs_profile a with Some path => read_file path | None => Ok DEFAULT_PROFILE_YAML end = Ok yaml /\
    parse_yaml yaml = Ok p /\ profile_validate p BuiltinSet_v0 = Ok v /\ runs_profile v 1 t /\
    Forall (fun car => up_to_date t (po_maps ps') (car_map_fd car)) (cst_carriers (po_carriers ps')) /\
    cst_carriers (po_carriers ps') = cst_carriers (po_carriers ps) /\
    (forall observer fd, up_to_date t (snd (register writable observer fd (po_carriers ps') (po_maps ps'))) fd) /\
    po_thresholds ps' = pmc_thresholds_from_compiled (profile_compile v) /\
    option_map ac_hash (po_active ps') = Some (cr_config_hash (in_config s)) /\
    api_status (handle_config header_value_ok (Some (config_query c)) (po_etag ps') s) = 304.
Proof.
  destruct (controller_main_Ok _ _ _ _ _ _ _ _ Hstart) as (a & yaml & cc & Hargs & Hsource & Hy & Hr & _).
  destruct (loaded_profile_kernel parse_yaml config_json sha256 yaml _ cc 1 (in_config s) Hy
    ltac:(unfold U32_MAX; lia) Hr) as (p & v & t & Hp & Hv & <- & Hwf & Ha & Hk & Hg).
  destruct (config_query_params c) as [Hq1 Hq2].
  assert (Hcf : config_for (url_component (ctl_agent_id c)) (url_component (ctl_node_name c)) s = Ok (in_config s)).
  { unfold config_for. by rewrite !url_component_not_blank. }
  assert (Hacc : poll_accepts decode_config (fst (poll_response utf8_error c (po_etag ps) w)) = Some (in_config s, 1, t)).
  { rewrite Hfirst. destruct Hanswer as (response & -> & Hst & Hbody). unfold poll_accepts.
    rewrite handle_config_cases, Hq1, Hq2, Hcf in Hst, Hbody. cbn zeta in Hst, Hbody.
    destruct (insert_etag_fields header_value_ok (quoted_etag (cr_config_hash (in_config s)))
      (json_response 200 (BodyConfig (in_config s)))) as [E1 E2]. cbn [if_none_match_matches] in Hst, Hbody.
    rewrite E1 in Hst. rewrite E2 in Hbody. rewrite Hst. change (200 =? 200) with true. cbv iota.
    by rewrite (proj2 (accept_config_Ok decode_config (resp_body response) (in_config s) 1 t)
      (conj (Hbody _ eq_refl) Ha)). }
  pose proof (poll_tick_accepted utf8_error decode_config writable true c ps w _ _ _ eq_refl Hacc) as Ht.
  pose proof (update_all_agree writable t (po_carriers ps) (po_maps ps)) as Hag.
  pose proof (update_all_current writable t (po_carriers ps) (po_maps ps)) as Hcur.
  assert (Hcar : cst_carriers (snd (fst (update_all writable t (po_carriers ps) (po_maps ps))))
    = cst_carriers (po_carriers ps)).
  { unfold update_all. by destruct (write_carriers writable (cst_carriers (po_carriers ps)) t (po_maps ps)). }
  destruct (update_all writable t (po_carriers ps) (po_maps ps)) as [[failed cs] m].
  cbv zeta. rewrite Ht. cbn [fst snd po_maps po_carriers po_thresholds po_active po_etag] in *.
  exists a, yaml, p, v, t. do 4 (split; [assumption|]). split; [by exists yaml, (cargs_profile a), (in_config s)|].
  split; [exact (Hag t Hcur)|]. split; [exact Hcar|].
  split.
  { intros observer fd. unfold register. rewrite Hcur. cbn [snd]. apply write_up_to_date. }
  assert (Hc : cr_config (in_config s) = profile_compile v).
  { unfold config_response_from_compiled in Hr. apply rbind_Ok in Hr as (h & _ & E). injection E as <-. done. }
  rewrite Hc. split; [done|]. split; [done|].
  rewrite handle_config_cases, Hq1, Hq2, Hcf. cbv zeta. unfold if_none_match_matches, etag_of.
  rewrite trim_quoted. unfold quoted_etag. rewrite String.eqb_refl. by destruct (insert_etag_fields header_value_ok
    (quote_str +:+ cr_config_hash (in_config s) +:+ quote_str)
    {| api_status := 304; api_etag := None; api_body := BodyEmpty |}) as [-> _].
Qed.
End Loaded.

(** The production profile with a lower warning and an ignored code, served as
    generation 1. *)
Definition served_kernel : TapioConfig :=
  match tapio_config_from_compiled (profile_compile sample_validated) "1" with
  | Ok t => t
  | Err _ => TapioConfig_default
  end.

Lemma sample_validated_wf : profile_wf (resolved sample_validated).
Proof.
  assert (Hv : profile_validate sample_profile BuiltinSet_v0 = Ok sample_validated) by (vm_compute; reflexivity).
  apply validate_iff in Hv as (_ & _ & name & base & _ & _ & Hb & Hr & Ho & ->).
  apply merge_wf; [by eapply builtins_v0_wf|done|done].
Qed.

Lemma sample_runs :
  runs_profile (fun _ => Ok sample_profile) (fun _ => Ok "{}") (fun _ => [255; 0]) sample_validated 1 served_kernel.
Proof.
  eexists "", None, _. split; [vm_compute; reflexivity|]. split; [exact sample_validated_wf|].
  split; [reflexivity|]. split; [vm_compute; reflexivity|]. split; [vm_compute; reflexivity|].
  split; vm_compute; reflexivity.
Qed.

Lemma profile_governs_kernel_witness : exit_ignored served_kernel 143 = true /\ exit_ignored served_kernel 1 = false.
Proof.
  destruct (profile_governs_kernel _ _ _ sample_validated 1 served_kernel sample_runs) as (_ & _ & H & _).
  split; [apply H; left; reflexivity|vm_compute; reflexivity].
Defined.

Definition one_read : list (kaction storage_hook io_key) :=
  [Configure served_kernel; Invoke (ctx_at 1000000000) (HookIssue read_4k)].

Lemma slow_io_reaches_controller_witness :
  let s := krun (kstate_zero 2 ∅) one_read in
  exists data event_type occ w',
    ks_ring (trace_block_rq_complete (ctx_at 71000000000) read_4k 0 s) = ks_ring s ++ [data] /\
    storage_observe 1700000000000000000 data tt 5 = (Some (event_type, occ), tt, w') /\
    event_type = STORAGE_LATENCY_SPIKE.
Proof.
  destruct (runs_profile_view _ _ _ _ _ _ sample_runs) as (_ & Hwf & _).
  assert (Hacts : Forall action_ok one_read).
  { constructor; [exact Hwf|]. constructor; [split; [apply ctx_at_wf; lia|exact read_4k_wf]|constructor]. }
  assert (Hctx : ctx_wf (ctx_at 71000000000)) by (apply ctx_at_wf; lia).
  assert (He : i32_ok 0) by (vm_compute; split; congruence).
  assert (Hflight : in_flight_since (kstate_zero 2 ∅) one_read (key_of read_4k OP_READ) (ctx_at 1000000000) read_4k).
  { exists [Configure served_kernel], []. split; [reflexivity|]. split; [reflexivity|].
    split; [vm_compute; congruence|]. split; [reflexivity|]. split; [reflexivity|exact I]. }
  pose proof (slow_io_reaches_controller _ _ _ sample_validated 1 served_kernel 2 one_read (ctx_at 71000000000)
    (ctx_at 1000000000) read_4k read_4k (key_of read_4k OP_READ) 0 1700000000000000000 5 sample_runs Hacts Hctx
    read_4k_wf He eq_refl eq_refl eq_refl eq_refl Hflight) as H.
  destruct (profile_severity _ _ _) as [sev|] eqn:Es; [|vm_compute in Es; discriminate Es].
  destruct H as (data & ty & occ & w' & H1 & H2 & H3 & _).
  exists data, ty, occ, w'. exact (conj H1 (conj H2 H3)).
Defined.

(** A controller started with a file that reads as the sample. *)
Definition started_controller : InnerState :=
  match controller_main (fun _ => Ok sample_profile) (fun _ => Ok "{}") (fun _ => [255; 0]) (fun _ => Ok EmptyString) ["--profile"; "p.yaml"] 0 with
  | Ok (_, s) => s
  | Err _ => InnerState_new ConfigResponse_default_v1 0
  end.

Lemma first_poll_installs_profile_witness :
  let decode body := if String.eqb body "{}" then Ok (in_config started_controller) else Err "expected value" in
  let ps' := fst (poll_tick (fun _ => EmptyString) decode write_works true sample_controller sample_poll_state
                    sample_reads) in
  exists t, runs_profile (fun _ => Ok sample_profile) (fun _ => Ok "{}") (fun _ => [255; 0]) sample_validated 1 t /\
    map_config (po_maps ps') 7 = Some t /\
    po_thresholds ps' = pmc_thresholds_from_compiled (profile_compile sample_validated).
Proof.
  intros decode ps'.
  assert (Hstart : controller_main (fun _ => Ok sample_profile) (fun _ => Ok "{}") (fun _ => [255; 0])
    (fun _ => Ok EmptyString) ["--profile"; "p.yaml"] 0 = Ok (SocketV4 [127; 0; 0; 1] 8080, started_controller))
    by (vm_compute; reflexivity).
  assert (Hanswer : carries_answer decode (fun _ => true) sample_controller None started_controller
    (fst (poll_response (fun _ => EmptyString) sample_controller None sample_reads))).
  { eexists. split; [vm_compute; reflexivity|]. split; [vm_compute; reflexivity|].
    intros config E. change (BodyConfig (in_config started_controller) = BodyConfig config) in E.
    injection E as <-. reflexivity. }
  assert (Hid : ctl_agent_id sample_controller <> EmptyString) by discriminate.
  assert (Hnode : ctl_node_name sample_controller <> EmptyString) by discriminate.
  destruct (first_poll_installs_profile (fun _ => Ok sample_profile) (fun _ => Ok "{}") (fun _ => [255; 0])
    (fun _ => Ok EmptyString) (fun _ => EmptyString) decode write_works (fun _ => true) ["--profile"; "p.yaml"] 0 _
    started_controller sample_controller sample_poll_state sample_reads Hstart Hid Hnode eq_refl Hanswer)
    as (a & yaml & p & v & t & _ & _ & Hp & Hv & Hrun & Hall & Hcar & _ & Hth & _).
  apply Ok_inj in Hp as <-.
  assert (Hs : profile_validate sample_profile BuiltinSet_v0 = Ok sample_validated) by (vm_compute; reflexivity).
  assert (v = sample_validated) as -> by exact (Ok_inj _ _ (eq_trans (eq_sym Hv) Hs)).
  exists t. split; [exact Hrun|]. split; [|exact Hth]. fold ps' in Hall, Hcar. rewrite Hcar in Hall.
  apply Forall_inv in Hall. unfold up_to_date in Hall.
  assert (Hw : last_write (po_maps ps') 7 = Some true) by (vm_compute; reflexivity).
  change (car_map_fd _) with 7 in Hall. rewrite Hw in Hall. exact Hall.
Defined.
